(* ===== verification/_CoqProject ===== *)
-Q . S2P
Prelude.v
Wire.v
WireText.v
Derive.v
DeriveEnum.v
BaseDataTypes.v
Crates.v
EscTypes.v
WireSpec.v
SiiTypes.v
MailboxTypes.v
Errors.v
PduTypes.v
Bus.v
Eeprom.v
SubEeprom.v
EepromSpec.v
SubEepromSpec.v
PduChain.v
Frame.v
CreatedFrame.v
TxRx.v
Samples.v
PduLoop.v
Exchange.v
CommandSpec.v
Timers.v
Lifecycle.v
Ports.v
Pdi.v
SubDevice.v
Coe.v
CoeExchange.v
CoeSpec.v
CoeObjects.v
Configuration.v
ConfigurationSpec.v
Dc.v
Topology.v
PduNet.v
MainDevice.v
Fieldbus.v
Group.v
SubDevicePdi.v
Network.v
GroupSpec.v
PdiLayout.v
GroupStates.v
ClockRegisters.v
NetworkSpec.v
Addressing.v
Tasks.v
TaskBus.v
Threads.v
Uring.v
Bpf.v
