(* ===== verification/Prelude.v ===== *)
(** * EtherCrab: a verification library

    EtherCrab is an EtherCAT MainDevice.  The calling tasks build Ethernet
    frames of PDUs in a storage of slots shared with one TX/RX task; the
    answers of the SubDevices come back through the same slots.  Everything
    else is built on that request/response exchange: the EEPROM (SII) of a
    SubDevice, its registers, its mailbox, the topology and clocks of the
    network, the process data.

    ** The files, and what they model

    Conventions
    - [Prelude]: results with the panic of Rust as a third outcome ([res]),
      state passing computations ([St]), fuelled loops ([iterate]), [w]-bit
      unsigned arithmetic that panics or wraps according to the build
      ([Profile], [uadd], [usub], [umul]), byte buffers, little endian numbers.
    - [Crates]: the third-party operations the sources call, as a class with the
      laws their documentation states, and functions that satisfy them.

    The wire format ([src/ethercrab-wire/], [src/ethercrab-wire-derive/])
    - [Wire]: the traits as records of operations ([WireRead], [WireWrite]), the
      builtin implementations ([impls.rs]), and the class [RoundTrip] that a
      type's two directions promise to each other.  [WireText]: strings, which are
      the encodings of sequences of Unicode scalar values.
    - [Derive]: [parse_struct.rs] and [generate_struct.rs], for any list of fields.
    - [DeriveEnum]: [parse_enum.rs] and [generate_enum.rs].
    - [EscTypes], [SiiTypes], [MailboxTypes], [PduTypes], [BaseDataTypes], [Errors]: the types of
      the program, derived through the two files above.
    - [WireSpec]: the theorems about layouts, and about SyncManagers and FMMUs.

    The PDU loop ([src/pdu_loop/], [src/command/], [src/ethernet.rs])
    - [PduChain]: the bytes of a chain of PDUs, the specification both the
      building and the reading of frames are proved against.
    - [Frame]: [PduStorage], its slots ([FrameElement]), their states and the
      compare-exchanges on them ([frame_element/mod.rs], [frame_box.rs], [storage.rs]).
    - [CreatedFrame]: allocation and [push_pdu] ([created_frame.rs]).
    - [TxRx]: [pdu_tx.rs], [pdu_rx.rs], [sendable_frame.rs], [receiving_frame.rs],
      [received_frame.rs].
    - [Lifecycle]: the interleaving of the tasks on one slot as a step relation.
    - [Exchange]: [MainDevice::single_pdu] with the TX/RX task and a network.
    - [Samples]: the storages and answers of the witnesses.
    - [PduLoop]: the theorems about these operations.

    Commands ([src/command/])
    - [Bus]: [WrappedRead] and [WrappedWrite] over an interface, the class [Bus].
    - [CommandSpec]: the PDU loop with a network is a [Bus], and what commands
      give their callers on it.

    Timeouts ([src/timer_factory.rs])
    - [Timers]: [TimeoutFuture] polled against a third-party timer, and the loops
      of the other files awaited under it.

    EEPROM ([src/eeprom/], [src/subdevice/eeprom.rs])
    - [Eeprom]: [EepromRange] over the class [Provider], and the two providers.
    - [SubEeprom]: categories, records, strings, fixed fields, station alias.
    - [EepromSpec]: the class [Image], what a provider promises, and the theorems
      about ranges; [SubEepromSpec]: the theorems about the contents.

    SubDevices and their topology ([src/subdevice/], [src/dc.rs])
    - [Ports]: [ports.rs].  [Pdi]: [pdi.rs].
    - [SubDevice]: what the MainDevice knows of a device, its discovery, registers
      and state transitions ([subdevice/mod.rs], [types.rs]).
    - [Dc]: the search for parents, propagation delays, clock registers ([dc.rs]).
    - [Topology]: the wiring behind a list of devices, and the theorems.

    The CoE mailbox ([src/subdevice/mod.rs], [src/coe/], [src/mailbox/])
    - [Coe]: [coe_mailboxes], [mailbox_write_read], uploads, downloads and the
      arrays of sub-indices.
    - [CoeExchange]: the class of buses that answer registers and mailboxes, and
      one exchange on them.  [CoeSpec]: [sdo_read] and [sdo_write] over exchanges.
    - [CoeObjects]: an object dictionary behind the mailbox, and what is read back
      from it.

    Configuration ([src/subdevice/configuration.rs])
    - [Configuration]: SyncManagers, FMMUs, mapping by EEPROM or CoE, the two
      [configure_fmmus] passes.
    - [ConfigurationSpec]: the mapping laid out for a SubDevice.  [PdiLayout]: the
      image laid out for the SubDevices of a group.

    The network ([src/maindevice.rs], [src/subdevice_group/])
    - [PduNet]: the PDU loop and a network as the state of a computation.
    - [MainDevice]: counting, resetting, addressing, [init], the sorting into groups.
    - [Group]: [SubDeviceGroup], its transitions, [tx_rx] and its variants, the
      clocks of a group.  [SubDevicePdi]: the guards on a SubDevice's part of the image.
    - [Network]: [init_single_group] followed by the transitions of a group.
    - [Fieldbus]: a network of devices that answers each PDU of a frame in turn.
    - [GroupSpec]: the cyclic exchanges.  [GroupStates]: the states of a group.
      [ClockRegisters]: what [configure_dc_sync] leaves in the SubDevices.
      [NetworkSpec]: the groups of a network.  [Addressing]: one request on a
      fieldbus, and the first steps of [init].

    The TX/RX tasks ([src/std/])
    - [Tasks]: what their loops share, and the future [TxRxFut] ([unix/mod.rs]).
      [TaskBus]: [TxRxFut] on a socket with SubDevices behind it is a [Fieldbus].
    - [Threads]: the machines of [windows.rs] and [xdp.rs].  [Uring]: that of
      [io_uring.rs].  [Bpf]: the packets of one read of a BPF device ([unix/bpf.rs]).

    ** How the state corresponds

    The frame storage is one value, [PduStorage]; a [FrameBox], which is a raw
    pointer that several owners hold, is the index of a slot, so aliasing is
    sharing of an index.  A [ReceivedPdu] is a slot and offsets into it: it reads
    what the slot holds when it is read.  The atomics of a slot are its fields, and
    one compare-exchange is one step.  A waker is the flag of having been set or
    woken, a timer is an argument that says whether it has expired.  [Err] keeps
    the state reached, as [?] does.  A panic of the code ([unwrap], index out of
    range, checked overflow) is [Panic]; what wraps in release builds wraps when
    [overflow_checks] is false, and the theorems hold for both unless they say so.

    ** What the theorems show

    - Wire: every layout the derive macro accepts is disjoint and in bounds, and
      its two generated directions are inverse ([WireSpec]).
    - PDU loop: allocation, pushing, sending and receiving do what the storage's
      well-formedness ([Frame.storage_wf]) and the chain say, the receive path is
      total on any input, retries end, a response reads back PDU by PDU
      ([PduLoop]); a request gets its answer and frees its slot ([Exchange],
      [CommandSpec]); one owner per slot in every orderly interleaving, and what
      happens in the others, with the reset of the storage a step of its own
      ([Lifecycle]).
    - EEPROM: every read is the memory's contents, categories, strings, records
      are found where they are, writes change what they should
      ([EepromSpec], [SubEepromSpec]).
    - Topology: on every network whose branches are chains the wiring is found,
      and on a line the propagation delays are the sums of the link delays
      ([Topology]).
    - CoE: a request and its response are matched by the counter and the index, what
      is written is read back ([CoeSpec], [CoeObjects]); the segments of an upload are
      put together in order, but those of a conforming SubDevice are refused.
    - Configuration: the mapping of a SubDevice is contiguous where its FMMUs are not
      in use yet, and one direction leaves the other alone; the parts of the
      SubDevices are disjoint, ordered and make the image up, writing one
      SubDevice's outputs leaves the others' alone ([ConfigurationSpec], [PdiLayout]).
    - Groups: with frames of 30 bytes and more, an image below 2^32 and working
      counters that add up to a [u16], a cycle sends every byte of the image once, in
      order, checks every SubDevice once, writes the inputs and nothing else and ends
      ([GroupSpec]); a
      wait ends when the SubDevices get there ([GroupStates]); the clocks of a group are
      started together ([ClockRegisters]); every SubDevice is in
      one group ([NetworkSpec]) and has an address of its own ([Addressing]).
    - Tasks: a poll sends what waits and takes a packet in, or ends at the first frame
      the socket does not take whole ([Tasks]), so that over a socket that takes them
      the theorems about groups hold over the task ([TaskBus]); the threads keep count of
      what is out, and of the buffers the kernel holds (they panic where the kernel
      fails them), whatever the other tasks do
      between their steps ([Threads], [Uring]); no captured packet is lost ([Bpf]).
    The theorems whose names do not end in a specification ([slot_can_leak],
    [first_pdu_result_dangles], [category_can_loop], ...) show inputs on which
    the code does not do what it means to.

    ** Fuel and bounds

    [Prelude.iterate] takes the number of turns.  [alloc_loop] gets twice the
    number of slots, the bound of the code; the loop of [Eeprom.read] one turn
    more than the bytes asked for, and [read_exact_at_spec] shows that this is
    enough on every provider that returns non-empty chunks; the search for a
    category 32768 turns, each of which moves on by two words at least
    ([category_spec]); [collect_items] two turns more than the capacity.  Loops
    under a timeout get [Bus.patience] turns, any number: the timeout strikes
    when they are used up ([Timers.timeout_refines] relates the number to the clock).  The loops of [tx_rx] get the bytes of the image plus the
    SubDevices plus two: each turn but the last sends a byte or checks a SubDevice,
    and the first may send the clock instead ([tx_rx_spec] and [tx_rx_dc_spec] show
    that this is enough); [is_state] gets the SubDevices plus one.  The loop over the
    frames to send gets the slots plus one ([Tasks.while_sendable_cases]); the threads of
    [Threads] and [Uring], which do not end by themselves, are step functions and have
    no fuel.

    ** Not modelled

    Opening sockets and system calls ([src/std/], [unix/linux.rs]), the texts of logs, errors and vendor
    names, [defmt] and [serde] support, and the tokens of the derive macros.  Floats
    are their bit patterns.  The lock around the image of a group: the
    computations of [Group] hold it from start to end, as one task does. *)
From stdpp Require Export base list numbers option decidable sets.
From Stdlib Require Export ZArith Lia ZifyNat ZifyBool.

#[export] Set Default Proof Using "Type".
#[global] Open Scope Z_scope.

#[global] Arguments Nat.div : simpl never.
#[global] Arguments Nat.modulo : simpl never.
#[global] Arguments Nat.ltb : simpl never.
#[global] Arguments Nat.leb : simpl never.
#[global] Arguments Z.pow : simpl never.
#[global] Arguments Z.mul : simpl never.
#[global] Arguments Z.of_nat : simpl never.

Ltac Zify.zify_post_hook ::= Z.div_mod_to_equations.

(** ** Results: [Result<A, E>] extended with the panic outcome of Rust *)

Inductive res (E A : Type) : Type :=
| Ok (a : A)
| Err (e : E)
| Panic.
Arguments Ok {E A} a.
Arguments Err {E A} e.
Arguments Panic {E A}.

Definition res_bind_def {E A B} (f : A -> res E B) (m : res E A) : res E B :=
  match m with Ok a => f a | Err e => Err e | Panic => Panic end.

#[export] Instance res_ret E : MRet (res E) := fun A a => Ok a.
#[export] Instance res_bind E : MBind (res E) := fun A B => @res_bind_def E A B.
#[export] Instance res_fmap E : FMap (res E) :=
  fun A B f m => match m with Ok a => Ok (f a) | Err e => Err e | Panic => Panic end.

(** [Option::ok_or]. *)
Definition ok_or {E A} (o : option A) (e : E) : res E A :=
  match o with Some a => Ok a | None => Err e end.

(** [Result::map_err], also what [?] does through [From]. *)
Definition map_err {E F A} (f : E -> F) (m : res E A) : res F A :=
  match m with Ok a => Ok a | Err e => Err (f e) | Panic => Panic end.

(** [Option::unwrap] and [Result::unwrap]. *)
Definition unwrap {E A} (o : option A) : res E A :=
  match o with Some a => Ok a | None => Panic end.

Definition is_ok {E A} (m : res E A) : bool :=
  match m with Ok _ => true | _ => false end.

(** Ends the run early: what [break]/[return Err] leave behind. *)
Definition res_to_option {E A} (m : res E A) : option A :=
  match m with Ok a => Some a | _ => None end.

(** *** State-passing computations

    Errors and panics keep the state reached so far, as [?] does in a method
    that has already changed [self]. *)
Definition St (S E A : Type) : Type := S -> res E A * S.

#[export] Instance St_ret S E : MRet (St S E) := fun A a s => (Ok a, s).
#[export] Instance St_bind S E : MBind (St S E) := fun A B f m s =>
  match m s with
  | (Ok a, s) => f a s
  | (Err e, s) => (Err e, s)
  | (Panic, s) => (Panic, s)
  end.

Definition lift {S E A} (m : res E A) : St S E A := fun s => (m, s).
Definition gets {S E A} (f : S -> A) : St S E A := fun s => (Ok (f s), s).
Definition modify {S E} (f : S -> S) : St S E unit := fun s => (Ok tt, f s).
Definition fail {S E A} (e : E) : St S E A := fun s => (Err e, s).

(** [.ok()]: an error is dropped, what it did to the state is not. *)
Definition attempt {S E F A} (m : St S E A) : St S F (option A) := fun s =>
  match m s with
  | (Ok a, s) => (Ok (Some a), s)
  | (Err _, s) => (Ok None, s)
  | (Panic, s) => (Panic, s)
  end.

(** The outcome of a computation as a value: what a future that is awaited
    together with others leaves. *)
Definition outcome {S E F A} (m : St S E A) : St S F (res E A) := fun s =>
  let '(r, s) := m s in (Ok r, s).

(** Convert the errors of a computation. *)
Definition st_map_err {S E F A} (f : E -> F) (m : St S E A) : St S F A := fun s =>
  let '(r, s) := m s in (map_err f r, s).

(** A [loop]: [step] is run until it breaks with a result; [None] when it has
    not after [fuel] turns. *)
Fixpoint iterate {S E A B} (fuel : nat) (step : A -> St S E (A + B)) (a : A)
    : St S E (option B) :=
  match fuel with
  | O => mret None
  | S fuel =>
      r ← step a;
      match r with
      | inl a => iterate fuel step a
      | inr b => mret (Some b)
      end
  end.

(** ** Machine integers *)

(** The value range of a [w]-bit unsigned integer. *)
Definition in_u (w z : Z) : Prop := 0 <= z < 2 ^ w.
Definition in_ub (w z : Z) : bool := (0 <=? z) && (z <? 2 ^ w).

(** The value range of a [w]-bit two's complement integer. *)
Definition in_i (w z : Z) : Prop := - 2 ^ (w - 1) <= z < 2 ^ (w - 1).

(** Reduction to [w] bits, as the [as uN] casts and the [wrapping_*] methods do. *)
Definition wrap (w z : Z) : Z := z mod 2 ^ w.

(** Reinterpretation of a [w]-bit pattern as a signed number. *)
Definition to_signed (w z : Z) : Z := if z <? 2 ^ (w - 1) then z else z - 2 ^ w.

(** [saturating_sub] on unsigned integers. *)
Definition sat_sub (a b : Z) : Z := Z.max 0 (a - b).
(** [saturating_add] on [w]-bit unsigned integers. *)
Definition sat_add (w a b : Z) : Z := Z.min (2 ^ w - 1) (a + b).

(** Whether the build checks arithmetic overflow: [true] for the [dev]
    profile, where an overflow panics, [false] for [release], where the
    operators wrap. *)
Class Profile := overflow_checks : bool.

Definition checked {P : Profile} {E} (w z : Z) : res E Z :=
  if in_ub w z then Ok z
  else if overflow_checks then Panic else Ok (wrap w z).

(** The operators [+], [-] and [*] on [w]-bit unsigned integers. *)
Definition uadd {P : Profile} {E} (w a b : Z) : res E Z := checked w (a + b).
Definition usub {P : Profile} {E} (w a b : Z) : res E Z := checked w (a - b).
Definition umul {P : Profile} {E} (w a b : Z) : res E Z := checked w (a * b).

(** The operators on [w]-bit signed integers. *)
Definition in_ib (w z : Z) : bool := (- 2 ^ (w - 1) <=? z) && (z <? 2 ^ (w - 1)).
Definition ichecked {P : Profile} {E} (w z : Z) : res E Z :=
  if in_ib w z then Ok z
  else if overflow_checks then Panic else Ok (to_signed w (wrap w z)).
Definition iadd {P : Profile} {E} (w a b : Z) : res E Z := ichecked w (a + b).
Definition ineg {P : Profile} {E} (w a : Z) : res E Z := ichecked w (- a).

(** ** Byte buffers *)

Abbreviation bytes := (list Z).

Definition byte_ok (b : Z) : Prop := 0 <= b < 256.
Definition bytes_ok (l : bytes) : Prop := Forall byte_ok l.

(** [slice.get(a..b)] *)
Definition get_range {A} (l : list A) (a b : nat) : option (list A) :=
  if (Nat.leb a b && Nat.leb b (length l))%bool then Some (take (b - a) (drop a l)) else None.

(** [slice.get(a..)] *)
Definition get_from {A} (l : list A) (a : nat) : option (list A) :=
  if Nat.leb a (length l) then Some (drop a l) else None.

(** The buffer after [buf[a..a + d.len()].copy_from_slice(d)], in range. *)
Definition splice {A} (l : list A) (a : nat) (d : list A) : list A :=
  take a l ++ d ++ drop (a + length d) l.

(** A zero filled buffer, [[0u8; n]]. *)
Definition zeros (n : nat) : bytes := replicate n 0.

(** [to_le_bytes] of the [n]-byte number [z]. *)
Fixpoint le_bytes (n : nat) (z : Z) : bytes :=
  match n with
  | O => []
  | S n => z mod 256 :: le_bytes n (z / 256)
  end.

(** [from_le_bytes]. *)
Fixpoint le_val (l : bytes) : Z :=
  match l with
  | [] => 0
  | b :: l => b + 256 * le_val l
  end.

(** [to_be_bytes] and [from_be_bytes]. *)
Definition be_bytes (n : nat) (z : Z) : bytes := rev (le_bytes n z).
Definition be_val (l : bytes) : Z := le_val (rev l).

(** ** Tactics *)

Create HintDb wire discriminated.
Create Rewrite HintDb wire_rw.

(** Unfold monadic plumbing and simplify. *)
Ltac msimpl :=
  unfold mbind, mret, fmap, res_bind, res_ret, res_fmap, res_bind_def, St_bind, St_ret,
    lift, gets, modify, fail in *; cbn beta iota in *.

(** Take the next [match] on a result apart in a hypothesis. *)
Ltac mdestruct H :=
  match type of H with
  | context [match ?x with Ok _ => _ | Err _ => _ | Panic => _ end] =>
      let E := fresh "E" in destruct x eqn:E; try discriminate H
  | context [match ?x with Some _ => _ | None => _ end] =>
      let E := fresh "E" in destruct x eqn:E; try discriminate H
  | context [if ?x then _ else _] =>
      let E := fresh "E" in destruct x eqn:E; try discriminate H
  end.

(** The values of a number with literal bounds, from [H : 0 <= n < k], one goal each. *)
Ltac each_below H :=
  lazymatch type of H with
  | 0 <= ?n < ?k =>
      let Hn := fresh "Hin" in
      assert (n ∈ seqZ 0 k) as Hn by (apply elem_of_seqZ; lia); vm_compute in Hn; clear H;
      repeat (apply elem_of_cons in Hn as [->|Hn]);
      [.. | by apply elem_of_nil in Hn]
  end.

(** Turn boolean comparisons of the context into propositions. *)
Ltac bool_prop :=
  repeat match goal with
  | H : (_ && _)%bool = true |- _ => apply andb_true_iff in H as [? ?]
  | H : (_ || _)%bool = false |- _ => apply orb_false_iff in H as [? ?]
  | H : (_ <=? _) = true |- _ => apply Z.leb_le in H
  | H : (_ <=? _) = false |- _ => apply Z.leb_gt in H
  | H : (_ <? _) = true |- _ => apply Z.ltb_lt in H
  | H : (_ <? _) = false |- _ => apply Z.ltb_ge in H
  | H : (_ =? _) = true |- _ => apply Z.eqb_eq in H
  | H : (_ =? _) = false |- _ => apply Z.eqb_neq in H
  | H : Nat.leb _ _ = true |- _ => apply Nat.leb_le in H
  | H : Nat.leb _ _ = false |- _ => apply Nat.leb_gt in H
  | H : Nat.ltb _ _ = true |- _ => apply Nat.ltb_lt in H
  | H : Nat.ltb _ _ = false |- _ => apply Nat.ltb_ge in H
  | H : Nat.eqb _ _ = true |- _ => apply Nat.eqb_eq in H
  | H : Nat.eqb _ _ = false |- _ => apply Nat.eqb_neq in H
  | H : negb _ = true |- _ => apply negb_true_iff in H
  | H : negb _ = false |- _ => apply negb_false_iff in H
  end.

(** ** Lemmas on results *)

Lemma bind_ok {E A B} (m : res E A) (f : A -> res E B) b :
  m ≫= f = Ok b <-> exists a, m = Ok a /\ f a = Ok b.
Proof. destruct m; msimpl; split; [eauto|naive_solver|naive_solver..]. Qed.

Lemma ok_inj {E A} (a b : A) : Ok (E:=E) a = Ok b -> a = b.
Proof. by intros [= ->]. Qed.

Lemma ok_or_ok {E A} (o : option A) (e : E) a : ok_or o e = Ok a <-> o = Some a.
Proof. destruct o; cbn; naive_solver. Qed.

Lemma map_err_ok {E F A} (f : E -> F) (m : res E A) a : map_err f m = Ok a <-> m = Ok a.
Proof. destruct m; cbn; naive_solver. Qed.

Lemma st_bind_ok {S E A B} (m : St S E A) (f : A -> St S E B) s b s' :
  (m ≫= f) s = (Ok b, s') <-> exists a s1, m s = (Ok a, s1) /\ f a s1 = (Ok b, s').
Proof.
  unfold mbind, St_bind. destruct (m s) as [[a|e|] s1]; naive_solver.
Qed.

(** One step of a computation. *)
Lemma st_step {S E A B} (m : St S E A) (f : A -> St S E B) s a s1 :
  m s = (Ok a, s1) -> (m ≫= f) s = f a s1.
Proof. intros H. unfold mbind, St_bind. by rewrite H. Qed.

Lemma st_step_err {S E A B} (m : St S E A) (f : A -> St S E B) s e s1 :
  m s = (Err e, s1) -> (m ≫= f) s = (Err e, s1).
Proof. intros H. unfold mbind, St_bind. by rewrite H. Qed.

Lemma st_step_panic {S E A B} (m : St S E A) (f : A -> St S E B) s s1 :
  m s = (Panic, s1) -> (m ≫= f) s = (Panic, s1).
Proof. intros H. unfold mbind, St_bind. by rewrite H. Qed.

Lemma st_bind_assoc {S E A B C} (m : St S E A) (f : A -> St S E B) (g : B -> St S E C) s :
  ((m ≫= f) ≫= g) s = (m ≫= (fun a => f a ≫= g)) s.
Proof. unfold mbind, St_bind. by destruct (m s) as [[a|e|] s1]. Qed.

(** One turn of a loop. *)
Lemma iterate_inl {S E A B} fuel (step : A -> St S E (A + B)) a s a' s' :
  step a s = (Ok (inl a'), s') -> iterate (Datatypes.S fuel) step a s = iterate fuel step a' s'.
Proof. intros H. cbn [iterate]. by rewrite (st_step _ _ _ _ _ H). Qed.

Lemma iterate_inr {S E A B} fuel (step : A -> St S E (A + B)) a s b s' :
  step a s = (Ok (inr b), s') -> iterate (Datatypes.S fuel) step a s = (Ok (Some b), s').
Proof. intros H. cbn [iterate]. by rewrite (st_step _ _ _ _ _ H). Qed.

Lemma iterate_err {S E A B} fuel (step : A -> St S E (A + B)) a s e s' :
  step a s = (Err e, s') -> iterate (Datatypes.S fuel) step a s = (Err e, s').
Proof. intros H. cbn [iterate]. by rewrite (st_step_err _ _ _ _ _ H). Qed.

(** A loop that makes no progress never ends. *)
Lemma iterate_stuck {S E A B} fuel (step : A -> St S E (A + B)) (I : A -> S -> Prop) a s :
  (forall a s, I a s -> exists a' s', step a s = (Ok (inl a'), s') /\ I a' s') ->
  I a s -> exists s', iterate fuel step a s = (Ok None, s').
Proof.
  intros Hstep. revert a s. induction fuel as [|fuel IH]; intros a s H; [by exists s|].
  destruct (Hstep _ _ H) as (a' & s' & Ha & H'). rewrite (iterate_inl _ _ _ _ _ _ Ha). by apply IH.
Qed.

(** ** Lemmas on integers *)

Lemma wrap_small w z : in_u w z -> wrap w z = z.
Proof. intros H. apply Z.mod_small, H. Qed.

Lemma wrap_in_u w z : 0 <= w -> in_u w (wrap w z).
Proof. intros H. apply Z.mod_pos_bound. lia. Qed.

Lemma in_ub_spec w z : in_ub w z = true <-> in_u w z.
Proof. unfold in_ub, in_u. rewrite andb_true_iff, Z.leb_le, Z.ltb_lt. done. Qed.

Lemma checked_ok {P : Profile} {E} w z : in_u w z -> checked (E:=E) w z = Ok z.
Proof. intros H. unfold checked. by rewrite (proj2 (in_ub_spec w z) H). Qed.

Lemma checked_in_u {P : Profile} {E} w z r : 0 <= w -> checked (E:=E) w z = Ok r -> in_u w r.
Proof.
  unfold checked. intros Hw. destruct (in_ub w z) eqn:Hz.
  - intros [= <-]. by apply in_ub_spec.
  - destruct overflow_checks; [done|]. intros [= <-]. by apply wrap_in_u.
Qed.

Lemma pow2_pos n : 0 <= n -> 0 < 2 ^ n.
Proof. intros. lia. Qed.

(** ** Lemmas on buffers *)

Lemma get_range_Some {A} (l : list A) a b r :
  get_range l a b = Some r <-> (a <= b <= length l)%nat /\ r = take (b - a) (drop a l).
Proof.
  unfold get_range. destruct (Nat.leb a b && Nat.leb b (length l))%bool eqn:H; bool_prop.
  - naive_solver lia.
  - apply andb_false_iff in H. split; [done|]. intros [? ->]. exfalso. destruct H; bool_prop; lia.
Qed.

Lemma get_range_length {A} (l : list A) a b r :
  get_range l a b = Some r -> length r = (b - a)%nat.
Proof. intros [? ->]%get_range_Some. rewrite length_take, length_drop. lia. Qed.

Lemma get_range_None {A} (l : list A) a b :
  get_range l a b = None <-> (b < a \/ length l < b)%nat.
Proof.
  unfold get_range. destruct (Nat.leb a b && Nat.leb b (length l))%bool eqn:H; bool_prop.
  - split; [done|lia].
  - apply andb_false_iff in H. split; [|done]. intros _. destruct H; bool_prop; lia.
Qed.

Lemma get_range_0 {A} (l : list A) n : (n <= length l)%nat -> get_range l 0 n = Some (take n l).
Proof. intros H. apply get_range_Some. rewrite drop_0, Nat.sub_0_r. split; [lia|done]. Qed.

Lemma get_from_Some {A} (l : list A) a r :
  get_from l a = Some r <-> (a <= length l)%nat /\ r = drop a l.
Proof. unfold get_from. destruct (Nat.leb a (length l)) eqn:H; bool_prop; naive_solver lia. Qed.

Lemma list_find_first {A} (P : A -> Prop) `{forall x, Decision (P x)} (l : list A) i x :
  l !! i = Some x -> P x -> (forall j y, (j < i)%nat -> l !! j = Some y -> ~ P y) ->
  list_find P l = Some (i, x).
Proof. intros Hx HP Hmin. apply list_find_Some. split_and!; [done..|]. intros j y Hy Hj. by apply (Hmin j). Qed.

Lemma length_splice {A} (l d : list A) a :
  (a + length d <= length l)%nat -> length (splice l a d) = length l.
Proof. intros H. unfold splice. rewrite !length_app, length_take, length_drop. lia. Qed.

Lemma splice_lookup_in {A} (l d : list A) a i :
  (a + length d <= length l)%nat -> (a <= i < a + length d)%nat ->
  splice l a d !! i = d !! (i - a)%nat.
Proof.
  intros H Hi. unfold splice. rewrite lookup_app_r; rewrite length_take; [|lia].
  rewrite lookup_app_l by lia. f_equal. lia.
Qed.

Lemma splice_lookup_out {A} (l d : list A) a i :
  (a + length d <= length l)%nat -> (i < a \/ a + length d <= i)%nat ->
  splice l a d !! i = l !! i.
Proof.
  intros H Hi. unfold splice. destruct (decide (i < a)%nat).
  - rewrite lookup_app_l by (rewrite length_take; lia). by rewrite lookup_take_lt.
  - rewrite lookup_app_r by (rewrite length_take; lia). rewrite length_take.
    rewrite lookup_app_r by lia. rewrite lookup_drop. f_equal. lia.
Qed.

Lemma splice_all {A} (l d : list A) : length d = length l -> splice l 0 d = d.
Proof. intros H. unfold splice. rewrite take_0, drop_ge by lia. by rewrite app_nil_r. Qed.

Lemma bytes_ok_app l k : bytes_ok (l ++ k) <-> bytes_ok l /\ bytes_ok k.
Proof. apply Forall_app. Qed.

Lemma bytes_ok_take n l : bytes_ok l -> bytes_ok (take n l).
Proof. apply Forall_take. Qed.

Lemma bytes_ok_drop n l : bytes_ok l -> bytes_ok (drop n l).
Proof. apply Forall_drop. Qed.

Lemma bytes_ok_splice l a d : bytes_ok l -> bytes_ok d -> bytes_ok (splice l a d).
Proof. intros. unfold splice. rewrite !bytes_ok_app. auto using bytes_ok_take, bytes_ok_drop. Qed.

Lemma bytes_ok_zeros n : bytes_ok (zeros n).
Proof. apply Forall_replicate. unfold byte_ok. lia. Qed.

Lemma length_zeros n : length (zeros n) = n.
Proof. apply length_replicate. Qed.

#[export] Hint Resolve bytes_ok_take bytes_ok_drop bytes_ok_splice bytes_ok_zeros : wire.
#[export] Hint Rewrite @length_take @length_drop @length_app @length_zeros : wire_rw.

(** ** Lemmas on little endian numbers *)

Lemma length_le_bytes n z : length (le_bytes n z) = n.
Proof. revert z. induction n; intros; cbn; auto. Qed.

Lemma le_bytes_ok n z : bytes_ok (le_bytes n z).
Proof.
  revert z. induction n; intros; cbn; constructor; [|apply IHn].
  unfold byte_ok. lia.
Qed.

Lemma le_val_bound l : bytes_ok l -> 0 <= le_val l < 2 ^ (8 * Z.of_nat (length l)).
Proof.
  induction 1 as [|b l Hb Hl IH]; cbn [le_val length]; [cbn; lia|].
  rewrite Nat2Z.inj_succ, Z.mul_succ_r, Z.pow_add_r by lia. unfold byte_ok in Hb.
  change (2 ^ 8) with 256. lia.
Qed.

Lemma le_val_le_bytes n z : le_val (le_bytes n z) = z mod 2 ^ (8 * Z.of_nat n).
Proof.
  revert z. induction n; intros z; cbn [le_bytes le_val].
  - by rewrite Z.mod_1_r.
  - rewrite IHn, Nat2Z.inj_succ, Z.mul_succ_r, Z.add_comm, Z.pow_add_r by lia.
    change (2 ^ 8) with 256. rewrite (Z.mul_comm _ 256), Z.rem_mul_r by lia. lia.
Qed.

Lemma le_val_le_bytes_small n z : 0 <= z < 2 ^ (8 * Z.of_nat n) -> le_val (le_bytes n z) = z.
Proof. intros. rewrite le_val_le_bytes. by apply Z.mod_small. Qed.

Lemma le_bytes_le_val l : bytes_ok l -> le_bytes (length l) (le_val l) = l.
Proof.
  induction 1 as [|b l Hb Hl IH]; cbn [le_val length le_bytes]; [done|].
  unfold byte_ok in Hb. f_equal; [lia|]. replace ((b + 256 * le_val l) / 256) with (le_val l) by lia. done.
Qed.

Lemma le_val_app l k : le_val (l ++ k) = le_val l + 2 ^ (8 * Z.of_nat (length l)) * le_val k.
Proof.
  induction l as [|b l IH].
  { cbn [app le_val length]. change (8 * Z.of_nat 0) with 0. rewrite Z.pow_0_r. ring. }
  cbn [app le_val length]. rewrite IH, Nat2Z.inj_succ, Z.mul_succ_r, Z.pow_add_r by lia.
  change (2 ^ 8) with 256. ring.
Qed.

Lemma le_val_zeros n : le_val (zeros n) = 0.
Proof. induction n; cbn [zeros replicate le_val]; [done|]. fold (zeros n). lia. Qed.

Lemma le_val_inj l k :
  bytes_ok l -> bytes_ok k -> length l = length k -> le_val l = le_val k -> l = k.
Proof.
  intros Hl Hk Hlen Hv. rewrite <- (le_bytes_le_val l Hl), <- (le_bytes_le_val k Hk).
  congruence.
Qed.

Lemma to_signed_wrap w z : 0 < w -> in_i w z -> to_signed w (wrap w z) = z.
Proof.
  intros Hw [Hl Hu]. unfold to_signed, wrap.
  assert (2 ^ w = 2 * 2 ^ (w - 1)) as Hp.
  { rewrite <- Z.pow_succ_r by lia. f_equal. lia. }
  destruct (decide (0 <= z)).
  - rewrite Z.mod_small by lia. destruct (Z.ltb_spec z (2 ^ (w - 1))); lia.
  - replace (z mod 2 ^ w) with (z + 2 ^ w).
    + destruct (Z.ltb_spec (z + 2 ^ w) (2 ^ (w - 1))); lia.
    + symmetry. rewrite <- (Z_mod_plus_full z 1 (2 ^ w)), Z.mul_1_l. apply Z.mod_small. lia.
Qed.

#[export] Hint Resolve le_bytes_ok : wire.
#[export] Hint Rewrite length_le_bytes le_val_zeros : wire_rw.

(** ** A buffer seen as one little endian number *)

Lemma pow2_split a b : (2 ^ Z.of_nat (a + b) = 2 ^ Z.of_nat a * 2 ^ Z.of_nat b)%Z.
Proof. rewrite Nat2Z.inj_add. apply Z.pow_add_r; lia. Qed.

Lemma pow2_nat_pos n : 0 < 2 ^ Z.of_nat n.
Proof. apply Z.pow_pos_nonneg; lia. Qed.

Lemma le_val_take_drop l i :
  le_val l = le_val (take i l) + 2 ^ (8 * Z.of_nat (length (take i l))) * le_val (drop i l).
Proof. rewrite <- (take_drop i l) at 1. apply le_val_app. Qed.

Lemma le_val_drop l i :
  bytes_ok l -> (i <= length l)%nat -> le_val (drop i l) = le_val l / 2 ^ (8 * Z.of_nat i).
Proof.
  intros Hl Hi. rewrite (le_val_take_drop l i), length_take, Nat.min_l by done.
  pose proof (le_val_bound (take i l) (bytes_ok_take i l Hl)) as Hb.
  rewrite length_take, Nat.min_l in Hb by done.
  rewrite Z.mul_comm, Z.div_add, Z.div_small by lia. lia.
Qed.

Lemma le_val_take l i :
  bytes_ok l -> (i <= length l)%nat -> le_val (take i l) = le_val l mod 2 ^ (8 * Z.of_nat i).
Proof.
  intros Hl Hi. rewrite (le_val_take_drop l i), length_take, Nat.min_l by done.
  pose proof (le_val_bound (take i l) (bytes_ok_take i l Hl)) as Hb.
  rewrite length_take, Nat.min_l in Hb by done.
  rewrite (Z.mul_comm (2 ^ _)), Z_mod_plus_full, Z.mod_small; done.
Qed.

Lemma le_val_lookup l i b :
  bytes_ok l -> l !! i = Some b -> b = (le_val l / 2 ^ (8 * Z.of_nat i)) mod 256.
Proof.
  intros Hl Hb. pose proof (lookup_lt_Some _ _ _ Hb).
  rewrite <- le_val_drop by (done || lia). rewrite (drop_S l b i Hb). cbn [le_val].
  pose proof (Forall_lookup_1 _ _ _ _ Hl Hb) as Hr. unfold byte_ok in Hr.
  rewrite Z.mul_comm, Z_mod_plus_full, Z.mod_small; done.
Qed.

Lemma le_val_insert l i b b' :
  l !! i = Some b ->
  le_val (<[i := b']> l) = le_val l + (b' - b) * 2 ^ (8 * Z.of_nat i).
Proof.
  revert i. induction l as [|c l IH]; intros [|i] H; [done..| |].
  - injection H as ->. change (<[0%nat:=b']> (b :: l)) with (b' :: l). cbn [le_val].
    change (8 * Z.of_nat 0) with 0. lia.
  - cbn [lookup list_lookup] in H. change (<[S i:=b']> (c :: l)) with (c :: <[i:=b']> l).
    cbn [le_val]. rewrite (IH i H), Nat2Z.inj_succ, Z.mul_succ_r, Z.pow_add_r by lia.
    change (2 ^ 8) with 256. ring.
Qed.

Lemma le_val_sub l i k :
  bytes_ok l -> (i + k <= length l)%nat ->
  le_val (take k (drop i l)) = (le_val l / 2 ^ (8 * Z.of_nat i)) mod 2 ^ (8 * Z.of_nat k).
Proof.
  intros Hl Hk. rewrite le_val_take; [|by apply bytes_ok_drop|rewrite length_drop; lia].
  by rewrite le_val_drop by (done || lia).
Qed.

(** A field of [w] bits at bit [o] of a byte. *)
Lemma land_mask_shiftr b w o :
  0 <= w -> 0 <= o ->
  Z.shiftr (Z.land b (Z.shiftl (2 ^ w - 1) o)) o = (b / 2 ^ o) mod 2 ^ w.
Proof.
  intros Hw Ho. rewrite Z.shiftr_land, Z.shiftr_shiftl_l, Z.sub_diag, Z.shiftl_0_r by lia.
  replace (2 ^ w - 1) with (Z.ones w) by (rewrite Z.ones_equiv; lia).
  by rewrite Z.land_ones, Z.shiftr_div_pow2 by lia.
Qed.

Lemma land_mask_shiftl x w o :
  0 <= w -> 0 <= o -> w + o <= 8 -> in_u w x ->
  Z.land (wrap 8 (Z.shiftl x o)) (Z.shiftl (2 ^ w - 1) o) = x * 2 ^ o.
Proof.
  intros Hw Ho Hwo [Hx0 Hx].
  assert (x * 2 ^ o < 2 ^ (w + o)) by (rewrite Z.pow_add_r by lia; nia).
  assert (2 ^ (w + o) <= 2 ^ 8) by (apply Z.pow_le_mono_r; lia).
  rewrite wrap_small by (rewrite Z.shiftl_mul_pow2 by lia; unfold in_u; nia).
  rewrite <- Z.shiftl_land, Z.shiftl_mul_pow2 by lia. f_equal.
  replace (2 ^ w - 1) with (Z.ones w) by (rewrite Z.ones_equiv; lia).
  rewrite Z.land_ones by lia. by apply Z.mod_small.
Qed.

(** OR of numbers with no bit in common is addition. *)
Lemma lor_add_disjoint a x o : 0 <= o -> 0 <= a < 2 ^ o -> Z.lor a (x * 2 ^ o) = a + x * 2 ^ o.
Proof.
  intros Ho Ha. symmetry. rewrite <- Z.shiftl_mul_pow2 by lia.
  apply Z.add_nocarry_lor. apply Z.bits_inj'. intros i Hi.
  rewrite Z.land_spec, Z.bits_0. destruct (decide (i < o)).
  - rewrite (Z.shiftl_spec_low x o i) by lia. apply andb_false_r.
  - destruct (decide (a = 0)) as [->|]; [by rewrite Z.testbit_0_l|].
    rewrite (Z.bits_above_log2 a i); [done|lia|].
    apply Z.log2_lt_pow2; [lia|]. apply Z.lt_le_trans with (2 ^ o); [lia|].
    apply Z.pow_le_mono_r; lia.
Qed.
