(* ===== verification/Wire.v ===== *)
(** * The [ethercrab-wire] crate: packing to and unpacking from byte buffers

    The traits [EtherCrabWireRead], [EtherCrabWireWrite] and
    [EtherCrabWireSized] are records of their operations; the built-in
    implementations (integers, [bool], [()], byte arrays, slices, arrays of
    sized types, tuples) are values of these records.  [RoundTrip] is the
    interface the rest of the development relies on. *)
From S2P Require Import Prelude.

(** ** Definitions *)

Inductive WireError :=
| ReadBufferTooShort
| WriteBufferTooShort
| InvalidValue
| ArrayLength
| InvalidUtf8.

#[export] Instance WireError_eq_dec : EqDecision WireError.
Proof. solve_decision. Defined.

(** [EtherCrabWireRead] with [EtherCrabWireSized]: [PACKED_LEN] and the length of
    the zeroed array that [buffer()] returns.  The two agree for every type but
    the arrays of wider items. *)
Record WireRead (T : Type) := mkWireRead {
  PACKED_LEN : nat;
  BUFFER_LEN : nat;
  unpack_from_slice : bytes -> res WireError T;
}.
Arguments mkWireRead {T}.
Arguments PACKED_LEN {T}.
Arguments BUFFER_LEN {T}.
Arguments unpack_from_slice {T}.

(** [EtherCrabWireWrite].  [pack_to_slice_unchecked v buf] is the content of
    the whole of [buf] afterwards; the slice the method returns is its prefix
    of [packed_len v] bytes. *)
Record WireWrite (T : Type) := mkWireWrite {
  packed_len : T -> nat;
  pack_to_slice_unchecked : T -> bytes -> res WireError bytes;
}.
Arguments mkWireWrite {T}.
Arguments packed_len {T}.
Arguments pack_to_slice_unchecked {T}.

(** The provided method [EtherCrabWireWrite::pack_to_slice]. *)
Definition pack_to_slice {T} (w : WireWrite T) (v : T) (buf : bytes) : res WireError bytes :=
  _ ← ok_or (get_range buf 0 (packed_len w v)) WriteBufferTooShort;
  pack_to_slice_unchecked w v buf.

(** [EtherCrabWireWriteSized::pack]: pack into a zeroed array. *)
Definition pack {T} (w : WireWrite T) (v : T) : res WireError bytes :=
  pack_to_slice_unchecked w v (zeros (packed_len w v)).

(** *** [impl_primitive_wire_field!] *)

(** [buf.first_chunk_mut::<N>()] then an assignment to the chunk, with the
    [unreachable!()] of the unchecked method when the buffer is short. *)
Definition prim_pack_unchecked (d : bytes) (buf : bytes) : res WireError bytes :=
  if Nat.leb (length d) (length buf) then Ok (splice buf 0 d) else Panic.

Definition prim_pack_to_slice (d : bytes) (buf : bytes) : res WireError bytes :=
  if Nat.leb (length d) (length buf) then Ok (splice buf 0 d) else Err WriteBufferTooShort.

Definition prim_write {T} (n : nat) (to_le_bytes : T -> bytes) : WireWrite T :=
  mkWireWrite (fun _ => n) (fun v buf => prim_pack_unchecked (to_le_bytes v) buf).

Definition prim_read {T} (n : nat) (from_le_bytes : bytes -> T) : WireRead T :=
  mkWireRead n n (fun buf =>
    from_le_bytes <$> ok_or (get_range buf 0 n) ReadBufferTooShort).

Definition u_write (n : nat) : WireWrite Z := prim_write n (le_bytes n).
Definition u_read (n : nat) : WireRead Z := prim_read n le_val.
Definition i_write (n : nat) : WireWrite Z := prim_write n (le_bytes n).
Definition i_read (n : nat) : WireRead Z :=
  prim_read n (fun l => to_signed (8 * Z.of_nat n) (le_val l)).

Definition u8_write := u_write 1.
Definition u8_read := u_read 1.
Definition u16_write := u_write 2.
Definition u16_read := u_read 2.
Definition u32_write := u_write 4.
Definition u32_read := u_read 4.
Definition u64_write := u_write 8.
Definition u64_read := u_read 8.
Definition i8_write := i_write 1.
Definition i8_read := i_read 1.
Definition i16_write := i_write 2.
Definition i16_read := i_read 2.
Definition i32_write := i_write 4.
Definition i32_read := i_read 4.
Definition i64_write := i_write 8.
Definition i64_read := i_read 8.

(** [f32] and [f64] are their bit patterns ([to_bits], [from_bits]). *)
Definition f32_write := u_write 4.
Definition f32_read := u_read 4.
Definition f64_write := u_write 8.
Definition f64_read := u_read 8.

(** *** [bool], [()], byte arrays and slices *)

Definition bool_byte (b : bool) : Z := if b then 0xff else 0x00.

(** [buf[0] = ..] panics on an empty buffer. *)
Definition bool_write : WireWrite bool :=
  mkWireWrite (fun _ => 1%nat) (fun v buf =>
    match buf with [] => Panic | _ :: t => Ok (bool_byte v :: t) end).

Definition bool_read : WireRead bool :=
  mkWireRead 1 1 (fun buf =>
    b ← ok_or (head buf) ReadBufferTooShort;
    mret (0 <? b)).

Definition unit_write : WireWrite unit := mkWireWrite (fun _ => 0%nat) (fun _ buf => Ok buf).
Definition unit_read : WireRead unit := mkWireRead 0 0 (fun _ => Ok tt).

(** [[u8; N]]. *)
Definition array_write (n : nat) : WireWrite bytes :=
  mkWireWrite (fun _ => n) (fun v buf => prim_pack_unchecked v buf).

(** [&[u8]]: [buf[0..self.len()]] panics when the buffer is short. *)
Definition slice_write : WireWrite bytes :=
  mkWireWrite (fun v => length v) (fun v buf =>
    if Nat.leb (length v) (length buf) then Ok (splice buf 0 v) else Panic).

(** [&T] packs what it refers to. *)
Definition ref_write {T} (w : WireWrite T) : WireWrite T :=
  mkWireWrite (fun v => packed_len w v) (fun v buf => pack_to_slice_unchecked w v buf).

(** *** Arrays of sized types *)

(** [chunks_exact(k)]: the complete chunks of [k] bytes, in order. *)
Fixpoint chunks_exact_fuel (fuel k : nat) (l : bytes) : list bytes :=
  match fuel with
  | O => []
  | S fuel =>
      if (Nat.ltb 0 k && Nat.leb k (length l))%bool
      then take k l :: chunks_exact_fuel fuel k (drop k l) else []
  end.
Definition chunks_exact (k : nat) (l : bytes) : list bytes := chunks_exact_fuel (length l) k l.

(** [.collect::<Result<_, _>>()]: stops at the first error. *)
Fixpoint collect {E A} (l : list (res E A)) : res E (list A) :=
  match l with
  | [] => Ok []
  | x :: l => a ← x; r ← collect l; mret (a :: r)
  end.

(** [heapless::Vec<T, N>]: as many items as fit, at most [N]. *)
Definition vec_read {T} (n : nat) (r : WireRead T) : WireRead (list T) :=
  mkWireRead n n (fun buf =>
    collect (unpack_from_slice r <$> take n (chunks_exact (PACKED_LEN r) buf))).

(** [buffer()] of [[T; N]] has one byte for each item, whatever the size of an item. *)
Definition array_buffer_len (n : nat) : nat := n.

(** [[T; N]]: the length is checked first, then the items are decoded. *)
Definition array_read {T} (n : nat) (r : WireRead T) : WireRead (list T) :=
  mkWireRead (n * PACKED_LEN r) (array_buffer_len n) (fun buf =>
    chunk ← ok_or (get_range buf 0 (PACKED_LEN r * n)) ReadBufferTooShort;
    items ← collect (unpack_from_slice r <$> take n (chunks_exact (PACKED_LEN r) chunk));
    if Nat.eqb (length items) n then Ok items else Err ArrayLength).

(** *** [impl_tuples!]: a tuple is a nest of pairs ending in [unit] *)

Definition tuple_nil_read : WireRead unit := unit_read.

Definition tuple_cons_read {A B} (ra : WireRead A) (rb : WireRead B) : WireRead (A * B) :=
  mkWireRead (PACKED_LEN ra + PACKED_LEN rb) (BUFFER_LEN ra + BUFFER_LEN rb) (fun buf =>
    a ← unpack_from_slice ra buf;
    buf ← (if Nat.ltb 0 (length buf) then unwrap (get_from buf (PACKED_LEN ra)) else Ok buf);
    b ← unpack_from_slice rb buf;
    mret (a, b)).

(** [split_at_mut] panics when the buffer is shorter than the element. *)
Definition tuple_cons_write {A B} (wa : WireWrite A) (wb : WireWrite B) : WireWrite (A * B) :=
  mkWireWrite (fun v => packed_len wa v.1 + packed_len wb v.2)%nat (fun v buf =>
    let n := packed_len wa v.1 in
    chunk ← unwrap (get_range buf 0 n);
    chunk ← pack_to_slice_unchecked wa v.1 chunk;
    rest ← pack_to_slice_unchecked wb v.2 (drop n buf);
    mret (chunk ++ rest)).

(** *** The interface of a type that survives a trip over the wire *)

(** [encoding v] are the bytes of [v]: packing replaces a prefix of the buffer
    by them whatever the buffer held, and unpacking any buffer that starts
    with them returns [v]. *)
Class RoundTrip {T} (w : WireWrite T) (r : WireRead T) (valid : T -> Prop) := {
  encoding : T -> bytes;
  encoding_length v : valid v -> length (encoding v) = PACKED_LEN r;
  encoding_ok v : valid v -> bytes_ok (encoding v);
  packed_len_eq v : valid v -> packed_len w v = PACKED_LEN r;
  pack_encoding v buf : valid v -> (PACKED_LEN r <= length buf)%nat ->
    pack_to_slice_unchecked w v buf = Ok (splice buf 0 (encoding v));
  unpack_encoding v t : valid v -> unpack_from_slice r (encoding v ++ t) = Ok v;
}.

(** A type converted to and from one that has an implementation. *)
Definition write_via {A B} (f : A -> B) (w : WireWrite B) : WireWrite A :=
  mkWireWrite (fun a => packed_len w (f a)) (fun a buf => pack_to_slice_unchecked w (f a) buf).

Definition read_via {A B} (g : B -> A) (r : WireRead B) : WireRead A :=
  mkWireRead (PACKED_LEN r) (BUFFER_LEN r) (fun buf => g <$> unpack_from_slice r buf).

(** ** Lemmas *)

Lemma fmap_ok {E A B} (f : A -> B) (m : res E A) b :
  f <$> m = Ok b <-> exists a, m = Ok a /\ b = f a.
Proof. destruct m; cbn; naive_solver. Qed.

#[export] Program Instance via_roundtrip {A B} (f : A -> B) (g : B -> A) w r
  (valid : B -> Prop) (validA : A -> Prop) (Hgf : forall a, validA a -> g (f a) = a)
  (Hval : forall a, validA a -> valid (f a)) (RT : RoundTrip w r valid) :
  RoundTrip (write_via f w) (read_via g r) validA := {| encoding a := encoding (f a) |}.
Next Obligation. intros A B f g w r V VA Hgf Hv RT a Ha. cbn. by apply (encoding_length (valid:=V)), Hv. Qed.
Next Obligation. intros A B f g w r V VA Hgf Hv RT a Ha. cbn. by apply (encoding_ok (valid:=V)), Hv. Qed.
Next Obligation. intros A B f g w r V VA Hgf Hv RT a Ha. cbn. by apply (packed_len_eq (valid:=V)), Hv. Qed.
Next Obligation.
  intros A B f g w r V VA Hgf Hv RT a buf Ha Hlen. by apply (pack_encoding (valid:=V)), Hlen; apply Hv.
Qed.
Next Obligation.
  intros A B f g w r V VA Hgf Hv RT a t Ha. cbn.
  rewrite (unpack_encoding (valid:=V)) by by apply Hv. cbn. by rewrite Hgf.
Qed.

Lemma prim_unpack_short {T} n (f : bytes -> T) buf :
  (length buf < n)%nat -> unpack_from_slice (prim_read n f) buf = Err ReadBufferTooShort.
Proof. intros H. cbn. by rewrite (proj2 (get_range_None buf 0 n)) by lia. Qed.

Lemma prim_unpack_app {T} n (f : bytes -> T) d t :
  length d = n -> unpack_from_slice (prim_read n f) (d ++ t) = Ok (f d).
Proof.
  intros <-. cbn. rewrite get_range_0 by (rewrite length_app; lia).
  by rewrite take_app_length.
Qed.

Lemma prim_pack_ok d buf :
  (length d <= length buf)%nat -> prim_pack_unchecked d buf = Ok (splice buf 0 d).
Proof. intros H. unfold prim_pack_unchecked. by apply Nat.leb_le in H as ->. Qed.

#[export] Program Instance u_roundtrip n :
  RoundTrip (u_write n) (u_read n) (in_u (8 * Z.of_nat n)) := {| encoding := le_bytes n |}.
Next Obligation. intros. apply length_le_bytes. Qed.
Next Obligation. intros. apply le_bytes_ok. Qed.
Next Obligation. intros. done. Qed.
Next Obligation. intros n v buf _ H. apply prim_pack_ok. by rewrite length_le_bytes. Qed.
Next Obligation.
  intros n v t H. unfold u_read. rewrite prim_unpack_app by apply length_le_bytes.
  by rewrite le_val_le_bytes_small.
Qed.

Lemma le_bytes_to_signed n z :
  (0 < n)%nat -> in_i (8 * Z.of_nat n) z ->
  to_signed (8 * Z.of_nat n) (le_val (le_bytes n z)) = z.
Proof. intros Hn H. rewrite le_val_le_bytes. apply (to_signed_wrap (8 * Z.of_nat n)); [lia|done]. Qed.

#[export] Program Instance i_roundtrip n :
  RoundTrip (i_write (S n)) (i_read (S n)) (in_i (8 * Z.of_nat (S n))) :=
  {| encoding := le_bytes (S n) |}.
Next Obligation. intros. apply length_le_bytes. Qed.
Next Obligation. intros. apply le_bytes_ok. Qed.
Next Obligation. intros. done. Qed.
Next Obligation. intros n v buf _ H. apply prim_pack_ok. by rewrite length_le_bytes. Qed.
Next Obligation.
  intros n v t H. unfold i_read. rewrite prim_unpack_app by apply length_le_bytes.
  by rewrite le_bytes_to_signed by (lia || done).
Qed.

#[export] Program Instance bool_roundtrip : RoundTrip bool_write bool_read (fun _ => True) :=
  {| encoding b := [bool_byte b] |}.
Next Obligation. done. Qed.
Next Obligation. intros [] _; repeat constructor; cbn; unfold byte_ok; lia. Qed.
Next Obligation. done. Qed.
Next Obligation. intros b [|x buf] _ H; cbn in *; [lia|done]. Qed.
Next Obligation. by intros []. Qed.

#[export] Program Instance unit_roundtrip : RoundTrip unit_write unit_read (fun _ => True) :=
  {| encoding _ := [] |}.
Next Obligation. done. Qed.
Next Obligation. intros. constructor. Qed.
Next Obligation. done. Qed.
Next Obligation. intros [] buf _ _. done. Qed.
Next Obligation. by intros []. Qed.

(** Arrays of bytes are read as arrays of [u8]. *)
Lemma chunks_exact_1 l fuel :
  (length l <= fuel)%nat -> chunks_exact_fuel fuel 1 l = (fun b => [b]) <$> l.
Proof.
  revert fuel. induction l as [|b l IH]; intros [|fuel] H; cbn in *; [done..|lia|].
  rewrite (proj2 (Nat.leb_le 1 _)) by lia. cbn. rewrite IH by lia. done.
Qed.

Lemma chunks_exact_concat k (ls : list bytes) fuel :
  (0 < k)%nat -> Forall (fun l => length l = k) ls -> (length (concat ls) <= fuel)%nat ->
  chunks_exact_fuel fuel k (concat ls) = ls.
Proof.
  intros Hk H. revert fuel. induction H as [|l ls Hl Hls IH]; intros fuel Hf.
  - destruct fuel as [|fuel]; cbn [chunks_exact_fuel concat length] in *; [done|].
    destruct k; [lia|]. done.
  - cbn [concat] in *. rewrite length_app in Hf. destruct fuel as [|fuel]; [lia|].
    cbn [chunks_exact_fuel]. rewrite length_app.
    rewrite (proj2 (Nat.ltb_lt 0 k)), (proj2 (Nat.leb_le k _)) by lia. cbn [andb].
    subst k. rewrite take_app_length, drop_app_length. rewrite IH by lia. done.
Qed.

Lemma collect_map_ok {E A B} (f : A -> res E B) (g : A -> B) l :
  (forall a, a ∈ l -> f a = Ok (g a)) -> collect (f <$> l) = Ok (g <$> l).
Proof.
  induction l as [|a l IH]; intros H; [done|]. rewrite !fmap_cons. cbn [collect].
  rewrite H by set_solver. msimpl. rewrite IH by set_solver. done.
Qed.

(** [[u8; N]] written as bytes and read as an array of [u8]. *)
#[export] Program Instance array_roundtrip n :
  RoundTrip (array_write n) (array_read n u8_read) (fun v => length v = n /\ bytes_ok v) :=
  {| encoding v := v |}.
Next Obligation. intros n v [H _]. cbn. lia. Qed.
Next Obligation. by intros n v [_ H]. Qed.
Next Obligation. intros n v _. cbn. lia. Qed.
Next Obligation. intros n v buf [H _] Hlen. cbn in *. apply prim_pack_ok. lia. Qed.
Next Obligation.
  intros n v t [H Hok]. cbn [array_read unpack_from_slice PACKED_LEN].
  change (PACKED_LEN u8_read) with 1%nat. rewrite Nat.mul_1_l.
  rewrite get_range_0 by (rewrite length_app; lia). cbn [ok_or]. msimpl.
  rewrite <- H at 2. rewrite take_app_length. unfold chunks_exact.
  rewrite chunks_exact_1, take_ge by (rewrite ?length_fmap; lia).
  rewrite <- list_fmap_compose. rewrite (collect_map_ok _ (fun b => b)).
  - rewrite list_fmap_id, H, Nat.eqb_refl. done.
  - intros b _. cbn. rewrite get_range_0 by (cbn; lia). cbn. f_equal. lia.
Qed.

(** Tuples of two or more elements, by nesting. *)
#[export] Program Instance tuple_roundtrip {A B} (wa : WireWrite A) (ra : WireRead A)
  (wb : WireWrite B) (rb : WireRead B) (va : A -> Prop) (vb : B -> Prop)
  `{!RoundTrip wa ra va} `{!RoundTrip wb rb vb} :
  RoundTrip (tuple_cons_write wa wb) (tuple_cons_read ra rb) (fun v => va v.1 /\ vb v.2) :=
  {| encoding v := encoding (w:=wa) v.1 ++ encoding (w:=wb) v.2 |}.
Next Obligation.
  intros A B wa ra wb rb va vb RA RB v [Ha Hb].
  rewrite length_app, (encoding_length (valid:=va)), (encoding_length (valid:=vb)) by done. done.
Qed.
Next Obligation.
  intros A B wa ra wb rb va vb RA RB v [Ha Hb]. apply bytes_ok_app.
  split; [by apply (encoding_ok (valid:=va))|by apply (encoding_ok (valid:=vb))].
Qed.
Next Obligation.
  intros A B wa ra wb rb va vb RA RB v [Ha Hb]. cbn.
  by rewrite (packed_len_eq (valid:=va)), (packed_len_eq (valid:=vb)).
Qed.
Next Obligation.
  intros A B wa ra wb rb va vb RA RB v buf [Ha Hb] Hlen. cbn in *.
  rewrite (packed_len_eq (valid:=va)) by done. rewrite get_range_0 by lia. cbn [unwrap]. msimpl.
  rewrite (pack_encoding (valid:=va)), (pack_encoding (valid:=vb));
    [|done|rewrite length_drop; lia|done|rewrite length_take; lia].
  f_equal. unfold splice. rewrite !take_0, !app_nil_l, length_app.
  rewrite (encoding_length (valid:=va)) by done.
  rewrite drop_ge by (rewrite length_take; lia). rewrite app_nil_r, drop_drop, <- app_assoc.
  repeat f_equal; lia.
Qed.
Next Obligation.
  intros A B wa ra wb rb va vb RA RB v t [Ha Hb]. cbn. rewrite <- app_assoc.
  rewrite (unpack_encoding (valid:=va)) by done. msimpl.
  destruct (Nat.ltb 0 _) eqn:Hlt; bool_prop.
  - unfold get_from. rewrite (proj2 (Nat.leb_le _ _)).
    2: { rewrite length_app, (encoding_length (valid:=va)) by done. lia. }
    cbn [unwrap]. rewrite <- (encoding_length (valid:=va) v.1 Ha), drop_app_length.
    rewrite (unpack_encoding (valid:=vb)) by done. by destruct v.
  - rewrite length_app in Hlt. destruct (encoding (w:=wa) v.1); cbn in *; [|lia].
    rewrite (unpack_encoding (valid:=vb)) by done. by destruct v.
Qed.

(** The same round trip for fewer values. *)
Definition roundtrip_weaken {T} (w : WireWrite T) (r : WireRead T) (valid valid' : T -> Prop)
  (Hv : forall v, valid' v -> valid v) (RT : RoundTrip w r valid) : RoundTrip w r valid' :=
  {| encoding := encoding (w:=w) (valid:=valid);
     encoding_length v H := encoding_length (valid:=valid) v (Hv v H);
     encoding_ok v H := encoding_ok (valid:=valid) v (Hv v H);
     packed_len_eq v H := packed_len_eq (valid:=valid) v (Hv v H);
     pack_encoding v buf H := pack_encoding (valid:=valid) v buf (Hv v H);
     unpack_encoding v t H := unpack_encoding (valid:=valid) v t (Hv v H) |}.

#[export] Instance u8_roundtrip : RoundTrip u8_write u8_read (in_u 8) := u_roundtrip 1.
#[export] Instance u16_roundtrip : RoundTrip u16_write u16_read (in_u 16) := u_roundtrip 2.
#[export] Instance u32_roundtrip : RoundTrip u32_write u32_read (in_u 32) := u_roundtrip 4.
#[export] Instance u64_roundtrip : RoundTrip u64_write u64_read (in_u 64) := u_roundtrip 8.
#[export] Instance i8_roundtrip : RoundTrip i8_write i8_read (in_i 8) := i_roundtrip 0.
#[export] Instance i16_roundtrip : RoundTrip i16_write i16_read (in_i 16) := i_roundtrip 1.
#[export] Instance i32_roundtrip : RoundTrip i32_write i32_read (in_i 32) := i_roundtrip 3.
#[export] Instance i64_roundtrip : RoundTrip i64_write i64_read (in_i 64) := i_roundtrip 7.

Lemma pack_ok {T} (w : WireWrite T) r valid `{!RoundTrip w r valid} v :
  valid v -> pack w v = Ok (encoding (w:=w) v).
Proof.
  intros Hv. unfold pack. rewrite (packed_len_eq v Hv), pack_encoding by (rewrite ?length_zeros; done || lia).
  f_equal. apply splice_all. by rewrite length_zeros, (encoding_length v Hv).
Qed.

Lemma unpack_u16 x t : in_u 16 x -> unpack_from_slice u16_read (le_bytes 2 x ++ t) = Ok x.
Proof. apply (unpack_encoding (RoundTrip:=u16_roundtrip)). Qed.
