(* ===== verification/WireText.v ===== *)
(** * Strings on the wire

    [heapless::String] and [String] ([ethercrab-wire/src/impls.rs]): the bytes of
    a buffer are a string when they are UTF-8.  [utf8_valid] is the check
    [core::str::from_utf8] makes; it accepts exactly the encodings of sequences
    of Unicode scalar values. *)
From S2P Require Import Prelude Wire.

(** ** Definitions *)

Definition between (lo hi b : Z) : bool := (lo <=? b) && (b <=? hi).

(** A continuation byte. *)
Definition continuation (b : Z) : bool := between 0x80 0xbf b.

(** What may follow the first byte of a character of three or four bytes. *)
Definition second_of_3 (b0 b1 : Z) : bool :=
  if Z.eqb b0 0xe0 then between 0xa0 0xbf b1
  else if Z.eqb b0 0xed then between 0x80 0x9f b1
  else continuation b1.

Definition second_of_4 (b0 b1 : Z) : bool :=
  if Z.eqb b0 0xf0 then between 0x90 0xbf b1
  else if Z.eqb b0 0xf4 then between 0x80 0x8f b1
  else continuation b1.

(** [core::str::from_utf8(buf).is_ok()] *)
Fixpoint utf8_valid (l : bytes) : bool :=
  match l with
  | [] => true
  | b0 :: l =>
      if between 0 0x7f b0 then utf8_valid l
      else if between 0xc2 0xdf b0 then
        match l with
        | b1 :: l => continuation b1 && utf8_valid l
        | _ => false
        end
      else if between 0xe0 0xef b0 then
        match l with
        | b1 :: b2 :: l => second_of_3 b0 b1 && continuation b2 && utf8_valid l
        | _ => false
        end
      else if between 0xf0 0xf4 b0 then
        match l with
        | b1 :: b2 :: b3 :: l =>
            second_of_4 b0 b1 && continuation b2 && continuation b3 && utf8_valid l
        | _ => false
        end
      else false
  end.

(** [heapless::String<N>]: as long as the buffer, at most [N] bytes. *)
Definition string_read (n : nat) : WireRead bytes :=
  mkWireRead n n (fun buf =>
    s ← (if utf8_valid buf then Ok buf else Err InvalidUtf8);
    if Nat.leb (length s) n then Ok s else Err ArrayLength).

(** [String], which has no size. *)
Definition std_string_unpack (buf : bytes) : res WireError bytes :=
  if utf8_valid buf then Ok buf else Err InvalidUtf8.

(** The reference: a character is a scalar value, encoded by its size. *)
Definition scalar (c : Z) : Prop := 0 <= c < 0xd800 \/ 0xe000 <= c <= 0x10ffff.

Definition utf8_char (c : Z) : bytes :=
  if c <? 0x80 then [c]
  else if c <? 0x800 then [0xc0 + c / 64; 0x80 + c mod 64]
  else if c <? 0x10000 then [0xe0 + c / 4096; 0x80 + c / 64 mod 64; 0x80 + c mod 64]
  else [0xf0 + c / 262144; 0x80 + c / 4096 mod 64; 0x80 + c / 64 mod 64; 0x80 + c mod 64].

Definition utf8_encode (cs : list Z) : bytes := flat_map utf8_char cs.

(** ** Lemmas *)

Lemma between_true lo hi b : between lo hi b = true <-> lo <= b <= hi.
Proof. unfold between. rewrite andb_true_iff, !Z.leb_le. done. Qed.

Lemma between_false lo hi b : between lo hi b = false <-> b < lo \/ hi < b.
Proof. unfold between. rewrite andb_false_iff, !Z.leb_gt. done. Qed.

(** Decide the range checks of the goal by arithmetic. *)
Ltac decide_ranges :=
  repeat match goal with
  | |- context [between ?lo ?hi ?b] =>
      first [ rewrite (proj2 (between_true lo hi b)) by lia
            | rewrite (proj2 (between_false lo hi b)) by lia ]
  | |- context [Z.eqb ?a ?b] =>
      first [ rewrite (proj2 (Z.eqb_eq a b)) by lia | rewrite (proj2 (Z.eqb_neq a b)) by lia ]
  end.

Lemma utf8_char_valid c l : scalar c -> utf8_valid (utf8_char c ++ l) = utf8_valid l.
Proof.
  intros Hc. unfold scalar in Hc. unfold utf8_char.
  destruct (c <? 0x80) eqn:H1; [|destruct (c <? 0x800) eqn:H2; [|destruct (c <? 0x10000) eqn:H3]];
    bool_prop; cbn [app utf8_valid].
  - by decide_ranges.
  - unfold continuation. by decide_ranges.
  - unfold second_of_3, continuation.
    destruct (decide (c < 0x1000)); [by decide_ranges|].
    destruct (decide (0xd000 <= c < 0xd800)); [by decide_ranges|]. by decide_ranges.
  - unfold second_of_4, continuation.
    destruct (decide (c < 0x40000)); [by decide_ranges|].
    destruct (decide (c < 0x100000)); by decide_ranges.
Qed.

(** The byte of a digit in base 64, and what precedes it. *)
Lemma base64_digit a d : 0 <= d < 64 -> (a * 64 + d) / 64 = a /\ (a * 64 + d) mod 64 = d.
Proof. lia. Qed.

Lemma utf8_char_2 a d : 2 <= a < 0x20 -> 0 <= d < 64 ->
  utf8_char (a * 64 + d) = [0xc0 + a; 0x80 + d].
Proof.
  intros Ha Hd. destruct (base64_digit a d Hd) as [Hq Hr]. unfold utf8_char.
  rewrite (proj2 (Z.ltb_ge _ _)), (proj2 (Z.ltb_lt _ _)), Hq, Hr by lia. done.
Qed.

Lemma utf8_char_3 a d e : 0x20 <= a * 64 + d < 0x400 -> 0 <= d < 64 -> 0 <= e < 64 ->
  utf8_char ((a * 64 + d) * 64 + e) = [0xe0 + a; 0x80 + d; 0x80 + e].
Proof.
  intros Ha Hd He. destruct (base64_digit a d Hd) as [Hq Hr].
  destruct (base64_digit (a * 64 + d) e He) as [Hq' Hr']. unfold utf8_char.
  rewrite 2!(proj2 (Z.ltb_ge _ _)), (proj2 (Z.ltb_lt _ _)) by lia.
  change 4096 with (64 * 64). rewrite <- Z.div_div, Hq', Hr', Hq, Hr by lia. done.
Qed.

Lemma utf8_char_4 a d e f : 0x10 <= a * 64 + d < 0x110 ->
  0 <= d < 64 -> 0 <= e < 64 -> 0 <= f < 64 ->
  utf8_char (((a * 64 + d) * 64 + e) * 64 + f) = [0xf0 + a; 0x80 + d; 0x80 + e; 0x80 + f].
Proof.
  intros Ha Hd He Hf. destruct (base64_digit a d Hd) as [Hq Hr].
  destruct (base64_digit (a * 64 + d) e He) as [Hq' Hr'].
  destruct (base64_digit ((a * 64 + d) * 64 + e) f Hf) as [Hq2 Hr2]. unfold utf8_char.
  rewrite 3!(proj2 (Z.ltb_ge _ _)) by lia.
  change 262144 with (64 * 4096). change 4096 with (64 * 64).
  rewrite <- !Z.div_div, Hq2, Hr2, Hq', Hr', Hq, Hr by lia. done.
Qed.

Ltac scalar_char c :=
  exists c; eexists; split; [unfold scalar; lia | split; [|eassumption]].

(** The character at the front of a valid string. *)
Lemma utf8_valid_cons b0 l : utf8_valid (b0 :: l) = true ->
  exists c r, scalar c /\ b0 :: l = utf8_char c ++ r /\ utf8_valid r = true.
Proof.
  cbn [utf8_valid]. unfold second_of_3, second_of_4, continuation.
  destruct (between 0 0x7f b0) eqn:H1; [|destruct (between 0xc2 0xdf b0) eqn:H2;
    [|destruct (between 0xe0 0xef b0) eqn:H3; [|destruct (between 0xf0 0xf4 b0) eqn:H4; [|done]]]];
    intros H; rewrite ?between_true, ?between_false in *.
  - scalar_char b0. unfold utf8_char. by rewrite (proj2 (Z.ltb_lt _ _)) by lia.
  - destruct l as [|b1 l]; [done|]. bool_prop. rewrite between_true in *.
    scalar_char ((b0 - 0xc0) * 64 + (b1 - 0x80)). rewrite utf8_char_2 by lia.
    cbn [app]. repeat f_equal; lia.
  - destruct l as [|b1 [|b2 l]]; [done..|]. bool_prop. rewrite !between_true in *.
    destruct (b0 =? 0xe0) eqn:He; [|destruct (b0 =? 0xed) eqn:Hd]; bool_prop; rewrite between_true in *;
      scalar_char (((b0 - 0xe0) * 64 + (b1 - 0x80)) * 64 + (b2 - 0x80)); rewrite utf8_char_3 by lia;
      cbn [app]; repeat f_equal; lia.
  - destruct l as [|b1 [|b2 [|b3 l]]]; [done..|]. bool_prop. rewrite !between_true in *.
    destruct (b0 =? 0xf0) eqn:He; [|destruct (b0 =? 0xf4) eqn:Hd]; bool_prop; rewrite between_true in *;
      scalar_char ((((b0 - 0xf0) * 64 + (b1 - 0x80)) * 64 + (b2 - 0x80)) * 64 + (b3 - 0x80));
      rewrite utf8_char_4 by lia; cbn [app]; repeat f_equal; lia.
Qed.

Lemma utf8_char_nonempty c : (0 < length (utf8_char c))%nat.
Proof. unfold utf8_char. repeat case_match; cbn; lia. Qed.

(** Exactly the encodings of scalar values are accepted. *)
Theorem utf8_valid_spec l :
  utf8_valid l = true <-> exists cs, Forall scalar cs /\ l = utf8_encode cs.
Proof.
  split.
  - induction l as [[|b l] IH] using (induction_ltof1 _ (@length Z)); intros H; [exists []; by split; [constructor|]|].
    destruct (utf8_valid_cons b l H) as (c & r & Hc & Hl & Hr).
    destruct (IH r) as (cs & Hcs & ->); [|done|].
    + unfold ltof. rewrite Hl, length_app. pose proof (utf8_char_nonempty c). lia.
    + exists (c :: cs). by split; [constructor|].
  - intros (cs & Hcs & ->). induction Hcs as [|c cs Hc _ IH]; [done|].
    cbn [utf8_encode flat_map]. by rewrite utf8_char_valid.
Qed.

(** A [heapless::String<N>] is read from the encoding of at most [N] bytes and from
    nothing else; which of the two errors depends on the bytes alone. *)
Theorem string_read_spec n buf :
  match unpack_from_slice (string_read n) buf with
  | Ok s => s = buf /\ (length buf <= n)%nat /\ exists cs, Forall scalar cs /\ buf = utf8_encode cs
  | Err ArrayLength => (n < length buf)%nat /\ exists cs, Forall scalar cs /\ buf = utf8_encode cs
  | Err e => e = InvalidUtf8 /\ ~ exists cs, Forall scalar cs /\ buf = utf8_encode cs
  | Panic => False
  end.
Proof.
  pose proof (utf8_valid_spec buf) as Hs. cbn [string_read unpack_from_slice].
  destruct (utf8_valid buf); msimpl; [|naive_solver].
  destruct (Nat.leb (length buf) n) eqn:Hl; bool_prop; naive_solver.
Qed.

Example text_of_scalars : unpack_from_slice (string_read 9) (utf8_encode [0x45; 0xe9; 0x20ac; 0x1f600]) =
  Err ArrayLength /\ unpack_from_slice (string_read 10) (utf8_encode [0x45; 0xe9; 0x20ac; 0x1f600]) =
  Ok [0x45; 0xc3; 0xa9; 0xe2; 0x82; 0xac; 0xf0; 0x9f; 0x98; 0x80].
Proof. vm_compute. done. Qed.

Example surrogates_are_refused : std_string_unpack [0xed; 0xa0; 0x80] = Err InvalidUtf8.
Proof. done. Qed.
