(* ===== verification/Derive.v ===== *)
(** * The [ethercrab-wire-derive] crate

    [parse_struct] computes the bit layout of a struct from its [#[wire(..)]]
    attributes and rejects bad ones; [struct_write] and [struct_read] are the
    implementations the macro generates from that layout, for any list of
    fields.  [DeriveEnum.v] does the same for enums.
    The tokenising of attributes by [syn] is not modelled: an attribute list is
    a record of the values [help.rs] extracts from it. *)
From S2P Require Import Prelude Wire.

(** ** Structs: definitions *)

Module Struct.

(** The first identifier of a field's type, as far as the macro looks at it. *)
Inductive FieldTy :=
| Ty_u8 | Ty_i8 | Ty_u16 | Ty_i16 | Ty_u32 | Ty_i32 | Ty_u64 | Ty_i64
| Ty_u128 | Ty_i128 | Ty_f32 | Ty_f64 | Ty_bool
| Ty_path   (* any other named type *)
| Ty_array. (* a type that is not a path *)

(** The [#[wire(..)]] attributes of a field. *)
Record FieldAttr := mkFieldAttr {
  fa_ty : FieldTy;
  fa_bits : option nat;
  fa_bytes : option nat;
  fa_skip : bool;
  fa_pre_skip : option nat;
  fa_pre_skip_bytes : option nat;
  fa_post_skip : option nat;
  fa_post_skip_bytes : option nat;
}.

Inductive SynError :=
| BitsAndBytes
| StructWidthRequired
| FieldWidthRequired (pos : nat)
| NotByteAligned (pos : nat)
| CrossesByteBoundary (pos : nat)
| TotalWidthMismatch (total expected : nat).

(** [StructMeta] and [FieldMeta], less the fields only code generation uses. *)
Record FieldMeta := mkFieldMeta {
  fm_ty : FieldTy;
  fm_bit_start : nat;
  fm_bit_end : nat;
  fm_byte_start : nat;
  fm_byte_end : nat;
  fm_bit_offset : nat;
  fm_skip : bool;
}.

Record StructMeta := mkStructMeta {
  sm_width_bits : nat;
  sm_fields : list FieldMeta;
}.

Definition fm_bits_len (m : FieldMeta) : nat := fm_bit_end m - fm_bit_start m.
Definition fm_bytes_len (m : FieldMeta) : nat := fm_byte_end m - fm_byte_start m.

Definition div_ceil (a b : nat) : nat := ((a + b - 1) / b)%nat.

Definition opt_or {A} (a b : option A) : option A :=
  match a with Some _ => a | None => b end.

Definition bit_width_attr (bits bytes : option nat) : res SynError (option nat) :=
  let bytes := (fun b => b * 8)%nat <$> bytes in
  match bits, bytes with
  | Some _, Some _ => Err BitsAndBytes
  | _, _ => Ok (opt_or bits bytes)
  end.

(** The width a primitive type has when no attribute gives one. *)
Definition default_width (t : FieldTy) : option nat :=
  (fun b => b * 8)%nat <$>
  match t with
  | Ty_u8 | Ty_i8 => Some 1%nat
  | Ty_u16 | Ty_i16 => Some 2%nat
  | Ty_u32 | Ty_i32 => Some 4%nat
  | Ty_u64 | Ty_i64 | Ty_f32 | Ty_f64 => Some 8%nat
  | Ty_u128 | Ty_i128 => Some 16%nat
  | Ty_bool | Ty_path | Ty_array => None
  end.

Definition skip_attr (skip : bool) (bits bytes : option nat) : option nat :=
  if skip then None else opt_or bits ((fun b => b * 8)%nat <$> bytes).

(** One turn of the loop over the fields: the layout of the field at bit
    [total_field_width], and the position after it. *)
Definition parse_field (total_field_width : nat) (f : FieldAttr)
    : res SynError (FieldMeta * nat) :=
  width ← bit_width_attr (fa_bits f) (fa_bytes f);
  let field_width := opt_or width (default_width (fa_ty f)) in
  let skip := fa_skip f in
  let pre_skip := skip_attr skip (fa_pre_skip f) (fa_pre_skip_bytes f) in
  let post_skip := skip_attr skip (fa_post_skip f) (fa_post_skip_bytes f) in
  let total := (total_field_width + default 0 pre_skip)%nat in
  let bit_start := total in
  let bit_end := default total ((fun w => total + w)%nat <$> field_width) in
  let byte_start := (bit_start / 8)%nat in
  let byte_end := div_ceil bit_end 8 in
  let bit_offset := (bit_start mod 8)%nat in
  let meta := mkFieldMeta (fa_ty f) bit_start bit_end byte_start byte_end bit_offset skip in
  total ← (if skip then Ok total else
    match field_width with
    | None => Err (FieldWidthRequired total)
    | Some field_width =>
        if (Nat.ltb 1 (fm_bytes_len meta) &&
            (Nat.ltb 0 bit_offset || Nat.ltb 0 (field_width mod 8)))%bool
        then Err (NotByteAligned total)
        else if (Nat.ltb (fm_bits_len meta) 8 && Nat.ltb 1 (fm_bytes_len meta))%bool
        then Err (CrossesByteBoundary total)
        else Ok (total + field_width)%nat
    end);
  mret (meta, (total + default 0 post_skip)%nat).

Fixpoint parse_fields (total : nat) (fs : list FieldAttr) : res SynError (list FieldMeta * nat) :=
  match fs with
  | [] => Ok ([], total)
  | f :: fs =>
      '(m, total) ← parse_field total f;
      '(ms, total) ← parse_fields total fs;
      mret (m :: ms, total)
  end.

Definition parse_struct (bits bytes : option nat) (fs : list FieldAttr) : res SynError StructMeta :=
  width ← bit_width_attr bits bytes;
  match width with
  | None => Err StructWidthRequired
  | Some width =>
      '(ms, total) ← parse_fields 0 fs;
      if Nat.eqb total width then Ok (mkStructMeta width ms)
      else Err (TotalWidthMismatch total width)
  end.

(** How the macro reads and writes a field: [u8] and [bool] have branches of
    their own, any other type goes through its trait implementations.  A type
    without [EtherCrabWireWrite] has no writer. *)
Inductive Codec : Type -> Type :=
| CU8 : Codec Z
| CBool : Codec bool
| COther {T} (ty : FieldTy) (w : option (WireWrite T)) (r : WireRead T) : Codec T.

Definition codec_ty {T} (c : Codec T) : FieldTy :=
  match c with CU8 => Ty_u8 | CBool => Ty_bool | COther ty _ _ => ty end.

(** A field: its attributes, its type and its [Default] value. *)
Record Field := mkField {
  f_attr : FieldAttr;
  f_T : Type;
  f_codec : Codec f_T;
  f_default : f_T;
}.

(** The value of a struct, as the tuple of its fields. *)
Fixpoint values (fs : list Field) : Type :=
  match fs with
  | [] => unit
  | f :: fs => f_T f * values fs
  end.

Definition mask (m : FieldMeta) : Z :=
  Z.shiftl (2 ^ Z.of_nat (fm_bits_len m) - 1) (Z.of_nat (fm_bit_offset m)).

(** [buf[i] |= x]. *)
Definition or_byte (buf : bytes) (i : nat) (x : Z) : res WireError bytes :=
  b ← unwrap (buf !! i);
  mret (<[i := Z.lor b x]> buf).

(** [(x << bit_start) & mask] on [u8]. *)
Definition shl_mask (m : FieldMeta) (x : Z) : Z :=
  Z.land (wrap 8 (Z.shiftl x (Z.of_nat (fm_bit_offset m)))) (mask m).

Definition write_field {T} (m : FieldMeta) (c : Codec T) : T -> bytes -> res WireError bytes :=
  if fm_skip m then fun _ buf => Ok buf else
  match c in Codec T return T -> bytes -> res WireError bytes with
  | CU8 => fun v buf => or_byte buf (fm_byte_start m) (shl_mask m v)
  | CBool => fun v buf => or_byte buf (fm_byte_start m) (shl_mask m (Z.b2z v))
  | COther _ None _ => fun _ _ => Panic
  | COther _ (Some w) _ => fun v buf =>
      if Nat.eqb (fm_bytes_len m) 1 then
        field_buf ← pack_to_slice_unchecked w v [0];
        x ← unwrap (head field_buf);
        or_byte buf (fm_byte_start m) (shl_mask m x)
      else
        sub ← unwrap (get_range buf (fm_byte_start m) (fm_byte_end m));
        sub ← pack_to_slice_unchecked w v sub;
        mret (splice buf (fm_byte_start m) sub)
  end.

(** [(buf.get(byte_start)? & mask) >> bit_start]. *)
Definition masked (m : FieldMeta) (buf : bytes) : res WireError Z :=
  b ← ok_or (buf !! fm_byte_start m) ReadBufferTooShort;
  mret (Z.shiftr (Z.land b (mask m)) (Z.of_nat (fm_bit_offset m))).

Definition read_wide {T} (m : FieldMeta) (r : WireRead T) (buf : bytes) : res WireError T :=
  sub ← ok_or (get_range buf (fm_byte_start m) (fm_byte_end m)) ReadBufferTooShort;
  unpack_from_slice r sub.

Definition read_field {T} (m : FieldMeta) (c : Codec T) (dflt : T) (buf : bytes)
    : res WireError T :=
  if fm_skip m then Ok dflt else
  if Nat.leb (fm_bits_len m) 8 then
    match c in Codec T return res WireError T with
    | CBool => x ← masked m buf; mret (0 <? x)
    | CU8 => masked m buf
    | COther _ _ r => x ← masked m buf; unpack_from_slice r [x]
    end
  else
    match c in Codec T return res WireError T with
    | CBool => read_wide m bool_read buf
    | CU8 => read_wide m u8_read buf
    | COther _ _ r => read_wide m r buf
    end.

Fixpoint write_fields (ms : list FieldMeta) (fs : list Field)
    : values fs -> bytes -> res WireError bytes :=
  match ms, fs return values fs -> bytes -> res WireError bytes with
  | m :: ms, f :: fs => fun vs buf =>
      buf ← write_field m (f_codec f) vs.1 buf;
      write_fields ms fs vs.2 buf
  | _, _ => fun _ buf => Ok buf
  end.

Fixpoint read_fields (ms : list FieldMeta) (fs : list Field) (buf : bytes)
    : res WireError (values fs) :=
  match fs return res WireError (values fs) with
  | [] => Ok tt
  | f :: fs =>
      match ms with
      | [] => Panic
      | m :: ms =>
          v ← read_field m (f_codec f) (f_default f) buf;
          vs ← read_fields ms fs buf;
          Ok (v, vs)
      end
  end.

(** The size of the packed struct in bytes. *)
Definition size_bytes (s : StructMeta) : nat := div_ceil (sm_width_bits s) 8.

(** [generate_struct_write] *)
Definition struct_write (s : StructMeta) (fs : list Field) : WireWrite (values fs) :=
  mkWireWrite (fun _ => size_bytes s) (fun vs buf =>
    _ ← unwrap (get_range buf 0 (size_bytes s));
    packed ← write_fields (sm_fields s) fs vs (zeros (size_bytes s));
    mret (splice buf 0 packed)).

(** [generate_struct_read] *)
Definition struct_read (s : StructMeta) (fs : list Field) : WireRead (values fs) :=
  mkWireRead (size_bytes s) (size_bytes s) (fun buf =>
    buf ← ok_or (get_range buf 0 (size_bytes s)) ReadBufferTooShort;
    read_fields (sm_fields s) fs buf).

(** *** Notations for attribute lists *)

Definition nz (n : nat) : option nat := match n with O => None | _ => Some n end.

(** [#[wire(bits = n, pre_skip = pre, post_skip = post)]], a zero skip being
    an absent attribute. *)
Definition bits_field {T} (c : Codec T) (d : T) (n pre post : nat) : Field :=
  mkField (mkFieldAttr (codec_ty c) (Some n) None false (nz pre) None (nz post) None) T c d.

(** [#[wire(bytes = n, pre_skip_bytes = pre, post_skip_bytes = post)]] *)
Definition bytes_field {T} (c : Codec T) (d : T) (n pre post : nat) : Field :=
  mkField (mkFieldAttr (codec_ty c) None (Some n) false None (nz pre) None (nz post)) T c d.

(** [#[wire(bytes = n, pre_skip = pre, post_skip = post)]], skips in bits. *)
Definition bytes_field_bit_skips {T} (c : Codec T) (d : T) (n pre post : nat) : Field :=
  mkField (mkFieldAttr (codec_ty c) None (Some n) false (nz pre) None (nz post) None) T c d.

(** [#[wire(skip)]] *)
Definition skip_field {T} (c : Codec T) (d : T) : Field :=
  mkField (mkFieldAttr (codec_ty c) None None true None None None None) T c d.

(** Primitive field types. *)
Definition c_u16 : Codec Z := COther Ty_u16 (Some u16_write) u16_read.
Definition c_u32 : Codec Z := COther Ty_u32 (Some u32_write) u32_read.
Definition c_u64 : Codec Z := COther Ty_u64 (Some u64_write) u64_read.
Definition c_i16 : Codec Z := COther Ty_i16 (Some i16_write) i16_read.
Definition c_array (n : nat) : Codec bytes :=
  COther Ty_array (Some (array_write n)) (array_read n u8_read).
(** A derived type that implements both traits, or only the reading one. *)
Definition c_rw {T} (w : WireWrite T) (r : WireRead T) : Codec T := COther Ty_path (Some w) r.
Definition c_ro {T} (r : WireRead T) : Codec T := COther Ty_path None r.

(** The layout of a struct whose attributes parse; an empty one otherwise. *)
Definition layout (bytes : nat) (fs : list Field) : StructMeta :=
  match parse_struct None (Some bytes) (f_attr <$> fs) with
  | Ok s => s
  | _ => mkStructMeta 0 []
  end.

(** *** When the fields of a struct survive a round trip *)

(** The number a value occupies its field's bits with, and whether the value
    fits: a narrow field must hold it in its bits, a wide one must be exactly
    as long as its type's encoding. *)
Inductive field_ok (m : FieldMeta) : forall {T}, Codec T -> T -> Z -> Prop :=
| field_ok_u8 v : (fm_bits_len m <= 8)%nat -> in_u (Z.of_nat (fm_bits_len m)) v ->
    field_ok m CU8 v v
| field_ok_bool v : (fm_bits_len m <= 8)%nat -> field_ok m CBool v (Z.b2z v)
| field_ok_narrow {T} ty (w : WireWrite T) r valid `{!RoundTrip w r valid} v x :
    (fm_bits_len m <= 8)%nat -> valid v -> PACKED_LEN r = 1%nat ->
    encoding (w:=w) v = [x] -> in_u (Z.of_nat (fm_bits_len m)) x ->
    field_ok m (COther ty (Some w) r) v x
| field_ok_wide {T} ty (w : WireWrite T) r valid `{!RoundTrip w r valid} v :
    (8 < fm_bits_len m)%nat -> valid v -> fm_bits_len m = (8 * PACKED_LEN r)%nat ->
    field_ok m (COther ty (Some w) r) v (le_val (encoding (w:=w) v)).

(** A skipped field must hold the default value; any other field has a
    non-empty width and a value that fits. *)
Inductive fields_ok : list FieldMeta -> forall fs, values fs -> list (nat * Z) -> Prop :=
| fields_ok_nil : fields_ok [] [] tt []
| fields_ok_skip m ms f fs vs ns :
    fm_skip m = true -> fields_ok ms fs vs ns ->
    fields_ok (m :: ms) (f :: fs) (f_default f, vs) ns
| fields_ok_cons m ms f fs v vs x ns :
    fm_skip m = false -> (0 < fm_bits_len m)%nat -> field_ok m (f_codec f) v x ->
    fields_ok ms fs vs ns ->
    fields_ok (m :: ms) (f :: fs) (v, vs) ((fm_bit_start m, x) :: ns).

(** The little endian number of the whole packed struct. *)
Fixpoint packed_num (ns : list (nat * Z)) : Z :=
  match ns with
  | [] => 0
  | (start, x) :: ns => x * 2 ^ Z.of_nat start + packed_num ns
  end.

(** What [parse_struct] guarantees of the layout of a field it accepts. *)
Record meta_wf (lo hi : nat) (m : FieldMeta) : Prop := {
  mw_start : (lo <= fm_bit_start m <= fm_bit_end m)%nat;
  mw_end : (fm_bit_end m <= hi)%nat;
  mw_byte_start : fm_byte_start m = (fm_bit_start m / 8)%nat;
  mw_offset : fm_bit_offset m = (fm_bit_start m mod 8)%nat;
  mw_narrow : (0 < fm_bits_len m <= 8)%nat -> fm_bytes_len m = 1%nat /\
    (fm_bit_offset m + fm_bits_len m <= 8)%nat;
  mw_wide : (8 < fm_bits_len m)%nat -> fm_bytes_len m <> 1%nat /\
    fm_bit_offset m = 0%nat /\ fm_bits_len m = (8 * fm_bytes_len m)%nat /\
    (fm_byte_start m <= fm_byte_end m)%nat /\ (8 * fm_byte_end m = fm_bit_end m)%nat;
}.

(** A layout: the fields lie one after the other from bit [lo] to bit [hi]. *)
Inductive layout_wf : nat -> list FieldMeta -> nat -> Prop :=
| layout_nil lo hi : (lo <= hi)%nat -> layout_wf lo [] hi
| layout_skip lo m ms hi : fm_skip m = true -> layout_wf lo ms hi -> layout_wf lo (m :: ms) hi
| layout_cons lo m ms mid hi :
    fm_skip m = false -> meta_wf lo mid m -> layout_wf mid ms hi -> layout_wf lo (m :: ms) hi.

(** ** Structs: lemmas *)

Lemma layout_wf_le lo ms hi : layout_wf lo ms hi -> (lo <= hi)%nat.
Proof. induction 1 as [| |lo m ms mid hi _ [[? ?] ? _ _ _ _] _ IH]; lia. Qed.

Lemma layout_wf_weaken lo lo' ms hi :
  (lo <= lo')%nat -> layout_wf lo' ms hi -> layout_wf lo ms hi.
Proof.
  intros Hle H. revert lo Hle.
  induction H as [|lo m ms hi Hs H IH|lo m ms mid hi Hs Hm H IH]; intros lo' Hle.
  - constructor. lia.
  - apply layout_skip; auto.
  - eapply layout_cons; [done| |done]. destruct Hm. constructor; (lia || done).
Qed.

Lemma parse_field_spec total f m total' :
  parse_field total f = Ok (m, total') ->
  (total <= total')%nat /\ (fm_skip m = false -> meta_wf total total' m).
Proof.
  unfold parse_field. intros H. apply bind_ok in H as (width & _ & H).
  cbv zeta in H. set (fw := opt_or width (default_width (fa_ty f))) in *.
  set (pre := default 0%nat _) in H. set (post := default 0%nat _) in H.
  clearbody pre post. apply bind_ok in H as (t & Ht & H). injection H as <- <-.
  cbn [fm_skip]. destruct (fa_skip f); [injection Ht as <-; split; [lia|done]|].
  destruct fw as [w|]; [|done]. cbn [default option_fmap option_map fmap] in *.
  unfold fm_bytes_len, fm_bits_len in Ht. cbn in Ht.
  destruct (_ && _)%bool eqn:H1 in Ht; [done|].
  destruct (_ && _)%bool eqn:H2 in Ht; [done|]. injection Ht as <-.
  split; [lia|intros _].
  constructor; unfold fm_bits_len, fm_bytes_len, div_ceil in *; cbn in *; try done; try lia.
  all: apply andb_false_iff in H1; rewrite orb_false_iff in H1; destruct H1 as [H1|[H0 H1]]; bool_prop.
  all: intros; repeat split; lia.
Qed.

Lemma parse_fields_wf total fs ms total' :
  parse_fields total fs = Ok (ms, total') -> layout_wf total ms total'.
Proof.
  revert total ms total'. induction fs as [|f fs IH]; intros total ms total' H; cbn in H.
  - injection H as <- <-. by constructor.
  - apply bind_ok in H as ([m t] & Hf & H). apply bind_ok in H as ([ms' t'] & Hfs & H).
    injection H as <- <-. apply parse_field_spec in Hf as [Hle Hf].
    apply IH in Hfs. destruct (fm_skip m) eqn:Hs.
    + apply layout_skip; [done|]. by eapply layout_wf_weaken.
    + eapply layout_cons; eauto.
Qed.

Lemma parse_struct_wf bits bytes fs s :
  parse_struct bits bytes fs = Ok s -> layout_wf 0 (sm_fields s) (sm_width_bits s).
Proof.
  unfold parse_struct. intros H. apply bind_ok in H as ([w|] & _ & H); [|done].
  apply bind_ok in H as ([ms t] & Hfs & H). destruct (Nat.eqb_spec t w) as [->|]; [|done].
  injection H as <-. by apply parse_fields_wf in Hfs.
Qed.

Lemma pow2_div8 n :
  2 ^ Z.of_nat n = 2 ^ (8 * Z.of_nat (n / 8)) * 2 ^ Z.of_nat (n mod 8).
Proof. rewrite <- Z.pow_add_r by lia. f_equal. lia. Qed.

(** The bits of [buf] the field [m] covers, as a number. *)
Definition field_num (m : FieldMeta) (n : Z) : Z :=
  (n / 2 ^ Z.of_nat (fm_bit_start m)) mod 2 ^ Z.of_nat (fm_bits_len m).

Lemma masked_spec lo hi m buf :
  meta_wf lo hi m -> (0 < fm_bits_len m <= 8)%nat -> bytes_ok buf -> (hi <= 8 * length buf)%nat ->
  masked m buf = Ok (field_num m (le_val buf)).
Proof.
  intros [Hs He Hbs Ho Hn _] Hw Hok Hlen. destruct (Hn Hw) as [H1 H8]. clear Hn.
  unfold fm_bits_len, fm_bytes_len in *. unfold masked, mask.
  destruct (buf !! fm_byte_start m) as [b|] eqn:Hb;
    [|apply lookup_ge_None in Hb; lia].
  cbn [ok_or]. msimpl. f_equal. unfold fm_bits_len.
  rewrite land_mask_shiftr by lia. rewrite (le_val_lookup _ _ _ Hok Hb), Hbs, Ho.
  unfold field_num, fm_bits_len. rewrite (pow2_div8 (fm_bit_start m)), <- Z.div_div by lia.
  set (q := le_val buf / 2 ^ (8 * Z.of_nat (fm_bit_start m / 8))).
  set (w := (fm_bit_end m - fm_bit_start m)%nat) in *.
  set (o := (fm_bit_start m mod 8)%nat) in *.
  change 256 with (2 ^ 8). replace (2 ^ 8) with (2 ^ Z.of_nat o * 2 ^ (8 - Z.of_nat o))
    by (rewrite <- Z.pow_add_r by lia; f_equal; lia).
  pose proof (pow2_nat_pos o). rewrite Z.rem_mul_r by lia.
  rewrite (Z.mul_comm (2 ^ Z.of_nat o)), Z.div_add by lia.
  rewrite (Z.div_small (_ mod _)), Z.add_0_l by (apply Z.mod_pos_bound; lia).
  replace (2 ^ (8 - Z.of_nat o)) with (2 ^ Z.of_nat w * 2 ^ (8 - Z.of_nat o - Z.of_nat w))
    by (rewrite <- Z.pow_add_r by lia; f_equal; lia).
  pose proof (pow2_nat_pos w). rewrite Z.rem_mul_r by lia.
  by rewrite (Z.mul_comm (2 ^ Z.of_nat w)), Z_mod_plus_full, Z.mod_mod by lia.
Qed.

Lemma read_wide_spec lo hi m {T} (r : WireRead T) buf :
  meta_wf lo hi m -> (8 < fm_bits_len m)%nat -> (hi <= 8 * length buf)%nat -> bytes_ok buf ->
  exists sub, read_wide m r buf = unpack_from_slice r sub /\
    length sub = fm_bytes_len m /\ bytes_ok sub /\ le_val sub = field_num m (le_val buf).
Proof.
  intros [Hs He Hbs Ho _ Hw] Hw8 Hlen Hok. destruct (Hw Hw8) as (_ & Hz & Hbl & Hle & Hbe).
  exists (take (fm_bytes_len m) (drop (fm_byte_start m) buf)).
  unfold read_wide. unfold get_range.
  rewrite (proj2 (Nat.leb_le _ _)), (proj2 (Nat.leb_le _ _)) by lia. cbn [andb ok_or]. msimpl.
  unfold fm_bits_len, fm_bytes_len in *. split_and!; [done| | |].
  - rewrite length_take, length_drop. lia.
  - auto with wire.
  - rewrite le_val_sub by (done || lia). unfold field_num, fm_bits_len.
    rewrite Hbl. f_equal; f_equal; f_equal; lia.
Qed.

Lemma field_num_bound m n : in_u (Z.of_nat (fm_bits_len m)) (field_num m n).
Proof. apply Z.mod_pos_bound. apply pow2_nat_pos. Qed.

(** Reading a field returns the value whose number is in its bits. *)
Lemma read_field_spec lo hi m {T} (c : Codec T) d v x buf :
  fm_skip m = false -> (0 < fm_bits_len m)%nat -> meta_wf lo hi m -> field_ok m c v x ->
  bytes_ok buf -> (hi <= 8 * length buf)%nat -> field_num m (le_val buf) = x ->
  read_field m c d buf = Ok v.
Proof.
  intros Hs Hw Hwf Hok Hb Hlen Hx. unfold read_field. rewrite Hs.
  destruct Hok as [v H8 Hv|v H8|T ty w r valid RT v x H8 Hv Hl Henc Hin|T ty w r valid RT v H8 Hv Hl].
  - rewrite (proj2 (Nat.leb_le _ _) H8). by rewrite (masked_spec lo hi), Hx.
  - rewrite (proj2 (Nat.leb_le _ _) H8). rewrite (masked_spec lo hi), Hx by done. by destruct v.
  - rewrite (proj2 (Nat.leb_le _ _) H8). rewrite (masked_spec lo hi), Hx by done. msimpl.
    rewrite <- Henc, <- (app_nil_r (encoding v)). by apply unpack_encoding.
  - rewrite (proj2 (Nat.leb_gt _ _) H8).
    destruct (read_wide_spec lo hi m r buf) as (sub & -> & Hsl & Hsok & Hsv); [done..|].
    assert (sub = encoding v) as ->.
    { apply le_val_inj; [done|by apply encoding_ok| |congruence].
      rewrite encoding_length by done. destruct (mw_wide _ _ _ Hwf H8) as (_ & _ & Hbl & _). lia. }
    rewrite <- (app_nil_r (encoding v)). by apply unpack_encoding.
Qed.

Lemma field_ok_bound lo hi m {T} (c : Codec T) v x :
  (0 < fm_bits_len m)%nat -> meta_wf lo hi m -> field_ok m c v x -> in_u (Z.of_nat (fm_bits_len m)) x.
Proof.
  intros H0 Hwf [v' H8 Hv|v' H8|T' ty w r valid RT v' x' H8 Hv Hl Henc Hin|T' ty w r valid RT v' H8 Hv Hl];
    [done| |done|].
  - assert (2 ^ 1 <= 2 ^ Z.of_nat (fm_bits_len m)) by (apply Z.pow_le_mono_r; lia).
    destruct v'; unfold in_u; cbn [Z.b2z]; lia.
  - rewrite Hl, Nat2Z.inj_mul. rewrite <- (encoding_length (w:=w) (valid:=valid) v' Hv).
    apply le_val_bound. by apply (encoding_ok (valid:=valid)).
Qed.

(** Writing a field into a buffer that is still zero from the field's first bit
    on adds the field's number at that bit. *)
Definition wrote (buf buf' : bytes) (m : FieldMeta) (x : Z) : Prop :=
  length buf' = length buf /\ bytes_ok buf' /\
  le_val buf' = le_val buf + x * 2 ^ Z.of_nat (fm_bit_start m).

Lemma or_byte_spec lo hi m x buf :
  meta_wf lo hi m -> (0 < fm_bits_len m <= 8)%nat -> in_u (Z.of_nat (fm_bits_len m)) x ->
  bytes_ok buf -> (hi <= 8 * length buf)%nat -> le_val buf < 2 ^ Z.of_nat (fm_bit_start m) ->
  exists buf', or_byte buf (fm_byte_start m) (shl_mask m x) = Ok buf' /\ wrote buf buf' m x.
Proof.
  intros [Hs He Hbs Ho Hn _] Hw Hx Hok Hlen Hlt. destruct (Hn Hw) as [H1 H8]. clear Hn.
  unfold fm_bytes_len in H1. unfold or_byte.
  assert (fm_bit_start m < fm_bit_end m)%nat by (unfold fm_bits_len in Hw; lia).
  destruct (buf !! fm_byte_start m) as [b|] eqn:Hb; [|apply lookup_ge_None in Hb; lia].
  pose proof (le_val_bound buf Hok) as Hnn.
  pose proof (le_val_lookup _ _ _ Hok Hb) as Hbv.
  rewrite (pow2_div8 (fm_bit_start m)), <- Hbs, <- Ho in Hlt.
  set (i := fm_byte_start m) in *. set (o := fm_bit_offset m) in *.
  pose proof (pow2_nat_pos o). assert (0 < 2 ^ (8 * Z.of_nat i)) by (apply Z.pow_pos_nonneg; lia).
  assert (2 ^ Z.of_nat o <= 2 ^ 8) by (apply Z.pow_le_mono_r; lia).
  assert (0 <= le_val buf / 2 ^ (8 * Z.of_nat i) < 2 ^ Z.of_nat o) as Hq.
  { split; [apply Z.div_pos; lia|]. apply Z.div_lt_upper_bound; lia. }
  assert (0 <= b < 2 ^ Z.of_nat o) as Hbo by (rewrite Hbv, Z.mod_small; lia).
  assert (shl_mask m x = x * 2 ^ Z.of_nat o) as Hsm.
  { unfold shl_mask, mask. apply land_mask_shiftl; fold o; lia || done. }
  exists (<[i := Z.lor b (shl_mask m x)]> buf). cbn [unwrap]. msimpl. split; [done|].
  rewrite Hsm, lor_add_disjoint by (done || lia).
  assert (x * 2 ^ Z.of_nat o + 2 ^ Z.of_nat o <= 2 ^ 8) as Hfit.
  { transitivity (2 ^ (Z.of_nat (fm_bits_len m) + Z.of_nat o)).
    - rewrite Z.pow_add_r by lia. unfold in_u in Hx. nia.
    - apply Z.pow_le_mono_r; lia. }
  unfold in_u in Hx. split_and!.
  - by rewrite length_insert.
  - apply Forall_insert; [done|]. unfold byte_ok. change (2 ^ 8) with 256 in Hfit. nia.
  - rewrite (le_val_insert _ _ _ _ Hb), (pow2_div8 (fm_bit_start m)), <- Hbs, <- Ho.
    fold i o. ring.
Qed.

Lemma splice_field_spec lo hi m d buf :
  meta_wf lo hi m -> (8 < fm_bits_len m)%nat -> length d = fm_bytes_len m -> bytes_ok d ->
  bytes_ok buf -> (hi <= 8 * length buf)%nat -> le_val buf < 2 ^ Z.of_nat (fm_bit_start m) ->
  wrote buf (splice buf (fm_byte_start m) d) m (le_val d).
Proof.
  intros [Hs He Hbs Ho _ Hw] Hw8 Hd Hdok Hok Hlen Hlt.
  destruct (Hw Hw8) as (_ & Hz & Hbl & Hle & Hbe). unfold fm_bits_len, fm_bytes_len in *.
  set (i := fm_byte_start m) in *.
  assert (Z.of_nat (fm_bit_start m) = 8 * Z.of_nat i) as Hst by lia. rewrite Hst in *.
  pose proof (le_val_bound buf Hok). assert (0 < 2 ^ (8 * Z.of_nat i)) by (apply Z.pow_pos_nonneg; lia).
  split_and!.
  - apply length_splice. lia.
  - auto with wire.
  - unfold splice. rewrite !le_val_app, length_take, Nat.min_l, le_val_take by (done || lia).
    rewrite le_val_drop by (done || lia). rewrite (Z.mod_small (le_val buf)) by lia.
    rewrite (Z.div_small (le_val buf)); [rewrite Hst; ring|]. split; [lia|].
    apply Z.lt_le_trans with (2 ^ (8 * Z.of_nat i)); [lia|]. apply Z.pow_le_mono_r; lia.
Qed.

Lemma write_field_spec lo hi m {T} (c : Codec T) v x buf :
  fm_skip m = false -> (0 < fm_bits_len m)%nat -> meta_wf lo hi m -> field_ok m c v x ->
  bytes_ok buf -> (hi <= 8 * length buf)%nat -> le_val buf < 2 ^ Z.of_nat (fm_bit_start m) ->
  exists buf', write_field m c v buf = Ok buf' /\ wrote buf buf' m x.
Proof.
  intros Hs H0 Hwf Hfok Hb Hlen Hlt. unfold write_field. rewrite Hs.
  pose proof (field_ok_bound _ _ _ _ _ _ H0 Hwf Hfok) as Hx.
  destruct Hfok as [v H8 Hv|v H8|T ty w r valid RT v x H8 Hv Hl Henc Hin|T ty w r valid RT v H8 Hv Hl].
  - by apply (or_byte_spec lo hi).
  - by apply (or_byte_spec lo hi).
  - destruct (mw_narrow _ _ _ Hwf) as [-> _]; [lia|]. cbn [Nat.eqb].
    rewrite (pack_encoding (valid:=valid)) by (done || cbn; lia). msimpl.
    rewrite Henc. cbn [splice take app head unwrap]. by apply (or_byte_spec lo hi).
  - destruct (mw_wide _ _ _ Hwf H8) as (Hne & _ & Hbl & Hle & Hbe).
    apply Nat.eqb_neq in Hne as ->.
    assert (PACKED_LEN r = fm_bytes_len m) as Hpl by lia.
    pose proof (mw_end _ _ _ Hwf). unfold fm_bytes_len in Hpl.
    unfold get_range. rewrite (proj2 (Nat.leb_le _ _)), (proj2 (Nat.leb_le _ _)) by lia.
    cbn [andb unwrap]. msimpl.
    assert (length (encoding v) = PACKED_LEN r) as Hel by by apply (encoding_length (valid:=valid)).
    rewrite (pack_encoding (valid:=valid)); [|done|rewrite length_take, length_drop; lia].
    rewrite splice_all by (rewrite Hel, length_take, length_drop; lia).
    eexists; split; [done|]. apply (splice_field_spec lo hi); try done.
    + unfold fm_bytes_len. lia.
    + by apply (encoding_ok (valid:=valid)).
Qed.

Lemma write_fields_spec lo ms hi fs vs ns buf :
  layout_wf lo ms hi -> fields_ok ms fs vs ns ->
  bytes_ok buf -> (hi <= 8 * length buf)%nat -> le_val buf < 2 ^ Z.of_nat lo ->
  exists buf', write_fields ms fs vs buf = Ok buf' /\ length buf' = length buf /\
    bytes_ok buf' /\ le_val buf' = le_val buf + packed_num ns.
Proof.
  intros Hl Hf. revert lo buf Hl.
  induction Hf as [|m ms f fs vs ns Hs Hf IH|m ms f fs v vs x ns Hs H0 Hok Hf IH];
    intros lo buf Hl Hb Hlen Hlt.
  - exists buf. cbn. split_and!; [done..|lia].
  - inversion Hl; [|congruence]. subst. cbn [write_fields fst snd].
    unfold write_field. rewrite Hs. msimpl. eauto.
  - inversion Hl as [|? ? ? ? Hs' ?|? ? ? mid ? _ Hwf Hrest]; [congruence|]. subst.
    pose proof (layout_wf_le _ _ _ Hrest).
    assert (2 ^ Z.of_nat lo <= 2 ^ Z.of_nat (fm_bit_start m)).
    { apply Z.pow_le_mono_r; [lia|]. destruct Hwf. lia. }
    destruct (write_field_spec lo mid m (f_codec f) v x buf) as (buf' & Hw & Hbl & Hbo & Hv);
      [done..|lia|lia|].
    pose proof (field_ok_bound _ _ _ _ _ _ H0 Hwf Hok) as Hx. unfold in_u in Hx.
    assert (le_val buf' < 2 ^ Z.of_nat mid) as Hlt'.
    { apply Z.lt_le_trans with (2 ^ Z.of_nat (fm_bit_start m + fm_bits_len m)).
      - rewrite Hv, pow2_split. pose proof (pow2_nat_pos (fm_bit_start m)). nia.
      - apply Z.pow_le_mono_r; [lia|]. destruct Hwf. unfold fm_bits_len in *. lia. }
    destruct (IH mid buf' Hrest Hbo) as (buf'' & Hw' & Hl'' & Hb'' & Hv''); [lia|done|].
    exists buf''. cbn [write_fields fst snd]. rewrite Hw. msimpl. rewrite Hw'.
    cbn [packed_num]. split_and!; [done|congruence|done|lia].
Qed.

Lemma packed_num_multiple lo ms hi fs vs ns :
  layout_wf lo ms hi -> fields_ok ms fs vs ns -> exists k, packed_num ns = k * 2 ^ Z.of_nat lo.
Proof.
  intros Hl Hf. revert lo Hl.
  induction Hf as [|m ms f fs vs ns Hs Hf IH|m ms f fs v vs x ns Hs H0 Hok Hf IH]; intros lo Hl.
  - exists 0. done.
  - inversion Hl; [|congruence]. subst. eauto.
  - inversion Hl as [|? ? ? ? Hs' ?|? ? ? mid ? _ Hwf Hrest]; [congruence|]. subst.
    destruct (IH mid Hrest) as [k Hk]. cbn [packed_num]. rewrite Hk.
    destruct Hwf as [? ? _ _ _ _].
    exists (x * 2 ^ Z.of_nat (fm_bit_start m - lo) + k * 2 ^ Z.of_nat (mid - lo)).
    replace (fm_bit_start m) with (lo + (fm_bit_start m - lo))%nat at 1 by lia.
    replace mid with (lo + (mid - lo))%nat at 1 by lia. rewrite !pow2_split. ring.
Qed.

Lemma read_fields_spec lo ms hi fs vs ns buf r :
  layout_wf lo ms hi -> fields_ok ms fs vs ns -> bytes_ok buf -> (hi <= 8 * length buf)%nat ->
  0 <= r < 2 ^ Z.of_nat lo -> le_val buf = r + packed_num ns ->
  read_fields ms fs buf = Ok vs.
Proof.
  intros Hl Hf Hb. revert lo r Hl.
  induction Hf as [|m ms f fs vs ns Hs Hf IH|m ms f fs v vs x ns Hs H0 Hok Hf IH];
    intros lo r Hl Hlen Hr Hv; [done| |].
  - inversion Hl; [|congruence]. subst. cbn [read_fields]. unfold read_field. rewrite Hs. msimpl.
    by erewrite IH.
  - inversion Hl as [|? ? ? ? Hs' ?|? ? ? mid ? _ Hwf Hrest]; [congruence|]. subst.
    pose proof (layout_wf_le _ _ _ Hrest).
    destruct (packed_num_multiple _ _ _ _ _ _ Hrest Hf) as [k Hk].
    pose proof (field_ok_bound _ _ _ _ _ _ H0 Hwf Hok) as Hx. unfold in_u in Hx.
    pose proof (mw_start _ _ _ Hwf) as Hst. pose proof (mw_end _ _ _ Hwf) as He.
    pose proof (pow2_nat_pos (fm_bit_start m)) as Hp1. pose proof (pow2_nat_pos (fm_bits_len m)) as Hp2.
    assert (2 ^ Z.of_nat lo <= 2 ^ Z.of_nat (fm_bit_start m)) by (apply Z.pow_le_mono_r; lia).
    cbn [packed_num] in Hv.
    assert (2 ^ Z.of_nat mid = 2 ^ Z.of_nat (fm_bit_start m) *
      (2 ^ Z.of_nat (fm_bits_len m) * 2 ^ Z.of_nat (mid - fm_bit_end m))) as Hmid.
    { rewrite <- !pow2_split. f_equal. unfold fm_bits_len. lia. }
    cbn [read_fields]. rewrite (read_field_spec lo mid m (f_codec f) (f_default f) v x buf);
      [|done..|lia|].
    + msimpl. rewrite (IH mid (r + x * 2 ^ Z.of_nat (fm_bit_start m))); [done|done|lia| |lia].
      assert (2 ^ Z.of_nat (fm_bit_start m) * 2 ^ Z.of_nat (fm_bits_len m) <= 2 ^ Z.of_nat mid).
      { rewrite <- pow2_split. apply Z.pow_le_mono_r; [lia|]. unfold fm_bits_len. lia. }
      nia.
    + unfold field_num. rewrite Hv, Hk, Hmid.
      replace (r + _) with (r + (x + k * 2 ^ Z.of_nat (mid - fm_bit_end m) *
        2 ^ Z.of_nat (fm_bits_len m)) * 2 ^ Z.of_nat (fm_bit_start m)) by ring.
      rewrite Z.div_add, Z.div_small, Z.add_0_l, Z_mod_plus_full by lia.
      by apply Z.mod_small.
Qed.

(** What a derived struct's values must satisfy to survive a round trip. *)
Definition struct_valid (s : StructMeta) (fs : list Field) (vs : values fs) : Prop :=
  exists ns, fields_ok (sm_fields s) fs vs ns.

Definition struct_encoding (s : StructMeta) (fs : list Field) (vs : values fs) : bytes :=
  match write_fields (sm_fields s) fs vs (zeros (size_bytes s)) with
  | Ok b => b
  | _ => []
  end.

Lemma struct_write_spec s fs vs ns :
  layout_wf 0 (sm_fields s) (sm_width_bits s) -> fields_ok (sm_fields s) fs vs ns ->
  write_fields (sm_fields s) fs vs (zeros (size_bytes s)) = Ok (struct_encoding s fs vs) /\
  length (struct_encoding s fs vs) = size_bytes s /\ bytes_ok (struct_encoding s fs vs) /\
  le_val (struct_encoding s fs vs) = packed_num ns.
Proof.
  intros Hl Hf. unfold struct_encoding.
  destruct (write_fields_spec 0 _ _ _ _ _ (zeros (size_bytes s)) Hl Hf) as (b & -> & Hb & Hok & Hv).
  - auto with wire.
  - rewrite length_zeros. unfold size_bytes, div_ceil. lia.
  - rewrite le_val_zeros. cbn. lia.
  - rewrite length_zeros in Hb. rewrite le_val_zeros in Hv. split_and!; [done..|lia].
Qed.

#[export] Program Instance struct_roundtrip bits bytes attrs s fs
  (Hp : parse_struct bits bytes attrs = Ok s) :
  RoundTrip (struct_write s fs) (struct_read s fs) (struct_valid s fs) :=
  {| encoding := struct_encoding s fs |}.
Next Obligation.
  intros ? ? ? s fs Hp%parse_struct_wf vs [ns Hf].
  by destruct (struct_write_spec s fs vs ns Hp Hf) as (_ & ? & _).
Qed.
Next Obligation.
  intros ? ? ? s fs Hp%parse_struct_wf vs [ns Hf].
  by destruct (struct_write_spec s fs vs ns Hp Hf) as (_ & _ & ? & _).
Qed.
Next Obligation. done. Qed.
Next Obligation.
  intros ? ? ? s fs Hp%parse_struct_wf vs buf [ns Hf] Hlen. cbn in *.
  destruct (struct_write_spec s fs vs ns Hp Hf) as (Hw & _).
  rewrite get_range_0 by done. cbn [unwrap]. msimpl. by rewrite Hw.
Qed.
Next Obligation.
  intros ? ? ? s fs Hp%parse_struct_wf vs t [ns Hf].
  destruct (struct_write_spec s fs vs ns Hp Hf) as (_ & Hl & Hok & Hv).
  cbn [struct_read unpack_from_slice].
  rewrite get_range_0 by (rewrite length_app; lia). cbn [ok_or]. msimpl.
  rewrite <- Hl, take_app_length.
  apply (read_fields_spec 0 _ _ _ _ ns _ 0 Hp Hf Hok); [|cbn; lia|lia].
  rewrite Hl. unfold size_bytes, div_ceil. lia.
Qed.

(** Unpacking never reads past the struct's size and reports a short buffer. *)
Lemma struct_read_short s fs buf :
  (length buf < size_bytes s)%nat -> unpack_from_slice (struct_read s fs) buf = Err ReadBufferTooShort.
Proof. intros H. cbn. by rewrite (proj2 (get_range_None _ _ _)) by lia. Qed.

Lemma layout_parses n fs :
  (if parse_struct None (Some n) (f_attr <$> fs) is Ok _ then True else False) ->
  parse_struct None (Some n) (f_attr <$> fs) = Ok (layout n fs).
Proof. unfold layout. by destruct (parse_struct _ _ _). Qed.

(** *** [struct_valid] one field at a time *)

Definition fields_valid (ms : list FieldMeta) (fs : list Field) (vs : values fs) : Prop :=
  exists ns, fields_ok ms fs vs ns.

Lemma valid_nil : fields_valid [] [] tt.
Proof. eexists. constructor. Qed.

Lemma valid_skip m ms f fs vs :
  fm_skip m = true -> fields_valid ms fs vs ->
  fields_valid (m :: ms) (f :: fs) (f_default f, vs).
Proof. intros ? [ns ?]. exists ns. by constructor. Qed.

Lemma valid_cons m ms f fs v vs :
  fm_skip m = false -> (0 < fm_bits_len m)%nat -> (exists x, field_ok m (f_codec f) v x) ->
  fields_valid ms fs vs -> fields_valid (m :: ms) (f :: fs) (v, vs).
Proof. intros ? ? [x ?] [ns ?]. eexists. by constructor. Qed.

Lemma valid_u8 m v :
  (fm_bits_len m <= 8)%nat -> in_u (Z.of_nat (fm_bits_len m)) v -> exists x, field_ok m CU8 v x.
Proof. intros. eexists. by constructor. Qed.

Lemma valid_bool m v : (fm_bits_len m <= 8)%nat -> exists x, field_ok m CBool v x.
Proof. intros. eexists. by constructor. Qed.

Lemma valid_wide m {T} ty (w : WireWrite T) r valid `{!RoundTrip w r valid} v :
  (8 < fm_bits_len m)%nat -> fm_bits_len m = (8 * PACKED_LEN r)%nat -> valid v ->
  exists x, field_ok m (COther ty (Some w) r) v x.
Proof. intros. eexists. by eapply field_ok_wide. Qed.

Lemma encoding_1 {T} (w : WireWrite T) r valid `{!RoundTrip w r valid} v :
  valid v -> PACKED_LEN r = 1%nat ->
  encoding (w:=w) v = [le_val (encoding (w:=w) v)] /\ 0 <= le_val (encoding (w:=w) v) < 256.
Proof.
  intros Hv Hr. pose proof (encoding_length (valid:=valid) v Hv) as Hl.
  pose proof (encoding_ok (valid:=valid) v Hv) as Hok. rewrite Hr in Hl.
  destruct (encoding v) as [|x [|? ?]]; try done. apply Forall_cons in Hok as [Hx _].
  cbn [le_val]. unfold byte_ok in Hx. split; [f_equal; lia|lia].
Qed.

Lemma valid_narrow m {T} ty (w : WireWrite T) r valid `{!RoundTrip w r valid} v :
  (fm_bits_len m <= 8)%nat -> PACKED_LEN r = 1%nat -> valid v ->
  le_val (encoding (w:=w) v) < 2 ^ Z.of_nat (fm_bits_len m) ->
  exists x, field_ok m (COther ty (Some w) r) v x.
Proof.
  intros ? ? Hv Hx. destruct (encoding_1 w r valid v Hv) as [He ?]; [done|].
  eexists. eapply (field_ok_narrow _ _ _ _ valid); [done..| |exact He|]; [done|]. unfold in_u. lia.
Qed.

Lemma valid_byte m {T} ty (w : WireWrite T) r valid `{!RoundTrip w r valid} v :
  fm_bits_len m = 8%nat -> PACKED_LEN r = 1%nat -> valid v ->
  exists x, field_ok m (COther ty (Some w) r) v x.
Proof.
  intros Hm ? Hv. eapply (valid_narrow _ _ _ _ valid); [lia|done..|].
  rewrite Hm. change (2 ^ Z.of_nat 8) with 256. by apply (encoding_1 w r valid).
Qed.

(** Discharges [struct_valid] for a concrete layout, leaving the conditions on
    the values. *)
Ltac find_roundtrip := try (match goal with |- RoundTrip _ _ _ => apply _ end).

Ltac valid_field :=
  unfold bits_field, bytes_field, bytes_field_bit_skips, c_u16, c_u32, c_u64, c_i16, c_array, c_rw;
  cbn [f_codec];
  first
  [ apply valid_u8; [apply Nat.leb_le; vm_compute; reflexivity|]
  | apply valid_bool; apply Nat.leb_le; vm_compute; reflexivity
  | eapply valid_wide; find_roundtrip; [apply Nat.ltb_lt; vm_compute; reflexivity|reflexivity|]
  | eapply valid_byte; find_roundtrip; [reflexivity|reflexivity|]
  | eapply valid_narrow; find_roundtrip; [apply Nat.leb_le; vm_compute; reflexivity|reflexivity| |] ].

Ltac valid_fields :=
  match goal with |- struct_valid ?s ?fs ?v =>
    let ms := eval vm_compute in (sm_fields s) in
    let fs' := eval red in fs in
    let v' := eval cbn in v in
    change (fields_valid ms fs' v')
  end;
  repeat first
  [ apply valid_nil
  | apply valid_skip; [reflexivity|]
  | apply valid_cons; [reflexivity|apply Nat.ltb_lt; vm_compute; reflexivity|valid_field| ] ].

(** *** [#[derive(EtherCrabWireReadWrite)]] on a struct of [n] bytes *)

Section Derive.
Context {T : Type} (n : nat) (fs : list Field) (to : T -> values fs) (from : values fs -> T).

Definition derive_write : WireWrite T := write_via to (struct_write (layout n fs) fs).
Definition derive_read : WireRead T := read_via from (struct_read (layout n fs) fs).

Definition derive_roundtrip (valid : T -> Prop)
    (Hl : if parse_struct None (Some n) (f_attr <$> fs) is Ok _ then True else False)
    (Hof : forall v, valid v -> from (to v) = v)
    (Hv : forall v, valid v -> struct_valid (layout n fs) fs (to v)) :
    RoundTrip derive_write derive_read valid :=
  via_roundtrip to from _ _ _ valid Hof Hv
    (struct_roundtrip None (Some n) _ _ fs (layout_parses n fs Hl)).

End Derive.

End Struct.
