(* ===== verification/DeriveEnum.v ===== *)
(** * The [ethercrab-wire-derive] crate: enums

    [parse_enum] numbers the variants of an enum; [enum_write] and [enum_read]
    are the implementations the macro generates from that numbering. *)
From S2P Require Import Prelude Wire.

(** ** Definitions *)

Module Enum.

(** [#[repr(..)]] *)
Inductive Repr :=
| R_u8 | R_u16 | R_u32 | R_u64 | R_i8 | R_i16 | R_i32 | R_i64 | R_usize | R_isize.

(** A variant as written: [va_make] builds its value (the argument is the
    payload of a catch-all variant and ignored by the others). *)
Record VariantAttr (T : Type) := mkVariant {
  va_make : Z -> T;
  va_discriminant : option Z;
  va_catch_all : bool;
  va_default : bool;
  va_alternatives : list Z;
}.
Arguments mkVariant {T}.
Arguments va_make {T}.
Arguments va_discriminant {T}.
Arguments va_catch_all {T}.
Arguments va_default {T}.
Arguments va_alternatives {T}.

Record VariantMeta (T : Type) := mkVariantMeta {
  vm_make : Z -> T;
  vm_discriminant : Z;
  vm_catch_all : bool;
}.
Arguments mkVariantMeta {T}.
Arguments vm_make {T}.
Arguments vm_discriminant {T}.
Arguments vm_catch_all {T}.

Record EnumMeta (T : Type) := mkEnumMeta {
  em_repr : Repr;
  em_variants : list (VariantMeta T);
  em_catch_all : option (VariantMeta T);
  em_default_variant : option (VariantMeta T);
}.
Arguments mkEnumMeta {T}.
Arguments em_repr {T}.
Arguments em_variants {T}.
Arguments em_catch_all {T}.
Arguments em_default_variant {T}.

Inductive EnumError :=
| SizeDependentRepr
| CatchAllWithAlternatives
| SecondCatchAll
| SecondDefault.

Section Macro.
Context {T : Type} `{EqDecision T}.

(** The loop over the variants; the state is [discriminant_accum], the
    variants so far, the catch-all and the default variant. *)
Fixpoint parse_variants (acc : Z) (vs : list (VariantMeta T))
    (catch_all dflt : option (VariantMeta T)) (attrs : list (VariantAttr T))
    : res EnumError (list (VariantMeta T) * option (VariantMeta T) * option (VariantMeta T)) :=
  match attrs with
  | [] => Ok (vs, catch_all, dflt)
  | a :: attrs =>
      let discriminant :=
        match va_discriminant a with Some d => d | None => acc + 1 end in
      let alternatives := va_alternatives a in
      if (va_catch_all a && negb (Nat.eqb (length alternatives) 0))%bool
      then Err CatchAllWithAlternatives else
      let record := mkVariantMeta (va_make a) discriminant (va_catch_all a) in
      catch_all ← (if va_catch_all a then
        match catch_all with None => Ok (Some record) | Some _ => Err SecondCatchAll end
        else Ok catch_all);
      dflt ← (if va_default a then
        match dflt with None => Ok (Some record) | Some _ => Err SecondDefault end
        else Ok dflt);
      let alts := (fun d => mkVariantMeta (va_make a) d false) <$> alternatives in
      parse_variants (default discriminant (last alternatives)) (vs ++ record :: alts)
        catch_all dflt attrs
  end.

Definition parse_enum (repr : Repr) (attrs : list (VariantAttr T)) : res EnumError (EnumMeta T) :=
  match repr with
  | R_usize | R_isize => Err SizeDependentRepr
  | _ =>
      '(vs, catch_all, dflt) ← parse_variants 0 [] None None attrs;
      Ok (mkEnumMeta repr vs catch_all dflt)
  end.

Definition repr_size (r : Repr) : nat :=
  match r with
  | R_u8 | R_i8 => 1
  | R_u16 | R_i16 => 2
  | R_u32 | R_i32 => 4
  | R_u64 | R_i64 => 8
  | R_usize | R_isize => 0
  end.

Definition repr_signed (r : Repr) : bool :=
  match r with R_i8 | R_i16 | R_i32 | R_i64 | R_isize => true | _ => false end.

(** The discriminants the Rust language gives the variants of a field-less
    enum: explicit ones as written, an implicit one follows its predecessor
    and the first defaults to zero. *)
Fixpoint rust_discriminant (next : Z) (attrs : list (VariantAttr T)) (v : T) : option Z :=
  match attrs with
  | [] => None
  | a :: attrs =>
      let d := default next (va_discriminant a) in
      if decide (v = va_make a 0) then Some d else rust_discriminant (d + 1) attrs v
  end.

(** The match arms generated for an enum with a catch-all variant; [payload]
    is the field of a catch-all value and [None] for the other values. *)
Fixpoint write_arms (payload : T -> option Z) (vs : list (VariantMeta T)) (v : T) : option Z :=
  match vs with
  | [] => None
  | m :: vs =>
      if vm_catch_all m then
        match payload v with Some x => Some x | None => write_arms payload vs v end
      else if decide (v = vm_make m 0) then Some (vm_discriminant m)
      else write_arms payload vs v
  end.

(** The number [generate_enum_write] packs a value as. *)
Definition enum_num (attrs : list (VariantAttr T)) (payload : T -> option Z) (e : EnumMeta T)
    (v : T) : option Z :=
  match em_catch_all e with
  | Some _ => write_arms payload (em_variants e) v
  | None => rust_discriminant 0 attrs v
  end.

(** [generate_enum_write].  A value the arms do not cover does not exist in
    Rust, where matches are exhaustive. *)
Definition enum_write (attrs : list (VariantAttr T)) (payload : T -> option Z) (e : EnumMeta T)
    : WireWrite T :=
  let n := repr_size (em_repr e) in
  mkWireWrite (fun _ => n) (fun v buf =>
    _ ← unwrap (get_range buf 0 n);
    x ← unwrap (enum_num attrs payload e v);
    mret (splice buf 0 (le_bytes n x))).

(** The value arms, and what falls through them. *)
Definition from_raw (e : EnumMeta T) (raw : Z) : res WireError T :=
  match find (fun m => negb (vm_catch_all m) && (vm_discriminant m =? raw))%bool (em_variants e) with
  | Some m => Ok (vm_make m 0)
  | None =>
      match em_catch_all e, em_default_variant e with
      | Some c, _ => Ok (vm_make c raw)
      | None, Some d => Ok (vm_make d 0)
      | None, None => Err InvalidValue
      end
  end.

Definition raw_of_bytes (r : Repr) (l : bytes) : Z :=
  if repr_signed r then to_signed (8 * Z.of_nat (repr_size r)) (le_val l) else le_val l.

(** [generate_enum_read] *)
Definition enum_read (e : EnumMeta T) : WireRead T :=
  let n := repr_size (em_repr e) in
  mkWireRead n n (fun buf =>
    chunk ← ok_or (get_range buf 0 n) ReadBufferTooShort;
    from_raw e (raw_of_bytes (em_repr e) chunk)).

(** *** When an enum survives a round trip *)

Definition in_repr (r : Repr) (z : Z) : bool :=
  let w := 8 * Z.of_nat (repr_size r) in
  if repr_signed r then (- 2 ^ (w - 1) <=? z) && (z <? 2 ^ (w - 1)) else in_ub w z.

(** The discriminants that [enum_read] recognises. *)
Definition arms (e : EnumMeta T) : list Z :=
  vm_discriminant <$> filter (fun m => vm_catch_all m = false) (em_variants e).

(** A decidable check of the attributes: the discriminants are in the range of
    the repr and used once; without a catch-all variant they are all written
    out; with one, only catch-all values carry a payload.  The parser also accepts
    enums that fail it: where a discriminant is not written out the macro numbers the
    variant differently from Rust, and the two directions disagree
    ([WireSpec.implicit_discriminants_disagree]). *)
Definition enum_wf (attrs : list (VariantAttr T)) (payload : T -> option Z) (e : EnumMeta T)
    : bool :=
  match em_catch_all e with
  | None => forallb (fun a =>
      bool_decide (is_Some (va_discriminant a)) && negb (va_catch_all a))%bool attrs
  | Some _ => forallb (fun a =>
      va_catch_all a || bool_decide (payload (va_make a 0) = None))%bool attrs
  end
  && forallb (in_repr (em_repr e)) (arms e)
  && bool_decide (NoDup (arms e)) && negb (Nat.eqb (repr_size (em_repr e)) 0).

(** The values of the enum: those of a plain variant, and a catch-all with a
    payload in range that is not the discriminant of another variant. *)
Definition enum_valid (attrs : list (VariantAttr T)) (payload : T -> option Z) (e : EnumMeta T)
    (v : T) : Prop :=
  (exists a, a ∈ attrs /\ va_catch_all a = false /\ v = va_make a 0) \/
  (exists c x, em_catch_all e = Some c /\ v = vm_make c x /\ payload v = Some x /\
    in_repr (em_repr e) x = true /\ x ∉ arms e).

(** ** Lemmas *)

Lemma parse_variants_in acc vs ca df attrs vs' ca' df' :
  parse_variants acc vs ca df attrs = Ok (vs', ca', df') ->
  (forall m, m ∈ vs -> m ∈ vs') /\
  (forall a, a ∈ attrs -> exists d, mkVariantMeta (va_make a) d (va_catch_all a) ∈ vs' /\
    forall d', va_discriminant a = Some d' -> d = d') /\
  (forall m, m ∈ vs' -> m ∈ vs \/
    exists a, a ∈ attrs /\ vm_make m = va_make a /\ vm_catch_all m = va_catch_all a) /\
  (forall c, ca = Some c -> ca' = Some c) /\
  (ca = None -> forall c, ca' = Some c -> c ∈ vs' /\ vm_catch_all c = true).
Proof.
  revert acc vs ca df. induction attrs as [|a attrs IH]; intros acc vs ca df H; cbn in H.
  { injection H as -> -> ->. split_and!; [done| |by left|congruence|congruence].
    intros a Ha. by apply elem_of_nil in Ha. }
  destruct (_ && _)%bool eqn:Halt; [done|].
  apply bind_ok in H as (ca1 & Hca & H). apply bind_ok in H as (df1 & _ & H).
  apply IH in H as (H1 & H2 & H3 & H4 & H5). clear IH.
  set (record := mkVariantMeta _ _ _) in *. split_and!.
  - intros m Hm. apply H1. apply elem_of_app. by left.
  - intros b Hb. apply elem_of_cons in Hb as [->|Hb]; [|eauto].
    eexists. split; [apply H1, elem_of_app; right; by left|]. intros d' Hd. by rewrite Hd.
  - intros m Hm. apply H3 in Hm as [Hm|(b & Hb & Hm)].
    2: { right. exists b. split; [by right|done]. }
    apply elem_of_app in Hm as [Hm|Hm]; [by left|]. right. exists a. split; [by left|].
    apply elem_of_cons in Hm as [->|Hm]; [done|].
    apply list_elem_of_fmap in Hm as (d & -> & Hd). split; [done|]. cbn.
    destruct (va_catch_all a); [|done]. destruct (va_alternatives a); [|done].
    by apply elem_of_nil in Hd.
  - intros c ->. destruct (va_catch_all a); [done|]. injection Hca as <-. eauto.
  - intros -> c Hc. destruct (va_catch_all a) eqn:Ha; injection Hca as <-; [|by apply H5].
    rewrite (H4 record) in Hc by done. injection Hc as <-. split; [|done].
    apply H1, elem_of_app. right. by left.
Qed.

Lemma find_arm e m :
  NoDup (arms e) -> m ∈ em_variants e -> vm_catch_all m = false ->
  find (fun m1 => negb (vm_catch_all m1) && (vm_discriminant m1 =? vm_discriminant m))%bool
    (em_variants e) = Some m.
Proof.
  unfold arms. intros Hnd Hin Hc.
  induction (em_variants e) as [|m1 ms IH]; [by apply elem_of_nil in Hin|]. cbn [find].
  apply elem_of_cons in Hin as [<-|Hin].
  { by rewrite Hc, Z.eqb_refl. }
  rewrite filter_cons in Hnd. destruct (vm_catch_all m1) eqn:H1; cbn [negb andb].
  - rewrite decide_False in Hnd by done. by apply IH.
  - rewrite decide_True, fmap_cons in Hnd by done. apply NoDup_cons in Hnd as [Hni Hnd].
    destruct (Z.eqb_spec (vm_discriminant m1) (vm_discriminant m)) as [Heq|Hne]; [|by apply IH].
    exfalso. apply Hni. rewrite Heq. apply list_elem_of_fmap. exists m. split; [done|].
    by apply list_elem_of_filter.
Qed.

Lemma from_raw_arm e m :
  NoDup (arms e) -> m ∈ em_variants e -> vm_catch_all m = false ->
  from_raw e (vm_discriminant m) = Ok (vm_make m 0).
Proof. intros Hnd Hin Hc. unfold from_raw. by rewrite find_arm. Qed.

Lemma from_raw_catch_all e c x :
  em_catch_all e = Some c -> x ∉ arms e -> from_raw e x = Ok (vm_make c x).
Proof.
  intros Hc Hx. unfold from_raw. rewrite Hc.
  destruct (find _ _) as [m|] eqn:Hf; [|done]. exfalso. apply Hx.
  apply find_some in Hf as [Hin Hm]. bool_prop. apply list_elem_of_fmap. exists m.
  split; [congruence|]. apply list_elem_of_filter. rewrite list_elem_of_In. done.
Qed.

Lemma rust_discriminant_in next attrs v :
  forallb (fun a => bool_decide (is_Some (va_discriminant a)) && negb (va_catch_all a))%bool attrs
    = true ->
  (exists a, a ∈ attrs /\ v = va_make a 0) ->
  exists a d, a ∈ attrs /\ va_discriminant a = Some d /\ va_catch_all a = false /\
    v = va_make a 0 /\ rust_discriminant next attrs v = Some d.
Proof.
  revert next. induction attrs as [|a attrs IH]; intros next Hex (b & Hb & Hv).
  { by apply elem_of_nil in Hb. }
  cbn in Hex. apply andb_true_iff in Hex as [Ha Hex]. bool_prop.
  match goal with H : bool_decide _ = true |- _ => apply bool_decide_eq_true in H as [d' Hd] end.
  cbn. rewrite Hd. cbn. case_decide as Hva.
  - exists a, d'. split; [by left|done].
  - destruct (IH (d' + 1) Hex) as (c & d & Hc & ? & ? & ? & ?).
    { exists b. apply elem_of_cons in Hb as [->|Hb]; done. }
    exists c, d. split; [by right|done].
Qed.

Lemma write_arms_spec payload vs v :
  (exists m, m ∈ vs /\ if vm_catch_all m then is_Some (payload v) else v = vm_make m 0) ->
  exists x, write_arms payload vs v = Some x /\
    (payload v = Some x \/
     exists m, m ∈ vs /\ vm_catch_all m = false /\ v = vm_make m 0 /\ x = vm_discriminant m).
Proof.
  induction vs as [|m1 vs IH]; intros (m & Hm & Hv); [by apply elem_of_nil in Hm|].
  cbn [write_arms].
  assert (forall x, (payload v = Some x \/ exists m, m ∈ vs /\ vm_catch_all m = false /\
    v = vm_make m 0 /\ x = vm_discriminant m) -> payload v = Some x \/
    exists m, m ∈ m1 :: vs /\ vm_catch_all m = false /\ v = vm_make m 0 /\ x = vm_discriminant m)
    as Hlift.
  { intros x [?|(m' & ? & ?)]; [by left|right]. exists m'. split; [by right|done]. }
  destruct (vm_catch_all m1) eqn:Hc1.
  - destruct (payload v) as [x|] eqn:Hp; [exists x; auto|].
    apply elem_of_cons in Hm as [->|Hm]; [rewrite Hc1 in Hv; by destruct Hv|].
    destruct IH as (x & ? & ?); [by exists m|]. exists x. auto.
  - case_decide as Hd; [exists (vm_discriminant m1); split; [done|right; exists m1; split; [by left|done]]|].
    apply elem_of_cons in Hm as [->|Hm]; [by rewrite Hc1 in Hv|].
    destruct IH as (x & ? & ?); [by exists m|]. exists x. auto.
Qed.

Lemma arms_in e m : m ∈ em_variants e -> vm_catch_all m = false -> vm_discriminant m ∈ arms e.
Proof.
  intros. apply list_elem_of_fmap. exists m. split; [done|]. by apply list_elem_of_filter.
Qed.

(** A valid value packs as a number of the repr that is read back as it. *)
Lemma enum_num_spec repr attrs payload e v :
  parse_enum repr attrs = Ok e -> enum_wf attrs payload e = true -> enum_valid attrs payload e v ->
  exists x, enum_num attrs payload e v = Some x /\ in_repr (em_repr e) x = true /\
    from_raw e x = Ok v.
Proof.
  intros Hp Hwf Hv. unfold enum_wf in Hwf. unfold enum_valid in Hv. bool_prop.
  match goal with H : bool_decide _ = true |- _ => apply bool_decide_eq_true in H as Hnd end.
  match goal with H : forallb _ (arms e) = true |- _ => rename H into Hrange end.
  rewrite forallb_forall in Hrange. setoid_rewrite <- list_elem_of_In in Hrange.
  assert (exists df, parse_variants 0 [] None None attrs =
    Ok (em_variants e, em_catch_all e, df)) as [df Hpv].
  { unfold parse_enum in Hp.
    destruct repr; (discriminate Hp || (apply bind_ok in Hp as ([[vs ca] d] & Hb & Hp);
      injection Hp as <-; eauto)). }
  apply parse_variants_in in Hpv as (_ & Hmain & Hfrom & _ & Hca). specialize (Hca eq_refl).
  unfold enum_num. destruct (em_catch_all e) as [c|] eqn:Hc.
  - destruct (Hca c eq_refl) as [Hcin Hcc].
    match goal with H : forallb _ attrs = true |- _ => rename H into Hattrs end.
    rewrite forallb_forall in Hattrs. setoid_rewrite <- list_elem_of_In in Hattrs.
    assert (forall m, m ∈ em_variants e -> vm_catch_all m = false ->
      payload (vm_make m 0) = None) as Hplain.
    { intros m Hm Hmc. destruct (Hfrom m Hm) as [Hm'|(a & Ha & Hmk & Hmc')].
      { by apply elem_of_nil in Hm'. }
      specialize (Hattrs a Ha). rewrite <- Hmc', Hmc, <- Hmk in Hattrs. cbn in Hattrs.
      by apply bool_decide_eq_true in Hattrs. }
    destruct (write_arms_spec payload (em_variants e) v) as (x & Hx & Hcase).
    { destruct Hv as [(a & Ha & Hac & ->)|(c' & x & [= <-] & -> & Hpx & _)].
      - destruct (Hmain a Ha) as (d & Hd & _). eexists. split; [exact Hd|]. cbn. by rewrite Hac.
      - exists c. split; [done|]. rewrite Hcc, Hpx. done. }
    exists x. split; [done|].
    destruct Hv as [(a & Ha & Hac & ->)|(c' & y & [= <-] & -> & Hpx & Hin & Hni)].
    + destruct (Hmain a Ha) as (d & Hd & _). rewrite Hac in Hd.
      pose proof (Hplain _ Hd eq_refl) as Hnone. cbn in Hnone.
      destruct Hcase as [Hcase|(m & Hm & Hmc & Hmv & ->)]; [congruence|].
      split; [by apply Hrange, arms_in|]. rewrite Hmv. by apply from_raw_arm.
    + destruct Hcase as [Hcase|(m & Hm & Hmc & Hmv & ->)].
      * assert (x = y) as -> by congruence. split; [done|]. by apply from_raw_catch_all.
      * exfalso. pose proof (Hplain _ Hm Hmc). congruence.
  - match goal with H : forallb _ attrs = true |- _ => rename H into Hattrs end.
    destruct Hv as [(a & Ha & _ & Hav)|(? & ? & ? & _)]; [|done].
    destruct (rust_discriminant_in 0 attrs v Hattrs) as (b & d & Hb & Hbd & Hbc & -> & Hr).
    { eauto. }
    exists d. split; [done|]. destruct (Hmain b Hb) as (d' & Hin & Hd).
    rewrite (Hd d Hbd), Hbc in Hin. split.
    + apply Hrange. exact (arms_in e _ Hin eq_refl).
    + exact (from_raw_arm e _ Hnd Hin eq_refl).
Qed.

Lemma raw_of_le_bytes r x :
  in_repr r x = true -> (0 < repr_size r)%nat -> raw_of_bytes r (le_bytes (repr_size r) x) = x.
Proof.
  unfold in_repr, raw_of_bytes. intros H Hn. destruct (repr_signed r).
  - apply le_bytes_to_signed; [done|]. unfold in_i. bool_prop. lia.
  - apply le_val_le_bytes_small. by apply in_ub_spec.
Qed.

#[export] Program Instance enum_roundtrip repr attrs payload e
  (Hp : parse_enum repr attrs = Ok e) (Hwf : enum_wf attrs payload e = true) :
  RoundTrip (enum_write attrs payload e) (enum_read e) (enum_valid attrs payload e) :=
  {| encoding v := le_bytes (repr_size (em_repr e)) (default 0 (enum_num attrs payload e v)) |}.
Next Obligation. intros. apply length_le_bytes. Qed.
Next Obligation. intros. apply le_bytes_ok. Qed.
Next Obligation. done. Qed.
Next Obligation.
  intros repr attrs payload e Hp Hwf v buf Hv Hlen. cbn in *.
  destruct (enum_num_spec _ _ _ _ _ Hp Hwf Hv) as (x & Hx & _).
  rewrite get_range_0, Hx by done. done.
Qed.
Next Obligation.
  intros repr attrs payload e Hp Hwf v t Hv.
  destruct (enum_num_spec _ _ _ _ _ Hp Hwf Hv) as (x & Hx & Hin & Hr).
  cbn. rewrite Hx. cbn [default].
  rewrite get_range_0 by (rewrite length_app, length_le_bytes; lia). cbn [ok_or]. msimpl.
  rewrite <- (length_le_bytes (repr_size (em_repr e)) x) at 1. rewrite take_app_length.
  rewrite raw_of_le_bytes; [done|done|].
  unfold enum_wf in Hwf. bool_prop. lia.
Qed.

(** *** [#[derive(EtherCrabWireReadWrite)]] on an enum *)

Definition derive_enum (repr : Repr) (attrs : list (VariantAttr T)) : EnumMeta T :=
  match parse_enum repr attrs with
  | Ok e => e
  | _ => mkEnumMeta R_usize [] None None
  end.

Lemma derive_enum_parses repr attrs payload :
  enum_wf attrs payload (derive_enum repr attrs) = true ->
  parse_enum repr attrs = Ok (derive_enum repr attrs).
Proof.
  unfold derive_enum. destruct (parse_enum repr attrs) as [e| |]; [done|..];
    unfold enum_wf; cbn; rewrite andb_false_r; done.
Qed.

(** A validity that is easier to use, given that it implies [enum_valid]. *)
Definition derive_enum_roundtrip repr attrs payload (valid : T -> Prop)
    (Hwf : enum_wf attrs payload (derive_enum repr attrs) = true)
    (Hv : forall v, valid v -> enum_valid attrs payload (derive_enum repr attrs) v) :
    RoundTrip (enum_write attrs payload (derive_enum repr attrs))
      (enum_read (derive_enum repr attrs)) valid :=
  roundtrip_weaken _ _ _ valid Hv
    (enum_roundtrip repr attrs payload _ (derive_enum_parses repr attrs payload Hwf) Hwf).

End Macro.

(** [V = d], a variant with a discriminant and nothing else. *)
Definition plain {T} (v : T) (d : Z) : VariantAttr T :=
  mkVariant (fun _ => v) (Some d) false false [].
(** [#[default] V = d] *)
Definition dflt {T} (v : T) (d : Z) : VariantAttr T :=
  mkVariant (fun _ => v) (Some d) false true [].
(** [#[wire(alternatives = [..])] V = d] *)
Definition alts {T} (v : T) (d : Z) (l : list Z) : VariantAttr T :=
  mkVariant (fun _ => v) (Some d) false false l.
(** [#[wire(catch_all)] V(x)] *)
Definition catch_all {T} (make : Z -> T) : VariantAttr T := mkVariant make None true false [].

Definition no_payload {T} (v : T) : option Z := None.

(** A value made by one of the attributes is valid. *)
Lemma enum_valid_plain {T} `{EqDecision T} (attrs : list (VariantAttr T)) payload e v :
  existsb (fun a => negb (va_catch_all a) && bool_decide (v = va_make a 0))%bool attrs = true ->
  enum_valid attrs payload e v.
Proof.
  intros H%existsb_exists. left. destruct H as (a & Ha & H). bool_prop.
  match goal with H : bool_decide _ = true |- _ => apply bool_decide_eq_true in H end.
  exists a. rewrite list_elem_of_In. done.
Qed.

(** Closes [enum_valid] for a constructor without payload. *)
Ltac valid_variant := apply enum_valid_plain; vm_compute; reflexivity.

End Enum.
