(* ===== verification/BaseDataTypes.v ===== *)
(** * The base data types of CoE ([base_data_types.rs])

    [PrimitiveDataType], read from a byte by the derived implementation.  The
    program declares it and does not read it yet. *)
From S2P Require Import Prelude Wire DeriveEnum.
Import Enum.

(** ** Definitions *)

Inductive PrimitiveDataType :=
| PDT_Unknown | PDT_Bool | PDT_Byte | PDT_Word | PDT_DWord | PDT_Bit1 | PDT_Bit2 | PDT_Bit3
| PDT_Bit4 | PDT_Bit5 | PDT_Bit6 | PDT_Bit7 | PDT_Bit8 | PDT_Bit9 | PDT_Bit10 | PDT_Bit11
| PDT_Bit12 | PDT_Bit13 | PDT_Bit14 | PDT_Bit15 | PDT_Bit16 | PDT_BitArr8 | PDT_BitArr16
| PDT_BitArr32 | PDT_I8 | PDT_I16 | PDT_I24 | PDT_I32 | PDT_I40 | PDT_I48 | PDT_I56 | PDT_I64
| PDT_U8 | PDT_U16 | PDT_U24 | PDT_U32 | PDT_U40 | PDT_U48 | PDT_U56 | PDT_U64 | PDT_F32 | PDT_F64.

#[export] Instance PrimitiveDataType_eq_dec : EqDecision PrimitiveDataType.
Proof. solve_decision. Defined.

Definition PrimitiveDataType_attrs : list (VariantAttr PrimitiveDataType) :=
  [plain PDT_Unknown 0x00; plain PDT_Bool 0x01; plain PDT_Byte 0x1e; plain PDT_Word 0x1f;
   plain PDT_DWord 0x20; plain PDT_Bit1 0x30; plain PDT_Bit2 0x31; plain PDT_Bit3 0x32;
   plain PDT_Bit4 0x33; plain PDT_Bit5 0x34; plain PDT_Bit6 0x35; plain PDT_Bit7 0x36;
   plain PDT_Bit8 0x37; plain PDT_Bit9 0x38; plain PDT_Bit10 0x39; plain PDT_Bit11 0x3a;
   plain PDT_Bit12 0x3b; plain PDT_Bit13 0x3c; plain PDT_Bit14 0x3d; plain PDT_Bit15 0x3e;
   plain PDT_Bit16 0x3f; plain PDT_BitArr8 0x2d; plain PDT_BitArr16 0x2e; plain PDT_BitArr32 0x2f;
   plain PDT_I8 0x02; plain PDT_I16 0x03; plain PDT_I24 0x10; plain PDT_I32 0x04;
   plain PDT_I40 0x12; plain PDT_I48 0x13; plain PDT_I56 0x14; plain PDT_I64 0x15;
   plain PDT_U8 0x05; plain PDT_U16 0x06; plain PDT_U24 0x16; plain PDT_U32 0x07;
   plain PDT_U40 0x18; plain PDT_U48 0x19; plain PDT_U56 0x1a; plain PDT_U64 0x1b;
   plain PDT_F32 0x08; plain PDT_F64 0x11].
Definition PrimitiveDataType_meta := derive_enum R_u8 PrimitiveDataType_attrs.
Definition PrimitiveDataType_read := enum_read PrimitiveDataType_meta.

(** ** Lemmas *)

(** Every variant is read from its number, which is then that of no other, and any
    other byte is refused. *)
Theorem primitive_data_type_read b :
  in_u 8 b ->
  unpack_from_slice PrimitiveDataType_read [b] =
    match find (fun a => bool_decide (va_discriminant a = Some b)) PrimitiveDataType_attrs with
    | Some a => Ok (va_make a 0)
    | None => Err InvalidValue
    end.
Proof. unfold in_u. change (2 ^ 8) with 256. intros H. each_below H; vm_compute; reflexivity. Qed.

Theorem primitive_data_types_distinct :
  Forall (fun a => exists d, va_discriminant a = Some d /\
    unpack_from_slice PrimitiveDataType_read [d] = Ok (va_make a 0)) PrimitiveDataType_attrs.
Proof. repeat constructor; eexists; split; reflexivity. Qed.
