(* ===== verification/Crates.v ===== *)
(** * Third-party crates

    The operations of [bitflags], [heapless] and [crc] the sources call.  They
    are parameters of the model: [Crates] names what the sources rely on, as
    documented by these crates. *)
From S2P Require Import Prelude.

(** ** Definitions *)

(** [crc::Algorithm<u8>] *)
Record Algorithm := mkAlgorithm {
  alg_width : Z; alg_poly : Z; alg_init : Z; alg_refin : bool; alg_refout : bool; alg_xorout : Z;
  alg_check : Z; alg_residue : Z;
}.

(** A byte through the register of a CRC of eight bits, most significant bit first. *)
Fixpoint crc8_bits (poly : Z) (n : nat) (x : Z) : Z :=
  match n with
  | O => x
  | S n =>
      let s := wrap 8 (Z.shiftl x 1) in
      crc8_bits poly n (if Z.testbit x 7 then wrap 8 (Z.lxor s poly) else s)
  end.

(** The CRC-8 of [l] that starts from [init]. *)
Definition crc8 (poly init : Z) (l : bytes) : Z :=
  wrap 8 (fold_left (fun crc b => crc8_bits poly 8 (Z.lxor crc b)) l init).

Class Crates := {
  (** [from_bits] of a [bitflags!] type whose flags together are [all]. *)
  from_bits : Z -> Z -> option Z;
  (** [from_bits_truncate]. *)
  from_bits_truncate : Z -> Z -> Z;
  (** [contains]. *)
  contains : Z -> Z -> bool;
  (** [heapless::Vec::push] on a vector of the given capacity. *)
  vec_push : forall {A}, nat -> list A -> A -> option (list A);
  (** [crc::Crc::<u8>::new(algorithm).checksum(bytes)] *)
  crc_checksum : Algorithm -> bytes -> Z;

  (** Bits that belong to no flag are refused, respectively dropped. *)
  from_bits_spec all x :
    from_bits all x = if Z.eqb (Z.land x (Z.lnot all)) 0 then Some x else None;
  from_bits_truncate_spec all x : from_bits_truncate all x = Z.land x all;
  contains_spec x y : contains x y = Z.eqb (Z.land x y) y;
  (** A full vector gives the element back. *)
  vec_push_spec A cap (l : list A) x :
    vec_push cap l x = if Nat.ltb (length l) cap then Some (l ++ [x]) else None;
  (** An algorithm of eight bits that does not reflect and inverts nothing. *)
  crc_checksum_spec poly init check residue l :
    crc_checksum (mkAlgorithm 8 poly init false false 0 check residue) l = crc8 poly init l;
}.

(** Functions that behave as documented, on the arguments of these laws: the
    witnesses compute with them. *)

Program Definition documented_crates : Crates := {|
  from_bits all x := if Z.eqb (Z.land x (Z.lnot all)) 0 then Some x else None;
  from_bits_truncate all x := Z.land x all;
  contains x y := Z.eqb (Z.land x y) y;
  vec_push A cap l x := if Nat.ltb (length l) cap then Some (l ++ [x]) else None;
  crc_checksum alg l := Z.lxor (crc8 (alg_poly alg) (alg_init alg) l) (alg_xorout alg);
|}.
Next Obligation. done. Qed.
Next Obligation. done. Qed.
Next Obligation. done. Qed.
Next Obligation. done. Qed.
Next Obligation. intros. cbn. by rewrite Z.lxor_0_r. Qed.
