(* ===== verification/EscTypes.v ===== *)
(** * EtherCAT Slave Controller registers

    The types read from and written to SubDevice registers:
    [subdevice_state.rs], [al_control.rs], [dl_status.rs], [fmmu.rs],
    [sync_manager_channel.rs], ... *)
From S2P Require Import Prelude Wire Derive DeriveEnum.
Import Struct Enum.

(** ** Definitions *)

(** *** [subdevice_state.rs] *)

Inductive SubDeviceState :=
| SDS_None | SDS_Init | SDS_PreOp | SDS_Bootstrap | SDS_SafeOp | SDS_Op | SDS_Other (x : Z).

#[export] Instance SubDeviceState_eq_dec : EqDecision SubDeviceState.
Proof. solve_decision. Defined.

Definition SubDeviceState_attrs : list (VariantAttr SubDeviceState) :=
  [plain SDS_None 0x00; plain SDS_Init 0x01; plain SDS_PreOp 0x02; plain SDS_Bootstrap 0x03;
   plain SDS_SafeOp 0x04; plain SDS_Op 0x8; catch_all SDS_Other].
Definition SubDeviceState_payload (v : SubDeviceState) : option Z :=
  match v with SDS_Other x => Some x | _ => None end.
Definition SubDeviceState_meta := derive_enum R_u8 SubDeviceState_attrs.
Definition SubDeviceState_write :=
  enum_write SubDeviceState_attrs SubDeviceState_payload SubDeviceState_meta.
Definition SubDeviceState_read := enum_read SubDeviceState_meta.

(** A byte that names one of the states is not an [Other] value. *)
Definition SubDeviceState_valid (v : SubDeviceState) : Prop :=
  match v with SDS_Other x => 0 <= x < 256 /\ x ∉ [0; 1; 2; 3; 4; 8] | _ => True end.

(** *** [al_control.rs] *)

Record AlControl := mkAlControl {
  al_state : SubDeviceState;
  al_error : bool;
  al_id_request : bool;
}.

Definition AlControl_fields : list Field :=
  [bits_field (c_rw SubDeviceState_write SubDeviceState_read) SDS_None 4 0 0;
   bits_field CBool false 1 0 0;
   bits_field CBool false 1 0 10].
Definition AlControl_write : WireWrite AlControl :=
  derive_write 2 AlControl_fields (fun v => (al_state v, (al_error v, (al_id_request v, tt)))).
Definition AlControl_read : WireRead AlControl :=
  derive_read 2 AlControl_fields (fun '(a, (b, (c, _))) => mkAlControl a b c).

(** [SubDeviceState] has four bits in the AL registers. *)
Definition AlControl_valid (v : AlControl) : Prop :=
  SubDeviceState_valid (al_state v) /\
  match al_state v with SDS_Other x => x < 16 | _ => True end.

Definition AlControl_new (st : SubDeviceState) : AlControl := mkAlControl st false false.
(** Acknowledges an error. *)
Definition AlControl_reset : AlControl := mkAlControl SDS_Init true false.

(** *** [al_status_code.rs] *)

Inductive AlStatusCode :=
| AL_NoError | AL_UnspecifiedError | AL_NoMemory | AL_InvalidDeviceSetup
| AL_CompatibilityReserved | AL_InvalidRequestedStateChange | AL_UnknownRequestedState
| AL_BootstrapNotSupported | AL_NoValidFirmware | AL_InvalidMailboxConfiguration
| AL_InvalidMailboxConfiguration2 | AL_InvalidSyncManagerConfiguration
| AL_NoValidInputsAvailable | AL_NoValidOutputs | AL_SynchronizationError
| AL_SyncManagerWatchdog | AL_InvalidSyncManagerTypes | AL_InvalidOutputConfiguration
| AL_InvalidInputConfiguration | AL_InvalidWatchdogConfiguration | AL_SubDeviceNeedsColdStart
| AL_SubDeviceNeedsInit | AL_SubDeviceNeedsPreop | AL_SubDeviceNeedsSafeop
| AL_InvalidInputMapping | AL_InvalidOutputMapping | AL_InconsistentSettings
| AL_FreeRunNotSupported | AL_SyncModeNotSupported | AL_FreeRunNeeds3BufferMode
| AL_BackgroundWatchdog | AL_NoValidInputsAndOutputs | AL_FatalSyncError | AL_NoSyncError
| AL_InvalidDcSyncConfiguration | AL_InvalidDcLatchConfiguration | AL_PllError
| AL_DcSyncIoError | AL_DcSyncTimeoutError | AL_DcInvalidSyncCycleTime | AL_DcSync0CycleTime
| AL_DcSync1CycleTime | AL_MbxAoe | AL_MbxEoe | AL_MbxCoe | AL_MbxFoe | AL_MbxSoe | AL_MbxVoe
| AL_EepromNoAccess | AL_EepromError | AL_SubDeviceRestartedLocally
| AL_DeviceIdentificationValueUpdated | AL_ApplicationControllerAvailable
| AL_Unknown (x : Z).

(** The code on the wire. *)
Definition AlStatusCode_code (c : AlStatusCode) : Z :=
  match c with
  | AL_NoError => 0x0000
  | AL_UnspecifiedError => 0x0001
  | AL_NoMemory => 0x0002
  | AL_InvalidDeviceSetup => 0x0003
  | AL_CompatibilityReserved => 0x0005
  | AL_InvalidRequestedStateChange => 0x0011
  | AL_UnknownRequestedState => 0x0012
  | AL_BootstrapNotSupported => 0x0013
  | AL_NoValidFirmware => 0x0014
  | AL_InvalidMailboxConfiguration => 0x0015
  | AL_InvalidMailboxConfiguration2 => 0x0016
  | AL_InvalidSyncManagerConfiguration => 0x0017
  | AL_NoValidInputsAvailable => 0x0018
  | AL_NoValidOutputs => 0x0019
  | AL_SynchronizationError => 0x001A
  | AL_SyncManagerWatchdog => 0x001B
  | AL_InvalidSyncManagerTypes => 0x001C
  | AL_InvalidOutputConfiguration => 0x001D
  | AL_InvalidInputConfiguration => 0x001E
  | AL_InvalidWatchdogConfiguration => 0x001F
  | AL_SubDeviceNeedsColdStart => 0x0020
  | AL_SubDeviceNeedsInit => 0x0021
  | AL_SubDeviceNeedsPreop => 0x0022
  | AL_SubDeviceNeedsSafeop => 0x0023
  | AL_InvalidInputMapping => 0x0024
  | AL_InvalidOutputMapping => 0x0025
  | AL_InconsistentSettings => 0x0026
  | AL_FreeRunNotSupported => 0x0027
  | AL_SyncModeNotSupported => 0x0028
  | AL_FreeRunNeeds3BufferMode => 0x0029
  | AL_BackgroundWatchdog => 0x002A
  | AL_NoValidInputsAndOutputs => 0x002B
  | AL_FatalSyncError => 0x002C
  | AL_NoSyncError => 0x002D
  | AL_InvalidDcSyncConfiguration => 0x0030
  | AL_InvalidDcLatchConfiguration => 0x0031
  | AL_PllError => 0x0032
  | AL_DcSyncIoError => 0x0033
  | AL_DcSyncTimeoutError => 0x0034
  | AL_DcInvalidSyncCycleTime => 0x0035
  | AL_DcSync0CycleTime => 0x0036
  | AL_DcSync1CycleTime => 0x0037
  | AL_MbxAoe => 0x0041
  | AL_MbxEoe => 0x0042
  | AL_MbxCoe => 0x0043
  | AL_MbxFoe => 0x0044
  | AL_MbxSoe => 0x0045
  | AL_MbxVoe => 0x004F
  | AL_EepromNoAccess => 0x0050
  | AL_EepromError => 0x0051
  | AL_SubDeviceRestartedLocally => 0x0060
  | AL_DeviceIdentificationValueUpdated => 0x0061
  | AL_ApplicationControllerAvailable => 0x00F0
  | AL_Unknown x => x
  end.

Definition AlStatusCode_payload (c : AlStatusCode) : option Z :=
  match c with AL_Unknown x => Some x | _ => None end.

#[export] Instance AlStatusCode_eq_dec : EqDecision AlStatusCode.
Proof.
  intros a b. destruct (decide (AlStatusCode_code a = AlStatusCode_code b /\
    AlStatusCode_payload a = AlStatusCode_payload b)) as [H|H].
  - left. destruct a, b; cbn in H; destruct H as [H1 H2]; (reflexivity || discriminate || congruence).
  - right. intros ->. by apply H.
Defined.

Definition AlStatusCode_attrs : list (VariantAttr AlStatusCode) :=
  [plain AL_NoError 0x0000; plain AL_UnspecifiedError 0x0001; plain AL_NoMemory 0x0002;
   plain AL_InvalidDeviceSetup 0x0003; plain AL_CompatibilityReserved 0x0005;
   plain AL_InvalidRequestedStateChange 0x0011; plain AL_UnknownRequestedState 0x0012;
   plain AL_BootstrapNotSupported 0x0013; plain AL_NoValidFirmware 0x0014;
   plain AL_InvalidMailboxConfiguration 0x0015; plain AL_InvalidMailboxConfiguration2 0x0016;
   plain AL_InvalidSyncManagerConfiguration 0x0017; plain AL_NoValidInputsAvailable 0x0018;
   plain AL_NoValidOutputs 0x0019; plain AL_SynchronizationError 0x001A;
   plain AL_SyncManagerWatchdog 0x001B; plain AL_InvalidSyncManagerTypes 0x001C;
   plain AL_InvalidOutputConfiguration 0x001D; plain AL_InvalidInputConfiguration 0x001E;
   plain AL_InvalidWatchdogConfiguration 0x001F; plain AL_SubDeviceNeedsColdStart 0x0020;
   plain AL_SubDeviceNeedsInit 0x0021; plain AL_SubDeviceNeedsPreop 0x0022;
   plain AL_SubDeviceNeedsSafeop 0x0023; plain AL_InvalidInputMapping 0x0024;
   plain AL_InvalidOutputMapping 0x0025; plain AL_InconsistentSettings 0x0026;
   plain AL_FreeRunNotSupported 0x0027; plain AL_SyncModeNotSupported 0x0028;
   plain AL_FreeRunNeeds3BufferMode 0x0029; plain AL_BackgroundWatchdog 0x002A;
   plain AL_NoValidInputsAndOutputs 0x002B; plain AL_FatalSyncError 0x002C;
   plain AL_NoSyncError 0x002D; plain AL_InvalidDcSyncConfiguration 0x0030;
   plain AL_InvalidDcLatchConfiguration 0x0031; plain AL_PllError 0x0032;
   plain AL_DcSyncIoError 0x0033; plain AL_DcSyncTimeoutError 0x0034;
   plain AL_DcInvalidSyncCycleTime 0x0035; plain AL_DcSync0CycleTime 0x0036;
   plain AL_DcSync1CycleTime 0x0037; plain AL_MbxAoe 0x0041; plain AL_MbxEoe 0x0042;
   plain AL_MbxCoe 0x0043; plain AL_MbxFoe 0x0044; plain AL_MbxSoe 0x0045;
   plain AL_MbxVoe 0x004F; plain AL_EepromNoAccess 0x0050; plain AL_EepromError 0x0051;
   plain AL_SubDeviceRestartedLocally 0x0060; plain AL_DeviceIdentificationValueUpdated 0x0061;
   plain AL_ApplicationControllerAvailable 0x00F0;
   catch_all AL_Unknown].
Definition AlStatusCode_meta := derive_enum R_u16 AlStatusCode_attrs.
Definition AlStatusCode_read := enum_read AlStatusCode_meta.
(** The generated [u16::from(code)]. *)
Definition AlStatusCode_u16 (c : AlStatusCode) : option Z :=
  enum_num AlStatusCode_attrs AlStatusCode_payload AlStatusCode_meta c.

(** *** [dl_status.rs] *)

Record DlStatus := mkDlStatus {
  dl_pdi_operational : bool;
  dl_watchdog_ok : bool;
  dl_extended_link_detection : bool;
  dl_link_port0 : bool;
  dl_link_port1 : bool;
  dl_link_port2 : bool;
  dl_link_port3 : bool;
  dl_loopback_port0 : bool;
  dl_signal_port0 : bool;
  dl_loopback_port1 : bool;
  dl_signal_port1 : bool;
  dl_loopback_port2 : bool;
  dl_signal_port2 : bool;
  dl_loopback_port3 : bool;
  dl_signal_port3 : bool;
}.

Definition DlStatus_fields : list Field :=
  [bits_field CBool false 1 0 0;
   bits_field CBool false 1 0 0;
   bits_field CBool false 1 0 1;
   bits_field CBool false 1 0 0;
   bits_field CBool false 1 0 0;
   bits_field CBool false 1 0 0;
   bits_field CBool false 1 0 0;
   bits_field CBool false 1 0 0;
   bits_field CBool false 1 0 0;
   bits_field CBool false 1 0 0;
   bits_field CBool false 1 0 0;
   bits_field CBool false 1 0 0;
   bits_field CBool false 1 0 0;
   bits_field CBool false 1 0 0;
   bits_field CBool false 1 0 0].
Definition DlStatus_read : WireRead DlStatus :=
  derive_read 2 DlStatus_fields
    (fun '(a, (b, (c, (d, (e, (f, (g, (h, (i, (j, (k, (l, (m, (n, (o, _))))))))))))))) =>
      mkDlStatus a b c d e f g h i j k l m n o).

(** *** [fmmu.rs] *)

Record Fmmu := mkFmmu {
  fm_logical_start_address : Z;
  fm_length_bytes : Z;
  fm_logical_start_bit : Z;
  fm_logical_end_bit : Z;
  fm_physical_start_address : Z;
  fm_physical_start_bit : Z;
  fm_read_enable : bool;
  fm_write_enable : bool;
  fm_enable : bool;
}.

Definition Fmmu_fields : list Field :=
  [bytes_field c_u32 0 4 0 0;
   bytes_field c_u16 0 2 0 0;
   bits_field CU8 0 3 0 5;
   bits_field CU8 0 3 0 5;
   bytes_field c_u16 0 2 0 0;
   bits_field CU8 0 3 0 5;
   bits_field CBool false 1 0 0;
   bits_field CBool false 1 0 6;
   bits_field CBool false 1 0 31].
Definition Fmmu_write : WireWrite Fmmu :=
  derive_write 16 Fmmu_fields (fun v =>
    (fm_logical_start_address v, (fm_length_bytes v, (fm_logical_start_bit v, (fm_logical_end_bit v, (fm_physical_start_address v, (fm_physical_start_bit v, (fm_read_enable v, (fm_write_enable v, (fm_enable v, tt)))))))))).
Definition Fmmu_read : WireRead Fmmu :=
  derive_read 16 Fmmu_fields
    (fun '(a, (b, (c, (d, (e, (f, (g, (h, (i, _))))))))) =>
      mkFmmu a b c d e f g h i).

(** The values whose fields fit their widths. *)
Definition Fmmu_valid (v : Fmmu) : Prop :=
  in_u 32 (fm_logical_start_address v) /\ in_u 16 (fm_length_bytes v) /\
  in_u 3 (fm_logical_start_bit v) /\ in_u 3 (fm_logical_end_bit v) /\
  in_u 16 (fm_physical_start_address v) /\ in_u 3 (fm_physical_start_bit v).

(** *** [sync_manager_channel.rs] *)

Definition SM_BASE_ADDRESS : Z := 0x1c10.

Inductive OperationMode :=
| OM_Normal | OM_Mailbox.

#[export] Instance OperationMode_eq_dec : EqDecision OperationMode.
Proof. solve_decision. Defined.

Definition OperationMode_attrs : list (VariantAttr OperationMode) :=
  [dflt OM_Normal 0x00; plain OM_Mailbox 0x02].
Definition OperationMode_meta := derive_enum R_u8 OperationMode_attrs.
Definition OperationMode_write := enum_write OperationMode_attrs no_payload OperationMode_meta.
Definition OperationMode_read := enum_read OperationMode_meta.

Inductive Direction :=
| DIR_MasterRead | DIR_MasterWrite.

#[export] Instance Direction_eq_dec : EqDecision Direction.
Proof. solve_decision. Defined.

Definition Direction_attrs : list (VariantAttr Direction) :=
  [dflt DIR_MasterRead 0x00; plain DIR_MasterWrite 0x01].
Definition Direction_meta := derive_enum R_u8 Direction_attrs.
Definition Direction_write := enum_write Direction_attrs no_payload Direction_meta.
Definition Direction_read := enum_read Direction_meta.

Inductive BufferState :=
| BS_First | BS_Second | BS_Third | BS_Next.

#[export] Instance BufferState_eq_dec : EqDecision BufferState.
Proof. solve_decision. Defined.

Definition BufferState_attrs : list (VariantAttr BufferState) :=
  [dflt BS_First 0x00; plain BS_Second 0x01; plain BS_Third 0x02; plain BS_Next 0x03].
Definition BufferState_meta := derive_enum R_u8 BufferState_attrs.
Definition BufferState_write := enum_write BufferState_attrs no_payload BufferState_meta.
Definition BufferState_read := enum_read BufferState_meta.

Record Control := mkControl {
  ctl_operation_mode : OperationMode;
  ctl_direction : Direction;
  ctl_ecat_event_enable : bool;
  ctl_dls_user_event_enable : bool;
  ctl_watchdog_enable : bool;
}.

Definition Control_fields : list Field :=
  [bits_field (c_rw OperationMode_write OperationMode_read) OM_Normal 2 0 0;
   bits_field (c_rw Direction_write Direction_read) DIR_MasterRead 2 0 0;
   bits_field CBool false 1 0 0;
   bits_field CBool false 1 0 0;
   bits_field CBool false 1 0 1].
Definition Control_write : WireWrite Control :=
  derive_write 1 Control_fields (fun v =>
    (ctl_operation_mode v, (ctl_direction v, (ctl_ecat_event_enable v, (ctl_dls_user_event_enable v, (ctl_watchdog_enable v, tt)))))).
Definition Control_read : WireRead Control :=
  derive_read 1 Control_fields (fun '(a, (b, (c, (d, (e, _))))) => mkControl a b c d e).

#[export] Instance Control_eq_dec : EqDecision Control.
Proof. solve_decision. Defined.

Definition Control_default : Control := mkControl OM_Normal DIR_MasterRead false false false.

Record Status := mkStatus {
  st_has_write_event : bool;
  st_has_read_event : bool;
  st_mailbox_full : bool;
  st_buffer_state : BufferState;
  st_read_buffer_open : bool;
  st_write_buffer_open : bool;
}.

Definition Status_fields : list Field :=
  [bits_field CBool false 1 0 0;
   bits_field CBool false 1 0 1;
   bits_field CBool false 1 0 0;
   bits_field (c_rw BufferState_write BufferState_read) BS_First 2 0 0;
   bits_field CBool false 1 0 0;
   bits_field CBool false 1 0 0].
Definition Status_write : WireWrite Status :=
  derive_write 1 Status_fields (fun v =>
    (st_has_write_event v, (st_has_read_event v, (st_mailbox_full v, (st_buffer_state v, (st_read_buffer_open v, (st_write_buffer_open v, tt))))))).
Definition Status_read : WireRead Status :=
  derive_read 1 Status_fields (fun '(a, (b, (c, (d, (e, (f, _)))))) => mkStatus a b c d e f).

Definition Status_default : Status := mkStatus false false false BS_First false false.

Record Enable := mkEnable {
  en_enable : bool;
  en_repeat : bool;
  en_dc_event_bus_write : bool;
  en_dc_event_local_write : bool;
  en_channel_pdi_disabled : bool;
  en_repeat_ack : bool;
}.

Definition Enable_fields : list Field :=
  [bits_field CBool false 1 0 0;
   bits_field CBool false 1 0 4;
   bits_field CBool false 1 0 0;
   bits_field CBool false 1 0 0;
   bits_field CBool false 1 0 0;
   bits_field CBool false 1 0 6].
Definition Enable_write : WireWrite Enable :=
  derive_write 2 Enable_fields (fun v =>
    (en_enable v, (en_repeat v, (en_dc_event_bus_write v, (en_dc_event_local_write v, (en_channel_pdi_disabled v, (en_repeat_ack v, tt))))))).
Definition Enable_read : WireRead Enable :=
  derive_read 2 Enable_fields (fun '(a, (b, (c, (d, (e, (f, _)))))) => mkEnable a b c d e f).

Definition Enable_default : Enable := mkEnable false false false false false false.

Record SyncManagerChannel := mkSyncManagerChannel {
  smc_physical_start_address : Z;
  smc_length_bytes : Z;
  smc_control : Control;
  smc_status : Status;
  smc_enable : Enable;
}.

Definition SyncManagerChannel_fields : list Field :=
  [bytes_field c_u16 0 2 0 0;
   bytes_field c_u16 0 2 0 0;
   bytes_field (c_rw Control_write Control_read) Control_default 1 0 0;
   bytes_field (c_rw Status_write Status_read) Status_default 1 0 0;
   bytes_field (c_rw Enable_write Enable_read) Enable_default 2 0 0].
Definition SyncManagerChannel_write : WireWrite SyncManagerChannel :=
  derive_write 8 SyncManagerChannel_fields (fun v =>
    (smc_physical_start_address v, (smc_length_bytes v, (smc_control v, (smc_status v, (smc_enable v, tt)))))).
Definition SyncManagerChannel_read : WireRead SyncManagerChannel :=
  derive_read 8 SyncManagerChannel_fields
    (fun '(a, (b, (c, (d, (e, _))))) =>
      mkSyncManagerChannel a b c d e).

Definition SyncManagerChannel_valid (v : SyncManagerChannel) : Prop :=
  in_u 16 (smc_physical_start_address v) /\ in_u 16 (smc_length_bytes v).

(** *** [register.rs] *)

Inductive RegisterAddress :=
| R_Type | R_Revision | R_Build | R_FmmuCount | R_SyncManagerChannels | R_RamSize
| R_PortDescriptors | R_SupportFlags | R_ConfiguredStationAddress | R_ConfiguredStationAlias
| R_DlStatus | R_AlControl | R_AlStatus | R_AlStatusCode | R_WatchdogDivider | R_PdiWatchdog
| R_SyncManagerWatchdog | R_SyncManagerWatchdogStatus | R_SyncManagerWatchdogCounter
| R_PdiWatchdogCounter | R_SiiConfig | R_SiiControl | R_SiiAddress | R_SiiData | R_Fmmu0
| R_Fmmu1 | R_Fmmu2 | R_Fmmu3 | R_Fmmu4 | R_Fmmu5 | R_Fmmu6 | R_Fmmu7 | R_Fmmu8 | R_Fmmu9
| R_Fmmu10 | R_Fmmu11 | R_Fmmu12 | R_Fmmu13 | R_Fmmu14 | R_Fmmu15 | R_Sm0 | R_Sm1 | R_Sm2
| R_Sm3 | R_Sm4 | R_Sm5 | R_Sm6 | R_Sm7 | R_Sm8 | R_Sm9 | R_Sm10 | R_Sm11 | R_Sm12 | R_Sm13
| R_Sm14 | R_Sm15 | R_DcTimePort0 | R_DcTimePort1 | R_DcTimePort2 | R_DcTimePort3
| R_DcReceiveTime | R_DcSystemTime | R_DcSystemTimeOffset | R_DcSystemTimeTransmissionDelay
| R_DcControlLoopParam1 | R_DcControlLoopParam2 | R_DcControlLoopParam3
| R_DcSystemTimeDifference | R_DcCyclicUnitControl | R_DcSyncActive | R_DcSyncStartTime
| R_DcSync0CycleTime | R_DcSync1CycleTime.

#[export] Instance RegisterAddress_eq_dec : EqDecision RegisterAddress.
Proof. solve_decision. Defined.

(** [u16::from], the register's address. *)
Definition register_u16 (r : RegisterAddress) : Z :=
  match r with
  | R_Type => 0x0000
  | R_Revision => 0x0001
  | R_Build => 0x0002
  | R_FmmuCount => 0x0004
  | R_SyncManagerChannels => 0x0005
  | R_RamSize => 0x0006
  | R_PortDescriptors => 0x0007
  | R_SupportFlags => 0x0008
  | R_ConfiguredStationAddress => 0x0010
  | R_ConfiguredStationAlias => 0x0012
  | R_DlStatus => 0x0110
  | R_AlControl => 0x0120
  | R_AlStatus => 0x0130
  | R_AlStatusCode => 0x0134
  | R_WatchdogDivider => 0x0400
  | R_PdiWatchdog => 0x0410
  | R_SyncManagerWatchdog => 0x0420
  | R_SyncManagerWatchdogStatus => 0x0440
  | R_SyncManagerWatchdogCounter => 0x0442
  | R_PdiWatchdogCounter => 0x0443
  | R_SiiConfig => 0x0500
  | R_SiiControl => 0x0502
  | R_SiiAddress => 0x0504
  | R_SiiData => 0x0508
  | R_Fmmu0 => 0x0600
  | R_Fmmu1 => 0x0610
  | R_Fmmu2 => 0x0620
  | R_Fmmu3 => 0x0630
  | R_Fmmu4 => 0x0640
  | R_Fmmu5 => 0x0650
  | R_Fmmu6 => 0x0660
  | R_Fmmu7 => 0x0670
  | R_Fmmu8 => 0x0680
  | R_Fmmu9 => 0x0690
  | R_Fmmu10 => 0x06a0
  | R_Fmmu11 => 0x06b0
  | R_Fmmu12 => 0x06c0
  | R_Fmmu13 => 0x06d0
  | R_Fmmu14 => 0x06e0
  | R_Fmmu15 => 0x06f0
  | R_Sm0 => 0x0800
  | R_Sm1 => 0x0808
  | R_Sm2 => 0x0810
  | R_Sm3 => 0x0818
  | R_Sm4 => 0x0820
  | R_Sm5 => 0x0828
  | R_Sm6 => 0x0830
  | R_Sm7 => 0x0838
  | R_Sm8 => 0x0840
  | R_Sm9 => 0x0848
  | R_Sm10 => 0x0850
  | R_Sm11 => 0x0858
  | R_Sm12 => 0x0860
  | R_Sm13 => 0x0868
  | R_Sm14 => 0x0870
  | R_Sm15 => 0x0878
  | R_DcTimePort0 => 0x0900
  | R_DcTimePort1 => 0x0904
  | R_DcTimePort2 => 0x0908
  | R_DcTimePort3 => 0x090c
  | R_DcReceiveTime => 0x0918
  | R_DcSystemTime => 0x0910
  | R_DcSystemTimeOffset => 0x0920
  | R_DcSystemTimeTransmissionDelay => 0x0928
  | R_DcControlLoopParam1 => 0x0930
  | R_DcControlLoopParam2 => 0x0932
  | R_DcControlLoopParam3 => 0x0934
  | R_DcSystemTimeDifference => 0x092c
  | R_DcCyclicUnitControl => 0x0980
  | R_DcSyncActive => 0x0981
  | R_DcSyncStartTime => 0x0990
  | R_DcSync0CycleTime => 0x09a0
  | R_DcSync1CycleTime => 0x09a4
  end.

(** FMMU by index; [unreachable!()] above 15. *)
Definition register_fmmu {E} (index : Z) : res E RegisterAddress :=
  match index with
  | 0 => Ok R_Fmmu0
  | 1 => Ok R_Fmmu1
  | 2 => Ok R_Fmmu2
  | 3 => Ok R_Fmmu3
  | 4 => Ok R_Fmmu4
  | 5 => Ok R_Fmmu5
  | 6 => Ok R_Fmmu6
  | 7 => Ok R_Fmmu7
  | 8 => Ok R_Fmmu8
  | 9 => Ok R_Fmmu9
  | 10 => Ok R_Fmmu10
  | 11 => Ok R_Fmmu11
  | 12 => Ok R_Fmmu12
  | 13 => Ok R_Fmmu13
  | 14 => Ok R_Fmmu14
  | 15 => Ok R_Fmmu15
  | _ => Panic
  end.

(** Sync manager by index; [unreachable!()] above 15. *)
Definition register_sync_manager {E} (index : Z) : res E RegisterAddress :=
  match index with
  | 0 => Ok R_Sm0
  | 1 => Ok R_Sm1
  | 2 => Ok R_Sm2
  | 3 => Ok R_Sm3
  | 4 => Ok R_Sm4
  | 5 => Ok R_Sm5
  | 6 => Ok R_Sm6
  | 7 => Ok R_Sm7
  | 8 => Ok R_Sm8
  | 9 => Ok R_Sm9
  | 10 => Ok R_Sm10
  | 11 => Ok R_Sm11
  | 12 => Ok R_Sm12
  | 13 => Ok R_Sm13
  | 14 => Ok R_Sm14
  | 15 => Ok R_Sm15
  | _ => Panic
  end.

Definition register_sync_manager_status {P : Profile} {E} (index : Z) : res E Z :=
  r ← register_sync_manager index;
  uadd 16 (register_u16 r) 5.

Inductive PortType := PT_NotImplemented | PT_NotConfigured | PT_Ebus | PT_Mii.

#[export] Instance PortType_eq_dec : EqDecision PortType.
Proof. solve_decision. Defined.

Definition PortType_attrs : list (VariantAttr PortType) :=
  [plain PT_NotImplemented 0x00; plain PT_NotConfigured 0x01; plain PT_Ebus 0x02;
   plain PT_Mii 0x03].
Definition PortType_read := enum_read (derive_enum R_u8 PortType_attrs).

Record SupportFlags := mkSupportFlags {
  sf_fmmu_supports_bit_ops : bool;
  sf_reserved_register_support : bool;
  sf_dc_supported : bool;
  sf_has_64bit_dc : bool;
  sf_low_jitter : bool;
  sf_ebus_enhanced_link_detection : bool;
  sf_mii_enhanced_link_detection : bool;
  sf_separate_fcs_error_handling : bool;
  sf_enhanced_dc_sync : bool;
  sf_lrw_not_supported : bool;
  sf_brw_aprw_fprw_not_supported : bool;
  sf_special_fmmu : bool;
}.

Definition SupportFlags_fields : list Field :=
  [bits_field CBool false 1 0 0;
   bits_field CBool false 1 0 0;
   bits_field CBool false 1 0 0;
   bits_field CBool false 1 0 0;
   bits_field CBool false 1 0 0;
   bits_field CBool false 1 0 0;
   bits_field CBool false 1 0 0;
   bits_field CBool false 1 0 0;
   bits_field CBool false 1 0 0;
   bits_field CBool false 1 0 0;
   bits_field CBool false 1 0 0;
   bits_field CBool false 1 0 4].
Definition SupportFlags_read : WireRead SupportFlags :=
  derive_read 2 SupportFlags_fields
    (fun '(a, (b, (c, (d, (e, (f, (g, (h, (i, (j, (k, (l, _)))))))))))) =>
      mkSupportFlags a b c d e f g h i j k l).

Inductive DcSupport := DCS_None | DCS_RefOnly | DCS_Bits64 | DCS_Bits32.

#[export] Instance DcSupport_eq_dec : EqDecision DcSupport.
Proof. solve_decision. Defined.

Definition dc_support (f : SupportFlags) : DcSupport :=
  if negb (sf_dc_supported f) then DCS_None
  else if negb (sf_enhanced_dc_sync f) then DCS_RefOnly
  else if sf_has_64bit_dc f then DCS_Bits64
  else DCS_Bits32.

Definition DcSupport_any (s : DcSupport) : bool :=
  match s with DCS_None => false | DCS_RefOnly | DCS_Bits64 | DCS_Bits32 => true end.
Definition DcSupport_enhanced (s : DcSupport) : bool :=
  match s with DCS_Bits64 | DCS_Bits32 => true | _ => false end.

(** *** [subdevice/types.rs] *)

Record SubDeviceIdentity := mkSubDeviceIdentity {
  id_vendor_id : Z;
  id_product_id : Z;
  id_revision : Z;
  id_serial : Z;
}.

Definition SubDeviceIdentity_fields : list Field :=
  [bytes_field c_u32 0 4 0 0;
   bytes_field c_u32 0 4 0 0;
   bytes_field c_u32 0 4 0 0;
   bytes_field c_u32 0 4 0 0].
Definition SubDeviceIdentity_read : WireRead SubDeviceIdentity :=
  derive_read 16 SubDeviceIdentity_fields
    (fun '(a, (b, (c, (d, _)))) =>
      mkSubDeviceIdentity a b c d).

(** ** Round trips *)

#[export] Instance SubDeviceState_roundtrip :
  RoundTrip SubDeviceState_write SubDeviceState_read SubDeviceState_valid.
Proof.
  apply derive_enum_roundtrip; [vm_compute; reflexivity|].
  intros [] H; try valid_variant. right. do 2 eexists. split; [reflexivity|].
  split; [reflexivity|]. destruct H as [H1 H2]. split; [done|].
  split; [apply in_ub_spec; exact H1|exact H2].
Defined.

#[export] Instance AlControl_roundtrip : RoundTrip AlControl_write AlControl_read AlControl_valid.
Proof.
  apply derive_roundtrip; [exact I|by intros []|].
  intros [st e i] [Hs Hv]. valid_fields; [done|].
  destruct st as [| | | | | |x]; try (vm_compute; reflexivity).
  change (le_val (le_bytes 1 x) < 2 ^ 4). cbn in Hs, Hv.
  rewrite le_val_le_bytes_small by (cbn; lia). change (2 ^ 4) with 16. lia.
Defined.

#[export] Instance OperationMode_roundtrip :
  RoundTrip OperationMode_write OperationMode_read (fun _ => True).
Proof. apply derive_enum_roundtrip; [vm_compute; reflexivity|]. intros [] _; valid_variant. Defined.

#[export] Instance Direction_roundtrip :
  RoundTrip Direction_write Direction_read (fun _ => True).
Proof. apply derive_enum_roundtrip; [vm_compute; reflexivity|]. intros [] _; valid_variant. Defined.

#[export] Instance BufferState_roundtrip :
  RoundTrip BufferState_write BufferState_read (fun _ => True).
Proof. apply derive_enum_roundtrip; [vm_compute; reflexivity|]. intros [] _; valid_variant. Defined.

#[export] Instance Fmmu_roundtrip : RoundTrip Fmmu_write Fmmu_read Fmmu_valid.
Proof.
  apply derive_roundtrip; [exact I|by intros []|].
  intros [] (? & ? & ? & ? & ? & ?). valid_fields; done.
Defined.

#[export] Instance Control_roundtrip : RoundTrip Control_write Control_read (fun _ => True).
Proof.
  apply derive_roundtrip; [exact I|by intros []|].
  intros [m d e1 e2 e3] _. valid_fields; [done| |done|].
  - destruct m; vm_compute; reflexivity.
  - destruct d; vm_compute; reflexivity.
Defined.

#[export] Instance Status_roundtrip : RoundTrip Status_write Status_read (fun _ => True).
Proof.
  apply derive_roundtrip; [exact I|by intros []|].
  intros [e1 e2 e3 b e4 e5] _. valid_fields; [done|]. destruct b; vm_compute; reflexivity.
Defined.

#[export] Instance Enable_roundtrip : RoundTrip Enable_write Enable_read (fun _ => True).
Proof. apply derive_roundtrip; [exact I|by intros []|]. intros [] _. valid_fields. Defined.

#[export] Instance SyncManagerChannel_roundtrip :
  RoundTrip SyncManagerChannel_write SyncManagerChannel_read SyncManagerChannel_valid.
Proof.
  apply derive_roundtrip; [exact I|by intros []|].
  intros [] (? & ?). valid_fields; done.
Defined.

(** ** The unit tests of the repository *)

Example al_control_pack :
  pack AlControl_write (mkAlControl SDS_SafeOp true false) = Ok [0x14; 0x00].
Proof. vm_compute. reflexivity. Qed.

Example al_control_unpack_short : unpack_from_slice AlControl_read [0x14] = Err ReadBufferTooShort.
Proof. vm_compute. reflexivity. Qed.

Example fmmu_decode_one :
  unpack_from_slice Fmmu_read
    [0; 0; 0; 0; 1; 0; 0; 3; 0; 0x10; 0; 1; 1; 0; 0; 0] =
  Ok (mkFmmu 0 1 0 3 0x1000 0 true false true).
Proof. vm_compute. reflexivity. Qed.

Example sm_decode_one :
  unpack_from_slice SyncManagerChannel_read [0x00; 0x10; 0x80; 0x00; 0x26; 0x00; 0x01; 0x00] =
  Ok (mkSyncManagerChannel 0x1000 0x80 (mkControl OM_Mailbox DIR_MasterWrite false true false)
    Status_default (mkEnable true false false false false false)).
Proof. vm_compute. reflexivity. Qed.
