(* ===== verification/WireSpec.v ===== *)
(** * What the wire layer promises

    The contract of the derive macros, for every struct and enum they accept,
    and the register images the main types have on the wire. *)
From S2P Require Import Prelude Wire Derive DeriveEnum EscTypes.
Import Struct Enum.

(** ** Definitions *)

(** Variants without attributes: [enum { A, B, C }]. *)
Definition implicit {T} (v : T) : VariantAttr T := mkVariant (fun _ => v) None false false [].

(** A control register of a sync manager, as a number. *)
Definition control_bits (c : Control) : Z :=
  match ctl_operation_mode c with OM_Normal => 0 | OM_Mailbox => 2 end +
  2 ^ 2 * match ctl_direction c with DIR_MasterRead => 0 | DIR_MasterWrite => 1 end +
  2 ^ 4 * Z.b2z (ctl_ecat_event_enable c) + 2 ^ 5 * Z.b2z (ctl_dls_user_event_enable c) +
  2 ^ 6 * Z.b2z (ctl_watchdog_enable c).

Definition status_bits (s : Status) : Z :=
  Z.b2z (st_has_write_event s) + 2 ^ 1 * Z.b2z (st_has_read_event s) +
  2 ^ 3 * Z.b2z (st_mailbox_full s) +
  2 ^ 4 * match st_buffer_state s with BS_First => 0 | BS_Second => 1 | BS_Third => 2 | BS_Next => 3 end +
  2 ^ 6 * Z.b2z (st_read_buffer_open s) + 2 ^ 7 * Z.b2z (st_write_buffer_open s).

Definition enable_bits (e : Enable) : Z :=
  Z.b2z (en_enable e) + 2 ^ 1 * Z.b2z (en_repeat e) +
  2 ^ 6 * Z.b2z (en_dc_event_bus_write e) + 2 ^ 7 * Z.b2z (en_dc_event_local_write e) +
  2 ^ 8 * Z.b2z (en_channel_pdi_disabled e) + 2 ^ 9 * Z.b2z (en_repeat_ack e).

(** ** Lemmas *)

Lemma layout_lookup lo ms hi i m :
  layout_wf lo ms hi -> ms !! i = Some m -> fm_skip m = false ->
  exists mid, meta_wf lo mid m /\ layout_wf mid (drop (S i) ms) hi.
Proof.
  intros Hl. revert i. induction Hl as [|lo m1 ms hi Hsk Hl IH|lo m1 ms mid hi Hsk Hm Hl IH];
    intros [|i] Hi Hs; cbn in Hi; try done.
  - congruence.
  - by apply IH.
  - injection Hi as ->. eauto.
  - destruct (IH i Hi Hs) as (mid' & [] & ?). exists mid'. split; [|done].
    destruct Hm. constructor; auto; lia.
Qed.

Lemma parse_variants_implicit {T} `{EqDecision T} acc ms ca df (vs : list T) :
  parse_variants acc ms ca df (implicit <$> vs) =
    Ok (ms ++ zip_with (fun v i => mkVariantMeta (fun _ => v) i false) vs (seqZ (acc + 1) (Z.of_nat (length vs))),
        ca, df).
Proof.
  revert acc ms. induction vs as [|v vs IH]; intros acc ms; [by rewrite app_nil_r|].
  rewrite fmap_cons. cbn [parse_variants implicit va_catch_all va_default va_alternatives
    va_discriminant length Nat.eqb negb andb last fmap list_fmap default]. msimpl.
  cbn [length] in *. rewrite IH, (seqZ_cons (acc + 1)) by lia. cbn [zip_with va_make].
  rewrite <- app_assoc. cbn [app]. rewrite Nat2Z.inj_succ, Z.pred_succ, Z.add_1_r. done.
Qed.

Lemma rust_discriminant_implicit {T} `{EqDecision T} (vs : list T) next i v :
  NoDup vs -> vs !! i = Some v -> rust_discriminant next (implicit <$> vs) v = Some (next + Z.of_nat i).
Proof.
  revert next i. induction vs as [|u vs IH]; intros next i Hnd Hi; [done|].
  apply NoDup_cons in Hnd as [Hni Hnd]. rewrite fmap_cons. cbn [rust_discriminant implicit
    va_discriminant va_make default]. destruct i as [|i]; cbn in Hi.
  - injection Hi as ->. rewrite decide_True by done. f_equal. lia.
  - rewrite decide_False.
    + rewrite (IH _ i) by done. f_equal. lia.
    + intros ->. apply Hni. by eapply list_elem_of_lookup_2.
Qed.

(** Reading the number [1 + i] finds the [i]-th variant. *)
Lemma find_implicit {T} (vs : list T) acc i v :
  vs !! i = Some v ->
  find (fun m => negb (vm_catch_all m) && (vm_discriminant m =? acc + Z.of_nat i))%bool
    (zip_with (fun v i => mkVariantMeta (fun _ => v) i false) vs (seqZ acc (Z.of_nat (length vs)))) =
  Some (mkVariantMeta (fun _ => v) (acc + Z.of_nat i) false).
Proof.
  revert acc i. induction vs as [|u vs IH]; intros acc i Hi; [done|].
  cbn [length]. rewrite (seqZ_cons acc) by lia. cbn [zip_with find vm_catch_all vm_discriminant negb andb].
  destruct i as [|i]; cbn in Hi.
  - injection Hi as ->. rewrite Z.add_0_r, Z.eqb_refl. done.
  - rewrite (proj2 (Z.eqb_neq _ _)) by lia.
    replace (acc + Z.of_nat (S i)) with (Z.succ acc + Z.of_nat i) by lia.
    rewrite Nat2Z.inj_succ, Z.pred_succ. by apply IH.
Qed.

Lemma control_encoding c : encoding (w:=Control_write) c = [control_bits c].
Proof. destruct c as [[] [] [] [] []]; vm_compute; reflexivity. Qed.

Lemma status_encoding s : encoding (w:=Status_write) s = [status_bits s].
Proof. destruct s as [[] [] [] [] [] []]; vm_compute; reflexivity. Qed.

Lemma enable_encoding e : encoding (w:=Enable_write) e = le_bytes 2 (enable_bits e).
Proof. destruct e as [[] [] [] [] [] []]; vm_compute; reflexivity. Qed.

Lemma control_bits_bound c : in_u 8 (control_bits c).
Proof. destruct c as [[] [] [] [] []]; vm_compute; intuition discriminate. Qed.

Lemma status_bits_bound s : in_u 8 (status_bits s).
Proof. destruct s as [[] [] [] [] [] []]; vm_compute; intuition discriminate. Qed.

Lemma enable_bits_bound e : in_u 16 (enable_bits e).
Proof. destruct e as [[] [] [] [] [] []]; vm_compute; intuition discriminate. Qed.

(** The numbers of the fields of a struct, one field at a time. *)
Ltac number_field :=
  lazymatch goal with
  | |- fields_ok (?m :: _) _ _ _ =>
      apply (fields_ok_cons m); [reflexivity|apply Nat.ltb_lt; reflexivity| |];
      [ cbn [f_codec bits_field bytes_field]; unfold c_u16, c_u32, c_rw;
        lazymatch goal with
        | |- field_ok _ CU8 _ _ => apply field_ok_u8; [apply Nat.leb_le; reflexivity|assumption]
        | |- field_ok _ CBool _ _ => apply field_ok_bool; apply Nat.leb_le; reflexivity
        | |- field_ok _ (COther Ty_u16 _ _) ?v _ =>
            exact (field_ok_wide m Ty_u16 u16_write u16_read (in_u 16) v
              ltac:(apply Nat.ltb_lt; reflexivity) ltac:(assumption) eq_refl)
        | |- field_ok _ (COther Ty_u32 _ _) ?v _ =>
            exact (field_ok_wide m Ty_u32 u32_write u32_read (in_u 32) v
              ltac:(apply Nat.ltb_lt; reflexivity) ltac:(assumption) eq_refl)
        end |]
  | |- fields_ok [] _ _ _ => constructor
  end.

Lemma fmmu_fields_ok v :
  Fmmu_valid v ->
  fields_ok (sm_fields (layout 16 Fmmu_fields)) Fmmu_fields
    (fm_logical_start_address v, (fm_length_bytes v, (fm_logical_start_bit v,
      (fm_logical_end_bit v, (fm_physical_start_address v, (fm_physical_start_bit v,
        (fm_read_enable v, (fm_write_enable v, (fm_enable v, tt)))))))))
    [(0%nat, le_val (le_bytes 4 (fm_logical_start_address v)));
     (32%nat, le_val (le_bytes 2 (fm_length_bytes v)));
     (48%nat, fm_logical_start_bit v); (56%nat, fm_logical_end_bit v);
     (64%nat, le_val (le_bytes 2 (fm_physical_start_address v)));
     (80%nat, fm_physical_start_bit v); (88%nat, Z.b2z (fm_read_enable v));
     (89%nat, Z.b2z (fm_write_enable v)); (96%nat, Z.b2z (fm_enable v))].
Proof.
  intros (? & ? & ? & ? & ? & ?).
  let ms := eval vm_compute in (sm_fields (layout 16 Fmmu_fields)) in
  change (sm_fields (layout 16 Fmmu_fields)) with ms.
  unfold Fmmu_fields. 
  do 9 number_field.
  constructor.
Qed.

Lemma sync_manager_fields_ok v :
  SyncManagerChannel_valid v ->
  fields_ok (sm_fields (layout 8 SyncManagerChannel_fields)) SyncManagerChannel_fields
    (smc_physical_start_address v, (smc_length_bytes v, (smc_control v, (smc_status v, (smc_enable v, tt)))))
    [(0%nat, le_val (le_bytes 2 (smc_physical_start_address v)));
     (16%nat, le_val (le_bytes 2 (smc_length_bytes v)));
     (32%nat, control_bits (smc_control v)); (40%nat, status_bits (smc_status v));
     (48%nat, le_val (encoding (w:=Enable_write) (smc_enable v)))].
Proof.
  intros (? & ?).
  let ms := eval vm_compute in (sm_fields (layout 8 SyncManagerChannel_fields)) in
  change (sm_fields (layout 8 SyncManagerChannel_fields)) with ms.
  unfold SyncManagerChannel_fields. do 2 number_field.
  apply (fields_ok_cons (mkFieldMeta Ty_path 32 40 4 5 0 false)); [done|cbn; lia| |].
  { apply (field_ok_narrow _ Ty_path Control_write Control_read (fun _ => True));
      [cbn; lia|done|done|apply control_encoding|apply control_bits_bound]. }
  apply (fields_ok_cons (mkFieldMeta Ty_path 40 48 5 6 0 false)); [done|cbn; lia| |].
  { apply (field_ok_narrow _ Ty_path Status_write Status_read (fun _ => True));
      [cbn; lia|done|done|apply status_encoding|apply status_bits_bound]. }
  apply (fields_ok_cons (mkFieldMeta Ty_path 48 64 6 8 0 false)); [done|cbn; lia| |constructor].
  apply (field_ok_wide _ Ty_path Enable_write Enable_read (fun _ => True)); [cbn; lia|done|done].
Qed.

(** The number a struct of [n] bytes is packed as. *)
Lemma layout_number n fs vs ns :
  (if parse_struct None (Some n) (f_attr <$> fs) is Ok _ then True else False) ->
  fields_ok (sm_fields (layout n fs)) fs vs ns ->
  le_val (struct_encoding (layout n fs) fs vs) = packed_num ns.
Proof.
  intros Hp Hf. apply layout_parses, parse_struct_wf in Hp.
  by destruct (struct_write_spec _ _ _ _ Hp Hf) as (_ & _ & _ & ?).
Qed.

(** [pack] of a type with a round trip. *)
Lemma pack_roundtrip {T} (w : WireWrite T) r valid `{!RoundTrip w r valid} v :
  valid v -> pack w v = Ok (encoding (w:=w) v).
Proof.
  intros Hv. unfold pack. rewrite (packed_len_eq (valid:=valid)) by done.
  rewrite (pack_encoding (valid:=valid)) by (done || by rewrite length_zeros).
  f_equal. apply splice_all. by rewrite (encoding_length (valid:=valid)), length_zeros.
Qed.

(** ** Properties *)

(** C29: every layout the struct macro accepts is sound: its fields
    lie inside the struct in declaration order without overlapping, a field of
    at most eight bits lies inside one byte, and a wider one is aligned to
    whole bytes at both ends. *)
Theorem layout_sound bits bytes attrs s i j m m' :
  parse_struct bits bytes attrs = Ok s ->
  sm_fields s !! i = Some m -> fm_skip m = false ->
  (fm_bit_start m <= fm_bit_end m <= sm_width_bits s)%nat /\
  ((0 < fm_bits_len m <= 8)%nat ->
     (8 * fm_byte_start m <= fm_bit_start m)%nat /\ (fm_bit_end m <= 8 * fm_byte_start m + 8)%nat) /\
  ((8 < fm_bits_len m)%nat ->
     fm_bit_start m = (8 * fm_byte_start m)%nat /\ fm_bit_end m = (8 * fm_byte_end m)%nat) /\
  ((i < j)%nat -> sm_fields s !! j = Some m' -> fm_skip m' = false ->
     (fm_bit_end m <= fm_bit_start m')%nat).
Proof.
  intros Hp%parse_struct_wf Hi Hs.
  destruct (layout_lookup _ _ _ _ _ Hp Hi Hs) as (mid & Hm & Hrest).
  pose proof (layout_wf_le _ _ _ Hrest) as Hle. pose proof Hm as [H1 H2 H3 H4 H5 H6].
  pose proof (Nat.div_mod (fm_bit_start m) 8 ltac:(lia)) as Hdiv. rewrite <- H3, <- H4 in Hdiv.
  split_and!; [lia|lia| | |].
  - intros Hn. destruct (H5 Hn) as [_ ?]. unfold fm_bits_len in *. lia.
  - intros Hw. destruct (H6 Hw) as (_ & ? & ? & ? & ?). lia.
  - intros Hij Hj Hs'. assert (drop (S i) (sm_fields s) !! (j - S i)%nat = Some m') as Hj'.
    { rewrite lookup_drop. rewrite <- Hj. f_equal. lia. }
    destruct (layout_lookup _ _ _ _ _ Hrest Hj' Hs') as (mid' & [? _ _ _ _ _] & _). lia.
Qed.

(** C27: for every accepted layout, a value whose
    fields fit their widths packs into exactly the size of the struct, as the
    little-endian number that has each field at its bit position; whatever
    follows those bytes, they unpack to the same value, and a buffer shorter
    than the struct is reported as such. *)
Theorem derived_struct_roundtrip bits bytes attrs s fs vs ns :
  parse_struct bits bytes attrs = Ok s -> fields_ok (sm_fields s) fs vs ns ->
  exists b, pack (struct_write s fs) vs = Ok b /\ length b = size_bytes s /\
    le_val b = packed_num ns /\
    (forall t, unpack_from_slice (struct_read s fs) (b ++ t) = Ok vs) /\
    (forall k, (k < size_bytes s)%nat ->
      unpack_from_slice (struct_read s fs) (take k b) = Err ReadBufferTooShort).
Proof.
  intros Hp Hf. pose proof (struct_roundtrip _ _ _ s fs Hp) as RT.
  assert (struct_valid s fs vs) as Hv by by exists ns.
  destruct (struct_write_spec s fs vs ns (parse_struct_wf _ _ _ _ Hp) Hf) as (_ & Hl & _ & Hn).
  pose proof (struct_roundtrip bits bytes attrs s fs Hp) as RT'. clear RT'.
  exists (struct_encoding s fs vs). split_and!; [|done|done| |].
  - by rewrite (pack_roundtrip _ _ (struct_valid s fs)
      (RoundTrip0:=struct_roundtrip bits bytes attrs s fs Hp) vs Hv).
  - intros t. by apply (unpack_encoding (RoundTrip:=struct_roundtrip bits bytes attrs s fs Hp)).
  - intros k Hk. apply struct_read_short. rewrite length_take. lia.
Qed.

(** [buffer()] of an array of items of more than a byte cannot hold the array: what
    it is filled with never decodes. *)
Lemma array_unpack_short {T} n (r : WireRead T) buf :
  (length buf < PACKED_LEN (array_read n r))%nat ->
  unpack_from_slice (array_read n r) buf = Err ReadBufferTooShort.
Proof.
  cbn [array_read PACKED_LEN unpack_from_slice]. intros Hl.
  by rewrite (proj2 (get_range_None buf 0 _)) by lia.
Qed.

Lemma wide_array_buffer {T} n (r : WireRead T) :
  (0 < n)%nat -> (1 < PACKED_LEN r)%nat ->
  (BUFFER_LEN (array_read n r) < PACKED_LEN (array_read n r))%nat.
Proof. cbn [array_read PACKED_LEN BUFFER_LEN]; unfold array_buffer_len. nia. Qed.

(** C28: for every enum the macro accepts whose discriminants are distinct and in the
    range of the repr and which, when no variant catches all, has them all written
    out (those the macro fills in are not those Rust gives the variants), and when one
    does, carries a payload in that one only: packing a value
    gives the bytes of a number of the repr's width from which the same value
    is read back; a number that is no discriminant is read as the catch-all
    variant with that number, or else as the default variant, or else refused. *)
Theorem derived_enum_roundtrip {T} `{EqDecision T} repr attrs payload (e : EnumMeta T) :
  parse_enum repr attrs = Ok e -> enum_wf attrs payload e = true ->
  (forall v, enum_valid attrs payload e v ->
    exists x, in_repr repr x = true /\
      pack (enum_write attrs payload e) v = Ok (le_bytes (repr_size repr) x) /\
      forall t, unpack_from_slice (enum_read e) (le_bytes (repr_size repr) x ++ t) = Ok v) /\
  (forall y t, in_repr repr y = true -> y ∉ arms e ->
    unpack_from_slice (enum_read e) (le_bytes (repr_size repr) y ++ t) =
      match em_catch_all e, em_default_variant e with
      | Some c, _ => Ok (vm_make c y)
      | None, Some d => Ok (vm_make d 0)
      | None, None => Err InvalidValue
      end).
Proof.
  intros Hp Hwf. assert (em_repr e = repr) as <-.
  { unfold parse_enum in Hp. destruct repr; try done;
      by apply bind_ok in Hp as ([[? ?] ?] & _ & [= <-]). }
  split.
  - intros v Hv. destruct (enum_num_spec _ _ _ _ _ Hp Hwf Hv) as (x & Hx & Hin & Hraw).
    set (RT := enum_roundtrip (em_repr e) attrs payload e Hp Hwf).
    assert (encoding (RoundTrip:=RT) v = le_bytes (repr_size (em_repr e)) x) as He.
    { unfold encoding, RT, enum_roundtrip. by rewrite Hx. }
    exists x. rewrite <- He. split_and!; [done| |].
    + by rewrite (pack_roundtrip _ _ _ (RoundTrip0:=RT) v Hv).
    + intros t. by apply (unpack_encoding (RoundTrip:=RT)).
  - intros y t Hy Hni. cbn [enum_read unpack_from_slice].
    rewrite get_range_0 by (rewrite length_app, length_le_bytes; lia). cbn [ok_or]. msimpl.
    rewrite <- (length_le_bytes (repr_size (em_repr e)) y) at 1. rewrite take_app_length.
    rewrite raw_of_le_bytes by (done || (unfold enum_wf in Hwf; bool_prop; lia)).
    unfold from_raw. destruct (find _ _) as [m|] eqn:Hf; [|done]. exfalso. apply Hni.
    apply find_some in Hf as [Hm Hd]. bool_prop. apply list_elem_of_fmap. exists m.
    split; [congruence|]. apply list_elem_of_filter. by rewrite list_elem_of_In.
Qed.

(** when the variants have no written
    discriminants the two derived directions disagree: the [i]-th variant packs
    as [i], as in Rust, but [i] reads as the variant before it, and the packed
    first variant is refused. *)
Theorem implicit_discriminants_disagree {T} `{EqDecision T} (vs : list T) e i v :
  parse_enum R_u8 (implicit <$> vs) = Ok e -> NoDup vs -> (length vs < 256)%nat ->
  vs !! i = Some v ->
  pack (enum_write (implicit <$> vs) no_payload e) v = Ok [Z.of_nat i] /\
  unpack_from_slice (enum_read e) [Z.of_nat i] =
    match i with O => Err InvalidValue | S j => ok_or (vs !! j) InvalidValue end.
Proof.
  unfold parse_enum. rewrite parse_variants_implicit. msimpl. intros [= <-] Hnd Hlen Hi.
  assert (in_u 8 (Z.of_nat i)) as Hu.
  { apply lookup_lt_Some in Hi. split; [lia|]. change (2 ^ 8) with 256. lia. }
  assert (le_bytes 1 (Z.of_nat i) = [Z.of_nat i]) as Hb.
  { cbn. f_equal. change (2 ^ 8) with 256 in Hu. apply Z.mod_small. unfold in_u in Hu. lia. }
  split.
  - unfold pack, enum_write, enum_num. cbn [pack_to_slice_unchecked packed_len em_repr repr_size em_catch_all].
    rewrite (rust_discriminant_implicit vs 0 i v Hnd Hi). cbn -[le_bytes]. by rewrite Z.add_0_l, Hb.
  - assert (raw_of_bytes R_u8 [Z.of_nat i] = Z.of_nat i) as Hraw by (cbn [raw_of_bytes repr_signed le_val]; lia).
    unfold enum_read. cbn [unpack_from_slice em_repr repr_size].
    rewrite get_range_0 by (cbn; lia). cbn [ok_or take]. msimpl. rewrite Hraw.
    unfold from_raw. cbn [em_variants em_catch_all em_default_variant app]. rewrite Z.add_0_l.
    destruct i as [|j].
    + destruct (find _ _) as [m|] eqn:Hf; [exfalso|done]. apply find_some in Hf as [Hm Hd].
      rewrite <- list_elem_of_In in Hm. apply elem_of_zip_with in Hm as (u & k & -> & _ & Hk).
      apply elem_of_seqZ in Hk. cbn in Hd. apply Z.eqb_eq in Hd. lia.
    + assert (is_Some (vs !! j)) as [u Hj].
      { apply lookup_lt_is_Some. apply lookup_lt_Some in Hi. lia. }
      replace (Z.of_nat (S j)) with (1 + Z.of_nat j) by lia. rewrite (find_implicit vs 1 j u Hj), Hj.
      done.
Qed.

(** an FMMU register packs as the 16 bytes of the number that
    has each of its fields at the bit position the EtherCAT register map gives
    it, and unpacks to the same FMMU. *)
Theorem fmmu_on_wire v :
  Fmmu_valid v ->
  exists b, pack Fmmu_write v = Ok b /\ length b = 16%nat /\
    le_val b = fm_logical_start_address v + 2 ^ 32 * fm_length_bytes v +
      2 ^ 48 * fm_logical_start_bit v + 2 ^ 56 * fm_logical_end_bit v +
      2 ^ 64 * fm_physical_start_address v + 2 ^ 80 * fm_physical_start_bit v +
      2 ^ 88 * Z.b2z (fm_read_enable v) + 2 ^ 89 * Z.b2z (fm_write_enable v) +
      2 ^ 96 * Z.b2z (fm_enable v) /\
    unpack_from_slice Fmmu_read b = Ok v.
Proof.
  intros Hv. exists (encoding (w:=Fmmu_write) v). split_and!.
  - by apply (pack_roundtrip Fmmu_write Fmmu_read Fmmu_valid).
  - by rewrite (encoding_length (valid:=Fmmu_valid)).
  - change (encoding v) with (struct_encoding (layout 16 Fmmu_fields) Fmmu_fields
      (fm_logical_start_address v, (fm_length_bytes v, (fm_logical_start_bit v,
        (fm_logical_end_bit v, (fm_physical_start_address v, (fm_physical_start_bit v,
          (fm_read_enable v, (fm_write_enable v, (fm_enable v, tt)))))))))).
    rewrite (layout_number 16 Fmmu_fields _ _ I (fmmu_fields_ok v Hv)).
    destruct Hv as (? & ? & ? & ? & ? & ?). cbn [packed_num].
    rewrite !le_val_le_bytes_small by done. unfold Z.of_nat. cbn [Pos.of_succ_nat Pos.succ]. lia.
  - rewrite <- (app_nil_r (encoding v)). by apply (unpack_encoding (valid:=Fmmu_valid)).
Qed.

(** A sync manager channel packs as 8 bytes: start
    address, length, control, status and enable registers in that order, each
    flag at its bit, and unpacks to the same channel. *)
Theorem sync_manager_on_wire v :
  SyncManagerChannel_valid v ->
  exists b, pack SyncManagerChannel_write v = Ok b /\ length b = 8%nat /\
    le_val b = smc_physical_start_address v + 2 ^ 16 * smc_length_bytes v +
      2 ^ 32 * control_bits (smc_control v) + 2 ^ 40 * status_bits (smc_status v) +
      2 ^ 48 * enable_bits (smc_enable v) /\
    unpack_from_slice SyncManagerChannel_read b = Ok v.
Proof.
  intros Hv. exists (encoding (w:=SyncManagerChannel_write) v). split_and!.
  - by apply (pack_roundtrip SyncManagerChannel_write SyncManagerChannel_read SyncManagerChannel_valid).
  - by rewrite (encoding_length (valid:=SyncManagerChannel_valid)).
  - change (encoding v) with (struct_encoding (layout 8 SyncManagerChannel_fields)
      SyncManagerChannel_fields (smc_physical_start_address v, (smc_length_bytes v,
        (smc_control v, (smc_status v, (smc_enable v, tt)))))).
    rewrite (layout_number 8 SyncManagerChannel_fields _ _ I (sync_manager_fields_ok v Hv)).
    destruct Hv as (? & ?). cbn [packed_num]. rewrite enable_encoding.
    pose proof (enable_bits_bound (smc_enable v)).
    rewrite !le_val_le_bytes_small by done. unfold Z.of_nat. cbn [Pos.of_succ_nat Pos.succ]. lia.
  - rewrite <- (app_nil_r (encoding v)). by apply (unpack_encoding (valid:=SyncManagerChannel_valid)).
Qed.

(** ** Witnesses *)

Lemma layout_sound_witness :
  let s := layout 16 Fmmu_fields in
  (* the length field of an FMMU and its read-enable bit *)
  exists m m', sm_fields s !! 1%nat = Some m /\ sm_fields s !! 6%nat = Some m' /\
    fm_bit_start m = (8 * fm_byte_start m)%nat /\ (fm_bit_end m <= fm_bit_start m')%nat.
Proof.
  intros s. do 2 eexists. do 2 (split; [vm_compute; reflexivity|]).
  edestruct (layout_sound None (Some 16%nat) (f_attr <$> Fmmu_fields) s 1 6) as (_ & _ & H1 & H2);
    [vm_compute; reflexivity..|]. split.
  - apply H1. apply Nat.ltb_lt. reflexivity.
  - apply H2; [lia|vm_compute; reflexivity|reflexivity].
Defined.

(** An FMMU with distinct fields. *)
Definition sample_fmmu : Fmmu := mkFmmu 0x01020304 0x20 1 6 0x1100 2 true false true.

Lemma sample_fmmu_valid : Fmmu_valid sample_fmmu.
Proof. repeat split; cbn; lia. Qed.

Lemma derived_struct_roundtrip_witness :
  exists b, pack (struct_write (layout 16 Fmmu_fields) Fmmu_fields)
    (0x01020304, (0x20, (1, (6, (0x1100, (2, (true, (false, (true, tt))))))))) = Ok b /\
    length b = 16%nat.
Proof.
  destruct (derived_struct_roundtrip None (Some 16%nat) (f_attr <$> Fmmu_fields) _ Fmmu_fields _ _
    (layout_parses 16 Fmmu_fields I) (fmmu_fields_ok sample_fmmu sample_fmmu_valid))
    as (b & H1 & H2 & _). exists b. split; [exact H1|rewrite H2; reflexivity].
Defined.

Lemma derived_enum_roundtrip_witness :
  exists x, pack OperationMode_write OM_Mailbox = Ok [x] /\
    unpack_from_slice OperationMode_read [x] = Ok OM_Mailbox /\
    unpack_from_slice OperationMode_read [1] = Ok OM_Normal.
Proof.
  destruct (derived_enum_roundtrip R_u8 OperationMode_attrs no_payload OperationMode_meta
    eq_refl eq_refl) as [H1 H2].
  destruct (H1 OM_Mailbox) as (x & Hx & Hp & Hu); [valid_variant|].
  exists (x mod 256). split; [exact Hp|]. split; [apply (Hu [])|].
  apply (H2 1 [] eq_refl). vm_compute. intros H.
  repeat (apply elem_of_cons in H as [[=]|H]). by apply elem_of_nil in H.
Defined.

(** [enum { No, Yes }]: [Yes] is sent as 1, and 1 is read as [No]. *)
Lemma implicit_discriminants_disagree_witness :
  exists e, parse_enum R_u8 (implicit <$> [false; true]) = Ok e /\
    pack (enum_write (implicit <$> [false; true]) no_payload e) true = Ok [1] /\
    unpack_from_slice (enum_read e) [1] = Ok false.
Proof.
  eexists. split; [vm_compute; reflexivity|].
  apply (implicit_discriminants_disagree [false; true] _ 1 true); try reflexivity.
  - repeat constructor; set_solver.
  - cbn. lia.
Defined.

Lemma fmmu_on_wire_witness :
  exists b, pack Fmmu_write sample_fmmu = Ok b /\ unpack_from_slice Fmmu_read b = Ok sample_fmmu.
Proof.
  destruct (fmmu_on_wire sample_fmmu) as (b & H1 & _ & _ & H2); [repeat split; cbn; lia|].
  exists b. split; [exact H1|exact H2].
Defined.

Lemma sync_manager_on_wire_witness :
  let v := mkSyncManagerChannel 0x1000 0x80 (mkControl OM_Mailbox DIR_MasterWrite true false true)
    Status_default (mkEnable true false false false false false) in
  exists b, pack SyncManagerChannel_write v = Ok b /\ unpack_from_slice SyncManagerChannel_read b = Ok v.
Proof.
  intros v. destruct (sync_manager_on_wire v) as (b & H1 & _ & _ & H2); [repeat split; cbn; lia|].
  exists b. split; [exact H1|exact H2].
Defined.
