(* ===== verification/SiiTypes.v ===== *)
(** * SubDevice Information Interface types ([eeprom/types.rs])

    The control and request words of the EEPROM interface and the records found
    in the EEPROM's categories. *)
From S2P Require Import Prelude Wire Derive DeriveEnum Crates EscTypes.
Import Struct Enum.

(** ** Definitions *)

Inductive SiiOwner :=
| SO_Master | SO_Pdi.

#[export] Instance SiiOwner_eq_dec : EqDecision SiiOwner.
Proof. solve_decision. Defined.

Definition SiiOwner_attrs : list (VariantAttr SiiOwner) :=
  [dflt SO_Master 0x00; plain SO_Pdi 0x01].
Definition SiiOwner_meta := derive_enum R_u8 SiiOwner_attrs.
Definition SiiOwner_write := enum_write SiiOwner_attrs no_payload SiiOwner_meta.
Definition SiiOwner_read := enum_read SiiOwner_meta.

Inductive SiiAccess :=
| SA_ReadOnly | SA_ReadWrite.

#[export] Instance SiiAccess_eq_dec : EqDecision SiiAccess.
Proof. solve_decision. Defined.

Definition SiiAccess_attrs : list (VariantAttr SiiAccess) :=
  [dflt SA_ReadOnly 0x00; plain SA_ReadWrite 0x01].
Definition SiiAccess_meta := derive_enum R_u8 SiiAccess_attrs.
Definition SiiAccess_write := enum_write SiiAccess_attrs no_payload SiiAccess_meta.
Definition SiiAccess_read := enum_read SiiAccess_meta.

Inductive SiiReadSize :=
| SRS_Octets4 | SRS_Octets8.

#[export] Instance SiiReadSize_eq_dec : EqDecision SiiReadSize.
Proof. solve_decision. Defined.

Definition SiiReadSize_attrs : list (VariantAttr SiiReadSize) :=
  [dflt SRS_Octets4 0x00; plain SRS_Octets8 0x01].
Definition SiiReadSize_meta := derive_enum R_u8 SiiReadSize_attrs.
Definition SiiReadSize_write := enum_write SiiReadSize_attrs no_payload SiiReadSize_meta.
Definition SiiReadSize_read := enum_read SiiReadSize_meta.

Definition chunk_len (s : SiiReadSize) : Z := match s with SRS_Octets4 => 4 | SRS_Octets8 => 8 end.

Inductive SiiAddressSize :=
| SAS_U8 | SAS_U16.

#[export] Instance SiiAddressSize_eq_dec : EqDecision SiiAddressSize.
Proof. solve_decision. Defined.

Definition SiiAddressSize_attrs : list (VariantAttr SiiAddressSize) :=
  [dflt SAS_U8 0x00; plain SAS_U16 0x01].
Definition SiiAddressSize_meta := derive_enum R_u8 SiiAddressSize_attrs.
Definition SiiAddressSize_write := enum_write SiiAddressSize_attrs no_payload SiiAddressSize_meta.
Definition SiiAddressSize_read := enum_read SiiAddressSize_meta.

Record SiiControl := mkSiiControl {
  sii_access : SiiAccess;
  sii_emulate_sii : bool;
  sii_read_size : SiiReadSize;
  sii_address_type : SiiAddressSize;
  sii_read : bool;
  sii_write : bool;
  sii_reload : bool;
  sii_checksum_error : bool;
  sii_device_info_error : bool;
  sii_command_error : bool;
  sii_write_error : bool;
  sii_busy : bool;
}.

Definition SiiControl_fields : list Field :=
  [bits_field (c_rw SiiAccess_write SiiAccess_read) SA_ReadOnly 1 0 0;
   bits_field CBool false 1 4 0;
   bits_field (c_rw SiiReadSize_write SiiReadSize_read) SRS_Octets4 1 0 0;
   bits_field (c_rw SiiAddressSize_write SiiAddressSize_read) SAS_U8 1 0 0;
   bits_field CBool false 1 0 0;
   bits_field CBool false 1 0 0;
   bits_field CBool false 1 0 0;
   bits_field CBool false 1 0 0;
   bits_field CBool false 1 0 0;
   bits_field CBool false 1 0 0;
   bits_field CBool false 1 0 0;
   bits_field CBool false 1 0 0].
Definition SiiControl_write : WireWrite SiiControl :=
  derive_write 2 SiiControl_fields (fun v =>
    (sii_access v, (sii_emulate_sii v, (sii_read_size v, (sii_address_type v, (sii_read v, (sii_write v, (sii_reload v, (sii_checksum_error v, (sii_device_info_error v, (sii_command_error v, (sii_write_error v, (sii_busy v, tt))))))))))))).
Definition SiiControl_read : WireRead SiiControl :=
  derive_read 2 SiiControl_fields
    (fun '(a, (b, (c, (d, (e, (f, (g, (h, (i, (j, (k, (l, _)))))))))))) =>
      mkSiiControl a b c d e f g h i j k l).

#[export] Instance SiiControl_eq_dec : EqDecision SiiControl.
Proof. solve_decision. Defined.

Definition SiiControl_default : SiiControl :=
  mkSiiControl SA_ReadOnly false SRS_Octets4 SAS_U8
    false false false false false false false false.

Definition has_error (c : SiiControl) : bool :=
  sii_checksum_error c || sii_device_info_error c || sii_write_error c.

Definition error_reset (c : SiiControl) : SiiControl :=
  mkSiiControl (sii_access c) (sii_emulate_sii c) (sii_read_size c) (sii_address_type c)
    (sii_read c) (sii_write c) (sii_reload c) false false false false (sii_busy c).

(** [SiiControl::read()] and [SiiControl::write()]. *)
Definition SiiControl_for_read : SiiControl :=
  mkSiiControl SA_ReadOnly false SRS_Octets4 SAS_U8
    true false false false false false false false.
Definition SiiControl_for_write : SiiControl :=
  mkSiiControl SA_ReadWrite false SRS_Octets4 SAS_U8
    false true false false false false false false.

Record SiiRequest := mkSiiRequest {
  sr_control : SiiControl;
  sr_address : Z;
}.

Definition SiiRequest_fields : list Field :=
  [bytes_field (c_rw SiiControl_write SiiControl_read) SiiControl_default 2 0 0;
   bytes_field_bit_skips c_u16 0 2 0 16].
Definition SiiRequest_write : WireWrite SiiRequest :=
  derive_write 6 SiiRequest_fields (fun v => (sr_control v, (sr_address v, tt))).
Definition SiiRequest_read : WireRead SiiRequest :=
  derive_read 6 SiiRequest_fields (fun '(a, (b, _)) => mkSiiRequest a b).

Definition SiiRequest_for_read (address : Z) : SiiRequest := mkSiiRequest SiiControl_for_read address.
Definition SiiRequest_for_write (address : Z) : SiiRequest := mkSiiRequest SiiControl_for_write address.

Inductive SiiCoding :=
| SC_PdiControl | SC_PdiConfiguration | SC_SyncImpulseLen | SC_PdiConfiguration2
| SC_ConfiguredStationAlias | SC_Checksum | SC_VendorId | SC_ProductCode | SC_RevisionNumber
| SC_SerialNumber | SC_Reserved | SC_BootstrapReceiveMailboxOffset
| SC_BootstrapReceiveMailboxSize | SC_BootstrapSendMailboxOffset | SC_BootstrapSendMailboxSize
| SC_StandardReceiveMailboxOffset | SC_StandardReceiveMailboxSize
| SC_StandardSendMailboxOffset | SC_StandardSendMailboxSize | SC_MailboxProtocol | SC_Size
| SC_Version.

#[export] Instance SiiCoding_eq_dec : EqDecision SiiCoding.
Proof. solve_decision. Defined.

Definition SiiCoding_attrs : list (VariantAttr SiiCoding) :=
  [plain SC_PdiControl 0x0000; plain SC_PdiConfiguration 0x0001;
   plain SC_SyncImpulseLen 0x0002; plain SC_PdiConfiguration2 0x0003;
   plain SC_ConfiguredStationAlias 0x0004; plain SC_Checksum 0x0007;
   plain SC_VendorId 0x0008; plain SC_ProductCode 0x000a; plain SC_RevisionNumber 0x000c;
   plain SC_SerialNumber 0x000e; plain SC_Reserved 0x0010;
   plain SC_BootstrapReceiveMailboxOffset 0x0014;
   plain SC_BootstrapReceiveMailboxSize 0x0015; plain SC_BootstrapSendMailboxOffset 0x0016;
   plain SC_BootstrapSendMailboxSize 0x0017; plain SC_StandardReceiveMailboxOffset 0x0018;
   plain SC_StandardReceiveMailboxSize 0x0019; plain SC_StandardSendMailboxOffset 0x001a;
   plain SC_StandardSendMailboxSize 0x001b; plain SC_MailboxProtocol 0x001c;
   plain SC_Size 0x003e; plain SC_Version 0x003f].
Definition SiiCoding_meta := derive_enum R_u16 SiiCoding_attrs.
Definition SiiCoding_read := enum_read SiiCoding_meta.

(** [coding as u16] *)
Definition SiiCoding_u16 (c : SiiCoding) : Z :=
  match c with
  | SC_PdiControl => 0x0000
  | SC_PdiConfiguration => 0x0001
  | SC_SyncImpulseLen => 0x0002
  | SC_PdiConfiguration2 => 0x0003
  | SC_ConfiguredStationAlias => 0x0004
  | SC_Checksum => 0x0007
  | SC_VendorId => 0x0008
  | SC_ProductCode => 0x000a
  | SC_RevisionNumber => 0x000c
  | SC_SerialNumber => 0x000e
  | SC_Reserved => 0x0010
  | SC_BootstrapReceiveMailboxOffset => 0x0014
  | SC_BootstrapReceiveMailboxSize => 0x0015
  | SC_BootstrapSendMailboxOffset => 0x0016
  | SC_BootstrapSendMailboxSize => 0x0017
  | SC_StandardReceiveMailboxOffset => 0x0018
  | SC_StandardReceiveMailboxSize => 0x0019
  | SC_StandardSendMailboxOffset => 0x001a
  | SC_StandardSendMailboxSize => 0x001b
  | SC_MailboxProtocol => 0x001c
  | SC_Size => 0x003e
  | SC_Version => 0x003f
  end.

Inductive CategoryType :=
| CT_Nop | CT_DeviceSpecific | CT_Strings | CT_DataTypes | CT_General | CT_Fmmu
| CT_SyncManager | CT_FmmuExtended | CT_SyncUnit | CT_TxPdo | CT_RxPdo | CT_DistributedClock
| CT_End.

#[export] Instance CategoryType_eq_dec : EqDecision CategoryType.
Proof. solve_decision. Defined.

Definition CategoryType_attrs : list (VariantAttr CategoryType) :=
  [dflt CT_Nop 0; alts CT_DeviceSpecific 1 [2; 3; 4; 5; 6; 7; 8; 9]; plain CT_Strings 10;
   plain CT_DataTypes 20; plain CT_General 30; plain CT_Fmmu 40; plain CT_SyncManager 41;
   plain CT_FmmuExtended 42; plain CT_SyncUnit 43; plain CT_TxPdo 50; plain CT_RxPdo 51;
   plain CT_DistributedClock 60; plain CT_End 0xffff].
Definition CategoryType_meta := derive_enum R_u16 CategoryType_attrs.
Definition CategoryType_read := enum_read CategoryType_meta.

(** The generated [CategoryType::from(u16)]: total, as [Nop] is the default variant. *)
Definition CategoryType_of_u16 (raw : Z) : CategoryType :=
  match from_raw CategoryType_meta raw with Ok c => c | _ => CT_Nop end.

Inductive PdoType := Pdo_Tx | Pdo_Rx.
Definition PdoType_category (p : PdoType) : CategoryType :=
  match p with Pdo_Tx => CT_TxPdo | Pdo_Rx => CT_RxPdo end.

Inductive FmmuUsage :=
| FU_Unused | FU_Outputs | FU_Inputs | FU_SyncManagerStatus.

#[export] Instance FmmuUsage_eq_dec : EqDecision FmmuUsage.
Proof. solve_decision. Defined.

Definition FmmuUsage_attrs : list (VariantAttr FmmuUsage) :=
  [alts FU_Unused 0x00 [0xff]; plain FU_Outputs 0x01; plain FU_Inputs 0x02;
   plain FU_SyncManagerStatus 0x03].
Definition FmmuUsage_meta := derive_enum R_u8 FmmuUsage_attrs.
Definition FmmuUsage_read := enum_read FmmuUsage_meta.

Record FmmuEx := mkFmmuEx {
  fex_sync_manager : Z;
}.

Definition FmmuEx_fields : list Field :=
  [bytes_field CU8 0 1 1 1].
Definition FmmuEx_read : WireRead FmmuEx :=
  derive_read 3 FmmuEx_fields (fun '(a, _) => mkFmmuEx a).

Inductive PortStatus :=
| PS_Unused | PS_Mii | PS_Reserved | PS_Ebus | PS_FastHotConnect.

#[export] Instance PortStatus_eq_dec : EqDecision PortStatus.
Proof. solve_decision. Defined.

Definition PortStatus_attrs : list (VariantAttr PortStatus) :=
  [dflt PS_Unused 0x00; plain PS_Mii 0x01; plain PS_Reserved 0x02; plain PS_Ebus 0x03;
   plain PS_FastHotConnect 0x04].
Definition PortStatus_meta := derive_enum R_u8 PortStatus_attrs.
Definition PortStatus_read := enum_read PortStatus_meta.

(** The generated [PortStatus::from(u8)]. *)
Definition PortStatus_of_u8 (raw : Z) : PortStatus :=
  match from_raw PortStatus_meta raw with Ok c => c | _ => PS_Unused end.

(** [PortStatuses]: one nibble per port. *)
Definition PortStatuses_read : WireRead (list PortStatus) :=
  mkWireRead 2 2 (fun buf =>
    match get_range buf 0 2 with
    | Some [lo; hi] =>
        let p1 := Z.land lo 0x0f in
        let p2 := Z.land (Z.shiftr lo 4) 0x0f in
        let p3 := Z.land hi 0x0f in
        let p4 := Z.land (Z.shiftr hi 4) 0x0f in
        Ok [PortStatus_of_u8 p1; PortStatus_of_u8 p2; PortStatus_of_u8 p3; PortStatus_of_u8 p4]
    | _ => Err ReadBufferTooShort
    end).

Inductive SyncManagerType :=
| SMT_Unknown | SMT_MailboxWrite | SMT_MailboxRead | SMT_ProcessDataWrite | SMT_ProcessDataRead.

#[export] Instance SyncManagerType_eq_dec : EqDecision SyncManagerType.
Proof. solve_decision. Defined.

Definition SyncManagerType_attrs : list (VariantAttr SyncManagerType) :=
  [dflt SMT_Unknown 0x00; plain SMT_MailboxWrite 0x01; plain SMT_MailboxRead 0x02;
   plain SMT_ProcessDataWrite 0x03; plain SMT_ProcessDataRead 0x04].
Definition SyncManagerType_meta := derive_enum R_u8 SyncManagerType_attrs.
Definition SyncManagerType_read := enum_read SyncManagerType_meta.

(** *** [bitflags!] types *)

Definition ENABLE_SAFE_OP : Z := 0x01.
Definition ENABLE_NOT_LRW : Z := 0x02.
Definition MAILBOX_DLL : Z := 0x04.
Definition IDENT_AL_STATUS : Z := 0x08.
Definition IDENT_PHY_M : Z := 0x10.
Definition Flags_all : Z :=
  foldr Z.lor 0 [ENABLE_SAFE_OP; ENABLE_NOT_LRW; MAILBOX_DLL; IDENT_AL_STATUS; IDENT_PHY_M].

Definition ENABLE_SDO : Z := 0x01.
Definition ENABLE_SDO_INFO : Z := 0x02.
Definition ENABLE_PDO_ASSIGN : Z := 0x04.
Definition ENABLE_PDO_CONFIG : Z := 0x08.
Definition ENABLE_STARTUP_UPLOAD : Z := 0x10.
Definition ENABLE_COMPLETE_ACCESS : Z := 0x20.
Definition CoeDetails_all : Z :=
  foldr Z.lor 0 [ENABLE_SDO; ENABLE_SDO_INFO; ENABLE_PDO_ASSIGN; ENABLE_PDO_CONFIG;
    ENABLE_STARTUP_UPLOAD; ENABLE_COMPLETE_ACCESS].

Definition SM_ENABLE : Z := 0x01.
Definition SM_IS_FIXED : Z := 0x02.
Definition SM_IS_VIRTUAL : Z := 0x04.
Definition SM_OP_ONLY : Z := 0x08.
Definition SyncManagerEnable_all : Z :=
  foldr Z.lor 0 [SM_ENABLE; SM_IS_FIXED; SM_IS_VIRTUAL; SM_OP_ONLY].

Definition MP_AOE : Z := 0x01.
Definition MP_EOE : Z := 0x02.
Definition MP_COE : Z := 0x04.
Definition MP_FOE : Z := 0x08.
Definition MP_SOE : Z := 0x10.
Definition MP_VOE : Z := 0x20.
Definition MailboxProtocols_all : Z :=
  foldr Z.lor 0 [MP_AOE; MP_EOE; MP_COE; MP_FOE; MP_SOE; MP_VOE].

Section Types.
Context `{!Crates}.

(** [u8::unpack_from_slice(buf).and_then(|v| Self::from_bits(v).ok_or(InvalidValue))] *)
Definition bitflags_read (all : Z) : WireRead Z :=
  mkWireRead 1 1 (fun buf =>
    value ← unpack_from_slice u8_read buf;
    ok_or (from_bits all value) InvalidValue).

Definition Flags_read : WireRead Z := bitflags_read Flags_all.
Definition CoeDetails_read : WireRead Z := bitflags_read CoeDetails_all.
Definition SyncManagerEnable_read : WireRead Z := bitflags_read SyncManagerEnable_all.

(** Two bytes long, but only the first is looked at. *)
Definition MailboxProtocols_read : WireRead Z :=
  mkWireRead 2 2 (fun buf =>
    value ← ok_or (head buf) ReadBufferTooShort;
    ok_or (from_bits MailboxProtocols_all value) InvalidValue).

(** *** Category records *)

Record SiiGeneral := mkSiiGeneral {
  sg_group_string_idx : Z;
  sg_image_string_idx : Z;
  sg_order_string_idx : Z;
  sg_name_string_idx : Z;
  sg_coe_details : Z;
  sg_foe_enabled : bool;
  sg_eoe_enabled : bool;
  sg_flags : Z;
  sg_ebus_current : Z;
  sg_ports : list PortStatus;
  sg_physical_memory_addr : Z;
}.

Definition SiiGeneral_fields : list Field :=
  [bytes_field CU8 0 1 0 0;
   bytes_field CU8 0 1 0 0;
   bytes_field CU8 0 1 0 0;
   bytes_field CU8 0 1 0 1;
   bytes_field (c_ro CoeDetails_read) 0 1 0 0;
   bytes_field CBool false 1 0 0;
   bytes_field CBool false 1 0 3;
   bytes_field (c_ro Flags_read) 0 1 0 0;
   bytes_field c_i16 0 2 0 0;
   bytes_field (c_ro PortStatuses_read) [PS_Unused; PS_Unused; PS_Unused; PS_Unused] 2 0 0;
   bytes_field c_u16 0 2 0 0].
Definition SiiGeneral_read : WireRead SiiGeneral :=
  derive_read 18 SiiGeneral_fields
    (fun '(a, (b, (c, (d, (e, (f, (g, (h, (i, (j, (k, _))))))))))) =>
      mkSiiGeneral a b c d e f g h i j k).

Record SyncManager := mkSyncManager {
  sm_start_addr : Z;
  sm_length : Z;
  sm_control : Control;
  sm_enable : Z;
  sm_usage_type : SyncManagerType;
}.

Definition SyncManager_fields : list Field :=
  [bytes_field c_u16 0 2 0 0;
   bytes_field c_u16 0 2 0 0;
   bytes_field (c_rw Control_write Control_read) Control_default 1 0 1;
   bytes_field (c_ro SyncManagerEnable_read) 0 1 0 0;
   bytes_field (c_ro SyncManagerType_read) SMT_Unknown 1 0 0].
Definition SyncManager_read : WireRead SyncManager :=
  derive_read 8 SyncManager_fields
    (fun '(a, (b, (c, (d, (e, _))))) =>
      mkSyncManager a b c d e).

(** [SyncManager::usage_type()] *)
Definition usage_type (sm : SyncManager) : SyncManagerType :=
  if bool_decide (sm_usage_type sm <> SMT_Unknown) then sm_usage_type sm
  else match ctl_operation_mode (sm_control sm), ctl_direction (sm_control sm) with
    | OM_Normal, DIR_MasterRead => SMT_ProcessDataRead
    | OM_Normal, DIR_MasterWrite => SMT_ProcessDataWrite
    | OM_Mailbox, DIR_MasterRead => SMT_MailboxRead
    | OM_Mailbox, DIR_MasterWrite => SMT_MailboxWrite
    end.

Record Pdo := mkPdo {
  pdo_index : Z;
  pdo_num_entries : Z;
  pdo_sync_manager : Z;
  pdo_bit_len : Z;
}.

Definition Pdo_fields : list Field :=
  [bytes_field c_u16 0 2 0 0;
   bytes_field CU8 0 1 0 0;
   bytes_field CU8 0 1 0 4;
   skip_field c_u16 0].
Definition Pdo_read : WireRead Pdo :=
  derive_read 8 Pdo_fields (fun '(a, (b, (c, (d, _)))) => mkPdo a b c d).

Record PdoEntry := mkPdoEntry {
  pe_data_length_bits : Z;
}.

Definition PdoEntry_fields : list Field :=
  [bytes_field CU8 0 1 5 2].
Definition PdoEntry_read : WireRead PdoEntry :=
  derive_read 8 PdoEntry_fields (fun '(a, _) => mkPdoEntry a).

Record DefaultMailbox := mkDefaultMailbox {
  dm_subdevice_receive_offset : Z;
  dm_subdevice_receive_size : Z;
  dm_subdevice_send_offset : Z;
  dm_subdevice_send_size : Z;
  dm_supported_protocols : Z;
}.

Definition DefaultMailbox_fields : list Field :=
  [bytes_field c_u16 0 2 0 0;
   bytes_field c_u16 0 2 0 0;
   bytes_field c_u16 0 2 0 0;
   bytes_field c_u16 0 2 0 0;
   bytes_field (c_ro MailboxProtocols_read) 0 2 0 0].
Definition DefaultMailbox_read : WireRead DefaultMailbox :=
  derive_read 10 DefaultMailbox_fields
    (fun '(a, (b, (c, (d, (e, _))))) =>
      mkDefaultMailbox a b c d e).

(** [!protocols.is_empty() && receive_size > 0 || send_size > 0], with the
    precedence of Rust. *)
Definition has_mailbox (m : DefaultMailbox) : bool :=
  negb (Z.eqb (dm_supported_protocols m) 0) && (0 <? dm_subdevice_receive_size m)
  || (0 <? dm_subdevice_send_size m).

End Types.

(** ** Round trips *)

#[export] Instance SiiAccess_roundtrip :
  RoundTrip SiiAccess_write SiiAccess_read (fun _ => True).
Proof. apply derive_enum_roundtrip; [vm_compute; reflexivity|]. intros [] _; valid_variant. Defined.

#[export] Instance SiiReadSize_roundtrip :
  RoundTrip SiiReadSize_write SiiReadSize_read (fun _ => True).
Proof. apply derive_enum_roundtrip; [vm_compute; reflexivity|]. intros [] _; valid_variant. Defined.

#[export] Instance SiiAddressSize_roundtrip :
  RoundTrip SiiAddressSize_write SiiAddressSize_read (fun _ => True).
Proof. apply derive_enum_roundtrip; [vm_compute; reflexivity|]. intros [] _; valid_variant. Defined.

#[export] Instance SiiOwner_roundtrip :
  RoundTrip SiiOwner_write SiiOwner_read (fun _ => True).
Proof. apply derive_enum_roundtrip; [vm_compute; reflexivity|]. intros [] _; valid_variant. Defined.

#[export] Instance SiiControl_roundtrip :
  RoundTrip SiiControl_write SiiControl_read (fun _ => True).
Proof.
  apply derive_roundtrip; [exact I|by intros []|].
  intros [a b s t c d e f g h i j] _. valid_fields; try done.
  - destruct a; vm_compute; reflexivity.
  - destruct s; vm_compute; reflexivity.
  - destruct t; vm_compute; reflexivity.
Defined.

#[export] Instance SiiRequest_roundtrip :
  RoundTrip SiiRequest_write SiiRequest_read (fun v => in_u 16 (sr_address v)).
Proof.
  apply derive_roundtrip; [exact I|by intros []|]. intros [] ?. valid_fields; done.
Defined.

(** ** The unit tests of the repository *)

Example sii_control_pack :
  pack SiiControl_write (mkSiiControl SA_ReadWrite false SRS_Octets8 SAS_U8
    false false false false false false false true) = Ok [0x41; 0x80].
Proof. vm_compute. reflexivity. Qed.

Example sii_request_read_pack :
  pack SiiRequest_write (SiiRequest_for_read 0x1234) = Ok [0x00; 0x01; 0x34; 0x12; 0x00; 0x00].
Proof. vm_compute. reflexivity. Qed.

(** The [coe_details] byte of this capture is zero and its reserved byte is not. *)
Example sii_general_ek1100 :
  unpack_from_slice (@SiiGeneral_read documented_crates)
    [2; 0; 1; 4; 2; 0; 0; 0; 0; 0; 0; 0; 48; 248; 3; 0; 0; 0] =
  Ok (mkSiiGeneral 2 0 1 4 0 false false 0 (-2000) [PS_Ebus; PS_Unused; PS_Unused; PS_Unused] 0).
Proof. vm_compute. reflexivity. Qed.

Example fmmu_ex : unpack_from_slice FmmuEx_read [0xaa; 0xbb; 0xcc] = Ok (mkFmmuEx 0xbb).
Proof. vm_compute. reflexivity. Qed.
