(* ===== verification/MailboxTypes.v ===== *)
(** * Mailbox and CoE message types

    [mailbox/mod.rs], [mailbox/coe/headers.rs], [mailbox/coe/services.rs] and
    [mailbox/coe/abort_code.rs]. *)
From S2P Require Import Prelude Wire Derive DeriveEnum.
Import Struct Enum.

(** ** Definitions *)

Inductive Priority :=
| PR_Lowest | PR_Low | PR_High | PR_Highest.

#[export] Instance Priority_eq_dec : EqDecision Priority.
Proof. solve_decision. Defined.

Definition Priority_attrs : list (VariantAttr Priority) :=
  [dflt PR_Lowest 0x00; plain PR_Low 0x01; plain PR_High 0x02; plain PR_Highest 0x03].
Definition Priority_meta := derive_enum R_u8 Priority_attrs.
Definition Priority_write := enum_write Priority_attrs no_payload Priority_meta.
Definition Priority_read := enum_read Priority_meta.

Inductive MailboxType :=
| MT_Err | MT_Aoe | MT_Eoe | MT_Coe | MT_Foe | MT_Soe | MT_VendorSpecific.

#[export] Instance MailboxType_eq_dec : EqDecision MailboxType.
Proof. solve_decision. Defined.

Definition MailboxType_attrs : list (VariantAttr MailboxType) :=
  [plain MT_Err 0x00; plain MT_Aoe 0x01; plain MT_Eoe 0x02; plain MT_Coe 0x03;
   plain MT_Foe 0x04; plain MT_Soe 0x05; plain MT_VendorSpecific 0x0f].
Definition MailboxType_meta := derive_enum R_u8 MailboxType_attrs.
Definition MailboxType_write := enum_write MailboxType_attrs no_payload MailboxType_meta.
Definition MailboxType_read := enum_read MailboxType_meta.

Record MailboxHeader := mkMailboxHeader {
  mh_length : Z;
  mh_priority : Priority;
  mh_mailbox_type : MailboxType;
  mh_counter : Z;
}.

Definition MailboxHeader_fields : list Field :=
  [bytes_field c_u16 0 2 0 2;
   bits_field (c_rw Priority_write Priority_read) PR_Lowest 2 6 0;
   bits_field (c_rw MailboxType_write MailboxType_read) MT_Err 4 0 0;
   bits_field CU8 0 3 0 1].
Definition MailboxHeader_write : WireWrite MailboxHeader :=
  derive_write 6 MailboxHeader_fields (fun v =>
    (mh_length v, (mh_priority v, (mh_mailbox_type v, (mh_counter v, tt))))).
Definition MailboxHeader_read : WireRead MailboxHeader :=
  derive_read 6 MailboxHeader_fields (fun '(a, (b, (c, (d, _)))) => mkMailboxHeader a b c d).

Definition MailboxHeader_valid (h : MailboxHeader) : Prop :=
  in_u 16 (mh_length h) /\ in_u 3 (mh_counter h).

(** *** [mailbox/coe/headers.rs] *)

Inductive CoeService :=
| CS_Emergency | CS_SdoRequest | CS_SdoResponse | CS_TxPdo | CS_RxPdo | CS_TxPdoRemoteRequest
| CS_RxPdoRemoteRequest | CS_SdoInformation.

#[export] Instance CoeService_eq_dec : EqDecision CoeService.
Proof. solve_decision. Defined.

Definition CoeService_attrs : list (VariantAttr CoeService) :=
  [plain CS_Emergency 0x01; plain CS_SdoRequest 0x02; plain CS_SdoResponse 0x03;
   plain CS_TxPdo 0x04; plain CS_RxPdo 0x05; plain CS_TxPdoRemoteRequest 0x06;
   plain CS_RxPdoRemoteRequest 0x07; plain CS_SdoInformation 0x08].
Definition CoeService_meta := derive_enum R_u8 CoeService_attrs.
Definition CoeService_write := enum_write CoeService_attrs no_payload CoeService_meta.
Definition CoeService_read := enum_read CoeService_meta.

Record CoeHeader := mkCoeHeader {
  ch_service : CoeService;
}.

Definition CoeHeader_fields : list Field :=
  [bits_field (c_rw CoeService_write CoeService_read) CS_Emergency 4 12 0].
Definition CoeHeader_write : WireWrite CoeHeader :=
  derive_write 2 CoeHeader_fields (fun v => (ch_service v, tt)).
Definition CoeHeader_read : WireRead CoeHeader :=
  derive_read 2 CoeHeader_fields (fun '(a, _) => mkCoeHeader a).

Inductive CoeCommand :=
| CC_Download | CC_Upload | CC_Abort | CC_UploadSegment.

#[export] Instance CoeCommand_eq_dec : EqDecision CoeCommand.
Proof. solve_decision. Defined.

Definition CoeCommand_attrs : list (VariantAttr CoeCommand) :=
  [plain CC_Download 0x01; plain CC_Upload 0x02; plain CC_Abort 0x04;
   plain CC_UploadSegment 0x03].
Definition CoeCommand_meta := derive_enum R_u8 CoeCommand_attrs.
Definition CoeCommand_write := enum_write CoeCommand_attrs no_payload CoeCommand_meta.
Definition CoeCommand_read := enum_read CoeCommand_meta.

Record SdoHeader := mkSdoHeader {
  sh_size_indicator : bool;
  sh_expedited_transfer : bool;
  sh_size : Z;
  sh_complete_access : bool;
  sh_command : CoeCommand;
  sh_index : Z;
  sh_sub_index : Z;
}.

Definition SdoHeader_fields : list Field :=
  [bits_field CBool false 1 0 0;
   bits_field CBool false 1 0 0;
   bits_field CU8 0 2 0 0;
   bits_field CBool false 1 0 0;
   bits_field (c_rw CoeCommand_write CoeCommand_read) CC_Download 3 0 0;
   bytes_field c_u16 0 2 0 0;
   bytes_field CU8 0 1 0 0].
Definition SdoHeader_write : WireWrite SdoHeader :=
  derive_write 4 SdoHeader_fields (fun v =>
    (sh_size_indicator v, (sh_expedited_transfer v, (sh_size v, (sh_complete_access v, (sh_command v, (sh_index v, (sh_sub_index v, tt)))))))).
Definition SdoHeader_read : WireRead SdoHeader :=
  derive_read 4 SdoHeader_fields
    (fun '(a, (b, (c, (d, (e, (f, (g, _))))))) =>
      mkSdoHeader a b c d e f g).

Definition SdoHeader_valid (h : SdoHeader) : Prop :=
  in_u 2 (sh_size h) /\ in_u 16 (sh_index h) /\ in_u 8 (sh_sub_index h).

Record SdoHeaderSegmented := mkSdoHeaderSegmented {
  shs_is_last_segment : bool;
  shs_segment_data_size : Z;
  shs_toggle : bool;
  shs_command : CoeCommand;
}.

Definition SdoHeaderSegmented_fields : list Field :=
  [bits_field CBool false 1 0 0;
   bits_field CU8 0 3 0 0;
   bits_field CBool false 1 0 0;
   bits_field (c_rw CoeCommand_write CoeCommand_read) CC_Download 3 0 0].
Definition SdoHeaderSegmented_write : WireWrite SdoHeaderSegmented :=
  derive_write 1 SdoHeaderSegmented_fields (fun v =>
    (shs_is_last_segment v, (shs_segment_data_size v, (shs_toggle v, (shs_command v, tt))))).
Definition SdoHeaderSegmented_read : WireRead SdoHeaderSegmented :=
  derive_read 1 SdoHeaderSegmented_fields
    (fun '(a, (b, (c, (d, _)))) =>
      mkSdoHeaderSegmented a b c d).

Inductive SdoInfoOpCode :=
| SIO_GetObjectDescriptionListRequest | SIO_GetObjectDescriptionListResponse
| SIO_GetObjectDescriptionRequest | SIO_GetObjectDescriptionResponse
| SIO_GetEntryDescriptionRequest | SIO_GetEntryDescriptionResponse | SIO_SdoInfoErrorRequest.

#[export] Instance SdoInfoOpCode_eq_dec : EqDecision SdoInfoOpCode.
Proof. solve_decision. Defined.

Definition SdoInfoOpCode_attrs : list (VariantAttr SdoInfoOpCode) :=
  [plain SIO_GetObjectDescriptionListRequest 0x01;
   plain SIO_GetObjectDescriptionListResponse 0x02;
   plain SIO_GetObjectDescriptionRequest 0x03; plain SIO_GetObjectDescriptionResponse 0x04;
   plain SIO_GetEntryDescriptionRequest 0x05; plain SIO_GetEntryDescriptionResponse 0x06;
   plain SIO_SdoInfoErrorRequest 0x07].
Definition SdoInfoOpCode_meta := derive_enum R_u8 SdoInfoOpCode_attrs.
Definition SdoInfoOpCode_write := enum_write SdoInfoOpCode_attrs no_payload SdoInfoOpCode_meta.
Definition SdoInfoOpCode_read := enum_read SdoInfoOpCode_meta.

Record SdoInfoHeader := mkSdoInfoHeader {
  sih_op_code : SdoInfoOpCode;
  sih_incomplete : bool;
  sih_fragments_left : Z;
}.

Definition SdoInfoHeader_fields : list Field :=
  [bits_field (c_rw SdoInfoOpCode_write SdoInfoOpCode_read) SIO_GetObjectDescriptionListRequest 7 0 0;
   bits_field CBool false 1 0 0;
   bytes_field_bit_skips c_u16 0 2 8 0].
Definition SdoInfoHeader_write : WireWrite SdoInfoHeader :=
  derive_write 4 SdoInfoHeader_fields (fun v =>
    (sih_op_code v, (sih_incomplete v, (sih_fragments_left v, tt)))).
Definition SdoInfoHeader_read : WireRead SdoInfoHeader :=
  derive_read 4 SdoInfoHeader_fields (fun '(a, (b, (c, _))) => mkSdoInfoHeader a b c).

Inductive SubIndex := Complete | Index (i : Z).

Definition complete_access (a : SubIndex) : bool := match a with Complete => true | _ => false end.
Definition sub_index (a : SubIndex) : Z := match a with Complete => 1 | Index i => i end.

(** *** [mailbox/coe/services.rs] *)

Definition MailboxHeader_default : MailboxHeader := mkMailboxHeader 0 PR_Lowest MT_Err 0.
Definition CoeHeader_default : CoeHeader := mkCoeHeader CS_Emergency.
Definition SdoHeader_default : SdoHeader := mkSdoHeader false false 0 false CC_Download 0 0.
Definition SdoHeaderSegmented_default : SdoHeaderSegmented :=
  mkSdoHeaderSegmented false 0 false CC_Download.
Definition SdoInfoHeader_default : SdoInfoHeader :=
  mkSdoInfoHeader SIO_GetObjectDescriptionListRequest false 0.

Record SdoExpedited := mkSdoExpedited {
  se_header : MailboxHeader;
  se_coe_header : CoeHeader;
  se_sdo_header : SdoHeader;
  se_data : bytes;
}.

Definition SdoExpedited_fields : list Field :=
  [bytes_field (c_rw MailboxHeader_write MailboxHeader_read) MailboxHeader_default 6 0 0;
   bytes_field (c_rw CoeHeader_write CoeHeader_read) CoeHeader_default 2 0 0;
   bytes_field (c_rw SdoHeader_write SdoHeader_read) SdoHeader_default 4 0 0;
   bytes_field (c_array 4) (zeros 4) 4 0 0].
Definition SdoExpedited_write : WireWrite SdoExpedited :=
  derive_write 16 SdoExpedited_fields (fun v =>
    (se_header v, (se_coe_header v, (se_sdo_header v, (se_data v, tt))))).
Definition SdoExpedited_read : WireRead SdoExpedited :=
  derive_read 16 SdoExpedited_fields (fun '(a, (b, (c, (d, _)))) => mkSdoExpedited a b c d).

Definition sdo_mailbox_header (counter : Z) : MailboxHeader :=
  mkMailboxHeader 0x0a PR_Lowest MT_Coe counter.

(** [len] is the number of bytes of [data] that hold the value. *)
Definition SdoExpedited_download (counter index : Z) (access : SubIndex) (data : bytes) (len : Z)
    : SdoExpedited :=
  mkSdoExpedited (sdo_mailbox_header counter) (mkCoeHeader CS_SdoRequest)
    (mkSdoHeader true true (sat_sub 4 len) (complete_access access) CC_Download index
      (sub_index access))
    data.

Record SdoNormal := mkSdoNormal {
  sn_header : MailboxHeader;
  sn_coe_header : CoeHeader;
  sn_sdo_header : SdoHeader;
}.

Definition SdoNormal_fields : list Field :=
  [bytes_field (c_rw MailboxHeader_write MailboxHeader_read) MailboxHeader_default 6 0 0;
   bytes_field (c_rw CoeHeader_write CoeHeader_read) CoeHeader_default 2 0 0;
   bytes_field (c_rw SdoHeader_write SdoHeader_read) SdoHeader_default 4 0 0].
Definition SdoNormal_write : WireWrite SdoNormal :=
  derive_write 12 SdoNormal_fields (fun v =>
    (sn_header v, (sn_coe_header v, (sn_sdo_header v, tt)))).
Definition SdoNormal_read : WireRead SdoNormal :=
  derive_read 12 SdoNormal_fields (fun '(a, (b, (c, _))) => mkSdoNormal a b c).

Definition SdoNormal_upload (counter index : Z) (access : SubIndex) : SdoNormal :=
  mkSdoNormal (sdo_mailbox_header counter) (mkCoeHeader CS_SdoRequest)
    (mkSdoHeader false false 0 (complete_access access) CC_Upload index (sub_index access)).

Record SdoSegmented := mkSdoSegmented {
  ss_header : MailboxHeader;
  ss_coe_header : CoeHeader;
  ss_sdo_header : SdoHeaderSegmented;
}.

Definition SdoSegmented_fields : list Field :=
  [bytes_field (c_rw MailboxHeader_write MailboxHeader_read) MailboxHeader_default 6 0 0;
   bytes_field (c_rw CoeHeader_write CoeHeader_read) CoeHeader_default 2 0 0;
   bytes_field (c_rw SdoHeaderSegmented_write SdoHeaderSegmented_read) SdoHeaderSegmented_default 1 0 0].
Definition SdoSegmented_write : WireWrite SdoSegmented :=
  derive_write 9 SdoSegmented_fields (fun v =>
    (ss_header v, (ss_coe_header v, (ss_sdo_header v, tt)))).
Definition SdoSegmented_read : WireRead SdoSegmented :=
  derive_read 9 SdoSegmented_fields (fun '(a, (b, (c, _))) => mkSdoSegmented a b c).

Definition SdoSegmented_upload (counter : Z) (toggle : bool) : SdoSegmented :=
  mkSdoSegmented (sdo_mailbox_header counter) (mkCoeHeader CS_SdoRequest)
    (mkSdoHeaderSegmented false 0 toggle CC_UploadSegment).

Inductive ObjectDescriptionListQueryInner :=
| QI_ObjectQuantities | QI_All | QI_RxPdoMappable | QI_TxPdoMappable
| QI_StoredForDeviceReplacement | QI_StartupParameters.

#[export] Instance ObjectDescriptionListQueryInner_eq_dec : EqDecision ObjectDescriptionListQueryInner.
Proof. solve_decision. Defined.

Definition ObjectDescriptionListQueryInner_attrs : list (VariantAttr ObjectDescriptionListQueryInner) :=
  [plain QI_ObjectQuantities 0x00; plain QI_All 0x01; plain QI_RxPdoMappable 0x02;
   plain QI_TxPdoMappable 0x03; plain QI_StoredForDeviceReplacement 0x04;
   plain QI_StartupParameters 0x05].
Definition ObjectDescriptionListQueryInner_meta := derive_enum R_u8 ObjectDescriptionListQueryInner_attrs.
Definition ObjectDescriptionListQueryInner_write := enum_write ObjectDescriptionListQueryInner_attrs no_payload ObjectDescriptionListQueryInner_meta.
Definition ObjectDescriptionListQueryInner_read := enum_read ObjectDescriptionListQueryInner_meta.

Inductive ObjectDescriptionListQuery :=
| Q_All | Q_RxPdoMappable | Q_TxPdoMappable | Q_StoredForDeviceReplacement
| Q_StartupParameters.

#[export] Instance ObjectDescriptionListQuery_eq_dec : EqDecision ObjectDescriptionListQuery.
Proof. solve_decision. Defined.

Definition ObjectDescriptionListQuery_attrs : list (VariantAttr ObjectDescriptionListQuery) :=
  [plain Q_All 0x01; plain Q_RxPdoMappable 0x02; plain Q_TxPdoMappable 0x03;
   plain Q_StoredForDeviceReplacement 0x04; plain Q_StartupParameters 0x05].
Definition ObjectDescriptionListQuery_meta := derive_enum R_u8 ObjectDescriptionListQuery_attrs.
Definition ObjectDescriptionListQuery_write := enum_write ObjectDescriptionListQuery_attrs no_payload ObjectDescriptionListQuery_meta.
Definition ObjectDescriptionListQuery_read := enum_read ObjectDescriptionListQuery_meta.

Definition ObjectDescriptionListQuery_inner (q : ObjectDescriptionListQuery)
    : ObjectDescriptionListQueryInner :=
  match q with
  | Q_All => QI_All
  | Q_RxPdoMappable => QI_RxPdoMappable
  | Q_TxPdoMappable => QI_TxPdoMappable
  | Q_StoredForDeviceReplacement => QI_StoredForDeviceReplacement
  | Q_StartupParameters => QI_StartupParameters
  end.

Record ObjectDescriptionListRequest := mkObjectDescriptionListRequest {
  olr_header : MailboxHeader;
  olr_coe_header : CoeHeader;
  olr_sdo_info_header : SdoInfoHeader;
  olr_list_type : ObjectDescriptionListQueryInner;
}.

Definition ObjectDescriptionListRequest_fields : list Field :=
  [bytes_field (c_rw MailboxHeader_write MailboxHeader_read) MailboxHeader_default 6 0 0;
   bytes_field (c_rw CoeHeader_write CoeHeader_read) CoeHeader_default 2 0 0;
   bytes_field (c_rw SdoInfoHeader_write SdoInfoHeader_read) SdoInfoHeader_default 4 0 0;
   bytes_field (c_rw ObjectDescriptionListQueryInner_write ObjectDescriptionListQueryInner_read) QI_ObjectQuantities 2 0 0].
Definition ObjectDescriptionListRequest_write : WireWrite ObjectDescriptionListRequest :=
  derive_write 14 ObjectDescriptionListRequest_fields (fun v =>
    (olr_header v, (olr_coe_header v, (olr_sdo_info_header v, (olr_list_type v, tt))))).
Definition ObjectDescriptionListRequest_read : WireRead ObjectDescriptionListRequest :=
  derive_read 14 ObjectDescriptionListRequest_fields
    (fun '(a, (b, (c, (d, _)))) =>
      mkObjectDescriptionListRequest a b c d).

Definition list_request (counter : Z) (q : ObjectDescriptionListQueryInner)
    : ObjectDescriptionListRequest :=
  mkObjectDescriptionListRequest (mkMailboxHeader 0x08 PR_Lowest MT_Coe counter)
    (mkCoeHeader CS_SdoInformation)
    (mkSdoInfoHeader SIO_GetObjectDescriptionListRequest false 0) q.
Definition get_object_description_list (counter : Z) (q : ObjectDescriptionListQuery) :=
  list_request counter (ObjectDescriptionListQuery_inner q).
Definition get_object_quantities (counter : Z) := list_request counter QI_ObjectQuantities.

Record ObjectDescriptionListResponse := mkObjectDescriptionListResponse {
  olp_header : MailboxHeader;
  olp_coe_header : CoeHeader;
  olp_sdo_info_header : SdoInfoHeader;
}.

Definition ObjectDescriptionListResponse_fields : list Field :=
  [bytes_field (c_rw MailboxHeader_write MailboxHeader_read) MailboxHeader_default 6 0 0;
   bytes_field (c_rw CoeHeader_write CoeHeader_read) CoeHeader_default 2 0 0;
   bytes_field (c_rw SdoInfoHeader_write SdoInfoHeader_read) SdoInfoHeader_default 4 0 0].
Definition ObjectDescriptionListResponse_write : WireWrite ObjectDescriptionListResponse :=
  derive_write 12 ObjectDescriptionListResponse_fields (fun v =>
    (olp_header v, (olp_coe_header v, (olp_sdo_info_header v, tt)))).
Definition ObjectDescriptionListResponse_read : WireRead ObjectDescriptionListResponse :=
  derive_read 12 ObjectDescriptionListResponse_fields
    (fun '(a, (b, (c, _))) =>
      mkObjectDescriptionListResponse a b c).

Record ObjectDescriptionListQueryCounts := mkObjectDescriptionListQueryCounts {
  qc_all : Z;
  qc_rx_pdo_mappable : Z;
  qc_tx_pdo_mappable : Z;
  qc_stored_for_device_replacement : Z;
  qc_startup_parameters : Z;
}.

Definition ObjectDescriptionListQueryCounts_fields : list Field :=
  [bytes_field c_u16 0 2 0 0;
   bytes_field c_u16 0 2 0 0;
   bytes_field c_u16 0 2 0 0;
   bytes_field c_u16 0 2 0 0;
   bytes_field c_u16 0 2 0 0].
Definition ObjectDescriptionListQueryCounts_read : WireRead ObjectDescriptionListQueryCounts :=
  derive_read 10 ObjectDescriptionListQueryCounts_fields
    (fun '(a, (b, (c, (d, (e, _))))) =>
      mkObjectDescriptionListQueryCounts a b c d e).

(** [CoeServiceRequest::validate_response] of the three request types. *)
Definition SdoHeader_validate_response (h : SdoHeader) (index subindex : Z) : bool :=
  Z.eqb index (sh_index h) && Z.eqb subindex (sh_sub_index h).
Definition SdoExpedited_validate_response (r : SdoExpedited) :=
  SdoHeader_validate_response (se_sdo_header r).
Definition SdoNormal_validate_response (r : SdoNormal) :=
  SdoHeader_validate_response (sn_sdo_header r).
Definition SdoSegmented_validate_response (_ : SdoSegmented) (_ _ : Z) : bool := true.

(** *** [mailbox/coe/abort_code.rs] *)

Inductive CoeAbortCode :=
| AC_ToggleBit | AC_SdoTimeout | AC_InvalidCommand | AC_OutOfMemory | AC_UnsupportedAccess
| AC_WriteOnlyRead | AC_ReadOnlyWrite | AC_IndexOnly | AC_NoCompleteAccess | AC_ObjectTooLarge
| AC_DownloadBlocked | AC_NotFound | AC_PdoMappingFailed | AC_PdoTooSmall | AC_Incompatible
| AC_Internal | AC_HardwareFailure | AC_DataLengthMismatch | AC_DataTooLong | AC_DataTooShort
| AC_SubIndexNotFound | AC_ValueOutOfRange | AC_ValueTooLarge | AC_ValueTooSmall | AC_MaxMin
| AC_General | AC_TransferFailed | AC_TransferFailedLocal | AC_InvalidState
| AC_NoObjectDictionary
| AC_Unknown (x : Z).

#[export] Instance CoeAbortCode_eq_dec : EqDecision CoeAbortCode.
Proof. solve_decision. Defined.

Definition CoeAbortCode_attrs : list (VariantAttr CoeAbortCode) :=
  [plain AC_ToggleBit 0x05030000; plain AC_SdoTimeout 0x05040000;
   plain AC_InvalidCommand 0x05040001; plain AC_OutOfMemory 0x05040005;
   plain AC_UnsupportedAccess 0x06010000; plain AC_WriteOnlyRead 0x06010001;
   plain AC_ReadOnlyWrite 0x06010002; plain AC_IndexOnly 0x06010003;
   plain AC_NoCompleteAccess 0x06010004; plain AC_ObjectTooLarge 0x06010005;
   plain AC_DownloadBlocked 0x06010006; plain AC_NotFound 0x06020000;
   plain AC_PdoMappingFailed 0x06040041; plain AC_PdoTooSmall 0x06040042;
   plain AC_Incompatible 0x06040043; plain AC_Internal 0x06040047;
   plain AC_HardwareFailure 0x06060000; plain AC_DataLengthMismatch 0x06070010;
   plain AC_DataTooLong 0x06070012; plain AC_DataTooShort 0x06070013;
   plain AC_SubIndexNotFound 0x06090011; plain AC_ValueOutOfRange 0x06090030;
   plain AC_ValueTooLarge 0x06090031; plain AC_ValueTooSmall 0x06090032;
   plain AC_MaxMin 0x06090036; plain AC_General 0x08000000;
   plain AC_TransferFailed 0x08000020; plain AC_TransferFailedLocal 0x08000021;
   plain AC_InvalidState 0x08000022; plain AC_NoObjectDictionary 0x08000023;
   catch_all AC_Unknown].
Definition CoeAbortCode_payload (v : CoeAbortCode) : option Z :=
  match v with AC_Unknown x => Some x | _ => None end.
Definition CoeAbortCode_meta := derive_enum R_u32 CoeAbortCode_attrs.
Definition CoeAbortCode_read := enum_read CoeAbortCode_meta.

(** The generated [CoeAbortCode::from(u32)] and [u32::from(code)]. *)
Definition CoeAbortCode_of_u32 (raw : Z) : CoeAbortCode :=
  match from_raw CoeAbortCode_meta raw with Ok c => c | _ => AC_Unknown raw end.
Definition CoeAbortCode_u32 (c : CoeAbortCode) : option Z :=
  enum_num CoeAbortCode_attrs CoeAbortCode_payload CoeAbortCode_meta c.

(** ** Round trips *)

#[export] Instance Priority_roundtrip :
  RoundTrip Priority_write Priority_read (fun _ => True).
Proof. apply derive_enum_roundtrip; [vm_compute; reflexivity|]. intros [] _; valid_variant. Defined.

#[export] Instance MailboxType_roundtrip :
  RoundTrip MailboxType_write MailboxType_read (fun _ => True).
Proof. apply derive_enum_roundtrip; [vm_compute; reflexivity|]. intros [] _; valid_variant. Defined.

#[export] Instance CoeService_roundtrip :
  RoundTrip CoeService_write CoeService_read (fun _ => True).
Proof. apply derive_enum_roundtrip; [vm_compute; reflexivity|]. intros [] _; valid_variant. Defined.

#[export] Instance CoeCommand_roundtrip :
  RoundTrip CoeCommand_write CoeCommand_read (fun _ => True).
Proof. apply derive_enum_roundtrip; [vm_compute; reflexivity|]. intros [] _; valid_variant. Defined.

#[export] Instance SdoInfoOpCode_roundtrip :
  RoundTrip SdoInfoOpCode_write SdoInfoOpCode_read (fun _ => True).
Proof. apply derive_enum_roundtrip; [vm_compute; reflexivity|]. intros [] _; valid_variant. Defined.

#[export] Instance ObjectDescriptionListQueryInner_roundtrip :
  RoundTrip ObjectDescriptionListQueryInner_write ObjectDescriptionListQueryInner_read (fun _ => True).
Proof. apply derive_enum_roundtrip; [vm_compute; reflexivity|]. intros [] _; valid_variant. Defined.

#[export] Instance MailboxHeader_roundtrip : RoundTrip MailboxHeader_write MailboxHeader_read MailboxHeader_valid.
Proof.
  apply derive_roundtrip; [exact I|by intros []|].
  intros [l p t c] [Hl Hc]. valid_fields; try done; [destruct p|destruct t]; vm_compute; reflexivity.
Defined.

#[export] Instance CoeHeader_roundtrip : RoundTrip CoeHeader_write CoeHeader_read (fun _ => True).
Proof.
  apply derive_roundtrip; [exact I|by intros []|].
  intros [s] _. valid_fields; [done|]. destruct s; vm_compute; reflexivity.
Defined.

#[export] Instance SdoHeader_roundtrip : RoundTrip SdoHeader_write SdoHeader_read SdoHeader_valid.
Proof.
  apply derive_roundtrip; [exact I|by intros []|].
  intros [a b s c cmd i si] (? & ? & ?). valid_fields; try done. destruct cmd; vm_compute; reflexivity.
Defined.

#[export] Instance SdoHeaderSegmented_roundtrip : RoundTrip SdoHeaderSegmented_write SdoHeaderSegmented_read (fun v => in_u 3 (shs_segment_data_size v)).
Proof.
  apply derive_roundtrip; [exact I|by intros []|].
  intros [a s b cmd] ?. valid_fields; try done. destruct cmd; vm_compute; reflexivity.
Defined.

#[export] Instance SdoInfoHeader_roundtrip : RoundTrip SdoInfoHeader_write SdoInfoHeader_read (fun v => in_u 16 (sih_fragments_left v)).
Proof.
  apply derive_roundtrip; [exact I|by intros []|].
  intros [op i f] ?. valid_fields; try done. destruct op; vm_compute; reflexivity.
Defined.

#[export] Instance SdoExpedited_roundtrip : RoundTrip SdoExpedited_write SdoExpedited_read (fun v => MailboxHeader_valid (se_header v) /\
  SdoHeader_valid (se_sdo_header v) /\ length (se_data v) = 4%nat /\ bytes_ok (se_data v)).
Proof.
  apply derive_roundtrip; [exact I|by intros []|].
  intros [] (? & ? & ? & ?). valid_fields; done.
Defined.

#[export] Instance SdoNormal_roundtrip : RoundTrip SdoNormal_write SdoNormal_read (fun v => MailboxHeader_valid (sn_header v) /\
  SdoHeader_valid (sn_sdo_header v)).
Proof.
  apply derive_roundtrip; [exact I|by intros []|].
  intros [] (? & ?). valid_fields; done.
Defined.

#[export] Instance SdoSegmented_roundtrip : RoundTrip SdoSegmented_write SdoSegmented_read (fun v => MailboxHeader_valid (ss_header v) /\
  in_u 3 (shs_segment_data_size (ss_sdo_header v))).
Proof.
  apply derive_roundtrip; [exact I|by intros []|].
  intros [] (? & ?). valid_fields; done.
Defined.

(** ** The unit tests of the repository *)

Example mailbox_encode_header :
  pack MailboxHeader_write (mkMailboxHeader 10 PR_Lowest MT_Coe 3) =
  Ok [0x0a; 0x00; 0x00; 0x00; 0x00; 0x33].
Proof. vm_compute. reflexivity. Qed.

Example decode_sdo_response_normal :
  unpack_from_slice SdoNormal_read [10; 0; 0; 0; 0; 83; 0; 48; 79; 0; 28; 4] =
  Ok (mkSdoNormal (mkMailboxHeader 10 PR_Lowest MT_Coe 5) (mkCoeHeader CS_SdoResponse)
    (mkSdoHeader true true 3 false CC_Upload 0x1c00 4)).
Proof. vm_compute. reflexivity. Qed.

Example abort_code_parse : CoeAbortCode_of_u32 0x06090036 = AC_MaxMin.
Proof. vm_compute. reflexivity. Qed.

Example abort_code_unknown : CoeAbortCode_of_u32 0x12345678 = AC_Unknown 0x12345678.
Proof. vm_compute. reflexivity. Qed.
