(* ===== verification/Errors.v ===== *)
(** * The error types ([error.rs]) *)
From S2P Require Import Prelude Wire EscTypes MailboxTypes.

(** ** Definitions *)

(** The timeouts of [timer_factory.rs]. *)
Inductive TimeoutKind :=
| TK_StateTransition | TK_Pdu | TK_Eeprom | TK_MailboxEcho | TK_MailboxResponse | TK_WaitLoopDelay.

Inductive TimeoutError :=
| TE_StateTransition | TE_Pdu | TE_Eeprom | TE_MailboxEcho | TE_MailboxResponse.

(** [WaitLoopDelay] is not an error: asking for it panics. *)
Definition from_timeout_kind {E} (k : TimeoutKind) : res E TimeoutError :=
  match k with
  | TK_StateTransition => Ok TE_StateTransition
  | TK_Pdu => Ok TE_Pdu
  | TK_Eeprom => Ok TE_Eeprom
  | TK_MailboxEcho => Ok TE_MailboxEcho
  | TK_MailboxResponse => Ok TE_MailboxResponse
  | TK_WaitLoopDelay => Panic
  end.

Inductive Item :=
| I_SubDevice | I_Pdo | I_Fmmu | I_SyncManager | I_PdoEntry | I_FmmuEx | I_Group | I_SdoSubIndex.

(** [Validation] carries a [PduValidationError], which nothing constructs. *)
Inductive PduError :=
| PE_Decode | PE_Ethernet | PE_TooLong | PE_CreateFrame | PE_InvalidIndex (i : Z)
| PE_InvalidFrameState | PE_SwapState.

Inductive DistributedClockError := DCE_NoReference.

Inductive MailboxError :=
| ME_Aborted (code : CoeAbortCode) (address sub_index : Z)
| ME_TooLong (address sub_index : Z)
| ME_NoReadMailbox | ME_NoWriteMailbox
| ME_SdoResponseInvalid (address sub_index : Z)
| ME_InvalidCount
| ME_Emergency (error_code error_register : Z).

Inductive EepromError :=
| EE_Decode | EE_SectionOverrun | EE_NoCategory | EE_SectionUnderrun | EE_ClearErrors.

Inductive Error :=
| E_Pdu (e : PduError)
| E_WorkingCounter (expected received : Z)
| E_Timeout (e : TimeoutError)
| E_Eeprom (e : EepromError)
| E_Capacity (i : Item)
| E_StringTooLong (max_length string_length : Z)
| E_Mailbox (e : MailboxError)
| E_SendFrame | E_ReceiveFrame
| E_PartialSend (len sent : nat)
| E_IntegerTypeConversion
| E_PdiTooLong (max_length desired_length : Z)
| E_NotFound (item : Item) (index : option Z)
| E_Internal | E_Topology | E_StateTransition | E_UnknownSubDevice
| E_InvalidState (expected actual : SubDeviceState) (configured_address : Z)
| E_Wire (e : WireError)
| E_SubDevice (c : AlStatusCode)
| E_DistributedClock (e : DistributedClockError).

(** [?] on a [Result<_, WireError>] and on a [Result<_, PduError>]. *)
Definition from_wire {A} (m : res WireError A) : res Error A := map_err E_Wire m.
Definition from_pdu {A} (m : res PduError A) : res Error A := map_err E_Pdu m.

(** [IgnoreNoCategory]: a missing EEPROM category is not an error. *)
Definition ignore_no_category {A} (m : res Error A) : res Error (option A) :=
  match m with
  | Ok a => Ok (Some a)
  | Err (E_Eeprom EE_NoCategory) => Ok None
  | Err e => Err e
  | Panic => Panic
  end.
