(* ===== verification/PduTypes.v ===== *)
(** * PDU headers and commands

    [pdu_loop/pdu_flags.rs], [pdu_loop/pdu_header.rs],
    [pdu_loop/frame_header.rs], [command/] and [ethernet.rs]. *)
From S2P Require Import Prelude Wire Derive DeriveEnum Errors.
Import Struct Enum.

(** ** Definitions *)

(** [lib.rs] *)
Definition LEN_MASK : Z := 0x7ff.
Definition ETHERCAT_ETHERTYPE : Z := 0x88a4.
Definition MAINDEVICE_ADDR : bytes := [0x10; 0x10; 0x10; 0x10; 0x10; 0x10].
Definition BASE_SUBDEVICE_ADDRESS : Z := 0x1000.

(** *** [PduFlags] *)

Record PduFlags := mkPduFlags {
  pf_length : Z;
  pf_circulated : bool;
  pf_more_follows : bool;
}.

Definition PduFlags_new (data_len : Z) (more_follows : bool) : PduFlags :=
  mkPduFlags data_len false more_follows.
Definition PduFlags_with_len (len : Z) : PduFlags := PduFlags_new len false.

(** The [u16] on the wire. *)
Definition PduFlags_raw (f : PduFlags) : Z :=
  Z.lor (Z.lor (Z.land (pf_length f) LEN_MASK) (Z.shiftl (Z.b2z (pf_circulated f)) 14))
    (Z.shiftl (Z.b2z (pf_more_follows f)) 15).

Definition PduFlags_of_raw (src : Z) : PduFlags :=
  mkPduFlags (Z.land src LEN_MASK)
    (Z.eqb (Z.land (Z.shiftr src 14) 0x01) 0x01)
    (Z.eqb (Z.land (Z.shiftr src 15) 0x01) 0x01).

Definition PduFlags_write : WireWrite PduFlags :=
  mkWireWrite (fun _ => 2%nat) (fun f buf =>
    _ ← unwrap (get_range buf 0 2);
    mret (splice buf 0 (le_bytes 2 (PduFlags_raw f)))).

Definition PduFlags_read : WireRead PduFlags :=
  mkWireRead 2 2 (fun buf =>
    src ← unpack_from_slice u16_read buf;
    mret (PduFlags_of_raw src)).

(** A length of eleven bits. *)
Definition PduFlags_valid (f : PduFlags) : Prop := in_u 11 (pf_length f).

(** *** [PduHeader] *)

Record PduHeader := mkPduHeader {
  ph_command_code : Z;
  ph_index : Z;
  ph_command_raw : bytes;
  ph_flags : PduFlags;
  ph_irq : Z;
}.

Definition PduHeader_fields : list Field :=
  [bytes_field CU8 0 1 0 0;
   bytes_field CU8 0 1 0 0;
   bytes_field (c_array 4) (zeros 4) 4 0 0;
   bytes_field (c_rw PduFlags_write PduFlags_read) (PduFlags_with_len 0) 2 0 0;
   bytes_field c_u16 0 2 0 0].
Definition PduHeader_write : WireWrite PduHeader :=
  derive_write 10 PduHeader_fields (fun v =>
    (ph_command_code v, (ph_index v, (ph_command_raw v, (ph_flags v, (ph_irq v, tt)))))).
Definition PduHeader_read : WireRead PduHeader :=
  derive_read 10 PduHeader_fields (fun '(a, (b, (c, (d, (e, _))))) => mkPduHeader a b c d e).

Definition PduHeader_valid (h : PduHeader) : Prop :=
  in_u 8 (ph_command_code h) /\ in_u 8 (ph_index h) /\
  (length (ph_command_raw h) = 4%nat /\ bytes_ok (ph_command_raw h)) /\
  PduFlags_valid (ph_flags h) /\ in_u 16 (ph_irq h).

(** *** [EthercatFrameHeader] *)

Inductive ProtocolType := DlPdu.

#[export] Instance ProtocolType_eq_dec : EqDecision ProtocolType.
Proof. solve_decision. Defined.

Definition ProtocolType_attrs : list (VariantAttr ProtocolType) := [plain DlPdu 0x01].
Definition ProtocolType_meta := derive_enum R_u8 ProtocolType_attrs.
Definition ProtocolType_read := enum_read ProtocolType_meta.
(** The generated [TryFrom<u8>] and the cast [as u16]. *)
Definition ProtocolType_try_from (raw : Z) : res WireError ProtocolType :=
  from_raw ProtocolType_meta raw.
Definition ProtocolType_num (p : ProtocolType) : Z := match p with DlPdu => 0x01 end.

Record EthercatFrameHeader := mkEthercatFrameHeader {
  efh_payload_len : Z;
  efh_protocol : ProtocolType;
}.

Definition EthercatFrameHeader_read : WireRead EthercatFrameHeader :=
  mkWireRead 2 2 (fun buf =>
    raw ← unpack_from_slice u16_read buf;
    protocol ← ProtocolType_try_from (wrap 8 (Z.shiftr raw 12));
    mret (mkEthercatFrameHeader (Z.land raw LEN_MASK) protocol)).

Definition EthercatFrameHeader_write : WireWrite EthercatFrameHeader :=
  mkWireWrite (fun _ => 2%nat) (fun h buf =>
    pack_to_slice_unchecked u16_write
      (Z.lor (efh_payload_len h) (wrap 16 (Z.shiftl (ProtocolType_num (efh_protocol h)) 12))) buf).

Definition EthercatFrameHeader_valid (h : EthercatFrameHeader) : Prop :=
  in_u 11 (efh_payload_len h).

(** [EthercatFrameHeader::pdu]: the [debug_assert!] panics in debug builds. *)
Definition EthercatFrameHeader_pdu {P : Profile} {E} (len : Z) : res E EthercatFrameHeader :=
  if (overflow_checks && negb (len <=? LEN_MASK))%bool then Panic
  else Ok (mkEthercatFrameHeader (Z.land len LEN_MASK) DlPdu).

(** *** Commands *)

Inductive Reads :=
| Aprd (address register : Z)
| Fprd (address register : Z)
| Brd (address register : Z)
| Lrd (address : Z)
| Frmw (address register : Z).

Inductive Writes :=
| Bwr (address register : Z)
| Apwr (address register : Z)
| Fpwr (address register : Z)
| Lwr (address : Z)
| Lrw (address : Z).

Inductive Command := Nop | Read (r : Reads) | Write (w : Writes).

Definition NOP := 0x00.
Definition APRD := 0x01.
Definition FPRD := 0x04.
Definition BRD := 0x07.
Definition LRD := 0x0A.
Definition BWR := 0x08.
Definition APWR := 0x02.
Definition FPWR := 0x05.
Definition FRMW := 0x0E.
Definition LWR := 0x0B.
Definition LRW := 0x0c.

Definition code (c : Command) : Z :=
  match c with
  | Nop => NOP
  | Read (Aprd _ _) => APRD
  | Read (Fprd _ _) => FPRD
  | Read (Brd _ _) => BRD
  | Read (Lrd _) => LRD
  | Read (Frmw _ _) => FRMW
  | Write (Bwr _ _) => BWR
  | Write (Apwr _ _) => APWR
  | Write (Fpwr _ _) => FPWR
  | Write (Lwr _) => LWR
  | Write (Lrw _) => LRW
  end.

(** The addressing modes share one layout: register in the high half. *)
Definition Command_pack (c : Command) : bytes :=
  match c with
  | Nop => zeros 4
  | Read (Aprd address register) | Read (Brd address register)
  | Read (Fprd address register) | Read (Frmw address register)
  | Write (Apwr address register) | Write (Fpwr address register)
  | Write (Bwr address register) => le_bytes 4 (wrap 32 (Z.shiftl register 16) + address)
  | Read (Lrd address) | Write (Lwr address) | Write (Lrw address) => le_bytes 4 address
  end.

(** The arguments of a command are [u16]s and [u32]s. *)
Definition Command_valid (c : Command) : Prop :=
  match c with
  | Nop => True
  | Read (Lrd a) | Write (Lwr a) | Write (Lrw a) => in_u 32 a
  | Read (Aprd a r) | Read (Brd a r) | Read (Fprd a r) | Read (Frmw a r)
  | Write (Apwr a r) | Write (Fpwr a r) | Write (Bwr a r) => in_u 16 a /\ in_u 16 r
  end.

(** The builders of [WrappedRead] and [WrappedWrite]. *)
Record WrappedRead := mkWrappedRead { wr_command : Reads; wr_wkc : option Z }.
Record WrappedWrite := mkWrappedWrite {
  ww_command : Writes; ww_wkc : option Z; ww_len_override : option Z
}.

Definition WrappedRead_new (c : Reads) : WrappedRead := mkWrappedRead c (Some 1).
Definition WrappedWrite_new (c : Writes) : WrappedWrite := mkWrappedWrite c (Some 1) None.

Definition read_ignore_wkc (w : WrappedRead) : WrappedRead := mkWrappedRead (wr_command w) None.
Definition read_with_wkc (w : WrappedRead) (wkc : Z) : WrappedRead :=
  mkWrappedRead (wr_command w) (Some wkc).
Definition write_ignore_wkc (w : WrappedWrite) : WrappedWrite :=
  mkWrappedWrite (ww_command w) None (ww_len_override w).
Definition write_with_wkc (w : WrappedWrite) (wkc : Z) : WrappedWrite :=
  mkWrappedWrite (ww_command w) (Some wkc) (ww_len_override w).
Definition write_with_len (w : WrappedWrite) (len : Z) : WrappedWrite :=
  mkWrappedWrite (ww_command w) (ww_wkc w) (Some len).

Definition brd (register : Z) : WrappedRead := WrappedRead_new (Brd 0 register).
Definition bwr (register : Z) : WrappedWrite := WrappedWrite_new (Bwr 0 register).
Definition fprd (address register : Z) : WrappedRead := WrappedRead_new (Fprd address register).
Definition fpwr (address register : Z) : WrappedWrite := WrappedWrite_new (Fpwr address register).
Definition aprd (address register : Z) : WrappedRead :=
  WrappedRead_new (Aprd (wrap 16 (0 - address)) register).
Definition apwr (address register : Z) : WrappedWrite :=
  WrappedWrite_new (Apwr (wrap 16 (0 - address)) register).
Definition frmw (address register : Z) : WrappedRead := WrappedRead_new (Frmw address register).
Definition lrw (address : Z) : WrappedWrite := WrappedWrite_new (Lrw address).
Definition lwr (address : Z) : WrappedWrite := WrappedWrite_new (Lwr address).

(** ** Lemmas *)

Lemma PduFlags_raw_sum f :
  PduFlags_valid f ->
  PduFlags_raw f = pf_length f + Z.b2z (pf_circulated f) * 2 ^ 14 +
    Z.b2z (pf_more_follows f) * 2 ^ 15.
Proof.
  destruct f as [l c m]. unfold PduFlags_valid, in_u, PduFlags_raw. cbn. intros Hl.
  change LEN_MASK with (Z.ones 11). rewrite Z.land_ones, Z.mod_small by lia.
  rewrite !Z.shiftl_mul_pow2 by lia.
  rewrite (lor_add_disjoint l) by (change (2 ^ 11) with 2048 in *; change (2 ^ 14) with 16384; lia).
  apply lor_add_disjoint; [lia|]. change (2 ^ 11) with 2048 in *.
  change (2 ^ 14) with 16384. change (2 ^ 15) with 32768. destruct c; cbn [Z.b2z]; lia.
Qed.

Lemma land_1_odd x : Z.eqb (Z.land x 0x01) 0x01 = Z.eqb (x mod 2) 1.
Proof. change 0x01 with (Z.ones 1). rewrite Z.land_ones by lia. done. Qed.

Lemma PduFlags_of_raw_raw f : PduFlags_valid f -> PduFlags_of_raw (PduFlags_raw f) = f.
Proof.
  intros Hf. unfold PduFlags_of_raw. rewrite !land_1_odd, PduFlags_raw_sum by done.
  destruct f as [l c m]. unfold PduFlags_valid, in_u in Hf. cbn in *.
  change LEN_MASK with (Z.ones 11). rewrite Z.land_ones by lia.
  rewrite !Z.shiftr_div_pow2 by lia.
  change (2 ^ 11) with 2048 in *. change (2 ^ 14) with 16384. change (2 ^ 15) with 32768.
  f_equal; destruct c, m; cbn [Z.b2z]; lia.
Qed.

Lemma PduFlags_raw_u16 f : PduFlags_valid f -> in_u 16 (PduFlags_raw f).
Proof.
  intros Hf. rewrite PduFlags_raw_sum by done. destruct f as [l c m].
  unfold PduFlags_valid, in_u in *. cbn in *.
  change (2 ^ 11) with 2048 in *. change (2 ^ 14) with 16384. change (2 ^ 15) with 32768.
  change (2 ^ 16) with 65536. destruct c, m; cbn [Z.b2z]; lia.
Qed.

#[export] Program Instance PduFlags_roundtrip :
  RoundTrip PduFlags_write PduFlags_read PduFlags_valid :=
  {| encoding f := le_bytes 2 (PduFlags_raw f) |}.
Next Obligation. intros. apply length_le_bytes. Qed.
Next Obligation. intros. apply le_bytes_ok. Qed.
Next Obligation. done. Qed.
Next Obligation. intros f buf Hf Hlen. cbn in *. by rewrite get_range_0. Qed.
Next Obligation.
  intros f t Hf. cbn [PduFlags_read unpack_from_slice].
  rewrite unpack_u16 by by apply PduFlags_raw_u16.
  msimpl. by rewrite PduFlags_of_raw_raw.
Qed.

#[export] Instance PduHeader_roundtrip : RoundTrip PduHeader_write PduHeader_read PduHeader_valid.
Proof.
  apply derive_roundtrip; [exact I|by intros []|].
  intros [] (? & ? & ? & ? & ?). valid_fields; done.
Defined.

Lemma EthercatFrameHeader_raw len :
  in_u 11 len ->
  Z.lor len (wrap 16 (Z.shiftl (ProtocolType_num DlPdu) 12)) = len + 4096.
Proof.
  intros [? Hl]. change (wrap 16 _) with (1 * 2 ^ 12). rewrite lor_add_disjoint; [done|lia|].
  change (2 ^ 11) with 2048 in Hl. change (2 ^ 12) with 4096. lia.
Qed.

#[export] Program Instance EthercatFrameHeader_roundtrip :
  RoundTrip EthercatFrameHeader_write EthercatFrameHeader_read EthercatFrameHeader_valid :=
  {| encoding h := le_bytes 2 (efh_payload_len h + 4096) |}.
Next Obligation. intros. apply length_le_bytes. Qed.
Next Obligation. intros. apply le_bytes_ok. Qed.
Next Obligation. done. Qed.
Next Obligation.
  intros [len []] buf Hh Hlen. cbn [EthercatFrameHeader_write pack_to_slice_unchecked].
  cbn [efh_payload_len efh_protocol]. rewrite EthercatFrameHeader_raw by done.
  apply prim_pack_ok. by rewrite length_le_bytes.
Qed.
Next Obligation.
  intros [len []] t [Hh0 Hh]. cbn [EthercatFrameHeader_read unpack_from_slice efh_payload_len] in *.
  change (2 ^ 11) with 2048 in Hh.
  rewrite unpack_u16 by (unfold in_u; change (2 ^ 16) with 65536; lia). msimpl. rewrite Z.shiftr_div_pow2 by lia. change (2 ^ 12) with 4096.
  replace ((len + 4096) / 4096) with 1 by lia. change (wrap 8 1) with 1.
  change (ProtocolType_try_from 1) with (@Ok WireError _ DlPdu). cbn.
  change LEN_MASK with (Z.ones 11). rewrite Z.land_ones by lia. change (2 ^ 11) with 2048.
  do 2 f_equal. lia.
Qed.

Lemma length_Command_pack c : length (Command_pack c) = 4%nat.
Proof. by destruct c as [|[]|[]]. Qed.

Lemma Command_pack_ok c : bytes_ok (Command_pack c).
Proof. destruct c as [|[]|[]]; cbn [Command_pack]; auto using le_bytes_ok, bytes_ok_zeros. Qed.

Lemma code_u8 c : in_u 8 (code c).
Proof. apply in_ub_spec. by destruct c as [|[]|[]]. Qed.

(** What a SubDevice decodes from the four bytes. *)
Lemma Command_pack_parts address register :
  in_u 16 address -> in_u 16 register ->
  le_bytes 4 (wrap 32 (Z.shiftl register 16) + address) = le_bytes 2 address ++ le_bytes 2 register.
Proof.
  intros [Ha Ha'] [Hr Hr']. rewrite Z.shiftl_mul_pow2 by lia. change (2 ^ 16) with 65536 in *.
  rewrite wrap_small by (unfold in_u; change (2 ^ 32) with 4294967296; lia). cbn [le_bytes app].
  repeat (f_equal; [lia|]). f_equal. lia.
Qed.
