(* ===== verification/Bus.v ===== *)
(** * Commands on the bus

    [WrappedRead] and [WrappedWrite] ([command/reads.rs], [command/writes.rs])
    over an interface that states what [MainDevice::single_pdu] gives its
    callers: the working counter and the data of the answer.  Everything above
    the PDU loop is written against this interface; the PDU loop with a network
    is an instance of it ([CommandSpec.pdu_loop_bus]). *)
From S2P Require Import Prelude Wire PduTypes Errors.

(** ** Definitions *)

(** What a [ReceivedPdu] designates when it is returned: its working counter, its
    data, and what lies in memory behind the data, which is the rest of the slot. *)
Record Received := mkReceived { rd_wkc : Z; rd_data : bytes; rd_behind : bytes }.

(** [ReceivedPdu::trim_front]: the start moves, the length stays. *)
Definition received_trim_front (ct : nat) (p : Received) : Received :=
  let ct := Nat.min ct (length (rd_data p)) in
  mkReceived (rd_wkc p) (take (length (rd_data p)) (drop ct (rd_data p ++ rd_behind p)))
    (drop ct (rd_behind p)).

(** [W] is the state of the bus: the SubDevices and what is in flight. *)
Class Bus (W : Type) := {
  (** [single_pdu(command, data, len_override)], with the data packed. *)
  bus_pdu : Command -> bytes -> option Z -> St W Error Received;
}.

(** How many turns a waiting loop gets before its timeout strikes. *)
Class Timing := patience : TimeoutKind -> nat.

Section Commands.
Context {W : Type} `{!Bus W}.

Definition pdu_maybe_wkc (expected : option Z) (pdu : Received) : res Error Received :=
  match expected with
  | None => Ok pdu
  | Some expected =>
      if Z.eqb (rd_wkc pdu) expected then Ok pdu else Err (E_WorkingCounter expected (rd_wkc pdu))
  end.

Definition read_common (c : WrappedRead) (len : Z) : St W Error Received :=
  bus_pdu (Read (wr_command c)) [] (Some len).

Definition receive {T} (r : WireRead T) (c : WrappedRead) : St W Error T :=
  pdu ← read_common c (wrap 16 (Z.of_nat (PACKED_LEN r)));
  pdu ← lift (pdu_maybe_wkc (wr_wkc c) pdu);
  lift (from_wire (unpack_from_slice r (rd_data pdu))).

Definition receive_slice (c : WrappedRead) (len : Z) : St W Error Received :=
  pdu ← read_common c len;
  lift (pdu_maybe_wkc (wr_wkc c) pdu).

(** [receive_wkc::<T>], where [T] only gives the length. *)
Definition receive_wkc (len : nat) (c : WrappedRead) : St W Error Z :=
  pdu ← read_common c (wrap 16 (Z.of_nat len));
  mret (rd_wkc pdu).

Definition write_common {T} (w : WireWrite T) (c : WrappedWrite) (v : T) (len_override : option Z)
    : St W Error Received :=
  data ← lift (match pack w v with Ok b => Ok b | _ => Panic end);
  bus_pdu (Write (ww_command c)) data len_override.

(** The answer is dropped, its working counter with it. *)
Definition send {T} (w : WireWrite T) (c : WrappedWrite) (v : T) : St W Error unit :=
  _ ← write_common w c v (ww_len_override c);
  mret tt.

Definition send_receive {T U} (w : WireWrite T) (r : WireRead U) (c : WrappedWrite) (v : T)
    : St W Error U :=
  pdu ← write_common w c v None;
  pdu ← lift (pdu_maybe_wkc (ww_wkc c) pdu);
  lift (from_wire (unpack_from_slice r (rd_data pdu))).

Definition send_receive_slice {T} (w : WireWrite T) (c : WrappedWrite) (v : T) : St W Error Received :=
  pdu ← write_common w c v None;
  lift (pdu_maybe_wkc (ww_wkc c) pdu).

(** [async { loop { .. } }.timeout(kind)].  The timeout is seen between two
    turns of the loop. *)
Definition loop_with_timeout {A B} `{!Timing} (kind : TimeoutKind)
    (step : A -> St W Error (A + B)) (a : A) : St W Error B :=
  r ← iterate (patience kind) step a;
  match r with
  | Some b => mret b
  | None => e ← lift (from_timeout_kind kind); fail (E_Timeout e)
  end.

End Commands.
