(* ===== verification/Eeprom.v ===== *)
(** * EEPROM access

    [eeprom/mod.rs]: [EepromRange], a window on a provider of EEPROM bytes, and
    its two providers: the SII of a SubDevice ([eeprom/device_provider.rs]) and
    a file image ([eeprom/file_provider.rs]).  The state [D] of the provider is
    shared by its clones. *)
From S2P Require Import Prelude Wire EscTypes Crates SiiTypes PduTypes Errors Bus.

(** ** Definitions *)

(** [EepromDataProvider] *)
Class Provider (D : Type) := {
  read_chunk : Z -> St D Error bytes;
  write_word : Z -> bytes -> St D Error unit;
  clear_errors : St D Error unit;
}.

(** [embedded_io_async::ReadExactError] *)
Inductive ReadExactError (E : Type) := UnexpectedEof | Other (e : E).
Arguments UnexpectedEof {E}.
Arguments Other {E} e.

(** The provided methods of the [Read] and [Write] traits of
    [embedded_io_async], as documented: [read_exact] reads until it has as many
    bytes as asked for, [write_all] writes until nothing is left. *)
Class EmbeddedIo := {
  read_exact : forall {S E}, (nat -> St S E bytes) -> nat -> St S (ReadExactError E) bytes;
  write_all : forall {S E}, (bytes -> St S E nat) -> bytes -> St S E unit;

  read_exact_done S E (rd : nat -> St S E bytes) s : read_exact rd 0 s = (Ok [], s);
  read_exact_some S E (rd : nat -> St S E bytes) n s b s' :
    rd n s = (Ok b, s') -> (0 < length b <= n)%nat ->
    read_exact rd n s =
      let '(r, s) := read_exact rd (n - length b) s' in (app b <$> r, s);
  read_exact_eof S E (rd : nat -> St S E bytes) n s s' :
    (0 < n)%nat -> rd n s = (Ok [], s') -> read_exact rd n s = (Err UnexpectedEof, s');
  read_exact_err S E (rd : nat -> St S E bytes) n s e s' :
    (0 < n)%nat -> rd n s = (Err e, s') -> read_exact rd n s = (Err (Other e), s');
  write_all_done S E (wr : bytes -> St S E nat) s : write_all wr [] s = (Ok tt, s);
  write_all_some S E (wr : bytes -> St S E nat) b s n s' :
    wr b s = (Ok n, s') -> (0 < n <= length b)%nat ->
    write_all wr b s = write_all wr (drop n b) s';
  write_all_err S E (wr : bytes -> St S E nat) b s e s' :
    b <> [] -> wr b s = (Err e, s') -> write_all wr b s = (Err e, s');
}.

(** [impl From<ReadExactError<Error>> for Error] *)
Definition from_read_exact (e : ReadExactError Error) : Error :=
  match e with UnexpectedEof => E_Eeprom EE_SectionOverrun | Other e => e end.

Definition STATION_ALIAS_POSITION : nat * nat := (8, 10)%nat.
Definition CHECKSUM_POSITION : nat * nat := (14, 16)%nat.

Definition ECAT_CRC_ALGORITHM : Algorithm := mkAlgorithm 8 0x07 0xff false false 0x00 0x80 0x00.

(** [STATION_ALIAS_CRC.checksum] *)
Definition station_alias_crc `{!Crates} (l : bytes) : Z := crc_checksum ECAT_CRC_ALGORITHM l.

(** *** [EepromRange] *)

Record EepromRange := mkRange { byte_pos : Z; range_end : Z }.

Definition EepromRange_new {P : Profile} {E} (start_word len_words : Z) : res E EepromRange :=
  byte_pos ← umul 16 start_word 2;
  start ← umul 16 start_word 2;
  len ← umul 16 len_words 2;
  range_end ← uadd 16 start len;
  mret (mkRange byte_pos range_end).

Section Range.
Context {D : Type} `{!Provider D} {P : Profile}.

(** The provider and a range on it. *)
Abbreviation Reader := (St (D * EepromRange) Error).

Definition on_provider {A} (m : St D Error A) : Reader A := fun '(d, r) =>
  let '(a, d) := m d in (a, (d, r)).

Definition set_byte_pos (pos : Z) : Reader unit :=
  modify (fun '(d, r) => (d, mkRange pos (range_end r))).

(** [self.byte_pos += n as u16] *)
Definition advance (n : nat) : Reader unit :=
  r ← gets snd;
  pos ← lift (uadd 16 (byte_pos r) (wrap 16 (Z.of_nat n)));
  set_byte_pos pos.

Definition skip_ahead_bytes (skip : Z) : Reader unit :=
  r ← gets snd;
  pos ← lift (uadd 16 (byte_pos r) skip);
  if range_end r <=? pos then fail (E_Eeprom EE_SectionOverrun) else
  pos ← lift (uadd 16 (byte_pos r) skip);
  set_byte_pos pos.

(** Not limited by the end of the range. *)
Definition read_byte : Reader Z :=
  _ ← on_provider clear_errors;
  r ← gets snd;
  res ← on_provider (read_chunk (byte_pos r / 2));
  let skip := Z.to_nat (byte_pos r mod 2) in
  _ ← advance 1;
  lift (ok_or (res !! skip) E_Internal).

(** One turn of the loop of [read]: what is left to read, and what has been. *)
Definition read_step (st : nat * bytes) : Reader (nat * bytes + bytes) :=
  let '(n, acc) := st in
  if Nat.eqb n 0 then mret (inr acc) else
  r ← gets snd;
  chunk ← on_provider (read_chunk (byte_pos r / 2));
  let skip := Z.to_nat (byte_pos r mod 2) in
  chunk ← lift (ok_or (get_from chunk skip) E_Internal);
  if Nat.ltb n (length chunk) then
    let chunk := take n chunk in
    _ ← advance (length chunk);
    mret (inr (acc ++ chunk))
  else
    _ ← advance (length chunk);
    mret (inl ((n - length chunk)%nat, acc ++ chunk)).

(** [read] into a buffer of [n] bytes: the bytes read.  A provider that returns
    empty chunks keeps the loop busy for ever: this is the [Panic]; every chunk
    of a real provider makes progress ([range_read]). *)
Definition read (n : nat) : Reader bytes :=
  r ← gets snd;
  let max_read := Z.to_nat (sat_sub (range_end r) (byte_pos r)) in
  if Nat.eqb max_read 0 then mret [] else
  let n := Nat.min n max_read in
  _ ← on_provider clear_errors;
  b ← iterate (S n) read_step (n, []);
  lift (unwrap b).

(** The words [write] cuts a buffer into; an odd last byte is padded with a zero. *)
Fixpoint words (buf : bytes) : list bytes :=
  match buf with
  | a :: b :: rest => [a; b] :: words rest
  | [a] => [[a; 0]]
  | [] => []
  end.

(** The loop of [write] and the number of bytes written. *)
Fixpoint write_loop (ws : list bytes) (written : nat) : Reader nat :=
  r ← gets snd;
  if sat_sub (range_end r) (byte_pos r) =? 0 then mret written else
  match ws with
  | [] => mret written
  | word :: ws =>
      _ ← on_provider (write_word (byte_pos r / 2) word);
      _ ← advance (length word);
      write_loop ws (written + length word)
  end.

Definition write (buf : bytes) : Reader nat := write_loop (words buf) 0.

(** Run an operation on a range of its own. *)
Definition with_range {E A} (r : EepromRange) (m : St (D * EepromRange) E A)
    : St D E (A * EepromRange) := fun d =>
  let '(a, (d, r)) := m (d, r) in ((fun a => (a, r)) <$> a, d).

End Range.

(** *** [DeviceEeprom] *)

Definition SII_FIRST_CATEGORY_START : Z := 0x0040.

Section Device.
Context {W : Type} `{!Bus W} `{!Timing} (configured_address : Z).

Definition SII_CONTROL : Z := register_u16 R_SiiControl.
Definition SII_DATA : Z := register_u16 R_SiiData.

Definition wait_while_busy : St W Error SiiControl :=
  loop_with_timeout TK_Eeprom (fun _ : unit =>
    control ← receive SiiControl_read (fprd configured_address SII_CONTROL);
    if negb (sii_busy control) then mret (inr control) else mret (inl tt)) tt.

Definition device_read_chunk (start_word : Z) : St W Error bytes :=
  _ ← send SiiRequest_write (fpwr configured_address SII_CONTROL) (SiiRequest_for_read start_word);
  status ← wait_while_busy;
  pdu ← receive_slice (fprd configured_address SII_DATA) (chunk_len (sii_read_size status));
  mret (rd_data pdu).

(** The write and its retries. *)
Fixpoint device_write_loop (retries_left : nat) (start_word : Z) (data : bytes) : St W Error unit :=
  _ ← send (array_write 2) (fpwr configured_address SII_DATA) data;
  _ ← send SiiRequest_write (fpwr configured_address SII_CONTROL) (SiiRequest_for_write start_word);
  status ← wait_while_busy;
  match sii_command_error status, retries_left with
  | true, S retries_left => device_write_loop retries_left start_word data
  | _, _ => mret tt
  end.

Definition device_write_word (start_word : Z) (data : bytes) : St W Error unit :=
  _ ← wait_while_busy;
  device_write_loop 20 start_word data.

Definition device_clear_errors : St W Error unit :=
  status ← receive SiiControl_read (fprd configured_address SII_CONTROL);
  status ← (if has_error status
    then send_receive SiiControl_write SiiControl_read (fpwr configured_address SII_CONTROL)
      (error_reset status)
    else mret status);
  if has_error status then fail (E_Eeprom EE_ClearErrors) else mret tt.

Definition device_provider : Provider W := {|
  read_chunk := device_read_chunk;
  write_word := device_write_word;
  clear_errors := device_clear_errors;
|}.

End Device.

(** *** [EepromFile] *)

(** The file, and the cache that writes go to; [CHUNK] is 4 or 8. *)
Record EepromFile := mkEepromFile { ef_bytes : bytes; ef_write_cache : bytes }.

Section File.
Context {P : Profile} (CHUNK : nat).

Definition file_read_chunk (start_word : Z) : St EepromFile Error bytes :=
  f ← gets id;
  start ← lift (umul 16 start_word 2);
  rest ← lift (usub 64 (Z.of_nat (length (ef_bytes f))) start);
  let buf_len := Nat.min CHUNK (Z.to_nat rest) in
  if negb (Nat.eqb buf_len 4 || Nat.eqb buf_len 8) then lift Panic else
  lift (unwrap (get_range (ef_bytes f) (Z.to_nat (start_word * 2)) (Z.to_nat (start_word * 2) + buf_len))).

Definition file_write_word (start_word : Z) (data : bytes) : St EepromFile Error unit :=
  f ← gets id;
  start ← lift (umul 16 start_word 2);
  let start := Z.to_nat start in
  _ ← lift (unwrap (get_range (ef_write_cache f) start (start + 2)));
  modify (fun f => mkEepromFile (ef_bytes f) (splice (ef_write_cache f) start data)).

Definition file_provider : Provider EepromFile := {|
  read_chunk := file_read_chunk;
  write_word := file_write_word;
  clear_errors := mret tt;
|}.

End File.
