(* ===== verification/SubEeprom.v ===== *)
(** * The contents of a SubDevice's EEPROM ([subdevice/eeprom.rs])

    Categories, strings and the fixed fields, read through [EepromRange]s on
    any provider.  A string is the list of its bytes. *)
From S2P Require Import Prelude Wire EscTypes Crates SiiTypes Errors Bus Eeprom.

(** ** Definitions *)

Section SubDeviceEeprom.
Context {D : Type} `{!Provider D} `{!EmbeddedIo} `{!Crates} {P : Profile}.

Definition start_at (word_addr len_bytes : Z) : res Error EepromRange :=
  EepromRange_new word_addr (len_bytes / 2).

(** [reader.read_exact(&mut [0u8; n]).await?] on a reader used once. *)
Definition read_exact_at (r : EepromRange) (n : nat) : St D Error bytes :=
  '(b, _) ← with_range r (st_map_err from_read_exact (read_exact read n));
  mret b.

(** [write_all(buf).await?] on a fresh range. *)
Definition write_all_at (r : EepromRange) (buf : bytes) : St D Error unit :=
  '(_, _) ← with_range r (write_all write buf);
  mret tt.

(** One turn of the search, at [word_addr] after [num_empty_categories]. *)
Definition category_step (category : CategoryType) (st : Z * Z)
    : St D Error (Z * Z + option EepromRange) :=
  let '(word_addr, num_empty_categories) := st in
  chunk ← read_chunk word_addr;
  if negb (in_ub 16 (word_addr + 2)) then mret (inr None) else
  let word_addr := word_addr + 2 in
  c1 ← lift (unwrap (get_range chunk 0 2));
  c2 ← lift (unwrap (get_range chunk 2 4));
  let category_type := CategoryType_of_u16 (le_val c1) in
  let len_words := le_val c2 in
  num_empty_categories ← (if len_words =? 0 then lift (uadd 8 num_empty_categories 1)
    else mret num_empty_categories);
  if 32 <=? num_empty_categories then mret (inr None) else
  if decide (category_type = category) then
    r ← lift (EepromRange_new word_addr len_words); mret (inr (Some r))
  else if decide (category_type = CT_End) then mret (inr None)
  else
    word_addr ← lift (uadd 16 word_addr len_words);
    mret (inl (word_addr, num_empty_categories)).

(** Every turn moves on by two words at least when overflow is checked. *)
Definition category_turns : nat := Z.to_nat 32768.

(** The search: [Panic] also stands for the loop that never ends. *)
Definition category (category : CategoryType) : St D Error (option EepromRange) :=
  r ← iterate category_turns (category_step category) (SII_FIRST_CATEGORY_START, 0);
  lift (unwrap r).

Definition station_alias : St D Error Z :=
  r ← lift (start_at (wrap 16 (Z.of_nat (STATION_ALIAS_POSITION.1 / 2))) 2);
  buf ← read_exact_at r 2;
  mret (le_val buf).

Definition set_station_alias (new_alias : Z) : St D Error unit :=
  r ← lift (start_at 0 14);
  chunk ← read_exact_at r 14;
  let chunk := splice chunk STATION_ALIAS_POSITION.1 (le_bytes 2 new_alias) in
  let new_checksum := station_alias_crc chunk in
  r ← lift (start_at (wrap 16 (Z.of_nat (STATION_ALIAS_POSITION.1 / 2))) 2);
  _ ← write_all_at r (le_bytes 2 new_alias);
  r ← lift (start_at (wrap 16 (Z.of_nat (CHECKSUM_POSITION.1 / 2))) 2);
  write_all_at r (le_bytes 2 new_checksum).

(** Size of the EEPROM in bytes. *)
Definition size : St D Error Z :=
  r ← lift (start_at 0x003e 2);
  buf ← read_exact_at r 2;
  kbit ← lift (uadd 16 (le_val buf) 1);
  lift (umul 16 kbit 128).

(** A value at the start of a range. *)
Definition read_value {T} (rd : WireRead T) (r : EepromRange) : St D Error T :=
  buf ← read_exact_at r (BUFFER_LEN rd);
  lift (from_wire (unpack_from_slice rd buf)).

Definition mailbox_config : St D Error DefaultMailbox :=
  r ← lift (start_at 0x0018 (wrap 16 (Z.of_nat (PACKED_LEN DefaultMailbox_read))));
  read_value DefaultMailbox_read r.

Definition general : St D Error SiiGeneral :=
  reader ← category CT_General;
  r ← lift (ok_or reader (E_Eeprom EE_NoCategory));
  read_value SiiGeneral_read r.

Definition identity : St D Error SubDeviceIdentity :=
  r ← lift (start_at 0x0008 (wrap 16 (Z.of_nat (PACKED_LEN SubDeviceIdentity_read))));
  read_value SubDeviceIdentity_read r.

(** *** [CategoryIterator] *)

(** [next] and [next_sub_item]: [None] at the end of the category. *)
Definition next {T} (rd : WireRead T) : St (D * EepromRange) Error (option T) := fun s =>
  match read_exact read (BUFFER_LEN rd) s with
  | (Ok buf, s) => (Some <$> from_wire (unpack_from_slice rd buf), s)
  | (Err UnexpectedEof, s) => (Ok None, s)
  | (Err (Other e), s) => (Err e, s)
  | (Panic, s) => (Panic, s)
  end.

(** The iterator of a category, over an empty range when there is none. *)
Definition items (c : CategoryType) : St D Error EepromRange :=
  reader ← category c;
  match reader with
  | Some r => mret r
  | None => lift (EepromRange_new 0 0)
  end.

(** [while let Some(x) = next().await? { vec.push(x).map_err(Capacity)?; }].
    The vector is full after [cap] turns. *)
Definition collect_items {A} (cap : nat) (item : Item)
    (nx : St (D * EepromRange) Error (option A)) : St (D * EepromRange) Error (list A) :=
  r ← iterate (S (S cap)) (fun acc =>
    x ← nx;
    match x with
    | None => mret (inr acc)
    | Some x => acc ← lift (ok_or (vec_push cap acc x) (E_Capacity item)); mret (inl acc)
    end) [];
  lift (unwrap r).

Definition sync_managers : St D Error (list SyncManager) :=
  r ← items CT_SyncManager;
  '(l, _) ← with_range r (collect_items 8 I_SyncManager (next SyncManager_read));
  mret l.

Definition fmmus : St D Error (list FmmuUsage) :=
  category ← category CT_Fmmu;
  match category with
  | Some r =>
      '(buf, _) ← with_range r (read 16);
      lift (from_wire (collect ((fun raw => unpack_from_slice FmmuUsage_read [raw]) <$> buf)))
  | None => mret []
  end.

Definition fmmu_mappings : St D Error (list FmmuEx) :=
  r ← items CT_FmmuExtended;
  '(l, _) ← with_range r (collect_items 16 I_FmmuEx (next FmmuEx_read));
  mret l.

(** The entries of one PDO add to its length. *)
Fixpoint pdo_entries (n : nat) (pdo : Pdo) : St (D * EepromRange) Error Pdo :=
  match n with
  | O => mret pdo
  | S n =>
      entry ← next PdoEntry_read;
      match entry with
      | None => fail (E_Eeprom EE_Decode)
      | Some entry =>
          bit_len ← lift (uadd 16 (pdo_bit_len pdo) (pe_data_length_bits entry));
          pdo_entries n (mkPdo (pdo_index pdo) (pdo_num_entries pdo) (pdo_sync_manager pdo) bit_len)
      end
  end.

Definition next_pdo : St (D * EepromRange) Error (option Pdo) :=
  pdo ← next Pdo_read;
  match pdo with
  | None => mret None
  | Some pdo => pdo ← pdo_entries (Z.to_nat (pdo_num_entries pdo)) pdo; mret (Some pdo)
  end.

Definition pdos (direction : PdoType) : St D Error (list Pdo) :=
  r ← items (PdoType_category direction);
  '(l, _) ← with_range r (collect_items 64 I_Pdo next_pdo);
  mret l.

Definition maindevice_read_pdos : St D Error (list Pdo) := pdos Pdo_Tx.
Definition maindevice_write_pdos : St D Error (list Pdo) := pdos Pdo_Rx.

(** *** Strings *)

(** Skip the strings before the one looked for. *)
Fixpoint skip_strings (n : nat) : St (D * EepromRange) Error unit :=
  match n with
  | O => mret tt
  | S n =>
      string_len ← read_byte;
      _ ← skip_ahead_bytes string_len;
      skip_strings n
  end.

(** Null bytes are dropped, bytes that are not ASCII become question marks. *)
Definition visible (buf : bytes) : bytes :=
  (fun c => if c <? 128 then c else 0x3f) <$> filter (fun c => c <> 0) buf.

(** The string at a zero-based index of the category. *)
Definition string_at (N : nat) (search_index : Z) : St (D * EepromRange) Error (option bytes) :=
  num_strings ← read_byte;
  if num_strings <? search_index then mret None else
  _ ← skip_strings (Z.to_nat search_index);
  string_len ← read_byte;
  if Z.of_nat N <? string_len then fail (E_StringTooLong (Z.of_nat N) string_len) else
  buf ← st_map_err from_read_exact (read_exact read (Z.to_nat string_len));
  mret (Some (visible buf)).

Definition find_string (N : nat) (search_index : Z) : St D Error (option bytes) :=
  if search_index =? 0 then mret None else
  let search_index := search_index - 1 in
  reader ← category CT_Strings;
  match reader with
  | Some r => '(s, _) ← with_range r (string_at N search_index); mret s
  | None => mret None
  end.

(** [.ignore_no_category()?] *)
Definition ignoring_no_category {A} (m : St D Error A) : St D Error (option A) := fun d =>
  let '(r, d) := m d in (ignore_no_category r, d).

Definition device_name (N : nat) : St D Error (option bytes) :=
  general ← ignoring_no_category general;
  match general with
  | None => mret None
  | Some general =>
      s ← ignoring_no_category (find_string N (sg_order_string_idx general));
      mret (mjoin s)
  end.

Definition device_description (N : nat) : St D Error (option bytes) :=
  general ← general;
  find_string N (sg_name_string_idx general).

End SubDeviceEeprom.
