(* ===== verification/EepromSpec.v ===== *)
(** * What EEPROM access promises

    [Image] states what a provider of EEPROM bytes promises to the code above
    it; the theorems are about that code on any provider that keeps it. *)
From S2P Require Import Prelude Wire EscTypes Crates SiiTypes Errors Bus Eeprom SubEeprom.

(** ** Definitions *)

(** A provider that behaves as a memory: chunks of 4 or 8 bytes are read from
    it and words written to it, and there are no errors to report. *)
Class Image (D : Type) `{!Provider D} := {
  (** The byte at a byte address. *)
  image : D -> Z -> Z;
  image_byte d a : byte_ok (image d a);
  read_chunk_image w d : in_u 16 w ->
    exists c d', (c = 4%nat \/ c = 8%nat) /\
      read_chunk w d = (Ok (image d <$> seqZ (2 * w) (Z.of_nat c)), d') /\
      forall a, image d' a = image d a;
  write_word_image w x y d : in_u 16 w -> byte_ok x -> byte_ok y ->
    exists d', write_word w [x; y] d = (Ok tt, d') /\
      forall a, image d' a = if a =? 2 * w then x else if a =? 2 * w + 1 then y else image d a;
  clear_errors_image d : exists d', clear_errors d = (Ok tt, d') /\ forall a, image d' a = image d a;
}.

Section Memory.
Context {D : Type} `{!Provider D} `{!Image D}.

(** [n] bytes from byte address [a]. *)
Definition mem (d : D) (a : Z) (n : nat) : bytes := image d <$> seqZ a (Z.of_nat n).

(** Providers with the same contents. *)
Definition same_image (d d' : D) : Prop := forall a, image d' a = image d a.

(** The word at a word address. *)
Definition word_at (d : D) (w : Z) : Z := image d (2 * w) + 256 * image d (2 * w + 1).

(** Categories given by their raw types and lengths, from word [w] on, and the
    end marker behind them. *)
Fixpoint categories_at (d : D) (w : Z) (cats : list (Z * Z)) : Prop :=
  match cats with
  | [] => word_at d w = 0xffff
  | (t, len) :: cats =>
      word_at d w = t /\ word_at d (w + 1) = len /\ CategoryType_of_u16 t <> CT_End /\
      categories_at d (w + 2 + len) cats
  end.

(** The word behind the categories. *)
Definition categories_end (w : Z) (cats : list (Z * Z)) : Z :=
  fold_left (fun w c => w + 2 + c.2) cats w.

(** The contents of the first category of type [c], as a range. *)
Fixpoint find_category (c : CategoryType) (w : Z) (cats : list (Z * Z)) : option EepromRange :=
  match cats with
  | [] => None
  | (t, len) :: cats =>
      if decide (CategoryType_of_u16 t = c)
      then Some (mkRange (2 * (w + 2)) (2 * (w + 2) + 2 * len))
      else find_category c (w + 2 + len) cats
  end.

Definition empty_categories (cats : list (Z * Z)) : nat :=
  length (filter (fun c => c.2 = 0) cats).


(** How far a read of [n] bytes on a range gets. *)
Definition in_range (r : EepromRange) (n : nat) : nat :=
  Nat.min n (Z.to_nat (range_end r - byte_pos r)).

Definition range_ok (r : EepromRange) : Prop := 0 <= byte_pos r /\ range_end r < 65536.

(** The range behind what has been read. *)
Definition skip_range (r : EepromRange) (n : nat) : EepromRange :=
  mkRange (byte_pos r + Z.of_nat n) (range_end r).

(** [n] records laid out from [a] on; the first that cannot be parsed ends the
    list with its error. *)
Fixpoint records {T} (rd : WireRead T) (d : D) (a : Z) (n : nat) : res Error (list T) :=
  match n with
  | O => Ok []
  | S n =>
      x ← from_wire (unpack_from_slice rd (mem d a (BUFFER_LEN rd)));
      l ← records rd d (a + Z.of_nat (BUFFER_LEN rd)) n;
      Ok (x :: l)
  end.

(** How many whole records of [len] bytes a range holds. *)
Definition whole_records (r : EepromRange) (len : nat) : nat :=
  Z.to_nat ((range_end r - byte_pos r) / Z.of_nat len).

(** The contents of a Strings category: the number of strings, and each behind
    its length. *)
Definition strings_body (strs : list bytes) : bytes :=
  concat ((fun s => Z.of_nat (length s) :: s) <$> strs).
Definition strings_image (strs : list bytes) : bytes := Z.of_nat (length strs) :: strings_body strs.

End Memory.

(** A memory with [b] written at [a]. *)
Definition patch (f : Z -> Z) (a : Z) (b : bytes) (x : Z) : Z :=
  if x <? a then f x else default (f x) (b !! Z.to_nat (x - a)).

(** A provider that is a memory of bytes, read in chunks of [c]. *)
Definition memory_provider (c : nat) : Provider (Z -> Z) := {|
  read_chunk w := fun m => (Ok ((fun a => wrap 8 (m a)) <$> seqZ (2 * w) (Z.of_nat c)), m);
  write_word w data := fun m =>
    (Ok tt, fun a => if a =? 2 * w then nth 0 data 0 else if a =? 2 * w + 1 then nth 1 data 0 else m a);
  clear_errors := mret tt;
|}.

(** [read_exact] and [write_all] as documented. *)
Fixpoint documented_read_exact {Q E} (rd : nat -> St Q E bytes) (fuel n : nat)
    : St Q (ReadExactError E) bytes := fun s =>
  match n, fuel with
  | O, _ => (Ok [], s)
  | _, O => (Panic, s)
  | _, S fuel =>
      match rd n s with
      | (Ok [], s) => (Err UnexpectedEof, s)
      | (Ok b, s) =>
          if Nat.ltb n (length b) then (Panic, s) else
          let '(r, s) := documented_read_exact rd fuel (n - length b) s in (app b <$> r, s)
      | (Err e, s) => (Err (Other e), s)
      | (Panic, s) => (Panic, s)
      end
  end.

Fixpoint documented_write_all {Q E} (wr : bytes -> St Q E nat) (fuel : nat) (b : bytes)
    : St Q E unit := fun s =>
  match b, fuel with
  | [], _ => (Ok tt, s)
  | _, O => (Panic, s)
  | _, S fuel =>
      match wr b s with
      | (Ok O, s) => (Panic, s)
      | (Ok n, s) =>
          if Nat.ltb (length b) n then (Panic, s)
          else documented_write_all wr fuel (drop n b) s
      | (Err e, s) => (Err e, s)
      | (Panic, s) => (Panic, s)
      end
  end.

Lemma documented_read_exact_fuel {Q E} (rd : nat -> St Q E bytes) fuel fuel' n s :
  (n <= fuel)%nat -> (n <= fuel')%nat ->
  documented_read_exact rd fuel n s = documented_read_exact rd fuel' n s.
Proof.
  revert fuel' n s. induction fuel as [|fuel IH]; intros [|fuel'] n s H H'; destruct n as [|n];
    try done; try lia.
  cbn [documented_read_exact]. destruct (rd (S n) s) as [[[|x b]|e|] s']; [done| |done..].
  destruct (Nat.ltb _ _); [done|]. cbn [length]. by rewrite (IH fuel') by lia.
Qed.

Lemma documented_write_all_fuel {Q E} (wr : bytes -> St Q E nat) fuel fuel' b s :
  (length b <= fuel)%nat -> (length b <= fuel')%nat ->
  documented_write_all wr fuel b s = documented_write_all wr fuel' b s.
Proof.
  revert fuel' b s. induction fuel as [|fuel IH]; intros [|fuel'] b s H H'; destruct b as [|x b];
    try done; try (cbn in *; lia).
  cbn [documented_write_all]. destruct (wr _ s) as [[[|n]|e|] s']; try done.
  destruct (Nat.ltb _ _); [done|]. apply IH; rewrite length_drop; cbn in *; lia.
Qed.

Program Definition documented_io : EmbeddedIo := {|
  read_exact Q E rd n := documented_read_exact rd n n;
  write_all Q E wr b := documented_write_all wr (length b) b;
|}.
Next Obligation. done. Qed.
Next Obligation.
  intros Q E rd [|n] s b s' Hr Hb; [lia|]. cbn [documented_read_exact]. rewrite Hr.
  destruct b as [|x b]; [cbn in Hb; lia|].
  destruct (Nat.ltb _ _) eqn:Hl; [apply Nat.ltb_lt in Hl; lia|].
  by rewrite (documented_read_exact_fuel rd n (S n - length (x :: b))) by (cbn; lia).
Qed.
Next Obligation. intros Q E rd [|n] s s' Hn Hr; [lia|]. cbn [documented_read_exact]. by rewrite Hr. Qed.
Next Obligation. intros Q E rd [|n] s e s' Hn Hr; [lia|]. cbn [documented_read_exact]. by rewrite Hr. Qed.
Next Obligation. done. Qed.
Next Obligation.
  intros Q E wr [|x b] s [|n] s' Hw Hn; [cbn in Hn; lia..|]. cbn [documented_write_all length]. rewrite Hw.
  destruct (Nat.ltb _ _) eqn:Hl; [apply Nat.ltb_lt in Hl; cbn in *; lia|].
  apply documented_write_all_fuel; rewrite length_drop; cbn in *; lia.
Qed.
Next Obligation. intros Q E wr [|x b] s e s' Hb Hw; [done|]. cbn [documented_write_all length]. by rewrite Hw. Qed.

(** ** Lemmas *)

Section MemoryLemmas.
Context {D : Type} `{!Provider D} `{!Image D} {EIO : EmbeddedIo} {CR : Crates} {P : Profile}.

#[export] Instance same_image_equiv : Equivalence (same_image (D:=D)).
Proof.
  split; [by intros d a|intros d d' Hi a; by rewrite Hi|intros d d' d'' Hi Hj a; by rewrite Hj, Hi].
Qed.

#[export] Instance mem_proper : Proper (same_image ==> eq ==> eq ==> eq) (mem (D:=D)).
Proof.
  intros d d' Hi a _ <- n _ <-. unfold mem. apply list_fmap_ext. intros i x _. symmetry. apply Hi.
Qed.

#[export] Instance word_at_proper : Proper (same_image ==> eq ==> eq) (word_at (D:=D)).
Proof. intros d d' Hi w _ <-. unfold word_at. by rewrite !Hi. Qed.

Lemma length_mem d a n : length (mem d a n) = n.
Proof. unfold mem. rewrite length_fmap, length_seqZ. lia. Qed.

Lemma mem_ok d a n : bytes_ok (mem d a n).
Proof. apply Forall_forall. intros x (y & -> & _)%list_elem_of_fmap. apply image_byte. Qed.

Lemma mem_app d a n k : mem d a (n + k) = mem d a n ++ mem d (a + Z.of_nat n) k.
Proof.
  unfold mem. rewrite Nat2Z.inj_add, seqZ_app by lia. by rewrite fmap_app.
Qed.

Lemma take_mem d a n k : (n <= k)%nat -> take n (mem d a k) = mem d a n.
Proof.
  intros Hk. replace k with (n + (k - n))%nat by lia. rewrite mem_app, take_app_le by (rewrite length_mem; lia).
  apply take_ge. rewrite length_mem. lia.
Qed.

Lemma drop_mem d a n k : (n <= k)%nat -> drop n (mem d a k) = mem d (a + Z.of_nat n) (k - n).
Proof.
  intros Hk. replace k with (n + (k - n))%nat at 1 by lia. rewrite mem_app, drop_app_ge by (rewrite length_mem; lia).
  by rewrite length_mem, Nat.sub_diag, drop_0.
Qed.

Lemma mem_split d a n b c : mem d a n = b ++ c -> c = mem d (a + Z.of_nat (length b)) (length c).
Proof.
  intros Hm. assert (length (b ++ c) = n) as Hn by by rewrite <- Hm, length_mem.
  rewrite length_app in Hn.
  rewrite <- Hn, mem_app in Hm. apply (f_equal (drop (length b))) in Hm.
  rewrite !drop_app_ge in Hm by (rewrite ?length_mem; lia).
  by rewrite length_mem, !Nat.sub_diag, !drop_0 in Hm.
Qed.

Lemma mem_S d a n : mem d a (S n) = image d a :: mem d (a + 1) n.
Proof. change (S n) with (1 + n)%nat. by rewrite mem_app. Qed.

Lemma le_val_mem2 d w : le_val (mem d (2 * w) 2) = word_at d w.
Proof. rewrite !mem_S. unfold word_at. cbn [le_val mem]. change (le_val (mem _ _ 0)) with 0. lia. Qed.

(** A chunk, less the first byte at an odd position. *)
Lemma read_chunk_mem d pos :
  in_u 16 pos ->
  exists c d', (3 <= c <= 8)%nat /\ same_image d d' /\
    read_chunk (pos / 2) d =
      (Ok (mem d (2 * (pos / 2)) (c + Z.to_nat (pos mod 2))), d').
Proof.
  intros Hp. unfold in_u in Hp. change (2 ^ 16) with 65536 in Hp.
  destruct (read_chunk_image (pos / 2) d) as (c & d' & Hc & Hr & Hi).
  { unfold in_u. change (2 ^ 16) with 65536. lia. }
  exists (c - Z.to_nat (pos mod 2))%nat, d'. split_and!; [lia|lia|done|].
  rewrite Hr. unfold mem. do 4 f_equal. lia.
Qed.

Lemma wrap_len n : (n <= 8)%nat -> wrap 16 (Z.of_nat n) = Z.of_nat n.
Proof. intros Hn. apply wrap_small. split; [lia|]. change (2 ^ 16) with 65536. lia. Qed.

Lemma uadd_ok {E} a b : 0 <= a -> 0 <= b -> a + b < 65536 -> uadd (E:=E) 16 a b = Ok (a + b).
Proof. intros. apply checked_ok. split; [lia|]. change (2 ^ 16) with 65536. lia. Qed.

Lemma umul_ok {E} a b : 0 <= a * b -> a * b < 65536 -> umul (E:=E) 16 a b = Ok (a * b).
Proof. intros. apply checked_ok. split; [lia|]. change (2 ^ 16) with 65536. lia. Qed.

Lemma on_provider_ok {A} (m : St D Error A) d r a d' :
  m d = (Ok a, d') -> on_provider m (d, r) = (Ok a, (d', r)).
Proof. intros Hm. unfold on_provider. by rewrite Hm. Qed.

Lemma advance_ok n d pos e :
  (n <= 8)%nat -> 0 <= pos -> pos + Z.of_nat n < 65536 ->
  advance (D:=D) n (d, mkRange pos e) = (Ok tt, (d, mkRange (pos + Z.of_nat n) e)).
Proof.
  intros Hn H0 Hp. unfold advance. rewrite (st_step (gets snd) _ _ (mkRange pos e) (d, mkRange pos e)) by done.
  rewrite wrap_len by done. cbn [byte_pos].
  rewrite (st_step (lift _) _ _ (pos + Z.of_nat n) (d, mkRange pos e)); [done|].
  unfold lift. by rewrite uadd_ok by lia.
Qed.

(** One turn of [read] takes the next chunk, or what is left to read of it. *)
Lemma read_step_ok d n acc pos e :
  (0 < n)%nat -> 0 <= pos -> pos + Z.of_nat n < 65536 ->
  exists d' k, same_image d d' /\ (0 < k <= n)%nat /\
    exists r, read_step (n, acc) (d, mkRange pos e) = (Ok r, (d', mkRange (pos + Z.of_nat k) e)) /\
      (r = inl ((n - k)%nat, acc ++ mem d pos k) \/ k = n /\ r = inr (acc ++ mem d pos k)).
Proof.
  intros Hn H0 Hp. destruct (read_chunk_mem d pos) as (c & d' & Hc & Hi & Hr).
  { split; [lia|]. change (2 ^ 16) with 65536. lia. }
  set (skip := Z.to_nat (pos mod 2)) in *.
  assert (get_from (mem d (2 * (pos / 2)) (c + skip)) skip = Some (mem d pos c)) as Hg.
  { apply get_from_Some. rewrite length_mem, drop_mem by lia. split; [lia|].
    f_equal; unfold skip; lia. }
  exists d', (Nat.min n c). split_and!; [done|lia|lia|].
  exists (if Nat.ltb n c then inr (acc ++ mem d pos n) else inl ((n - c)%nat, acc ++ mem d pos c)).
  unfold read_step. destruct (Nat.eqb_spec n 0) as [|_]; [lia|].
  rewrite (st_step (gets snd) _ _ (mkRange pos e) (d, mkRange pos e)) by done. cbn [byte_pos].
  rewrite (st_step _ _ _ _ _ (on_provider_ok _ _ (mkRange pos e) _ _ Hr)). cbv zeta. fold skip.
  rewrite (st_step (lift _) _ _ (mem d pos c) (d', mkRange pos e)) by (unfold lift; by rewrite Hg).
  rewrite length_mem. destruct (Nat.ltb n c) eqn:Hlt; bool_prop.
  - rewrite take_mem, length_mem, Nat.min_l by lia.
    rewrite (st_step _ _ _ _ _ (advance_ok n d' pos e ltac:(lia) ltac:(lia) ltac:(lia))). auto.
  - rewrite Nat.min_r by lia.
    rewrite (st_step _ _ _ _ _ (advance_ok c d' pos e ltac:(lia) ltac:(lia) ltac:(lia))). auto.
Qed.

(** The loop of [read] reads all that is asked for. *)
Lemma read_loop_ok n : forall fuel acc d pos e,
  (n < fuel)%nat -> 0 <= pos -> pos + Z.of_nat n < 65536 ->
  exists d', iterate fuel read_step (n, acc) (d, mkRange pos e) =
    (Ok (Some (acc ++ mem d pos n)), (d', mkRange (pos + Z.of_nat n) e)) /\ same_image d d'.
Proof.
  induction (lt_wf n) as [n _ IH]. intros [|fuel] acc d pos e Hf H0 Hn; [lia|].
  destruct (decide (n = 0)%nat) as [->|Hn0].
  { exists d. split; [|done]. rewrite (iterate_inr _ _ _ _ acc (d, mkRange pos e)) by done.
    by rewrite app_nil_r, Z.add_0_r. }
  destruct (read_step_ok d n acc pos e) as (d1 & k & Hi & Hk & r & Hr & [->|[-> ->]]); [lia..| |].
  - rewrite (iterate_inl _ _ _ _ _ _ Hr).
    destruct (IH (n - k)%nat ltac:(lia) fuel (acc ++ mem d pos k) d1 (pos + Z.of_nat k) e)
      as (d2 & -> & Hi2); [lia..|].
    exists d2. split; [|by rewrite Hi].
    rewrite <- app_assoc, <- Hi, <- mem_app.
    replace (k + (n - k))%nat with n by lia.
    by replace (pos + Z.of_nat k + Z.of_nat (n - k)) with (pos + Z.of_nat n) by lia.
  - exists d1. by rewrite (iterate_inr _ _ _ _ _ _ Hr).
Qed.

Lemma clear_errors_ok d r :
  exists d', on_provider clear_errors (d, r) = (Ok tt, (d', r)) /\ same_image d d'.
Proof.
  destruct (clear_errors_image d) as (d' & Hc & Hi). exists d'. split; [|done].
  by apply on_provider_ok.
Qed.

Lemma read_ok d r n :
  range_ok r ->
  exists d', read n (d, r) = (Ok (mem d (byte_pos r) (in_range r n)), (d', skip_range r (in_range r n)))
    /\ same_image d d'.
Proof.
  intros [H0 He]. destruct r as [pos e]. unfold in_range, skip_range. cbn [byte_pos range_end] in *.
  unfold read. rewrite (st_step (gets snd) _ _ (mkRange pos e) (d, mkRange pos e)) by done.
  cbn [byte_pos range_end]. replace (Z.to_nat (sat_sub e pos)) with (Z.to_nat (e - pos)) by (unfold sat_sub; lia).
  destruct (Nat.eqb_spec (Z.to_nat (e - pos)) 0) as [Hz|Hz].
  { exists d. split; [|done]. rewrite Hz, Nat.min_0_r, Z.add_0_r. done. }
  destruct (clear_errors_ok d (mkRange pos e)) as (d1 & H1 & Hi1).
  cbv zeta. rewrite (st_step _ _ _ _ _ H1).
  destruct (read_loop_ok (Nat.min n (Z.to_nat (e - pos))) (S (Nat.min n (Z.to_nat (e - pos)))) [] d1 pos e)
    as (d2 & H2 & Hi2); [lia..|].
  rewrite (st_step _ _ _ _ _ H2). exists d2. rewrite <- Hi1 in Hi2. rewrite <- Hi1. done.
Qed.

Lemma read_exact_ok d r n :
  range_ok r -> byte_pos r + Z.of_nat n <= range_end r ->
  exists d', read_exact read n (d, r) = (Ok (mem d (byte_pos r) n), (d', skip_range r n))
    /\ same_image d d'.
Proof.
  intros Hr Hn. destruct (decide (n = 0)%nat) as [->|Hn0].
  { exists d. rewrite read_exact_done. unfold skip_range. rewrite Z.add_0_r. by destruct r. }
  destruct (read_ok d r n Hr) as (d' & Hd & Hi). exists d'. split; [|done].
  replace (in_range r n) with n in Hd by (unfold in_range; lia).
  rewrite (read_exact_some _ _ _ _ _ _ _ Hd), length_mem, Nat.sub_diag, read_exact_done
    by (rewrite length_mem; lia).
  cbn. by rewrite app_nil_r.
Qed.

Lemma read_exact_short d r n :
  range_ok r -> (0 < n)%nat -> range_end r < byte_pos r + Z.of_nat n ->
  exists d' r', read_exact read n (d, r) = (Err UnexpectedEof, (d', r')) /\ same_image d d'.
Proof.
  intros Hr Hn0 Hn. destruct (read_ok d r n Hr) as (d1 & Hd & Hi1).
  destruct (decide (in_range r n = 0)%nat) as [Hz|Hz].
  { rewrite Hz in Hd. exists d1, (skip_range r 0). split; [|done]. by apply read_exact_eof. }
  rewrite (read_exact_some _ _ _ _ _ _ _ Hd) by (rewrite length_mem; unfold in_range in *; lia).
  rewrite length_mem. set (k := in_range r n) in *.
  assert (k = Z.to_nat (range_end r - byte_pos r)) as Hk by (unfold k, in_range; lia).
  destruct (read_ok d1 (skip_range r k) (n - k)) as (d2 & Hd2 & Hi2).
  { destruct Hr. split; cbn; lia. }
  replace (in_range (skip_range r k) (n - k)) with 0%nat in Hd2
    by (unfold skip_range, in_range; cbn [byte_pos range_end]; lia).
  assert (0 < n - k)%nat as Hnk by lia. rewrite (read_exact_eof _ _ _ _ _ _ Hnk Hd2).
  do 2 eexists. split; [done|]. by rewrite Hi1.
Qed.

(** *** Writing *)

Lemma patch_nil f a x : patch f a [] x = f x.
Proof. unfold patch. by destruct (x <? a). Qed.

Lemma patch_app f a b c x :
  patch (patch f a b) (a + Z.of_nat (length b)) c x = patch f a (b ++ c) x.
Proof.
  unfold patch. destruct (Z.ltb_spec x a) as [Hx|Hx].
  { by rewrite (proj2 (Z.ltb_lt _ _)) by lia. }
  destruct (Z.ltb_spec x (a + Z.of_nat (length b))) as [Hb|Hb].
  - by rewrite lookup_app_l by lia.
  - rewrite lookup_app_r by lia.
    replace (Z.to_nat (x - (a + Z.of_nat (length b)))) with (Z.to_nat (x - a) - length b)%nat by lia.
    by rewrite (lookup_ge_None_2 b) by lia.
Qed.

Lemma patch_ext f g a b x : f x = g x -> patch f a b x = patch g a b x.
Proof. unfold patch. by intros ->. Qed.

Lemma mem_lookup d s n i : (i < n)%nat -> mem d s n !! i = Some (image d (s + Z.of_nat i)).
Proof. intros Hi. unfold mem. rewrite list_lookup_fmap, lookup_seqZ_lt by lia. done. Qed.

(** A memory patched inside a block is the block spliced. *)
Lemma mem_patch d d' s n a b :
  (forall x, image d' x = patch (image d) (s + Z.of_nat a) b x) -> (a + length b <= n)%nat ->
  mem d' s n = splice (mem d s n) a b.
Proof.
  intros Hp Hn. apply list_eq. intros i.
  destruct (decide (i < n)%nat) as [Hi|Hi].
  2: { rewrite !lookup_ge_None_2; [done|rewrite length_splice|]; rewrite ?length_mem; lia. }
  rewrite mem_lookup, Hp by done. unfold patch.
  destruct (decide (a <= i < a + length b)%nat) as [Hin|Hout].
  - rewrite splice_lookup_in, (proj2 (Z.ltb_ge _ _)) by (rewrite ?length_mem; lia).
    replace (Z.to_nat (s + Z.of_nat i - (s + Z.of_nat a))) with (i - a)%nat by lia.
    destruct (lookup_lt_is_Some_2 b (i - a)) as [y Hy]; [lia|]. by rewrite Hy.
  - rewrite splice_lookup_out, mem_lookup by (rewrite ?length_mem; lia). f_equal.
    destruct (Z.ltb_spec (s + Z.of_nat i) (s + Z.of_nat a)); [done|].
    rewrite lookup_ge_None_2 by lia. done.
Qed.

Lemma patch_out f a b x : x < a \/ a + Z.of_nat (length b) <= x -> patch f a b x = f x.
Proof.
  intros Hx. unfold patch. destruct (Z.ltb_spec x a); [done|].
  by rewrite lookup_ge_None_2 by lia.
Qed.

Lemma write_word_patch d p x y :
  in_u 16 p -> byte_ok x -> byte_ok y ->
  exists d', write_word p [x; y] d = (Ok tt, d') /\ forall a, image d' a = patch (image d) (2 * p) [x; y] a.
Proof.
  intros Hp Hx Hy. destruct (write_word_image p x y d Hp Hx Hy) as (d' & Hw & Hi).
  exists d'. split; [done|]. intros a. rewrite Hi. unfold patch.
  destruct (Z.ltb_spec a (2 * p)); [rewrite !(proj2 (Z.eqb_neq _ _)) by lia; done|].
  destruct (Z.eqb_spec a (2 * p)) as [->|]; [by rewrite Z.sub_diag|].
  destruct (Z.eqb_spec a (2 * p + 1)) as [->|].
  { by replace (2 * p + 1 - 2 * p) with 1 by lia. }
  by rewrite lookup_ge_None_2 by (cbn; lia).
Qed.

Lemma write_loop_ok ws : forall n d p q,
  Forall (fun w => exists x y, w = [x; y] /\ byte_ok x /\ byte_ok y) ws ->
  0 <= p <= q -> 2 * q < 65536 ->
  let k := Nat.min (length ws) (Z.to_nat (q - p)) in
  exists d', write_loop ws n (d, mkRange (2 * p) (2 * q)) =
      (Ok (n + 2 * k)%nat, (d', mkRange (2 * (p + Z.of_nat k)) (2 * q))) /\
    forall a, image d' a = patch (image d) (2 * p) (take (2 * k) (concat ws)) a.
Proof.
  induction ws as [|w ws IH]; intros n d p q Hw Hp Hq k; unfold k; clear k.
  { exists d. cbn [write_loop length Nat.min]. rewrite Z.add_0_r, Nat.mul_0_r, Nat.add_0_r.
    rewrite (st_step (gets snd) _ _ (mkRange (2 * p) (2 * q)) (d, mkRange (2 * p) (2 * q))) by done.
    split; [by destruct (_ =? _)|]. intros a. by rewrite patch_nil. }
  apply Forall_cons in Hw as [(x & y & -> & Hx & Hy) Hw].
  cbn [write_loop].
  rewrite (st_step (gets snd) _ _ (mkRange (2 * p) (2 * q)) (d, mkRange (2 * p) (2 * q))) by done.
  cbn [byte_pos range_end].
  destruct (Z.eqb_spec (sat_sub (2 * q) (2 * p)) 0) as [Hz|Hz]; unfold sat_sub in Hz.
  { replace (Z.to_nat (q - p)) with 0%nat by lia. rewrite Nat.min_0_r, Nat.mul_0_r, Nat.add_0_r, Z.add_0_r.
    exists d. split; [done|]. intros a. by rewrite patch_nil. }
  replace (2 * p / 2) with p by lia.
  destruct (write_word_patch d p x y) as (d1 & H1 & Hi1); [|done..|].
  { split; [lia|]. change (2 ^ 16) with 65536. lia. }
  rewrite (st_step _ _ _ _ _ (on_provider_ok _ _ (mkRange (2 * p) (2 * q)) _ _ H1)).
  cbn [length].
  rewrite (st_step _ _ _ _ _ (advance_ok 2 d1 (2 * p) (2 * q) ltac:(lia) ltac:(lia) ltac:(lia))).
  replace (2 * p + Z.of_nat 2) with (2 * (p + 1)) by lia.
  destruct (IH (n + 2)%nat d1 (p + 1) q Hw ltac:(lia) Hq) as (d2 & H2 & Hi2).
  exists d2. rewrite H2. replace (Z.to_nat (q - p)) with (S (Z.to_nat (q - (p + 1)))) by lia.
  set (k := Nat.min (length ws) (Z.to_nat (q - (p + 1)))) in *. cbn [Nat.min]. fold k.
  replace (2 * S k)%nat with (S (S (2 * k))) by lia. split.
  - replace (n + S (S (2 * k)))%nat with (n + 2 + 2 * k)%nat by lia.
    by replace (p + Z.of_nat (S k)) with (p + 1 + Z.of_nat k) by lia.
  - intros a. rewrite Hi2. cbn [concat app take].
    etrans; [|apply (patch_app (image d) (2 * p) [x; y])]. cbn [length].
    replace (2 * p + Z.of_nat 2) with (2 * (p + 1)) by lia. by apply patch_ext.
Qed.

(** [words] cuts the buffer up and pads it. *)
Lemma words_spec n b :
  (length b <= n)%nat -> bytes_ok b ->
  Forall (fun w => exists x y, w = [x; y] /\ byte_ok x /\ byte_ok y) (words b) /\
    concat (words b) = b ++ zeros (length b mod 2).
Proof.
  revert b. induction n as [|n IH]; intros [|x [|y b]] Hn Hb; cbn [length] in Hn; try lia;
    try (by split; [constructor|]).
  - inversion_clear Hb as [|? ? Hx _]. split; [|done]. repeat constructor. by exists x, 0.
  - inversion_clear Hb as [|? ? Hx Hb']. inversion_clear Hb' as [|? ? Hy Hb].
    destruct (IH b ltac:(lia) Hb) as [Hw Hc]. cbn [words concat app]. split.
    + constructor; [by exists x, y|done].
    + rewrite Hc. cbn [length]. do 4 f_equal. lia.
Qed.

Lemma length_concat_words b : length (concat (words b)) = (2 * length (words b))%nat.
Proof.
  assert (forall n b, (length b <= n)%nat -> length (concat (words b)) = (2 * length (words b))%nat) as Hw.
  { clear b. induction n as [|n IH]; intros [|x [|y b]] Hn; cbn [length] in Hn; try lia; try done.
    cbn [words concat length app]. rewrite IH by lia. lia. }
  by apply (Hw (length b)).
Qed.

(** *** Operations on a range of their own *)

Lemma with_range_ok {A} (m : St (D * EepromRange) Error A) r d a d' r' :
  m (d, r) = (Ok a, (d', r')) -> with_range r m d = (Ok (a, r'), d').
Proof. intros Hm. unfold with_range. by rewrite Hm. Qed.

Lemma read_exact_at_ok d r n :
  range_ok r -> byte_pos r + Z.of_nat n <= range_end r ->
  exists d', read_exact_at r n d = (Ok (mem d (byte_pos r) n), d') /\ same_image d d'.
Proof.
  intros Hr Hn. destruct (read_exact_ok d r n Hr Hn) as (d' & Hd & Hi). exists d'. split; [|done].
  unfold read_exact_at.
  erewrite st_step; [|apply with_range_ok; unfold st_map_err; rewrite Hd; done]. done.
Qed.

Lemma EepromRange_new_ok {E} w len :
  0 <= w -> 0 <= len -> 2 * (w + len) < 65536 ->
  EepromRange_new (E:=E) w len = Ok (mkRange (2 * w) (2 * (w + len))).
Proof.
  intros Hw Hl H. unfold EepromRange_new. rewrite !umul_ok by lia. msimpl.
  rewrite uadd_ok by lia. by replace (w * 2 + len * 2) with (2 * (w + len)) by lia; rewrite Z.mul_comm.
Qed.

(** ** Properties *)

(** C37: [read_exact] on a range of any EEPROM gives exactly the bytes of the
    EEPROM from the start of the range, as many as asked for, however the
    provider cuts them into chunks, and the EEPROM keeps its contents.  Asking for
    more than the range holds is [SectionOverrun]. *)
Theorem read_exact_at_spec d r n :
  range_ok r -> byte_pos r <= range_end r ->
  exists d', same_image d d' /\
    read_exact_at r n d =
      (if decide (byte_pos r + Z.of_nat n <= range_end r) then Ok (mem d (byte_pos r) n)
       else Err (E_Eeprom EE_SectionOverrun), d').
Proof.
  intros Hr Hle. destruct (decide _) as [Hn|Hn].
  - destruct (read_exact_at_ok d r n Hr Hn) as (d' & ? & ?). by exists d'.
  - destruct (read_exact_short d r n Hr) as (d' & r' & Hd & Hi); [lia..|].
    exists d'. split; [done|]. unfold read_exact_at, with_range, st_map_err, mbind, St_bind.
    by rewrite Hd.
Qed.

(** [write] on a range (which always starts and ends on words) changes the
    EEPROM under the range only, to the buffer cut off at the end of the range.
    A buffer of odd length is padded with a zero, and the padding is counted as
    written: [write] then reports one byte more than it was given, which
    [embedded_io_async] does not allow. *)
Theorem range_write_spec b p q d :
  bytes_ok b -> 0 <= p <= q -> 2 * q < 65536 ->
  let n := Nat.min (length b + length b mod 2) (Z.to_nat (2 * q - 2 * p)) in
  exists d', write b (d, mkRange (2 * p) (2 * q)) =
      (Ok n, (d', mkRange (2 * p + Z.of_nat n) (2 * q))) /\
    forall a, image d' a = patch (image d) (2 * p) (take n (b ++ zeros (length b mod 2))) a.
Proof.
  intros Hb Hp Hq n. destruct (words_spec (length b) b (le_n _) Hb) as [Hw Hc].
  destruct (write_loop_ok (words b) 0 d p q Hw Hp Hq) as (d' & Hd & Hi).
  pose proof (length_concat_words b) as Hl.
  rewrite Hc, length_app, length_zeros in Hl.
  exists d'. unfold write. rewrite Hd.
  rewrite Hc in Hi.
  assert (n = 2 * Nat.min (length (words b)) (Z.to_nat (q - p)))%nat as -> by (unfold n; lia).
  split; [|done].
  rewrite Nat.add_0_l. do 4 f_equal. lia.
Qed.

End MemoryLemmas.

(** *** Witnesses *)

Definition sample_memory (a : Z) : Z := a mod 256.

#[export] Instance sample_provider : Provider (Z -> Z) := memory_provider 4.
#[export] Program Instance memory_image : Image (Z -> Z) := {|
  image m a := wrap 8 (m a)
|}.
Next Obligation. intros d a. apply (wrap_in_u 8). lia. Qed.
Next Obligation. intros w d _. exists 4%nat, d. auto. Qed.
Next Obligation.
  intros w x y d _ Hx Hy. eexists. split; [done|]. intros a. cbv beta.
  destruct (a =? 2 * w); [by apply wrap_small|]. destruct (a =? 2 * w + 1); [by apply wrap_small|done].
Qed.
Next Obligation. intros d. by exists d. Qed.

(** A read across chunks, and one past the end of the range. *)
Lemma read_exact_at_spec_witness :
  (exists d', same_image sample_memory d' /\
    read_exact_at (H:=documented_io) (P:=true) (mkRange 18 24) 6 sample_memory =
      (Ok [18; 19; 20; 21; 22; 23], d')) /\
  exists d', same_image sample_memory d' /\
    read_exact_at (H:=documented_io) (P:=true) (mkRange 18 24) 7 sample_memory =
      (Err (E_Eeprom EE_SectionOverrun), d').
Proof.
  split.
  - destruct (read_exact_at_spec (EIO:=documented_io) (P:=true) sample_memory (mkRange 18 24) 6)
      as (d' & Hi & H); [done|done|]. exists d'. by rewrite H.
  - destruct (read_exact_at_spec (EIO:=documented_io) (P:=true) sample_memory (mkRange 18 24) 7)
      as (d' & Hi & H); [done|done|]. exists d'. by rewrite H.
Defined.

(** Three bytes are reported as four. *)
Lemma range_write_spec_witness :
  exists d', write (P:=true) [1; 2; 3] (sample_memory, mkRange 16 24) = (Ok 4%nat, (d', mkRange 20 24)) /\
    image d' <$> seqZ 14 8 = [14; 15; 1; 2; 3; 0; 20; 21].
Proof.
  destruct (range_write_spec (P:=true) [1; 2; 3] 8 12 sample_memory) as (d' & H & Hi).
  { by repeat constructor. }
  { done. }
  { done. }
  exists d'. split; [exact H|].
  etrans; [apply list_fmap_ext; intros i x _; apply Hi|]. by vm_compute.
Defined.
