(* ===== verification/SubEepromSpec.v ===== *)
(** * What is read from a SubDevice's EEPROM

    The theorems about [SubEeprom.v], on any provider that behaves as a memory
    ([EepromSpec.Image]): categories, records, strings, the fixed fields. *)
From S2P Require Import Prelude Wire WireSpec EscTypes Crates SiiTypes Errors Bus Eeprom SubEeprom EepromSpec.

Section Contents.
Context {D : Type} `{!Provider D} `{!Image D} {EIO : EmbeddedIo} {CR : Crates} {P : Profile}.

(** ** Definitions *)

(** The number of empty categories after a category of [len] words. *)
Definition count_empty (n len : Z) : Z := if len =? 0 then n + 1 else n.

(** What one turn of the search decides, by the two words it looks at. *)
Definition category_turn (c : CategoryType) (w n t len : Z) : res Error (Z * Z + option EepromRange) :=
  if 32 <=? count_empty n len then Ok (inr None)
  else if decide (CategoryType_of_u16 t = c) then
    r ← EepromRange_new (w + 2) len; Ok (inr (Some r))
  else if decide (CategoryType_of_u16 t = CT_End) then Ok (inr None)
  else a ← uadd 16 (w + 2) len; Ok (inl (a, count_empty n len)).

(** An EEPROM with the categories [cats], within what [EepromRange] can address. *)
Definition laid_out (d : D) (cats : list (Z * Z)) : Prop :=
  categories_at d SII_FIRST_CATEGORY_START cats /\
  categories_end SII_FIRST_CATEGORY_START cats < 32768 /\ (empty_categories cats < 32)%nat.

(** The category of type [c]. *)
Definition section (c : CategoryType) (cats : list (Z * Z)) : option EepromRange :=
  find_category c SII_FIRST_CATEGORY_START cats.

(** What [collect_items] makes of [m] records, when [room] more fit. *)
Definition collected {T} (rd : WireRead T) (item : Item) (d : D) (a : Z) (m room : nat)
    : res Error (list T) :=
  l ← records rd d a (Nat.min m (S room));
  if Nat.leb m room then Ok l else Err (E_Capacity item).

(** The string a search ends at: what is read at [p], behind the others. *)
Definition string_read (N : nat) (d : D) (p e : Z) : res Error (option bytes) :=
  let len := image d p in
  if Z.of_nat N <? len then Err (E_StringTooLong (Z.of_nat N) len)
  else if decide (len = 0 \/ p + 1 + len <= e) then Ok (Some (visible (mem d (p + 1) (Z.to_nat len))))
  else Err (E_Eeprom EE_SectionOverrun).

(** One turn of [collect_items]. *)
Definition collect_step {T} (rd : WireRead T) (cap : nat) (item : Item) (acc : list T)
    : St (D * EepromRange) Error (list T + list T) :=
  x ← next rd;
  match x with
  | None => mret (inr acc)
  | Some x => acc ← lift (ok_or (vec_push cap acc x) (E_Capacity item)); mret (inl acc)
  end.

(** ** Lemmas and properties

    *** Categories *)

Lemma word_at_range d w : in_u 16 (word_at d w).
Proof.
  unfold word_at, in_u. pose proof (image_byte d (2 * w)). pose proof (image_byte d (2 * w + 1)).
  unfold byte_ok in *. change (2 ^ 16) with 65536. lia.
Qed.

Lemma category_step_ok c d w n :
  0 <= w < 65534 -> 0 <= n < 255 ->
  exists d', same_image d d' /\
    category_step c (w, n) d = (category_turn c w n (word_at d w) (word_at d (w + 1)), d').
Proof.
  intros Hw Hn. assert (in_u 16 w /\ in_u 16 (w + 2)) as [Hu Hu2].
  { unfold in_u. change (2 ^ 16) with 65536. lia. }
  destruct (read_chunk_image w d Hu) as (k & d' & Hk & Hr & Hi). exists d'. split; [done|].
  fold (mem d (2 * w) k) in Hr.
  unfold category_step, category_turn. rewrite (st_step _ _ _ _ _ Hr).
  rewrite (proj2 (in_ub_spec 16 (w + 2)) Hu2). cbn [negb]. cbv zeta.
  assert (get_range (mem d (2 * w) k) 0 2 = Some (mem d (2 * w) 2)) as G1.
  { rewrite get_range_0 by (rewrite length_mem; lia). by rewrite take_mem by lia. }
  assert (get_range (mem d (2 * w) k) 2 4 = Some (mem d (2 * (w + 1)) 2)) as G2.
  { apply get_range_Some. rewrite length_mem. split; [lia|].
    rewrite drop_mem, take_mem by lia. f_equal. lia. }
  rewrite G1, G2. rewrite (st_step (lift _) _ _ (mem d (2 * w) 2) d') by done.
  rewrite (st_step (lift _) _ _ (mem d (2 * (w + 1)) 2) d') by done. rewrite !le_val_mem2.
  rewrite (st_step _ _ _ (count_empty n (word_at d (w + 1))) d').
  2: { unfold count_empty. destruct (_ =? 0); [|done]. unfold lift. f_equal.
       apply checked_ok. split; [lia|]. change (2 ^ 8) with 256. lia. }
  destruct (32 <=? _); [done|]. destruct (decide _).
  { by destruct (EepromRange_new _ _). }
  destruct (decide _); [done|]. by destruct (uadd _ _ _).
Qed.

#[export] Instance categories_at_proper :
  Proper (same_image ==> eq ==> eq ==> iff) (categories_at (D:=D)).
Proof.
  intros d d' Hi w _ <- cats _ <-. revert w. induction cats as [|[t len] cats IH]; intros w; cbn.
  - by rewrite (word_at_proper d d' Hi w w).
  - by rewrite (word_at_proper d d' Hi w w), (word_at_proper d d' Hi (w + 1) (w + 1)), IH.
Qed.

Lemma categories_end_ge cats : forall d w, categories_at d w cats -> w <= categories_end w cats.
Proof.
  induction cats as [|[t len] cats IH]; intros d w; cbn; [lia|].
  intros (_ & <- & _ & H). apply IH in H. pose proof (word_at_range d (w + 1)) as [? _].
  unfold categories_end in H. lia.
Qed.

Lemma empty_categories_cons t len cats n :
  n + Z.of_nat (empty_categories ((t, len) :: cats)) =
  count_empty n len + Z.of_nat (empty_categories cats).
Proof.
  unfold empty_categories, count_empty. rewrite filter_cons. cbn [snd].
  destruct (decide (len = 0)) as [->|Hl]; [cbn [length Z.eqb]; lia|].
  by rewrite (proj2 (Z.eqb_neq _ _)).
Qed.

Lemma category_search c cats : forall fuel d w n,
  c <> CT_End -> categories_at d w cats -> 0 <= w -> categories_end w cats < 32768 ->
  0 <= n -> n + Z.of_nat (empty_categories cats) < 32 -> (length cats < fuel)%nat ->
  exists d', same_image d d' /\
    iterate fuel (category_step c) (w, n) d = (Ok (Some (find_category c w cats)), d').
Proof.
  induction cats as [|[t len] cats IH]; intros [|fuel] d w n Hc Hat Hw He Hn Hemp Hf; try (cbn in Hf; lia).
  - cbn in Hat, He. destruct (category_step_ok c d w n) as (d' & Hi & Hs); [lia..|].
    exists d'. split; [done|]. rewrite (iterate_inr _ _ _ _ None d'); [done|]. rewrite Hs. unfold category_turn.
    destruct (32 <=? _); [done|]. rewrite Hat.
    change (CategoryType_of_u16 65535) with CT_End. by destruct (decide (CT_End = c)) as [<-|].
  - destruct Hat as (Ht & Hl & Hend & Hat). pose proof (categories_end_ge _ _ _ Hat) as Hge.
    pose proof (word_at_range d (w + 1)) as [Hl0 _]. rewrite Hl in Hl0.
    change (categories_end w ((t, len) :: cats)) with (categories_end (w + 2 + len) cats) in He.
    destruct (category_step_ok c d w n) as (d' & Hi & Hs); [lia..|].
    rewrite Ht, Hl in Hs. unfold category_turn in Hs.
    rewrite empty_categories_cons in Hemp.
    assert (0 <= count_empty n len) as Hn' by (unfold count_empty; destruct (_ =? _); lia).
    rewrite (proj2 (Z.leb_gt _ _)) in Hs by lia. cbn [find_category]. destruct (decide _) as [Hd|Hd].
    + exists d'. split; [done|]. rewrite (iterate_inr _ _ _ _ _ _ ltac:(rewrite Hs, EepromRange_new_ok by lia; done)).
      by replace (2 * (w + 2 + len)) with (2 * (w + 2) + 2 * len) by lia.
    + rewrite decide_False in Hs by done. rewrite uadd_ok in Hs by lia.
      rewrite (iterate_inl _ _ _ _ _ _ Hs). apply (categories_at_proper d d' Hi _ _ eq_refl _ _ eq_refl) in Hat.
      destruct (IH fuel d' (w + 2 + len) (count_empty n len)) as (d2 & Hi2 & ->);
        [done..|lia|done|done|done|cbn in Hf; lia|].
      exists d2. split; [by rewrite Hi|done].
Qed.

Lemma category_ok c cats d :
  c <> CT_End -> laid_out d cats ->
  exists d', same_image d d' /\ category c d = (Ok (section c cats), d').
Proof.
  intros Hc (Hat & He & Hemp).
  assert (length cats < category_turns)%nat as Hlen.
  { assert (forall cats d w, categories_at d w cats -> w + 2 * Z.of_nat (length cats) <= categories_end w cats) as Hl.
    { clear. induction cats as [|[t len] cats IH]; intros d w; cbn [length]; [cbn; lia|].
      intros (_ & <- & _ & H). apply IH in H. pose proof (word_at_range d (w + 1)) as [? _].
      cbn in H |- *. unfold categories_end in H. cbn. lia. }
    apply Hl in Hat. unfold category_turns, SII_FIRST_CATEGORY_START in *. lia. }
  destruct (category_search c cats category_turns d SII_FIRST_CATEGORY_START 0)
    as (d' & Hi & Hd); [done..|lia|done|].
  exists d'. split; [done|]. unfold category. by rewrite (st_step _ _ _ _ _ Hd).
Qed.

(** *** Fixed fields *)

Lemma start_at_ok w len :
  0 <= w -> 0 <= len -> 2 * w + len < 65536 -> len mod 2 = 0 ->
  start_at w len = Ok (mkRange (2 * w) (2 * w + len)).
Proof.
  intros. unfold start_at. rewrite EepromRange_new_ok by lia.
  by replace (2 * (w + len / 2)) with (2 * w + len) by lia.
Qed.

(** Read [n] bytes at a fixed place. *)
Lemma read_fixed d w n :
  0 <= w -> 2 * w + Z.of_nat n < 65536 ->
  exists d', read_exact_at (mkRange (2 * w) (2 * w + Z.of_nat n)) n d = (Ok (mem d (2 * w) n), d')
    /\ same_image d d'.
Proof. intros Hw Hn. apply read_exact_at_ok; [split|]; cbn; lia. Qed.

Lemma write_all_at_ok d p x y :
  0 <= p -> 2 * p + 2 < 65536 -> byte_ok x -> byte_ok y ->
  exists d', write_all_at (mkRange (2 * p) (2 * p + 2)) [x; y] d = (Ok tt, d') /\
    forall a, image d' a = patch (image d) (2 * p) [x; y] a.
Proof.
  intros Hp Hb Hx Hy. replace (2 * p + 2) with (2 * (p + 1)) by lia.
  destruct (write_loop_ok [[x; y]] 0 d p (p + 1)) as (d' & Hd & Hi); [|lia..|].
  { constructor; [by exists x, y|constructor]. }
  replace (Z.to_nat (p + 1 - p)) with 1%nat in * by lia. cbn in Hi.
  change (write [x; y] (d, mkRange (2 * p) (2 * (p + 1))) = (Ok 2%nat, (d', mkRange (2 * (p + 1)) (2 * (p + 1))))) in Hd.
  exists d'. split; [|done]. unfold write_all_at.
  erewrite st_step; [|apply with_range_ok]; [done|].
  rewrite (write_all_some _ _ _ _ _ _ _ Hd) by (cbn; lia). apply write_all_done.
Qed.

Lemma image_word_at d d' p x y :
  (forall a, image d' a = patch (image d) (2 * p) [x; y] a) ->
  word_at d' p = x + 256 * y.
Proof.
  intros Hi. unfold word_at. rewrite !Hi. unfold patch.
  rewrite !(proj2 (Z.ltb_ge _ _)) by lia.
  replace (Z.to_nat (2 * p - 2 * p)) with 0%nat by lia.
  by replace (Z.to_nat (2 * p + 1 - 2 * p)) with 1%nat by lia.
Qed.

Lemma le_bytes_2 v : in_u 16 v -> exists x y, le_bytes 2 v = [x; y] /\ byte_ok x /\ byte_ok y /\ v = x + 256 * y.
Proof.
  unfold in_u. change (2 ^ 16) with 65536. intros Hv. exists (v mod 256), (v / 256 mod 256).
  unfold byte_ok. split_and!; [done|lia..].
Qed.

(** A number written as a word. *)
Lemma write_value_ok d p v :
  0 <= p -> 2 * p + 2 < 65536 -> in_u 16 v ->
  exists d', write_all_at (mkRange (2 * p) (2 * p + 2)) (le_bytes 2 v) d = (Ok tt, d') /\
    (forall a, image d' a = patch (image d) (2 * p) (le_bytes 2 v) a) /\ word_at d' p = v.
Proof.
  intros Hp Hb Hv. destruct (le_bytes_2 v Hv) as (x & y & -> & Hx & Hy & ->).
  destruct (write_all_at_ok d p x y Hp Hb Hx Hy) as (d' & Hd & Hi).
  exists d'. split_and!; [done..|]. by apply (image_word_at d).
Qed.

Lemma word_at_out d d' p b w :
  (forall a, image d' a = patch (image d) (2 * p) b a) -> length b = 2%nat -> w <> p ->
  word_at d' w = word_at d w.
Proof. intros Hi Hb Hw. unfold word_at. rewrite !Hi, !patch_out by (rewrite Hb; lia). done. Qed.

Lemma station_alias_ok d :
  exists d', station_alias d = (Ok (word_at d 4), d') /\ same_image d d'.
Proof.
  unfold station_alias. destruct (read_fixed d 4 2) as (d' & Hd & Hi); [lia..|]. exists d'. split; [|done].
  rewrite (st_step (lift _) _ _ (mkRange 8 10) d) by done.
  rewrite (st_step _ _ _ _ _ Hd). by rewrite <- le_val_mem2.
Qed.

Lemma station_alias_crc_is_crc8 l : station_alias_crc l = crc8 0x07 0xff l.
Proof. apply crc_checksum_spec. Qed.

Lemma station_alias_crc_u8 l : in_u 8 (station_alias_crc l).
Proof. rewrite station_alias_crc_is_crc8. apply wrap_in_u. lia. Qed.

(** The header of an AKD drive, which the tests of the code read, and the string
    whose CRC the algorithm gives as [check]. *)
Example crc8_samples :
  crc8 0x07 0xff [9; 0; 0; 8; 0; 0; 0; 0; 0; 0; 0; 0; 0; 0] = 0x10 /\ crc8 0x07 0xff [49; 50; 51; 52; 53; 54; 55; 56; 57] = 0xfb.
Proof. vm_compute. done. Qed.

(** C38: [set_station_alias] succeeds, and leaves an EEPROM whose alias
    [station_alias] reads back, whose checksum word is the CRC-8 with polynomial
    0x07 from 0xff of its first 14 bytes (the new ones), and which is otherwise
    what it was. *)
Theorem set_station_alias_spec d v :
  in_u 16 v ->
  exists d1, set_station_alias v d = (Ok tt, d1) /\
    (exists d2, station_alias d1 = (Ok v, d2)) /\
    word_at d1 7 = crc8 0x07 0xff (mem d1 0 14) /\
    forall a, a < 8 \/ 10 <= a < 14 \/ 16 <= a -> image d1 a = image d a.
Proof.
  intros Hv. destruct (read_fixed d 0 14) as (d0 & H0 & Hi0); [lia..|].
  set (crc := station_alias_crc (splice (mem d 0 14) 8 (le_bytes 2 v))).
  assert (in_u 16 crc) as Hc.
  { pose proof (station_alias_crc_u8 (splice (mem d 0 14) 8 (le_bytes 2 v))) as Hc. unfold in_u in *.
    change (2 ^ 16) with 65536. change (2 ^ 8) with 256 in Hc. fold crc in Hc. lia. }
  destruct (write_value_ok d0 4 v) as (d1 & H1 & Hi1 & Hw1); [lia..|done|].
  destruct (write_value_ok d1 7 crc) as (d2 & H2 & Hi2 & Hw2); [lia..|done|].
  exists d2. split_and!.
  - unfold set_station_alias. rewrite (st_step (lift _) _ _ (mkRange 0 14) d) by done.
    rewrite (st_step _ _ _ _ _ H0). cbv zeta.
    rewrite (st_step (lift _) _ _ (mkRange 8 10) d0) by done.
    rewrite (st_step _ _ _ _ _ H1).
    rewrite (st_step (lift _) _ _ (mkRange 14 16) d1) by done. exact H2.
  - destruct (station_alias_ok d2) as (d3 & H3 & _). exists d3. rewrite H3.
    by rewrite (word_at_out d1 d2 7 _ 4 Hi2), Hw1.
  - rewrite Hw2. unfold crc. rewrite station_alias_crc_is_crc8. f_equal. rewrite <- (mem_patch d d1 0 14 8);
      [|intros x; rewrite Hi1; by apply patch_ext|rewrite length_le_bytes; lia].
    unfold mem. apply list_fmap_ext. intros i x Hx. apply lookup_seqZ in Hx. rewrite Hi2, patch_out; [done|lia].
  - intros a Ha. rewrite Hi2, patch_out, Hi1, patch_out by (rewrite length_le_bytes; lia). apply Hi0.
Qed.

(** [size] is the size the EEPROM states, in bytes, for those below 512
    kbit.  The arithmetic is done on 16 bits: from 512 kbit on it panics where
    overflow is checked, and gives a size that is too small where it is not. *)
Theorem size_spec d :
  exists d', same_image d d' /\
    let bytes := (word_at d 0x3e + 1) * 128 in
    size d = (if bytes <? 65536 then Ok bytes
              else if overflow_checks then Panic else Ok (wrap 16 bytes), d').
Proof.
  destruct (read_fixed d 0x3e 2) as (d' & Hd & Hi); [lia..|]. exists d'. split; [done|]. cbv zeta.
  unfold size. rewrite (st_step (lift _) _ _ (mkRange (2 * 0x3e) (2 * 0x3e + 2)) d) by done.
  rewrite (st_step _ _ _ _ _ Hd). rewrite le_val_mem2.
  pose proof (word_at_range d 0x3e) as Hw. unfold in_u in Hw. change (2 ^ 16) with 65536 in Hw.
  unfold uadd, umul, checked, in_ub, wrap, mbind, St_bind, lift. change (2 ^ 16) with 65536.
  generalize (word_at d 0x3e), Hw. clear. intros w Hw.
  rewrite (proj2 (Z.leb_le 0 (w + 1))) by lia. cbn [andb].
  destruct (Z.ltb_spec (w + 1) 65536).
  - rewrite (proj2 (Z.leb_le 0 _)) by lia. cbn [andb].
    destruct (Z.ltb_spec ((w + 1) * 128) 65536); [done|]. by destruct overflow_checks.
  - rewrite (proj2 (Z.ltb_ge ((w + 1) * 128) _)) by lia. destruct overflow_checks; [done|].
    replace w with 65535 by lia. done.
Qed.

(** *** Records *)

#[export] Instance records_proper {T} (rd : WireRead T) :
  Proper (same_image ==> eq ==> eq ==> eq) (records rd).
Proof.
  intros d d' Hi a _ <- n _ <-. revert a. induction n as [|n IH]; intros a; [done|]. cbn [records].
  by rewrite (mem_proper d d' Hi a a eq_refl _ _ eq_refl), IH.
Qed.

Lemma next_some {T} (rd : WireRead T) d r :
  range_ok r -> byte_pos r + Z.of_nat (BUFFER_LEN rd) <= range_end r ->
  exists d', next rd (d, r) =
      (Some <$> from_wire (unpack_from_slice rd (mem d (byte_pos r) (BUFFER_LEN rd))),
       (d', skip_range r (BUFFER_LEN rd))) /\ same_image d d'.
Proof.
  intros Hr Hn. destruct (read_exact_ok d r _ Hr Hn) as (d' & Hd & Hi). exists d'. split; [|done].
  unfold next. by rewrite Hd.
Qed.

Lemma next_none {T} (rd : WireRead T) d r :
  range_ok r -> (0 < BUFFER_LEN rd)%nat -> range_end r < byte_pos r + Z.of_nat (BUFFER_LEN rd) ->
  exists d' r', next rd (d, r) = (Ok None, (d', r')) /\ same_image d d'.
Proof.
  intros Hr Hp Hn. destruct (read_exact_short d r _ Hr Hp Hn) as (d' & r' & Hd & Hi).
  exists d', r'. split; [|done]. unfold next. by rewrite Hd.
Qed.

Lemma whole_records_skip r len m :
  (0 < len)%nat -> whole_records r len = S m ->
  byte_pos r + Z.of_nat len <= range_end r /\ whole_records (skip_range r len) len = m.
Proof.
  unfold whole_records, skip_range. cbn [byte_pos range_end]. intros Hl Hm.
  assert (0 < Z.of_nat len) as Hp by lia. generalize dependent (Z.of_nat len). intros l Hm Hp.
  assert (1 <= (range_end r - byte_pos r) / l) as H1 by lia.
  assert (l * 1 <= range_end r - byte_pos r) as H2.
  { etrans; [|apply (Z.mul_div_le _ l); lia]. apply Z.mul_le_mono_nonneg_l; lia. }
  split; [lia|].
  replace (range_end r - (byte_pos r + l)) with (range_end r - byte_pos r + (-1) * l) by lia.
  rewrite Z.div_add by lia. lia.
Qed.

Lemma whole_records_0 r len :
  (0 < len)%nat -> whole_records r len = 0%nat -> range_end r < byte_pos r + Z.of_nat len.
Proof.
  unfold whole_records. intros Hl Hm. assert (0 < Z.of_nat len) as Hp by lia.
  generalize dependent (Z.of_nat len). intros l Hm Hp.
  destruct (Z.lt_ge_cases (range_end r) (byte_pos r + l)); [done|].
  assert (1 <= (range_end r - byte_pos r) / l); [|lia]. apply Z.div_le_lower_bound; lia.
Qed.

Lemma collect_step_end {T} (rd : WireRead T) cap item acc d r :
  (0 < BUFFER_LEN rd)%nat -> range_ok r -> whole_records r (BUFFER_LEN rd) = 0%nat ->
  exists d' r', same_image d d' /\ collect_step rd cap item acc (d, r) = (Ok (inr acc), (d', r')).
Proof.
  intros Hp Hr Hm. destruct (next_none rd d r Hr Hp (whole_records_0 _ _ Hp Hm)) as (d' & r' & Hd & Hi).
  exists d', r'. split; [done|]. unfold collect_step. by rewrite (st_step _ _ _ _ _ Hd).
Qed.

Lemma collect_step_item {T} (rd : WireRead T) cap item acc d r m :
  (0 < BUFFER_LEN rd)%nat -> range_ok r -> whole_records r (BUFFER_LEN rd) = S m ->
  exists d', same_image d d' /\ collect_step rd cap item acc (d, r) =
    (x ← from_wire (unpack_from_slice rd (mem d (byte_pos r) (BUFFER_LEN rd)));
     if Nat.ltb (length acc) cap then Ok (inl (acc ++ [x])) else Err (E_Capacity item),
     (d', skip_range r (BUFFER_LEN rd))).
Proof.
  intros Hp Hr Hm. destruct (whole_records_skip r _ m Hp Hm) as [Hle _].
  destruct (next_some rd d r Hr Hle) as (d' & Hd & Hi). exists d'. split; [done|].
  unfold collect_step, mbind, St_bind. rewrite Hd. destruct (from_wire _) as [x|e|]; [|done..].
  cbn. rewrite vec_push_spec. by destruct (Nat.ltb _ _).
Qed.

Lemma range_ok_skip r n : range_ok r -> range_ok (skip_range r n).
Proof. intros [? ?]. split; cbn; lia. Qed.

Lemma collect_loop {T} (rd : WireRead T) cap item room : forall acc d r,
  (0 < BUFFER_LEN rd)%nat -> range_ok r -> (length acc + room = cap)%nat ->
  exists d' r', same_image d d' /\
    iterate (S (S room)) (collect_step rd cap item) acc (d, r) =
      ((fun l => Some (acc ++ l)) <$>
        collected rd item d (byte_pos r) (whole_records r (BUFFER_LEN rd)) room, (d', r')).
Proof.
  induction room as [|room IH]; intros acc d r Hp Hr Hcap;
    destruct (whole_records r (BUFFER_LEN rd)) as [|m] eqn:Hm.
  1,3: destruct (collect_step_end rd cap item acc d r Hp Hr Hm) as (d' & r' & Hi & Hs);
    exists d', r'; split; [done|]; rewrite (iterate_inr _ _ _ _ _ _ Hs); unfold collected;
    cbn [Nat.min records Nat.leb]; rewrite (proj2 (Nat.leb_le 0 _)) by lia; msimpl; by rewrite app_nil_r.
  - destruct (collect_step_item rd cap item acc d r m Hp Hr Hm) as (d' & Hi & Hs).
    rewrite (proj2 (Nat.ltb_ge _ _)) in Hs by lia. exists d', (skip_range r (BUFFER_LEN rd)). split; [done|].
    cbn [iterate]. unfold mbind, St_bind. rewrite Hs. unfold collected.
    rewrite <- Nat.succ_min_distr, Nat.min_0_r, (proj2 (Nat.leb_gt (S m) 0)) by lia. cbn [records].
    by destruct (from_wire _).
  - destruct (collect_step_item rd cap item acc d r m Hp Hr Hm) as (d' & Hi & Hs).
    rewrite (proj2 (Nat.ltb_lt _ _)) in Hs by lia.
    unfold collected. rewrite <- Nat.succ_min_distr. cbn [records].
    destruct (from_wire _) as [x|e|].
    + rewrite (iterate_inl _ _ _ _ _ _ Hs).
      destruct (IH (acc ++ [x]) d' (skip_range r (BUFFER_LEN rd))) as (d2 & r2 & Hi2 & ->);
        [done|by apply range_ok_skip|rewrite length_app; cbn; lia|].
      exists d2, r2. split; [by rewrite Hi|]. f_equal.
      rewrite (proj2 (whole_records_skip r _ m Hp Hm)). unfold collected.
      rewrite <- (records_proper rd d d' Hi _ _ eq_refl _ _ eq_refl).
      change (Nat.leb (S m) (S room)) with (Nat.leb m room). cbn [skip_range byte_pos].
      destruct (records _ _ _ _); [|done..]. msimpl. destruct (Nat.leb m room); [|done].
      by rewrite <- app_assoc.
    + exists d', (skip_range r (BUFFER_LEN rd)). split; [done|]. by rewrite (iterate_err _ _ _ _ _ _ Hs).
    + exists d', (skip_range r (BUFFER_LEN rd)). split; [done|]. cbn [iterate]. unfold mbind at 1, St_bind.
      by rewrite Hs.
Qed.

Lemma collect_items_ok {T} (rd : WireRead T) cap item d r :
  (0 < BUFFER_LEN rd)%nat -> range_ok r ->
  exists d' r', same_image d d' /\
    collect_items cap item (next rd) (d, r) =
      (collected rd item d (byte_pos r) (whole_records r (BUFFER_LEN rd)) cap, (d', r')).
Proof.
  intros Hp Hr. destruct (collect_loop rd cap item cap [] d r Hp Hr) as (d' & r' & Hi & Hd); [done|].
  exists d', r'. split; [done|].
  change (collect_items cap item (next rd))
    with (l ← iterate (S (S cap)) (collect_step rd cap item) []; lift (unwrap l)).
  unfold mbind, St_bind. rewrite Hd. by destruct (collected _ _ _ _ _ _).
Qed.

Lemma find_category_end c cats d r :
  laid_out d cats -> section c cats = Some r -> 0 <= byte_pos r /\ range_end r < 65535.
Proof.
  intros (Hat & He & _). unfold section. revert Hat He.
  assert (0 <= SII_FIRST_CATEGORY_START) as H0 by done. revert H0. generalize SII_FIRST_CATEGORY_START as w.
  induction cats as [|[t len] cats IH]; intros w Hw Hat He; cbn [find_category]; [done|].
  destruct Hat as (_ & Hl & _ & Hat). pose proof (categories_end_ge _ _ _ Hat) as Hge.
  pose proof (word_at_range d (w + 1)) as [Hl0 _].
  change (categories_end w ((t, len) :: cats)) with (categories_end (w + 2 + len) cats) in He.
  destruct (decide _) as [_|_]; [intros [= <-]; cbn; lia|]. apply IH; [lia|done..].
Qed.

Lemma section_ok c cats d r : laid_out d cats -> section c cats = Some r -> range_ok r.
Proof. intros Hl Hs. destruct (find_category_end _ _ _ _ Hl Hs). split; lia. Qed.

(** The items of a category, none when there is no such category. *)
Lemma items_spec {T} (rd : WireRead T) c cats cap item d :
  (0 < BUFFER_LEN rd)%nat -> c <> CT_End -> laid_out d cats ->
  let r := default (mkRange 0 0) (section c cats) in
  exists d', same_image d d' /\
    (r ← items c; '(l, _) ← with_range r (collect_items cap item (next rd)); mret l) d =
      (collected rd item d (byte_pos r) (whole_records r (BUFFER_LEN rd)) cap, d').
Proof.
  intros Hp Hc Hl r. destruct (category_ok c cats d Hc Hl) as (d1 & Hi1 & H1).
  assert (range_ok r) as Hr.
  { unfold r. destruct (section c cats) eqn:Hs; [|done]. by apply (section_ok _ _ _ _ Hl Hs). }
  assert (items c d = (Ok r, d1)) as Hit.
  { unfold items. rewrite (st_step _ _ _ _ _ H1). unfold r. by destruct (section c cats). }
  destruct (collect_items_ok rd cap item d1 r Hp Hr) as (d2 & r2 & Hi2 & H2).
  exists d2. split; [by rewrite Hi1|].
  unfold mbind, St_bind. rewrite Hit. unfold with_range. rewrite H2. unfold collected.
  rewrite (records_proper rd d d1 Hi1 _ _ eq_refl _ _ eq_refl).
  by destruct (_ ≫= _).
Qed.

(** C35: the search for a category finds the first one of its type, as the range
    of its contents, in every EEPROM whose categories end before 64 KiB and of
    which fewer than 32 are empty; without one it finds nothing. *)
Theorem category_spec c cats d :
  c <> CT_End -> laid_out d cats ->
  exists d', same_image d d' /\ category c d = (Ok (section c cats), d').
Proof. intros. by apply category_ok. Qed.

(** [general] is the record at the start of the General category: a missing
    category is [NoCategory], one that is too short [SectionOverrun], and what
    cannot be parsed the error of the parser. *)
Theorem general_spec cats d :
  laid_out d cats ->
  exists d', same_image d d' /\ general d =
    (match section CT_General cats with
     | None => Err (E_Eeprom EE_NoCategory)
     | Some r =>
         if decide (byte_pos r + 18 <= range_end r)
         then from_wire (unpack_from_slice SiiGeneral_read (mem d (byte_pos r) 18))
         else Err (E_Eeprom EE_SectionOverrun)
     end, d').
Proof.
  intros Hl. destruct (category_ok CT_General cats d) as (d1 & Hi1 & H1); [done..|].
  unfold general. rewrite (st_step _ _ _ _ _ H1).
  destruct (section CT_General cats) as [r|] eqn:Hs; [|by exists d1].
  pose proof (section_ok _ _ _ _ Hl Hs) as Hr.
  rewrite (st_step (lift _) _ _ r d1) by done. unfold read_value.
  change (BUFFER_LEN SiiGeneral_read) with 18%nat. destruct (decide _) as [Hn|Hn].
  - destruct (read_exact_at_ok d1 r 18 Hr Hn) as (d2 & H2 & Hi2). exists d2. split; [by rewrite Hi1|].
    rewrite (st_step _ _ _ _ _ H2). by rewrite (mem_proper d d1 Hi1 _ _ eq_refl _ _ eq_refl).
  - destruct (read_exact_short d1 r 18 Hr) as (d2 & r2 & H2 & Hi2); [lia..|].
    exists d2. split; [by rewrite Hi1|].
    unfold read_exact_at, with_range, st_map_err, mbind, St_bind. by rewrite H2.
Qed.

(** [sync_managers] lists the records of the SyncManager category in
    order, up to the eight that fit; the ninth is a [Capacity] error, the first
    that cannot be parsed an error of its own. *)
Theorem sync_managers_spec cats d :
  laid_out d cats ->
  let r := default (mkRange 0 0) (section CT_SyncManager cats) in
  let n := whole_records r 8 in
  exists d', same_image d d' /\
    sync_managers d =
      (l ← records SyncManager_read d (byte_pos r) (Nat.min n 9);
       if Nat.leb n 8 then Ok l else Err (E_Capacity I_SyncManager), d').
Proof.
  intros Hl r n. by apply (items_spec SyncManager_read CT_SyncManager cats 8 I_SyncManager d); [vm_compute; lia|..].
Qed.

(** *** Strings *)

Lemma read_byte_ok d pos e :
  0 <= pos < 65535 ->
  exists d', same_image d d' /\ read_byte (d, mkRange pos e) = (Ok (image d pos), (d', mkRange (pos + 1) e)).
Proof.
  intros Hp. destruct (clear_errors_ok d (mkRange pos e)) as (d1 & H1 & Hi1).
  destruct (read_chunk_mem d1 pos) as (c & d2 & Hc & Hi2 & H2).
  { split; [lia|]. change (2 ^ 16) with 65536. lia. }
  exists d2. split; [by rewrite Hi1|]. unfold read_byte.
  rewrite (st_step _ _ _ _ _ H1).
  rewrite (st_step (gets snd) _ _ (mkRange pos e) (d1, mkRange pos e)) by done. cbn [byte_pos].
  rewrite (st_step _ _ _ _ _ (on_provider_ok _ _ (mkRange pos e) _ _ H2)). cbv zeta.
  rewrite (st_step _ _ _ _ _ (advance_ok 1 d2 pos e ltac:(lia) ltac:(lia) ltac:(lia))).
  rewrite mem_lookup by lia. unfold lift, ok_or. rewrite Hi1.
  by replace (2 * (pos / 2) + Z.of_nat (Z.to_nat (pos mod 2))) with pos by lia.
Qed.

Lemma skip_ahead_bytes_ok d pos e n :
  0 <= pos -> 0 <= n -> pos + n < e -> e < 65536 ->
  skip_ahead_bytes (D:=D) n (d, mkRange pos e) = (Ok tt, (d, mkRange (pos + n) e)).
Proof.
  intros Hp Hn Hpe He. unfold skip_ahead_bytes.
  rewrite (st_step (gets snd) _ _ (mkRange pos e) (d, mkRange pos e)) by done. cbn [byte_pos range_end].
  rewrite (st_step (lift _) _ _ (pos + n) (d, mkRange pos e)) by (unfold lift; rewrite uadd_ok by lia; done).
  rewrite (proj2 (Z.leb_gt _ _)) by lia.
  by rewrite (st_step (lift _) _ _ (pos + n) (d, mkRange pos e)) by (unfold lift; rewrite uadd_ok by lia; done).
Qed.

Lemma length_strings_body s strs :
  length (strings_body (s :: strs)) = (S (length s) + length (strings_body strs))%nat.
Proof. unfold strings_body. cbn [fmap list_fmap concat]. by rewrite length_app. Qed.

(** Bytes of a memory that start with a string. *)
Lemma strings_at_cons d pos s strs :
  mem d pos (length (strings_body (s :: strs))) = strings_body (s :: strs) ->
  image d pos = Z.of_nat (length s) /\ mem d (pos + 1) (length s) = s /\
  mem d (pos + 1 + Z.of_nat (length s)) (length (strings_body strs)) = strings_body strs.
Proof.
  rewrite length_strings_body. cbn [Nat.add]. rewrite mem_S, mem_app.
  unfold strings_body at 2. cbn [fmap list_fmap concat app]. intros [= -> Hs].
  apply app_inj_1 in Hs as [H1 H2]; [done|]. by rewrite length_mem.
Qed.

Lemma skip_strings_ok k : forall strs d pos e,
  mem d pos (length (strings_body strs)) = strings_body strs -> (k <= length strs)%nat ->
  0 <= pos -> k = 0%nat \/ pos + Z.of_nat (length (strings_body (take k strs))) < e -> e < 65536 ->
  exists d', same_image d d' /\
    skip_strings k (d, mkRange pos e) =
      (Ok tt, (d', mkRange (pos + Z.of_nat (length (strings_body (take k strs)))) e)).
Proof.
  induction k as [|k IH]; intros [|s strs] d pos e Hm Hk Hp He H16; cbn [length] in Hk; try lia.
  1,2: exists d; split; [done|]; cbn; by rewrite Z.add_0_r.
  destruct (strings_at_cons _ _ _ _ Hm) as (Hlen & _ & Hm').
  cbn [take] in *. rewrite length_strings_body in He |- *. cbn [skip_strings].
  destruct (read_byte_ok d pos e) as (d1 & Hi1 & H1); [lia|].
  rewrite (st_step _ _ _ _ _ H1), Hlen.
  rewrite (st_step _ _ _ _ _ (skip_ahead_bytes_ok d1 (pos + 1) e (Z.of_nat (length s)) ltac:(lia) ltac:(lia) ltac:(lia) H16)).
  rewrite (mem_proper d d1 Hi1 _ _ eq_refl _ _ eq_refl) in Hm'.
  destruct (IH strs d1 _ e Hm') as (d2 & Hi2 & ->); [lia..|].
  exists d2. split; [by rewrite Hi1|].
  by replace (pos + 1 + Z.of_nat (length s) + Z.of_nat (length (strings_body (take k strs))))
    with (pos + Z.of_nat (S (length s) + length (strings_body (take k strs)))) by lia.
Qed.

(** What [string_at] makes of the string behind [p]. *)
Lemma string_tail d p e N :
  0 <= p < 65535 -> e < 65536 ->
  exists d' r', same_image d d' /\
    (string_len ← read_byte;
     if Z.of_nat N <? string_len then fail (E_StringTooLong (Z.of_nat N) string_len) else
     buf ← st_map_err from_read_exact (read_exact read (Z.to_nat string_len));
     mret (Some (visible buf))) (d, mkRange p e) =
    (string_read N d p e, (d', r')).
Proof.
  intros Hp He. unfold string_read. destruct (read_byte_ok d p e Hp) as (d1 & Hi1 & H1).
  rewrite (st_step _ _ _ _ _ H1). cbv zeta. destruct (_ <? _); [by do 2 eexists|].
  pose proof (image_byte d p) as [Hb0 _].
  destruct (decide _) as [Hd|Hd].
  - assert (exists d2 r2, read_exact read (Z.to_nat (image d p)) (d1, mkRange (p + 1) e) =
      (Ok (mem d (p + 1) (Z.to_nat (image d p))), (d2, r2)) /\ same_image d1 d2) as (d2 & r2 & H2 & Hi2).
    { rewrite (mem_proper d d1 Hi1 _ _ eq_refl _ _ eq_refl).
      destruct (decide (image d p = 0)) as [->|Hn]; [rewrite read_exact_done; by do 2 eexists|].
      destruct (read_exact_ok d1 (mkRange (p + 1) e) (Z.to_nat (image d p))) as (d2 & H2 & Hi2);
        [split|..]; cbn; [lia..|]. by exists d2, (skip_range (mkRange (p + 1) e) (Z.to_nat (image d p))). }
    exists d2, r2. split; [by rewrite Hi1|].
    by erewrite st_step by (unfold st_map_err; rewrite H2; done).
  - destruct (read_exact_short d1 (mkRange (p + 1) e) (Z.to_nat (image d p))) as (d2 & r2 & H2 & Hi2);
      [split; cbn; lia|lia|cbn; lia|].
    exists d2, r2. split; [by rewrite Hi1|].
    by erewrite st_step_err by (unfold st_map_err; rewrite H2; done).
Qed.

(** Skipping the last string of a full category. *)
Lemma skip_strings_over strs : forall d pos e,
  mem d pos (length (strings_body strs)) = strings_body strs -> strs <> [] ->
  0 <= pos -> pos + Z.of_nat (length (strings_body strs)) = e -> e < 65536 ->
  exists d' r', same_image d d' /\
    skip_strings (length strs) (d, mkRange pos e) = (Err (E_Eeprom EE_SectionOverrun), (d', r')).
Proof.
  induction strs as [|s strs IH]; intros d pos e Hm Hne Hp He H16; [done|].
  destruct (strings_at_cons _ _ _ _ Hm) as (Hlen & _ & Hm').
  rewrite length_strings_body in He. cbn [skip_strings length].
  destruct (read_byte_ok d pos e) as (d1 & Hi1 & H1); [lia|].
  rewrite (st_step _ _ _ _ _ H1), Hlen.
  destruct strs as [|s' strs].
  - cbn [strings_body fmap list_fmap concat length] in He. exists d1, (mkRange (pos + 1) e). split; [done|].
    apply st_step_err. unfold skip_ahead_bytes.
    rewrite (st_step (gets snd) _ _ (mkRange (pos + 1) e) (d1, mkRange (pos + 1) e)) by done. cbn [byte_pos range_end].
    rewrite (st_step (lift _) _ _ (pos + 1 + Z.of_nat (length s)) (d1, mkRange (pos + 1) e))
      by (unfold lift; rewrite uadd_ok by lia; done).
    by rewrite (proj2 (Z.leb_le _ _)) by lia.
  - rewrite length_strings_body in He.
    rewrite (st_step _ _ _ _ _ (skip_ahead_bytes_ok d1 (pos + 1) e (Z.of_nat (length s)) ltac:(lia) ltac:(lia) ltac:(lia) H16)).
    rewrite (mem_proper d d1 Hi1 _ _ eq_refl _ _ eq_refl) in Hm'.
    destruct (IH d1 _ e Hm') as (d2 & r2 & Hi2 & ->); [done|lia|rewrite length_strings_body; lia|done|].
    exists d2, r2. split; [by rewrite Hi1|done].
Qed.

Lemma length_strings_take k strs :
  (k < length strs)%nat -> (length (strings_body (take k strs)) < length (strings_body strs))%nat.
Proof.
  revert strs. induction k as [|k IH]; intros [|s strs] Hk; cbn [length take] in *; try lia;
    rewrite !length_strings_body; [cbn; lia|]. specialize (IH strs). lia.
Qed.

Lemma string_read_same N d d' p e : same_image d d' -> string_read N d p e = string_read N d' p e.
Proof.
  intros Hi. unfold string_read. by rewrite Hi, (mem_proper d d' Hi _ _ eq_refl _ _ eq_refl).
Qed.

(** [string_at] on a category of strings. *)
Lemma string_at_ok N strs d pos e k :
  mem d pos (length (strings_image strs)) = strings_image strs ->
  0 <= pos -> pos + Z.of_nat (length (strings_image strs)) <= e -> e < 65535 -> 0 <= k ->
  exists d' r', same_image d d' /\ string_at N k (d, mkRange pos e) =
    (if Z.of_nat (length strs) <? k then Ok None
     else if decide (0 < k /\ k = Z.of_nat (length strs) /\ pos + Z.of_nat (length (strings_image strs)) = e)
     then Err (E_Eeprom EE_SectionOverrun)
     else string_read N d (pos + 1 + Z.of_nat (length (strings_body (take (Z.to_nat k) strs)))) e, (d', r')).
Proof.
  unfold strings_image. cbn [length]. rewrite mem_S. intros [= Hn Hm] Hp He H16 Hk.
  destruct (read_byte_ok d pos e) as (d1 & Hi1 & H1); [lia|].
  unfold string_at. rewrite (st_step _ _ _ _ _ H1), Hn.
  destruct (Z.ltb_spec (Z.of_nat (length strs)) k) as [Hlt|Hge]; [by do 2 eexists|].
  rewrite (mem_proper d d1 Hi1 _ _ eq_refl _ _ eq_refl) in Hm.
  destruct (decide _) as [(Hk0 & Hlast & Hfull)|Hd].
  - replace (Z.to_nat k) with (length strs) by lia.
    destruct (skip_strings_over strs d1 (pos + 1) e Hm) as (d2 & r2 & Hi2 & H2);
      [by intros ->; cbn in Hlast; lia|lia..|].
    exists d2, r2. split; [by rewrite Hi1|]. by rewrite (st_step_err _ _ _ _ _ H2).
  - assert (k = 0 \/ pos + 1 + Z.of_nat (length (strings_body (take (Z.to_nat k) strs))) < e) as Hin.
    { destruct (decide (Z.to_nat k < length strs)%nat) as [Hlt|Hnlt].
      - pose proof (length_strings_take _ _ Hlt). lia.
      - rewrite take_ge by lia. lia. }
    destruct (skip_strings_ok (Z.to_nat k) strs d1 (pos + 1) e Hm) as (d2 & Hi2 & H2); [lia..|].
    rewrite (st_step _ _ _ _ _ H2).
    destruct (string_tail d2 (pos + 1 + Z.of_nat (length (strings_body (take (Z.to_nat k) strs)))) e N)
      as (d3 & r3 & Hi3 & H3).
    { destruct Hin as [->|]; [|lia]. change (length (strings_body (take (Z.to_nat 0) strs))) with 0%nat. lia. }
    { lia. }
    exists d3, r3. split; [by rewrite Hi1, Hi2|]. rewrite H3.
    by rewrite <- (string_read_same N d d2 _ _ ltac:(by rewrite Hi1)).
Qed.

Lemma find_string_ok N idx strs cats d r :
  laid_out d cats -> section CT_Strings cats = Some r ->
  mem d (byte_pos r) (length (strings_image strs)) = strings_image strs ->
  byte_pos r + Z.of_nat (length (strings_image strs)) <= range_end r -> 1 <= idx ->
  exists d', same_image d d' /\ find_string N idx d =
    (if Z.of_nat (length strs) <? idx - 1 then Ok None
     else if decide (0 < idx - 1 /\ idx - 1 = Z.of_nat (length strs) /\
                     byte_pos r + Z.of_nat (length (strings_image strs)) = range_end r)
     then Err (E_Eeprom EE_SectionOverrun)
     else string_read N d (byte_pos r + 1 +
            Z.of_nat (length (strings_body (take (Z.to_nat (idx - 1)) strs)))) (range_end r), d').
Proof.
  intros Hl Hs Hm Hfit Hidx. destruct (category_ok CT_Strings cats d) as (d1 & Hi1 & H1); [done..|].
  destruct (find_category_end _ _ _ _ Hl Hs) as [H0 He]. destruct r as [pos e]. cbn [byte_pos range_end] in *.
  rewrite (mem_proper d d1 Hi1 _ _ eq_refl _ _ eq_refl) in Hm.
  destruct (string_at_ok N strs d1 pos e (idx - 1) Hm) as (d2 & r2 & Hi2 & H2); [lia..|].
  exists d2. split; [by rewrite Hi1|].
  unfold find_string. rewrite (proj2 (Z.eqb_neq _ _)) by lia. cbv zeta.
  rewrite (st_step _ _ _ _ _ H1), Hs. unfold mbind, St_bind, with_range. rewrite H2.
  rewrite (string_read_same N d d1 _ _ Hi1).
  destruct (_ <? _); [done|]. destruct (decide _); [done|]. by destruct (string_read _ _ _ _).
Qed.

Lemma strings_at_nth strs : forall k d pos s,
  mem d pos (length (strings_body strs)) = strings_body strs -> strs !! k = Some s ->
  let p := pos + Z.of_nat (length (strings_body (take k strs))) in
  image d p = Z.of_nat (length s) /\ mem d (p + 1) (length s) = s /\
  p + 1 + Z.of_nat (length s) <= pos + Z.of_nat (length (strings_body strs)).
Proof.
  induction strs as [|s0 strs IH]; intros [|k] d pos s Hm Hs; [done..| |];
    destruct (strings_at_cons _ _ _ _ Hm) as (Hlen & Hb & Hm'); cbn [lookup list_lookup take] in *.
  - injection Hs as [= ->]. change (strings_body []) with (@nil Z). cbn [length]. cbv zeta.
    rewrite Z.add_0_r, length_strings_body. split_and!; [done..|lia].
  - destruct (IH k d _ s Hm' Hs) as (H1 & H2 & H3). cbv zeta in *. rewrite !length_strings_body.
    replace (pos + Z.of_nat (S (length s0) + length (strings_body (take k strs))))
      with (pos + 1 + Z.of_nat (length s0) + Z.of_nat (length (strings_body (take k strs)))) by lia.
    split_and!; [done..|lia].
Qed.

Lemma string_read_nth N strs k d pos e s :
  mem d pos (length (strings_body strs)) = strings_body strs -> strs !! k = Some s ->
  pos + Z.of_nat (length (strings_body strs)) <= e ->
  string_read N d (pos + Z.of_nat (length (strings_body (take k strs)))) e =
    (if Nat.ltb N (length s) then Err (E_StringTooLong (Z.of_nat N) (Z.of_nat (length s)))
     else Ok (Some (visible s))).
Proof.
  intros Hm Hs He. destruct (strings_at_nth strs k d pos s Hm Hs) as (H1 & H2 & H3). cbv zeta in *.
  unfold string_read. rewrite H1, Nat2Z.id, H2.
  destruct (Nat.ltb N (length s)) eqn:Hl; bool_prop.
  - by rewrite (proj2 (Z.ltb_lt _ _)) by lia.
  - rewrite (proj2 (Z.ltb_ge _ _)) by lia. by rewrite decide_True by lia.
Qed.

(** C36: every string of the Strings category is found under its number,
    counted from 1, however long the ones before it are: cleaned of bytes that
    are not visible ASCII, or refused when it does not fit the buffer.  Number 0
    and every number more than one above the last are no string. *)
Theorem find_string_spec N idx strs cats d r :
  laid_out d cats -> section CT_Strings cats = Some r ->
  mem d (byte_pos r) (length (strings_image strs)) = strings_image strs ->
  byte_pos r + Z.of_nat (length (strings_image strs)) <= range_end r ->
  0 <= idx -> idx <> Z.of_nat (length strs) + 1 ->
  exists d', same_image d d' /\ find_string N idx d =
    (match (if idx =? 0 then None else strs !! Z.to_nat (idx - 1)) with
     | Some s =>
         if Nat.ltb N (length s) then Err (E_StringTooLong (Z.of_nat N) (Z.of_nat (length s)))
         else Ok (Some (visible s))
     | None => Ok None
     end, d').
Proof.
  intros Hl Hs Hm Hfit H0 Hidx. destruct (Z.eqb_spec idx 0) as [->|Hn0]; [by exists d|].
  destruct (find_string_ok N idx strs cats d r Hl Hs Hm Hfit) as (d' & Hi & Hd); [lia|].
  exists d'. split; [done|]. rewrite Hd.
  destruct (Z.ltb_spec (Z.of_nat (length strs)) (idx - 1)); [by rewrite lookup_ge_None_2 by lia|].
  rewrite decide_False by lia.
  destruct (lookup_lt_is_Some_2 strs (Z.to_nat (idx - 1))) as [s Hk]; [lia|]. rewrite Hk.
  cbn [strings_image length] in Hm, Hfit. rewrite mem_S in Hm. injection Hm as Hn Hm.
  by rewrite (string_read_nth N strs _ d _ _ s Hm Hk) by lia.
Qed.

(** the number one above the last string is taken for a string: the search
    reads whatever lies behind the strings, padding or not, as a string, and
    fails with [SectionOverrun] where the strings fill their category. *)
Theorem find_string_past_end N strs cats d r :
  laid_out d cats -> section CT_Strings cats = Some r -> strs <> [] ->
  mem d (byte_pos r) (length (strings_image strs)) = strings_image strs ->
  let behind := byte_pos r + Z.of_nat (length (strings_image strs)) in
  behind <= range_end r ->
  exists d', same_image d d' /\ find_string N (Z.of_nat (length strs) + 1) d =
    (if decide (behind = range_end r) then Err (E_Eeprom EE_SectionOverrun)
     else string_read N d behind (range_end r), d').
Proof.
  intros Hl Hs Hne Hm behind Hfit.
  destruct (find_string_ok N (Z.of_nat (length strs) + 1) strs cats d r Hl Hs Hm Hfit) as (d' & Hi & Hd); [lia|].
  exists d'. split; [done|]. rewrite Hd, Z.add_simpl_r, (proj2 (Z.ltb_ge _ _)) by lia.
  assert (0 < length strs)%nat by (destruct strs; cbn; [done|lia]).
  unfold behind. destruct (decide (_ = range_end r)) as [He|He].
  - by rewrite decide_True by lia.
  - rewrite decide_False by lia. rewrite Nat2Z.id, take_ge by lia.
    do 2 f_equal. unfold strings_image. cbn [length]. lia.
Qed.

(** *** Searches without an end *)

(** A category of 65534 words ends where it starts, modulo 2^16.  Where
    overflow is not checked the search goes round for ever: no number of turns
    ends it.  Where it is checked the search panics. *)
Theorem category_can_loop c d :
  CategoryType_of_u16 (word_at d SII_FIRST_CATEGORY_START) <> CT_End ->
  CategoryType_of_u16 (word_at d SII_FIRST_CATEGORY_START) <> c ->
  word_at d (SII_FIRST_CATEGORY_START + 1) = 0xfffe ->
  if overflow_checks then exists d', category c d = (Panic, d')
  else forall turns, exists d',
    iterate turns (category_step c) (SII_FIRST_CATEGORY_START, 0) d = (Ok None, d').
Proof.
  set (w := SII_FIRST_CATEGORY_START). intros Hend Hc Hlen.
  assert (forall d0, same_image d d0 -> exists d', same_image d d' /\ category_step c (w, 0) d0 =
    ((if overflow_checks then Panic else Ok (inl (w, 0))), d')) as Hstep.
  { intros d0 Hi0. destruct (category_step_ok c d0 w 0) as (d' & Hi & Hs); [unfold w, SII_FIRST_CATEGORY_START; lia|lia|].
    exists d'. split; [by rewrite Hi0|]. rewrite Hs. unfold category_turn.
    rewrite !(fun w => word_at_proper d0 d (symmetry Hi0) w w eq_refl), Hlen. cbn [count_empty Z.eqb].
    rewrite !decide_False by done. unfold uadd, checked. by destruct overflow_checks. }
  destruct overflow_checks.
  - destruct (Hstep d) as (d' & _ & Hs); [done|]. exists d'. unfold category, category_turns.
    replace (Z.to_nat 32768) with (S (Z.to_nat 32767)) by lia. unfold mbind, St_bind. cbn [iterate].
    unfold mbind, St_bind. fold w. by rewrite Hs.
  - intros turns. apply (iterate_stuck turns _ (fun a d0 => a = (w, 0) /\ same_image d d0)); [|done].
    intros a d0 [-> Hi0]. destruct (Hstep d0 Hi0) as (d' & Hi & Hs). by exists (w, 0), d'.
Qed.

(** *** Arrays of wide items *)

(** An array of items of more than a byte is never read from an EEPROM: the read
    stops at the length of [buffer()]. *)
Theorem read_wide_array_fails {T} (rd : WireRead T) n d r :
  (0 < n)%nat -> (1 < PACKED_LEN rd)%nat -> range_ok r -> byte_pos r + Z.of_nat n <= range_end r ->
  exists d', read_value (array_read n rd) r d = (Err (E_Wire ReadBufferTooShort), d') /\ same_image d d'.
Proof.
  intros Hn Hw Hr Hfit. destruct (read_exact_at_ok d r n Hr Hfit) as (d' & Hd & Hi). exists d'. split; [|done].
  unfold read_value. cbn [array_read BUFFER_LEN]; unfold array_buffer_len. rewrite (st_step _ _ _ _ _ Hd). unfold lift, from_wire.
  rewrite array_unpack_short; [done|]. pose proof (wide_array_buffer n rd Hn Hw) as Hb.
  cbn [array_read BUFFER_LEN] in Hb; unfold array_buffer_len in Hb. by rewrite length_mem.
Qed.

End Contents.

(** ** Witnesses

    An EEPROM with a Strings, a General and a SyncManager category. *)

Definition eeprom_of (l : bytes) (a : Z) : Z := default 0xff (l !! Z.to_nat a).

Definition sample_strings : list bytes := [[0x41; 0xb5]; [0x43; 0]].
Definition sample_sections : list (Z * Z) := [(10, 4); (30, 9); (41, 8)].

Definition sample_eeprom : Z -> Z := eeprom_of (zeros 128 ++
  [10; 0; 4; 0] ++ strings_image sample_strings ++ [0] ++
  [30; 0; 9; 0] ++ [0; 0; 1; 2; 0; 0x0c] ++ zeros 12 ++
  [41; 0; 8; 0] ++ [0x00; 0x10; 0x80; 0; 0x26; 0; 1; 1] ++ [0x80; 0x10; 0x80; 0; 0x22; 0; 1; 2] ++
  [0xff; 0xff]).

Lemma sample_laid_out : laid_out sample_eeprom sample_sections.
Proof. vm_compute. split_and!; try done. lia. Qed.

Lemma category_spec_witness :
  laid_out sample_eeprom sample_sections /\
  exists d', same_image sample_eeprom d' /\
    category (P:=true) CT_SyncManager sample_eeprom = (Ok (Some (mkRange 166 182)), d').
Proof.
  split; [exact sample_laid_out|].
  by apply (category_spec (P:=true) CT_SyncManager sample_sections sample_eeprom); [|exact sample_laid_out].
Defined.

(** Two SyncManagers: the mailboxes. *)
Lemma sync_managers_spec_witness :
  exists l d', same_image sample_eeprom d' /\
    sync_managers (H:=documented_io) (H0:=documented_crates) (P:=true) sample_eeprom = (Ok l, d') /\
    sm_start_addr <$> l = [0x1000; 0x1080].
Proof.
  destruct (sync_managers_spec (EIO:=documented_io) (CR:=documented_crates) (P:=true)
    sample_sections sample_eeprom) as (d' & Hi & H); [exact sample_laid_out|].
  eexists _, d'. split; [exact Hi|]. split; [rewrite H; by vm_compute|done].
Defined.

(** The strings of the General category: the order is number 1, the name 2. *)
Lemma general_spec_witness :
  exists g d', same_image sample_eeprom d' /\
    general (H:=documented_io) (H0:=documented_crates) (P:=true) sample_eeprom = (Ok g, d') /\
    sg_order_string_idx g = 1 /\ sg_name_string_idx g = 2.
Proof.
  destruct (general_spec (EIO:=documented_io) (CR:=documented_crates) (P:=true) sample_sections sample_eeprom)
    as (d' & Hi & H); [exact sample_laid_out|].
  eexists _, d'. split; [exact Hi|]. split; [rewrite H; by vm_compute|done].
Defined.

(** The name is ["A?"]. *)
Lemma find_string_spec_witness :
  exists d', same_image sample_eeprom d' /\
    find_string (H:=documented_io) (P:=true) 8 1 sample_eeprom = (Ok (Some [0x41; 0x3f]), d').
Proof.
  apply (find_string_spec (EIO:=documented_io) (P:=true) 8 1 sample_strings sample_sections
    sample_eeprom (mkRange 132 140)); [exact sample_laid_out|by vm_compute..].
Defined.

(** Of two strings, the third is the padding. *)
Lemma find_string_past_end_witness :
  exists d', same_image sample_eeprom d' /\
    find_string (H:=documented_io) (P:=true) 8 3 sample_eeprom = (Ok (Some []), d').
Proof.
  destruct (find_string_past_end (EIO:=documented_io) (P:=true) 8 sample_strings sample_sections
    sample_eeprom (mkRange 132 140)) as (d' & Hi & H); [exact sample_laid_out|by vm_compute..|].
  exists d'. split; [exact Hi|]. etrans; [exact H|]. by vm_compute.
Defined.

Lemma set_station_alias_spec_witness :
  exists d1, set_station_alias (H:=documented_io) (H0:=documented_crates) (P:=true) 0xabcd sample_memory = (Ok tt, d1) /\
    exists d2, station_alias (H:=documented_io) (P:=true) d1 = (Ok 0xabcd, d2).
Proof.
  destruct (set_station_alias_spec (EIO:=documented_io) (CR:=documented_crates) (P:=true)
    sample_memory 0xabcd) as (d1 & H1 & H2 & _); [by split|]. by exists d1.
Defined.

(** A blank category of 65534 words, without overflow checks. *)
Definition endless_eeprom : Z -> Z := eeprom_of (zeros 128 ++ [40; 0; 0xfe; 0xff]).

Lemma category_can_loop_witness :
  exists d', iterate category_turns (category_step (P:=false) CT_General)
    (SII_FIRST_CATEGORY_START, 0) endless_eeprom = (Ok None, d').
Proof.
  apply (category_can_loop (P:=false) CT_General endless_eeprom); by vm_compute.
Defined.
