(* ===== verification/PduChain.v ===== *)
(** * The layout of an EtherCAT frame's payload

    A frame carries a chain of PDUs: each is a header, its data and a working
    counter, and the [more_follows] flag of a header says whether another PDU
    comes after it.  [pdus_bytes] is the specification that both the code that
    pushes PDUs and the code that reads them are proved against. *)
From S2P Require Import Prelude Wire Derive DeriveEnum PduTypes.
Import Struct.

(** ** Definitions *)

Record Pdu := mkPdu {
  p_code : Z;
  p_index : Z;
  p_raw : bytes;
  p_circulated : bool;
  p_irq : Z;
  p_data : bytes;
  p_wkc : Z;
}.

Definition pdu_header (more : bool) (p : Pdu) : PduHeader :=
  mkPduHeader (p_code p) (p_index p) (p_raw p)
    (mkPduFlags (Z.of_nat (length (p_data p))) (p_circulated p) more) (p_irq p).

(** The ten bytes of a header. *)
Definition header_bytes (h : PduHeader) : bytes :=
  [ph_command_code h; ph_index h] ++ ph_command_raw h ++
  le_bytes 2 (PduFlags_raw (ph_flags h)) ++ le_bytes 2 (ph_irq h).

Definition pdu_bytes (more : bool) (p : Pdu) : bytes :=
  header_bytes (pdu_header more p) ++ p_data p ++ le_bytes 2 (p_wkc p).

Fixpoint pdus_bytes (ps : list Pdu) : bytes :=
  match ps with
  | [] => []
  | p :: ps => pdu_bytes (negb (Nat.eqb (length ps) 0)) p ++ pdus_bytes ps
  end.

(** The chain while it is being built: every header says that more follows. *)
Definition open_bytes (ps : list Pdu) : bytes := concat (pdu_bytes true <$> ps).

Record pdu_valid (p : Pdu) : Prop := {
  pv_code : in_u 8 (p_code p);
  pv_index : in_u 8 (p_index p);
  pv_raw : length (p_raw p) = 4%nat /\ bytes_ok (p_raw p);
  pv_irq : in_u 16 (p_irq p);
  pv_data : bytes_ok (p_data p);
  pv_len : in_u 11 (Z.of_nat (length (p_data p)));
  pv_wkc : in_u 16 (p_wkc p);
}.

Definition pdu_len (p : Pdu) : nat := (12 + length (p_data p))%nat.

(** ** Lemmas *)

Lemma pdu_header_valid more p : pdu_valid p -> PduHeader_valid (pdu_header more p).
Proof. intros []. done. Qed.

Lemma length_header_bytes h : length (ph_command_raw h) = 4%nat -> length (header_bytes h) = 10%nat.
Proof. intros H. unfold header_bytes. rewrite !length_app, H, !length_le_bytes. done. Qed.

Lemma length_pdu_bytes more p : length (p_raw p) = 4%nat -> length (pdu_bytes more p) = pdu_len p.
Proof.
  intros H. unfold pdu_bytes, pdu_len.
  rewrite !length_app, length_header_bytes, length_le_bytes by done. lia.
Qed.

(** A byte-aligned field of a layout that is wider than a byte. *)
Lemma wide_ok {T} ty (w : WireWrite T) r valid `{!RoundTrip w r valid} a b i j v :
  (8 < b - a)%nat -> (b - a)%nat = (8 * PACKED_LEN r)%nat -> valid v ->
  field_ok (mkFieldMeta ty a b i j 0 false) (COther ty (Some w) r) v (le_val (encoding (w:=w) v)).
Proof. intros. by apply (field_ok_wide _ _ _ _ valid). Qed.

(** The derived implementation writes these bytes. *)
Lemma header_fields_ok h :
  PduHeader_valid h ->
  fields_ok (sm_fields (layout 10 PduHeader_fields)) PduHeader_fields
    (ph_command_code h, (ph_index h, (ph_command_raw h, (ph_flags h, (ph_irq h, tt)))))
    [(0%nat, ph_command_code h); (8%nat, ph_index h); (16%nat, le_val (ph_command_raw h));
     (48%nat, le_val (le_bytes 2 (PduFlags_raw (ph_flags h))));
     (64%nat, le_val (le_bytes 2 (ph_irq h)))].
Proof.
  intros (? & ? & ? & ? & ?).
  let ms := eval vm_compute in (sm_fields (layout 10 PduHeader_fields)) in
  change (sm_fields (layout 10 PduHeader_fields)) with ms.
  unfold PduHeader_fields.
  apply (fields_ok_cons (mkFieldMeta Ty_u8 0 8 0 1 0 false)); [done|cbn; lia| |].
  { apply field_ok_u8; [cbn; lia|done]. }
  apply (fields_ok_cons (mkFieldMeta Ty_u8 8 16 1 2 0 false)); [done|cbn; lia| |].
  { apply field_ok_u8; [cbn; lia|done]. }
  apply (fields_ok_cons (mkFieldMeta Ty_array 16 48 2 6 0 false)); [done|cbn; lia| |].
  { exact (wide_ok Ty_array (array_write 4) (array_read 4 u8_read) _ 16 48 2 6
      (ph_command_raw h) ltac:(cbn; lia) eq_refl ltac:(done)). }
  apply (fields_ok_cons (mkFieldMeta Ty_path 48 64 6 8 0 false)); [done|cbn; lia| |].
  { exact (wide_ok Ty_path PduFlags_write PduFlags_read _ 48 64 6 8
      (ph_flags h) ltac:(cbn; lia) eq_refl ltac:(done)). }
  apply (fields_ok_cons (mkFieldMeta Ty_u16 64 80 8 10 0 false)); [done|cbn; lia| |].
  { exact (wide_ok Ty_u16 u16_write u16_read _ 64 80 8 10
      (ph_irq h) ltac:(cbn; lia) eq_refl ltac:(done)). }
  constructor.
Qed.

Lemma header_bytes_ok h : PduHeader_valid h -> bytes_ok (header_bytes h).
Proof.
  intros (Hc & Hi & [_ Hr] & _ & _). unfold header_bytes. rewrite !bytes_ok_app.
  split_and!; try apply le_bytes_ok; [|done].
  repeat constructor; (apply Hc || apply Hi).
Qed.

Lemma header_encoding h : PduHeader_valid h -> encoding (w:=PduHeader_write) h = header_bytes h.
Proof.
  intros Hh. pose proof (header_fields_ok h Hh) as Hf.
  assert (layout_wf 0 (sm_fields (layout 10 PduHeader_fields))
    (sm_width_bits (layout 10 PduHeader_fields))) as Hl.
  { eapply parse_struct_wf. apply (layout_parses 10 PduHeader_fields). vm_compute. exact I. }
  destruct (struct_write_spec _ _ _ _ Hl Hf) as (_ & Hlen & Hok & Hv).
  change (encoding h) with (struct_encoding (layout 10 PduHeader_fields) PduHeader_fields
    (ph_command_code h, (ph_index h, (ph_command_raw h, (ph_flags h, (ph_irq h, tt)))))).
  pose proof Hh as (? & ? & [Hr ?] & ? & ?).
  apply le_val_inj; [done|by apply header_bytes_ok| |].
  - rewrite Hlen, length_header_bytes by done. vm_compute. done.
  - rewrite Hv. unfold header_bytes. rewrite !le_val_app, !length_le_bytes, Hr.
    cbn [packed_num le_val length]. 
    change (2 ^ Z.of_nat 0) with 1. change (2 ^ Z.of_nat 8) with 256.
    change (2 ^ Z.of_nat 16) with 65536. change (2 ^ Z.of_nat 48) with 281474976710656.
    change (2 ^ Z.of_nat 64) with 18446744073709551616.
    change (2 ^ (8 * Z.of_nat 2)) with 65536. change (2 ^ (8 * Z.of_nat 4)) with 4294967296.
    lia.
Qed.

Lemma unpack_header h t :
  PduHeader_valid h -> unpack_from_slice PduHeader_read (header_bytes h ++ t) = Ok h.
Proof. intros H. rewrite <- header_encoding by done. by apply (unpack_encoding (RoundTrip:=PduHeader_roundtrip)). Qed.

Lemma pack_header h buf :
  PduHeader_valid h -> (10 <= length buf)%nat ->
  pack_to_slice_unchecked PduHeader_write h buf = Ok (splice buf 0 (header_bytes h)).
Proof.
  intros H Hl. rewrite <- header_encoding by done. by apply (pack_encoding (RoundTrip:=PduHeader_roundtrip)).
Qed.

Lemma pdus_bytes_snoc ps p : pdus_bytes (ps ++ [p]) = open_bytes ps ++ pdu_bytes false p.
Proof.
  induction ps as [|q ps IH].
  { cbn. by rewrite app_nil_r. }
  cbn [app pdus_bytes]. rewrite IH. unfold open_bytes. cbn [fmap list_fmap concat].
  rewrite length_app, <- app_assoc. cbn [length].
  by replace (Nat.eqb (length ps + 1) 0) with false by (symmetry; apply Nat.eqb_neq; lia).
Qed.

Lemma open_bytes_snoc ps p : open_bytes (ps ++ [p]) = open_bytes ps ++ pdu_bytes true p.
Proof. unfold open_bytes. rewrite fmap_app, concat_app. cbn. by rewrite app_nil_r. Qed.

Lemma length_open_bytes ps :
  Forall pdu_valid ps -> length (open_bytes ps) = sum_list (pdu_len <$> ps).
Proof.
  induction 1 as [|p ps Hp Hps IH]; [done|]. unfold open_bytes in *.
  cbn [fmap list_fmap concat sum_list]. rewrite length_app, IH, length_pdu_bytes by apply Hp. done.
Qed.

Lemma length_pdus_bytes ps :
  Forall pdu_valid ps -> length (pdus_bytes ps) = sum_list (pdu_len <$> ps).
Proof.
  induction 1 as [|p ps Hp Hps IH]; [done|]. cbn [pdus_bytes fmap list_fmap sum_list].
  rewrite length_app, IH, length_pdu_bytes by apply Hp. done.
Qed.

(** Setting [more_follows] rewrites the two flag bytes of the header. *)
Lemma pdu_bytes_set_more p t :
  pdu_valid p ->
  pdu_bytes false p ++ t =
    [p_code p; p_index p] ++ p_raw p ++ le_bytes 2 (PduFlags_raw (ph_flags (pdu_header false p))) ++
    drop 8 (pdu_bytes true p) ++ t /\
  pdu_bytes true p =
    [p_code p; p_index p] ++ p_raw p ++ le_bytes 2 (PduFlags_raw (ph_flags (pdu_header true p))) ++
    drop 8 (pdu_bytes true p).
Proof.
  intros Hp. destruct (pv_raw p Hp) as [Hr _].
  assert (drop 8 (pdu_bytes true p) = le_bytes 2 (p_irq p) ++ p_data p ++ le_bytes 2 (p_wkc p)) as ->.
  { unfold pdu_bytes, header_bytes. cbn [pdu_header ph_command_code ph_index ph_command_raw ph_flags ph_irq].
    rewrite <- !app_assoc. cbn [app drop]. rewrite drop_app_ge by lia. rewrite Hr.
    rewrite drop_app_ge by (rewrite length_le_bytes; lia). rewrite length_le_bytes. done. }
  unfold pdu_bytes, header_bytes. cbn [pdu_header ph_command_code ph_index ph_command_raw ph_flags ph_irq].
  rewrite <- !app_assoc. done.
Qed.
