(* ===== verification/Frame.v ===== *)
(** * Frame elements and their storage

    [pdu_loop/frame_element/mod.rs], [frame_box.rs], [pdu_loop/storage.rs] and
    [ethernet.rs].  A [FrameBox] is a raw pointer to a slot of the storage that
    several owners may hold at once: here it is the index of the slot, and the
    storage is the shared state every operation works on. *)
From S2P Require Import Prelude Wire Errors PduTypes.

(** ** Definitions *)

(** *** [ethernet.rs] *)

Definition ETHERNET_HEADER_LEN : nat := 14.
Definition BROADCAST : bytes := [0xff; 0xff; 0xff; 0xff; 0xff; 0xff].

Definition buffer_len (payload_len : nat) : nat := ETHERNET_HEADER_LEN + payload_len.

Definition check_len (buffer : bytes) : res Error unit :=
  if Nat.ltb (length buffer) ETHERNET_HEADER_LEN then Err (E_Pdu PE_Ethernet) else Ok tt.

Definition new_checked (buffer : bytes) : res Error bytes :=
  _ ← check_len buffer;
  mret buffer.

(** The slicing accessors panic on a short buffer; [ethertype] returns zero. *)
Definition src_addr (buffer : bytes) : res Error bytes := unwrap (get_range buffer 6 12).
Definition dst_addr (buffer : bytes) : res Error bytes := unwrap (get_range buffer 0 6).
Definition ethertype (buffer : bytes) : Z :=
  match get_range buffer 12 14 with Some l => be_val l | None => 0 end.
Definition eth_payload (buffer : bytes) : res Error bytes := unwrap (get_from buffer 14).

Definition set_src_addr (a buffer : bytes) : bytes := splice buffer 6 a.
Definition set_dst_addr (a buffer : bytes) : bytes := splice buffer 0 a.
Definition set_ethertype (t : Z) (buffer : bytes) : bytes := splice buffer 12 (be_bytes 2 t).

(** *** [FrameElement] *)

Inductive FrameState :=
| FS_None | FS_Created | FS_Sendable | FS_Sending | FS_Sent | FS_RxBusy | FS_RxDone
| FS_RxProcessing.

#[export] Instance FrameState_eq_dec : EqDecision FrameState.
Proof. solve_decision. Defined.

(** The marker for a frame without PDUs: its upper byte is not zero. *)
Definition FIRST_PDU_EMPTY : Z := 0xff00.

(** [waker] records whether a task is registered to be woken. *)
Record FrameElement := mkFrame {
  storage_slot_index : Z;
  status : FrameState;
  waker : bool;
  pdu_payload_len : nat;
  first_pdu : Z;
  ethernet_frame : bytes;
}.

Definition set_state (st : FrameState) (f : FrameElement) : FrameElement :=
  mkFrame (storage_slot_index f) st (waker f) (pdu_payload_len f) (first_pdu f) (ethernet_frame f).
Definition set_waker (w : bool) (f : FrameElement) : FrameElement :=
  mkFrame (storage_slot_index f) (status f) w (pdu_payload_len f) (first_pdu f) (ethernet_frame f).
Definition set_payload_len (n : nat) (f : FrameElement) : FrameElement :=
  mkFrame (storage_slot_index f) (status f) (waker f) n (first_pdu f) (ethernet_frame f).
Definition store_first_pdu (x : Z) (f : FrameElement) : FrameElement :=
  mkFrame (storage_slot_index f) (status f) (waker f) (pdu_payload_len f) x (ethernet_frame f).
Definition set_frame_bytes (b : bytes) (f : FrameElement) : FrameElement :=
  mkFrame (storage_slot_index f) (status f) (waker f) (pdu_payload_len f) (first_pdu f) b.

(** [compare_exchange] on the state: the actual state on failure. *)
Definition swap_state (from to : FrameState) (f : FrameElement) : res FrameState FrameElement :=
  if decide (status f = from) then Ok (set_state to f) else Err (status f).

Definition elem_claim_created (frame_index : Z) (f : FrameElement) : res PduError FrameElement :=
  f ← map_err (fun _ => PE_SwapState) (swap_state FS_None FS_Created f);
  mret (mkFrame frame_index (status f) (waker f) 0 (first_pdu f) (ethernet_frame f)).

Definition elem_claim_sending (f : FrameElement) : option FrameElement :=
  res_to_option (swap_state FS_Sendable FS_Sending f).

Definition elem_claim_receiving (f : FrameElement) : option FrameElement :=
  res_to_option (swap_state FS_Sent FS_RxBusy f).

Definition first_pdu_is (search : Z) (f : FrameElement) : bool := Z.eqb search (first_pdu f).

(** Only has an effect on an empty frame. *)
Definition set_first_pdu (value : Z) (f : FrameElement) : FrameElement :=
  if Z.eqb (first_pdu f) FIRST_PDU_EMPTY then store_first_pdu value f else f.

Definition clear_first_pdu (f : FrameElement) : FrameElement := store_first_pdu FIRST_PDU_EMPTY f.

(** *** [FrameBox]: the parts of the Ethernet frame *)

(** Ethernet and EtherCAT frame headers. *)
Definition pdu_payload_start : nat := ETHERNET_HEADER_LEN + 2.

Definition ecat_frame_header (f : FrameElement) : bytes :=
  take 2 (drop ETHERNET_HEADER_LEN (ethernet_frame f)).
Definition pdu_buf (f : FrameElement) : bytes := drop pdu_payload_start (ethernet_frame f).
Definition set_pdu_buf (b : bytes) (f : FrameElement) : FrameElement :=
  set_frame_bytes (take pdu_payload_start (ethernet_frame f) ++ b) f.

(** [FrameBox::init]: the waker, the first PDU, the counter and the headers
    are reset and the payload is zeroed. *)
Definition frame_init (f : FrameElement) : FrameElement :=
  let f := set_waker false f in
  let f := store_first_pdu FIRST_PDU_EMPTY f in
  let f := set_payload_len 0 f in
  let b := ethernet_frame f in
  let b := set_src_addr MAINDEVICE_ADDR b in
  let b := set_dst_addr BROADCAST b in
  let b := set_ethertype ETHERCAT_ETHERTYPE b in
  let b := take ETHERNET_HEADER_LEN b ++ zeros (length b - ETHERNET_HEADER_LEN) in
  set_frame_bytes b f.

Definition add_pdu (alloc_size : nat) (pdu_idx : Z) (f : FrameElement) : FrameElement :=
  set_first_pdu pdu_idx (set_payload_len (pdu_payload_len f + alloc_size) f).

(** *** [PduStorage] *)

Record PduStorage := mkStorage {
  frames : list FrameElement;
  frame_data_len : nat;
  frame_idx : Z;
  pdu_idx : Z;
  is_split : bool;
  tx_woken : bool; (* the TX task has been woken *)
  exit_flag : bool;
}.

Definition num_frames (s : PduStorage) : nat := length (frames s).

(** 14 + 2 + 10 + 0 + 2 *)
Definition MIN_DATA : nat :=
  buffer_len (2 + PACKED_LEN PduHeader_read + Z.to_nat (pf_length (PduFlags_with_len 0)) + 2).

Definition element_size (data_len : nat) : nat := MIN_DATA + data_len.

(** Number of ones in the binary representation. *)
Fixpoint count_ones_pos (p : positive) : nat :=
  match p with
  | xH => 1
  | xO p => count_ones_pos p
  | xI p => S (count_ones_pos p)
  end.
Definition count_ones (n : nat) : nat :=
  match Z.of_nat n with Zpos p => count_ones_pos p | _ => 0 end.

(** [MaybeUninit::zeroed()]. *)
Definition zeroed_frame (data : nat) : FrameElement := mkFrame 0 FS_None false 0 0 (zeros data).

(** [PduStorage::<N, DATA>::new()] with its assertions. *)
Definition storage_new {E} (n data : nat) : res E PduStorage :=
  if negb (Nat.leb n 255) then Panic
  else if negb (Nat.ltb 0 n) then Panic
  else if negb (Nat.leb MIN_DATA data) then Panic
  else if (Nat.ltb 1 n && negb (Nat.eqb (count_ones n) 1))%bool then Panic
  else Ok (mkStorage (replicate n (zeroed_frame data)) data 0 0 false false false).

(** Setters. *)
Definition with_frames (fs : list FrameElement) (s : PduStorage) : PduStorage :=
  mkStorage fs (frame_data_len s) (frame_idx s) (pdu_idx s) (is_split s) (tx_woken s) (exit_flag s).
Definition with_frame_idx (x : Z) (s : PduStorage) : PduStorage :=
  mkStorage (frames s) (frame_data_len s) x (pdu_idx s) (is_split s) (tx_woken s) (exit_flag s).
Definition with_pdu_idx (x : Z) (s : PduStorage) : PduStorage :=
  mkStorage (frames s) (frame_data_len s) (frame_idx s) x (is_split s) (tx_woken s) (exit_flag s).
Definition with_split (b : bool) (s : PduStorage) : PduStorage :=
  mkStorage (frames s) (frame_data_len s) (frame_idx s) (pdu_idx s) b (tx_woken s) (exit_flag s).
Definition with_tx_woken (b : bool) (s : PduStorage) : PduStorage :=
  mkStorage (frames s) (frame_data_len s) (frame_idx s) (pdu_idx s) (is_split s) b (exit_flag s).
Definition with_exit_flag (b : bool) (s : PduStorage) : PduStorage :=
  mkStorage (frames s) (frame_data_len s) (frame_idx s) (pdu_idx s) (is_split s) (tx_woken s) b.
Definition with_frame (i : nat) (f : FrameElement) (s : PduStorage) : PduStorage :=
  with_frames (<[i := f]> (frames s)) s.

(** [PduStorage::try_split]: only the first call succeeds. *)
Definition try_split : St PduStorage unit unit :=
  b ← gets is_split;
  if (b : bool) then fail tt else modify (with_split true).

(** [frame_at_index] asserts that the index is in range. *)
Definition frame_at_index {E} (i : nat) : St PduStorage E FrameElement :=
  s ← gets id;
  lift (unwrap (frames s !! i)).

(** Change the frame a [FrameBox] points to. *)
Definition update_frame {E} (i : nat) (g : FrameElement -> FrameElement) : St PduStorage E unit :=
  f ← frame_at_index i;
  modify (with_frame i (g f)).

(** [PduStorageRef::reset] *)
Definition reset : PduStorage -> PduStorage := fun s =>
  with_frames (set_state FS_None <$> frames s) (with_pdu_idx 0 (with_frame_idx 0 s)).

(** [AtomicU8::fetch_add(1)] on the two counters. *)
Definition fetch_frame_idx {E} : St PduStorage E Z :=
  x ← gets frame_idx;
  _ ← modify (with_frame_idx (wrap 8 (x + 1)));
  mret x.
Definition next_pdu_idx {E} : St PduStorage E Z :=
  x ← gets pdu_idx;
  _ ← modify (with_pdu_idx (wrap 8 (x + 1)));
  mret x.

(** [frame_index_by_first_pdu_index]: the first frame that matches. *)
Fixpoint find_first_pdu (search : Z) (i : nat) (fs : list FrameElement) : option nat :=
  match fs with
  | [] => None
  | f :: fs => if first_pdu_is search f then Some i else find_first_pdu search (S i) fs
  end.
Definition frame_index_by_first_pdu_index (search : Z) (s : PduStorage) : option nat :=
  find_first_pdu search 0 (frames s).

(** *** Well-formed storage *)

(** Every frame has the configured size and its PDUs fit in it. *)
Definition frame_ok (data : nat) (f : FrameElement) : Prop :=
  length (ethernet_frame f) = data /\ (pdu_payload_start + pdu_payload_len f <= data)%nat.

(** The sizes the assertions of [new] let through. *)
Definition frame_counts : list nat := [1; 2; 4; 8; 16; 32; 64; 128]%nat.

Record storage_wf (s : PduStorage) : Prop := {
  swf_num : num_frames s ∈ frame_counts;
  swf_data : (MIN_DATA <= frame_data_len s)%nat;
  swf_frames : Forall (frame_ok (frame_data_len s)) (frames s);
  swf_frame_idx : in_u 8 (frame_idx s);
  swf_pdu_idx : in_u 8 (pdu_idx s);
}.

(** The first sixteen bytes of every frame [init] has prepared. *)
Definition eth_header : bytes := BROADCAST ++ MAINDEVICE_ADDR ++ be_bytes 2 ETHERCAT_ETHERTYPE.

(** A frame right after it has been claimed. *)
Definition fresh_frame (index : Z) (data : nat) : FrameElement :=
  mkFrame index FS_Created false 0 FIRST_PDU_EMPTY
    (eth_header ++ zeros (data - ETHERNET_HEADER_LEN)).

(** ** Lemmas *)

Lemma MIN_DATA_eq : MIN_DATA = 28%nat.
Proof. reflexivity. Qed.

Lemma count_ones_power n :
  (0 < n <= 255)%nat -> (n = 1%nat \/ count_ones n = 1%nat) -> n ∈ frame_counts.
Proof.
  intros Hn H.
  assert (forallb (fun n => implb (Nat.eqb n 1 || Nat.eqb (count_ones n) 1)
    (bool_decide (n ∈ frame_counts))) (seq 1 255) = true) as Hall by (vm_compute; done).
  rewrite forallb_forall in Hall. specialize (Hall n).
  rewrite in_seq in Hall. specialize (Hall ltac:(lia)).
  destruct (Nat.eqb n 1 || Nat.eqb (count_ones n) 1)%bool eqn:E; cbn in Hall.
  - by apply bool_decide_eq_true in Hall.
  - bool_prop. naive_solver.
Qed.

Lemma frame_counts_divide n : n ∈ frame_counts -> (0 < n <= 128)%nat /\ exists k, 256 = k * Z.of_nat n.
Proof.
  intros H. repeat (apply elem_of_cons in H as [->|H]);
    [..|by apply elem_of_nil in H]; (split; [lia|]).
  all: match goal with |- exists k, 256 = k * Z.of_nat ?n => exists (256 / Z.of_nat n); done end.
Qed.

Lemma storage_new_wf n data s : storage_new (E:=Error) n data = Ok s -> storage_wf s.
Proof.
  unfold storage_new. destruct (negb (Nat.leb n 255)) eqn:H1; [done|].
  destruct (negb (Nat.ltb 0 n)) eqn:H2; [done|].
  destruct (negb (Nat.leb MIN_DATA data)) eqn:H3; [done|].
  destruct (Nat.ltb 1 n && negb (Nat.eqb (count_ones n) 1))%bool eqn:H4; [done|].
  intros [= <-]. bool_prop. constructor; cbn.
  - unfold num_frames. cbn. rewrite length_replicate. apply count_ones_power; [lia|].
    apply andb_false_iff in H4 as [H4|H4]; bool_prop; lia.
  - done.
  - apply Forall_replicate. split; cbn; [apply length_zeros|].
    rewrite MIN_DATA_eq in *. unfold pdu_payload_start, ETHERNET_HEADER_LEN. lia.
  - apply in_ub_spec. done.
  - apply in_ub_spec. done.
Qed.

Lemma splice_app_len {A} (a b c d : list A) :
  length b = length d -> splice (a ++ b ++ c) (length a) d = a ++ d ++ c.
Proof.
  intros H. unfold splice. rewrite take_app_length, <- drop_drop, drop_app_length, <- H.
  by rewrite drop_app_length.
Qed.

Lemma frame_init_fresh f data index :
  length (ethernet_frame f) = data -> (ETHERNET_HEADER_LEN <= data)%nat ->
  frame_init (mkFrame index FS_Created (waker f) 0 (first_pdu f) (ethernet_frame f)) =
  fresh_frame index data.
Proof.
  intros <- Hdata. destruct f as [ix st w n p b]. cbn [ethernet_frame waker first_pdu] in *.
  unfold ETHERNET_HEADER_LEN in Hdata.
  do 14 (destruct b as [|? b]; [cbn in Hdata; lia|]). clear Hdata.
  unfold frame_init, fresh_frame, set_frame_bytes, store_first_pdu, set_payload_len, set_waker.
  cbn [storage_slot_index status waker pdu_payload_len first_pdu ethernet_frame].
  unfold set_src_addr, set_dst_addr, set_ethertype, splice, ETHERNET_HEADER_LEN.
  cbn. done.
Qed.

Lemma length_fresh index data :
  (ETHERNET_HEADER_LEN <= data)%nat -> length (ethernet_frame (fresh_frame index data)) = data.
Proof. intros H. cbn. unfold ETHERNET_HEADER_LEN in *. rewrite length_zeros. lia. Qed.

Lemma fresh_ok index data : (MIN_DATA <= data)%nat -> frame_ok data (fresh_frame index data).
Proof.
  rewrite MIN_DATA_eq. intros H. split.
  - apply length_fresh. unfold ETHERNET_HEADER_LEN. lia.
  - unfold pdu_payload_start, ETHERNET_HEADER_LEN. cbn. lia.
Qed.

Lemma pdu_buf_fresh index data :
  (MIN_DATA <= data)%nat -> pdu_buf (fresh_frame index data) = zeros (data - pdu_payload_start).
Proof.
  rewrite MIN_DATA_eq. intros H.
  unfold pdu_buf, fresh_frame, pdu_payload_start, ETHERNET_HEADER_LEN. cbn -[zeros]. unfold zeros.
  destruct (data - 14)%nat as [|[|n]] eqn:E; [lia..|]. cbn. rewrite drop_0. f_equal. lia.
Qed.

(** *** Operations on one slot *)

Lemma with_frame_wf i f s :
  storage_wf s -> frame_ok (frame_data_len s) f -> storage_wf (with_frame i f s).
Proof.
  intros [] Hf. constructor; cbn; try done.
  - unfold num_frames in *. cbn. by rewrite length_insert.
  - by apply Forall_insert.
Qed.

Lemma with_frame_idx_wf x s : storage_wf s -> storage_wf (with_frame_idx (wrap 8 x) s).
Proof. intros []. constructor; try done. apply wrap_in_u. lia. Qed.

Lemma with_pdu_idx_wf x s : storage_wf s -> storage_wf (with_pdu_idx (wrap 8 x) s).
Proof. intros []. constructor; try done. apply wrap_in_u. lia. Qed.

Lemma frame_at_index_ok {E} i s f :
  frames s !! i = Some f -> frame_at_index (E:=E) i s = (Ok f, s).
Proof. intros H. unfold frame_at_index. msimpl. cbn. by rewrite H. Qed.

Lemma update_frame_ok {E} i g s f :
  frames s !! i = Some f -> update_frame (E:=E) i g s = (Ok tt, with_frame i (g f) s).
Proof.
  intros H. unfold update_frame. unfold mbind, St_bind. by rewrite (frame_at_index_ok _ _ _ H).
Qed.

Lemma with_frame_lookup i f s : (i < num_frames s)%nat -> frames (with_frame i f s) !! i = Some f.
Proof. intros H. cbn. by apply list_lookup_insert_eq. Qed.

Lemma with_frame_lookup_ne i j f s : i <> j -> frames (with_frame i f s) !! j = frames s !! j.
Proof. intros H. cbn. by apply list_lookup_insert_ne. Qed.

Lemma with_frame_twice i f g s : with_frame i f (with_frame i g s) = with_frame i f s.
Proof. unfold with_frame, with_frames. cbn. by rewrite list_insert_insert_eq. Qed.

Lemma lookup_slot s i f : frames s !! i = Some f -> (i < num_frames s)%nat.
Proof. apply lookup_lt_Some. Qed.

Lemma frame_ok_lookup s i f :
  storage_wf s -> frames s !! i = Some f -> frame_ok (frame_data_len s) f.
Proof. intros [] H. by eapply Forall_lookup_1. Qed.

#[export] Hint Resolve with_frame_wf with_frame_idx_wf with_pdu_idx_wf frame_ok_lookup lookup_slot : wire.

(** *** The search for the frame of a response *)

Lemma find_first_pdu_spec search i fs :
  find_first_pdu search i fs =
  (fun p => (i + p.1)%nat) <$> list_find (fun f => first_pdu f = search) fs.
Proof.
  revert i. induction fs as [|f fs IH]; intros i; [done|]. cbn [find_first_pdu list_find].
  unfold first_pdu_is. destruct (Z.eqb_spec search (first_pdu f)) as [->|Hne].
  - rewrite decide_True by done. cbn. f_equal. lia.
  - rewrite decide_False by done. rewrite IH. destruct (list_find _ fs) as [[]|]; cbn; [|done].
    f_equal. lia.
Qed.
