(* ===== verification/CreatedFrame.v ===== *)
(** * Allocating a frame and pushing PDUs into it

    [frame_element/created_frame.rs] and the allocator of [pdu_loop/storage.rs]. *)
From S2P Require Import Prelude Wire Derive DeriveEnum Errors PduTypes PduChain Frame.

(** ** Definitions *)

(** [inner] is the slot of the frame. *)
Record CreatedFrame := mkCreatedFrame {
  inner : nat;
  pdu_count : Z;
  last_header_location : option nat;
}.

Record PduResponseHandle := mkHandle {
  h_index_in_frame : Z;
  h_pdu_idx : Z;
  h_command_code : Z;
  h_alloc_size : nat;
}.

(** Header and working counter. *)
Definition PDU_OVERHEAD_BYTES : nat := PACKED_LEN PduHeader_read + 2.

(** [CreatedFrame::claim_created] *)
Definition claim_created (i : nat) (frame_index : Z) : St PduStorage PduError CreatedFrame :=
  f ← frame_at_index i;
  f ← lift (elem_claim_created frame_index f);
  _ ← modify (with_frame i (frame_init f));
  mret (mkCreatedFrame i 0 None).

(** [alloc_frame]: at most [fuel] attempts at the slots after [frame_idx]. *)
Fixpoint alloc_loop (fuel : nat) : St PduStorage Error CreatedFrame :=
  match fuel with
  | O => fail (E_Pdu PE_SwapState)
  | S fuel =>
      x ← fetch_frame_idx;
      n ← gets num_frames;
      let frame_idx := x mod wrap 8 (Z.of_nat n) in
      frame ← attempt (claim_created (Z.to_nat frame_idx) frame_idx);
      match frame with
      | Some f => mret f
      | None => alloc_loop fuel
      end
  end.

Definition alloc_frame : St PduStorage Error CreatedFrame :=
  n ← gets num_frames;
  alloc_loop (n * 2).

(** The drop of a [CreatedFrame]: only a frame that is still [Created] is freed. *)
Definition drop_created {E} (cf : CreatedFrame) : St PduStorage E unit :=
  update_frame (inner cf) (fun f =>
    match swap_state FS_Created FS_None f with Ok f => f | _ => f end).

Definition is_empty (cf : CreatedFrame) : bool := Z.eqb (pdu_count cf) 0.

(** *** Pushing PDUs *)

(** [generate.rs]: pack [v] at offset [off] of [buf], and the offset after it. *)
Definition write_packed {T E} (w : WireWrite T) (v : T) (off : nat) (buf : bytes)
    : res E (bytes * nat) :=
  sub ← unwrap (get_from buf off);
  sub ← match pack_to_slice_unchecked w v sub with Ok b => Ok b | _ => Panic end;
  _ ← unwrap (get_from sub (packed_len w v));
  mret (take off buf ++ sub, (off + packed_len w v)%nat).

(** State of a push: the storage and the frame handle. *)
Abbreviation Push := (St (PduStorage * CreatedFrame) PduError).

Definition in_storage {A} (m : St PduStorage PduError A) : Push A := fun '(s, cf) =>
  let '(r, s) := m s in (r, (s, cf)).

Definition the_frame : Push FrameElement := fun '(s, cf) =>
  in_storage (frame_at_index (inner cf)) (s, cf).

Definition update_the_frame (g : FrameElement -> FrameElement) : Push unit := fun '(s, cf) =>
  in_storage (update_frame (inner cf) g) (s, cf).

Definition set_pdu_buf_mut (b : bytes) : Push unit := update_the_frame (set_pdu_buf b).

Definition with_handle (g : CreatedFrame -> CreatedFrame) : Push unit :=
  modify (fun '(s, cf) => (s, g cf)).

(** [more_follows] of the PDU whose header is at [location]. *)
Definition set_more_follows (location : nat) (buf : bytes) : res PduError bytes :=
  let off := (location + 6)%nat in
  last_flags_buf ← unwrap (get_from buf off);
  last_flags ← match unpack_from_slice PduFlags_read last_flags_buf with Ok f => Ok f | _ => Panic end;
  let last_flags := mkPduFlags (pf_length last_flags) (pf_circulated last_flags) true in
  b ← match pack_to_slice_unchecked PduFlags_write last_flags last_flags_buf with
      | Ok b => Ok b | _ => Panic end;
  mret (take off buf ++ b).

(** The common tail of [push_pdu] and [push_pdu_slice_rest], from the moment
    the length of the payload is known. *)
Definition push_bytes {P : Profile} {T} (command : Command) (w : WireWrite T) (data : T)
    (data_length : nat) : Push PduResponseHandle :=
  let flags := PduFlags_new (wrap 16 (Z.of_nat data_length)) false in
  let alloc_size := (data_length + PDU_OVERHEAD_BYTES)%nat in
  f ← the_frame;
  let start_byte := pdu_payload_len f in
  pdu_idx ← in_storage next_pdu_idx;
  let buf := pdu_buf f in
  pdu ← lift (ok_or (get_range buf start_byte (start_byte + alloc_size)) PE_TooLong);
  let header := mkPduHeader (code command) pdu_idx (Command_pack command) flags 0 in
  '(pdu, off) ← lift (write_packed PduHeader_write header 0 pdu);
  '(pdu, _) ← lift (write_packed w data off pdu);
  _ ← set_pdu_buf_mut (splice buf start_byte pdu);
  _ ← update_the_frame (add_pdu alloc_size pdu_idx);
  cf ← gets snd;
  let index_in_frame := pdu_count cf in
  count ← lift (uadd 8 (pdu_count cf) 1);
  _ ← with_handle (fun cf => mkCreatedFrame (inner cf) count (last_header_location cf));
  f ← the_frame;
  location ← (match last_header_location cf with
    | Some location =>
        buf ← lift (set_more_follows location (pdu_buf f));
        _ ← set_pdu_buf_mut buf;
        mret start_byte
    | None => mret 0%nat
    end);
  _ ← with_handle (fun cf => mkCreatedFrame (inner cf) (pdu_count cf) (Some location));
  mret (mkHandle index_in_frame pdu_idx (code command) alloc_size).

(** [len_override.map_or(data.packed_len(), |l| l.max(data.packed_len()))] *)
Definition data_length {T} (w : WireWrite T) (data : T) (len_override : option Z) : nat :=
  match len_override with
  | None => packed_len w data
  | Some l => Nat.max (Z.to_nat l) (packed_len w data)
  end.

Definition push_pdu {P : Profile} {T} (command : Command) (w : WireWrite T) (data : T)
    (len_override : option Z) : Push PduResponseHandle :=
  push_bytes command w data (data_length w data len_override).

(** As much of [data] as fits; [None] when nothing does. *)
Definition push_pdu_slice_rest {P : Profile} (command : Command) (data : bytes)
    : Push (option (nat * PduResponseHandle)) :=
  f ← the_frame;
  let consumed := pdu_payload_len f in
  if Nat.eqb (length data) 0 then mret None else
  let max_bytes := (length (pdu_buf f) - consumed - PDU_OVERHEAD_BYTES)%nat in
  if Nat.eqb max_bytes 0 then mret None else
  let sub_slice_len := Nat.min max_bytes (length data) in
  h ← push_bytes command slice_write (take sub_slice_len data) sub_slice_len;
  mret (Some (sub_slice_len, h)).

Definition can_push_pdu_payload (packed_len : nat) : Push bool :=
  f ← the_frame;
  mret (Nat.leb (pdu_payload_len f + (packed_len + PDU_OVERHEAD_BYTES)) (length (pdu_buf f))).

(** *** Sending it off *)

(** A frame on its way: [ReceiveFrameFut].  [None] once the frame is taken. *)
Record ReceiveFrameFut := mkFut {
  fut_frame : option nat;
  fut_timeout : TimeoutKind;
  fut_retries_left : nat;
}.

(** [mark_sendable]; the [CreatedFrame] is dropped when the method returns. *)
Definition mark_sendable {P : Profile} {E} (cf : CreatedFrame) (timeout : TimeoutKind)
    (retries : nat) : St PduStorage E ReceiveFrameFut :=
  f ← frame_at_index (inner cf);
  header ← lift (EthercatFrameHeader_pdu (wrap 16 (Z.of_nat (pdu_payload_len f))));
  hbuf ← lift (match pack_to_slice_unchecked EthercatFrameHeader_write header (ecat_frame_header f)
    with Ok b => Ok b | _ => Panic end);
  _ ← update_frame (inner cf) (fun f =>
    set_frame_bytes (splice (ethernet_frame f) ETHERNET_HEADER_LEN hbuf) f);
  _ ← update_frame (inner cf) (set_state FS_Sendable);
  _ ← drop_created cf;
  mret (mkFut (Some (inner cf)) timeout retries).

(** *** The abstract view of a frame under construction *)

(** The PDU a push adds, as it will be on the wire. *)
Definition pushed_pdu (command : Command) (index : Z) (payload : bytes) : Pdu :=
  mkPdu (code command) index (Command_pack command) false 0 payload 0.

(** Where the header of the last PDU is. *)
Definition last_location (ps : list Pdu) : option nat :=
  match ps with
  | [] => None
  | _ => Some (length (open_bytes (removelast ps)))
  end.

(** The slot [cf] points to holds exactly the PDUs [ps], and nothing after them. *)
Record holds (s : PduStorage) (cf : CreatedFrame) (ps : list Pdu) (f : FrameElement) : Prop := {
  ho_slot : frames s !! inner cf = Some f;
  ho_status : status f = FS_Created;
  ho_valid : Forall pdu_valid ps;
  ho_buf : pdu_buf f = pdus_bytes ps ++ zeros (length (pdu_buf f) - length (pdus_bytes ps));
  ho_len : pdu_payload_len f = length (pdus_bytes ps);
  ho_first : first_pdu f = match ps with [] => FIRST_PDU_EMPTY | p :: _ => p_index p end;
  ho_count : pdu_count cf = Z.of_nat (length ps);
  ho_last : last_header_location cf = last_location ps;
  ho_eth : take ETHERNET_HEADER_LEN (ethernet_frame f) = eth_header;
}.

(** ** Lemmas *)

(** *** The allocator *)

(** The slot that the [k]-th attempt of [alloc_frame] looks at. *)
Definition slot_at (s : PduStorage) (k : nat) : nat :=
  Z.to_nat ((frame_idx s + Z.of_nat k) mod Z.of_nat (num_frames s)).

Lemma wrap_frame_idx_mod s x :
  storage_wf s -> wrap 8 x mod wrap 8 (Z.of_nat (num_frames s)) = x mod Z.of_nat (num_frames s).
Proof.
  intros Hs. destruct (frame_counts_divide _ (swf_num s Hs)) as [Hn [k Hk]].
  unfold wrap. change (2 ^ 8) with 256. rewrite (Z.mod_small (Z.of_nat _)) by lia.
  rewrite Hk at 1. rewrite Z.mul_comm. rewrite Z.rem_mul_r by nia.
  rewrite (Z.mul_comm (Z.of_nat _)), Z_mod_plus_full. apply Z.mod_mod. lia.
Qed.

Lemma claim_created_some s i f frame_index :
  storage_wf s -> frames s !! i = Some f -> status f = FS_None ->
  claim_created i frame_index s =
    (Ok (mkCreatedFrame i 0 None), with_frame i (fresh_frame frame_index (frame_data_len s)) s).
Proof.
  intros Hs Hf Hst. unfold claim_created, mbind, St_bind.
  rewrite (frame_at_index_ok _ _ _ Hf). unfold elem_claim_created, swap_state.
  rewrite decide_True by done. msimpl. cbn [map_err set_state status waker first_pdu ethernet_frame].
  destruct (frame_ok_lookup _ _ _ Hs Hf) as [Hlen _].
  rewrite (frame_init_fresh f (frame_data_len s)); [done|done|].
  pose proof (swf_data s Hs). rewrite MIN_DATA_eq in *. unfold ETHERNET_HEADER_LEN. lia.
Qed.

Lemma claim_created_none s i f frame_index :
  frames s !! i = Some f -> status f <> FS_None ->
  claim_created i frame_index s = (Err PE_SwapState, s).
Proof.
  intros Hf Hst. unfold claim_created, mbind, St_bind.
  rewrite (frame_at_index_ok _ _ _ Hf). unfold elem_claim_created, swap_state.
  by rewrite decide_False.
Qed.

Lemma slot_at_lt s k : storage_wf s -> (slot_at s k < num_frames s)%nat.
Proof.
  intros Hs. destruct (frame_counts_divide _ (swf_num s Hs)) as [Hn _]. unfold slot_at. lia.
Qed.

Lemma slot_at_step s k :
  storage_wf s -> slot_at (with_frame_idx (wrap 8 (frame_idx s + 1)) s) k = slot_at s (S k).
Proof.
  intros Hs. unfold slot_at. cbn [frame_idx with_frame_idx]. f_equal.
  destruct (frame_counts_divide _ (swf_num s Hs)) as [Hn [m Hm]].
  change (num_frames (with_frame_idx _ s)) with (num_frames s).
  unfold wrap. change (2 ^ 8) with 256. rewrite (Z.mod_eq _ 256) by lia.
  rewrite Hm. set (q := (_ + 1) / _).
  replace (frame_idx s + 1 - m * Z.of_nat (num_frames s) * q + Z.of_nat k)
    with (frame_idx s + Z.of_nat (S k) + (- m * q) * Z.of_nat (num_frames s)) by lia.
  apply Z_mod_plus_full.
Qed.

(** [alloc_frame] takes the first free slot in its order, or fails when it saw none. *)
Lemma alloc_loop_spec fuel s :
  storage_wf s ->
  (exists k f, (k < fuel)%nat /\ frames s !! slot_at s k = Some f /\ status f = FS_None /\
    alloc_loop fuel s = (Ok (mkCreatedFrame (slot_at s k) 0 None),
      with_frame (slot_at s k) (fresh_frame (Z.of_nat (slot_at s k)) (frame_data_len s))
        (with_frame_idx (wrap 8 (frame_idx s + Z.of_nat k + 1)) s))) \/
  ((forall k f, (k < fuel)%nat -> frames s !! slot_at s k = Some f -> status f <> FS_None) /\
    exists x, alloc_loop fuel s = (Err (E_Pdu PE_SwapState), with_frame_idx (wrap 8 x) s)).
Proof.
  revert s. induction fuel as [|fuel IH]; intros s Hs.
  { right. split; [lia|]. exists (frame_idx s). cbn. unfold fail.
    rewrite wrap_small by apply Hs. by destruct s. }
  set (s1 := with_frame_idx (wrap 8 (frame_idx s + 1)) s).
  assert (storage_wf s1) as Hs1 by by apply with_frame_idx_wf.
  destruct (lookup_lt_is_Some_2 (frames s) (slot_at s 0) (slot_at_lt s 0 Hs)) as [f Hf].
  assert (frame_idx s mod wrap 8 (Z.of_nat (num_frames s)) = Z.of_nat (slot_at s 0)) as Hidx.
  { pose proof (wrap_frame_idx_mod s (frame_idx s) Hs) as H.
    rewrite wrap_small in H by apply Hs. rewrite H. unfold slot_at.
    destruct (frame_counts_divide _ (swf_num s Hs)) as [Hn _]. rewrite Z.add_0_r. lia. }
  assert (alloc_loop (S fuel) s =
    (frame ← attempt (claim_created (slot_at s 0) (Z.of_nat (slot_at s 0)));
     match frame with Some f => mret f | None => alloc_loop fuel end) s1) as ->.
  { change (alloc_loop (S fuel) s) with
      ((frame ← attempt (claim_created
          (Z.to_nat (frame_idx s mod wrap 8 (Z.of_nat (num_frames s))))
          (frame_idx s mod wrap 8 (Z.of_nat (num_frames s))));
        match frame with Some f => mret f | None => alloc_loop fuel end) s1).
    by rewrite Hidx, Nat2Z.id. }
  unfold mbind, St_bind, attempt.
  destruct (decide (status f = FS_None)) as [Hst|Hst].
  - left. exists 0%nat, f. split_and!; [lia|done|done|].
    rewrite (claim_created_some s1 _ f) by done. rewrite Z.add_0_r. done.
  - rewrite (claim_created_none s1 _ f) by done. specialize (IH s1 Hs1).
    assert (forall k, slot_at s1 k = slot_at s (S k)) as Hslot by (intros; by apply slot_at_step).
    destruct IH as [(k & g & Hk & Hg & Hgst & Heq)|[Hall [x Heq]]].
    + left. exists (S k), g. rewrite Hslot in *. split_and!; [lia|done|done|].
      rewrite Heq. do 2 f_equal. unfold s1. cbn [frame_idx with_frame_idx].
      unfold with_frame_idx at 1. cbn. unfold with_frame_idx. f_equal.
      unfold wrap. change (2 ^ 8) with 256. lia.
    + right. split; [|by exists x].
      intros [|k] g Hk Hg; [congruence|]. rewrite <- Hslot in Hg. apply (Hall k); [lia|done].
Qed.

(** Twice round the storage is enough to see every slot. *)
Lemma slot_at_surj s i : storage_wf s -> (i < num_frames s)%nat ->
  exists k, (k < num_frames s * 2)%nat /\ slot_at s k = i.
Proof.
  intros Hs Hi. destruct (frame_counts_divide _ (swf_num s Hs)) as [Hn _].
  pose proof (swf_frame_idx s Hs) as [H0 _].
  set (n := Z.of_nat (num_frames s)) in *.
  exists (Z.to_nat ((Z.of_nat i - frame_idx s) mod n)). split; [lia|].
  unfold slot_at. fold n. rewrite Z2Nat.id by lia.
  rewrite Zplus_mod_idemp_r. replace (frame_idx s + (Z.of_nat i - frame_idx s)) with (Z.of_nat i) by lia.
  rewrite Z.mod_small; lia.
Qed.

(** *** Writing one PDU *)

(** [v] packs as the bytes [enc], whatever the buffer held before. *)
Record packs {T} (w : WireWrite T) (v : T) (enc : bytes) : Prop := {
  pk_len : packed_len w v = length enc;
  pk_ok : bytes_ok enc;
  pk_pack buf : (length enc <= length buf)%nat ->
    pack_to_slice_unchecked w v buf = Ok (splice buf 0 enc);
}.

Lemma packs_roundtrip {T} (w : WireWrite T) r valid `{!RoundTrip w r valid} v :
  valid v -> packs w v (encoding (w:=w) v).
Proof.
  intros Hv. constructor.
  - by rewrite (packed_len_eq (valid:=valid)), (encoding_length (valid:=valid)).
  - by apply (encoding_ok (valid:=valid)).
  - intros buf Hl. apply (pack_encoding (valid:=valid)); [done|].
    by rewrite (encoding_length (valid:=valid)) in Hl.
Qed.

Lemma packs_unit : packs unit_write tt [].
Proof. constructor; [done|constructor|by intros]. Qed.

Lemma packs_slice l : bytes_ok l -> packs slice_write l l.
Proof.
  intros H. constructor; [done|done|]. intros buf Hl. cbn. by apply Nat.leb_le in Hl as ->.
Qed.

Lemma write_packed_ok {T E} (w : WireWrite T) v enc off a b :
  packs w v enc -> length a = off -> (length enc <= length b)%nat ->
  write_packed (E:=E) w v off (a ++ b) =
    Ok (a ++ enc ++ drop (length enc) b, (off + length enc)%nat).
Proof.
  intros [Hl _ Hp] <- Hlen. unfold write_packed, get_from.
  rewrite (proj2 (Nat.leb_le (length a) _)) by (rewrite length_app; lia).
  cbn [unwrap]. msimpl. rewrite drop_app_length, Hp by done.
  rewrite Hl, length_splice by lia. rewrite (proj2 (Nat.leb_le _ _)) by done. cbn [unwrap].
  rewrite take_app_length. unfold splice. by rewrite take_0.
Qed.

(** The payload of a PDU of [n] bytes: the data, then zeroes. *)
Definition payload_of (enc : bytes) (n : nat) : bytes := enc ++ zeros (n - length enc).

Lemma length_payload_of enc n : (length enc <= n)%nat -> length (payload_of enc n) = n.
Proof. intros H. unfold payload_of. rewrite length_app, length_zeros. lia. Qed.

Lemma zeros_app a b : zeros (a + b) = zeros a ++ zeros b.
Proof. apply replicate_add. Qed.

Lemma drop_zeros n m : drop n (zeros m) = zeros (m - n).
Proof. apply drop_replicate. Qed.

Lemma take_zeros n m : (n <= m)%nat -> take n (zeros m) = zeros n.
Proof. intros H. unfold zeros. rewrite take_replicate. by rewrite Nat.min_l. Qed.

Lemma pushed_pdu_valid command index payload :
  in_u 8 index -> bytes_ok payload -> (length payload < 2048)%nat ->
  pdu_valid (pushed_pdu command index payload).
Proof.
  intros Hi Hp Hl. constructor; cbn; try done.
  - apply code_u8.
  - split; [apply length_Command_pack|apply Command_pack_ok].
  - split; [lia|]. change (2 ^ 11) with 2048. lia.
Qed.

(** Header, data and an empty working counter, over a zeroed buffer. *)
Lemma write_pdu_ok {T E} command index (w : WireWrite T) data enc n :
  packs w data enc -> (length enc <= n < 2048)%nat -> in_u 8 index ->
  let p := pushed_pdu command index (payload_of enc n) in
  ('(pdu, off) ← write_packed (E:=E) PduHeader_write
      (mkPduHeader (code command) index (Command_pack command)
        (PduFlags_new (wrap 16 (Z.of_nat n)) false) 0) 0 (zeros (n + 12));
   '(pdu, _) ← write_packed w data off pdu;
   mret pdu) = Ok (pdu_bytes false p).
Proof.
  intros Hp Hn Hi p. assert (pdu_valid p) as Hv.
  { apply pushed_pdu_valid; [done| |rewrite length_payload_of; lia].
    apply bytes_ok_app. split; [apply Hp|apply bytes_ok_zeros]. }
  assert (mkPduHeader (code command) index (Command_pack command)
    (PduFlags_new (wrap 16 (Z.of_nat n)) false) 0 = pdu_header false p) as ->.
  { unfold pdu_header, p, PduFlags_new. cbn. rewrite length_payload_of by lia.
    rewrite wrap_small; [done|]. split; [lia|]. change (2 ^ 16) with 65536. lia. }
  pose proof (pdu_header_valid false p Hv) as Hh.
  assert (length (header_bytes (pdu_header false p)) = 10%nat) as Hlen.
  { apply length_header_bytes. by apply (pv_raw p Hv). }
  assert (packs PduHeader_write (pdu_header false p) (header_bytes (pdu_header false p))) as Hhp.
  { rewrite <- header_encoding by done. by apply (packs_roundtrip PduHeader_write PduHeader_read PduHeader_valid). }
  change (zeros (n + 12)) with ([] ++ zeros (n + 12)).
  rewrite (write_packed_ok (E:=E) _ _ _ 0 [] _ Hhp eq_refl) by (rewrite Hlen, length_zeros; lia).
  msimpl. rewrite Hlen, drop_zeros. cbn [app Nat.add].
  rewrite (write_packed_ok (E:=E) _ _ _ 10 _ _ Hp Hlen) by (rewrite length_zeros; lia).
  rewrite drop_zeros. unfold pdu_bytes, p, pushed_pdu, payload_of. cbn [p_data p_wkc].
  change (le_bytes 2 0) with (zeros 2). rewrite <- !app_assoc, <- zeros_app.
  repeat f_equal. lia.
Qed.

(** *** Chaining it to the previous one *)

Lemma set_more_follows_at loc a b fl :
  length a = (loc + 6)%nat -> PduFlags_valid fl ->
  set_more_follows loc (a ++ le_bytes 2 (PduFlags_raw fl) ++ b) =
    Ok (a ++ le_bytes 2 (PduFlags_raw (mkPduFlags (pf_length fl) (pf_circulated fl) true)) ++ b).
Proof.
  intros Ha Hf. unfold set_more_follows, get_from. rewrite <- Ha.
  rewrite (proj2 (Nat.leb_le _ _)) by (rewrite length_app; lia). cbn [unwrap]. msimpl.
  rewrite drop_app_length, take_app_length.
  pose proof (unpack_encoding (RoundTrip:=PduFlags_roundtrip) fl b Hf) as Hu.
  change (encoding fl) with (le_bytes 2 (PduFlags_raw fl)) in Hu. rewrite Hu. msimpl.
  set (fl' := mkPduFlags _ _ true). assert (PduFlags_valid fl') as Hf' by exact Hf.
  assert (2 <= length (le_bytes 2 (PduFlags_raw fl) ++ b))%nat as Hl
    by (rewrite length_app, length_le_bytes; lia).
  pose proof (pack_encoding (RoundTrip:=PduFlags_roundtrip) fl' _ Hf' Hl) as Hk.
  change (encoding fl') with (le_bytes 2 (PduFlags_raw fl')) in Hk. rewrite Hk. msimpl.
  unfold splice. rewrite take_0, length_le_bytes. cbn [app Nat.add]. do 2 f_equal.
Qed.

Lemma set_more_follows_ok ps q rest :
  Forall pdu_valid ps -> pdu_valid q ->
  set_more_follows (length (open_bytes ps)) (open_bytes ps ++ pdu_bytes false q ++ rest) =
    Ok (open_bytes ps ++ pdu_bytes true q ++ rest).
Proof.
  intros Hps Hq. destruct (pv_raw q Hq) as [Hr _].
  destruct (pdu_bytes_set_more q rest Hq) as [H1 H2].
  set (tail := drop 8 (pdu_bytes true q)) in *. clearbody tail. rewrite H1, H2.
  set (a := open_bytes ps ++ [p_code q; p_index q] ++ p_raw q).
  assert (forall more, open_bytes ps ++ [p_code q; p_index q] ++ p_raw q ++
    le_bytes 2 (PduFlags_raw (ph_flags (pdu_header more q))) ++ tail ++ rest =
    a ++ le_bytes 2 (PduFlags_raw (ph_flags (pdu_header more q))) ++ tail ++ rest) as Ha.
  { intros more. unfold a. by rewrite <- !app_assoc. }
  rewrite Ha, set_more_follows_at; [|unfold a; rewrite !length_app, Hr; cbn; lia|apply (pv_len q Hq)].
  f_equal. unfold a. by rewrite <- !app_assoc.
Qed.

(** *** Pushing a PDU into a frame *)

Lemma splice_end (a b : bytes) k : (length b <= k)%nat ->
  splice (a ++ zeros k) (length a) b = a ++ b ++ zeros (k - length b).
Proof.
  intros H. unfold splice. rewrite take_app_length, <- drop_drop, drop_app_length, drop_zeros. done.
Qed.

Lemma last_location_snoc ps p : last_location (ps ++ [p]) = Some (length (open_bytes ps)).
Proof. unfold last_location. rewrite removelast_last. destruct ps; done. Qed.

Lemma pdus_fit ps n : Forall pdu_valid ps -> (length (pdus_bytes ps) <= n)%nat -> (12 * length ps <= n)%nat.
Proof.
  intros Hv H. rewrite length_pdus_bytes in H by done. revert n H.
  induction Hv as [|p ps Hp Hps IH]; intros n H; [cbn; lia|].
  change (sum_list (pdu_len <$> p :: ps)) with (pdu_len p + sum_list (pdu_len <$> ps))%nat in H.
  cbn [length]. specialize (IH (n - pdu_len p)%nat ltac:(lia)).
  unfold pdu_len in *. lia.
Qed.

Lemma the_frame_ok s cf f : frames s !! inner cf = Some f -> the_frame (s, cf) = (Ok f, (s, cf)).
Proof. intros H. unfold the_frame, in_storage. by rewrite (frame_at_index_ok _ _ _ H). Qed.

Lemma update_the_frame_ok g s cf f :
  frames s !! inner cf = Some f ->
  update_the_frame g (s, cf) = (Ok tt, (with_frame (inner cf) (g f) s, cf)).
Proof. intros H. unfold update_the_frame, in_storage. by rewrite (update_frame_ok _ _ _ _ H). Qed.

Lemma pdu_buf_set b f :
  (pdu_payload_start <= length (ethernet_frame f))%nat -> pdu_buf (set_pdu_buf b f) = b.
Proof.
  intros H. unfold pdu_buf, set_pdu_buf, set_frame_bytes. cbn [ethernet_frame].
  rewrite drop_app_ge by (rewrite length_take; lia). rewrite length_take, Nat.min_l by lia.
  by rewrite Nat.sub_diag.
Qed.

Lemma set_pdu_buf_twice b c f :
  (pdu_payload_start <= length (ethernet_frame f))%nat ->
  set_pdu_buf c (set_pdu_buf b f) = set_pdu_buf c f.
Proof.
  intros H. unfold set_pdu_buf, set_frame_bytes.
  cbn [storage_slot_index status waker pdu_payload_len first_pdu ethernet_frame]. do 2 f_equal.
  rewrite take_app_le by (rewrite length_take; lia). by rewrite take_take, Nat.min_id.
Qed.

Lemma length_pdu_buf f : length (pdu_buf f) = (length (ethernet_frame f) - pdu_payload_start)%nat.
Proof. apply length_drop. Qed.

(** The frame after a successful push of [p] behind [ps]. *)
Definition pushed_frame (ps : list Pdu) (p : Pdu) (f : FrameElement) : FrameElement :=
  let ps' := ps ++ [p] in
  set_pdu_buf (pdus_bytes ps' ++ zeros (length (pdu_buf f) - length (pdus_bytes ps')))
    (mkFrame (storage_slot_index f) (status f) (waker f) (length (pdus_bytes ps'))
      (if Nat.eqb (length ps) 0 then p_index p else first_pdu f) (ethernet_frame f)).

Lemma holds_pushed s cf ps f p cf' :
  storage_wf s -> holds s cf ps f -> pdu_valid p ->
  (length (pdus_bytes (ps ++ [p])) <= length (pdu_buf f))%nat ->
  inner cf' = inner cf -> pdu_count cf' = Z.of_nat (length (ps ++ [p])) ->
  last_header_location cf' = last_location (ps ++ [p]) ->
  holds (with_frame (inner cf) (pushed_frame ps p f) s) cf' (ps ++ [p]) (pushed_frame ps p f).
Proof.
  intros Hs [] Hp Hfit Hi Hc Hl. assert (pdu_payload_start <= length (ethernet_frame f))%nat.
  { destruct (frame_ok_lookup _ _ _ Hs ho_slot0) as [-> ?]. lia. }
  constructor; [|done| | |done| |done|done|].
  5: { unfold pushed_frame, set_pdu_buf, set_frame_bytes. cbn [ethernet_frame].
    rewrite take_app_le, take_take by (rewrite length_take; unfold pdu_payload_start in *; lia).
    rewrite Nat.min_l by (unfold pdu_payload_start; lia). done. }
  - rewrite Hi. apply with_frame_lookup. eauto with wire.
  - apply Forall_app. auto.
  - unfold pushed_frame. rewrite pdu_buf_set by done. rewrite length_app, length_zeros.
    do 2 f_equal. lia.
  - unfold pushed_frame. cbn. destruct ps as [|q ps]; [done|]. cbn. done.
Qed.

Lemma pushed_frame_ok ps p f data :
  frame_ok data f -> (length (pdus_bytes (ps ++ [p])) <= length (pdu_buf f))%nat ->
  frame_ok data (pushed_frame ps p f).
Proof.
  intros [Hl Hf] Hfit. rewrite length_pdu_buf in Hfit. split.
  - unfold pushed_frame, set_pdu_buf, set_frame_bytes. cbn [ethernet_frame].
    rewrite length_app, length_take, (length_app (pdus_bytes _)), length_zeros, length_pdu_buf. lia.
  - unfold pushed_frame, set_pdu_buf, set_frame_bytes. cbn [pdu_payload_len]. lia.
Qed.

(** The largest frame whose payload length fits the eleven bits of the header. *)
Definition MAX_DATA : nat := 2063.

Lemma pdu_buf_add n idx f : pdu_buf (add_pdu n idx f) = pdu_buf f.
Proof. unfold add_pdu, set_first_pdu. by destruct (Z.eqb _ _). Qed.

(** The effects of a push on the slot, put together. *)
Lemma pushed_frame_eq b b' n ps idx f :
  (pdu_payload_start <= length (ethernet_frame f))%nat ->
  first_pdu f = match ps with [] => FIRST_PDU_EMPTY | q :: _ => p_index q end ->
  Forall pdu_valid ps ->
  set_pdu_buf b (add_pdu n idx (set_pdu_buf b' f)) =
  set_pdu_buf b (mkFrame (storage_slot_index f) (status f) (waker f) (pdu_payload_len f + n)
    (if Nat.eqb (length ps) 0 then idx else first_pdu f) (ethernet_frame f)).
Proof.
  intros Hl Hfirst Hv. unfold add_pdu, set_first_pdu, set_payload_len, store_first_pdu.
  cbn [storage_slot_index status waker pdu_payload_len first_pdu ethernet_frame set_pdu_buf set_frame_bytes].
  assert (Z.eqb (first_pdu f) FIRST_PDU_EMPTY = Nat.eqb (length ps) 0) as ->.
  { rewrite Hfirst. destruct ps as [|q ps]; [done|]. apply Forall_cons in Hv as [[_ [? Hi] _ _ _ _ _] _].
    cbn. apply Z.eqb_neq. change (2 ^ 8) with 256 in Hi. unfold FIRST_PDU_EMPTY. lia. }
  destruct (Nat.eqb (length ps) 0); unfold set_pdu_buf, set_frame_bytes;
    cbn [storage_slot_index status waker pdu_payload_len first_pdu ethernet_frame];
    do 2 f_equal; (rewrite take_app_le by (rewrite length_take; lia)); by rewrite take_take, Nat.min_id.
Qed.

(** The PDU a push makes, and the chain with it. *)
Lemma pushed_pdu_ok {T} s cf ps f command (w : WireWrite T) data enc n :
  storage_wf s -> holds s cf ps f -> packs w data enc -> (length enc <= n < 2048)%nat ->
  let p := pushed_pdu command (pdu_idx s) (payload_of enc n) in
  pdu_valid p /\ length (pdu_bytes false p) = (n + 12)%nat /\
  length (pdus_bytes (ps ++ [p])) = (length (pdus_bytes ps) + (n + 12))%nat.
Proof.
  intros Hs Hh Hp Hn p.
  assert (pdu_valid p) as Hpv.
  { apply pushed_pdu_valid; [apply Hs| |rewrite length_payload_of; lia].
    apply bytes_ok_app. split; [apply Hp|apply bytes_ok_zeros]. }
  assert (length (pdu_bytes false p) = (n + 12)%nat) as Hpl.
  { rewrite length_pdu_bytes by apply Hpv. unfold pdu_len, p. cbn [p_data pushed_pdu].
    rewrite length_payload_of; lia. }
  split_and!; [done..|].
  pose proof (ho_valid _ _ _ _ Hh) as Hv. rewrite length_pdus_bytes by (apply Forall_app; auto).
  rewrite fmap_app, sum_list_with_app, <- (length_pdus_bytes ps) by done.
  change (sum_list_with id (pdu_len <$> [p])) with (pdu_len p + 0)%nat.
  rewrite <- (length_pdu_bytes false p) by apply Hpv. lia.
Qed.

(** Where a push writes there are zeroes. *)
Lemma room_behind s cf ps f m :
  holds s cf ps f -> (length (pdus_bytes ps) + m <= length (pdu_buf f))%nat ->
  get_range (pdu_buf f) (pdu_payload_len f) (pdu_payload_len f + m) = Some (zeros m).
Proof.
  intros Hh Hfit. apply get_range_Some. rewrite (ho_len _ _ _ _ Hh).
  split; [lia|]. rewrite (ho_buf _ _ _ _ Hh), drop_app_length.
  rewrite take_zeros by lia. f_equal. lia.
Qed.

(** The last part of a push: the header before the new PDU, if there is one, says
    that more follow. *)
Lemma link_last_ok {P : Profile} s cf ps p f k :
  (inner cf < num_frames s)%nat -> (pdu_payload_start <= length (ethernet_frame f))%nat ->
  Forall pdu_valid ps -> pdu_buf f = pdus_bytes ps ++ pdu_bytes false p ++ zeros k ->
  (match last_location ps with
   | Some location =>
       buf ← lift (set_more_follows location (pdu_buf f));
       _ ← set_pdu_buf_mut buf;
       mret (length (pdus_bytes ps))
   | None => mret 0%nat
   end : Push nat) (with_frame (inner cf) f s, cf) =
    (Ok (length (pdus_bytes ps)),
     (with_frame (inner cf) (set_pdu_buf (pdus_bytes (ps ++ [p]) ++ zeros k) f) s, cf)).
Proof.
  intros Hi Hpay Hv Hb. pose proof (with_frame_lookup (inner cf) f s Hi) as Hf.
  destruct ps as [|q ps _] using rev_ind.
  - cbn [app] in *. cbn [last_location].
    assert (set_pdu_buf (pdus_bytes [p] ++ zeros k) f = f) as ->; [|done].
    replace (pdus_bytes [p] ++ zeros k) with (pdu_buf f)
      by (rewrite Hb; cbn [pdus_bytes app length Nat.eqb negb]; by rewrite app_nil_r).
    unfold set_pdu_buf, set_frame_bytes, pdu_buf. rewrite take_drop. by destruct f.
  - apply Forall_app in Hv as [Hvp Hvq]. apply Forall_cons in Hvq as [Hvq _].
    rewrite last_location_snoc. rewrite pdus_bytes_snoc, <- app_assoc in Hb.
    rewrite Hb.
    rewrite (st_step (lift _) _ _ _ _ (f_equal2 pair (set_more_follows_ok ps q _ Hvp Hvq) eq_refl)).
    rewrite (st_step (set_pdu_buf_mut _) _ _ _ _ (update_the_frame_ok _ _ cf _ Hf)).
    rewrite with_frame_twice. by rewrite (pdus_bytes_snoc (ps ++ [q])), open_bytes_snoc, <- !app_assoc.
Qed.

(** A PDU that fits is appended. *)
Lemma push_bytes_fits {P : Profile} {T} s cf ps f command (w : WireWrite T) data enc n :
  storage_wf s -> (frame_data_len s <= MAX_DATA)%nat -> holds s cf ps f ->
  packs w data enc -> (length enc <= n)%nat ->
  (length (pdus_bytes ps) + (n + 12) <= length (pdu_buf f))%nat ->
  let p := pushed_pdu command (pdu_idx s) (payload_of enc n) in
  push_bytes command w data n (s, cf) =
    (Ok (mkHandle (Z.of_nat (length ps)) (pdu_idx s) (code command) (n + 12)),
     (with_frame (inner cf) (pushed_frame ps p f) (with_pdu_idx (wrap 8 (pdu_idx s + 1)) s),
      mkCreatedFrame (inner cf) (Z.of_nat (length (ps ++ [p]))) (last_location (ps ++ [p])))) /\
  pdu_valid p /\ (length (pdus_bytes (ps ++ [p])) <= length (pdu_buf f))%nat.
Proof.
  intros Hs Hmax Hh Hp Hn Hfit p.
  pose proof (ho_slot _ _ _ _ Hh) as Hf. pose proof (frame_ok_lookup _ _ _ Hs Hf) as [Hdata _].
  assert (pdu_payload_start <= length (ethernet_frame f))%nat as Hpay.
  { rewrite Hdata. pose proof (swf_data s Hs). rewrite MIN_DATA_eq in *.
    unfold pdu_payload_start, ETHERNET_HEADER_LEN. lia. }
  assert (length (pdu_buf f) < 2048)%nat as Hbuf.
  { rewrite length_pdu_buf, Hdata. unfold MAX_DATA, pdu_payload_start, ETHERNET_HEADER_LEN in *. lia. }
  pose proof (write_pdu_ok (E:=PduError) command (pdu_idx s) w data enc n Hp ltac:(lia)
    (swf_pdu_idx s Hs)) as Hw. cbv zeta in Hw. fold p in Hw.
  apply bind_ok in Hw as ([pdu1 off] & Hw1 & Hw).
  apply bind_ok in Hw as ([pdu2 off2] & Hw2 & Hw). injection Hw as ->.
  destruct (pushed_pdu_ok s cf ps f command w data enc n Hs Hh Hp ltac:(lia)) as (Hpv & Hpl & Hps).
  fold p in Hpv, Hpl, Hps. split; [|split; [done|lia]].
  unfold push_bytes. rewrite (st_step _ _ _ _ _ (the_frame_ok s cf f Hf)).
  rewrite (st_step (in_storage next_pdu_idx) _ (s, cf) (pdu_idx s)
    (with_pdu_idx (wrap 8 (pdu_idx s + 1)) s, cf)) by done.
  set (s1 := with_pdu_idx _ s). assert (frames s1 !! inner cf = Some f) as Hf1 by exact Hf.
  assert (inner cf < num_frames s1)%nat as Hlt by eauto with wire.
  cbv beta zeta. change PDU_OVERHEAD_BYTES with 12%nat. rewrite (room_behind _ _ _ _ _ Hh Hfit). cbn [ok_or].
  rewrite (st_step (lift _) _ _ (zeros (n + 12)) (s1, cf)) by done.
  rewrite (st_step (lift _) _ _ (pdu1, off) (s1, cf)) by (unfold lift; by rewrite Hw1). cbv beta iota.
  rewrite (st_step (lift _) _ _ (pdu_bytes false p, off2) (s1, cf)) by (unfold lift; by rewrite Hw2).
  cbv beta iota. rewrite (st_step (set_pdu_buf_mut _) _ _ _ _ (update_the_frame_ok _ s1 cf f Hf1)).
  rewrite (ho_buf _ _ _ _ Hh) at 1. rewrite (ho_len _ _ _ _ Hh), splice_end by lia. rewrite Hpl.
  set (k := (length (pdu_buf f) - length (pdus_bytes ps) - (n + 12))%nat). set (f2 := set_pdu_buf _ f).
  rewrite (st_step _ _ _ _ _ (update_the_frame_ok (add_pdu _ _) _ cf f2 (with_frame_lookup (inner cf) f2 s1 Hlt))).
  rewrite with_frame_twice. set (f3 := add_pdu _ _ f2).
  rewrite (st_step (gets snd) _ _ cf (with_frame (inner cf) f3 s1, cf)) by done.
  pose proof (pdus_fit ps (length (pdus_bytes ps)) (ho_valid _ _ _ _ Hh)) as Hcount.
  rewrite (st_step (lift _) _ _ (Z.of_nat (length (ps ++ [p]))) (with_frame (inner cf) f3 s1, cf)).
  2: { unfold lift. rewrite (ho_count _ _ _ _ Hh), length_app. f_equal. cbn [length].
    replace (Z.of_nat (length ps + 1)) with (Z.of_nat (length ps) + 1) by lia.
    apply checked_ok. split; [lia|]. change (2 ^ 8) with 256. lia. }
  set (cf1 := mkCreatedFrame (inner cf) (Z.of_nat (length (ps ++ [p]))) (last_header_location cf)).
  rewrite (st_step (with_handle _) _ _ tt (with_frame (inner cf) f3 s1, cf1)) by done.
  pose proof (with_frame_lookup (inner cf) f3 s1 Hlt) as Hf3.
  rewrite (st_step _ _ _ _ _ (the_frame_ok _ cf1 f3 Hf3)), (ho_last _ _ _ _ Hh).
  assert (pdu_buf f3 = pdus_bytes ps ++ pdu_bytes false p ++ zeros k) as Hb3
    by (unfold f3, f2; rewrite pdu_buf_add; by apply pdu_buf_set).
  assert (pdu_payload_start <= length (ethernet_frame f3))%nat as Hpay3.
  { pose proof (length_pdu_buf f3) as Hl3. rewrite Hb3, !length_app, length_zeros, Hpl in Hl3.
    lia. }
  rewrite (st_step _ _ _ _ _ (link_last_ok s1 cf1 ps p f3 k Hlt Hpay3 (ho_valid _ _ _ _ Hh) Hb3)).
  assert (set_pdu_buf (pdus_bytes (ps ++ [p]) ++ zeros k) f3 = pushed_frame ps p f) as ->.
  { unfold f3, f2, pushed_frame. rewrite (pushed_frame_eq _ _ _ ps) by first
      [ exact Hpay | apply (ho_first _ _ _ _ Hh) | by apply (ho_valid _ _ _ _ Hh) ].
    rewrite (ho_len _ _ _ _ Hh), Hps. do 3 f_equal. unfold k. lia. }
  unfold cf1, k. rewrite (ho_count _ _ _ _ Hh), last_location_snoc.
  pose proof (ho_valid _ _ _ _ Hh) as Hv. by rewrite length_open_bytes, length_pdus_bytes by done.
Qed.

(** One that does not is refused; only the PDU counter has moved. *)
Lemma push_bytes_too_long {P : Profile} {T} s cf ps f command (w : WireWrite T) data n :
  holds s cf ps f -> (length (pdu_buf f) < length (pdus_bytes ps) + (n + 12))%nat ->
  push_bytes command w data n (s, cf) =
    (Err PE_TooLong, (with_pdu_idx (wrap 8 (pdu_idx s + 1)) s, cf)).
Proof.
  intros Hh Hfit. pose proof (ho_slot _ _ _ _ Hh) as Hf. unfold push_bytes.
  rewrite (st_step _ _ _ _ _ (the_frame_ok s cf f Hf)).
  rewrite (st_step (in_storage next_pdu_idx) _ (s, cf) (pdu_idx s)
    (with_pdu_idx (wrap 8 (pdu_idx s + 1)) s, cf)) by done.
  cbv beta zeta. apply st_step_err. unfold lift.
  rewrite (proj2 (get_range_None _ _ _)); [done|]. right. rewrite (ho_len _ _ _ _ Hh).
  change PDU_OVERHEAD_BYTES with 12%nat. lia.
Qed.

(** A freshly allocated frame holds no PDU. *)
Lemma holds_fresh s i index cf :
  storage_wf s -> (i < num_frames s)%nat -> inner cf = i -> pdu_count cf = 0 ->
  last_header_location cf = None ->
  holds (with_frame i (fresh_frame index (frame_data_len s)) s) cf []
    (fresh_frame index (frame_data_len s)).
Proof.
  intros Hs Hi <- Hc Hl. constructor; try done.
  - by apply with_frame_lookup.
  - cbn [pdus_bytes app length]. rewrite Nat.sub_0_r, pdu_buf_fresh, length_zeros by apply Hs. done.
Qed.

(** *** Handing the frame over *)

(** The frame on the wire: Ethernet header, EtherCAT header, PDUs. *)
Definition sent_bytes (ps : list Pdu) : bytes :=
  eth_header ++ le_bytes 2 (Z.of_nat (length (pdus_bytes ps)) + 4096) ++ pdus_bytes ps.

(** The slot after [mark_sendable]. *)
Definition sendable_frame (ps : list Pdu) (f : FrameElement) : FrameElement :=
  mkFrame (storage_slot_index f) FS_Sendable (waker f) (pdu_payload_len f) (first_pdu f)
    (eth_header ++ le_bytes 2 (Z.of_nat (length (pdus_bytes ps)) + 4096) ++ pdu_buf f).

Lemma mark_sendable_ok {P : Profile} {E} s cf ps f timeout retries :
  storage_wf s -> (frame_data_len s <= MAX_DATA)%nat -> holds s cf ps f ->
  mark_sendable (E:=E) cf timeout retries s =
    (Ok (mkFut (Some (inner cf)) timeout retries),
     with_frame (inner cf) (sendable_frame ps f) s).
Proof.
  intros Hs Hmax Hh. pose proof (ho_slot _ _ _ _ Hh) as Hf.
  pose proof (frame_ok_lookup _ _ _ Hs Hf) as [Hdata Hfit].
  pose proof (ho_len _ _ _ _ Hh) as Hlen. unfold MAX_DATA, pdu_payload_start, ETHERNET_HEADER_LEN in *.
  set (n := length (pdus_bytes ps)) in *.
  unfold mark_sendable. rewrite (st_step _ _ _ _ _ (frame_at_index_ok _ _ _ Hf)).
  set (h := mkEthercatFrameHeader (Z.of_nat n) DlPdu).
  rewrite (st_step (lift _) _ s h s).
  2: { unfold lift, EthercatFrameHeader_pdu. rewrite Hlen, wrap_small.
    2: { split; [lia|]. change (2 ^ 16) with 65536. lia. }
    rewrite (proj2 (Z.leb_le (Z.of_nat n) LEN_MASK)) by (unfold LEN_MASK; lia).
    rewrite andb_false_r. change LEN_MASK with (Z.ones 11).
    rewrite Z.land_ones, Z.mod_small; [done| |lia]. change (2 ^ 11) with 2048. lia. }
  assert (EthercatFrameHeader_valid h) as Hv.
  { split; cbn; [lia|]. change (2 ^ 11) with 2048. lia. }
  assert (length (ecat_frame_header f) = 2%nat) as He.
  { unfold ecat_frame_header. rewrite length_take, length_drop. unfold ETHERNET_HEADER_LEN. lia. }
  rewrite (st_step (lift _) _ s (le_bytes 2 (Z.of_nat n + 4096)) s).
  2: { unfold lift. pose proof (pack_encoding (RoundTrip:=EthercatFrameHeader_roundtrip) h
      (ecat_frame_header f) Hv) as Hp. rewrite He in Hp. rewrite Hp by (cbn; lia).
    change (encoding h) with (le_bytes 2 (Z.of_nat n + 4096)).
    rewrite splice_all; [done|]. by rewrite length_le_bytes, He. }
  rewrite (st_step _ _ _ _ _ (update_frame_ok _ _ _ _ Hf)).
  set (f2 := set_frame_bytes _ f).
  pose proof (with_frame_lookup (inner cf) f2 s (lookup_slot _ _ _ Hf)) as Hf2.
  rewrite (st_step _ _ _ _ _ (update_frame_ok _ _ _ _ Hf2)), with_frame_twice.
  set (f3 := set_state _ f2).
  pose proof (with_frame_lookup (inner cf) f3 s (lookup_slot _ _ _ Hf)) as Hf3.
  unfold drop_created. rewrite (st_step _ _ _ _ _ (update_frame_ok _ _ _ _ Hf3)), with_frame_twice.
  assert (f3 = sendable_frame ps f) as <-; [|done].
  unfold f3, f2, sendable_frame, set_state, set_frame_bytes, splice.
  cbn [storage_slot_index status waker pdu_payload_len first_pdu ethernet_frame].
  rewrite length_le_bytes, (ho_eth _ _ _ _ Hh). done.
Qed.

Lemma as_bytes_sendable s cf ps f :
  storage_wf s -> holds s cf ps f ->
  get_range (ethernet_frame (sendable_frame ps f)) 0 (buffer_len (2 + pdu_payload_len (sendable_frame ps f)))
    = Some (sent_bytes ps).
Proof.
  intros Hs Hh. pose proof (frame_ok_lookup _ _ _ Hs (ho_slot _ _ _ _ Hh)) as [Hdata Hfit].
  unfold buffer_len, ETHERNET_HEADER_LEN. cbn [pdu_payload_len sendable_frame ethernet_frame].
  rewrite (ho_len _ _ _ _ Hh) in *. unfold pdu_payload_start, ETHERNET_HEADER_LEN in *.
  rewrite (ho_buf _ _ _ _ Hh). unfold sent_bytes.
  set (e := eth_header ++ le_bytes 2 (Z.of_nat (length (pdus_bytes ps)) + 4096)).
  assert (length e = 16%nat) as He by done.
  rewrite !(app_assoc eth_header). fold e.
  rewrite get_range_0 by (rewrite !length_app; lia).
  rewrite app_assoc, take_app_le by (rewrite !length_app; lia).
  rewrite take_ge by (rewrite !length_app; lia). done.
Qed.
