(* ===== verification/TxRx.v ===== *)
(** * Sending and receiving frames

    [frame_element/sendable_frame.rs], [receiving_frame.rs],
    [received_frame.rs], [pdu_loop/pdu_tx.rs], [pdu_loop/pdu_rx.rs],
    [pdu_loop/mod.rs] and [MainDevice::single_pdu].  A frame handle of any
    typestate is the index of its slot.  The network, the timers and the
    scheduling of the tasks are arguments. *)
From S2P Require Import Prelude Wire Derive DeriveEnum Errors PduTypes PduChain Frame CreatedFrame.

(** ** Definitions *)

(** *** [PduTx] and [SendableFrame] *)

(** The state of the slot changes only when the exchange succeeds. *)
Definition claim_sending {E} (i : nat) : St PduStorage E (option nat) :=
  f ← frame_at_index i;
  match elem_claim_sending f with
  | Some f => _ ← modify (with_frame i f); mret (Some i)
  | None => mret None
  end.

Fixpoint next_sendable_loop {E} (idxs : list nat) : St PduStorage E (option nat) :=
  match idxs with
  | [] => mret None
  | idx :: idxs =>
      exit ← gets exit_flag;
      if (exit : bool) then mret None else
      sending ← claim_sending idx;
      match sending with
      | Some i => mret (Some i)
      | None => next_sendable_loop idxs
      end
  end.

Definition next_sendable_frame {E} : St PduStorage E (option nat) :=
  n ← gets num_frames;
  next_sendable_loop (seq 0 n).

Definition mark_sent {E} (i : nat) : St PduStorage E unit := update_frame i (set_state FS_Sent).
Definition release_sending_claim {E} (i : nat) : St PduStorage E unit :=
  update_frame i (set_state FS_Sendable).

(** The bytes on the wire: headers and pushed PDUs; slicing panics if they do not fit. *)
Definition as_bytes {E} (f : FrameElement) : res E bytes :=
  unwrap (get_range (ethernet_frame f) 0 (buffer_len (2 + pdu_payload_len f))).

Definition send_blocking (i : nat) (send : bytes -> res Error nat) : St PduStorage Error nat :=
  f ← frame_at_index i;
  b ← lift (as_bytes f);
  match send b with
  | Ok bytes_sent =>
      if Nat.eqb bytes_sent (length b) then _ ← mark_sent i; mret bytes_sent
      else _ ← release_sending_claim i; fail (E_PartialSend (length b) bytes_sent)
  | Err e => _ ← release_sending_claim i; fail e
  | Panic => lift Panic
  end.

(** *** [PduRx] and [ReceivingFrame] *)

Inductive ReceiveAction := Ignored | Processed.

Definition claim_receiving {E} (i : nat) : St PduStorage E (option nat) :=
  n ← gets num_frames;
  if Nat.leb n i then mret None else
  f ← frame_at_index i;
  match elem_claim_receiving f with
  | Some f => _ ← modify (with_frame i f); mret (Some i)
  | None => mret None
  end.

(** Exchange the state, then take and wake the waker. *)
Definition mark_received (i : nat) : St PduStorage PduError unit :=
  f ← frame_at_index i;
  f ← lift (map_err (fun _ => PE_InvalidFrameState) (swap_state FS_RxBusy FS_RxDone f));
  modify (with_frame i (set_waker false f)).

Definition receive_frame (source_mac buffer : bytes) : St PduStorage Error ReceiveAction :=
  exit ← gets exit_flag;
  if (exit : bool) then mret Ignored else
  raw_packet ← lift (new_checked buffer);
  src ← (if Z.eqb (ethertype raw_packet) ETHERCAT_ETHERTYPE
         then lift (src_addr raw_packet) else mret source_mac);
  if bool_decide (src = source_mac) then mret Ignored else
  i ← lift (eth_payload raw_packet);
  frame_header ← lift (from_wire (unpack_from_slice EthercatFrameHeader_read i));
  if Z.eqb (efh_payload_len frame_header) 0 then mret Ignored else
  i ← lift (ok_or (get_range i 2 (2 + Z.to_nat (efh_payload_len frame_header))) E_ReceiveFrame);
  pdu_idx ← lift (ok_or (i !! 1%nat) E_Internal);
  index ← gets (frame_index_by_first_pdu_index pdu_idx);
  frame_index ← lift (ok_or index (E_Pdu PE_Decode));
  claimed ← claim_receiving frame_index;
  frame ← lift (ok_or claimed (E_Pdu (PE_InvalidIndex (Z.of_nat frame_index))));
  f ← frame_at_index frame;
  _ ← lift (ok_or (get_range (pdu_buf f) 0 (length i)) E_Internal);
  _ ← update_frame frame (set_pdu_buf (splice (pdu_buf f) 0 i));
  _ ← st_map_err E_Pdu (mark_received frame);
  mret Processed.

(** *** [ReceiveFrameFut] *)

Inductive Poll (A : Type) := Ready (a : A) | Pending.
Arguments Ready {A} a.
Arguments Pending {A}.

(** [release]: the state only. *)
Definition release_frame {E} (i : nat) : St PduStorage E unit := update_frame i (set_state FS_None).

Definition wake_sender {E} : St PduStorage E unit := modify (with_tx_woken true).

(** One poll.  [timed_out] is what polling the timer says.  The frame is taken
    out of the future and put back when the poll is pending. *)
Definition fut_poll (timed_out : bool) (fut : ReceiveFrameFut)
    : St PduStorage Error (ReceiveFrameFut * Poll (res Error nat)) :=
  match fut_frame fut with
  | None => mret (fut, Ready (Err (E_Pdu PE_InvalidFrameState)))
  | Some rxin =>
      let taken := mkFut None (fut_timeout fut) (fut_retries_left fut) in
      _ ← update_frame rxin (set_waker true);
      f ← frame_at_index rxin;
      match swap_state FS_RxDone FS_RxProcessing f with
      | Ok f => _ ← modify (with_frame rxin f); mret (taken, Ready (Ok rxin))
      | Panic => lift Panic
      | Err was =>
          let finish (fut : ReceiveFrameFut) : St PduStorage Error
              (ReceiveFrameFut * Poll (res Error nat)) :=
            match was with
            | FS_Sendable | FS_Sending | FS_Sent | FS_RxBusy =>
                mret (mkFut (Some rxin) (fut_timeout fut) (fut_retries_left fut), Pending)
            | _ => mret (fut, Ready (Err (E_Pdu PE_InvalidFrameState)))
            end in
          if timed_out then
            match fut_retries_left fut with
            | O =>
                _ ← release_frame rxin;
                e ← lift (from_timeout_kind (fut_timeout fut));
                mret (taken, Ready (Err (E_Timeout e)))
            | S retries_left =>
                _ ← update_frame rxin (set_state FS_Sendable);
                _ ← wake_sender;
                finish (mkFut None (fut_timeout fut) retries_left)
            end
          else finish taken
      end
  end.

(** Dropping a future that still holds its frame releases it. *)
Definition drop_fut {E} (fut : ReceiveFrameFut) : St PduStorage E unit :=
  match fut_frame fut with Some r => release_frame r | None => mret tt end.

(** *** [ReceivedFrame] *)

(** A pointer into the frame memory: the slot, the offset in it, the length. *)
Record ReceivedPdu := mkReceivedPdu {
  rp_slot : nat;
  rp_start : nat;
  rp_len : nat;
  working_counter : Z;
}.

(** [Deref]: the bytes the pointer designates now. *)
Definition deref (s : PduStorage) (p : ReceivedPdu) : bytes :=
  match frames s !! rp_slot p with
  | Some f => take (rp_len p) (drop (rp_start p) (ethernet_frame f))
  | None => []
  end.

Definition trim_front (ct : nat) (p : ReceivedPdu) : ReceivedPdu :=
  let ct := Nat.min ct (rp_len p) in
  mkReceivedPdu (rp_slot p) (rp_start p + ct) (rp_len p) (working_counter p).

Definition wkc (expected : Z) (p : ReceivedPdu) : res Error ReceivedPdu :=
  if Z.eqb (working_counter p) expected then Ok p
  else Err (E_WorkingCounter expected (working_counter p)).

Definition maybe_wkc (expected : option Z) (p : ReceivedPdu) : res Error ReceivedPdu :=
  match expected with Some expected => wkc expected p | None => Ok p end.

Definition header_len : nat := PACKED_LEN PduHeader_read.

(** The checks shared by [first_pdu] and [pdu] on the PDU at the start of [buf],
    which begins at [pos] of slot [i]. *)
Definition pdu_at (i pos : nat) (h : PduHeader) (buf : bytes) : res Error ReceivedPdu :=
  let payload_len := Z.to_nat (pf_length (ph_flags h)) in
  _ ← ok_or (get_from buf header_len) E_Internal;
  wkc_buf ← ok_or (get_from buf (header_len + payload_len)) E_Internal;
  working_counter ← from_wire (unpack_from_slice u16_read wkc_buf);
  mret (mkReceivedPdu i (pos + header_len) payload_len working_counter).

(** [if buf.len() < payload_len + 2 { return Err(TooLong) }] *)
Definition check_pdu_len (h : PduHeader) (buf : bytes) : res Error unit :=
  if Nat.ltb (length buf) (Z.to_nat (pf_length (ph_flags h)) + 2)
  then Err (E_Pdu PE_TooLong) else Ok tt.

Definition check_handle (handle : PduResponseHandle) (h : PduHeader) : res Error unit :=
  if negb (Z.eqb (ph_command_code h) (h_command_code handle)) then Err (E_Pdu PE_Decode)
  else if negb (Z.eqb (ph_index h) (h_pdu_idx handle)) then Err (E_Pdu (PE_InvalidIndex (ph_index h)))
  else Ok tt.

(** [Drop for ReceivedFrame]: panics unless the frame is in [RxProcessing]. *)
Definition drop_received {E} (i : nat) : St PduStorage E unit :=
  f ← frame_at_index i;
  f ← lift (match swap_state FS_RxProcessing FS_None f with Ok f => Ok f | _ => Panic end);
  modify (with_frame i (clear_first_pdu f)).

(** [first_pdu] consumes the frame, which is dropped before the result is used. *)
Definition first_pdu_res (i : nat) (handle : PduResponseHandle) (f : FrameElement)
    : res Error ReceivedPdu :=
  let buf := pdu_buf f in
  h ← from_wire (unpack_from_slice PduHeader_read buf);
  _ ← check_pdu_len h buf;
  _ ← check_handle handle h;
  pdu_at i pdu_payload_start h buf.

Definition ReceivedFrame_first_pdu (i : nat) (handle : PduResponseHandle) : St PduStorage Error ReceivedPdu :=
  f ← frame_at_index i;
  let r := first_pdu_res i handle f in
  _ ← drop_received i;
  lift r.

(** [pdu]: skip [n] PDUs, then look at the next one. *)
Fixpoint skip_pdus (n : nat) (pos : nat) (buf : bytes) : res Error (nat * bytes) :=
  match n with
  | O => Ok (pos, buf)
  | S n =>
      h ← from_wire (unpack_from_slice PduHeader_read buf);
      let this_pdu_len := (header_len + Z.to_nat (pf_length (ph_flags h)) + 2)%nat in
      buf ← ok_or (get_from buf this_pdu_len) E_Internal;
      skip_pdus n (pos + this_pdu_len) buf
  end.

Definition ReceivedFrame_pdu (i : nat) (handle : PduResponseHandle) (f : FrameElement) : res Error ReceivedPdu :=
  '(pos, buf) ← skip_pdus (Z.to_nat (h_index_in_frame handle)) pdu_payload_start (pdu_buf f);
  h ← from_wire (unpack_from_slice PduHeader_read buf);
  _ ← check_handle handle h;
  _ ← check_pdu_len h buf;
  pdu_at i pos h buf.

(** *** [ReceivedPduIter]: [None] for the position stands for [usize::MAX] *)

Definition iter_next (i : nat) (f : FrameElement) (buf_pos : option nat)
    : option (res Error ReceivedPdu) * option nat :=
  if Nat.eqb (pdu_payload_len f) 0 then (None, buf_pos) else
  match buf_pos with
  | None => (None, None)
  | Some pos =>
      match get_from (pdu_buf f) pos with
      | None => (None, buf_pos)
      | Some buf =>
          match from_wire (unpack_from_slice PduHeader_read buf) with
          | Ok h =>
              match check_pdu_len h buf with
              | Ok _ =>
                  match get_from buf header_len with
                  | None => (None, buf_pos)
                  | Some _ =>
                      match pdu_at i (pdu_payload_start + pos) h buf with
                      | Ok p =>
                          (Some (Ok p),
                           if pf_more_follows (ph_flags h)
                           then Some (pos + (header_len + Z.to_nat (pf_length (ph_flags h)) + 2))%nat
                           else None)
                      | r => (Some r, buf_pos)
                      end
                  end
              | Err e => (Some (Err e), buf_pos)
              | Panic => (Some Panic, buf_pos)
              end
          | Err e => (Some (Err e), buf_pos)
          | Panic => (Some Panic, buf_pos)
          end
      end
  end.

(** The items of [into_pdu_iter()], at most [fuel] of them. *)
Fixpoint pdu_iter (fuel : nat) (i : nat) (f : FrameElement) (buf_pos : option nat)
    : list (res Error ReceivedPdu) :=
  match fuel with
  | O => []
  | S fuel =>
      match iter_next i f buf_pos with
      | (None, _) => []
      | (Some r, buf_pos) => r :: pdu_iter fuel i f buf_pos
      end
  end.

(** *** [PduLoop] and [MainDevice::single_pdu] *)

Definition reset_all (s : PduStorage) : PduStorage :=
  reset (with_tx_woken true (with_exit_flag true s)).

(** [PduTx::release], [PduRx::release]. *)
Definition release_tx_rx (s : PduStorage) : PduStorage := with_exit_flag false s.

(** The state of [self] after the CreatedFrame is gone. *)
Definition run_push {A} (cf : CreatedFrame) (m : Push A) : St PduStorage PduError (A * CreatedFrame) :=
  fun s => let '(r, (s, cf)) := m (s, cf) in ((fun a => (a, cf)) <$> r, s).

(** A push into [frame]; when it fails the frame is dropped. *)
Definition push_or_drop {A} (frame : CreatedFrame) (m : Push A) : St PduStorage Error (A * CreatedFrame) :=
  fun s => match run_push frame m s with
    | (Ok r, s) => (Ok r, s)
    | (Err e, s) => let '(_, s) := drop_created (E:=Error) frame s in (Err (E_Pdu e), s)
    | (Panic, s) => (Panic, s)
    end.

(** Everything [single_pdu] does before it awaits the response. *)
Definition single_pdu_send {P : Profile} {T} (command : Command) (w : WireWrite T) (data : T)
    (len_override : option Z) (timeout : TimeoutKind) (retries : nat)
    : St PduStorage Error (ReceiveFrameFut * PduResponseHandle) :=
  frame ← alloc_frame;
  '(handle, frame) ← push_or_drop frame (push_pdu command w data len_override);
  fut ← mark_sendable frame timeout retries;
  _ ← wake_sender;
  mret (fut, handle).

(** [pdu_broadcast_zeros] up to the await. *)
Definition pdu_broadcast_zeros_send {P : Profile} (register payload_length : Z)
    (timeout : TimeoutKind) (retries : nat) : St PduStorage Error (ReceiveFrameFut * PduResponseHandle) :=
  single_pdu_send (Write (ww_command (bwr register))) unit_write tt (Some payload_length)
    timeout retries.

(** ** Lemmas *)

(** *** Sending *)

Lemma claim_sending_ok {E} i s f :
  frames s !! i = Some f ->
  claim_sending (E:=E) i s =
    if decide (status f = FS_Sendable) then (Ok (Some i), with_frame i (set_state FS_Sending f) s)
    else (Ok None, s).
Proof.
  intros Hf. unfold claim_sending. rewrite (st_step _ _ _ _ _ (frame_at_index_ok _ _ _ Hf)).
  unfold elem_claim_sending, swap_state. by case_decide.
Qed.

(** The slots are tried in order. *)
Lemma next_sendable_loop_spec {E} s n idxs :
  exit_flag s = false -> idxs = seq n (length idxs) -> (n + length idxs = num_frames s)%nat ->
  next_sendable_loop (E:=E) idxs s =
    match list_find (fun f => status f = FS_Sendable) (drop n (frames s)) with
    | Some (k, f) => (Ok (Some (n + k)%nat), with_frame (n + k) (set_state FS_Sending f) s)
    | None => (Ok None, s)
    end.
Proof.
  intros Hx. revert n. induction idxs as [|i idxs IH]; intros n Hseq Hn; cbn [length] in *.
  { rewrite drop_ge by (unfold num_frames in Hn; lia). done. }
  cbn [seq] in Hseq. injection Hseq as -> Hseq.
  destruct (lookup_lt_is_Some_2 (frames s) n) as [f Hf]; [unfold num_frames in Hn; lia|].
  rewrite (drop_S _ _ _ Hf). cbn [list_find next_sendable_loop].
  rewrite (st_step (gets exit_flag) _ s false s) by (unfold gets; by rewrite Hx). cbv beta iota.
  pose proof (claim_sending_ok (E:=E) n s f Hf) as Hc. destruct (decide (status f = FS_Sendable)).
  - rewrite (st_step _ _ _ _ _ Hc). cbn. by rewrite Nat.add_0_r.
  - rewrite (st_step _ _ _ _ _ Hc). rewrite (IH (S n)); [|by rewrite <- Hseq|lia].
    destruct (list_find _ _) as [[k g]|]; cbn; [|done].
    by replace (n + S k)%nat with (S (n + k)) by lia.
Qed.

Lemma send_blocking_spec i s f b send :
  frames s !! i = Some f -> as_bytes (E:=Error) f = Ok b ->
  send_blocking i send s =
    match send b with
    | Ok n =>
        if Nat.eqb n (length b) then (Ok n, with_frame i (set_state FS_Sent f) s)
        else (Err (E_PartialSend (length b) n), with_frame i (set_state FS_Sendable f) s)
    | Err e => (Err e, with_frame i (set_state FS_Sendable f) s)
    | Panic => (Panic, s)
    end.
Proof.
  intros Hf Hb. unfold send_blocking. rewrite (st_step _ _ _ _ _ (frame_at_index_ok _ _ _ Hf)).
  rewrite (st_step (lift _) _ s b s) by (unfold lift; by rewrite Hb).
  destruct (send b) as [n|e|]; [destruct (Nat.eqb n (length b))| |done];
    unfold mark_sent, release_sending_claim;
    by rewrite (st_step _ _ _ _ _ (update_frame_ok _ _ _ _ Hf)).
Qed.

(** *** Reading the PDUs of a response *)

(** What the reader makes of the PDU [p] whose header is at [pos] of slot [i]. *)
Definition pdu_ref (i pos : nat) (p : Pdu) : ReceivedPdu :=
  mkReceivedPdu i (pos + header_len) (length (p_data p)) (p_wkc p).

Lemma read_pdu i pos more p t :
  pdu_valid p ->
  unpack_from_slice PduHeader_read (pdu_bytes more p ++ t) = Ok (pdu_header more p) /\
  check_pdu_len (pdu_header more p) (pdu_bytes more p ++ t) = Ok tt /\
  get_from (pdu_bytes more p ++ t) header_len <> None /\
  pdu_at i pos (pdu_header more p) (pdu_bytes more p ++ t) = Ok (pdu_ref i pos p).
Proof.
  intros Hp. pose proof (pdu_header_valid more p Hp) as Hh.
  assert (length (pdu_bytes more p) = pdu_len p) as Hl by by apply length_pdu_bytes, Hp.
  unfold pdu_len in Hl.
  assert (header_len = 10%nat) as H10 by reflexivity.
  split_and!.
  - unfold pdu_bytes. rewrite <- app_assoc. by apply unpack_header.
  - unfold check_pdu_len. cbn [pdu_header ph_flags pf_length]. rewrite Nat2Z.id.
    destruct (Nat.ltb _ _) eqn:E; [|done]. apply Nat.ltb_lt in E. rewrite length_app in E. lia.
  - rewrite H10. unfold get_from. rewrite (proj2 (Nat.leb_le _ _)); [done|]. rewrite length_app. lia.
  - unfold pdu_at. cbn [pdu_header ph_flags pf_length]. rewrite Nat2Z.id, H10.
    unfold get_from. rewrite !(proj2 (Nat.leb_le _ _)) by (rewrite length_app; lia).
    cbn [ok_or]. msimpl. unfold pdu_bytes.
    assert (length (header_bytes (pdu_header more p)) = 10%nat) as Hhl.
    { apply length_header_bytes. apply (pv_raw p Hp). }
    rewrite <- !app_assoc, drop_app_ge by lia. rewrite Hhl.
    replace (10 + length (p_data p) - 10)%nat with (length (p_data p)) by lia.
    rewrite drop_app_length, unpack_u16 by apply Hp. cbn. done.
Qed.

Lemma first_pdu_res_ok i handle f p ps rest :
  pdu_valid p -> pdu_buf f = pdus_bytes (p :: ps) ++ rest ->
  h_command_code handle = p_code p -> h_pdu_idx handle = p_index p ->
  first_pdu_res i handle f = Ok (pdu_ref i pdu_payload_start p).
Proof.
  intros Hp Hb Hc Hi. cbn [pdus_bytes] in Hb. rewrite <- app_assoc in Hb.
  set (more := negb _) in Hb.
  destruct (read_pdu i pdu_payload_start more p (pdus_bytes ps ++ rest) Hp) as (H1 & H2 & _ & H4).
  unfold first_pdu_res. rewrite Hb, H1. cbn [from_wire map_err]. msimpl. rewrite H2. msimpl.
  unfold check_handle. cbn [pdu_header ph_command_code ph_index]. rewrite Hc, Hi, !Z.eqb_refl.
  cbn [negb]. msimpl. exact H4.
Qed.

(** The references to the PDUs of a chain. *)
Fixpoint pdu_refs (i pos : nat) (ps : list Pdu) : list ReceivedPdu :=
  match ps with
  | [] => []
  | p :: ps => pdu_ref i (pdu_payload_start + pos) p :: pdu_refs i (pos + pdu_len p) ps
  end.

Lemma iter_next_ok i f before p ps rest :
  pdu_payload_len f <> 0%nat -> pdu_valid p ->
  pdu_buf f = before ++ pdus_bytes (p :: ps) ++ rest ->
  iter_next i f (Some (length before)) =
    (Some (Ok (pdu_ref i (pdu_payload_start + length before) p)),
     match ps with [] => None | _ => Some (length before + pdu_len p)%nat end).
Proof.
  intros Hl Hp Hb. unfold iter_next. rewrite (proj2 (Nat.eqb_neq _ _) Hl).
  unfold get_from at 1. rewrite Hb, (proj2 (Nat.leb_le _ _)) by (rewrite length_app; lia).
  rewrite drop_app_length. cbn [pdus_bytes]. rewrite <- app_assoc. set (more := negb _).
  destruct (read_pdu i (pdu_payload_start + length before) more p (pdus_bytes ps ++ rest) Hp)
    as (H1 & H2 & H3 & H4).
  rewrite H1. cbn [from_wire map_err]. rewrite H2. destruct (get_from _ header_len); [|done].
  rewrite H4. cbn [pdu_header ph_flags pf_more_follows pf_length]. rewrite Nat2Z.id.
  f_equal. unfold more. destruct ps as [|q ps]; [done|]. cbn [length Nat.eqb negb].
  f_equal. unfold pdu_len. change header_len with 10%nat. lia.
Qed.

(** The iterator visits exactly the PDUs of the chain. *)
Lemma pdu_iter_ok i f ps rest : forall fuel before,
  pdu_payload_len f <> 0%nat -> Forall pdu_valid ps -> (0 < length ps)%nat ->
  (length ps < fuel)%nat -> pdu_buf f = before ++ pdus_bytes ps ++ rest ->
  pdu_iter fuel i f (Some (length before)) = Ok <$> pdu_refs i (length before) ps.
Proof.
  induction ps as [|p ps IH]; intros [|fuel] before Hl Hv Hn Hf Hb; cbn [length] in *; [lia..|].
  apply Forall_cons in Hv as [Hp Hv]. cbn [pdu_iter pdu_refs].
  rewrite (iter_next_ok i f before p ps rest Hl Hp Hb). rewrite fmap_cons. f_equal.
  destruct ps as [|q ps].
  - destruct fuel as [|fuel]; [done|]. cbn [pdu_iter]. unfold iter_next.
    by rewrite (proj2 (Nat.eqb_neq _ _) Hl).
  - assert (length (before ++ pdu_bytes true p) = (length before + pdu_len p)%nat) as Hlen.
    { rewrite length_app, length_pdu_bytes; [done|]. apply (pv_raw p Hp). }
    rewrite <- Hlen. apply IH; [done..|cbn; lia|lia|].
    rewrite Hb, <- app_assoc. cbn [pdus_bytes length Nat.eqb negb]. by rewrite <- app_assoc.
Qed.

Lemma length_pdu_refs i pos ps : length (pdu_refs i pos ps) = length ps.
Proof. revert pos. induction ps; intros; cbn; auto. Qed.

(** A reference designates the data of its PDU as long as the slot is unchanged. *)
Lemma deref_ref s i f more p before t :
  frames s !! i = Some f -> pdu_valid p -> (pdu_payload_start <= length (ethernet_frame f))%nat ->
  pdu_buf f = before ++ pdu_bytes more p ++ t ->
  deref s (pdu_ref i (pdu_payload_start + length before) p) = p_data p.
Proof.
  intros Hf Hp Hl Hb. unfold deref. cbn [pdu_ref rp_slot rp_start rp_len]. rewrite Hf.
  rewrite <- (take_drop pdu_payload_start (ethernet_frame f)). fold (pdu_buf f). rewrite Hb.
  assert (length (header_bytes (pdu_header more p)) = header_len) as Hh.
  { apply length_header_bytes. apply (pv_raw p Hp). }
  rewrite drop_app_ge by (rewrite length_take; lia). rewrite length_take, Nat.min_l by done.
  replace (pdu_payload_start + length before + header_len - pdu_payload_start)%nat
    with (length before + header_len)%nat by lia.
  rewrite <- drop_drop, drop_app_length. unfold pdu_bytes. rewrite <- Hh, <- !app_assoc, drop_app_length.
  by rewrite take_app_length.
Qed.

Lemma deref_refs s i f ps rest : forall before,
  frames s !! i = Some f -> Forall pdu_valid ps -> (pdu_payload_start <= length (ethernet_frame f))%nat ->
  pdu_buf f = before ++ pdus_bytes ps ++ rest ->
  deref s <$> pdu_refs i (length before) ps = p_data <$> ps.
Proof.
  induction ps as [|p ps IH]; intros before Hf Hv Hl Hb; [done|].
  apply Forall_cons in Hv as [Hp Hv]. cbn [pdu_refs pdus_bytes] in *. rewrite <- app_assoc in Hb.
  rewrite !fmap_cons. f_equal; [by eapply deref_ref|].
  erewrite <- (length_pdu_bytes _ p) by apply Hp. rewrite <- length_app.
  apply IH; [done..|]. by rewrite Hb, <- app_assoc.
Qed.

(** [pdu] with a handle finds the PDU of that index. *)
Lemma skip_pdus_ok ps rest : forall n pos,
  Forall pdu_valid ps -> (n < length ps)%nat ->
  skip_pdus n pos (pdus_bytes ps ++ rest) =
    Ok ((pos + length (pdus_bytes (take n ps)))%nat, pdus_bytes (drop n ps) ++ rest).
Proof.
  induction ps as [|p ps IH]; intros n pos Hv Hn; [cbn in Hn; lia|].
  destruct n as [|n]; cbn [skip_pdus].
  { rewrite take_0, drop_0. cbn [pdus_bytes length]. by rewrite Nat.add_0_r. }
  apply Forall_cons in Hv as [Hp Hv]. cbn [length] in Hn.
  destruct ps as [|q ps]; [cbn in Hn; lia|].
  change (pdus_bytes (p :: q :: ps)) with (pdu_bytes true p ++ pdus_bytes (q :: ps)).
  rewrite <- app_assoc.
  destruct (read_pdu 0 0 true p (pdus_bytes (q :: ps) ++ rest) Hp) as (-> & _).
  cbn [from_wire map_err]. msimpl. cbn [pdu_header ph_flags pf_length]. rewrite Nat2Z.id.
  assert (length (pdu_bytes true p) = header_len + length (p_data p) + 2)%nat as Hl.
  { rewrite length_pdu_bytes by apply Hp. unfold pdu_len. change header_len with 10%nat. lia. }
  rewrite <- Hl. unfold get_from. rewrite (proj2 (Nat.leb_le _ _)) by (rewrite length_app; lia).
  cbn [ok_or]. msimpl. rewrite drop_app_length, IH by (done || lia).
  cbn [take drop]. do 2 f_equal.
  rewrite (length_pdus_bytes (p :: _)), length_pdus_bytes; [|by apply Forall_take|].
  2: { apply Forall_cons. split; [done|]. by apply Forall_take. }
  rewrite length_pdu_bytes by apply Hp. rewrite fmap_cons. cbn. lia.
Qed.

Lemma pdu_ok i handle f ps rest n p :
  Forall pdu_valid ps -> ps !! n = Some p -> pdu_buf f = pdus_bytes ps ++ rest ->
  h_index_in_frame handle = Z.of_nat n -> h_command_code handle = p_code p ->
  h_pdu_idx handle = p_index p ->
  ReceivedFrame_pdu i handle f = Ok (pdu_ref i (pdu_payload_start + length (pdus_bytes (take n ps))) p).
Proof.
  intros Hv Hn Hb Hidx Hc Hi. pose proof (lookup_lt_Some _ _ _ Hn) as Hlt.
  unfold ReceivedFrame_pdu. rewrite Hb, Hidx, Nat2Z.id, skip_pdus_ok by done. msimpl.
  rewrite (drop_S _ _ _ Hn). cbn [pdus_bytes]. rewrite <- app_assoc. set (more := negb _).
  pose proof (Forall_lookup_1 _ _ _ _ Hv Hn) as Hp.
  destruct (read_pdu i (pdu_payload_start + length (pdus_bytes (take n ps))) more p
    (pdus_bytes (drop (S n) ps) ++ rest) Hp) as (-> & H2 & _ & H4).
  cbn [from_wire map_err]. msimpl. unfold check_handle.
  cbn [pdu_header ph_command_code ph_index]. rewrite Hc, Hi, !Z.eqb_refl. cbn [negb]. msimpl.
  rewrite H2. msimpl. exact H4.
Qed.

(** *** Receiving *)

(** A frame as the network returns it. *)
Definition response (dst src : bytes) (ps : list Pdu) (padding : bytes) : bytes :=
  dst ++ src ++ be_bytes 2 ETHERCAT_ETHERTYPE ++
  le_bytes 2 (Z.of_nat (length (pdus_bytes ps)) + 4096) ++ pdus_bytes ps ++ padding.

(** The slot of a response once it has been stored. *)
Definition received (data : bytes) (f : FrameElement) : FrameElement :=
  mkFrame (storage_slot_index f) FS_RxDone false (pdu_payload_len f) (first_pdu f)
    (take pdu_payload_start (ethernet_frame f) ++ splice (pdu_buf f) 0 data).

Lemma received_ok data i f :
  frame_ok data f -> (pdu_payload_start <= data)%nat -> (length i <= length (pdu_buf f))%nat ->
  frame_ok data (received i f).
Proof.
  intros [Hl Hp] Hd Hi. split; [|done]. unfold received. cbn [ethernet_frame].
  rewrite length_app, length_splice, length_take, length_pdu_buf by lia. lia.
Qed.

Lemma claim_receiving_ok {E} i s f :
  frames s !! i = Some f -> status f = FS_Sent ->
  claim_receiving (E:=E) i s = (Ok (Some i), with_frame i (set_state FS_RxBusy f) s).
Proof.
  intros Hf Hst. pose proof (lookup_slot _ _ _ Hf) as Hlt.
  unfold claim_receiving. rewrite (st_step (gets num_frames) _ s (num_frames s) s) by done.
  rewrite (proj2 (Nat.leb_gt _ _)) by done.
  rewrite (st_step _ _ _ _ _ (frame_at_index_ok _ _ _ Hf)).
  unfold elem_claim_receiving, swap_state. by rewrite decide_True.
Qed.

Lemma claim_receiving_refused {E} i s f :
  frames s !! i = Some f -> status f <> FS_Sent -> claim_receiving (E:=E) i s = (Ok None, s).
Proof.
  intros Hf Hst. pose proof (lookup_slot _ _ _ Hf) as Hlt.
  unfold claim_receiving. rewrite (st_step (gets num_frames) _ s (num_frames s) s) by done.
  rewrite (proj2 (Nat.leb_gt _ _)) by done.
  rewrite (st_step _ _ _ _ _ (frame_at_index_ok _ _ _ Hf)).
  unfold elem_claim_receiving, swap_state. by rewrite decide_False.
Qed.

(** What happens to the payload [i] of a frame once its PDU index is known. *)
Definition store_response (i : bytes) (pdu_idx : Z) : St PduStorage Error ReceiveAction :=
  index ← gets (frame_index_by_first_pdu_index pdu_idx);
  frame_index ← lift (ok_or index (E_Pdu PE_Decode));
  claimed ← claim_receiving frame_index;
  frame ← lift (ok_or claimed (E_Pdu (PE_InvalidIndex (Z.of_nat frame_index))));
  f ← frame_at_index frame;
  _ ← lift (ok_or (get_range (pdu_buf f) 0 (length i)) E_Internal);
  _ ← update_frame frame (set_pdu_buf (splice (pdu_buf f) 0 i));
  _ ← st_map_err E_Pdu (mark_received frame);
  mret Processed.

Lemma frame_index_found search s k :
  frame_index_by_first_pdu_index search s = Some k ->
  exists f, frames s !! k = Some f /\ first_pdu f = search /\
    forall j g, (j < k)%nat -> frames s !! j = Some g -> first_pdu g <> search.
Proof.
  unfold frame_index_by_first_pdu_index. rewrite find_first_pdu_spec.
  destruct (list_find _ _) as [[j f]|] eqn:Hl; cbn; [|done]. intros [= <-].
  apply list_find_Some in Hl as (? & ? & Hmin). exists f. split_and!; [done|done|].
  intros j' g Hj Hg. by apply (Hmin j' g).
Qed.

(** The payload goes to the first slot with that index, which must be waiting. *)
Lemma store_response_spec s i pdu_idx :
  storage_wf s ->
  match frame_index_by_first_pdu_index pdu_idx s with
  | None => store_response i pdu_idx s = (Err (E_Pdu PE_Decode), s)
  | Some k => exists f, frames s !! k = Some f /\ first_pdu f = pdu_idx /\
      store_response i pdu_idx s =
        if decide (status f = FS_Sent) then
          if Nat.leb (length i) (length (pdu_buf f))
          then (Ok Processed, with_frame k (received i f) s)
          else (Err E_Internal, with_frame k (set_state FS_RxBusy f) s)
        else (Err (E_Pdu (PE_InvalidIndex (Z.of_nat k))), s)
  end.
Proof.
  intros Hs. unfold store_response.
  destruct (frame_index_by_first_pdu_index pdu_idx s) as [k|] eqn:Hk.
  2: { rewrite (st_step (gets _) _ s None s) by (unfold gets; by rewrite Hk). done. }
  destruct (frame_index_found _ _ _ Hk) as (f & Hf & Hfirst & _). exists f. split_and!; [done|done|].
  rewrite (st_step (gets _) _ s (Some k) s) by (unfold gets; by rewrite Hk).
  rewrite (st_step (lift _) _ s k s) by done.
  case_decide as Hst.
  2: { rewrite (st_step _ _ _ _ _ (claim_receiving_refused k s f Hf Hst)). done. }
  rewrite (st_step _ _ _ _ _ (claim_receiving_ok k s f Hf Hst)).
  set (f1 := set_state FS_RxBusy f). set (s1 := with_frame k f1 s).
  rewrite (st_step (lift _) _ s1 k s1) by done.
  pose proof (with_frame_lookup k f1 s (lookup_slot _ _ _ Hf)) as Hf1.
  rewrite (st_step _ _ _ _ _ (frame_at_index_ok _ _ _ Hf1)).
  change (pdu_buf f1) with (pdu_buf f).
  destruct (Nat.leb (length i) (length (pdu_buf f))) eqn:Hl.
  2: { apply st_step_err. unfold lift, get_range. cbn [Nat.leb]. by rewrite Hl. }
  rewrite (st_step (lift _) _ s1 (take (length i) (pdu_buf f)) s1).
  2: { unfold lift. rewrite get_range_0; [done|]. by apply Nat.leb_le. }
  rewrite (st_step _ _ _ _ _ (update_frame_ok _ _ _ _ Hf1)). unfold s1. rewrite with_frame_twice.
  set (f2 := set_pdu_buf _ f1).
  pose proof (with_frame_lookup k f2 s (lookup_slot _ _ _ Hf)) as Hf2.
  rewrite (st_step (st_map_err _ _) _ _ tt (with_frame k (received i f) s)); [done|].
  unfold st_map_err, mark_received.
  rewrite (st_step _ _ _ _ _ (frame_at_index_ok _ _ _ Hf2)).
  unfold swap_state. rewrite decide_True by done. cbn [map_err].
  rewrite (st_step (lift _) _ _ (set_state FS_RxDone f2) (with_frame k f2 s)) by done.
  unfold modify. by rewrite with_frame_twice.
Qed.

(** A response from another station reaches [store_response] with its payload. *)
Lemma receive_frame_response s source_mac dst src p ps padding :
  exit_flag s = false -> length dst = 6%nat -> length src = 6%nat -> src <> source_mac ->
  pdu_valid p -> Forall pdu_valid ps -> (length (pdus_bytes (p :: ps)) < 2048)%nat ->
  receive_frame source_mac (response dst src (p :: ps) padding) s =
    store_response (pdus_bytes (p :: ps)) (p_index p) s.
Proof.
  intros Hx Hd Hsrc Hne Hp Hps Hlen. unfold receive_frame.
  rewrite (st_step (gets exit_flag) _ s false s) by (unfold gets; by rewrite Hx). cbv beta iota.
  set (body := le_bytes 2 (Z.of_nat (length (pdus_bytes (p :: ps))) + 4096) ++
    pdus_bytes (p :: ps) ++ padding).
  set (buf := response dst src (p :: ps) padding).
  assert (buf = dst ++ src ++ be_bytes 2 ETHERCAT_ETHERTYPE ++ body) as Hbuf by done.
  assert (14 <= length buf)%nat as Hbl.
  { rewrite Hbuf, !length_app, Hd, Hsrc. change (length (be_bytes 2 ETHERCAT_ETHERTYPE)) with 2%nat. lia. }
  rewrite (st_step (lift _) _ s buf s).
  2: { unfold lift, new_checked, check_len. unfold ETHERNET_HEADER_LEN.
    by rewrite (proj2 (Nat.ltb_ge _ _)) by done. }
  assert (ethertype buf = ETHERCAT_ETHERTYPE) as ->.
  { unfold ethertype. rewrite (proj2 (get_range_Some buf 12 14 (be_bytes 2 ETHERCAT_ETHERTYPE))).
    { reflexivity. }
    split; [lia|]. rewrite Hbuf, app_assoc, drop_app_ge by (rewrite length_app; lia).
    rewrite length_app, Hd, Hsrc. reflexivity. }
  rewrite Z.eqb_refl.
  assert (src_addr buf = Ok src) as Hsa.
  { unfold src_addr. rewrite (proj2 (get_range_Some buf 6 12 src)); [done|].
    split; [lia|]. rewrite Hbuf, drop_app_ge by lia. rewrite Hd, drop_0.
    by rewrite take_app_le, take_ge by lia. }
  rewrite (st_step (lift _) _ s src s) by (unfold lift; by rewrite Hsa).
  rewrite bool_decide_false by done.
  assert (eth_payload buf = Ok body) as Hpay.
  { unfold eth_payload, get_from. rewrite (proj2 (Nat.leb_le _ _)) by lia. cbn [unwrap].
    rewrite Hbuf, !app_assoc, drop_app_ge by (rewrite !length_app, Hd, Hsrc; cbn; lia).
    rewrite !length_app, Hd, Hsrc. cbn [length be_bytes]. rewrite drop_0. done. }
  rewrite (st_step (lift _) _ s body s) by (unfold lift; by rewrite Hpay).
  set (n := length (pdus_bytes (p :: ps))) in *.
  set (h := mkEthercatFrameHeader (Z.of_nat n) DlPdu).
  assert (EthercatFrameHeader_valid h) as Hv.
  { unfold EthercatFrameHeader_valid, in_u, h. cbn [efh_payload_len]. change (2 ^ 11) with 2048. lia. }
  rewrite (st_step (lift _) _ s h s).
  2: { unfold lift. pose proof (unpack_encoding (RoundTrip:=EthercatFrameHeader_roundtrip) h
      (pdus_bytes (p :: ps) ++ padding) Hv) as Hu. unfold body. 
    change (encoding h) with (le_bytes 2 (Z.of_nat n + 4096)) in Hu. by rewrite Hu. }
  cbn [efh_payload_len h].
  assert (12 <= n)%nat as Hn.
  { unfold n. rewrite length_pdus_bytes by (by constructor). rewrite fmap_cons. cbn. unfold pdu_len. lia. }
  rewrite (proj2 (Z.eqb_neq _ _)) by lia. rewrite Nat2Z.id.
  rewrite (st_step (lift _) _ s (pdus_bytes (p :: ps)) s).
  2: { unfold lift. f_equal. apply ok_or_ok. apply get_range_Some. split.
    - unfold body. rewrite !length_app, length_le_bytes. fold n. lia.
    - unfold body. rewrite drop_app_ge by (rewrite length_le_bytes; lia).
      rewrite length_le_bytes, Nat.sub_diag, drop_0.
      replace (2 + n - 2)%nat with n by lia. unfold n. by rewrite take_app_length. }
  rewrite (st_step (lift _) _ s (p_index p) s) by done. done.
Qed.

(** Whatever arrives, either nothing changes or a payload is stored. *)
Lemma receive_frame_cases source_mac b s :
  (exists r, receive_frame source_mac b s = (r, s) /\ (r = Ok Ignored \/ exists e, r = Err e)) \/
  exists i x, receive_frame source_mac b s = store_response i x s.
Proof.
  unfold receive_frame.
  rewrite (st_step (gets exit_flag) _ s (exit_flag s) s) by done.
  destruct (exit_flag s); [left; eexists; split; [done|by left]|].
  destruct (new_checked b) as [b'|e|] eqn:Hb.
  2: { left. exists (Err e). rewrite (st_step_err (lift _) _ s e s) by done. split; [done|right; eauto]. }
  2: { unfold new_checked, check_len in Hb. by destruct (Nat.ltb _ _). }
  assert (b' = b /\ (14 <= length b)%nat) as [-> Hl].
  { unfold new_checked, check_len, ETHERNET_HEADER_LEN in Hb.
    destruct (Nat.ltb (length b) 14) eqn:E; [done|]. injection Hb as ->. apply Nat.ltb_ge in E. done. }
  rewrite (st_step (lift _) _ s b s) by done.
  assert (exists src, (if Z.eqb (ethertype b) ETHERCAT_ETHERTYPE then lift (E:=Error) (src_addr b)
    else mret source_mac) s = (Ok src, s)) as [src Hsrc].
  { destruct (Z.eqb _ _); [|by eexists]. unfold src_addr, lift.
    rewrite (proj2 (get_range_Some b 6 12 (take 6 (drop 6 b)))) by (split; [lia|done]). by eexists. }
  rewrite (st_step _ _ _ _ _ Hsrc). case_bool_decide; [left; eexists; split; [done|by left]|].
  assert (eth_payload b = Ok (drop 14 b)) as Hp.
  { unfold eth_payload. by rewrite (proj2 (get_from_Some b 14 (drop 14 b))) by (split; [lia|done]). }
  rewrite (st_step (lift _) _ s (drop 14 b) s) by (unfold lift; by rewrite Hp).
  destruct (from_wire (unpack_from_slice EthercatFrameHeader_read (drop 14 b))) as [h|e|] eqn:Hh.
  2: { left. exists (Err e). rewrite (st_step_err (lift _) _ s e s) by done. split; [done|right; eauto]. }
  2: { exfalso. cbn in Hh. destruct (get_range _ 0 2) as [l|]; [|done]. cbn in Hh. msimpl.
    unfold ProtocolType_try_from, Enum.from_raw in Hh. destruct (find _ _); done. }
  rewrite (st_step (lift _) _ s h s) by done.
  destruct (Z.eqb _ 0); [left; eexists; split; [done|by left]|].
  destruct (get_range (drop 14 b) 2 _) as [i|] eqn:Hi.
  2: { left. eexists. rewrite (st_step_err (lift _) _ s E_ReceiveFrame s) by done.
    split; [done|right; eauto]. }
  rewrite (st_step (lift _) _ s i s) by done.
  destruct (i !! 1%nat) as [x|] eqn:Hx.
  2: { left. eexists. rewrite (st_step_err (lift _) _ s E_Internal s) by done.
    split; [done|right; eauto]. }
  rewrite (st_step (lift _) _ s x s) by done.
  right. by exists i, x.
Qed.

(** *** Polling *)

(** The states in which a response is still awaited. *)
Definition in_flight (st : FrameState) : bool :=
  match st with FS_Sendable | FS_Sending | FS_Sent | FS_RxBusy => true | _ => false end.

Lemma fut_poll_ready timed_out i k r s f :
  frames s !! i = Some f -> status f = FS_RxDone ->
  fut_poll timed_out (mkFut (Some i) k r) s =
    (Ok (mkFut None k r, Ready (Ok i)),
     with_frame i (set_state FS_RxProcessing (set_waker true f)) s).
Proof.
  intros Hf Hst. unfold fut_poll. cbn [fut_frame].
  rewrite (st_step _ _ _ _ _ (update_frame_ok _ _ _ _ Hf)).
  pose proof (with_frame_lookup i (set_waker true f) s (lookup_slot _ _ _ Hf)) as Hf1.
  rewrite (st_step _ _ _ _ _ (frame_at_index_ok _ _ _ Hf1)).
  unfold swap_state. rewrite decide_True by done.
  rewrite (st_step (modify _) _ _ tt (with_frame i (set_state FS_RxProcessing (set_waker true f)) s)).
  { done. }
  unfold modify. by rewrite with_frame_twice.
Qed.

Lemma fut_poll_waiting timed_out i k r s f :
  frames s !! i = Some f -> status f <> FS_RxDone ->
  fut_poll timed_out (mkFut (Some i) k r) s =
    let result (r : nat) : ReceiveFrameFut * Poll (res Error nat) :=
      if in_flight (status f) then (mkFut (Some i) k r, Pending)
      else (mkFut None k r, Ready (Err (E_Pdu PE_InvalidFrameState))) in
    if timed_out then
      match r with
      | O => ((fun e => (mkFut None k 0, Ready (Err (E_Timeout e)))) <$> from_timeout_kind k,
              with_frame i (set_state FS_None (set_waker true f)) s)
      | S r => (Ok (result r),
                with_tx_woken true (with_frame i (set_state FS_Sendable (set_waker true f)) s))
      end
    else (Ok (result r), with_frame i (set_waker true f) s).
Proof.
  intros Hf Hst. unfold fut_poll. cbn [fut_frame fut_timeout fut_retries_left].
  rewrite (st_step _ _ _ _ _ (update_frame_ok _ _ _ _ Hf)).
  pose proof (with_frame_lookup i (set_waker true f) s (lookup_slot _ _ _ Hf)) as Hf1.
  rewrite (st_step _ _ _ _ _ (frame_at_index_ok _ _ _ Hf1)).
  unfold swap_state. rewrite decide_False by done. cbn [status set_waker].
  destruct timed_out.
  - destruct r as [|r].
    + unfold release_frame. rewrite (st_step _ _ _ _ _ (update_frame_ok _ _ _ _ Hf1)), with_frame_twice.
      destruct k; done.
    + rewrite (st_step _ _ _ _ _ (update_frame_ok _ _ _ _ Hf1)), with_frame_twice.
      rewrite (st_step wake_sender _ _ tt (with_tx_woken true
        (with_frame i (set_state FS_Sendable (set_waker true f)) s))) by done.
      by destruct (status f).
  - by destruct (status f).
Qed.

Lemma drop_received_ok {E} i s f :
  frames s !! i = Some f -> status f = FS_RxProcessing ->
  drop_received (E:=E) i s = (Ok tt, with_frame i (clear_first_pdu (set_state FS_None f)) s).
Proof.
  intros Hf Hst. unfold drop_received. rewrite (st_step _ _ _ _ _ (frame_at_index_ok _ _ _ Hf)).
  unfold swap_state. rewrite decide_True by done.
  by rewrite (st_step (lift _) _ s (set_state FS_None f) s).
Qed.

Lemma first_pdu_ok i handle s f r :
  frames s !! i = Some f -> status f = FS_RxProcessing -> first_pdu_res i handle f = r ->
  ReceivedFrame_first_pdu i handle s = (r, with_frame i (clear_first_pdu (set_state FS_None f)) s).
Proof.
  intros Hf Hst Hr. unfold ReceivedFrame_first_pdu.
  rewrite (st_step _ _ _ _ _ (frame_at_index_ok _ _ _ Hf)).
  rewrite (st_step _ _ _ _ _ (drop_received_ok i s f Hf Hst)), Hr. done.
Qed.
