(* ===== verification/Samples.v ===== *)
(** * Concrete storages and answers

    The inputs at which the theorems about the PDU loop are instantiated. *)
From S2P Require Import Prelude Errors PduTypes PduChain Frame CreatedFrame TxRx.

(** ** Definitions *)

(** One slot with room for four bytes. *)
Definition small_storage : PduStorage :=
  mkStorage [zeroed_frame 32] 32 0 0 false false false.

Definition answer_mac : bytes := [0x12; 0x10; 0x10; 0x10; 0x10; 0x10].

(** A SubDevice that answers the read of a register with [data]. *)
Definition answer_pdu (command : Command) (data : bytes) : Pdu :=
  mkPdu (code command) 0 (Command_pack command) false 0 data 1.

(** The same slot once it is allocated. *)
Definition created_storage : PduStorage :=
  with_frame 0 (fresh_frame 0 32) (with_frame_idx (wrap 8 1) small_storage).
Definition created_frame : CreatedFrame := mkCreatedFrame 0 0 None.

(** A slot in state [st] that waits for or holds the response to PDU 0. *)
Definition slot_in (st : FrameState) (data : bytes) : FrameElement :=
  mkFrame 0 st false (12 + length data) 0
    (eth_header ++ le_bytes 2 (Z.of_nat (12 + length data) + 4096) ++
     pdus_bytes [answer_pdu (Read (Fprd 0x1000 0x130)) data] ++ zeros (4 - length data)).

Definition storage_in (st : FrameState) (data : bytes) : PduStorage :=
  mkStorage [slot_in st data] 32 0 1 false false false.

(** Two slots with the same index: the first was released, the second waits. *)
Definition stale_storage : PduStorage :=
  mkStorage [slot_in FS_None []; slot_in FS_Sent []] 32 0 1 false false false.

(** A response whose header announces more data than there is. *)
Definition truncated_frame : FrameElement :=
  mkFrame 0 FS_RxProcessing false 12 0 (zeros 22 ++ [0xff; 0x07] ++ zeros 8).

(** ** Lemmas *)

Lemma small_storage_wf : storage_wf small_storage.
Proof. apply (storage_new_wf 1 32). reflexivity. Qed.

Lemma answer_pdu_valid command data :
  bytes_ok data -> (length data < 2048)%nat -> pdu_valid (answer_pdu command data).
Proof.
  intros Hd Hl. constructor; cbn; try done.
  - apply code_u8.
  - split; [apply length_Command_pack|apply Command_pack_ok].
  - split; [lia|]. change (2 ^ 11) with 2048. lia.
Qed.

Lemma created_storage_wf : storage_wf created_storage.
Proof.
  apply with_frame_wf; [apply with_frame_idx_wf, small_storage_wf|].
  apply fresh_ok. apply Nat.leb_le. reflexivity.
Qed.

Lemma created_storage_holds : holds created_storage created_frame [] (fresh_frame 0 32).
Proof.
  apply (holds_fresh (with_frame_idx (wrap 8 1) small_storage)); try done.
  - apply with_frame_idx_wf, small_storage_wf.
  - cbn. lia.
Qed.

Lemma storage_in_wf st data : (length data <= 4)%nat -> storage_wf (storage_in st data).
Proof.
  intros H. constructor; cbn [storage_in frames frame_data_len frame_idx pdu_idx].
  - apply elem_of_cons; by left.
  - apply Nat.leb_le. reflexivity.
  - constructor; [|constructor]. split; cbn [slot_in ethernet_frame pdu_payload_len].
    + rewrite !length_app, length_zeros, length_le_bytes. change (length eth_header) with 14%nat.
      cbn [pdus_bytes length Nat.eqb negb]. rewrite length_app.
      rewrite length_pdu_bytes by apply length_Command_pack. unfold pdu_len, answer_pdu.
      cbn [p_data length]. lia.
    + unfold pdu_payload_start, ETHERNET_HEADER_LEN. lia.
  - split; [lia|]. change (2 ^ 8) with 256. lia.
  - split; [lia|]. change (2 ^ 8) with 256. lia.
Qed.

Lemma stale_storage_wf : storage_wf stale_storage.
Proof.
  pose proof (storage_in_wf FS_None [] ltac:(cbn; lia)) as [_ _ Ha Hb Hc].
  pose proof (storage_in_wf FS_Sent [] ltac:(cbn; lia)) as [_ _ Ha' _ _].
  constructor; try done.
  - apply elem_of_cons; right; apply elem_of_cons; by left.
  - apply Nat.leb_le. reflexivity.
  - constructor; [by apply Forall_cons in Ha as [? _]|done].
Qed.
