(* ===== verification/PduLoop.v ===== *)
(** * What the PDU loop promises

    The contract of the operations of [CreatedFrame.v] and [TxRx.v] on a
    well-formed storage: allocation, filling and sending a frame, the receive
    path on any input, reading a response, and the retries of a request. *)
From S2P Require Import Prelude Wire Derive DeriveEnum Errors PduTypes PduChain Frame CreatedFrame TxRx Samples.

(** ** Definitions *)

(** Polls that all time out; [env n] is what the other tasks do in between. *)
Fixpoint timed_out_polls (env : nat -> PduStorage -> PduStorage) (n : nat) (fut : ReceiveFrameFut)
    : St PduStorage Error (ReceiveFrameFut * Poll (res Error nat)) :=
  match n with
  | O => mret (fut, Pending)
  | S n =>
      '(fut, polled) ← fut_poll true fut;
      match polled with
      | Ready r => mret (fut, Ready r)
      | Pending => _ ← modify (env n); timed_out_polls env n fut
      end
  end.

(** The other tasks may work on slot [i] but no response comes for it. *)
Definition no_response (i : nat) (env : nat -> PduStorage -> PduStorage) : Prop :=
  forall k s f, frames s !! i = Some f -> status f = FS_Sendable ->
    exists f', frames (env k s) !! i = Some f' /\ in_flight (status f') = true.

(** ** Lemmas *)

Lemma lookup_with_frame i f s j :
  (i < num_frames s)%nat ->
  frames (with_frame i f s) !! j = if decide (i = j) then Some f else frames s !! j.
Proof.
  intros Hi. case_decide as H; [subst; by apply with_frame_lookup|by apply with_frame_lookup_ne].
Qed.

Lemma in_flight_not_done st : in_flight st = true -> st <> FS_RxDone.
Proof. by destruct st. Qed.

Lemma data_len_pos s : storage_wf s -> (pdu_payload_start <= frame_data_len s)%nat.
Proof.
  intros Hs. pose proof (swf_data s Hs). rewrite MIN_DATA_eq in *.
  unfold pdu_payload_start, ETHERNET_HEADER_LEN. lia.
Qed.

(** [bytes] of a slot that another allocation has taken. *)
Lemma claim_free_zeroes s i f frame_index rp :
  storage_wf s -> frames s !! i = Some f -> status f = FS_None -> rp_slot rp = i ->
  (pdu_payload_start <= rp_start rp)%nat -> (rp_start rp + rp_len rp <= frame_data_len s)%nat ->
  deref (claim_created i frame_index s).2 rp = zeros (rp_len rp).
Proof.
  intros Hs Hf Hst Hi Hstart Hend. rewrite (claim_created_some _ _ f) by done. cbn [snd].
  unfold deref. rewrite Hi, with_frame_lookup by (by eapply lookup_slot).
  unfold fresh_frame. cbn [ethernet_frame].
  rewrite drop_app_ge by (unfold pdu_payload_start, ETHERNET_HEADER_LEN in *; cbn; lia).
  unfold pdu_payload_start, ETHERNET_HEADER_LEN in *.
  change (length eth_header) with 14%nat. rewrite drop_zeros.
  apply take_zeros. lia.
Qed.

(** What [first_pdu] returns lies inside the frame. *)
Lemma first_pdu_res_bounds i handle f rp :
  first_pdu_res i handle f = Ok rp ->
  rp_slot rp = i /\ (pdu_payload_start <= rp_start rp)%nat /\
  (rp_start rp + rp_len rp <= length (ethernet_frame f))%nat.
Proof.
  unfold first_pdu_res. intros H. apply bind_ok in H as (h & _ & H).
  apply bind_ok in H as ([] & _ & H). apply bind_ok in H as ([] & _ & H).
  unfold pdu_at in H. apply bind_ok in H as (b & _ & H). apply bind_ok in H as (b' & Hb & H).
  apply bind_ok in H as (w & _ & H). injection H as <-. cbn [rp_slot rp_start rp_len].
  unfold get_from in Hb. destruct (Nat.leb _ _) eqn:Hl; [|done]. apply Nat.leb_le in Hl.
  rewrite length_pdu_buf in Hl. change header_len with 10%nat in *.
  unfold pdu_payload_start, ETHERNET_HEADER_LEN in *. lia.
Qed.

(** What [receive_frame] can do to the storage. *)
Lemma receive_frame_effect source_mac b s :
  storage_wf s ->
  let '(r, s') := receive_frame source_mac b s in
  r <> Panic /\ storage_wf s' /\
  (s' = s /\ r <> Ok Processed \/
   exists k f, frames s !! k = Some f /\ status f = FS_Sent /\
     ((exists i, s' = with_frame k (received i f) s /\ r = Ok Processed) \/
      s' = with_frame k (set_state FS_RxBusy f) s /\ r = Err E_Internal)).
Proof.
  intros Hs. destruct (receive_frame_cases source_mac b s) as [(r & -> & Hr)|(i & x & ->)].
  { destruct Hr as [->|[e ->]]; split_and!; auto. }
  pose proof (store_response_spec s i x Hs) as H.
  destruct (frame_index_by_first_pdu_index x s) as [k|]; [|rewrite H; by auto].
  destruct H as (f & Hf & _ & ->). pose proof (frame_ok_lookup _ _ _ Hs Hf) as Hok.
  case_decide as Hst; [|by auto]. destruct (Nat.leb _ _) eqn:Hl.
  - split_and!; [done| |right; exists k, f; eauto 10]. apply with_frame_wf; [done|].
    apply received_ok; [done|by apply data_len_pos|by apply Nat.leb_le].
  - split_and!; [done| |right; exists k, f; eauto 10]. by apply with_frame_wf.
Qed.

(** ** Properties *)

(** C7: [alloc_frame] never panics; it succeeds exactly when
    some slot is free, and then hands out a free slot, now [Created], empty and
    with its headers written; every other slot is untouched.  Otherwise it
    fails with [SwapState] and no slot changes. *)
Theorem alloc_frame_spec s :
  storage_wf s ->
  match alloc_frame s with
  | (Ok cf, s') =>
      (exists f, frames s !! inner cf = Some f /\ status f = FS_None) /\
      holds s' cf [] (fresh_frame (Z.of_nat (inner cf)) (frame_data_len s)) /\
      storage_wf s' /\ (forall j, j <> inner cf -> frames s' !! j = frames s !! j)
  | (Err e, s') =>
      e = E_Pdu PE_SwapState /\ frames s' = frames s /\ storage_wf s' /\
      forall i f, frames s !! i = Some f -> status f <> FS_None
  | (Panic, _) => False
  end.
Proof.
  intros Hs. unfold alloc_frame. rewrite (st_step (gets num_frames) _ s (num_frames s) s) by done.
  destruct (alloc_loop_spec (num_frames s * 2) s Hs) as [(k & f & _ & Hf & Hst & ->)|[Hall [x ->]]].
  - assert (storage_wf (with_frame_idx (wrap 8 (frame_idx s + Z.of_nat k + 1)) s)) as Hs1
      by by apply with_frame_idx_wf.
    cbn [inner]. split_and!; [eauto| | |].
    + by apply (holds_fresh (with_frame_idx _ s) _ _ _ Hs1 (lookup_slot _ _ _ Hf)).
    + apply with_frame_wf; [done|]. apply fresh_ok, Hs.
    + intros j Hj. by rewrite with_frame_lookup_ne.
  - split_and!; [done|done|by apply with_frame_idx_wf|]. intros i f Hf.
    destruct (slot_at_surj s i Hs (lookup_slot _ _ _ Hf)) as (k & Hk & <-). by apply (Hall k).
Qed.

(** C6: on a frame that holds the PDUs [ps], [push_pdu] appends
    one PDU (the previous one now says that more follow) if header, data and
    working counter fit in what is left of the frame, and the handle it returns
    identifies that PDU; otherwise it fails with [TooLong] and the frame is as
    before.  It never panics, and no other slot changes. *)
Theorem push_pdu_spec {P : Profile} {T} s cf ps f command (w : WireWrite T) data enc len_override :
  storage_wf s -> (frame_data_len s <= MAX_DATA)%nat -> holds s cf ps f -> packs w data enc ->
  let n := data_length w data len_override in
  let fits := (length (pdus_bytes ps) + (n + 12) <= length (pdu_buf f))%nat in
  match push_pdu command w data len_override (s, cf) with
  | (Ok h, (s', cf')) =>
      fits /\ h = mkHandle (Z.of_nat (length ps)) (pdu_idx s) (code command) (n + 12) /\
      inner cf' = inner cf /\ storage_wf s' /\
      (exists f', holds s' cf' (ps ++ [pushed_pdu command (pdu_idx s) (payload_of enc n)]) f') /\
      (forall j, j <> inner cf -> frames s' !! j = frames s !! j)
  | (Err e, (s', cf')) => ~ fits /\ e = PE_TooLong /\ cf' = cf /\ frames s' = frames s
  | (Panic, _) => False
  end.
Proof.
  intros Hs Hmax Hh Hp n fits. unfold push_pdu. fold n.
  assert (length enc <= n)%nat as Hn.
  { unfold n, data_length. rewrite (pk_len _ _ _ Hp). destruct len_override; lia. }
  destruct (decide fits) as [Hfit|Hfit].
  - destruct (push_bytes_fits s cf ps f command w data enc n Hs Hmax Hh Hp Hn Hfit) as (-> & Hv & Hl).
    set (p := pushed_pdu _ _ _) in *. set (s1 := with_pdu_idx _ s).
    assert (storage_wf s1) as Hs1 by by apply with_pdu_idx_wf.
    assert (holds s1 cf ps f) as Hh1 by (destruct Hh; by constructor).
    split_and!; [done|done|done| | |].
    + apply with_frame_wf; [done|]. apply pushed_frame_ok; [|done].
      apply (frame_ok_lookup _ _ _ Hs (ho_slot _ _ _ _ Hh)).
    + eexists. by apply holds_pushed.
    + intros j Hj. by rewrite with_frame_lookup_ne.
  - rewrite (push_bytes_too_long s cf ps f) by (done || (unfold fits in Hfit; lia)). done.
Qed.

(** [push_pdu_slice_rest] pushes the longest
    prefix of the data that fits in the rest of the frame and says how long it
    is, or returns [None] and changes nothing when there is no data or no room;
    it never fails. *)
Theorem push_pdu_slice_rest_spec {P : Profile} s cf ps f command data :
  storage_wf s -> (frame_data_len s <= MAX_DATA)%nat -> holds s cf ps f -> bytes_ok data ->
  let room := (length (pdu_buf f) - length (pdus_bytes ps) - 12)%nat in
  let k := Nat.min room (length data) in
  match push_pdu_slice_rest command data (s, cf) with
  | (Ok None, s') => k = 0%nat /\ s' = (s, cf)
  | (Ok (Some (n, h)), (s', cf')) =>
      n = k /\ (0 < k)%nat /\
      h = mkHandle (Z.of_nat (length ps)) (pdu_idx s) (code command) (k + 12) /\
      storage_wf s' /\
      exists f', holds s' cf' (ps ++ [pushed_pdu command (pdu_idx s) (take k data)]) f'
  | _ => False
  end.
Proof.
  intros Hs Hmax Hh Hd room k. unfold push_pdu_slice_rest.
  rewrite (st_step _ _ _ _ _ (the_frame_ok s cf f (ho_slot _ _ _ _ Hh))).
  rewrite (ho_len _ _ _ _ Hh). change PDU_OVERHEAD_BYTES with 12%nat. fold room.
  destruct (Nat.eqb_spec (length data) 0) as [H0|H0]; [split; [unfold k; lia|done]|].
  destruct (Nat.eqb_spec room 0) as [H1|H1]; [split; [unfold k; lia|done]|]. fold k.
  assert (length (take k data) = k) as Hk by (rewrite length_take; unfold k; lia).
  assert (packs slice_write (take k data) (take k data)) as Hp.
  { apply packs_slice. by apply Forall_take. }
  destruct (push_bytes_fits s cf ps f command slice_write (take k data) (take k data) k
    Hs Hmax Hh Hp) as (He & Hv & Hl); [lia|unfold k, room; lia|].
  rewrite (st_step _ _ _ _ _ He).
  assert (payload_of (take k data) k = take k data) as Hpl.
  { unfold payload_of. by rewrite Hk, Nat.sub_diag, app_nil_r. }
  rewrite Hpl in *. set (p := pushed_pdu _ _ _) in *. set (s1 := with_pdu_idx _ s).
  assert (storage_wf s1) as Hs1 by by apply with_pdu_idx_wf.
  assert (holds s1 cf ps f) as Hh1 by (destruct Hh; by constructor).
  split_and!; [done|unfold k, room in *; lia|done| |eexists; by apply holds_pushed].
  apply with_frame_wf; [done|]. apply pushed_frame_ok; [|done].
  apply (frame_ok_lookup _ _ _ Hs (ho_slot _ _ _ _ Hh)).
Qed.

(** C11: once a frame that holds [ps] is marked sendable, claiming and
    sending it gives the network exactly the Ethernet header, the EtherCAT
    header and the chain; the slot becomes [Sent] only if every byte was taken,
    and is put back to [Sendable] on a partial or failed send. *)
Theorem send_spec {P : Profile} s cf ps f timeout retries send :
  storage_wf s -> (frame_data_len s <= MAX_DATA)%nat -> holds s cf ps f ->
  exists s1, mark_sendable (E:=Error) cf timeout retries s =
      (Ok (mkFut (Some (inner cf)) timeout retries), s1) /\
    let '(r, s2) := (_ ← claim_sending (inner cf); send_blocking (inner cf) send) s1 in
    let becomes st := exists f', frames s2 !! inner cf = Some f' /\ status f' = st in
    match send (sent_bytes ps) with
    | Ok n =>
        if Nat.eqb n (length (sent_bytes ps)) then r = Ok n /\ becomes FS_Sent
        else r = Err (E_PartialSend (length (sent_bytes ps)) n) /\ becomes FS_Sendable
    | Err e => r = Err e /\ becomes FS_Sendable
    | Panic => r = Panic
    end.
Proof.
  intros Hs Hmax Hh. eexists. split; [by eapply mark_sendable_ok|].
  pose proof (lookup_slot _ _ _ (ho_slot _ _ _ _ Hh)) as Hlt.
  set (f1 := sendable_frame ps f). pose proof (with_frame_lookup (inner cf) f1 s Hlt) as Hf1.
  pose proof (claim_sending_ok (E:=Error) _ _ _ Hf1) as Hc. rewrite decide_True in Hc by done.
  rewrite (st_step _ _ _ _ _ Hc), with_frame_twice.
  set (f2 := set_state FS_Sending f1). pose proof (with_frame_lookup (inner cf) f2 s Hlt) as Hf2.
  rewrite (send_blocking_spec _ _ f2 (sent_bytes ps) send Hf2).
  2: { unfold as_bytes. rewrite (as_bytes_sendable s cf ps f Hs Hh : get_range (ethernet_frame f2) 0
      (buffer_len (2 + pdu_payload_len f2)) = _). done. }
  destruct (send _) as [n|e|]; [destruct (Nat.eqb _ _)|..]; try done;
    (split; [done|eexists; split; [rewrite with_frame_twice; by apply with_frame_lookup|done]]).
Qed.

(** The TX task takes the first slot, in storage order,
    that is [Sendable], and marks it [Sending]; it takes none, and changes
    nothing, when there is none or when the exit flag is set. *)
Theorem next_sendable_spec s :
  match next_sendable_frame (E:=Error) s with
  | (Ok (Some i), s') => exit_flag s = false /\
      exists f, frames s !! i = Some f /\ status f = FS_Sendable /\
        s' = with_frame i (set_state FS_Sending f) s /\
        forall j g, (j < i)%nat -> frames s !! j = Some g -> status g <> FS_Sendable
  | (Ok None, s') => s' = s /\
      (exit_flag s = true \/ forall i f, frames s !! i = Some f -> status f <> FS_Sendable)
  | _ => False
  end.
Proof.
  unfold next_sendable_frame. rewrite (st_step (gets num_frames) _ s (num_frames s) s) by done.
  destruct (exit_flag s) eqn:Hx.
  { destruct (num_frames s); cbn [seq next_sendable_loop]; [by split; [|left]|].
    rewrite (st_step (gets exit_flag) _ s true s) by (unfold gets; by rewrite Hx). by split; [|left]. }
  rewrite (next_sendable_loop_spec s 0) by (rewrite ?length_seq; done || lia). rewrite drop_0.
  destruct (list_find _ _) as [[k f]|] eqn:Hfind.
  - apply list_find_Some in Hfind as (Hk & Hst & Hmin). split; [done|].
    exists f. split_and!; [done|done|done|]. intros j g Hj Hg. by apply (Hmin j g).
  - split; [done|]. right. intros i f Hf Hst. apply list_find_None in Hfind.
    by apply (Forall_lookup_1 _ _ _ _ Hfind Hf).
Qed.

(** C5: whatever bytes arrive, [receive_frame] does not
    panic and keeps the storage well-formed; it changes nothing, or stores the
    payload in one slot that was [Sent] and makes it [RxDone], or (when the
    payload does not fit that slot) leaves it [RxBusy] with an error. *)
Theorem receive_frame_safe source_mac b s :
  storage_wf s ->
  let '(r, s') := receive_frame source_mac b s in
  r <> Panic /\ storage_wf s' /\
  (s' = s /\ r <> Ok Processed \/
   exists k f, frames s !! k = Some f /\ status f = FS_Sent /\
     ((exists i, s' = with_frame k (received i f) s /\ r = Ok Processed) \/
      s' = with_frame k (set_state FS_RxBusy f) s /\ r = Err E_Internal)).
Proof. apply receive_frame_effect. Qed.

(** C9: once the response with the PDUs [ps] is stored in the
    slot that waits for it, the iterator yields exactly one item per PDU, in
    order, with its working counter, and its pointer reads the data of that
    PDU; and [pdu] with a handle of the [n]-th PDU gives the same item. *)
Theorem response_readable s i f ps p fuel :
  storage_wf s -> frames s !! i = Some f -> pdu_payload_len f <> 0%nat ->
  Forall pdu_valid (p :: ps) -> (length (pdus_bytes (p :: ps)) <= length (pdu_buf f))%nat ->
  (length (p :: ps) < fuel)%nat ->
  let f' := received (pdus_bytes (p :: ps)) f in
  let s' := with_frame i f' s in
  exists rps, pdu_iter fuel i f' (Some 0%nat) = Ok <$> rps /\
    working_counter <$> rps = p_wkc <$> p :: ps /\
    deref s' <$> rps = p_data <$> p :: ps /\
    forall n q rp handle, (p :: ps) !! n = Some q -> rps !! n = Some rp ->
      handle = mkHandle (Z.of_nat n) (p_index q) (p_code q) (pdu_len q) ->
      ReceivedFrame_pdu i handle f' = Ok rp.
Proof.
  intros Hs Hf Hl Hv Hfit Hfuel f' s'. set (qs := p :: ps) in *.
  pose proof (frame_ok_lookup _ _ _ Hs Hf) as [Hdata _]. pose proof (data_len_pos s Hs) as Hpos.
  assert (pdu_buf f' = [] ++ pdus_bytes qs ++ drop (length (pdus_bytes qs)) (pdu_buf f)) as Hb.
  { unfold pdu_buf at 1, f', received. cbn [ethernet_frame].
    rewrite drop_app_ge by (rewrite length_take; lia). rewrite length_take, Nat.min_l by lia.
    rewrite Nat.sub_diag, drop_0. unfold splice. by rewrite take_0. }
  assert (frames s' !! i = Some f') as Hf' by (apply with_frame_lookup; by eapply lookup_slot).
  exists (pdu_refs i 0 qs). split_and!.
  - apply (pdu_iter_ok i f' qs (drop (length (pdus_bytes qs)) (pdu_buf f)) fuel []); try done. cbn. lia.
  - clear. generalize 0%nat. induction qs as [|q qs IH]; intros n; [done|].
    cbn [pdu_refs]. by rewrite !fmap_cons, IH.
  - apply (deref_refs s' i f' qs (drop (length (pdus_bytes qs)) (pdu_buf f)) []); try done.
    assert (frame_ok (frame_data_len s) f') as [-> _]; [|done].
    apply received_ok; [by eapply frame_ok_lookup|done|done].
  - intros n q rp handle Hq Hrp ->. rewrite (pdu_ok i _ f' qs _ n q Hv Hq Hb) by done. f_equal.
    clear -Hq Hrp Hv. rewrite <- (Nat.add_0_l (length _)). revert n Hq Hrp. generalize 0%nat.
    induction qs as [|q' qs IH]; intros pos [|n] Hq Hrp; try done; cbn in Hq, Hrp.
    + injection Hq as ->. injection Hrp as <-. cbn. f_equal. lia.
    + apply Forall_cons in Hv as [Hq' Hv]. rewrite <- (IH Hv _ n Hq Hrp). f_equal.
      cbn [take]. rewrite !length_pdus_bytes, fmap_cons; [cbn; lia|by apply Forall_take|].
      apply Forall_cons. split; [done|by apply Forall_take].
Qed.

(** C10: a future with [r] retries whose timer always expires
    and whose response never comes resolves at its [r + 1]-th poll, and not
    before: [r] times the frame goes back to [Sendable] for another attempt,
    then the future fails with the timeout's error and the slot is free. *)
Theorem retries_terminate env i k r s f e :
  no_response i env -> frames s !! i = Some f -> in_flight (status f) = true ->
  from_timeout_kind (E:=Error) k = Ok e ->
  (exists fut s', timed_out_polls env r (mkFut (Some i) k r) s = (Ok (fut, Pending), s')) /\
  exists s', timed_out_polls env (S r) (mkFut (Some i) k r) s =
      (Ok (mkFut None k 0, Ready (Err (E_Timeout e))), s') /\
    exists f', frames s' !! i = Some f' /\ status f' = FS_None.
Proof.
  intros Henv Hf Hst He. revert s f Hf Hst. induction r as [|r IH]; intros s f Hf Hst.
  - split; [by eexists _, _|]. cbn [timed_out_polls].
    pose proof (fut_poll_waiting true i k 0 s f Hf (in_flight_not_done _ Hst)) as Hp.
    cbv zeta beta iota in Hp. rewrite He in Hp. rewrite (st_step _ _ _ _ _ Hp).
    eexists. split; [done|]. eexists. split; [apply with_frame_lookup; by eapply lookup_slot|done].
  - pose proof (fut_poll_waiting true i k (S r) s f Hf (in_flight_not_done _ Hst)) as Hp.
    cbv zeta beta iota in Hp. rewrite Hst in Hp.
    set (s1 := with_tx_woken true _) in Hp.
    assert (frames s1 !! i = Some (set_state FS_Sendable (set_waker true f))) as Hf1.
    { apply (with_frame_lookup i _ s). by eapply lookup_slot. }
    assert (forall n, timed_out_polls env (S n) (mkFut (Some i) k (S r)) s =
      timed_out_polls env n (mkFut (Some i) k r) (env n s1)) as Hstep.
    { intros n. cbn [timed_out_polls]. rewrite (st_step _ _ _ _ _ Hp). cbv beta iota.
      by rewrite (st_step (modify _) _ s1 tt (env n s1)). }
    split.
    + rewrite Hstep. destruct (Henv r s1 _ Hf1 eq_refl) as (f' & Hf' & Hst').
      by apply (proj1 (IH _ _ Hf' Hst')).
    + rewrite Hstep. destruct (Henv (S r) s1 _ Hf1 eq_refl) as (f' & Hf' & Hst').
      by apply (proj2 (IH _ _ Hf' Hst')).
Qed.

(** A response is matched with the first slot, in
    storage order, whose [first_pdu] is its index, even when that slot is not
    waiting for anything: a slot released by a timeout or by the drop of its
    future keeps its index, and the response to a live frame in a later slot
    with the same index is rejected with [InvalidIndex] and lost. *)
Theorem stale_slot_hides_response s k g i f source_mac dst src p ps padding :
  storage_wf s -> exit_flag s = false ->
  (k < i)%nat -> frames s !! i = Some f -> status f = FS_Sent -> first_pdu f = p_index p ->
  frames s !! k = Some g -> first_pdu g = p_index p -> status g <> FS_Sent ->
  (forall j h, (j < k)%nat -> frames s !! j = Some h -> first_pdu h <> p_index p) ->
  length dst = 6%nat -> length src = 6%nat -> src <> source_mac ->
  Forall pdu_valid (p :: ps) -> (length (pdus_bytes (p :: ps)) < 2048)%nat ->
  receive_frame source_mac (response dst src (p :: ps) padding) s =
    (Err (E_Pdu (PE_InvalidIndex (Z.of_nat k))), s).
Proof.
  intros Hs Hx Hki Hf Hst Hfi Hg Hgi Hgst Hmin Hd Hsrc Hne Hv Hlen.
  apply Forall_cons in Hv as [Hp Hps].
  rewrite receive_frame_response by done.
  pose proof (store_response_spec s (pdus_bytes (p :: ps)) (p_index p) Hs) as H.
  assert (frame_index_by_first_pdu_index (p_index p) s = Some k) as Hk.
  { unfold frame_index_by_first_pdu_index. rewrite find_first_pdu_spec.
    by rewrite (list_find_first _ _ k g Hg Hgi Hmin). }
  rewrite Hk in H. destruct H as (g' & Hg' & _ & ->). rewrite Hg in Hg'. injection Hg' as <-.
  by rewrite decide_False.
Qed.

(** [first_pdu] frees the slot before its caller
    reads the result, which is a pointer into the slot: as soon as another task
    allocates that slot, the result reads as zeroes. *)
Theorem first_pdu_result_dangles s i f handle rp s' frame_index :
  storage_wf s -> frames s !! i = Some f -> status f = FS_RxProcessing ->
  ReceivedFrame_first_pdu i handle s = (Ok rp, s') ->
  (exists f', frames s' !! i = Some f' /\ status f' = FS_None) /\
  deref (claim_created i frame_index s').2 rp = zeros (rp_len rp).
Proof.
  intros Hs Hf Hst. rewrite (first_pdu_ok i handle s f _ Hf Hst eq_refl). intros [= Hr <-].
  set (f' := clear_first_pdu _).
  pose proof (with_frame_lookup i f' s (lookup_slot _ _ _ Hf)) as Hf'.
  split; [by exists f'|]. pose proof (frame_ok_lookup _ _ _ Hs Hf) as Hok.
  destruct (first_pdu_res_bounds i handle f rp Hr) as (H1 & H2 & H3).
  apply (claim_free_zeroes _ i f'); [by apply with_frame_wf|done|done|done|done|].
  destruct Hok as [Hl _]. cbn [with_frame with_frames frame_data_len]. lia.
Qed.

(** [trim_front] moves the start of the data and keeps
    its length: the trimmed PDU reads as the rest of the data followed by as
    many bytes past its end (first of all its working counter). *)
Theorem trim_front_overreads s rp f ct :
  frames s !! rp_slot rp = Some f -> (ct <= rp_len rp)%nat ->
  deref s (trim_front ct rp) =
    drop ct (deref s rp) ++ take ct (drop (rp_start rp + rp_len rp) (ethernet_frame f)).
Proof.
  intros Hf Hct. unfold deref, trim_front. cbn [rp_slot rp_start rp_len]. rewrite Hf, Nat.min_l by done.
  rewrite <- !drop_drop. set (b := drop (rp_start rp) (ethernet_frame f)).
  rewrite <- (take_drop (rp_len rp) b) at 1.
  destruct (decide (rp_len rp <= length b)%nat) as [Hl|Hl].
  - rewrite drop_app_le by (rewrite length_take; lia).
    rewrite take_app_ge by (rewrite length_drop, length_take; lia).
    rewrite length_drop, length_take, Nat.min_l by done.
    by replace (rp_len rp - (rp_len rp - ct))%nat with ct by lia.
  - rewrite (drop_ge b) by lia. rewrite take_nil, !app_nil_r.
    apply take_ge. rewrite length_drop, length_take. lia.
Qed.

(** an error of the iterator does not move it: the
    same error is the answer to every further call, so a loop over the items
    ends only if its body stops at the first error. *)
Theorem iterator_error_repeats i f pos e fuel :
  (iter_next i f pos).1 = Some (Err e) -> pdu_iter fuel i f pos = replicate fuel (Err e).
Proof.
  intros He. assert (iter_next i f pos = (Some (Err e), pos)) as Hn.
  { revert He. unfold iter_next. destruct (Nat.eqb _ 0); [done|]. destruct pos as [pos|]; [|done].
    destruct (get_from _ pos) as [buf|]; [|done].
    destruct (from_wire _) as [h|e'|]; [|by intros [= ->]|done].
    destruct (check_pdu_len h buf) as [?|e'|]; [|by intros [= ->]|done].
    destruct (get_from buf _); [|done]. destruct (pdu_at _ _ _ _) as [?|e'|]; by intros [= ->]. }
  induction fuel as [|fuel IH]; [done|]. cbn [pdu_iter replicate]. by rewrite Hn, IH.
Qed.

(** ** Witnesses *)

Lemma alloc_frame_spec_witness :
  (alloc_frame small_storage).1 = Ok created_frame /\
  holds (alloc_frame small_storage).2 created_frame [] (fresh_frame 0 32).
Proof.
  pose proof (alloc_frame_spec small_storage small_storage_wf) as H.
  change (alloc_frame small_storage) with (Ok (E:=Error) created_frame, created_storage) in *.
  cbv beta iota in H. destruct H as (_ & H & _). split; [reflexivity|exact H].
Defined.

(** Four bytes fit the sample frame, and a second push does not. *)
Lemma push_pdu_spec_witness :
  exists h s1 cf1,
    push_pdu (P:=true) (Read (Fprd 0x1000 0x130)) unit_write tt (Some 4)
      (created_storage, created_frame) = (Ok h, (s1, cf1)) /\
    h_alloc_size h = 16%nat /\
    exists f, holds s1 cf1 [pushed_pdu (Read (Fprd 0x1000 0x130)) 0 (zeros 4)] f.
Proof.
  pose proof (push_pdu_spec (P:=true) created_storage created_frame [] (fresh_frame 0 32)
    (Read (Fprd 0x1000 0x130)) unit_write tt [] (Some 4) created_storage_wf
    ltac:(apply Nat.leb_le; reflexivity) created_storage_holds packs_unit) as H.
  cbv zeta in H. destruct (push_pdu _ _ _ _ _) as [[h|e|] [s1 cf1]].
  - destruct H as (_ & -> & _ & _ & H & _). exists (mkHandle 0 0 4 16), s1, cf1. auto.
  - destruct H as [H _]. exfalso. apply H. apply Nat.leb_le. reflexivity.
  - destruct H.
Defined.

(** Five bytes do not fit the sample frame: four are pushed. *)
Lemma push_pdu_slice_rest_spec_witness :
  exists h s1 cf1,
    push_pdu_slice_rest (P:=true) (Write (Lrw 0)) [1; 2; 3; 4; 5]
      (created_storage, created_frame) = (Ok (Some (4%nat, h)), (s1, cf1)) /\
    exists f, holds s1 cf1 [pushed_pdu (Write (Lrw 0)) 0 [1; 2; 3; 4]] f.
Proof.
  pose proof (push_pdu_slice_rest_spec (P:=true) created_storage created_frame [] (fresh_frame 0 32)
    (Write (Lrw 0)) [1; 2; 3; 4; 5] created_storage_wf
    ltac:(apply Nat.leb_le; reflexivity) created_storage_holds
    ltac:(repeat constructor; cbn; lia)) as H.
  cbv zeta in H. destruct (push_pdu_slice_rest _ _ _) as [[[[n h]|]|e|] [s1 cf1]].
  - destruct H as (-> & _ & _ & _ & H). exists h, s1, cf1. split; [reflexivity|exact H].
  - destruct H as [H _]. vm_compute in H. discriminate H.
  - destruct H.
  - destruct H.
Defined.

Lemma send_spec_witness :
  exists s1 s2,
    mark_sendable (P:=true) (E:=Error) created_frame TK_Pdu 0 created_storage =
      (Ok (mkFut (Some 0%nat) TK_Pdu 0), s1) /\
    (_ ← claim_sending 0; send_blocking 0 (fun b => Ok (length b))) s1 = (Ok 16%nat, s2).
Proof.
  destruct (send_spec (P:=true) created_storage created_frame [] (fresh_frame 0 32) TK_Pdu 0
    (fun b => Ok (length b)) created_storage_wf ltac:(apply Nat.leb_le; reflexivity)
    created_storage_holds) as (s1 & H1 & H2).
  cbn [inner created_frame] in *.
  destruct ((_ ← claim_sending 0; send_blocking 0 (fun b => Ok (length b))) s1) as [r s2] eqn:E.
  cbv beta iota zeta in H2. rewrite Nat.eqb_refl in H2. destruct H2 as [-> _].
  exists s1, s2. split; [exact H1|exact E].
Defined.

Lemma receive_frame_safe_witness :
  let '(r, s') := receive_frame MAINDEVICE_ADDR (zeros 20) (storage_in FS_Sent [1; 2]) in
  r <> Panic /\ storage_wf s'.
Proof.
  pose proof (receive_frame_safe MAINDEVICE_ADDR (zeros 20) (storage_in FS_Sent [1; 2])
    (storage_in_wf FS_Sent [1; 2] ltac:(apply Nat.leb_le; reflexivity))) as H.
  destruct (receive_frame _ _ _) as [r s']. destruct H as (H1 & H2 & _). split; [exact H1|exact H2].
Defined.

Lemma response_readable_witness :
  let p := answer_pdu (Read (Fprd 0x1000 0x130)) [0x08; 0x01] in
  let f := slot_in FS_Sent [0; 0] in
  let f' := received (pdus_bytes [p]) f in
  exists rp, pdu_iter 2 0 f' (Some 0%nat) = [Ok rp] /\ working_counter rp = 1 /\
    deref (with_frame 0 f' (storage_in FS_Sent [0; 0])) rp = [0x08; 0x01].
Proof.
  intros p f f'.
  destruct (response_readable (storage_in FS_Sent [0; 0]) 0 f [] p 2
    (storage_in_wf FS_Sent [0; 0] ltac:(apply Nat.leb_le; reflexivity)) eq_refl ltac:(discriminate)) as (rps & H1 & H2 & H3 & _).
  - constructor; [|constructor]. apply answer_pdu_valid; [|cbn; lia]. repeat constructor; cbn; lia.
  - apply Nat.leb_le. reflexivity.
  - cbn. lia.
  - destruct rps as [|rp [|? ?]]; try discriminate. exists rp.
    injection H2 as H2. injection H3 as H3. split_and!; assumption.
Defined.

Lemma retries_terminate_witness :
  exists s', timed_out_polls (fun _ s => s) 3 (mkFut (Some 0%nat) TK_Pdu 2) (storage_in FS_Sent []) =
    (Ok (mkFut None TK_Pdu 0, Ready (Err (E_Timeout TE_Pdu))), s').
Proof.
  destruct (retries_terminate (fun _ s => s) 0 TK_Pdu 2 (storage_in FS_Sent []) (slot_in FS_Sent [])
    TE_Pdu) as [_ (s' & H & _)]; try reflexivity; [|by exists s'].
  intros k s f Hf Hst. exists f. split; [exact Hf|]. rewrite Hst. reflexivity.
Defined.

Lemma stale_slot_hides_response_witness :
  receive_frame MAINDEVICE_ADDR
    (response BROADCAST answer_mac [answer_pdu (Read (Fprd 0x1000 0x130)) []] []) stale_storage =
    (Err (E_Pdu (PE_InvalidIndex 0)), stale_storage).
Proof.
  apply (stale_slot_hides_response stale_storage 0 (slot_in FS_None []) 1 (slot_in FS_Sent []));
    try reflexivity; try (intros [=]).
  - exact stale_storage_wf.
  - lia.
  - intros j h Hj. lia.
  - constructor; [|constructor]. apply answer_pdu_valid; [constructor|cbn; lia].
  - cbn. lia.
Defined.

Lemma first_pdu_result_dangles_witness :
  exists rp s',
    ReceivedFrame_first_pdu 0 (mkHandle 0 0 4 14) (storage_in FS_RxProcessing [0x08; 0x01]) =
      (Ok rp, s') /\
    deref s' rp = [0x08; 0x01] /\ deref (claim_created 0 0 s').2 rp = [0; 0].
Proof.
  set (s := storage_in FS_RxProcessing [0x08; 0x01]).
  destruct (ReceivedFrame_first_pdu 0 (mkHandle 0 0 4 14) s) as [r s'] eqn:E.
  assert (r = Ok (mkReceivedPdu 0 26 2 1)) as ->.
  { change r with (r, s').1. rewrite <- E. vm_compute. reflexivity. }
  destruct (first_pdu_result_dangles s 0 (slot_in FS_RxProcessing [0x08; 0x01]) _ _ s' 0
    (storage_in_wf FS_RxProcessing [0x08; 0x01] ltac:(apply Nat.leb_le; reflexivity)) eq_refl eq_refl E) as [_ H].
  exists (mkReceivedPdu 0 26 2 1), s'. split; [reflexivity|]. split; [|exact H].
  change s' with (@Ok Error ReceivedPdu (mkReceivedPdu 0 26 2 1), s').2. rewrite <- E.
  vm_compute. reflexivity.
Defined.

(** Trimming one byte off a two-byte response shows its working counter. *)
Lemma trim_front_overreads_witness :
  deref (storage_in FS_RxProcessing [0x08; 0x01])
    (trim_front 1 (mkReceivedPdu 0 26 2 1)) = [0x01; 0x01].
Proof.
  rewrite (trim_front_overreads _ _ (slot_in FS_RxProcessing [0x08; 0x01])); [|reflexivity|cbn; lia].
  vm_compute. reflexivity.
Defined.

Lemma iterator_error_repeats_witness :
  pdu_iter 3 0 truncated_frame (Some 0%nat) = replicate 3 (Err (E_Pdu PE_TooLong)).
Proof. apply iterator_error_repeats. vm_compute. reflexivity. Defined.
