(* ===== verification/Exchange.v ===== *)
(** * A request and its response, end to end

    [MainDevice::single_pdu] together with the TX/RX task and a network: the
    frame is allocated, filled, sent, answered, received, read and freed. *)
From S2P Require Import Prelude Wire Derive DeriveEnum Errors PduTypes PduChain Frame CreatedFrame TxRx Samples.

(** ** Definitions *)

(** The TX task sends the next frame: its bytes. *)
Definition transmit : St PduStorage Error bytes :=
  sending ← next_sendable_frame;
  i ← lift (ok_or sending E_SendFrame);
  f ← frame_at_index i;
  b ← lift (as_bytes f);
  _ ← send_blocking i (fun b => Ok (length b));
  mret b.

(** The TX/RX task sends the next frame; [network] is what comes back for it. *)
Definition network_turn (source_mac : bytes) (network : bytes -> bytes)
    : St PduStorage Error ReceiveAction :=
  b ← transmit;
  receive_frame source_mac (network b).

(** [frame.await?.first_pdu(handle)], with the response there at the first poll. *)
Definition await_first_pdu (fut : ReceiveFrameFut) (handle : PduResponseHandle)
    : St PduStorage Error ReceivedPdu :=
  '(_, polled) ← fut_poll false fut;
  match polled with
  | Ready r => i ← lift r; ReceivedFrame_first_pdu i handle
  | Pending => fail E_Internal
  end.

Definition single_pdu {P : Profile} {T} (command : Command) (w : WireWrite T) (data : T)
    (len_override : option Z) (timeout : TimeoutKind) (retries : nat)
    (source_mac : bytes) (network : bytes -> bytes) : St PduStorage Error ReceivedPdu :=
  '(fut, handle) ← single_pdu_send command w data len_override timeout retries;
  _ ← network_turn source_mac network;
  await_first_pdu fut handle.

(** ** Lemmas *)

(** A frame that was allocated is fresh and its slot was free. *)
Lemma alloc_frame_fresh s cf :
  storage_wf s -> (alloc_frame s).1 = Ok cf ->
  exists f x, frames s !! inner cf = Some f /\ status f = FS_None /\
    cf = mkCreatedFrame (inner cf) 0 None /\
    alloc_frame s = (Ok cf, with_frame (inner cf)
      (fresh_frame (Z.of_nat (inner cf)) (frame_data_len s)) (with_frame_idx (wrap 8 x) s)).
Proof.
  intros Hs Hcf.
  assert (forall r, alloc_loop (num_frames s * 2) s = r -> alloc_frame s = r) as Halloc
    by (intros r <-; unfold alloc_frame; by rewrite (st_step (gets num_frames) _ s (num_frames s) s)).
  destruct (alloc_loop_spec (num_frames s * 2) s Hs) as [(k & f & Hk & Hf & Hst & Ha)|[_ [x Ha]]];
    apply Halloc in Ha; rewrite Ha in Hcf; [|done]. injection Hcf as <-.
  by exists f, (frame_idx s + Z.of_nat k + 1).
Qed.

(** [alloc_frame], the push and [mark_sendable] on a slot that is free. *)
Lemma single_pdu_send_ok {P : Profile} {T} s cf command (w : WireWrite T) data enc len_override timeout retries :
  storage_wf s -> (frame_data_len s <= MAX_DATA)%nat ->
  (alloc_frame s).1 = Ok cf ->
  packs w data enc ->
  let n := data_length w data len_override in
  (16 + (n + 12) <= frame_data_len s)%nat ->
  let p := pushed_pdu command (pdu_idx s) (payload_of enc n) in
  let i := inner cf in
  exists f f' x,
    frames s !! i = Some f /\ status f = FS_None /\ pdu_valid p /\
    status f' = FS_Sendable /\ first_pdu f' = pdu_idx s /\
    ethernet_frame f' = sent_bytes [p] ++ zeros (frame_data_len s - (16 + (n + 12))) /\
    pdu_payload_len f' = (n + 12)%nat /\ in_u 8 x /\
    single_pdu_send command w data len_override timeout retries s =
      (Ok (mkFut (Some i) timeout retries, mkHandle 0 (pdu_idx s) (code command) (n + 12)),
       with_tx_woken true (with_frame i f' (with_pdu_idx (wrap 8 (pdu_idx s + 1)) (with_frame_idx x s)))).
Proof.
  intros Hs Hmax Hcf Hp n Hfit p i. unfold single_pdu_send.
  destruct (alloc_frame_fresh s cf Hs Hcf) as (f & x0 & Hf & Hst & Hcf1 & Ha). set (x := wrap 8 x0) in *. fold i in Hf, Hcf1, Ha.
  assert (storage_wf (with_frame_idx x s)) as Hs1 by by apply with_frame_idx_wf.
  set (s1 := with_frame_idx x s) in *. rewrite (st_step _ _ _ _ _ Ha). clear Ha Hcf.
  set (cf1 := mkCreatedFrame i 0 None) in *. rewrite Hcf1.
  set (f1 := fresh_frame _ _) in *. set (s2 := with_frame i f1 s1).
  assert (storage_wf s2) as Hs2.
  { apply with_frame_wf; [done|]. apply fresh_ok. apply Hs. }
  assert (holds s2 cf1 [] f1) as Hh.
  { apply (holds_fresh s1 i (Z.of_nat i) cf1); [done| |done..]. apply (lookup_slot _ _ _ Hf). }
  assert (length enc <= n)%nat as Hn.
  { unfold n, data_length. rewrite (pk_len _ _ _ Hp). destruct len_override; lia. }
  assert (length (pdu_buf f1) = (frame_data_len s - 16)%nat) as Hbuf.
  { unfold f1. rewrite pdu_buf_fresh, length_zeros by apply Hs. done. }
  destruct (push_bytes_fits s2 cf1 [] f1 command w data enc n Hs2 Hmax Hh Hp Hn) as (Hpush & Hpv & Hpl).
  { cbn [pdus_bytes length]. lia. }
  change (pdu_idx s2) with (pdu_idx s) in *. fold p in Hpush, Hpv, Hpl. cbn [app] in *.
  set (s3 := with_frame (inner cf1) _ _) in Hpush. set (cf' := mkCreatedFrame _ _ _) in Hpush.
  set (h := mkHandle _ _ _ _) in Hpush.
  rewrite (st_step _ _ _ (h, cf') s3).
  2: { unfold push_or_drop, run_push, push_pdu. fold n. rewrite Hpush. done. }
  cbv beta iota.
  set (f2 := pushed_frame [] p f1) in *.
  assert (storage_wf (with_pdu_idx (wrap 8 (pdu_idx s + 1)) s2)) as Hs2' by by apply with_pdu_idx_wf.
  assert (holds s3 cf' [p] f2) as Hh3.
  { apply (holds_pushed (with_pdu_idx (wrap 8 (pdu_idx s + 1)) s2) cf1 [] f1 p cf'); try done.
    destruct Hh. by constructor. }
  assert (storage_wf s3) as Hs3.
  { apply with_frame_wf; [done|]. apply pushed_frame_ok; [|done]. apply fresh_ok, Hs. }
  rewrite (st_step _ _ _ _ _ (mark_sendable_ok s3 cf' [p] f2 timeout retries Hs3 Hmax Hh3)).
  exists f, (sendable_frame [p] f2), x. split_and!; try done.
  - cbn [sendable_frame ethernet_frame]. unfold sent_bytes. rewrite (ho_buf _ _ _ _ Hh3).
    rewrite <- !app_assoc. do 4 f_equal.
    unfold f2, pushed_frame. rewrite pdu_buf_set.
    2: { unfold f1. cbn [ethernet_frame]. rewrite length_fresh.
      all: pose proof (swf_data s Hs); rewrite MIN_DATA_eq in *;
        unfold pdu_payload_start, ETHERNET_HEADER_LEN; lia. }
    rewrite length_app, length_zeros. cbn [app] in *. rewrite Hbuf.
    assert (length (pdus_bytes [p]) = (n + 12)%nat) as ->.
    { rewrite length_pdus_bytes by (by constructor). cbn. unfold pdu_len, p. cbn [p_data pushed_pdu].
      rewrite length_payload_of by done. lia. }
    lia.
  - cbn [sendable_frame pdu_payload_len]. rewrite (ho_len _ _ _ _ Hh3).
    rewrite length_pdus_bytes by (by constructor). cbn. unfold pdu_len, p. cbn [p_data pushed_pdu].
    rewrite length_payload_of by done. lia.
  - by apply wrap_in_u.
  - rewrite (st_step wake_sender _ _ tt (with_tx_woken true (with_frame (inner cf') (sendable_frame [p] f2) s3)))
      by done.
    unfold s3, s2, s1. cbn [inner cf' cf1]. rewrite with_frame_twice. unfold mret, St_ret.
    unfold with_tx_woken, with_frame, with_frames, with_pdu_idx, with_frame_idx. cbn -[sendable_frame wrap].
    by rewrite !list_insert_insert_eq.
Qed.

(** The only frame to send is found. *)
Lemma next_sendable_only s i f :
  exit_flag s = false -> frames s !! i = Some f -> status f = FS_Sendable ->
  (forall j g, (j < i)%nat -> frames s !! j = Some g -> status g <> FS_Sendable) ->
  next_sendable_frame (E:=Error) s = (Ok (Some i), with_frame i (set_state FS_Sending f) s).
Proof.
  intros Hx Hf Hst Hmin. unfold next_sendable_frame.
  rewrite (st_step (gets num_frames) _ s (num_frames s) s) by done.
  rewrite (next_sendable_loop_spec s 0) by (rewrite ?length_seq; done || lia).
  by rewrite drop_0, (list_find_first _ _ i f Hf Hst Hmin).
Qed.

Lemma frame_index_first search s i f :
  frames s !! i = Some f -> first_pdu f = search ->
  (forall j g, (j < i)%nat -> frames s !! j = Some g -> first_pdu g <> search) ->
  frame_index_by_first_pdu_index search s = Some i.
Proof.
  intros Hf Hs Hmin. unfold frame_index_by_first_pdu_index. rewrite find_first_pdu_spec.
  by rewrite (list_find_first _ _ i f Hf Hs Hmin).
Qed.

(** The first frame to send goes out as it was built, and is then [Sent]. *)
Lemma transmit_ok s i f ps tail :
  exit_flag s = false -> frames s !! i = Some f -> status f = FS_Sendable ->
  (forall j g, (j < i)%nat -> frames s !! j = Some g -> status g <> FS_Sendable) ->
  ethernet_frame f = sent_bytes ps ++ tail -> pdu_payload_len f = length (pdus_bytes ps) ->
  transmit s = (Ok (sent_bytes ps), with_frame i (set_state FS_Sent f) s).
Proof.
  intros Hx Hf Hst Hmin Heth Hlen.
  assert (length (sent_bytes ps) = (16 + length (pdus_bytes ps))%nat) as Hsl.
  { unfold sent_bytes. rewrite !length_app. cbn. lia. }
  unfold transmit. rewrite (st_step _ _ _ _ _ (next_sendable_only s i f Hx Hf Hst Hmin)).
  set (f1 := set_state FS_Sending f).
  rewrite (st_step (lift _) _ _ i (with_frame i f1 s)) by done.
  pose proof (with_frame_lookup i f1 s (lookup_slot _ _ _ Hf)) as Hf1.
  rewrite (st_step _ _ _ _ _ (frame_at_index_ok _ _ _ Hf1)).
  assert (as_bytes (E:=Error) f1 = Ok (sent_bytes ps)) as Hb.
  { unfold as_bytes, buffer_len, f1, ETHERNET_HEADER_LEN.
    cbn [set_state pdu_payload_len ethernet_frame]. rewrite Hlen, Heth.
    rewrite get_range_0 by (rewrite length_app; lia).
    replace (14 + (2 + length (pdus_bytes ps)))%nat with (length (sent_bytes ps)) by lia.
    by rewrite take_app_length. }
  rewrite (st_step (lift _) _ _ (sent_bytes ps) (with_frame i f1 s)) by (unfold lift; by rewrite Hb).
  rewrite (st_step (send_blocking _ _) _ _ (length (sent_bytes ps)) (with_frame i (set_state FS_Sent f) s)); [done|].
  rewrite (send_blocking_spec _ _ _ _ _ Hf1 Hb), Nat.eqb_refl, with_frame_twice. done.
Qed.

(** The response to the frame in slot [i] is stored there. *)
Lemma receive_frame_ok s i f source_mac p ps dst src padding :
  storage_wf s -> exit_flag s = false -> frames s !! i = Some f -> status f = FS_Sent ->
  first_pdu f = p_index p -> (forall j g, (j < i)%nat -> frames s !! j = Some g -> first_pdu g <> p_index p) ->
  length dst = 6%nat -> length src = 6%nat -> src <> source_mac ->
  Forall pdu_valid (p :: ps) -> (length (pdus_bytes (p :: ps)) < 2048)%nat ->
  (length (pdus_bytes (p :: ps)) <= length (pdu_buf f))%nat ->
  receive_frame source_mac (response dst src (p :: ps) padding) s =
    (Ok Processed, with_frame i (received (pdus_bytes (p :: ps)) f) s).
Proof.
  intros Hs Hx Hf Hst Hidx Hmin Hd Hsrc Hne Hv Hmax Hfit. apply Forall_cons in Hv as [Hp Hps].
  rewrite receive_frame_response by done.
  pose proof (store_response_spec s (pdus_bytes (p :: ps)) (p_index p) Hs) as H.
  rewrite (frame_index_first _ _ i f Hf Hidx Hmin) in H.
  destruct H as (g & Hg & _ & ->). rewrite Hf in Hg. injection Hg as <-.
  by rewrite decide_True, (proj2 (Nat.leb_le _ _)) by done.
Qed.

(** One turn of the network takes the frame from [Sendable] to [RxDone]. *)
Lemma network_turn_ok s i f source_mac network ps p' ps' dst src padding tail :
  storage_wf s -> exit_flag s = false -> frames s !! i = Some f -> status f = FS_Sendable ->
  (forall j g, (j < i)%nat -> frames s !! j = Some g -> status g <> FS_Sendable /\ first_pdu g <> first_pdu f) ->
  ethernet_frame f = sent_bytes ps ++ tail -> pdu_payload_len f = length (pdus_bytes ps) ->
  network (sent_bytes ps) = response dst src (p' :: ps') padding ->
  length dst = 6%nat -> length src = 6%nat -> src <> source_mac ->
  Forall pdu_valid (p' :: ps') -> p_index p' = first_pdu f ->
  length (pdus_bytes (p' :: ps')) = length (pdus_bytes ps) -> (length (pdus_bytes ps) < 2048)%nat ->
  network_turn source_mac network s = (Ok Processed, with_frame i (received (pdus_bytes (p' :: ps')) f) s).
Proof.
  intros Hs Hx Hf Hst Hmin Heth Hlen Hnet Hd Hsrc Hne Hv Hidx Hl Hmax.
  unfold network_turn. rewrite (st_step _ _ _ _ _ (transmit_ok s i f ps tail Hx Hf Hst
    (fun j g Hj Hg => proj1 (Hmin j g Hj Hg)) Heth Hlen)), Hnet.
  set (f2 := set_state FS_Sent f). pose proof (lookup_slot _ _ _ Hf) as Hi.
  rewrite (receive_frame_ok (with_frame i f2 s) i f2).
  - by rewrite with_frame_twice.
  - apply with_frame_wf; [done|]. by apply (frame_ok_lookup _ _ _ Hs Hf).
  - done.
  - by apply with_frame_lookup.
  - done.
  - done.
  - intros j g Hj Hg. rewrite with_frame_lookup_ne in Hg by lia. rewrite Hidx. by apply (Hmin j g).
  - done.
  - done.
  - done.
  - done.
  - lia.
  - change (pdu_buf f2) with (pdu_buf f). rewrite length_pdu_buf, Heth, length_app.
    unfold sent_bytes. rewrite !length_app. cbn [length le_bytes].
    change (length eth_header) with 14%nat. unfold pdu_payload_start, ETHERNET_HEADER_LEN. lia.
Qed.

(** Awaiting the response reads it and frees the slot. *)
Lemma await_first_pdu_ok s i f handle timeout retries p rest :
  frames s !! i = Some f -> status f = FS_RxDone -> pdu_valid p ->
  pdu_buf f = pdus_bytes [p] ++ rest -> h_command_code handle = p_code p ->
  h_pdu_idx handle = p_index p ->
  await_first_pdu (mkFut (Some i) timeout retries) handle s =
    (Ok (pdu_ref i pdu_payload_start p),
     with_frame i (clear_first_pdu (set_state FS_None (set_waker true f))) s).
Proof.
  intros Hf Hst Hp Hb Hc Hi. unfold await_first_pdu.
  rewrite (st_step _ _ _ _ _ (fut_poll_ready false i timeout retries s f Hf Hst)). cbv beta iota.
  set (f1 := set_state FS_RxProcessing (set_waker true f)).
  pose proof (with_frame_lookup i f1 s (lookup_slot _ _ _ Hf)) as Hf1.
  rewrite (st_step (lift _) _ _ i (with_frame i f1 s)) by done.
  rewrite (first_pdu_ok i handle _ f1 (Ok (pdu_ref i pdu_payload_start p)) Hf1); [|done|].
  - by rewrite with_frame_twice.
  - by apply (first_pdu_res_ok i handle f1 p [] rest).
Qed.

Lemma received_buf data f :
  (pdu_payload_start <= length (ethernet_frame f))%nat ->
  pdu_buf (received data f) = data ++ drop (length data) (pdu_buf f).
Proof.
  intros H. unfold pdu_buf at 1, received. cbn [ethernet_frame].
  rewrite drop_app_ge by (rewrite length_take; lia). rewrite length_take, Nat.min_l, Nat.sub_diag by lia.
  rewrite drop_0. unfold splice. by rewrite take_0.
Qed.

(** All of [single_pdu] with a network that answers. *)
Lemma single_pdu_ok {P : Profile} {T} s cf command (w : WireWrite T) data enc len_override
    timeout retries source_mac network dst src padding p' :
  let n := data_length w data len_override in
  let p := pushed_pdu command (pdu_idx s) (payload_of enc n) in
  storage_wf s -> (frame_data_len s <= MAX_DATA)%nat -> exit_flag s = false ->
  (alloc_frame s).1 = Ok cf ->
  (forall j g, (j < inner cf)%nat -> frames s !! j = Some g ->
    status g <> FS_Sendable /\ first_pdu g <> pdu_idx s) ->
  packs w data enc -> (16 + (n + 12) <= frame_data_len s)%nat ->
  network (sent_bytes [p]) = response dst src [p'] padding ->
  length dst = 6%nat -> length src = 6%nat -> src <> source_mac ->
  pdu_valid p' -> p_code p' = code command -> p_index p' = pdu_idx s ->
  length (p_data p') = n ->
  exists s' rp,
    single_pdu command w data len_override timeout retries source_mac network s = (Ok rp, s') /\
    working_counter rp = p_wkc p' /\ deref s' rp = p_data p' /\
    (exists f, frames s' !! inner cf = Some f /\ status f = FS_None /\ first_pdu f = FIRST_PDU_EMPTY) /\
    (forall j, j <> inner cf -> frames s' !! j = frames s !! j).
Proof.
  intros n p Hs Hmax Hx Hcf Hother Hp Hfit Hnet Hd Hsrc Hne Hp' Hc' Hi' Hl'.
  destruct (single_pdu_send_ok s cf command w data enc len_override timeout retries Hs Hmax Hcf Hp Hfit)
    as (f & f' & x & Hf & _ & Hpv & Hst & Hfirst & Heth & Hlen & Hxu & Hsend).
  fold n p in Hpv, Heth, Hlen, Hsend. set (i := inner cf) in *.
  unfold single_pdu. rewrite (st_step _ _ _ _ _ Hsend). cbv beta iota.
  set (s1 := with_tx_woken true _).
  assert (frames s1 = <[i := f']> (frames s)) as Hfr by done.
  assert (frames s1 !! i = Some f') as Hf1.
  { rewrite Hfr. apply list_lookup_insert_eq. by apply (lookup_slot _ _ _ Hf). }
  assert (length (payload_of enc n) = n) as Hpay.
  { apply length_payload_of. unfold n, data_length. rewrite (pk_len _ _ _ Hp).
    destruct len_override; lia. }
  assert (pdu_len p = n + 12)%nat as Hpl.
  { unfold pdu_len, p. cbn [p_data pushed_pdu]. lia. }
  assert (length (pdus_bytes [p]) = pdu_len p) as Hpb.
  { rewrite length_pdus_bytes by (by constructor). apply Nat.add_0_r. }
  assert (length (ethernet_frame f') = frame_data_len s) as Hfl.
  { rewrite Heth, length_app, length_zeros. unfold sent_bytes. rewrite !length_app, Hpb. cbn. lia. }
  assert (storage_wf s1) as Hs1.
  { destruct Hs. constructor; cbn; try done.
    - unfold num_frames in *. cbn. by rewrite length_insert.
    - apply Forall_insert; [done|]. split; [done|].
      rewrite Hlen. unfold pdu_payload_start, ETHERNET_HEADER_LEN. lia.
    - apply wrap_in_u. lia. }
  unfold MAX_DATA in Hmax.
  rewrite (st_step _ _ _ _ _ (network_turn_ok s1 i f' source_mac network [p] p' [] dst src padding _
    Hs1 Hx Hf1 Hst ltac:(intros j g Hj Hg; rewrite Hfr, list_lookup_insert_ne in Hg by lia;
      rewrite Hfirst; by apply (Hother j g)) Heth ltac:(lia) Hnet Hd Hsrc Hne ltac:(by constructor)
    ltac:(congruence) ltac:(rewrite Hpb, Hpl, length_pdus_bytes by (by constructor); cbn; unfold pdu_len; lia) ltac:(lia))).
  set (f2 := received (pdus_bytes [p']) f').
  pose proof (with_frame_lookup i f2 s1 (lookup_slot _ _ _ Hf1)) as Hf2.
  assert (pdu_payload_start <= length (ethernet_frame f'))%nat as Hpay'.
  { rewrite Hfl. unfold pdu_payload_start, ETHERNET_HEADER_LEN. lia. }
  rewrite (await_first_pdu_ok _ i f2 (mkHandle 0 (pdu_idx s) (code command) (n + 12)) timeout retries p' _ Hf2 eq_refl Hp'
    (received_buf _ _ Hpay') (eq_sym Hc') (eq_sym Hi')), with_frame_twice.
  set (f3 := clear_first_pdu _).
  pose proof (with_frame_lookup i f3 s1 (lookup_slot _ _ _ Hf1)) as Hf3.
  eexists _, _. split_and!; [done|done| |by exists f3|].
  - rewrite <- (Nat.add_0_r pdu_payload_start).
    apply (deref_ref _ i f3 false p' [] (drop (length (pdus_bytes [p'])) (pdu_buf f')));
      [done|done| |].
    + cbn [f3 clear_first_pdu store_first_pdu set_state set_waker ethernet_frame f2 received].
      rewrite length_app, length_take. lia.
    + change (pdu_buf f3) with (pdu_buf f2). unfold f2. rewrite received_buf by done.
      cbn [pdus_bytes app length Nat.eqb negb]. by rewrite app_nil_r.
  - intros j Hj. rewrite with_frame_lookup_ne, Hfr by done. by apply list_lookup_insert_ne.
Qed.

(** ** Properties *)

(** C1: A PDU sent with [single_pdu] comes back: if the network answers the
    frame it is given with a PDU of the same command, index and length, the
    caller gets the working counter and the data the network put in it, the
    slot is free again and no other slot has changed. *)
Theorem single_pdu_roundtrip {P : Profile} {T} s cf command (w : WireWrite T) data enc len_override
    timeout retries source_mac network dst src padding p' :
  let n := data_length w data len_override in
  let p := pushed_pdu command (pdu_idx s) (payload_of enc n) in
  (* the storage is well-formed, and the slot [cf] is the next to be allocated *)
  storage_wf s -> (frame_data_len s <= MAX_DATA)%nat -> exit_flag s = false ->
  (alloc_frame s).1 = Ok cf ->
  (* nothing else is waiting to be sent or holds the index of this PDU *)
  (forall j g, (j < inner cf)%nat -> frames s !! j = Some g ->
    status g <> FS_Sendable /\ first_pdu g <> pdu_idx s) ->
  (* the data packs as [enc] and fits *)
  packs w data enc -> (16 + (n + 12) <= frame_data_len s)%nat ->
  (* the network's answer *)
  network (sent_bytes [p]) = response dst src [p'] padding ->
  length dst = 6%nat -> length src = 6%nat -> src <> source_mac ->
  pdu_valid p' -> p_code p' = code command -> p_index p' = pdu_idx s ->
  length (p_data p') = n ->
  exists s' rp,
    single_pdu command w data len_override timeout retries source_mac network s = (Ok rp, s') /\
    working_counter rp = p_wkc p' /\ deref s' rp = p_data p' /\
    (exists f, frames s' !! inner cf = Some f /\ status f = FS_None /\ first_pdu f = FIRST_PDU_EMPTY) /\
    (forall j, j <> inner cf -> frames s' !! j = frames s !! j).
Proof. intros n p. apply single_pdu_ok. Qed.

(** ** Witnesses *)

Lemma single_pdu_roundtrip_witness :
  let read := Read (Fprd 0x1000 0x130) in
  exists s' rp,
    single_pdu (P:=true) read unit_write tt (Some 2) TK_Pdu 0 MAINDEVICE_ADDR
      (fun _ => response BROADCAST answer_mac [answer_pdu read [0x08; 0x00]] []) small_storage =
      (Ok rp, s') /\
    working_counter rp = 1 /\ deref s' rp = [0x08; 0x00] /\
    (exists f, frames s' !! 0%nat = Some f /\ status f = FS_None /\ first_pdu f = FIRST_PDU_EMPTY) /\
    (forall j, j <> 0%nat -> frames s' !! j = frames small_storage !! j).
Proof.
  intros read.
  apply (single_pdu_roundtrip (P:=true) small_storage (mkCreatedFrame 0 0 None) read unit_write tt []
    (Some 2) TK_Pdu 0 MAINDEVICE_ADDR _ BROADCAST answer_mac [] (answer_pdu read [0x08; 0x00])).
  - exact small_storage_wf.
  - apply Nat.leb_le. reflexivity.
  - reflexivity.
  - reflexivity.
  - cbn. lia.
  - exact packs_unit.
  - apply Nat.leb_le. reflexivity.
  - reflexivity.
  - reflexivity.
  - reflexivity.
  - intros [=].
  - apply answer_pdu_valid; [|cbn; lia]. repeat constructor; cbn; lia.
  - reflexivity.
  - reflexivity.
  - reflexivity.
Defined.
