(* ===== verification/CommandSpec.v ===== *)
(** * Commands over the PDU loop

    The PDU loop with its TX/RX task and a network is a [Bus]: what
    [WrappedRead] and [WrappedWrite] give their callers on it. *)
From S2P Require Import Prelude Wire Derive DeriveEnum Errors PduTypes PduChain Bus Frame CreatedFrame TxRx Samples Exchange.

(** ** Definitions *)

(** The rest of the slot behind a PDU. *)
Definition behind (s : PduStorage) (p : ReceivedPdu) : bytes :=
  match frames s !! rp_slot p with
  | Some f => drop (rp_start p + rp_len p) (ethernet_frame f)
  | None => []
  end.

Section Loop.
Context {P : Profile} (timeout : TimeoutKind) (retries : nat) (source_mac : bytes)
  (network : bytes -> bytes).

(** The data of the answer is read before anything else happens to its slot. *)
Definition pdu_loop_bus : Bus PduStorage := {|
  bus_pdu command data len_override :=
    rp ← single_pdu command slice_write data len_override timeout retries source_mac network;
    data ← gets (fun s => deref s rp);
    behind ← gets (fun s => behind s rp);
    mret (mkReceived (working_counter rp) data behind)
|}.

End Loop.

(** The network answers a request with payload [enc] of [n] bytes to slot [i],
    the next to be allocated, with PDU [p']. *)
Record answers (s : PduStorage) (i : nat) (command : Command) (enc : bytes) (n : nat)
    (source_mac : bytes) (network : bytes -> bytes) (p' : Pdu) : Prop := {
  an_wf : storage_wf s;
  an_len : (frame_data_len s <= MAX_DATA)%nat;
  an_run : exit_flag s = false;
  an_slot : exists cf, (alloc_frame s).1 = Ok cf /\ inner cf = i;
  an_other : forall j g, (j < i)%nat -> frames s !! j = Some g ->
    status g <> FS_Sendable /\ first_pdu g <> pdu_idx s;
  an_fit : (16 + (n + 12) <= frame_data_len s)%nat;
  an_answer : exists dst src padding, length dst = 6%nat /\ length src = 6%nat /\ src <> source_mac /\
    network (sent_bytes [pushed_pdu command (pdu_idx s) (payload_of enc n)]) = response dst src [p'] padding;
  an_valid : pdu_valid p';
  an_code : p_code p' = code command;
  an_index : p_index p' = pdu_idx s;
  an_data : length (p_data p') = n;
}.

(** ** Lemmas *)

Section Laws.
Context {P : Profile} (timeout : TimeoutKind) (retries : nat) (source_mac : bytes)
  (network : bytes -> bytes).

#[local] Instance the_bus : Bus PduStorage := pdu_loop_bus timeout retries source_mac network.

Lemma bus_pdu_ok s i command data len_override n p' :
  bytes_ok data -> data_length slice_write data len_override = n ->
  answers s i command data n source_mac network p' ->
  exists s' behind, bus_pdu command data len_override s = (Ok (mkReceived (p_wkc p') (p_data p') behind), s') /\
    (exists f, frames s' !! i = Some f /\ status f = FS_None) /\
    forall j, j <> i -> frames s' !! j = frames s !! j.
Proof.
  intros Hdata <- []. destruct an_slot0 as (cf & Hcf & <-).
  destruct an_answer0 as (dst & src & padding & Hd & Hsrc & Hne & Hnet).
  destruct (single_pdu_ok s cf command slice_write data data len_override timeout retries source_mac
    network dst src padding p') as (s' & rp & Hrun & Hwkc & Hdata' & (f & Hf & Hst & _) & Hrest);
    try done; [by apply packs_slice|].
  exists s', (behind s' rp). split_and!; [|by exists f|done].
  cbn [bus_pdu the_bus pdu_loop_bus]. rewrite (st_step _ _ _ _ _ Hrun).
  unfold mbind, St_bind, gets, mret, St_ret. by rewrite Hwkc, Hdata'.
Qed.

(** ** Properties *)

(** C32: A value received with a wrapped read command over the PDU loop is the
    value the network's answer encodes.  With an expected working counter (1
    unless changed), an answer with another one is a [WorkingCounter] error that
    names both.  The slot of the request is free again either way. *)
Theorem receive_spec {T} (r : WireRead T) s i (c : WrappedRead) p' :
  Z.of_nat (PACKED_LEN r) < 65536 ->
  answers s i (Read (wr_command c)) [] (PACKED_LEN r) source_mac network p' ->
  exists s', receive r c s =
      (if decide (wr_wkc c = None \/ wr_wkc c = Some (p_wkc p'))
       then from_wire (unpack_from_slice r (p_data p'))
       else Err (E_WorkingCounter (default 0 (wr_wkc c)) (p_wkc p')), s') /\
    (exists f, frames s' !! i = Some f /\ status f = FS_None) /\
    forall j, j <> i -> frames s' !! j = frames s !! j.
Proof.
  intros Hlen Ha. assert (wrap 16 (Z.of_nat (PACKED_LEN r)) = Z.of_nat (PACKED_LEN r)) as Hw.
  { apply wrap_small. split; [lia|]. change (2 ^ 16) with 65536. lia. }
  destruct (bus_pdu_ok s i (Read (wr_command c)) [] (Some (Z.of_nat (PACKED_LEN r))) (PACKED_LEN r) p' ltac:(constructor)
    ltac:(cbn; lia) Ha) as (s' & rest & Hrun & Hslot & Hrest).
  exists s'. split_and!; [|done..]. unfold receive, read_common. rewrite Hw.
  rewrite (st_step _ _ _ _ _ Hrun). unfold pdu_maybe_wkc. cbn [rd_wkc rd_data].
  destruct (wr_wkc c) as [e|].
  - destruct (Z.eqb_spec (p_wkc p') e) as [<-|Hne].
    + by rewrite decide_True by auto.
    + rewrite decide_False by (by intros [|[= ->]]). done.
  - by rewrite decide_True by auto.
Qed.

(** [send] returns [Ok] whatever the working counter of the answer, also
    when one is expected: a write no SubDevice has taken is not reported. *)
Theorem send_ignores_working_counter {T} (w : WireWrite T) s i (c : WrappedWrite) v data n p' :
  pack w v = Ok data -> bytes_ok data ->
  data_length slice_write data (ww_len_override c) = n ->
  answers s i (Write (ww_command c)) data n source_mac network p' ->
  exists s', send w c v s = (Ok tt, s').
Proof.
  intros Hpack Hok Hn Ha.
  destruct (bus_pdu_ok s i (Write (ww_command c)) data (ww_len_override c) n p' Hok Hn Ha) as (s' & rest & Hrun & _).
  exists s'. unfold send, write_common. rewrite Hpack.
  unfold mbind, St_bind, lift. by rewrite Hrun.
Qed.

End Laws.

(** *** Witnesses *)

(** The answer with another working counter. *)
Definition with_p_wkc (wkc : Z) (p : Pdu) : Pdu :=
  mkPdu (p_code p) (p_index p) (p_raw p) (p_circulated p) (p_irq p) (p_data p) wkc.

Definition fixed_network (p' : Pdu) : bytes -> bytes := fun _ => response BROADCAST answer_mac [p'] [].

Lemma answers_small command enc data wkc :
  bytes_ok data -> (length data <= 4)%nat -> in_u 16 wkc ->
  answers small_storage 0 command enc (length data) MAINDEVICE_ADDR
    (fixed_network (with_p_wkc wkc (answer_pdu command data))) (with_p_wkc wkc (answer_pdu command data)).
Proof.
  intros Hd Hl Hw. constructor.
  - exact small_storage_wf.
  - apply Nat.leb_le. reflexivity.
  - reflexivity.
  - by exists (mkCreatedFrame 0 0 None).
  - intros j g Hj. lia.
  - cbn. lia.
  - exists BROADCAST, answer_mac, []. by split_and!.
  - destruct (answer_pdu_valid command data Hd ltac:(lia)) as []. by constructor.
  - done.
  - done.
  - done.
Qed.

Lemma receive_spec_witness :
  exists s', receive (Bus0:=pdu_loop_bus (P:=true) TK_Pdu 0 MAINDEVICE_ADDR
      (fixed_network (with_p_wkc 0 (answer_pdu (Read (Fprd 0x1000 0x130)) [8; 0]))))
    u16_read (fprd 0x1000 0x130) small_storage = (Err (E_WorkingCounter 1 0), s').
Proof.
  destruct (receive_spec (P:=true) TK_Pdu 0 MAINDEVICE_ADDR
    (fixed_network (with_p_wkc 0 (answer_pdu (Read (Fprd 0x1000 0x130)) [8; 0])))
    u16_read small_storage 0 (fprd 0x1000 0x130) (with_p_wkc 0 (answer_pdu (Read (Fprd 0x1000 0x130)) [8; 0])))
    as (s' & H & _).
  - cbn. lia.
  - apply (answers_small (Read (Fprd 0x1000 0x130)) [] [8; 0] 0); [by repeat constructor|cbn; lia|by split].
  - exists s'. exact H.
Defined.

Lemma send_ignores_working_counter_witness :
  exists s', send (Bus0:=pdu_loop_bus (P:=true) TK_Pdu 0 MAINDEVICE_ADDR
      (fixed_network (with_p_wkc 0 (answer_pdu (Write (Fpwr 0x1000 0x120)) [8; 0]))))
    u16_write (fpwr 0x1000 0x120) 8 small_storage = (Ok tt, s').
Proof.
  apply (send_ignores_working_counter (P:=true) TK_Pdu 0 MAINDEVICE_ADDR
    (fixed_network (with_p_wkc 0 (answer_pdu (Write (Fpwr 0x1000 0x120)) [8; 0])))
    u16_write small_storage 0 (fpwr 0x1000 0x120) 8 [8; 0] 2
    (with_p_wkc 0 (answer_pdu (Write (Fpwr 0x1000 0x120)) [8; 0]))).
  - reflexivity.
  - by repeat constructor.
  - reflexivity.
  - apply (answers_small (Write (Fpwr 0x1000 0x120)) [8; 0] [8; 0] 0); [by repeat constructor|cbn; lia|by split].
Defined.
