(* ===== verification/Timers.v ===== *)
(** * Timeouts ([timer_factory.rs])

    The durations of a MainDevice and [TimeoutFuture].  A timer is third-party:
    [Timer] states when it is ready.  The loops of the other files count turns
    ([Bus.loop_with_timeout]); here such a loop is polled against the clock, and
    the count is the number of turns made before the timer fires. *)
From S2P Require Import Prelude Wire Errors Bus TxRx.

(** ** Definitions *)

(** [Duration]s in nanoseconds. *)
Record Timeouts := mkTimeouts {
  state_transition : Z;
  pdu : Z;
  eeprom : Z;
  wait_loop_delay : Z;
  mailbox_echo : Z;
  mailbox_response : Z;
}.

Definition from_micros (n : Z) : Z := n * 1000.
Definition from_millis (n : Z) : Z := n * 1000000.

Definition Timeouts_default : Timeouts := {|
  state_transition := from_millis 5000;
  pdu := from_micros 30000;
  eeprom := from_millis 10;
  wait_loop_delay := from_millis 0;
  mailbox_echo := from_millis 100;
  mailbox_response := from_millis 1000;
|}.

Record LabeledTimeout := mkLabeledTimeout { duration : Z; kind : TimeoutKind }.

(** The methods [Timeouts::state_transition] to [Timeouts::mailbox_response]. *)
Definition labeled (t : Timeouts) (k : TimeoutKind) : LabeledTimeout :=
  mkLabeledTimeout
    match k with
    | TK_StateTransition => state_transition t
    | TK_Pdu => pdu t
    | TK_Eeprom => eeprom t
    | TK_WaitLoopDelay => wait_loop_delay t
    | TK_MailboxEcho => mailbox_echo t
    | TK_MailboxResponse => mailbox_response t
    end k.

(** [Timer::after(duration)] made at [armed] and polled at [now]. *)
Class Timer := {
  timer_ready : Z -> Z -> Z -> bool;
  (** It is ready from the moment the duration has passed. *)
  timer_ready_spec armed d now : timer_ready armed d now = (armed + d <=? now);
}.

Program Definition documented_timer : Timer :=
  {| timer_ready armed d now := armed + d <=? now |}.
Next Obligation. done. Qed.

(** A future is what it keeps between polls; one poll may change the bus as well.
    A panic ends it. *)
Definition Polls (F W O : Type) : Type := F -> W -> Poll (res Error O) * F * W.

Record TimeoutFuture (F : Type) := mkTimeoutFuture {
  tf_f : F;
  tf_armed : Z;
  tf_duration : LabeledTimeout;
}.
Arguments mkTimeoutFuture {F}.
Arguments tf_f {F}.
Arguments tf_armed {F}.
Arguments tf_duration {F}.

(** [IntoTimeout::timeout], called at [now]. *)
Definition timeout {F} (f : F) (t : LabeledTimeout) (now : Z) : TimeoutFuture F :=
  mkTimeoutFuture f now t.

Definition TimeoutFuture_poll {F W O} `{!Timer} (poll : Polls F W O) (now : Z) : Polls (TimeoutFuture F) W O :=
  fun this w =>
    if timer_ready (tf_armed this) (duration (tf_duration this)) now then
      (Ready (e ← from_timeout_kind (kind (tf_duration this)); Err (E_Timeout e)), this, w)
    else
      let '(x, f, w) := poll (tf_f this) w in
      (x, mkTimeoutFuture f (tf_armed this) (tf_duration this), w).

(** An executor polls until the future is ready, each poll with what it finds
    from outside, such as the time; [None] when the polls run out. *)
Fixpoint run_polls {I F W O} (poll : I -> Polls F W O) (inputs : list I) (f : F) (w : W)
    : option (res Error O) * W :=
  match inputs with
  | [] => (None, w)
  | i :: inputs =>
      match poll i f w with
      | (Ready x, _, w) => (Some x, w)
      | (Pending, f, w) => run_polls poll inputs f w
      end
  end.

(** An async block with a loop: in one poll it completes some number of turns,
    and waits in the next. *)
Fixpoint loop_turns {W A B} (step : A -> St W Error (A + B)) (n : nat) (a : A) : St W Error (A + B) :=
  match n with
  | O => mret (inl a)
  | S n =>
      r ← step a;
      match r with
      | inl a => loop_turns step n a
      | inr b => mret (inr b)
      end
  end.

Definition loop_poll {W A B} (step : A -> St W Error (A + B)) (n : nat) : Polls A W B := fun a w =>
  match loop_turns step n a w with
  | (Ok (inl a), w) => (Pending, a, w)
  | (Ok (inr b), w) => (Ready (Ok b), a, w)
  | (Err e, w) => (Ready (Err e), a, w)
  | (Panic, w) => (Ready Panic, a, w)
  end.

(** [async { loop { .. } }.timeout(..)], polled at some times. *)
Definition timed_loop_poll {W A B} `{!Timer} (step : A -> St W Error (A + B)) (p : Z * nat)
    : Polls (TimeoutFuture A) W B :=
  TimeoutFuture_poll (loop_poll step p.2) p.1.

(** The turns of some polls. *)
Definition turns_of (polls : list (Z * nat)) : nat := sum_list (snd <$> polls).

(** ** Lemmas *)

Section Loops.
Context {W A B : Type} (step : A -> St W Error (A + B)).

Lemma iterate_turns n m a w :
  iterate (n + m) step a w =
    match loop_turns step n a w with
    | (Ok (inl a), w) => iterate m step a w
    | (Ok (inr b), w) => (Ok (Some b), w)
    | (Err e, w) => (Err e, w)
    | (Panic, w) => (Panic, w)
    end.
Proof.
  revert a w. induction n as [|n IH]; intros a w; [done|].
  cbn [Nat.add iterate loop_turns]. unfold mbind, St_bind.
  destruct (step a w) as [[[a'|b]|e|] w']; [apply IH|done..].
Qed.

Context {clock : Timer}.

(** A poll after the deadline ends the future without polling what is inside. *)
Lemma expired_poll f armed t now (poll : Polls A W B) w :
  armed + duration t <= now ->
  TimeoutFuture_poll poll now (mkTimeoutFuture f armed t) w =
    (Ready (e ← from_timeout_kind (kind t); Err (E_Timeout e)), mkTimeoutFuture f armed t, w).
Proof. intros Ht. unfold TimeoutFuture_poll. cbn. by rewrite timer_ready_spec, (proj2 (Z.leb_le _ _)). Qed.

Lemma early_poll f armed t now (poll : Polls A W B) w :
  now < armed + duration t ->
  TimeoutFuture_poll poll now (mkTimeoutFuture f armed t) w =
    let '(x, f, w) := poll f w in (x, mkTimeoutFuture f armed t, w).
Proof. intros Ht. unfold TimeoutFuture_poll. cbn. by rewrite timer_ready_spec, (proj2 (Z.leb_gt _ _)). Qed.

(** C13: Polling [async { loop { .. } }.timeout(t)] is [loop_with_timeout]: whatever
    the times of the polls and however many turns the loop makes in each of them, the
    result and what is done to the bus are those of the loop with as many turns as
    fit before the first poll at or after the deadline.  In particular a value that is
    ready at that poll is not looked at any more. *)
Theorem timeout_refines a w t start before now n after :
  Forall (fun p => p.1 < start + duration t) before -> start + duration t <= now ->
  run_polls (timed_loop_poll step) (before ++ (now, n) :: after) (timeout a t start) w =
    let '(r, w) := loop_with_timeout (H := fun _ => turns_of before) (kind t) step a w in (Some r, w).
Proof.
  intros Hb Hnow. revert a w.
  induction Hb as [|[t0 k] before Hlt Hb IH]; intros a w.
  - cbn [app run_polls]. unfold timed_loop_poll at 1. cbn [fst snd].
    unfold timeout. rewrite expired_poll by done. unfold loop_with_timeout, turns_of. cbn.
    by destruct (from_timeout_kind (kind t)).
  - cbn [app run_polls]. unfold timed_loop_poll at 1, timeout at 1. cbn [fst snd] in *.
    rewrite early_poll by done. unfold loop_with_timeout, patience in *.
    change (turns_of ((t0, k) :: before)) with (k + turns_of before)%nat.
    unfold loop_poll, mbind, St_bind in *. rewrite iterate_turns.
    destruct (loop_turns step k a w) as [[[a'|b]|e|] w']; [apply IH|done..].
Qed.

End Loops.

(** A device that is ready at the fourth turn, with the deadline after three turns
    or after five. *)
Definition countdown (_ : unit) : St nat Error (unit + nat) := fun w =>
  (Ok (match w with O => inr 7%nat | S _ => inl tt end), Nat.pred w).

Definition ten_millis : LabeledTimeout := labeled Timeouts_default TK_Eeprom.

Lemma timeout_refines_witness :
  run_polls (timed_loop_poll (H := documented_timer) countdown)
    ([(0, 1%nat); (from_millis 9, 2%nat)] ++ (from_millis 10, 2%nat) :: []) (timeout tt ten_millis 0) 3%nat =
    (Some (Err (E_Timeout TE_Eeprom)), 0%nat) /\
  run_polls (timed_loop_poll (H := documented_timer) countdown)
    ([(0, 1%nat); (from_millis 9, 4%nat)] ++ (from_millis 10, 0%nat) :: []) (timeout tt ten_millis 0) 3%nat =
    (Some (Ok 7%nat), 0%nat).
Proof.
  split; (rewrite (timeout_refines (clock := documented_timer) countdown tt 3%nat ten_millis 0);
    [vm_compute; reflexivity|repeat constructor|vm_compute; discriminate]).
Defined.
