(* ===== verification/Lifecycle.v ===== *)
(** * The life of a slot under interleaving

    The operations of the calling tasks and of the TX/RX task on one slot of
    the storage, as atomic steps.  [Slot] adds to the frame the handles that
    are alive; only the holder of a handle can take the steps of its typestate.
    A step is what happens between two accesses to the frame's state: the
    compare-exchange and the plain store of [mark_sendable] are two steps, and so are
    the two halves of the drop of a [ReceivedFrame].  A handle that is forgotten
    without a drop ([core::mem::forget]) is not modelled. *)
From S2P Require Import Prelude Errors PduTypes Frame.

(** ** Definitions *)

Record Holders := mkHolders {
  h_created : nat;    (* [CreatedFrame] *)
  h_marked : nat;     (* inside [mark_sendable], between its store and the drop of [self] *)
  h_sending : nat;    (* [SendableFrame] *)
  h_receiving : nat;  (* [ReceivingFrame] *)
  h_fut : nat;        (* [ReceiveFrameFut] that holds the frame *)
  h_received : nat;   (* [ReceivedFrame] *)
  h_dropping : nat;   (* a [ReceivedFrame] in its drop, which has given the slot back *)
}.

Record Slot := mkSlot { sl_frame : FrameElement; sl_holders : Holders }.

Definition no_holders : Holders := mkHolders 0 0 0 0 0 0 0.

(** [swap_state] whose result is ignored. *)
Definition try_swap (from to : FrameState) (f : FrameElement) : FrameElement :=
  match swap_state from to f with Ok f => f | _ => f end.

(** Any change of the frame that leaves its state alone: pushing a PDU,
    storing a response, registering a waker. *)
Definition same_state (f g : FrameElement) : Prop := status g = status f.

(** The states in which a poll keeps waiting. *)
Definition awaited (st : FrameState) : bool :=
  match st with FS_Sendable | FS_Sending | FS_Sent | FS_RxBusy => true | _ => false end.

(** The kinds of steps: those a handle takes on a frame it owns or claims; those of
    a future that change the state with a plain store, which are a timeout, a retry
    and a drop; and the reset of the whole storage. *)
Inductive Kind := K_Own | K_Shared | K_Reset.

Inductive step : Kind -> Slot -> Slot -> Prop :=
| step_alloc f f' i c m x r u d g :
    elem_claim_created i f = Ok f' ->
    step K_Own (mkSlot f (mkHolders c m x r u d g)) (mkSlot (frame_init f') (mkHolders (S c) m x r u d g))
| step_push f f' c m x r u d g :
    same_state f f' ->
    step K_Own (mkSlot f (mkHolders (S c) m x r u d g)) (mkSlot f' (mkHolders (S c) m x r u d g))
| step_drop_created f c m x r u d g :
    step K_Own (mkSlot f (mkHolders (S c) m x r u d g))
      (mkSlot (try_swap FS_Created FS_None f) (mkHolders c m x r u d g))
| step_mark_sendable f f' c m x r u d g :
    same_state f f' ->
    step K_Own (mkSlot f (mkHolders (S c) m x r u d g))
      (mkSlot (set_state FS_Sendable f') (mkHolders c (S m) x r u d g))
| step_marked f c m x r u d g :
    step K_Own (mkSlot f (mkHolders c (S m) x r u d g))
      (mkSlot (try_swap FS_Created FS_None f) (mkHolders c m x r (S u) d g))
| step_claim_sending f f' c m x r u d g :
    elem_claim_sending f = Some f' ->
    step K_Own (mkSlot f (mkHolders c m x r u d g)) (mkSlot f' (mkHolders c m (S x) r u d g))
| step_sent f c m x r u d g :
    step K_Own (mkSlot f (mkHolders c m (S x) r u d g))
      (mkSlot (set_state FS_Sent f) (mkHolders c m x r u d g))
| step_send_failed f c m x r u d g :
    step K_Own (mkSlot f (mkHolders c m (S x) r u d g))
      (mkSlot (set_state FS_Sendable f) (mkHolders c m x r u d g))
| step_claim_receiving f f' c m x r u d g :
    elem_claim_receiving f = Some f' ->
    step K_Own (mkSlot f (mkHolders c m x r u d g)) (mkSlot f' (mkHolders c m x (S r) u d g))
| step_store_response f f' c m x r u d g :
    same_state f f' ->
    step K_Own (mkSlot f (mkHolders c m x (S r) u d g)) (mkSlot f' (mkHolders c m x (S r) u d g))
| step_response_too_long f c m x r u d g :
    step K_Own (mkSlot f (mkHolders c m x (S r) u d g)) (mkSlot f (mkHolders c m x r u d g))
| step_mark_received f c m x r u d g :
    step K_Own (mkSlot f (mkHolders c m x (S r) u d g))
      (mkSlot (try_swap FS_RxBusy FS_RxDone f) (mkHolders c m x r u d g))
| step_poll_ready f f' c m x r u d g :
    swap_state FS_RxDone FS_RxProcessing f = Ok f' ->
    step K_Own (mkSlot f (mkHolders c m x r (S u) d g)) (mkSlot f' (mkHolders c m x r u (S d) g))
| step_poll_pending f f' c m x r u d g :
    awaited (status f) = true -> same_state f f' ->
    step K_Own (mkSlot f (mkHolders c m x r (S u) d g)) (mkSlot f' (mkHolders c m x r (S u) d g))
| step_poll_invalid f c m x r u d g :
    awaited (status f) = false -> status f <> FS_RxDone ->
    step K_Own (mkSlot f (mkHolders c m x r (S u) d g)) (mkSlot f (mkHolders c m x r u d g))
| step_retry f c m x r u d g :
    step K_Shared (mkSlot f (mkHolders c m x r (S u) d g))
      (mkSlot (set_state FS_Sendable f) (mkHolders c m x r (S u) d g))
| step_release f c m x r u d g :
    (* the last timeout, or the drop of the future *)
    step K_Shared (mkSlot f (mkHolders c m x r (S u) d g))
      (mkSlot (set_state FS_None f) (mkHolders c m x r u d g))
| step_drop_received f f' c m x r u d g :
    (* the first half of the drop: from here on the slot can be allocated *)
    swap_state FS_RxProcessing FS_None f = Ok f' ->
    step K_Own (mkSlot f (mkHolders c m x r u (S d) g)) (mkSlot f' (mkHolders c m x r u d (S g)))
| step_dropped f c m x r u d g :
    step K_Own (mkSlot f (mkHolders c m x r u d (S g)))
      (mkSlot (clear_first_pdu f) (mkHolders c m x r u d g))
| step_reset f h :
    (* [PduStorageRef::reset], in any state and whoever holds the frame *)
    step K_Reset (mkSlot f h) (mkSlot (set_state FS_None f) h).

(** [drop_received] panics. *)
Definition drop_panics (s : Slot) : Prop :=
  (0 < h_received (sl_holders s))%nat /\ status (sl_frame s) <> FS_RxProcessing.

(** The interleavings in which every step is allowed where it is taken. *)
Inductive steps (allowed : Kind -> Slot -> Prop) : Slot -> Slot -> Prop :=
| steps_refl s : steps allowed s s
| steps_trans s k s' s'' :
    steps allowed s s' -> allowed k s' -> step k s' s'' -> steps allowed s s''.

(** Nobody holds a handle on the frame; a drop may still be at its last step. *)
Definition idle (h : Holders) : Prop := h = mkHolders 0 0 0 0 0 0 (h_dropping h).

(** A future does not change the state while the TX/RX task holds the frame, as on
    one executor thread, on which sending and receiving a frame do not yield; and
    the storage is reset when no frame is in use, as [MainDevice::release] asks for. *)
Definition orderly (k : Kind) (s : Slot) : Prop :=
  match k with
  | K_Own => True
  | K_Shared => h_sending (sl_holders s) = 0%nat /\ h_receiving (sl_holders s) = 0%nat
  | K_Reset => idle (sl_holders s)
  end.

Definition orderly_steps : Slot -> Slot -> Prop := steps orderly.

(** Only the steps of the handles on what they own. *)
Definition owning (k : Kind) (s : Slot) : Prop := k = K_Own.

(** Every step but a reset, at any time. *)
Definition not_reset (k : Kind) (s : Slot) : Prop := k <> K_Reset.

(** Who may hold a frame in each state. *)
Definition owned (st : FrameState) (h : Holders) : Prop :=
  match st with
  | FS_None => idle h
  | FS_Created => h = mkHolders 1 0 0 0 0 0 (h_dropping h)
  | FS_Sendable | FS_Sent | FS_RxDone => h = mkHolders 0 1 0 0 0 0 (h_dropping h) \/ h = mkHolders 0 0 0 0 1 0 (h_dropping h)
  | FS_Sending => h = mkHolders 0 1 1 0 0 0 (h_dropping h) \/ h = mkHolders 0 0 1 0 1 0 (h_dropping h)
  | FS_RxBusy => exists r, (r <= 1)%nat /\ (h = mkHolders 0 1 0 r 0 0 (h_dropping h) \/ h = mkHolders 0 0 0 r 1 0 (h_dropping h))
  | FS_RxProcessing => h = mkHolders 0 0 0 0 0 1 (h_dropping h)
  end.

Definition slot_ok (s : Slot) : Prop := owned (status (sl_frame s)) (sl_holders s).

(** The handles through which the bytes of the frame are read or written. *)
Definition accessors (h : Holders) : nat :=
  (h_created h + h_sending h + h_receiving h + h_received h)%nat.

(** The handles on the caller's side: what keeps the slot from being lost. *)
Definition owners (h : Holders) : nat :=
  (h_created h + h_marked h + h_fut h + h_received h)%nat.

(** A slot that nobody holds, the RX task perhaps apart, and that is not free. *)
Definition leaked (s : Slot) : Prop :=
  let h := sl_holders s in
  h_created h = 0%nat /\ h_marked h = 0%nat /\ h_sending h = 0%nat /\ h_fut h = 0%nat /\
  h_received h = 0%nat /\
  (status (sl_frame s) = FS_Sent \/ status (sl_frame s) = FS_RxBusy \/ status (sl_frame s) = FS_RxDone).

(** A free slot with an empty buffer. *)
Definition free_slot : FrameElement := zeroed_frame 44.

(** ** Lemmas *)

Lemma swap_state_ok from to f f' :
  swap_state from to f = Ok f' -> status f = from /\ status f' = to.
Proof. unfold swap_state. case_decide; [|done]. by intros [= <-]. Qed.

Lemma elem_claim_created_ok i f f' :
  elem_claim_created i f = Ok f' -> status f = FS_None /\ status f' = FS_Created.
Proof. unfold elem_claim_created, swap_state. case_decide; [|done]. by intros [= <-]. Qed.

Lemma elem_claim_sending_ok f f' :
  elem_claim_sending f = Some f' -> status f = FS_Sendable /\ status f' = FS_Sending.
Proof. unfold elem_claim_sending, swap_state. case_decide; [|done]. by intros [= <-]. Qed.

Lemma elem_claim_receiving_ok f f' :
  elem_claim_receiving f = Some f' -> status f = FS_Sent /\ status f' = FS_RxBusy.
Proof. unfold elem_claim_receiving, swap_state. case_decide; [|done]. by intros [= <-]. Qed.

Lemma status_try_swap from to f :
  status (try_swap from to f) = if decide (status f = from) then to else status f.
Proof. unfold try_swap, swap_state. by case_decide. Qed.

Lemma status_init f : status (frame_init f) = status f.
Proof. done. Qed.

(** Bring the facts about states of a step into the context. *)
Ltac step_states :=
  repeat match goal with
  | H : elem_claim_created _ _ = Ok _ |- _ => apply elem_claim_created_ok in H as [? ?]
  | H : elem_claim_sending _ = Some _ |- _ => apply elem_claim_sending_ok in H as [? ?]
  | H : elem_claim_receiving _ = Some _ |- _ => apply elem_claim_receiving_ok in H as [? ?]
  | H : swap_state _ _ _ = Ok _ |- _ => apply swap_state_ok in H as [? ?]
  | H : same_state _ _ |- _ => unfold same_state in H
  end.

(** Split what [owned] says of the holders. *)
Ltac split_owned :=
  repeat match goal with
  | H : _ \/ _ |- _ => destruct H
  | H : _ /\ _ |- _ => destruct H
  | H : exists _, _ |- _ => destruct H
  | H : mkHolders _ _ _ _ _ _ _ = mkHolders _ _ _ _ _ _ _ |- _ => injection H; clear H; intros; subst
  end; try discriminate; try lia.

Lemma orderly_step_ok k s s' : slot_ok s -> orderly k s -> step k s s' -> slot_ok s'.
Proof.
  intros Hok Ho Hst. unfold slot_ok, orderly, idle in *.
  destruct Hst; cbn [sl_frame sl_holders h_sending h_receiving h_dropping] in *; step_states;
    try rewrite status_init; try rewrite status_try_swap;
    cbn [status set_state clear_first_pdu store_first_pdu] in *; try exact Ho;
    destruct (status f) eqn:Ef; cbn [owned] in *; unfold idle in *; cbn [h_dropping] in *; split_owned.
  all: repeat match goal with H : status ?f = _ |- context [status ?f] => rewrite H end; cbn.
  all: try congruence; eauto 6.
  all: try case_decide; try congruence; cbn [owned]; unfold idle; cbn [h_dropping]; eauto 6.
  all: try match goal with |- exists _, _ =>
    eexists; split; [|first [left; reflexivity | right; reflexivity]]; lia end.
  all: match goal with H : (_ <= 1)%nat |- mkHolders _ _ _ ?r _ _ _ = _ \/ _ =>
    assert (r = 0%nat) as -> by lia; auto end.
Qed.

Lemma orderly_steps_ok s s' : slot_ok s -> orderly_steps s s' -> slot_ok s'.
Proof. intros Hs; induction 1; eauto using orderly_step_ok. Qed.

Lemma leaked_step k s s' : leaked s -> not_reset k s -> step k s s' -> leaked s'.
Proof.
  unfold leaked, not_reset. intros (?&?&?&?&?&Hst) Hk Hstep.
  destruct Hstep; cbn [sl_frame sl_holders h_created h_marked h_sending h_fut h_received] in *;
    try discriminate; step_states; try rewrite status_try_swap; try case_decide;
    intuition congruence.
Qed.

Lemma leaked_steps s s' : leaked s -> steps not_reset s s' -> leaked s'.
Proof. intros Hs; induction 1; eauto using leaked_step. Qed.

Lemma claim_free f : status f = FS_None ->
  exists f', elem_claim_created 0 f = Ok f' /\ status f' = FS_Created.
Proof.
  intros Hf. unfold elem_claim_created, swap_state. rewrite decide_True by done. by eexists.
Qed.

Lemma claim_sendable f : status f = FS_Sendable ->
  exists f', elem_claim_sending f = Some f' /\ status f' = FS_Sending.
Proof. intros Hf. unfold elem_claim_sending, swap_state. rewrite decide_True by done. by eexists. Qed.

Lemma claim_sent f : status f = FS_Sent ->
  exists f', elem_claim_receiving f = Some f' /\ status f' = FS_RxBusy.
Proof. intros Hf. unfold elem_claim_receiving, swap_state. rewrite decide_True by done. by eexists. Qed.

Lemma own_next s s' s'' : steps owning s s' -> step K_Own s' s'' -> steps owning s s''.
Proof. intros ? H. by eapply steps_trans; [done| |exact H]. Qed.

Lemma shared_next k s s' s'' :
  steps not_reset s s' -> step k s' s'' -> k <> K_Reset -> steps not_reset s s''.
Proof. intros ? H ?. by eapply steps_trans; [done| |exact H]. Qed.

(** A weaker condition on the steps. *)
Lemma steps_weaken (P Q : Kind -> Slot -> Prop) s s' :
  (forall k s, P k s -> Q k s) -> steps P s s' -> steps Q s s'.
Proof. intros HPQ. induction 1; eauto using steps. Qed.

Lemma owning_orderly s s' : steps owning s s' -> orderly_steps s s'.
Proof. apply steps_weaken. by intros k ? ->. Qed.

Lemma owning_not_reset s s' : steps owning s s' -> steps not_reset s s'.
Proof. apply steps_weaken. by intros k ? ->. Qed.

(** A free frame goes through allocation and submission up to [Sending]. *)
Lemma reach_sending f : status f = FS_None ->
  exists g, status g = FS_Sending /\ steps owning (mkSlot f no_holders) (mkSlot g (mkHolders 0 0 1 0 1 0 0)).
Proof.
  intros Hf. destruct (claim_free f Hf) as (f1 & H1 & S1).
  set (f2 := try_swap FS_Created FS_None (set_state FS_Sendable (frame_init f1))).
  assert (S2 : status f2 = FS_Sendable).
  { unfold f2. by rewrite status_try_swap. }
  destruct (claim_sendable f2 S2) as (f3 & H3 & S3).
  exists f3. split; [done|].
  eapply own_next; [|by apply step_claim_sending].
  eapply own_next; [|by apply step_marked].
  eapply own_next; [|by eapply step_mark_sendable].
  eapply own_next; [apply steps_refl|by eapply step_alloc].
Qed.

(** The rest of the way: sent, answered, polled. *)
Lemma reach_processing f : status f = FS_None ->
  exists g, status g = FS_RxProcessing /\
    steps owning (mkSlot f no_holders) (mkSlot g (mkHolders 0 0 0 0 0 1 0)).
Proof.
  intros Hf. destruct (reach_sending f Hf) as (g & Hg & Hr).
  destruct (claim_sent (set_state FS_Sent g) eq_refl) as (g1 & H1 & S1).
  set (g2 := try_swap FS_RxBusy FS_RxDone g1).
  assert (S2 : status g2 = FS_RxDone). { unfold g2. by rewrite status_try_swap, S1. }
  assert (exists g3, swap_state FS_RxDone FS_RxProcessing g2 = Ok g3 /\
    status g3 = FS_RxProcessing) as (g3 & H3 & S3).
  { unfold swap_state. rewrite decide_True by done. by eexists. }
  exists g3. split; [done|].
  eapply own_next; [|by apply step_poll_ready].
  eapply own_next; [|by apply step_mark_received].
  eapply own_next; [|by eapply step_claim_receiving].
  eapply own_next; [done|by apply step_sent].
Qed.

(** ** Properties *)

(** C8: a slot that starts free and whose futures time out, retry or are
    dropped only while the TX/RX task does not hold the frame, in a storage that is
    reset only when nobody holds the frame: every reachable
    state gives the frame's bytes to at most one handle, the drop of a
    [ReceivedFrame] never panics, and the slot is free exactly when no task
    holds a handle on it (a [ReceivedFrame] whose drop has given the slot back
    counts no more), so no slot is lost. *)
Theorem slot_safe f s :
  status f = FS_None ->
  orderly_steps (mkSlot f no_holders) s ->
  (accessors (sl_holders s) <= 1)%nat /\ ~ drop_panics s /\
  (status (sl_frame s) = FS_None <-> owners (sl_holders s) = 0%nat) /\
  (owners (sl_holders s) <= 1)%nat.
Proof.
  intros Hf Hs. assert (Hok : slot_ok s).
  { eapply orderly_steps_ok; [|done]. unfold slot_ok. cbn. by rewrite Hf. }
  destruct s as [g h]. unfold slot_ok, drop_panics, accessors, owners, idle in *.
  destruct h as [c m x r u d dr]. cbn [sl_frame sl_holders h_dropping] in *.
  destruct (status g) eqn:Eg; cbn [owned h_dropping] in Hok; unfold idle in *; cbn [h_dropping] in *;
    subst; split_owned; subst; cbn; repeat split; try done; try lia; intros [? ?]; try congruence; lia.
Qed.

(** C39: without that discipline a slot can be lost: from a free slot there is an
    interleaving (the future is dropped while TX sends its frame) after which nobody
    holds the slot, it is not free, and whatever steps the tasks take it is not freed
    or allocated any more, until the whole storage is reset, which frees it. *)
Theorem slot_can_leak f :
  status f = FS_None ->
  exists s, steps not_reset (mkSlot f no_holders) s /\ sl_holders s = no_holders /\
    forall s', steps not_reset s s' ->
      status (sl_frame s') <> FS_None /\ owners (sl_holders s') = 0%nat /\
      forall s'', step K_Reset s' s'' -> status (sl_frame s'') = FS_None.
Proof.
  intros Hf. destruct (reach_sending f Hf) as (g & Hg & Hr%owning_not_reset).
  exists (mkSlot (set_state FS_Sent (set_state FS_None g)) no_holders). split_and!; [|done|].
  - eapply shared_next; [|by apply step_sent|done]. by eapply shared_next; [|apply step_release|].
  - intros s' Hs'. eapply leaked_steps in Hs'.
    + destruct Hs' as (?&?&?&?&?&?). unfold owners. split_and!; [intuition congruence|lia|].
      intros s'' Hreset. by inversion Hreset; subst.
    + unfold leaked, no_holders; cbn. auto 10.
Qed.

(** And its bytes can be given to two tasks at once: from a free slot
    there is an interleaving (the future is dropped while RX copies the
    response, and the slot is allocated again) that ends with a [CreatedFrame]
    and a [ReceivingFrame] on the same slot, both of which may write to it. *)
Theorem slot_can_be_shared f :
  status f = FS_None ->
  exists s, steps not_reset (mkSlot f no_holders) s /\
    h_created (sl_holders s) = 1%nat /\ h_receiving (sl_holders s) = 1%nat.
Proof.
  intros Hf. destruct (reach_sending f Hf) as (g & Hg & Hr%owning_not_reset).
  destruct (claim_sent (set_state FS_Sent g) eq_refl) as (g1 & H1 & S1).
  destruct (claim_free (set_state FS_None g1) eq_refl) as (g2 & H2 & S2).
  exists (mkSlot (frame_init g2) (mkHolders 1 0 0 1 0 0 0)). split; [|done].
  eapply shared_next; [|by eapply step_alloc|done].
  eapply shared_next; [|by apply step_release|done].
  eapply shared_next; [|by eapply step_claim_receiving|done].
  eapply shared_next; [done|by apply step_sent|done].
Qed.

(** The drop of a [ReceivedFrame] gives the slot back before it clears the mark of
    the first PDU.  When another thread allocates the slot in between and pushes its
    PDUs, even in the interleavings that [slot_safe] allows, the mark that is cleared
    is that of the new frame, [g], so that its response finds no frame. *)
Theorem drop_clears_next_frame f g :
  status f = FS_None -> status g = FS_Created ->
  orderly_steps (mkSlot f no_holders) (mkSlot (clear_first_pdu g) (mkHolders 1 0 0 0 0 0 0)).
Proof.
  intros Hf Hg. destruct (reach_processing f Hf) as (h & Hh & Hr). apply owning_orderly.
  assert (exists h1, swap_state FS_RxProcessing FS_None h = Ok h1 /\ status h1 = FS_None) as (h1 & H1 & S1).
  { unfold swap_state. rewrite decide_True by done. by eexists. }
  destruct (claim_free h1 S1) as (h2 & H2 & S2).
  eapply own_next; [|by apply step_dropped].
  eapply own_next; [|eapply (step_push (frame_init h2)); unfold same_state; by rewrite Hg].
  eapply own_next; [|by eapply step_alloc].
  eapply own_next; [done|by apply step_drop_received].
Qed.

(** ** Witnesses *)

Lemma slot_safe_witness :
  exists g, status g = FS_RxProcessing /\
    (accessors (sl_holders (mkSlot g (mkHolders 0 0 0 0 0 1 0))) <= 1)%nat /\
    ~ drop_panics (mkSlot g (mkHolders 0 0 0 0 0 1 0)).
Proof.
  destruct (reach_processing free_slot eq_refl) as (g & Hg & Hr). exists g. split; [done|].
  destruct (slot_safe free_slot _ eq_refl (owning_orderly _ _ Hr)) as (? & ? & _). done.
Defined.

Lemma slot_can_leak_witness :
  exists s, steps not_reset (mkSlot free_slot no_holders) s /\ sl_holders s = no_holders /\
    forall s', steps not_reset s s' ->
      status (sl_frame s') <> FS_None /\ owners (sl_holders s') = 0%nat /\
      forall s'', step K_Reset s' s'' -> status (sl_frame s'') = FS_None.
Proof. apply (slot_can_leak free_slot). reflexivity. Defined.

Lemma slot_can_be_shared_witness :
  exists s, steps not_reset (mkSlot free_slot no_holders) s /\
    h_created (sl_holders s) = 1%nat /\ h_receiving (sl_holders s) = 1%nat.
Proof. apply (slot_can_be_shared free_slot). reflexivity. Defined.
