(* ===== verification/Ports.v ===== *)
(** * The ports of a SubDevice ([subdevice/ports.rs]) *)
From S2P Require Import Prelude Errors.

(** ** Definitions *)

(** The number of a port, [0], [3], [1] or [2]: what [Ports::new] gives them. *)
Inductive PortNumber := Port0 | Port3 | Port1 | Port2.

#[export] Instance PortNumber_eq_dec : EqDecision PortNumber.
Proof. solve_decision. Defined.

Definition number_u8 (n : PortNumber) : Z :=
  match n with Port0 => 0 | Port3 => 3 | Port1 => 1 | Port2 => 2 end.

(** [downstream_to] is the index of a SubDevice, which is not 0. *)
Record Port := mkPort {
  active : bool;
  dc_receive_time : Z;
  number : PortNumber;
  downstream_to : option Z;
}.

#[export] Instance Port_eq_dec : EqDecision Port.
Proof. solve_decision. Defined.

(** [Port::index] *)
Definition port_index (p : Port) : nat :=
  match number p with Port0 => 0 | Port3 => 1 | Port1 => 2 | Port2 => 3 end.

Inductive Topology := Passthrough | LineEnd | Fork | Cross.

#[export] Instance Topology_eq_dec : EqDecision Topology.
Proof. solve_decision. Defined.

Definition is_junction (t : Topology) : bool :=
  match t with Fork | Cross => true | _ => false end.

(** The array of the four ports, in the order of their indices. *)
Abbreviation Ports := (list Port).

Definition Ports_new (active0 active3 active1 active2 : bool) : Ports :=
  [mkPort active0 0 Port0 None; mkPort active3 0 Port3 None;
   mkPort active1 0 Port1 None; mkPort active2 0 Port2 None].

Definition set_receive_time (t : Z) (p : Port) : Port :=
  mkPort (active p) t (number p) (downstream_to p).

Definition set_receive_times (ps : Ports) (time_p0 time_p3 time_p1 time_p2 : Z) : Ports :=
  zip_with set_receive_time [time_p0; time_p3; time_p1; time_p2] ps.

Definition active_ports (ps : Ports) : list Port := filter (fun p => active p = true) ps.

Definition open_ports (ps : Ports) : Z := wrap 8 (Z.of_nat (length (active_ports ps))).

(** [Iterator::min_by_key]: the first of the least elements. *)
Fixpoint min_by_key {A} (key : A -> Z) (l : list A) : option A :=
  match l with
  | [] => None
  | x :: l =>
      match min_by_key key l with
      | Some y => if key x <=? key y then Some x else Some y
      | None => Some x
      end
  end.

Definition entry_port {E} (ps : Ports) : res E Port :=
  unwrap (min_by_key dc_receive_time (active_ports ps)).

Definition last_port (ps : Ports) : option Port := last (active_ports ps).

(** [cycle()], as far as the eighth element. *)
Definition cycle {A} (l : list A) : list A := concat (replicate 8 l).

(** The index of the port found. *)
Definition next_assignable_port (ps : Ports) (this_port : Port) : option nat :=
  p ← List.find (fun p => bool_decide (downstream_to p = None))
    (take 4 (drop (port_index this_port + 1) (cycle (active_ports ps))));
  Some (port_index p).

Definition set_downstream (d : Z) (p : Port) : Port :=
  mkPort (active p) (dc_receive_time p) (number p) (Some d).

(** The ports after the assignment, and the number of the port assigned. *)
Definition assign_next_downstream_port {E} (ps : Ports) (downstream_subdevice_index : Z)
    : res E (option (Ports * PortNumber)) :=
  entry_port ← entry_port ps;
  match next_assignable_port ps entry_port with
  | None => Ok None
  | Some i =>
      match ps !! i with
      | None => Ok None
      | Some p =>
          Ok (Some (<[i := set_downstream downstream_subdevice_index p]> ps, number p))
      end
  end.

(** The port assigned to the SubDevice with an index. *)
Definition port_assigned_to (ps : Ports) (subdevice_index : Z) : option Port :=
  List.find (fun p => bool_decide (downstream_to p = Some subdevice_index)) (active_ports ps).

Definition topology {E} (ps : Ports) : res E Topology :=
  match open_ports ps with
  | 1 => Ok LineEnd
  | 2 => Ok Passthrough
  | 3 => Ok Fork
  | 4 => Ok Cross
  | _ => Panic
  end.

Definition is_last_port (ps : Ports) (p : Port) : bool := bool_decide (last_port ps = Some p).

(** [max()] and [min()] of numbers. *)
Definition list_max (l : list Z) : option Z :=
  match l with [] => None | x :: l => Some (fold_left Z.max l x) end.
Definition list_min (l : list Z) : option Z :=
  match l with [] => None | x :: l => Some (fold_left Z.min l x) end.

(** The time between the first and the last, when there is one. *)
Definition spread (times : list Z) : option Z :=
  max ← list_max times;
  min ← list_min times;
  let t := sat_sub max min in
  if 0 <? t then Some t else None.

Definition total_propagation_time (ps : Ports) : option Z :=
  spread (dc_receive_time <$> active_ports ps).

(** [windows(2)] *)
Fixpoint windows2 {A} (l : list A) : list (A * A) :=
  match l with
  | a :: (b :: _) as l => (a, b) :: windows2 l
  | _ => []
  end.

Definition intermediate_propagation_time_to {P : Profile} {E} (ps : Ports) (port : Port) : res E Z :=
  foldl (fun sum '(a, b) =>
    sum ← sum;
    uadd 32 sum
      (if Nat.leb (port_index port) (port_index a) then 0
       else if active a && active b then sat_sub (dc_receive_time b) (dc_receive_time a)
       else 0)) (Ok 0) (windows2 ps).

Definition propagation_time_to {E} (ps : Ports) (this_port : Port) : res E (option Z) :=
  entry_port ← entry_port ps;
  Ok (spread (dc_receive_time <$>
    filter (fun p => (port_index entry_port <= port_index p <= port_index this_port)%nat)
      (active_ports ps))).
