(* ===== verification/Pdi.v ===== *)
(** * Process data image segments ([pdi.rs]) *)
From S2P Require Import Prelude.

(** ** Definitions *)

(** A range of indices, [start..end]. *)
Record PdiSegment := mkPdiSegment { seg_start : Z; seg_end : Z }.

Definition PdiSegment_default : PdiSegment := mkPdiSegment 0 0.

(** [self.bytes.len()]: empty when the end comes first. *)
Definition seg_len (s : PdiSegment) : Z := sat_sub (seg_end s) (seg_start s).

(** [PdiOffset] *)
Record PdiOffset := mkPdiOffset { start_address : Z }.

Section Offset.
Context {P : Profile} {E : Type}.

Definition increment_inner (o : PdiOffset) (inc_bytes : Z) : res E PdiOffset :=
  a ← uadd 32 (start_address o) inc_bytes;
  mret (mkPdiOffset a).

Definition increment_byte_aligned (o : PdiOffset) (bits : Z) : res E PdiOffset :=
  b ← uadd 16 bits 7;
  increment_inner o (b / 8).

Definition increment (o : PdiOffset) (bytes : Z) : res E PdiOffset := increment_inner o bytes.

End Offset.

Definition up_to (a b : PdiOffset) : PdiSegment := mkPdiSegment (start_address a) (start_address b).
