(* ===== verification/SubDevice.v ===== *)
(** * A SubDevice and its registers ([subdevice/mod.rs], [subdevice/types.rs])

    [SubDevice] is what the MainDevice knows of a device.  A [SubDeviceRef] adds
    the bus: its methods are computations on the state of the bus that take the
    configured address of the device. *)
From Stdlib Require Import Ascii String.
From S2P Require Import Prelude Wire EscTypes Crates SiiTypes PduTypes Errors Bus Eeprom SubEeprom Ports Pdi.

(** ** Definitions *)

Record IoRanges := mkIoRanges { io_input : PdiSegment; io_output : PdiSegment }.

Record Mailbox := mkMailbox { mb_address : Z; mb_len : Z; mb_sync_manager : Z }.

Record MailboxConfig := mkMailboxConfig {
  mc_read : option Mailbox;
  mc_write : option Mailbox;
  mc_supported_protocols : Z;
  mc_has_coe : bool;
  mc_complete_access : bool;
}.

Record SubDeviceConfig := mkSubDeviceConfig { cfg_io : IoRanges; cfg_mailbox : MailboxConfig }.

Definition SubDeviceConfig_default : SubDeviceConfig :=
  mkSubDeviceConfig (mkIoRanges PdiSegment_default PdiSegment_default)
    (mkMailboxConfig None None 0 false false).

(** [subdevice/dc.rs]; the period of SYNC1 in nanoseconds. *)
Inductive DcSync := DCSync_Disabled | DCSync_Sync0 | DCSync_Sync01 (sync1_period : Z).

Record SubDevice := mkSubDevice {
  sd_configured_address : Z;
  sd_alias_address : Z;
  sd_config : SubDeviceConfig;
  sd_identity : SubDeviceIdentity;
  sd_name : bytes;
  sd_ports : Ports;
  sd_dc_support : DcSupport;
  sd_dc_receive_time : Z;
  sd_index : Z;
  sd_parent_index : option Z;
  sd_propagation_delay : Z;
  sd_mailbox_counter : Z;
  sd_dc_sync : DcSync;
  sd_oversampling_config : list (Z * Z);
}.

(** The fields that change after the SubDevice is found. *)
Definition set_config (c : SubDeviceConfig) (s : SubDevice) : SubDevice :=
  mkSubDevice (sd_configured_address s) (sd_alias_address s) c (sd_identity s) (sd_name s)
    (sd_ports s) (sd_dc_support s) (sd_dc_receive_time s) (sd_index s) (sd_parent_index s)
    (sd_propagation_delay s) (sd_mailbox_counter s) (sd_dc_sync s) (sd_oversampling_config s).
Definition set_alias (a : Z) (s : SubDevice) : SubDevice :=
  mkSubDevice (sd_configured_address s) a (sd_config s) (sd_identity s) (sd_name s)
    (sd_ports s) (sd_dc_support s) (sd_dc_receive_time s) (sd_index s) (sd_parent_index s)
    (sd_propagation_delay s) (sd_mailbox_counter s) (sd_dc_sync s) (sd_oversampling_config s).
Definition set_ports (p : Ports) (s : SubDevice) : SubDevice :=
  mkSubDevice (sd_configured_address s) (sd_alias_address s) (sd_config s) (sd_identity s) (sd_name s)
    p (sd_dc_support s) (sd_dc_receive_time s) (sd_index s) (sd_parent_index s)
    (sd_propagation_delay s) (sd_mailbox_counter s) (sd_dc_sync s) (sd_oversampling_config s).
Definition set_dc_receive_time (t : Z) (s : SubDevice) : SubDevice :=
  mkSubDevice (sd_configured_address s) (sd_alias_address s) (sd_config s) (sd_identity s) (sd_name s)
    (sd_ports s) (sd_dc_support s) t (sd_index s) (sd_parent_index s)
    (sd_propagation_delay s) (sd_mailbox_counter s) (sd_dc_sync s) (sd_oversampling_config s).
Definition set_parent_index (p : option Z) (s : SubDevice) : SubDevice :=
  mkSubDevice (sd_configured_address s) (sd_alias_address s) (sd_config s) (sd_identity s) (sd_name s)
    (sd_ports s) (sd_dc_support s) (sd_dc_receive_time s) (sd_index s) p
    (sd_propagation_delay s) (sd_mailbox_counter s) (sd_dc_sync s) (sd_oversampling_config s).
Definition set_propagation_delay (d : Z) (s : SubDevice) : SubDevice :=
  mkSubDevice (sd_configured_address s) (sd_alias_address s) (sd_config s) (sd_identity s) (sd_name s)
    (sd_ports s) (sd_dc_support s) (sd_dc_receive_time s) (sd_index s) (sd_parent_index s)
    d (sd_mailbox_counter s) (sd_dc_sync s) (sd_oversampling_config s).
Definition set_mailbox_counter (n : Z) (s : SubDevice) : SubDevice :=
  mkSubDevice (sd_configured_address s) (sd_alias_address s) (sd_config s) (sd_identity s) (sd_name s)
    (sd_ports s) (sd_dc_support s) (sd_dc_receive_time s) (sd_index s) (sd_parent_index s)
    (sd_propagation_delay s) n (sd_dc_sync s) (sd_oversampling_config s).
Definition set_dc_sync (d : DcSync) (s : SubDevice) : SubDevice :=
  mkSubDevice (sd_configured_address s) (sd_alias_address s) (sd_config s) (sd_identity s) (sd_name s)
    (sd_ports s) (sd_dc_support s) (sd_dc_receive_time s) (sd_index s) (sd_parent_index s)
    (sd_propagation_delay s) (sd_mailbox_counter s) d (sd_oversampling_config s).
Definition set_oversampling (o : list (Z * Z)) (s : SubDevice) : SubDevice :=
  mkSubDevice (sd_configured_address s) (sd_alias_address s) (sd_config s) (sd_identity s) (sd_name s)
    (sd_ports s) (sd_dc_support s) (sd_dc_receive_time s) (sd_index s) (sd_parent_index s)
    (sd_propagation_delay s) (sd_mailbox_counter s) (sd_dc_sync s) o.

(** *** [SubDevice] *)

(** A device on an intermediate port of a fork or cross is its child; a device
    on the last port is downstream of it. *)
Definition is_child_of {E} (s parent : SubDevice) : res E bool :=
  t ← topology (sd_ports parent);
  let child_attached_to_last_parent_port :=
    match port_assigned_to (sd_ports parent) (sd_index s) with
    | Some p => is_last_port (sd_ports parent) p
    | None => false
    end in
  Ok (is_junction t && negb child_attached_to_last_parent_port).

(** [fetch_update]: the value before the update, and the SubDevice after it. *)
Definition mailbox_counter (s : SubDevice) : Z * SubDevice :=
  let n := sd_mailbox_counter s in
  (n, set_mailbox_counter (if 7 <=? n then 1 else n + 1) s).

(** *** Text *)

Definition text (s : string) : bytes :=
  (fun c => Z.of_nat (nat_of_ascii c)) <$> list_ascii_of_string s.

Definition hex_digit (d : Z) : Z := if d <? 10 then 48 + d else 87 + d.

(** [{:#010x}] of a 32-bit number. *)
Definition hex32 (v : Z) : bytes :=
  text "0x" ++ ((fun i => hex_digit (Z.shiftr v (4 * i) mod 16)) <$> [7; 6; 5; 4; 3; 2; 1; 0]).

(** The name of a SubDevice without one. *)
Definition default_name (i : SubDeviceIdentity) : bytes :=
  text "manu. " ++ hex32 (id_vendor_id i) ++ text ", device " ++ hex32 (id_product_id i) ++
  text ", serial " ++ hex32 (id_serial i).

(** *** [SubDeviceRef] *)

Section Ref.
Context {W : Type} `{!Bus W} `{!Timing} `{!EmbeddedIo} `{!Crates} {P : Profile}.

Section Address.
Context (configured_address : Z).

Definition reg_read (register : RegisterAddress) : WrappedRead :=
  fprd configured_address (register_u16 register).
Definition reg_write (register : RegisterAddress) : WrappedWrite :=
  fpwr configured_address (register_u16 register).

(** [eeprom()] *)
Definition eeprom : Provider W := device_provider configured_address.

(** The AL status code is only read when the error flag is set; an error
    reading it is dropped. *)
Definition state_of (ctl : res Error AlControl) : St W Error SubDeviceState :=
  ctl ← lift ctl;
  if al_error ctl then
    code ← attempt (receive AlStatusCode_read (reg_read R_AlStatusCode));
    fail (E_SubDevice (default (AL_Unknown 0) code))
  else mret (al_state ctl).

Definition state : St W Error SubDeviceState :=
  ctl ← outcome (receive AlControl_read (reg_read R_AlStatus));
  state_of ctl.

(** [SubDeviceRef::status]: the first poll of [try_zip] makes both requests, that of [state]
    first; whether the response with the code is there before [state] is done is up
    to the bus ([code_first]).  The first error ends both. *)
Definition subdevice_status (code_first : bool) : St W Error (SubDeviceState * AlStatusCode) :=
  ctl ← outcome (receive AlControl_read (reg_read R_AlStatus));
  code ← outcome (receive AlStatusCode_read (reg_read R_AlStatusCode));
  if code_first then
    code ← lift code;
    state ← state_of ctl;
    mret (state, code)
  else
    state ← state_of ctl;
    code ← lift code;
    mret (state, code).

Definition register_read {T} (r : WireRead T) (register : Z) : St W Error T :=
  receive r (fprd configured_address register).

Definition register_write {T} (w : WireWrite T) (r : WireRead T) (register : Z) (value : T) : St W Error T :=
  send_receive w r (fpwr configured_address register) value.

Definition wait_for_state (desired_state : SubDeviceState) : St W Error unit :=
  loop_with_timeout TK_StateTransition (fun _ : unit =>
    status ← receive AlControl_read (read_ignore_wkc (reg_read R_AlStatus));
    if decide (al_state status = desired_state) then mret (inr tt) else mret (inl tt)) tt.

Definition request_subdevice_state_nowait (desired_state : SubDeviceState) : St W Error unit :=
  response ← send_receive AlControl_write AlControl_read (reg_write R_AlControl)
    (AlControl_new desired_state);
  if al_error response then
    _ ← receive AlStatusCode_read (reg_read R_AlStatusCode);
    fail E_StateTransition
  else mret tt.

Definition request_subdevice_state (desired_state : SubDeviceState) : St W Error unit :=
  _ ← request_subdevice_state_nowait desired_state;
  wait_for_state desired_state.

Definition set_eeprom_mode (mode : SiiOwner) : St W Error unit :=
  _ ← send u16_write (reg_write R_SiiConfig) 2;
  send SiiOwner_write (reg_write R_SiiConfig) mode.

End Address.

(** [SubDevice::new] *)
Definition SubDevice_new (index configured_address : Z) : St W Error SubDevice :=
  _ ← wait_for_state configured_address SDS_Init;
  _ ← set_eeprom_mode configured_address SO_Master;
  identity ← identity (Provider0 := eeprom configured_address);
  name ← device_name (Provider0 := eeprom configured_address) 64;
  let name := default (default_name identity) name in
  flags ← receive SupportFlags_read (reg_read configured_address R_SupportFlags);
  alias_address ← receive u16_read (reg_read configured_address R_ConfiguredStationAlias);
  dl_status ← receive DlStatus_read (reg_read configured_address R_DlStatus);
  let ports := Ports_new (dl_link_port0 dl_status) (dl_link_port3 dl_status)
    (dl_link_port1 dl_status) (dl_link_port2 dl_status) in
  mret (mkSubDevice configured_address alias_address SubDeviceConfig_default identity name ports
    (dc_support flags) 0 index None 0 1 DCSync_Disabled []).

Definition description (s : SubDevice) : St W Error (option bytes) :=
  d ← ignoring_no_category
    (device_description (Provider0 := eeprom (sd_configured_address s)) 128);
  mret (mjoin d).

Definition eeprom_size (s : SubDevice) : St W Error Z :=
  size (Provider0 := eeprom (sd_configured_address s)).

(** Into a buffer of [n] bytes. *)
Definition eeprom_read_raw (s : SubDevice) (start_word : Z) (n : nat) : St W Error bytes :=
  r ← lift (start_at start_word (wrap 16 (Z.of_nat n)));
  '(b, _) ← with_range r (read (Provider0 := eeprom (sd_configured_address s)) n);
  mret b.

Definition eeprom_read {T} (rd : WireRead T) (s : SubDevice) (start_word : Z) : St W Error T :=
  r ← lift (start_at start_word (wrap 16 (Z.of_nat (PACKED_LEN rd))));
  read_value (Provider0 := eeprom (sd_configured_address s)) rd r.

Definition eeprom_write_dangerously {T} (w : WireWrite T) (s : SubDevice) (start_word : Z) (value : T)
    : St W Error unit :=
  data ← lift (match pack w value with Ok b => Ok b | _ => Panic end);
  r ← lift (start_at start_word (wrap 16 (Z.of_nat (packed_len w value))));
  write_all_at (Provider0 := eeprom (sd_configured_address s)) r data.

Definition read_alias_address_from_eeprom (s : SubDevice) : St W Error Z :=
  station_alias (Provider0 := eeprom (sd_configured_address s)).

Definition set_alias_address (s : SubDevice) (new_alias : Z) : St W Error SubDevice :=
  _ ← set_station_alias (Provider0 := eeprom (sd_configured_address s)) new_alias;
  mret (set_alias new_alias s).

End Ref.

(** ** Lemmas *)

Section Status.
Context {W : Type} `{!Bus W} (address : Z).

(** The state and the code are given together when both registers were read and
    the SubDevice is not in error; when it is, the code comes back as the error,
    and the state is lost.  Neither depends on which response is there first. *)
Theorem subdevice_status_spec code_first w ctl code w1 w2 :
  receive AlControl_read (reg_read address R_AlStatus) w = (Ok ctl, w1) ->
  receive AlStatusCode_read (reg_read address R_AlStatusCode) w1 = (Ok code, w2) ->
  if al_error ctl
  then exists r w3, receive AlStatusCode_read (reg_read address R_AlStatusCode) w2 = (r, w3) /\
    subdevice_status address code_first w =
      (match r with
       | Ok code => Err (E_SubDevice code)
       | Err _ => Err (E_SubDevice (AL_Unknown 0))
       | Panic => Panic
       end, w3)
  else subdevice_status address code_first w = (Ok (al_state ctl, code), w2).
Proof.
  intros Hctl Hcode. unfold subdevice_status.
  assert (outcome (F:=Error) (receive AlControl_read (reg_read address R_AlStatus)) w = (Ok (Ok ctl), w1)) as H1
    by (unfold outcome; by rewrite Hctl).
  assert (outcome (F:=Error) (receive AlStatusCode_read (reg_read address R_AlStatusCode)) w1 = (Ok (Ok code), w2)) as H2
    by (unfold outcome; by rewrite Hcode).
  rewrite (st_step _ _ _ _ _ H1), (st_step _ _ _ _ _ H2).
  unfold state_of, attempt. destruct (al_error ctl) eqn:He.
  - destruct (receive AlStatusCode_read (reg_read address R_AlStatusCode) w2) as [r w3] eqn:H3.
    exists r, w3. split; [done|]. destruct code_first, r; msimpl; by rewrite He, H3.
  - destruct code_first; msimpl; by rewrite He.
Qed.

(** [subdevice_status] succeeds only that way. *)
Theorem subdevice_status_ok code_first w s code w' :
  subdevice_status address code_first w = (Ok (s, code), w') ->
  exists ctl w1, receive AlControl_read (reg_read address R_AlStatus) w = (Ok ctl, w1) /\
    al_error ctl = false /\ al_state ctl = s /\
    receive AlStatusCode_read (reg_read address R_AlStatusCode) w1 = (Ok code, w').
Proof.
  unfold subdevice_status, outcome, state_of, attempt.
  destruct (receive AlControl_read (reg_read address R_AlStatus) w) as [ctl w1] eqn:H1.
  destruct (receive AlStatusCode_read (reg_read address R_AlStatusCode) w1) as [c w2] eqn:H2.
  destruct (receive AlStatusCode_read (reg_read address R_AlStatusCode) w2) as [r w3] eqn:H3.
  destruct ctl as [ctl| |], c as [c| |], code_first; msimpl; rewrite H1, H2; try done;
    destruct (al_error ctl) eqn:He; rewrite ?H3; try (destruct r; done);
    intros [= <- <- <-]; eauto 10.
Qed.

End Status.
