(* ===== verification/Coe.v ===== *)
(** * CANopen over EtherCAT ([mailbox/coe/mod.rs])

    SDO transfers through the mailbox of a SubDevice: waiting for the mailboxes,
    one request and its response, expedited, normal and segmented uploads,
    expedited downloads, the SDO information service.  A transfer is a
    computation on the state of the bus and the SubDevice, whose mailbox counter
    it advances. *)
From S2P Require Import Prelude Wire Derive DeriveEnum EscTypes MailboxTypes PduTypes Errors Bus SubDevice.
Import Struct Enum.

(** ** Definitions *)

(** *** Computations on a SubDevice and its bus *)

Definition on_bus {W A} (m : St W Error A) : St (W * SubDevice) Error A := fun '(w, s) =>
  let '(r, w) := m w in (r, (w, s)).

Definition on_sub {W A} (f : SubDevice -> A * SubDevice) : St (W * SubDevice) Error A := fun '(w, s) =>
  let '(a, s) := f s in (Ok a, (w, s)).

(** *** The types of the requests *)

(** [CoeServiceRequest] *)
Class CoeServiceRequest (R : Type) := {
  request_write : WireWrite R;
  request_read : WireRead R;
  validate_response : R -> Z -> Z -> bool;
}.

#[export] Instance SdoExpedited_request : CoeServiceRequest SdoExpedited :=
  {| request_write := SdoExpedited_write; request_read := SdoExpedited_read;
     validate_response := SdoExpedited_validate_response |}.
#[export] Instance SdoNormal_request : CoeServiceRequest SdoNormal :=
  {| request_write := SdoNormal_write; request_read := SdoNormal_read;
     validate_response := SdoNormal_validate_response |}.
#[export] Instance SdoSegmented_request : CoeServiceRequest SdoSegmented :=
  {| request_write := SdoSegmented_write; request_read := SdoSegmented_read;
     validate_response := SdoSegmented_validate_response |}.

(** What is read of every response. *)
Record HeadersRaw := mkHeadersRaw {
  hr_header : MailboxHeader;
  hr_coe_header : CoeHeader;
  hr_command : CoeCommand;
  hr_address : Z;
  hr_sub_index : Z;
}.

Definition HeadersRaw_fields : list Field :=
  [bytes_field (c_rw MailboxHeader_write MailboxHeader_read) MailboxHeader_default 6 0 0;
   bytes_field (c_rw CoeHeader_write CoeHeader_read) CoeHeader_default 2 0 0;
   bits_field (c_rw CoeCommand_write CoeCommand_read) CC_Download 3 5 0;
   bytes_field c_u16 0 2 0 0;
   bytes_field CU8 0 1 0 0].
Definition HeadersRaw_read : WireRead HeadersRaw :=
  derive_read 12 HeadersRaw_fields (fun '(a, (b, (c, (d, (e, _))))) => mkHeadersRaw a b c d e).

Record EmergencyData := mkEmergencyData { ed_error_code : Z; ed_error_register : Z; ed_extra_data : bytes }.

Definition EmergencyData_fields : list Field :=
  [bytes_field c_u16 0 2 0 0;
   bytes_field CU8 0 1 0 0;
   bytes_field (c_array 5) (zeros 5) 5 0 0].
Definition EmergencyData_read : WireRead EmergencyData :=
  derive_read 8 EmergencyData_fields (fun '(a, (b, (c, _))) => mkEmergencyData a b c).

(** *** Transfers *)

Section Coe.
Context {W : Type} `{!Bus W} `{!Timing} {P : Profile}.

(** How many turns the loops over segments and fragments get, which end when
    the SubDevice says so.  Running out of them is a [Panic] here. *)
Context (turns : nat).

Definition sub_read (register : Z) : St (W * SubDevice) Error WrappedRead :=
  s ← gets snd; mret (fprd (sd_configured_address s) register).
Definition sub_write (register : Z) : St (W * SubDevice) Error WrappedWrite :=
  s ← gets snd; mret (fpwr (sd_configured_address s) register).

(** The status of a SyncManager. *)
Definition sm_status (register : Z) : St (W * SubDevice) Error Status :=
  c ← sub_read register;
  on_bus (receive Status_read c).

(** One of the ten attempts to empty the mailbox of the SubDevice. *)
Definition clear_step (read_mailbox : Mailbox) (register : Z) (_ : unit)
    : St (W * SubDevice) Error (unit + unit) :=
  sm_status ← sm_status register;
  if st_mailbox_full sm_status then
    c ← sub_read (mb_address read_mailbox);
    _ ← on_bus (receive_slice (read_ignore_wkc c) (mb_len read_mailbox));
    mret (inl tt)
  else mret (inr tt).

(** Wait until the [mailbox_full] flag of a SyncManager has a value. *)
Definition wait_step (register : Z) (full : bool) (_ : unit) : St (W * SubDevice) Error (unit + unit) :=
  sm_status ← sm_status register;
  if Bool.eqb (st_mailbox_full sm_status) full then mret (inr tt) else mret (inl tt).

Definition wait_full (kind : TimeoutKind) (register : Z) (full : bool) : St (W * SubDevice) Error unit :=
  loop_with_timeout kind (wait_step register full) tt.

Definition wait_for_mailboxes : St (W * SubDevice) Error (Mailbox * Mailbox) :=
  s ← gets snd;
  let mailbox := cfg_mailbox (sd_config s) in
  write_mailbox ← lift (ok_or (mc_write mailbox) (E_Mailbox ME_NoReadMailbox));
  read_mailbox ← lift (ok_or (mc_read mailbox) (E_Mailbox ME_NoWriteMailbox));
  mailbox_read_sm_status ← lift (register_sync_manager_status (mb_sync_manager read_mailbox));
  mailbox_write_sm_status ← lift (register_sync_manager_status (mb_sync_manager write_mailbox));
  _ ← iterate 10 (clear_step read_mailbox mailbox_read_sm_status) tt;
  _ ← wait_full TK_MailboxEcho mailbox_write_sm_status false;
  mret (read_mailbox, write_mailbox).

Definition wait_for_mailbox_response (read_mailbox : Mailbox) : St (W * SubDevice) Error Received :=
  mailbox_read_sm ← lift (register_sync_manager_status (mb_sync_manager read_mailbox));
  _ ← wait_full TK_MailboxResponse mailbox_read_sm true;
  c ← sub_read (mb_address read_mailbox);
  on_bus (receive_slice c (mb_len read_mailbox)).

(** [write(write_mailbox.address).with_len(write_mailbox.len).send(request.pack())] *)
Definition send_request {R} (w : WireWrite R) (write_mailbox : Mailbox) (request : R)
    : St (W * SubDevice) Error unit :=
  c ← sub_write (mb_address write_mailbox);
  packed ← lift (match pack w request with Ok b => Ok b | _ => Panic end);
  on_bus (send slice_write (write_with_len c (mb_len write_mailbox)) packed).

(** What the response means.  The assertion before the branch for emergencies
    excludes it. *)
Definition check_response {R} `{!CoeServiceRequest R} (request : R) (response : Received)
    : res Error (R * Received) :=
  headers ← from_wire (unpack_from_slice HeadersRaw_read (rd_data response));
  if decide (ch_service (hr_coe_header headers) = CS_Emergency) then Panic
  else if decide (ch_service (hr_coe_header headers) = CS_Emergency) then
    let response := received_trim_front (PACKED_LEN HeadersRaw_read) response in
    decoded ← from_wire (unpack_from_slice EmergencyData_read (rd_data response));
    Err (E_Mailbox (ME_Emergency (ed_error_code decoded) (ed_error_register decoded)))
  else if decide (hr_command headers = CC_Abort) then
    let response := received_trim_front (PACKED_LEN HeadersRaw_read) response in
    code ← from_wire (unpack_from_slice CoeAbortCode_read (rd_data response));
    Err (E_Mailbox (ME_Aborted code (hr_address headers) (hr_sub_index headers)))
  else if negb (bool_decide (mh_mailbox_type (hr_header headers) = MT_Coe)) ||
      negb (validate_response request (hr_address headers) (hr_sub_index headers))
  then Err (E_Mailbox (ME_SdoResponseInvalid (hr_address headers) (hr_sub_index headers)))
  else
    headers ← from_wire (unpack_from_slice request_read (rd_data response));
    Ok (headers, received_trim_front (PACKED_LEN HeadersRaw_read) response).

Definition mailbox_write_read {R} `{!CoeServiceRequest R} (request : R)
    : St (W * SubDevice) Error (R * Received) :=
  '(read_mailbox, write_mailbox) ← wait_for_mailboxes;
  _ ← send_request request_write write_mailbox request;
  response ← wait_for_mailbox_response read_mailbox;
  lift (check_response request response).

(** *** Downloads *)

Definition sdo_write {T} (w : WireWrite T) (index : Z) (sub_index : SubIndex) (value : T)
    : St (W * SubDevice) Error unit :=
  counter ← on_sub mailbox_counter;
  if Nat.ltb 4 (packed_len w value) then fail E_Internal else
  buf ← lift (from_wire (pack_to_slice w value (zeros 4)));
  let request := SdoExpedited_download counter index sub_index buf
    (wrap 8 (Z.of_nat (packed_len w value))) in
  _ ← mailbox_write_read request;
  mret tt.

Fixpoint sdo_write_values {T} (w : WireWrite T) (index : Z) (i : Z) (values : list T)
    : St (W * SubDevice) Error unit :=
  match values with
  | [] => mret tt
  | value :: values =>
      _ ← sdo_write w index (Index (wrap 8 i)) value;
      sdo_write_values w index (i + 1) values
  end.

Definition sdo_write_array {T} (w : WireWrite T) (index : Z) (values : list T)
    : St (W * SubDevice) Error unit :=
  _ ← sdo_write u8_write index (Index 0) 0;
  _ ← sdo_write_values w index 1 values;
  sdo_write u8_write index (Index 0) (wrap 8 (Z.of_nat (length values))).

(** *** Uploads *)

(** The first [4 - size] bytes of an expedited response. *)
Definition expedited_payload (h : SdoHeader) (data : bytes) : res Error bytes :=
  ok_or (get_range data 0 (Z.to_nat (sat_sub 4 (sh_size h)))) E_Internal.

Definition sdo_read_expedited {T} (r : WireRead T) (index : Z) (sub_index : SubIndex)
    : St (W * SubDevice) Error T :=
  _ ← lift (if overflow_checks && negb (Nat.leb (PACKED_LEN r) 4) then Panic else Ok tt);
  counter ← on_sub mailbox_counter;
  '(headers, response) ← mailbox_write_read (SdoNormal_upload counter index sub_index);
  if sh_expedited_transfer (sn_sdo_header headers) then
    payload ← lift (expedited_payload (sn_sdo_header headers) (rd_data response));
    lift (from_wire (unpack_from_slice r payload))
  else fail E_Internal.

(** One segment: [toggle], the bytes received so far, the buffer. *)
Definition segment_step (a : bool * nat * bytes)
    : St (W * SubDevice) Error (bool * nat * bytes + bytes) :=
  let '(toggle, total_len, buf) := a in
  counter ← on_sub mailbox_counter;
  '(headers, response) ← mailbox_write_read (SdoSegmented_upload counter toggle);
  chunk_len ← lift (usub 16 (mh_length (ss_header headers)) 3);
  let chunk_len := Z.to_nat chunk_len in
  chunk_len ← lift (if Nat.eqb chunk_len 7
    then usub 64 (Z.of_nat chunk_len) (shs_segment_data_size (ss_sdo_header headers))
    else Ok (Z.of_nat chunk_len));
  let chunk_len := Z.to_nat chunk_len in
  data ← lift (ok_or (get_range (rd_data response) 0 chunk_len) E_Internal);
  _ ← lift (ok_or (get_range buf total_len (total_len + chunk_len)) E_Internal);
  let buf := splice buf total_len data in
  let total_len := (total_len + chunk_len)%nat in
  if shs_is_last_segment (ss_sdo_header headers) then
    payload ← lift (ok_or (get_range buf 0 total_len) E_Internal);
    mret (inr payload)
  else mret (inl (negb toggle, total_len, buf)).

(** The bytes of the value, of which the first response is at hand; [buf] is
    where segments are collected. *)
Definition response_payload (buf : bytes) (headers : SdoNormal) (data : bytes)
    : St (W * SubDevice) Error bytes :=
  if sh_expedited_transfer (sn_sdo_header headers) then
    lift (expedited_payload (sn_sdo_header headers) data)
  else
    let data_length := sat_sub (mh_length (sn_header headers)) 0x0a in
    complete_size ← lift (from_wire (unpack_from_slice u32_read data));
    data ← lift (ok_or (get_from data (PACKED_LEN u32_read)) E_Internal);
    if wrap 32 (Z.of_nat (length buf)) <? complete_size then
      fail (E_Mailbox (ME_TooLong (sh_index (sn_sdo_header headers)) (sh_sub_index (sn_sdo_header headers))))
    else if complete_size <=? data_length then
      lift (ok_or (get_range data 0 (Z.to_nat data_length)) E_Internal)
    else
      p ← iterate turns segment_step (false, 0%nat, buf);
      lift (unwrap p).

Definition sdo_read {T} (r : WireRead T) (index : Z) (sub_index : SubIndex)
    : St (W * SubDevice) Error T :=
  let buf := zeros (BUFFER_LEN r) in
  counter ← on_sub mailbox_counter;
  '(headers, response) ← mailbox_write_read (SdoNormal_upload counter index sub_index);
  payload ← response_payload buf headers (rd_data response);
  lift (map_err (fun _ => E_Pdu PE_Decode) (unpack_from_slice r payload)).

(** [for i in from..=len] *)
Fixpoint sdo_read_values {T} (r : WireRead T) (index : Z) (i : Z) (n : nat) (max_entries : nat)
    (values : list T) : St (W * SubDevice) Error (list T) :=
  match n with
  | O => mret values
  | S n =>
      value ← sdo_read r index (Index i);
      if Nat.leb max_entries (length values) then fail E_Internal
      else sdo_read_values r index (i + 1) n max_entries (values ++ [value])
  end.

Definition sdo_read_array {T} (r : WireRead T) (max_entries : nat) (index : Z)
    : St (W * SubDevice) Error (list T) :=
  len ← sdo_read u8_read index (Index 0);
  if Nat.ltb max_entries (Z.to_nat len) then fail (E_Capacity I_SdoSubIndex)
  else sdo_read_values r index 1 (Z.to_nat len) max_entries [].

(** *** The SDO information service *)

Definition SDO_INFO_CAPACITY : nat := Z.to_nat 0x1fffe.

(** One response: whether the list type has been skipped, the bytes so far. *)
Definition info_step (read_mailbox : Mailbox) (a : bool * bytes)
    : St (W * SubDevice) Error (bool * bytes + bytes) :=
  let '(consumed_list_type, buf) := a in
  response ← wait_for_mailbox_response read_mailbox;
  headers ← lift (from_wire (unpack_from_slice ObjectDescriptionListResponse_read (rd_data response)));
  if decide (sih_op_code (olp_sdo_info_header headers) = SIO_GetObjectDescriptionListResponse) then
    length ← lift (usub 64 (mh_length (olp_header headers)) 8);
    let response := received_trim_front (PACKED_LEN ObjectDescriptionListResponse_read) response in
    let response := if consumed_list_type then response else received_trim_front 2 response in
    data ← lift (unwrap (get_range (rd_data response) 0 (Z.to_nat length)));
    if Nat.ltb SDO_INFO_CAPACITY (List.length buf + List.length data) then fail E_Internal else
    let buf := buf ++ data in
    if sih_incomplete (olp_sdo_info_header headers) then mret (inl (true, buf)) else mret (inr buf)
  else mret (inl (consumed_list_type, buf)).

(** A missing mailbox is [None]. *)
Definition send_sdo_info_service (request : ObjectDescriptionListRequest)
    : St (W * SubDevice) Error (option bytes) := fun ws =>
  match wait_for_mailboxes ws with
  | (Err (E_Mailbox (ME_NoReadMailbox | ME_NoWriteMailbox)), ws) => (Ok None, ws)
  | (Err e, ws) => (Err e, ws)
  | (Panic, ws) => (Panic, ws)
  | (Ok (read_mailbox, write_mailbox), ws) =>
      (_ ← send_request ObjectDescriptionListRequest_write write_mailbox request;
       b ← iterate turns (info_step read_mailbox) (false, []);
       b ← lift (unwrap b);
       mret (Some b)) ws
  end.

Definition info_result {T} (r : WireRead T) (payload : option bytes) : St (W * SubDevice) Error (option T) :=
  match payload with
  | None => mret None
  | Some b =>
      v ← lift (map_err (fun _ => E_Pdu PE_Decode) (unpack_from_slice r b));
      mret (Some v)
  end.

Definition sdo_info_object_description_list (list_type : ObjectDescriptionListQuery)
    : St (W * SubDevice) Error (option (list Z)) :=
  counter ← on_sub mailbox_counter;
  payload ← send_sdo_info_service (get_object_description_list counter list_type);
  info_result (vec_read (Z.to_nat 0x10000) u16_read) payload.

Definition sdo_info_object_quantities : St (W * SubDevice) Error (option ObjectDescriptionListQueryCounts) :=
  counter ← on_sub mailbox_counter;
  payload ← send_sdo_info_service (get_object_quantities counter);
  info_result ObjectDescriptionListQueryCounts_read payload.

End Coe.
