(* ===== verification/CoeExchange.v ===== *)
(** * One request and its response

    [exchange] states what one message to the mailbox of a SubDevice and its
    response are on the bus, after which [Coe.mailbox_write_read] is the check of
    that response.  [mailbox_device] is a bus with one SubDevice that has such a
    mailbox. *)
From S2P Require Import Prelude Wire Derive DeriveEnum EscTypes MailboxTypes PduTypes Errors Bus SubDevice Coe.
Import Struct Enum.

(** ** Definitions *)

(** A SubDevice and its two mailboxes. *)
Record Link := mkLink { lk_address : Z; lk_read : Mailbox; lk_write : Mailbox }.

Record linked (k : Link) (s : SubDevice) : Prop := {
  li_address : sd_configured_address s = lk_address k;
  li_read : mc_read (cfg_mailbox (sd_config s)) = Some (lk_read k);
  li_write : mc_write (cfg_mailbox (sd_config s)) = Some (lk_write k);
  li_read_sm : 0 <= mb_sync_manager (lk_read k) < 16;
  li_write_sm : 0 <= mb_sync_manager (lk_write k) < 16;
}.

(** The address of the status register of a SyncManager. *)
Definition sm_status_address (m : Mailbox) : Z := 0x0805 + 8 * mb_sync_manager m.

Section Exchange.
Context {W : Type} `{!Bus W} `{!Timing} (k : Link).

(** One look at the status of a mailbox. *)
Definition poll (m : Mailbox) (full : bool) (w w' : W) : Prop :=
  exists st, receive Status_read (fprd (lk_address k) (sm_status_address m)) w = (Ok st, w') /\
    st_mailbox_full st = full.

(** Stale messages that are read away. *)
Inductive clears : nat -> W -> W -> Prop :=
| clears_done w w' : poll (lk_read k) false w w' -> clears 0 w w'
| clears_more n w w1 w2 w3 p :
    poll (lk_read k) true w w1 ->
    receive_slice (read_ignore_wkc (fprd (lk_address k) (mb_address (lk_read k))))
      (mb_len (lk_read k)) w1 = (Ok p, w2) ->
    clears n w2 w3 -> clears (S n) w w3.

(** The mailbox becomes full, or empty, after [n] looks. *)
Inductive becomes (m : Mailbox) (full : bool) : nat -> W -> W -> Prop :=
| becomes_now w w' : poll m full w w' -> becomes m full 0 w w'
| becomes_later n w w1 w2 : poll m (negb full) w w1 -> becomes m full n w1 w2 -> becomes m full (S n) w w2.

(** A response arrives within its timeout. *)
Definition responds (w : W) (resp : Received) (w' : W) : Prop :=
  exists n w1, (n < patience TK_MailboxResponse)%nat /\ becomes (lk_read k) true n w w1 /\
    receive_slice (fprd (lk_address k) (mb_address (lk_read k))) (mb_len (lk_read k)) w1 = (Ok resp, w').

(** The mailboxes are ready, within their timeout. *)
Definition ready (w w' : W) : Prop :=
  exists n1 n2 w1, (n1 < 10)%nat /\ clears n1 w w1 /\
    (n2 < patience TK_MailboxEcho)%nat /\ becomes (lk_write k) false n2 w1 w'.

(** The SubDevice takes the message [req]. *)
Definition takes (w : W) (req : bytes) (w' : W) : Prop :=
  send slice_write (write_with_len (fpwr (lk_address k) (mb_address (lk_write k)))
    (mb_len (lk_write k))) req w = (Ok tt, w').

(** The SubDevice takes the message [req] and answers [resp]. *)
Definition exchange (w : W) (req : bytes) (resp : Received) (w' : W) : Prop :=
  exists w1 w2, ready w w1 /\ takes w1 req w2 /\ responds w2 resp w'.

End Exchange.

(** *** A bus with one SubDevice *)

Definition sample_link : Link := mkLink 0x1000 (mkMailbox 0x1080 0x80 1) (mkMailbox 0x1000 0x80 0).

(** A SubDevice with these mailboxes; what it answers to a message depends on [D],
    and all of it waits in its read mailbox. *)
Record MailboxDevice (D : Type) := mkMailboxDevice { md_state : D; md_out : list bytes }.
Arguments mkMailboxDevice {D}.
Arguments md_state {D}.
Arguments md_out {D}.

(** [n] bytes that begin with [b]. *)
Definition padded (n : nat) (b : bytes) : bytes := take n (b ++ zeros n).

Section Device.
Context {D : Type} (reply : D -> bytes -> D * list bytes).

Definition mailbox_device : Bus (MailboxDevice D) := {|
  bus_pdu command data len_override := fun d =>
    let n := Z.to_nat (default 0 len_override) in
    match command with
    | Read (Fprd a r) =>
        if negb (Z.eqb a (lk_address sample_link)) then (Ok (mkReceived 0 (zeros n) []), d)
        else if Z.eqb r (sm_status_address (lk_read sample_link)) then
          (Ok (mkReceived 1 (padded n [if md_out d is [] then 0 else 8]) []), d)
        else if Z.eqb r (mb_address (lk_read sample_link)) then
          match md_out d with
          | [] => (Ok (mkReceived 0 (zeros n) []), d)
          | m :: out => (Ok (mkReceived 1 (padded n m) []), mkMailboxDevice (md_state d) out)
          end
        else (Ok (mkReceived 1 (zeros n) []), d)
    | Write (Fpwr a r) =>
        if Z.eqb a (lk_address sample_link) && Z.eqb r (mb_address (lk_write sample_link)) then
          let '(st, out) := reply (md_state d) data in
          (Ok (mkReceived 1 (padded n data) []), mkMailboxDevice st (md_out d ++ out))
        else (Ok (mkReceived 0 (zeros n) []), d)
    | _ => (Ok (mkReceived 0 (zeros n) []), d)
    end
|}.

End Device.

Definition sample_subdevice : SubDevice :=
  mkSubDevice 0x1000 0
    (mkSubDeviceConfig (cfg_io SubDeviceConfig_default)
      (mkMailboxConfig (Some (lk_read sample_link)) (Some (lk_write sample_link)) 4 true false))
    (mkSubDeviceIdentity 0 0 0 0) [] [] DCS_None 0 0 None 0 1 DCSync_Disabled [].

(** Every wait may look twice. *)
Definition two_turns : Timing := fun _ => 2%nat.

(** The responses in the order in which they are asked for. *)
Definition scripted (script : list (list bytes)) (_ : bytes) : list (list bytes) * list bytes :=
  (tail script, default [] (head script)).

(** ** Lemmas *)

Section Mailbox.
#[local] Set Default Proof Using "Type*".
Context {W : Type} `{!Bus W} `{!Timing} {P : Profile} (k : Link) (s : SubDevice) (Hk : linked k s).

Lemma sm_status_ok {E} n :
  0 <= n < 16 -> register_sync_manager_status (E:=E) n = Ok (0x0805 + 8 * n).
Proof.
  intros Hr. each_below Hr; vm_compute; reflexivity.
Qed.

Lemma on_bus_step {A} (m : St W Error A) w r w' : m w = (r, w') -> on_bus m (w, s) = (r, (w', s)).
Proof. intros Hm. unfold on_bus. by rewrite Hm. Qed.

Lemma sub_read_ok register (w : W) :
  sub_read register (w, s) = (Ok (fprd (lk_address k) register), (w, s)).
Proof. unfold sub_read. rewrite <- (li_address _ _ Hk). done. Qed.

Lemma sub_write_ok register (w : W) :
  sub_write register (w, s) = (Ok (fpwr (lk_address k) register), (w, s)).
Proof. unfold sub_write. rewrite <- (li_address _ _ Hk). done. Qed.

Lemma sm_status_poll m full w w' :
  poll k m full w w' -> exists st, sm_status (sm_status_address m) (w, s) = (Ok st, (w', s)) /\
    st_mailbox_full st = full.
Proof.
  intros (st & Hr & Hst). exists st. split; [|done]. unfold sm_status.
  rewrite (st_step _ _ _ _ _ (sub_read_ok _ _)). by apply on_bus_step.
Qed.

Lemma wait_turns m full n w w' fuel :
  becomes k m full n w w' -> (n < fuel)%nat ->
  iterate fuel (wait_step (sm_status_address m) full) tt (w, s) = (Ok (Some tt), (w', s)).
Proof.
  intros Hb. revert fuel. induction Hb as [w w' Hp|n w w1 w2 Hp Hb IH]; intros [|f] Hf; try lia;
    destruct (sm_status_poll _ _ _ _ Hp) as (st & Hst & Hf').
  - eapply iterate_inr. unfold wait_step. by rewrite (st_step _ _ _ _ _ Hst), Hf', Bool.eqb_reflx.
  - erewrite iterate_inl; [apply IH; lia|]. unfold wait_step. rewrite (st_step _ _ _ _ _ Hst), Hf'.
    by destruct full.
Qed.

Lemma wait_full_ok kind m full n w w' :
  becomes k m full n w w' -> (n < patience kind)%nat ->
  wait_full kind (sm_status_address m) full (w, s) = (Ok tt, (w', s)).
Proof.
  intros Hb Hn. unfold wait_full, loop_with_timeout.
  erewrite st_step; [|by eapply wait_turns]; done.
Qed.

Lemma clear_ok n w w' fuel :
  clears k n w w' -> (n < fuel)%nat ->
  iterate fuel (clear_step (lk_read k) (sm_status_address (lk_read k))) tt (w, s) = (Ok (Some tt), (w', s)).
Proof.
  intros Hc. revert fuel. induction Hc as [w w' Hp|n w w1 w2 w3 p Hp Hr Hc IH]; intros [|f] Hf; try lia;
    destruct (sm_status_poll _ _ _ _ Hp) as (st & Hst & Hf').
  - eapply iterate_inr. unfold clear_step. by rewrite (st_step _ _ _ _ _ Hst), Hf'.
  - erewrite iterate_inl; [apply IH; lia|]. unfold clear_step. rewrite (st_step _ _ _ _ _ Hst), Hf'.
    rewrite (st_step _ _ _ _ _ (sub_read_ok _ _)). by rewrite (st_step _ _ _ _ _ (on_bus_step _ _ _ _ Hr)).
Qed.

Lemma sm_status_lift m (w : W) :
  0 <= mb_sync_manager m < 16 ->
  lift (register_sync_manager_status (mb_sync_manager m)) (w, s) =
    (Ok (E:=Error) (sm_status_address m), (w, s)).
Proof. intros Hm. unfold lift. by rewrite sm_status_ok. Qed.

Lemma wait_for_mailboxes_ok w w' :
  ready k w w' -> wait_for_mailboxes (w, s) = (Ok (lk_read k, lk_write k), (w', s)).
Proof.
  intros (n1 & n2 & w1 & H1 & Hc & H2 & Hb).
  pose proof (sm_status_lift _ w (li_read_sm _ _ Hk)) as Hr. pose proof (sm_status_lift _ w (li_write_sm _ _ Hk)) as Hw.
  unfold wait_for_mailboxes. rewrite (st_step (gets snd) _ (w, s) s (w, s)) by done.
  rewrite (li_read _ _ Hk), (li_write _ _ Hk). cbn [ok_or].
  rewrite (st_step _ _ _ (lk_write k) (w, s)), (st_step _ _ _ (lk_read k) (w, s)) by done.
  rewrite (st_step _ _ _ _ _ Hr), (st_step _ _ _ _ _ Hw), (st_step _ _ _ _ _ (clear_ok _ _ _ _ Hc H1)).
  by rewrite (st_step _ _ _ _ _ (wait_full_ok _ _ _ _ _ _ Hb H2)).
Qed.

Lemma wait_for_mailbox_response_ok w resp w' :
  responds k w resp w' -> wait_for_mailbox_response (lk_read k) (w, s) = (Ok resp, (w', s)).
Proof.
  intros (n & w1 & Hn & Hb & Hr). unfold wait_for_mailbox_response.
  rewrite (st_step _ _ _ _ _ (sm_status_lift _ w (li_read_sm _ _ Hk))).
  rewrite (st_step _ _ _ _ _ (wait_full_ok _ _ _ _ _ _ Hb Hn)). rewrite (st_step _ _ _ _ _ (sub_read_ok _ _)).
  by apply on_bus_step.
Qed.

Lemma send_request_ok {R} (wr : WireWrite R) request b w w' :
  pack wr request = Ok b -> takes k w b w' ->
  send_request wr (lk_write k) request (w, s) = (Ok tt, (w', s)).
Proof.
  intros Hp Ht. unfold send_request. rewrite (st_step _ _ _ _ _ (sub_write_ok _ _)), Hp.
  by apply on_bus_step.
Qed.

(** One request and its response. *)
Lemma mailbox_write_read_ok {R} `{!CoeServiceRequest R} (request : R) b w resp w' :
  pack request_write request = Ok b -> exchange k w b resp w' ->
  mailbox_write_read request (w, s) = (check_response request resp, (w', s)).
Proof.
  intros Hp (w1 & w2 & Hr & Ht & Hs). unfold mailbox_write_read.
  rewrite (st_step _ _ _ _ _ (wait_for_mailboxes_ok _ _ Hr)).
  rewrite (st_step _ _ _ _ _ (send_request_ok _ _ _ _ _ Hp Ht)).
  by rewrite (st_step _ _ _ _ _ (wait_for_mailbox_response_ok _ _ _ Hs)).
Qed.

End Mailbox.

(** *** The SubDevice answers *)

Lemma sample_linked : linked sample_link sample_subdevice.
Proof. by constructor. Qed.

Section Device.
Context {D : Type} (reply : D -> bytes -> D * list bytes) `{!Timing}
  (Hecho : (0 < patience TK_MailboxEcho)%nat) (Hresp : (0 < patience TK_MailboxResponse)%nat).
#[local] Instance device_bus : Bus (MailboxDevice D) := mailbox_device reply.

Lemma device_poll_read (d : MailboxDevice D) :
  poll sample_link (lk_read sample_link) (if md_out d is [] then false else true) d d.
Proof. destruct d as [st [|m out]]; by eexists. Qed.

Lemma device_ready d : ready sample_link (mkMailboxDevice d []) (mkMailboxDevice d []).
Proof using Hecho.
  exists 0%nat, 0%nat, (mkMailboxDevice d []). split_and!; [apply Nat.lt_0_succ|constructor; by eexists|done|].
  constructor. by eexists.
Qed.

Lemma device_takes d d' out req :
  reply d req = (d', out) -> takes sample_link (mkMailboxDevice d []) req (mkMailboxDevice d' out).
Proof.
  intros Hr. unfold takes, send, write_common.
  replace (pack slice_write req) with (Ok (E:=WireError) req).
  - unfold mbind, St_bind, lift. cbn. by rewrite Hr.
  - unfold pack. cbn [slice_write pack_to_slice_unchecked packed_len]. rewrite length_zeros, Nat.leb_refl.
    by rewrite splice_all by (by rewrite length_zeros).
Qed.

Lemma device_responds d m out :
  responds sample_link (mkMailboxDevice d (m :: out)) (mkReceived 1 (padded 128 m) []) (mkMailboxDevice d out).
Proof using Hresp.
  exists 0%nat, (mkMailboxDevice d (m :: out)). split_and!; [done|constructor; by eexists|]. done.
Qed.

Lemma device_exchange d d' req m :
  reply d req = (d', [m]) ->
  exchange sample_link (mkMailboxDevice d []) req (mkReceived 1 (padded 128 m) []) (mkMailboxDevice d' []).
Proof using Hecho Hresp.
  intros Hr. exists (mkMailboxDevice d []), (mkMailboxDevice d' [m]).
  split_and!; [apply device_ready|by apply device_takes|apply device_responds].
Qed.

End Device.
