(* ===== verification/CoeSpec.v ===== *)
(** * SDO uploads and the information service

    What the transfers of [Coe] give for the responses of a SubDevice. *)
From S2P Require Import Prelude Wire WireSpec Derive DeriveEnum EscTypes MailboxTypes PduTypes Errors Bus SubDevice Coe CoeExchange.
Import Struct Enum.

(** ** Definitions *)

(** A response of at least 16 bytes that starts with the headers [n]. *)
Record sdo_response (resp : Received) (n : SdoNormal) (payload : bytes) : Prop := {
  sr_read : unpack_from_slice SdoNormal_read (rd_data resp) = Ok n;
  sr_payload : drop 12 (rd_data resp) = payload;
  sr_len : (16 <= length (rd_data resp))%nat;
}.

(** Why a response is not taken. *)
Inductive Refusal := Emergency | Refused (e : Error).

Definition refuse {A} (f : Refusal) : res Error A :=
  match f with Emergency => Panic | Refused e => Err e end.

(** The response to an upload or download of [index] and [sub] is refused. *)
Definition refused (n : SdoNormal) (payload : bytes) (index sub : Z) : option Refusal :=
  let h := sn_sdo_header n in
  if decide (ch_service (sn_coe_header n) = CS_Emergency) then Some Emergency
  else if decide (sh_command h = CC_Abort) then
    Some (Refused (E_Mailbox (ME_Aborted (CoeAbortCode_of_u32 (le_val (take 4 payload))) (sh_index h) (sh_sub_index h))))
  else if decide (mh_mailbox_type (sn_header n) = MT_Coe /\ sh_index h = index /\ sh_sub_index h = sub)
  then None
  else Some (Refused (E_Mailbox (ME_SdoResponseInvalid (sh_index h) (sh_sub_index h)))).

Definition decode {T} (r : WireRead T) (b : bytes) : res Error T :=
  map_err (fun _ => E_Pdu PE_Decode) (unpack_from_slice r b).

(** The number of bytes an upload response carries after the size. *)
Definition upload_length (n : SdoNormal) : Z := sat_sub (mh_length (sn_header n)) 10.

(** The value in a response that holds all of it: in the header's own data, or
    behind the size of the value. *)
Definition uploaded {T} (r : WireRead T) (n : SdoNormal) (payload : bytes) : res Error T :=
  let h := sn_sdo_header n in
  if sh_expedited_transfer h then decode r (take (Z.to_nat (sat_sub 4 (sh_size h))) payload)
  else if Z.of_nat (BUFFER_LEN r) <? le_val (take 4 payload)
  then Err (E_Mailbox (ME_TooLong (sh_index h) (sh_sub_index h)))
  else decode r (take (Z.to_nat (upload_length n)) (drop 4 payload)).

(** The response to an upload request is not the first of a segmented transfer,
    and what it carries is in the mailbox. *)
Definition complete {T} (r : WireRead T) (n : SdoNormal) (payload : bytes) : Prop :=
  sh_expedited_transfer (sn_sdo_header n) = true \/
  Z.of_nat (BUFFER_LEN r) < le_val (take 4 payload) \/
  (le_val (take 4 payload) <= upload_length n /\ 4 + upload_length n <= Z.of_nat (length payload)).

(** The response is about the object [index]:[sub] and not an error. *)
Definition about_object (n : SdoNormal) (index sub : Z) : Prop :=
  forall payload, refused n payload index sub = None.

(** The number of bytes the code takes from a segment. *)
Definition segment_length (n : SdoSegmented) : Z :=
  let l := mh_length (ss_header n) - 3 in
  if Z.eqb l 7 then 7 - shs_segment_data_size (ss_sdo_header n) else l.

(** A response to a request for a segment as CANopen has it: its command specifier,
    the upper three bits of byte 8 of the mailbox, is 0. *)
Record conforming_segment (resp : Received) : Prop := {
  cg_len : (12 <= length (rd_data resp))%nat;
  cg_header : exists h, unpack_from_slice MailboxHeader_read (rd_data resp) = Ok h;
  cg_coe : exists c, unpack_from_slice CoeHeader_read (drop 6 (rd_data resp)) = Ok c;
  cg_command : exists x, rd_data resp !! 8%nat = Some x /\ 0 <= x < 2 ^ 5;
}.

(** A response to a request for a segment whose command specifier is one that
    [CoeCommand] has, as no conforming response is, and the bytes that
    [trim_front(12)] leaves of it, which begin 12 bytes into the mailbox. *)
Record segment_response (resp : Received) (n : SdoSegmented) (chunk : bytes) : Prop := {
  sg_read : unpack_from_slice SdoSegmented_read (rd_data resp) = Ok n;
  sg_bytes : bytes_ok (rd_data resp);
  sg_len : (12 <= length (rd_data resp))%nat;
  sg_coe : mh_mailbox_type (ss_header n) = MT_Coe;
  sg_service : ch_service (ss_coe_header n) <> CS_Emergency;
  sg_command : shs_command (ss_sdo_header n) <> CC_Abort;
  sg_length : 3 <= mh_length (ss_header n) < 65536;
  sg_size : 0 <= shs_segment_data_size (ss_sdo_header n) <= 7;
  sg_fits : (Z.to_nat (segment_length n) <= length (rd_data resp))%nat;
  sg_chunk : chunk = take (Z.to_nat (segment_length n)) (drop 12 (rd_data resp ++ rd_behind resp));
  sg_chunk_len : length chunk = Z.to_nat (segment_length n);
}.

Section Segments.
Context {W : Type} `{!Bus W} `{!Timing} (k : Link).

(** The requests and responses of a segmented transfer, from the first segment to
    the last, with the chunks taken. *)
Inductive segments : bool -> W -> SubDevice -> list bytes -> W -> SubDevice -> Prop :=
| segments_last toggle w s b resp w' n chunk :
    pack SdoSegmented_write (SdoSegmented_upload (sd_mailbox_counter s) toggle) = Ok b ->
    exchange k w b resp w' -> segment_response resp n chunk ->
    shs_is_last_segment (ss_sdo_header n) = true ->
    segments toggle w s [chunk] w' (mailbox_counter s).2
| segments_more toggle w s b resp w1 n chunk chunks w' s' :
    pack SdoSegmented_write (SdoSegmented_upload (sd_mailbox_counter s) toggle) = Ok b ->
    exchange k w b resp w1 -> segment_response resp n chunk ->
    shs_is_last_segment (ss_sdo_header n) = false ->
    segments (negb toggle) w1 (mailbox_counter s).2 chunks w' s' ->
    segments toggle w s (chunk :: chunks) w' s'.

End Segments.

(** The bytes taken from a fragment of an object list: from byte 12 on, or 14 in
    the first fragment, 8 less than the mailbox header says. *)
Record list_response (resp : Received) (h : ObjectDescriptionListResponse) (consumed : bool) (chunk : bytes)
    : Prop := {
  lr_read : unpack_from_slice ObjectDescriptionListResponse_read (rd_data resp) = Ok h;
  lr_code : sih_op_code (olp_sdo_info_header h) = SIO_GetObjectDescriptionListResponse;
  lr_length : 8 <= mh_length (olp_header h) < 65536;
  lr_fits : ((if consumed then 12 else 14) + Z.to_nat (mh_length (olp_header h) - 8) <= length (rd_data resp))%nat;
  lr_chunk : chunk = take (Z.to_nat (mh_length (olp_header h) - 8))
    (drop (if consumed then 12 else 14) (rd_data resp));
}.

Section Fragments.
Context {W : Type} `{!Bus W} `{!Timing} (k : Link).

(** The [n] responses up to the last fragment of a list, with the chunks taken;
    responses of other kinds are passed over. *)
Inductive fragments : nat -> bool -> W -> list bytes -> W -> Prop :=
| fragments_last consumed w resp w' h chunk :
    responds k w resp w' -> list_response resp h consumed chunk ->
    sih_incomplete (olp_sdo_info_header h) = false ->
    fragments 1 consumed w [chunk] w'
| fragments_more n consumed w resp w1 h chunk chunks w' :
    responds k w resp w1 -> list_response resp h consumed chunk ->
    sih_incomplete (olp_sdo_info_header h) = true ->
    fragments n true w1 chunks w' ->
    fragments (S n) consumed w (chunk :: chunks) w'
| fragments_other n consumed w resp w1 h chunks w' :
    responds k w resp w1 ->
    unpack_from_slice ObjectDescriptionListResponse_read (rd_data resp) = Ok h ->
    sih_op_code (olp_sdo_info_header h) <> SIO_GetObjectDescriptionListResponse ->
    fragments n consumed w1 chunks w' ->
    fragments (S n) consumed w chunks w'.

End Fragments.

(** ** Lemmas *)

(** *** The headers of the response types *)

Ltac compute_headers tac :=
  cbv -[Z.land Z.shiftr le_val Z.ltb MailboxType_read Priority_read CoeService_read CoeCommand_read];
  destruct MailboxType_read as [? ? um], Priority_read as [? ? up], CoeService_read as [? ? us],
    CoeCommand_read as [? uc];
  cbv beta iota; tac;
  repeat match goal with
  | f : bytes -> res WireError _ |- context [?g ?x] => constr_eq f g; destruct (g x)
  end; cbv beta iota; try discriminate.

Lemma headers_raw_of_normal b n :
  unpack_from_slice SdoNormal_read b = Ok n ->
  unpack_from_slice HeadersRaw_read b = Ok (mkHeadersRaw (sn_header n) (sn_coe_header n)
    (sh_command (sn_sdo_header n)) (sh_index (sn_sdo_header n)) (sh_sub_index (sn_sdo_header n))).
Proof.
  do 12 (destruct b as [|? b]; [vm_compute; discriminate|]).
  compute_headers ltac:(idtac). by intros [= <-].
Qed.

Lemma normal_of_expedited b n :
  unpack_from_slice SdoExpedited_read b = Ok n ->
  unpack_from_slice SdoNormal_read b = Ok (mkSdoNormal (se_header n) (se_coe_header n) (se_sdo_header n)).
Proof.
  do 16 (destruct b as [|? b]; [vm_compute; discriminate|]).
  compute_headers ltac:(idtac). by intros [= <-].
Qed.

Lemma byte_mask z : byte_ok z -> Z.shiftr (Z.land z 255) 0 = z.
Proof.
  intros H. rewrite Z.shiftr_0_r. change 255 with (Z.ones 8). rewrite Z.land_ones by lia.
  by apply Z.mod_small.
Qed.

Lemma headers_raw_of_segmented b n :
  bytes_ok b -> (12 <= length b)%nat ->
  unpack_from_slice SdoSegmented_read b = Ok n ->
  exists a i, unpack_from_slice HeadersRaw_read b = Ok (mkHeadersRaw (ss_header n) (ss_coe_header n)
    (shs_command (ss_sdo_header n)) a i).
Proof.
  intros Hb. do 12 (destruct b as [|? b]; [cbn; lia|]). intros _.
  assert (byte_ok z7) as H7 by (by apply (Forall_lookup_1 _ _ 8%nat _ Hb)). clear Hb.
  apply byte_mask in H7.
  compute_headers ltac:(rewrite ?H7). intros [= <-]. by do 2 eexists.
Qed.

(** *** Reading behind the headers *)

Lemma take_trim ct n p :
  (ct + n <= length (rd_data p))%nat ->
  take n (rd_data (received_trim_front ct p)) = take n (drop ct (rd_data p)).
Proof.
  intros Hn. unfold received_trim_front. cbn. rewrite Nat.min_l by lia. rewrite take_take, Nat.min_l by lia.
  rewrite drop_app_le by lia. rewrite take_app_le; [done|]. rewrite length_drop. lia.
Qed.

Lemma length_trim ct p :
  (ct <= length (rd_data p))%nat ->
  (length (rd_data p) - ct <= length (rd_data (received_trim_front ct p)))%nat.
Proof.
  intros Hn. unfold received_trim_front. cbn. rewrite Nat.min_l by lia.
  rewrite length_take, length_drop, length_app. lia.
Qed.

Lemma get_range_trim ct a b p :
  (a <= b)%nat -> (ct + b <= length (rd_data p))%nat ->
  get_range (rd_data (received_trim_front ct p)) a b =
    Some (take (b - a) (drop a (drop ct (rd_data p)))).
Proof.
  intros Ha Hb. pose proof (length_trim ct p ltac:(lia)). apply get_range_Some. split; [lia|].
  rewrite !(take_drop_commute _ (b - a) a).
  replace (a + (b - a))%nat with b by lia. by rewrite take_trim by lia.
Qed.

Lemma abort_code_total x : exists c, from_raw CoeAbortCode_meta x = Ok c.
Proof. unfold from_raw. destruct (find _ _); [by eexists|]. cbn. by eexists. Qed.

Lemma abort_code_read p :
  (16 <= length (rd_data p))%nat ->
  unpack_from_slice CoeAbortCode_read (rd_data (received_trim_front 12 p)) =
    Ok (CoeAbortCode_of_u32 (le_val (take 4 (drop 12 (rd_data p))))).
Proof.
  intros Hl. unfold CoeAbortCode_of_u32.
  destruct (abort_code_total (le_val (take 4 (drop 12 (rd_data p))))) as [c Hc].
  rewrite Hc, <- Hc. cbn [CoeAbortCode_read enum_read unpack_from_slice].
  change (repr_size (em_repr CoeAbortCode_meta)) with 4%nat.
  by rewrite (get_range_trim 12 0 4) by lia.
Qed.


(** *** What a response means *)

Lemma expedited_of_normal b n :
  (16 <= length b)%nat -> unpack_from_slice SdoNormal_read b = Ok n ->
  exists d, unpack_from_slice SdoExpedited_read b =
    Ok (mkSdoExpedited (sn_header n) (sn_coe_header n) (sn_sdo_header n) d).
Proof.
  do 16 (destruct b as [|? b]; [cbn; lia|]). intros _.
  compute_headers ltac:(idtac). intros [= <-]. by eexists.
Qed.

Lemma normal_size b n : unpack_from_slice SdoNormal_read b = Ok n -> 0 <= sh_size (sn_sdo_header n).
Proof.
  do 12 (destruct b as [|? b]; [vm_compute; discriminate|]).
  compute_headers ltac:(idtac). intros [= <-].
  apply Z.shiftr_nonneg, Z.land_nonneg. by right.
Qed.

Section Response.
Context {R : Type} `{!CoeServiceRequest R} (request : R) (index sub : Z)
  (Hvalid : forall a i, validate_response request a i = (Z.eqb a index && Z.eqb i sub)).

Lemma check_response_spec resp n payload v :
  sdo_response resp n payload -> unpack_from_slice request_read (rd_data resp) = Ok v ->
  check_response request resp =
    match refused n payload index sub with
    | Some f => refuse f
    | None => Ok (v, received_trim_front 12 resp)
    end.
Proof using Hvalid.
  intros [Hn <- Hl] Hv. unfold check_response, refused. rewrite (headers_raw_of_normal _ _ Hn), Hv.
  change (PACKED_LEN HeadersRaw_read) with 12%nat. rewrite abort_code_read by done. msimpl.
  cbn [hr_header hr_coe_header hr_command hr_address hr_sub_index map_err from_wire].
  destruct (decide (_ = CS_Emergency)); [done|].
  destruct (decide (_ = CC_Abort)); [done|]. rewrite Hvalid.
  destruct (decide (_ /\ _)) as [(-> & -> & ->)|Hne]; [by rewrite !Z.eqb_refl|].
  destruct (bool_decide_reflect (mh_mailbox_type (sn_header n) = MT_Coe)) as [Ht|]; [|done].
  destruct (Z.eqb_spec (sh_index (sn_sdo_header n)) index) as [Hi|]; [|done].
  destruct (Z.eqb_spec (sh_sub_index (sn_sdo_header n)) sub) as [Hs|]; [|done].
  by destruct Hne.
Qed.

End Response.

#[export] Instance SdoNormal_roundtrip : RoundTrip SdoNormal_write SdoNormal_read
  (fun v => MailboxHeader_valid (sn_header v) /\ SdoHeader_valid (sn_sdo_header v)).
Proof.
  apply derive_roundtrip; [exact I|by intros []|].
  intros [] [? ?]. valid_fields; done.
Defined.

#[export] Instance SdoExpedited_roundtrip : RoundTrip SdoExpedited_write SdoExpedited_read
  (fun v => MailboxHeader_valid (se_header v) /\ SdoHeader_valid (se_sdo_header v) /\
    length (se_data v) = 4%nat /\ bytes_ok (se_data v)).
Proof.
  apply derive_roundtrip; [exact I|by intros []|].
  intros [] (? & ? & ? & ?). valid_fields; done.
Defined.

Lemma linked_counter k s : linked k s -> linked k (mailbox_counter s).2.
Proof. intros []. by constructor. Qed.

Section Transfers.
#[local] Set Default Proof Using "Type*".
Context {W : Type} `{!Bus W} `{!Timing} {P : Profile} (k : Link) (turns : nat).

Lemma counter_step s (w : W) :
  on_sub mailbox_counter (w, s) = (Ok (E:=Error) (sd_mailbox_counter s), (w, (mailbox_counter s).2)).
Proof. done. Qed.

(** An upload request and what its response says. *)
Lemma upload_ok s w index access b resp w' n payload :
  linked k s ->
  pack SdoNormal_write (SdoNormal_upload (sd_mailbox_counter s) index access) = Ok b ->
  exchange k w b resp w' -> sdo_response resp n payload ->
  mailbox_write_read (SdoNormal_upload (sd_mailbox_counter s) index access) (w, (mailbox_counter s).2) =
  (match refused n payload index (sub_index access) with
   | Some f => refuse f
   | None => Ok (n, received_trim_front 12 resp)
   end, (w', (mailbox_counter s).2)).
Proof.
  intros Hk Hb He Hr.
  rewrite (mailbox_write_read_ok k _ (linked_counter _ _ Hk)
    (SdoNormal_upload (sd_mailbox_counter s) index access) b w resp w'); [|exact Hb|exact He]. f_equal.
  apply check_response_spec; [intros; reflexivity|exact Hr|apply (sr_read _ _ _ Hr)].
Qed.

Lemma expedited_payload_ok n resp payload :
  sdo_response resp n payload ->
  expedited_payload (sn_sdo_header n) (rd_data (received_trim_front 12 resp)) =
    Ok (take (Z.to_nat (sat_sub 4 (sh_size (sn_sdo_header n)))) payload).
Proof.
  intros [Hn <- Hl]. pose proof (normal_size _ _ Hn). unfold expedited_payload.
  rewrite get_range_trim by (unfold sat_sub; lia). by rewrite drop_0, Nat.sub_0_r.
Qed.

(** The four bytes that state the size of a value. *)
Lemma complete_size_ok resp :
  (16 <= length (rd_data resp))%nat ->
  unpack_from_slice u32_read (rd_data (received_trim_front 12 resp)) =
    Ok (le_val (take 4 (drop 12 (rd_data resp)))) /\
  get_from (rd_data (received_trim_front 12 resp)) 4 =
    Some (drop 4 (rd_data (received_trim_front 12 resp))).
Proof.
  intros Hl. pose proof (length_trim 12 resp ltac:(lia)). split.
  - cbn -[received_trim_front get_range]. by rewrite (get_range_trim 12 0 4) by lia.
  - apply get_from_Some. split; [lia|done].
Qed.

Lemma response_payload_ok n resp payload len (w : W) s :
  sdo_response resp n payload ->
  (sh_expedited_transfer (sn_sdo_header n) = false -> Z.of_nat len < 2 ^ 32) ->
  sh_expedited_transfer (sn_sdo_header n) = true \/ Z.of_nat len < le_val (take 4 payload) \/
    (le_val (take 4 payload) <= upload_length n /\ 4 + upload_length n <= Z.of_nat (length payload)) ->
  response_payload turns (zeros len) n (rd_data (received_trim_front 12 resp)) (w, s) =
    (if sh_expedited_transfer (sn_sdo_header n) then Ok (take (Z.to_nat (sat_sub 4 (sh_size (sn_sdo_header n)))) payload)
     else if Z.of_nat len <? le_val (take 4 payload)
     then Err (E_Mailbox (ME_TooLong (sh_index (sn_sdo_header n)) (sh_sub_index (sn_sdo_header n))))
     else Ok (take (Z.to_nat (upload_length n)) (drop 4 payload)), (w, s)).
Proof.
  intros Hr HT Hc. unfold response_payload. rewrite (expedited_payload_ok _ _ _ Hr).
  destruct (sh_expedited_transfer _); [done|]. specialize (HT eq_refl). destruct Hc as [|Hc]; [done|].
  assert (0 <= upload_length n) as Hup by (unfold upload_length, sat_sub; lia).
  destruct Hr as [Hn <- Hl]. destruct (complete_size_ok resp Hl) as [Hsize Hfrom].
  rewrite Hsize. cbn [from_wire map_err]. change (PACKED_LEN u32_read) with 4%nat. rewrite Hfrom.
  do 2 (erewrite st_step by reflexivity). rewrite length_zeros, wrap_small by (split; lia).
  destruct (Z.ltb_spec (Z.of_nat len) (le_val (take 4 (drop 12 (rd_data resp))))) as [Hlt|Hge]; [done|].
  destruct Hc as [Hc|[Hs Hc]]; [lia|]. fold (upload_length n).
  rewrite (proj2 (Z.leb_le _ _) Hs). rewrite length_drop in Hc.
  replace (get_range _ _ _) with (Some (take (Z.to_nat (upload_length n)) (drop 4 (drop 12 (rd_data resp))))); [done|].
  symmetry. apply get_range_Some. rewrite drop_0, Nat.sub_0_r. pose proof (length_trim 12 resp ltac:(lia)).
  rewrite length_drop. split; [lia|]. rewrite !(take_drop_commute _ _ 4), take_trim by lia. done.
Qed.

(** A download request and its response. *)
Lemma download_ok s w index access data len b resp w' n payload :
  linked k s ->
  pack SdoExpedited_write (SdoExpedited_download (sd_mailbox_counter s) index access data len) = Ok b ->
  exchange k w b resp w' -> sdo_response resp n payload -> about_object n index (sub_index access) ->
  exists v, mailbox_write_read (SdoExpedited_download (sd_mailbox_counter s) index access data len)
      (w, (mailbox_counter s).2) =
    (Ok (v, received_trim_front 12 resp), (w', (mailbox_counter s).2)).
Proof.
  intros Hk Hb He Hr Ha. destruct (expedited_of_normal _ _ (sr_len _ _ _ Hr) (sr_read _ _ _ Hr)) as [d Hd].
  eexists. rewrite (mailbox_write_read_ok k _ (linked_counter _ _ Hk)
    (SdoExpedited_download (sd_mailbox_counter s) index access data len) b w resp w'); [|exact Hb|exact He].
  f_equal. erewrite (check_response_spec _ index (sub_index access)); [by rewrite Ha| |exact Hr|exact Hd].
  by intros.
Qed.

(** An upload whose response is not refused. *)
Lemma sdo_read_accepted {T} (r : WireRead T) s w index access b resp w' n payload :
  linked k s -> (sh_expedited_transfer (sn_sdo_header n) = false -> Z.of_nat (BUFFER_LEN r) < 2 ^ 32) ->
  pack SdoNormal_write (SdoNormal_upload (sd_mailbox_counter s) index access) = Ok b ->
  exchange k w b resp w' -> sdo_response resp n payload ->
  refused n payload index (sub_index access) = None -> complete r n payload ->
  sdo_read turns r index access (w, s) = (uploaded r n payload, (w', (mailbox_counter s).2)).
Proof.
  intros Hk HT Hb He Hr Ha Hc.
  unfold sdo_read. rewrite (st_step _ _ _ _ _ (counter_step s w)).
  pose proof (upload_ok s w index access b resp w' n payload Hk Hb He Hr) as Hup. rewrite Ha in Hup.
  rewrite (st_step _ _ _ _ _ Hup).
  pose proof (response_payload_ok n resp payload (BUFFER_LEN r) w' (mailbox_counter s).2 Hr HT Hc) as Hp.
  unfold uploaded, mbind, St_bind. rewrite Hp.
  destruct (sh_expedited_transfer _); [done|].
  by destruct (Z.of_nat (BUFFER_LEN r) <? le_val (take 4 payload)).
Qed.

(** *** Properties *)

(** C34: What [sdo_read] gives for one response of the SubDevice: the value in
    the header's own data or behind the size of a normal upload, decoded;
    [TooLong] when it is larger than the type read; the abort code of an abort;
    [SdoResponseInvalid] for the response to another request; and a panic for an
    emergency message. *)
Theorem sdo_read_spec {T} (r : WireRead T) s w index access b resp w' n payload :
  linked k s -> Z.of_nat (BUFFER_LEN r) < 2 ^ 32 ->
  pack SdoNormal_write (SdoNormal_upload (sd_mailbox_counter s) index access) = Ok b ->
  exchange k w b resp w' -> sdo_response resp n payload ->
  (refused n payload index (sub_index access) = None -> complete r n payload) ->
  sdo_read turns r index access (w, s) =
    (match refused n payload index (sub_index access) with
     | Some f => refuse f
     | None => uploaded r n payload
     end, (w', (mailbox_counter s).2)).
Proof.
  intros Hk HT Hb He Hr Hc.
  destruct (refused n payload index (sub_index access)) as [f|] eqn:Href.
  - pose proof (upload_ok s w index access b resp w' n payload Hk Hb He Hr) as Hup. rewrite Href in Hup.
    unfold sdo_read. rewrite (st_step _ _ _ _ _ (counter_step s w)).
    destruct f; [by rewrite (st_step_panic _ _ _ _ Hup)|by rewrite (st_step_err _ _ _ _ _ Hup)].
  - by apply (sdo_read_accepted r s w index access b resp w' n payload); auto.
Qed.

(** An array of items of more than a byte is never read from a normal upload that
    carries the value and no more: either it is longer than [buffer()], or shorter
    than the array. *)
Theorem sdo_read_wide_array_fails {T} (rd : WireRead T) m s w index access b resp w' n payload :
  (0 < m)%nat -> Z.of_nat m < 2 ^ 32 -> (1 < PACKED_LEN rd)%nat -> linked k s ->
  pack SdoNormal_write (SdoNormal_upload (sd_mailbox_counter s) index access) = Ok b ->
  exchange k w b resp w' -> sdo_response resp n payload ->
  refused n payload index (sub_index access) = None ->
  sh_expedited_transfer (sn_sdo_header n) = false ->
  upload_length n = le_val (take 4 payload) -> 4 + upload_length n <= Z.of_nat (length payload) ->
  sdo_read turns (array_read m rd) index access (w, s) =
    (Err (if Z.of_nat m <? upload_length n
          then E_Mailbox (ME_TooLong (sh_index (sn_sdo_header n)) (sh_sub_index (sn_sdo_header n)))
          else E_Pdu PE_Decode), (w', (mailbox_counter s).2)).
Proof.
  intros Hm Hm32 Hw Hk Hb He Hr Ha Hx Hlen Hfit.
  rewrite (sdo_read_accepted (array_read m rd) s w index access b resp w' n payload); [|done..|].
  2: { right. right. split; lia. }
  f_equal. unfold uploaded. rewrite Hx, <- Hlen. cbn [array_read BUFFER_LEN]; unfold array_buffer_len.
  destruct (Z.ltb_spec (Z.of_nat m) (upload_length n)) as [_|Hle]; [done|]. unfold decode.
  rewrite array_unpack_short; [done|]. pose proof (wide_array_buffer m rd Hm Hw) as Hbuf.
  cbn [array_read BUFFER_LEN] in Hbuf; unfold array_buffer_len in Hbuf. rewrite length_take. lia.
Qed.

End Transfers.

(** *** Segmented uploads *)

Lemma check_segment resp n chunk request :
  segment_response resp n chunk ->
  check_response (R:=SdoSegmented) request resp = Ok (n, received_trim_front 12 resp).
Proof.
  intros []. destruct (headers_raw_of_segmented _ _ sg_bytes0 sg_len0 sg_read0) as (a & i & Hraw).
  unfold check_response. rewrite Hraw. msimpl. cbn [from_wire map_err hr_coe_header hr_header hr_command].
  rewrite !decide_False by done. rewrite sg_coe0, bool_decide_true by done. cbn.
  cbn in sg_read0. by rewrite sg_read0.
Qed.

Lemma segment_length_ok {P : Profile} resp n chunk :
  segment_response resp n chunk ->
  usub (E:=Error) 16 (mh_length (ss_header n)) 3 = Ok (mh_length (ss_header n) - 3) /\
  (if Nat.eqb (Z.to_nat (mh_length (ss_header n) - 3)) 7
   then usub 64 (Z.of_nat (Z.to_nat (mh_length (ss_header n) - 3))) (shs_segment_data_size (ss_sdo_header n))
   else Ok (Z.of_nat (Z.to_nat (mh_length (ss_header n) - 3)))) = Ok (E:=Error) (segment_length n) /\
  0 <= segment_length n.
Proof.
  intros []. clear sg_fits0 sg_chunk0 sg_chunk_len0. unfold segment_length. split_and!.
  - apply checked_ok. split; [lia|]. change (2 ^ 16) with 65536. lia.
  - destruct (Z.eqb_spec (mh_length (ss_header n) - 3) 7) as [->|Hne]; cbn [Nat.eqb].
    + change (Z.of_nat (Z.to_nat 7)) with 7. change (Nat.eqb (Z.to_nat 7) 7) with true.
      apply checked_ok. split; lia.
    + rewrite (proj2 (Nat.eqb_neq _ _)) by lia. f_equal. lia.
  - destruct (Z.eqb_spec (mh_length (ss_header n) - 3) 7); cbn zeta; lia.
Qed.

Lemma segment_data_ok resp n chunk :
  segment_response resp n chunk ->
  get_range (rd_data (received_trim_front 12 resp)) 0 (Z.to_nat (segment_length n)) = Some chunk.
Proof.
  intros []. apply get_range_Some. rewrite drop_0, Nat.sub_0_r. subst chunk.
  unfold received_trim_front. cbn [rd_data]. rewrite Nat.min_l by lia.
  rewrite length_take in sg_chunk_len0. split; [rewrite length_take; lia|].
  by rewrite take_take, Nat.min_l by lia.
Qed.

Lemma splice_chunk {A} (acc rest chunk : list A) :
  (length chunk <= length rest)%nat ->
  splice (acc ++ rest) (length acc) chunk = (acc ++ chunk) ++ drop (length chunk) rest.
Proof.
  intros Hl. unfold splice. rewrite take_app_length, drop_app_ge by lia.
  replace (length acc + length chunk - length acc)%nat with (length chunk) by lia. by rewrite <- app_assoc.
Qed.

Lemma headers_raw_no_command b x h c :
  (12 <= length b)%nat -> unpack_from_slice MailboxHeader_read b = Ok h ->
  unpack_from_slice CoeHeader_read (drop 6 b) = Ok c -> b !! 8%nat = Some x -> 0 <= x < 32 ->
  unpack_from_slice HeadersRaw_read b = Err InvalidValue.
Proof.
  do 12 (destruct b as [|? b]; [cbn; lia|]). intros _ Hh Hc [= ->] Hx.
  assert (Z.shiftr (Z.land x 224) 5 = 0) as H0.
  { change 224 with (Z.shiftl (2 ^ 3 - 1) 5). rewrite land_mask_shiftr by lia.
    change (2 ^ 5) with 32. by rewrite Z.div_small. }
  revert Hh Hc. cbv -[Z.land Z.shiftr le_val Z.ltb MailboxType_read Priority_read CoeService_read CoeCommand_read].
  rewrite H0. destruct MailboxType_read as [? ? um], Priority_read as [? ? up], CoeService_read as [? ? us].
  cbv beta iota. destruct (um _), (up _), (us _); cbv beta iota; try discriminate.
  intros _ _. vm_compute. reflexivity.
Qed.

(** The response is refused with an [InvalidValue] error. *)
Lemma check_conforming_segment resp request :
  conforming_segment resp -> check_response (R:=SdoSegmented) request resp = Err (E_Wire InvalidValue).
Proof.
  intros [Hl [h Hh] [c Hc] (x & Hx & Hr)]. unfold check_response.
  by rewrite (headers_raw_no_command _ _ _ _ Hl Hh Hc Hx Hr).
Qed.

Section Segmented.
#[local] Set Default Proof Using "Type*".
Context {W : Type} `{!Bus W} `{!Timing} {P : Profile} (k : Link).

Lemma segment_step_ok toggle w s b resp w' n chunk acc rest :
  linked k s ->
  pack SdoSegmented_write (SdoSegmented_upload (sd_mailbox_counter s) toggle) = Ok b ->
  exchange k w b resp w' -> segment_response resp n chunk -> (length chunk <= length rest)%nat ->
  segment_step (toggle, length acc, acc ++ rest) (w, s) =
    (Ok (if shs_is_last_segment (ss_sdo_header n) then inr (acc ++ chunk)
         else inl (negb toggle, length (acc ++ chunk), (acc ++ chunk) ++ drop (length chunk) rest)),
     (w', (mailbox_counter s).2)).
Proof.
  intros Hk Hb He Hr Hl. destruct (segment_length_ok _ _ _ Hr) as (H1 & H2 & H3).
  pose proof (segment_data_ok _ _ _ Hr) as Hd. pose proof (sg_chunk_len _ _ _ Hr) as Hlen.
  unfold segment_step. rewrite (st_step _ _ _ _ _ (counter_step s w)).
  assert (mailbox_write_read (SdoSegmented_upload (sd_mailbox_counter s) toggle) (w, (mailbox_counter s).2) =
    (Ok (n, received_trim_front 12 resp), (w', (mailbox_counter s).2))) as Hrun.
  { rewrite (mailbox_write_read_ok k _ (linked_counter _ _ Hk)
      (SdoSegmented_upload (sd_mailbox_counter s) toggle) b w resp w'); [|exact Hb|exact He].
    by rewrite (check_segment _ _ _ _ Hr). }
  rewrite (st_step _ _ _ _ _ Hrun), H1, (st_step _ _ _ (mh_length (ss_header n) - 3) (w', (mailbox_counter s).2)) by done.
  cbn zeta. rewrite H2, (st_step _ _ _ (segment_length n) (w', (mailbox_counter s).2)) by done.
  rewrite Hd, (st_step _ _ _ chunk (w', (mailbox_counter s).2)) by done. rewrite <- Hlen.
  assert (exists l, get_range (acc ++ rest) (length acc) (length acc + length chunk) = Some l) as [l ->]
    by (eexists; apply get_range_Some; rewrite length_app; split; [lia|reflexivity]).
  erewrite st_step by reflexivity. rewrite splice_chunk by done.
  destruct (shs_is_last_segment _); [|by rewrite length_app].
  rewrite get_range_0 by (rewrite !length_app, length_drop; lia).
  rewrite <- length_app. by rewrite take_app_length.
Qed.

Lemma segments_ok toggle w s chunks w' s' acc rest turns :
  segments k toggle w s chunks w' s' -> linked k s -> (length chunks <= turns)%nat ->
  (length (concat chunks) <= length rest)%nat ->
  iterate turns segment_step (toggle, length acc, acc ++ rest) (w, s) =
    (Ok (Some (acc ++ concat chunks)), (w', s')).
Proof.
  intros Hs. revert acc rest turns.
  induction Hs as [toggle w s b resp w' n chunk Hb He Hr Hlast|
    toggle w s b resp w1 n chunk chunks w' s' Hb He Hr Hlast Hs IH];
    intros acc rest [|turns] Hk Ht Hl; cbn [length concat] in *; try lia; rewrite length_app in Hl.
  - cbn in Hl. erewrite iterate_inr.
    2: { rewrite (segment_step_ok _ _ _ _ _ _ _ _ acc rest Hk Hb He Hr) by lia. by rewrite Hlast. }
    by rewrite app_nil_r.
  - erewrite iterate_inl.
    2: { rewrite (segment_step_ok _ _ _ _ _ _ _ _ acc rest Hk Hb He Hr) by lia. by rewrite Hlast. }
    rewrite (IH (acc ++ chunk)); [|by apply linked_counter|lia|rewrite length_drop; lia].
    by rewrite <- app_assoc.
Qed.

(** The response to the upload request asks for the segments. *)
Lemma sdo_read_segments {T} (r : WireRead T) turns s w index access b resp w1 n payload :
  linked k s -> Z.of_nat (BUFFER_LEN r) < 2 ^ 32 ->
  pack SdoNormal_write (SdoNormal_upload (sd_mailbox_counter s) index access) = Ok b ->
  exchange k w b resp w1 -> sdo_response resp n payload ->
  about_object n index (sub_index access) -> sh_expedited_transfer (sn_sdo_header n) = false ->
  upload_length n < le_val (take 4 payload) <= Z.of_nat (BUFFER_LEN r) ->
  sdo_read turns r index access (w, s) =
    (p ← iterate turns segment_step (false, 0%nat, zeros (BUFFER_LEN r));
     payload ← lift (unwrap p); lift (decode r payload)) (w1, (mailbox_counter s).2).
Proof.
  intros Hk HT Hb He Hr Ha Hexp Hsize. unfold sdo_read.
  pose proof (upload_ok k s w index access b resp w1 n payload Hk Hb He Hr) as Hup. rewrite Ha in Hup.
  rewrite (st_step _ _ _ _ _ (counter_step s w)), (st_step _ _ _ _ _ Hup).
  destruct Hr as [_ <- Hlen]. destruct (complete_size_ok resp Hlen) as [H1 H2].
  unfold response_payload. rewrite Hexp, H1. change (PACKED_LEN u32_read) with 4%nat. rewrite H2.
  unfold upload_length in Hsize. rewrite length_zeros, wrap_small by (split; lia).
  rewrite !st_bind_assoc. rewrite (st_step _ _ _ (le_val (take 4 (drop 12 (rd_data resp)))) (w1, (mailbox_counter s).2)) by done.
  rewrite !st_bind_assoc. erewrite st_step by reflexivity.
  rewrite (proj2 (Z.ltb_ge _ _)), (proj2 (Z.leb_gt _ _)) by lia. by rewrite st_bind_assoc.
Qed.

(** C40: A segmented upload from a SubDevice that answers as CANopen says is refused.
    The response to the upload request announces a value that fits the buffer and is
    longer than what it carries itself, so that its segments are asked for; the first
    response with one has command specifier 0, which [CoeCommand] does not have, and
    [sdo_read] ends with [InvalidValue] after these two exchanges. *)
Theorem segmented_upload_refused {T} (r : WireRead T) turns s w index access b resp w1 n payload b2 resp2 w2 :
  linked k s -> Z.of_nat (BUFFER_LEN r) < 2 ^ 32 -> (0 < turns)%nat ->
  pack SdoNormal_write (SdoNormal_upload (sd_mailbox_counter s) index access) = Ok b ->
  exchange k w b resp w1 -> sdo_response resp n payload ->
  about_object n index (sub_index access) -> sh_expedited_transfer (sn_sdo_header n) = false ->
  upload_length n < le_val (take 4 payload) <= Z.of_nat (BUFFER_LEN r) ->
  pack SdoSegmented_write (SdoSegmented_upload (sd_mailbox_counter (mailbox_counter s).2) false) = Ok b2 ->
  exchange k w1 b2 resp2 w2 -> conforming_segment resp2 ->
  sdo_read turns r index access (w, s) =
    (Err (E_Wire InvalidValue), (w2, (mailbox_counter (mailbox_counter s).2).2)).
Proof.
  intros Hk HT Hturns Hb He Hr Ha Hexp Hsize Hb2 He2 Hseg.
  rewrite (sdo_read_segments r turns s w index access b resp w1 n payload) by done.
  apply st_step_err. destruct turns as [|turns]; [lia|]. apply iterate_err.
  pose proof (linked_counter _ _ Hk) as Hk'. set (s1 := (mailbox_counter s).2) in *.
  unfold segment_step. rewrite (st_step _ _ _ _ _ (counter_step s1 w1)).
  apply st_step_err. rewrite (mailbox_write_read_ok k _ (linked_counter _ _ Hk')
    (SdoSegmented_upload (sd_mailbox_counter s1) false) b2 w1 resp2 w2); [|exact Hb2|exact He2].
  by rewrite (check_conforming_segment _ _ Hseg).
Qed.

(** Were the responses accepted, with a command specifier from 1 to 3, the upload would
    give the decoded concatenation of the segments, but of each what begins 12 bytes
    into its mailbox, where the data of a segment begins after 9; and nothing of the
    first response, which carries the beginning of the value. *)
Theorem segmented_upload_shifted {T} (r : WireRead T) turns s w index access b resp w1 n payload chunks w' s' :
  linked k s -> Z.of_nat (BUFFER_LEN r) < 2 ^ 32 ->
  pack SdoNormal_write (SdoNormal_upload (sd_mailbox_counter s) index access) = Ok b ->
  exchange k w b resp w1 -> sdo_response resp n payload ->
  about_object n index (sub_index access) -> sh_expedited_transfer (sn_sdo_header n) = false ->
  upload_length n < le_val (take 4 payload) <= Z.of_nat (BUFFER_LEN r) ->
  segments k false w1 (mailbox_counter s).2 chunks w' s' -> (length chunks <= turns)%nat ->
  (length (concat chunks) <= BUFFER_LEN r)%nat ->
  sdo_read turns r index access (w, s) = (decode r (concat chunks), (w', s')).
Proof.
  intros Hk HT Hb He Hr Ha Hexp Hsize Hs Ht Hl.
  rewrite (sdo_read_segments r turns s w index access b resp w1 n payload) by done.
  pose proof (segments_ok _ _ _ _ _ _ [] (zeros (BUFFER_LEN r)) turns Hs (linked_counter _ _ Hk) Ht
    ltac:(by rewrite length_zeros)) as Hrun.
  cbn [app length] in Hrun. by rewrite (st_step _ _ _ _ _ Hrun).
Qed.

End Segmented.

(** *** The information service *)

Lemma list_data_ok resp h consumed chunk :
  list_response resp h consumed chunk ->
  get_range (rd_data (let response := received_trim_front 12 resp in
    if consumed then response else received_trim_front 2 response))
    0 (Z.to_nat (mh_length (olp_header h) - 8)) = Some chunk.
Proof.
  intros []. destruct consumed; cbn zeta.
  - rewrite get_range_trim by lia. by rewrite drop_0, Nat.sub_0_r, lr_chunk0.
  - pose proof (length_trim 12 resp ltac:(lia)). rewrite get_range_trim by lia.
    rewrite drop_0, Nat.sub_0_r, lr_chunk0. f_equal.
    rewrite take_drop_commute, take_trim, <- take_drop_commute by lia. by rewrite drop_drop.
Qed.

Section Info.
#[local] Set Default Proof Using "Type*".
Context {W : Type} `{!Bus W} `{!Timing} {P : Profile} (k : Link).

Lemma info_step_ok w resp w' h consumed chunk s buf :
  linked k s -> responds k w resp w' -> list_response resp h consumed chunk ->
  (length buf + length chunk <= SDO_INFO_CAPACITY)%nat ->
  info_step (lk_read k) (consumed, buf) (w, s) =
    (Ok (if sih_incomplete (olp_sdo_info_header h) then inl (true, buf ++ chunk) else inr (buf ++ chunk)), (w', s)).
Proof.
  intros Hk Hr Hl Hcap. unfold info_step.
  rewrite (st_step _ _ _ _ _ (wait_for_mailbox_response_ok k s Hk _ _ _ Hr)).
  pose proof (list_data_ok _ _ _ _ Hl) as Hd. destruct Hl.
  rewrite lr_read0. cbn [from_wire map_err]. rewrite (st_step _ _ _ h (w', s)) by done.
  rewrite decide_True by done.
  assert (usub (E:=Error) 64 (mh_length (olp_header h)) 8 = Ok (mh_length (olp_header h) - 8)) as ->
    by (apply checked_ok; split; lia).
  rewrite (st_step _ _ _ (mh_length (olp_header h) - 8) (w', s)) by done.
  change (PACKED_LEN ObjectDescriptionListResponse_read) with 12%nat. cbn zeta in Hd |- *. rewrite Hd.
  rewrite (st_step _ _ _ chunk (w', s)) by done. rewrite (proj2 (Nat.ltb_ge _ _)) by lia.
  by destruct (sih_incomplete _).
Qed.

Lemma fragments_ok n consumed w chunks w' s buf turns :
  fragments k n consumed w chunks w' -> linked k s -> (n <= turns)%nat ->
  (length buf + length (concat chunks) <= SDO_INFO_CAPACITY)%nat ->
  iterate turns (info_step (lk_read k)) (consumed, buf) (w, s) = (Ok (Some (buf ++ concat chunks)), (w', s)).
Proof.
  intros Hf Hk. revert buf turns.
  induction Hf as [consumed w resp w' h chunk Hr Hl Hlast|n consumed w resp w1 h chunk chunks w' Hr Hl Hmore Hf IH|
    n consumed w resp w1 h chunks w' Hr Hread Hcode Hf IH]; intros buf [|turns] Ht Hcap;
    cbn [concat] in *; try lia; rewrite ?length_app in Hcap.
  - erewrite iterate_inr; [by rewrite app_nil_r|].
    rewrite (info_step_ok _ _ _ _ _ _ _ _ Hk Hr Hl) by lia. by rewrite Hlast.
  - erewrite iterate_inl; [rewrite IH; [by rewrite <- app_assoc|lia|rewrite length_app; lia]|].
    rewrite (info_step_ok _ _ _ _ _ _ _ _ Hk Hr Hl) by lia. by rewrite Hmore.
  - erewrite iterate_inl; [apply IH; lia|]. unfold info_step.
    rewrite (st_step _ _ _ _ _ (wait_for_mailbox_response_ok k s Hk _ _ _ Hr)), Hread.
    cbn [from_wire map_err]. rewrite (st_step _ _ _ h (w1, s)) by done. by rewrite decide_False.
Qed.

(** The list of objects of a SubDevice is decoded from the fragments of its
    answer in order, other responses being passed over; of the first fragment
    what follows the list type is taken, but of every later one all but its last
    two bytes, one object each. *)
Theorem object_list_spec turns n s w list_type b w1 w2 chunks w' :
  linked k s ->
  pack ObjectDescriptionListRequest_write (get_object_description_list (sd_mailbox_counter s) list_type) = Ok b ->
  ready k w w1 -> takes k w1 b w2 -> fragments k n false w2 chunks w' -> (n <= turns)%nat ->
  (length (concat chunks) <= SDO_INFO_CAPACITY)%nat ->
  sdo_info_object_description_list turns list_type (w, s) =
    (Some <$> decode (vec_read (Z.to_nat 0x10000) u16_read) (concat chunks), (w', (mailbox_counter s).2)).
Proof.
  intros Hk Hb Hready Htake Hf Hn Hcap. pose proof (linked_counter _ _ Hk) as Hk'.
  unfold sdo_info_object_description_list. rewrite (st_step _ _ _ _ _ (counter_step s w)).
  assert (send_sdo_info_service turns (get_object_description_list (sd_mailbox_counter s) list_type)
    (w, (mailbox_counter s).2) = (Ok (Some (concat chunks)), (w', (mailbox_counter s).2))) as Hs.
  { unfold send_sdo_info_service. rewrite (wait_for_mailboxes_ok k _ Hk' _ _ Hready).
    rewrite (st_step _ _ _ _ _ (send_request_ok k _ Hk' _ _ _ _ _ Hb Htake)).
    by rewrite (st_step _ _ _ _ _ (fragments_ok _ _ _ _ _ _ [] _ Hf Hk' Hn Hcap)). }
  rewrite (st_step _ _ _ _ _ Hs). unfold info_result, decode. by destruct (map_err _ _).
Qed.

End Info.

(** *** Witnesses *)

Section Script.
Context (script : list (list bytes)).
#[local] Instance script_bus : Bus (MailboxDevice (list (list bytes))) := mailbox_device scripted.
#[local] Instance script_timing : Timing := two_turns.

Lemma script_exchange req m :
  head script = Some [m] ->
  exchange sample_link (mkMailboxDevice script []) req (mkReceived 1 (padded 128 m) [])
    (mkMailboxDevice (tail script) []).
Proof. intros Hm. apply device_exchange; [apply Nat.lt_0_succ..|]. unfold scripted. by rewrite Hm. Qed.

End Script.

(** An upload of two bytes of 0x1018:1, and the beginning of one of eight bytes of
    0x1008:0 with the segment that has all of them. *)
Definition expedited_message : bytes := [10; 0; 0; 0; 0; 0x13; 0; 0x30; 0x4b; 0x18; 0x10; 1; 0x34; 0x12; 0; 0].
Definition segmented_message : bytes := [10; 0; 0; 0; 0; 0x13; 0; 0x30; 0x41; 0x08; 0x10; 0; 8; 0; 0; 0].
Definition segment_message : bytes := [11; 0; 0; 0; 0; 0x23; 0; 0x30; 0x61; 1; 2; 3; 4; 5; 6; 7; 8].

Definition script_read {T} (script : list (list bytes)) (r : WireRead T) (index sub : Z) :=
  sdo_read (Bus0:=mailbox_device scripted) (H:=two_turns) (P:=true) 1 r index (Index sub)
    (mkMailboxDevice script [], sample_subdevice).

Lemma sdo_read_spec_witness :
  exists w', script_read [[expedited_message]] u16_read 0x1018 1 = (Ok 0x1234, w').
Proof.
  eexists. unfold script_read.
  erewrite (sdo_read_spec (Bus0:=mailbox_device scripted) (H:=two_turns) (P:=true) sample_link 1 u16_read
    sample_subdevice _ 0x1018 (Index 1)); cycle 1.
  - apply sample_linked.
  - vm_compute. reflexivity.
  - vm_compute. reflexivity.
  - apply script_exchange. reflexivity.
  - constructor; [vm_compute; reflexivity|reflexivity|apply Nat.leb_le; vm_compute; reflexivity].
  - intros _. left. reflexivity.
  - vm_compute. reflexivity.
Defined.

(** The eight bytes of a [u64] or of eight [u8] are read from one response; four [u16]
    are not, their [buffer()] has four bytes. *)
Definition normal_message (n : Z) : bytes :=
  [10 + n; 0; 0; 0; 0; 0x13; 0; 0x30; 0x41; 0x08; 0x10; 0; n; 0; 0; 0; 1; 2; 3; 4; 5; 6; 7; 8].

Example arrays_are_not_read :
  (script_read [[normal_message 8]] u64_read 0x1008 0).1 = Ok 0x0807060504030201 /\
  (script_read [[normal_message 8]] (array_read 8 u8_read) 0x1008 0).1 = Ok [1; 2; 3; 4; 5; 6; 7; 8] /\
  (script_read [[normal_message 8]] (array_read 4 u16_read) 0x1008 0).1 = Err (E_Mailbox (ME_TooLong 0x1008 0)) /\
  (script_read [[normal_message 2]] (array_read 2 u16_read) 0x1008 0).1 = Err (E_Pdu PE_Decode).
Proof. vm_compute. done. Qed.

(** A value of bytes 1 to 8 is read as 4 to 8 and what follows it in the mailbox. *)
Lemma segmented_upload_shifted_witness :
  exists w', script_read [[segmented_message]; [segment_message]] u64_read 0x1008 0 =
    (Ok (le_val [4; 5; 6; 7; 8; 0; 0; 0]), w').
Proof.
  eexists. unfold script_read.
  erewrite (segmented_upload_shifted (Bus0:=mailbox_device scripted) (H:=two_turns) (P:=true) sample_link
    u64_read 1 sample_subdevice _ 0x1008 (Index 0) _ _ _ _ _ [[4; 5; 6; 7; 8; 0; 0; 0]]); cycle 1.
  - apply sample_linked.
  - vm_compute. reflexivity.
  - vm_compute. reflexivity.
  - apply script_exchange. reflexivity.
  - constructor; [vm_compute; reflexivity|reflexivity|apply Nat.leb_le; vm_compute; reflexivity].
  - intros payload. vm_compute. reflexivity.
  - reflexivity.
  - split; [vm_compute; reflexivity|apply Z.leb_le; vm_compute; reflexivity].
  - eapply segments_last; [vm_compute; reflexivity|apply script_exchange; reflexivity| |].
    + constructor.
      * vm_compute. reflexivity.
      * unfold bytes_ok. apply (bool_decide_unpack _). vm_compute. exact I.
      * apply Nat.leb_le. vm_compute. reflexivity.
      * reflexivity.
      * discriminate.
      * discriminate.
      * cbn. lia.
      * cbn. lia.
      * apply Nat.leb_le. vm_compute. reflexivity.
      * vm_compute. reflexivity.
      * vm_compute. reflexivity.
    + reflexivity.
  - cbn. lia.
  - cbn. lia.
  - vm_compute. reflexivity.
Defined.

(** The last segment of a value, of seven bytes, as CANopen has it. *)
Definition conforming_message : bytes := [10; 0; 0; 0; 0; 0x23; 0; 0x30; 0x01; 1; 2; 3; 4; 5; 6; 7].

Lemma segmented_upload_refused_witness :
  exists w', script_read [[segmented_message]; [conforming_message]] u64_read 0x1008 0 =
    (Err (E_Wire InvalidValue), w').
Proof.
  eexists. unfold script_read.
  erewrite (segmented_upload_refused (Bus0:=mailbox_device scripted) (H:=two_turns) (P:=true) sample_link
    u64_read 1 sample_subdevice _ 0x1008 (Index 0)); cycle 1.
  - apply sample_linked.
  - vm_compute. reflexivity.
  - lia.
  - vm_compute. reflexivity.
  - apply script_exchange. reflexivity.
  - constructor; [vm_compute; reflexivity|reflexivity|apply Nat.leb_le; vm_compute; reflexivity].
  - intros payload. vm_compute. reflexivity.
  - reflexivity.
  - split; [vm_compute; reflexivity|apply Z.leb_le; vm_compute; reflexivity].
  - vm_compute. reflexivity.
  - apply script_exchange. reflexivity.
  - constructor; [apply Nat.leb_le; vm_compute; reflexivity|eexists; vm_compute; reflexivity..|].
    exists 1. split; [reflexivity|lia].
  - reflexivity.
Defined.

(** Two fragments of an object list: two objects and the list type, then two more. *)
Definition first_fragment : bytes :=
  [12; 0; 0; 0; 0; 0x13; 0; 0x80; 0x82; 0; 1; 0; 1; 0; 0x00; 0x10; 0x08; 0x10].
Definition last_fragment : bytes := [10; 0; 0; 0; 0; 0x23; 0; 0x80; 0x02; 0; 0; 0; 0x18; 0x10; 0x00; 0x1a].

Lemma object_list_spec_witness :
  exists w', sdo_info_object_description_list (Bus0:=mailbox_device scripted) (H:=two_turns) (P:=true) 2 Q_All
    (mkMailboxDevice [[first_fragment; last_fragment]] [], sample_subdevice) =
    (Ok (Some [0x1000; 0x1008; 0x1018]), w').
Proof.
  eexists.
  erewrite (object_list_spec (Bus0:=mailbox_device scripted) (H:=two_turns) (P:=true) sample_link 2 2
    sample_subdevice _ Q_All _ _ _ [[0x00; 0x10; 0x08; 0x10]; [0x18; 0x10]]); cycle 1.
  - apply sample_linked.
  - vm_compute. reflexivity.
  - apply device_ready. apply Nat.lt_0_succ.
  - apply device_takes. reflexivity.
  - eapply fragments_more; [apply device_responds; apply Nat.lt_0_succ| | |].
    + constructor; [vm_compute; reflexivity|reflexivity|cbn; lia|apply Nat.leb_le; vm_compute; reflexivity|
        vm_compute; reflexivity].
    + reflexivity.
    + eapply fragments_last; [apply device_responds; apply Nat.lt_0_succ| |].
      * constructor; [vm_compute; reflexivity|reflexivity|cbn; lia|apply Nat.leb_le; vm_compute; reflexivity|
          vm_compute; reflexivity].
      * reflexivity.
  - lia.
  - apply Nat.leb_le. vm_compute. reflexivity.
  - vm_compute. reflexivity.
Defined.
