(* ===== verification/CoeObjects.v ===== *)
(** * Object dictionaries

    The class [ObjectServer] is what a SubDevice with an object dictionary
    promises; against it [sdo_write_array] and [sdo_read_array] are inverse. *)
From S2P Require Import Prelude Wire Derive DeriveEnum EscTypes MailboxTypes PduTypes Errors Bus SubDevice Coe CoeExchange CoeSpec.
Import Struct Enum.

(** ** Definitions *)

(** What a SubDevice with an object dictionary promises for values of at most
    four bytes: it stores what is downloaded and gives it back. *)
Class ObjectServer {W} `{!Bus W} `{!Timing} (k : Link) := {
  serving : W -> Prop;
  object : W -> Z -> Z -> bytes;
  serve_download w counter index sub data len b :
    serving w -> 1 <= counter <= 7 -> in_u 16 index -> in_u 8 sub ->
    1 <= len <= 4 -> length data = 4%nat -> bytes_ok data ->
    pack SdoExpedited_write (SdoExpedited_download counter index (Index sub) data len) = Ok b ->
    exists resp w' n payload, exchange k w b resp w' /\ sdo_response resp n payload /\
      about_object n index sub /\ serving w' /\
      forall i j, object w' i j =
        if decide (i = index /\ j = sub) then take (Z.to_nat len) data else object w i j;
  serve_upload w counter index sub b :
    serving w -> 1 <= counter <= 7 -> in_u 16 index -> in_u 8 sub ->
    (1 <= length (object w index sub) <= 4)%nat ->
    pack SdoNormal_write (SdoNormal_upload counter index (Index sub)) = Ok b ->
    exists resp w' n payload, exchange k w b resp w' /\ sdo_response resp n payload /\
      about_object n index sub /\ sh_expedited_transfer (sn_sdo_header n) = true /\
      sh_size (sn_sdo_header n) = 4 - Z.of_nat (length (object w index sub)) /\
      take (length (object w index sub)) payload = object w index sub /\
      serving w' /\ forall i j, object w' i j = object w i j;
}.

(** *** A SubDevice with an object dictionary *)

Definition Objects := Z -> Z -> bytes.

(** The header of the response to [request]. *)
Definition response_header (request : SdoNormal) (expedited : bool) (size : Z) (command : CoeCommand)
    : SdoNormal :=
  mkSdoNormal (sdo_mailbox_header 1) (mkCoeHeader CS_SdoResponse)
    (mkSdoHeader expedited expedited size false command
      (sh_index (sn_sdo_header request)) (sh_sub_index (sn_sdo_header request))).

Definition message (header : SdoNormal) (data : bytes) : bytes :=
  match pack SdoNormal_write header with Ok b => b ++ data | _ => [] end.

Definition dictionary_reply (d : Objects) (req : bytes) : Objects * list bytes :=
  match unpack_from_slice SdoNormal_read req with
  | Ok n =>
      let h := sn_sdo_header n in
      match sh_command h with
      | CC_Download =>
          let data := match unpack_from_slice SdoExpedited_read req with Ok e => se_data e | _ => [] end in
          (fun i j => if decide (i = sh_index h /\ j = sh_sub_index h)
             then take (Z.to_nat (4 - sh_size h)) data else d i j,
           [message (response_header n false 0 CC_UploadSegment) []])
      | CC_Upload =>
          let value := d (sh_index h) (sh_sub_index h) in
          (d, [message (response_header n true (4 - Z.of_nat (length value)) CC_Upload) value])
      | _ => (d, [])
      end
  | _ => (d, [])
  end.

(** ** Lemmas *)

Lemma download_valid counter index sub data len :
  1 <= counter <= 7 -> in_u 16 index -> in_u 8 sub -> 1 <= len <= 4 -> length data = 4%nat -> bytes_ok data ->
  let request := SdoExpedited_download counter index (Index sub) data len in
  MailboxHeader_valid (se_header request) /\ SdoHeader_valid (se_sdo_header request) /\
    length (se_data request) = 4%nat /\ bytes_ok (se_data request).
Proof.
  intros. unfold MailboxHeader_valid, SdoHeader_valid, in_u in *. cbn. unfold sat_sub.
  change (2 ^ 3) with 8. change (2 ^ 2) with 4. split_and!; try done; lia.
Qed.

Lemma upload_valid counter index sub :
  1 <= counter <= 7 -> in_u 16 index -> in_u 8 sub ->
  let request := SdoNormal_upload counter index (Index sub) in
  MailboxHeader_valid (sn_header request) /\ SdoHeader_valid (sn_sdo_header request).
Proof.
  intros. unfold MailboxHeader_valid, SdoHeader_valid, in_u in *. cbn.
  change (2 ^ 3) with 8. split_and!; try done; lia.
Qed.

Section Objects.
#[local] Set Default Proof Using "Type*".
Context {W : Type} `{!Bus W} `{!Timing} {P : Profile} (k : Link) `{!ObjectServer (W:=W) k} (turns : nat).

(** A SubDevice the server can be asked through. *)
Definition connected (s : SubDevice) : Prop := linked k s /\ 1 <= sd_mailbox_counter s <= 7.

Lemma connected_counter s : connected s -> connected (mailbox_counter s).2.
Proof.
  intros [Hk Hc]. split; [by apply linked_counter|]. unfold mailbox_counter. cbn.
  destruct (Z.leb_spec 7 (sd_mailbox_counter s)); lia.
Qed.

Section Values.
Context {T} (wr : WireWrite T) (rd : WireRead T) (valid : T -> Prop) `{!RoundTrip wr rd valid}
  (Hsize : (1 <= PACKED_LEN rd <= 4)%nat).

Lemma sdo_write_ok s w index sub v :
  connected s -> serving w -> in_u 16 index -> in_u 8 sub -> valid v ->
  exists w', sdo_write wr index (Index sub) v (w, s) = (Ok tt, (w', (mailbox_counter s).2)) /\
    serving w' /\ forall i j, object w' i j =
      if decide (i = index /\ j = sub) then encoding (w:=wr) v else object w i j.
Proof.
  intros [Hk Hc] Hw Hi Hsub Hv. pose proof (encoding_length v Hv) as Hl.
  set (data := splice (zeros 4) 0 (encoding (w:=wr) v)).
  assert (length data = 4%nat) as Hdl by (unfold data; rewrite length_splice; rewrite length_zeros; lia).
  assert (bytes_ok data) as Hdok by (apply bytes_ok_splice; [apply bytes_ok_zeros|by apply encoding_ok]).
  set (len := Z.of_nat (PACKED_LEN rd)).
  set (request := SdoExpedited_download (sd_mailbox_counter s) index (Index sub) data len).
  pose proof (download_valid _ index sub data len Hc Hi Hsub ltac:(lia) Hdl Hdok) as Hreq.
  pose proof (pack_ok SdoExpedited_write _ _ request Hreq) as Hb.
  destruct (serve_download w (sd_mailbox_counter s) index sub data len _ Hw Hc Hi Hsub ltac:(lia) Hdl Hdok Hb)
    as (resp & w' & n & payload & He & Hr & Ha & Hw' & Hobj).
  destruct (download_ok k s w index (Index sub) data len _ resp w' n payload Hk Hb He Hr Ha) as (r & Hrun).
  exists w'. split_and!; [|done|].
  - unfold sdo_write. rewrite (st_step _ _ _ _ _ (counter_step s w)).
    rewrite (packed_len_eq v Hv). rewrite (proj2 (Nat.ltb_ge _ _)) by lia.
    assert (pack_to_slice wr v (zeros 4) = Ok data) as ->.
    { unfold pack_to_slice. rewrite (packed_len_eq v Hv), get_range_0 by (rewrite length_zeros; lia).
      cbn [ok_or]. msimpl. by rewrite pack_encoding by (rewrite ?length_zeros; done || lia). }
    rewrite (st_step _ _ _ data (w, (mailbox_counter s).2)) by done.
    rewrite wrap_small by (split; [lia|change (2 ^ 8) with 256; lia]).
    fold len. by rewrite (st_step _ _ _ _ _ Hrun).
  - intros i j. rewrite Hobj. destruct (decide _); [|done]. unfold data, len, splice.
    rewrite Nat2Z.id, take_0. cbn [app]. rewrite <- Hl. by rewrite take_app_length.
Qed.

Lemma sdo_read_ok s w index sub v :
  connected s -> serving w -> in_u 16 index -> in_u 8 sub -> valid v ->
  object w index sub = encoding (w:=wr) v ->
  exists w', sdo_read turns rd index (Index sub) (w, s) = (Ok v, (w', (mailbox_counter s).2)) /\
    serving w' /\ forall i j, object w' i j = object w i j.
Proof.
  intros [Hk Hc] Hw Hi Hsub Hv Hobj. pose proof (encoding_length v Hv) as Hl.
  set (request := SdoNormal_upload (sd_mailbox_counter s) index (Index sub)).
  pose proof (upload_valid _ index sub Hc Hi Hsub) as Hreq.
  pose proof (pack_ok SdoNormal_write _ _ request Hreq) as Hb.
  destruct (serve_upload w (sd_mailbox_counter s) index sub _ Hw Hc Hi Hsub ltac:(rewrite Hobj, Hl; lia) Hb)
    as (resp & w' & n & payload & He & Hr & Ha & Hexp & Hsz & Hpay & Hw' & Hsame).
  exists w'. split_and!; [|done|done].
  rewrite (sdo_read_accepted k turns rd s w index (Index sub) _ resp w' n payload Hk ltac:(by rewrite Hexp)
    Hb He Hr (Ha payload) ltac:(by left)).
  f_equal. unfold uploaded. rewrite Hexp.
  replace (Z.to_nat (sat_sub 4 (sh_size (sn_sdo_header n)))) with (length (object w index sub))
    by (unfold sat_sub; rewrite Hobj in *; lia).
  unfold decode. rewrite Hpay, Hobj, <- (app_nil_r (encoding v)). by rewrite unpack_encoding.
Qed.

Lemma sdo_write_values_ok s w index i values :
  connected s -> serving w -> in_u 16 index -> 1 <= i -> i + Z.of_nat (length values) <= 256 ->
  Forall valid values ->
  exists w' s', sdo_write_values wr index i values (w, s) = (Ok tt, (w', s')) /\
    connected s' /\ serving w' /\
    (forall j v, values !! j = Some v -> object w' index (i + Z.of_nat j) = encoding (w:=wr) v) /\
    forall a b, ~ (a = index /\ i <= b < i + Z.of_nat (length values)) -> object w' a b = object w a b.
Proof.
  intros Hs Hw Hi. revert s w i Hs Hw. induction values as [|v values IH]; intros s w i Hs Hw Hi1 Hlen Hvals.
  { exists w, s. by split_and!. }
  apply Forall_cons in Hvals as [Hv Hvals]. cbn [length] in Hlen.
  assert (in_u 8 i) as Hi8 by (split; [lia|change (2 ^ 8) with 256; lia]).
  destruct (sdo_write_ok s w index i v Hs Hw Hi Hi8 Hv) as (w1 & Hrun & Hw1 & Hobj1).
  destruct (IH (mailbox_counter s).2 w1 (i + 1) (connected_counter s Hs) Hw1 ltac:(lia) ltac:(lia) Hvals)
    as (w2 & s2 & Hrun2 & Hs2 & Hw2 & Hin & Hout).
  exists w2, s2. split_and!; [|done|done| |].
  - cbn [sdo_write_values]. rewrite wrap_small by done. by rewrite (st_step _ _ _ _ _ Hrun).
  - intros [|j] u Hu.
    + injection Hu as <-. rewrite Hout by lia. rewrite Hobj1, Z.add_0_r. by rewrite decide_True.
    + replace (i + Z.of_nat (S j)) with (i + 1 + Z.of_nat j) by lia. by apply Hin.
  - intros a b Hab. rewrite Hout by (cbn [length] in Hab; lia). rewrite Hobj1.
    rewrite decide_False; [done|]. cbn [length] in Hab. lia.
Qed.

Lemma sdo_read_values_ok s w index i values max acc :
  connected s -> serving w -> in_u 16 index -> 1 <= i -> i + Z.of_nat (length values) <= 256 ->
  Forall valid values -> (length acc + length values <= max)%nat ->
  (forall j v, values !! j = Some v -> object w index (i + Z.of_nat j) = encoding (w:=wr) v) ->
  exists w' s', sdo_read_values turns rd index i (length values) max acc (w, s) =
    (Ok (acc ++ values), (w', s')).
Proof.
  intros Hs Hw Hi. revert s w i acc Hs Hw.
  induction values as [|v values IH]; intros s w i acc Hs Hw Hi1 Hlen Hvals Hmax Hobj.
  { exists w, s. by rewrite app_nil_r. }
  apply Forall_cons in Hvals as [Hv Hvals]. cbn [length] in *.
  assert (in_u 8 i) as Hi8 by (split; [lia|change (2 ^ 8) with 256; lia]).
  pose proof (Hobj 0%nat v eq_refl) as H0. rewrite Z.add_0_r in H0.
  destruct (sdo_read_ok s w index i v Hs Hw Hi Hi8 Hv H0) as (w1 & Hrun & Hw1 & Hsame).
  destruct (IH (mailbox_counter s).2 w1 (i + 1) (acc ++ [v]) (connected_counter s Hs) Hw1 ltac:(lia) ltac:(lia) Hvals)
    as (w2 & s2 & Hrun2).
  { rewrite length_app. cbn. lia. }
  { intros j u Hu. rewrite Hsame. replace (i + 1 + Z.of_nat j) with (i + Z.of_nat (S j)) by lia. by apply Hobj. }
  exists w2, s2. cbn [sdo_read_values]. rewrite (st_step _ _ _ _ _ Hrun).
  rewrite (proj2 (Nat.leb_gt _ _)) by lia. by rewrite Hrun2, <- app_assoc.
Qed.

End Values.

(** C33: On a SubDevice with an object dictionary, [sdo_write_array] and
    [sdo_read_array] are inverse: at most 255 values of a type of one to four
    bytes are stored from sub-index 1 on, with their number in sub-index 0 and no
    other object changed, and read back in order; a reader with room for fewer
    gets a [Capacity] error. *)
Theorem sdo_array_roundtrip {T} (wr : WireWrite T) (rd : WireRead T) valid `{!RoundTrip wr rd valid}
    s w index values max :
  (1 <= PACKED_LEN rd <= 4)%nat -> connected s -> serving w -> in_u 16 index ->
  (length values <= 255)%nat -> Forall valid values ->
  exists w1 s1 w2 s2, sdo_write_array wr index values (w, s) = (Ok tt, (w1, s1)) /\
    (forall i j, i <> index -> object w1 i j = object w i j) /\
    sdo_read_array turns rd max index (w1, s1) =
      (if decide (length values <= max)%nat then Ok values else Err (E_Capacity I_SdoSubIndex), (w2, s2)).
Proof.
  intros Hsize Hs Hw Hi Hlen Hvals. assert (in_u 8 0) as H0 by done.
  assert (in_u 8 (Z.of_nat (length values))) as Hl8 by (split; [lia|change (2 ^ 8) with 256; lia]).
  destruct (sdo_write_ok u8_write u8_read (in_u 8) ltac:(cbn; lia) s w index 0 0 Hs Hw Hi H0 H0)
    as (w1 & Hrun1 & Hw1 & Hobj1).
  destruct (sdo_write_values_ok wr rd valid Hsize (mailbox_counter s).2 w1 index 1 values
    (connected_counter s Hs) Hw1 Hi ltac:(lia) ltac:(lia) Hvals) as (w2 & s2 & Hrun2 & Hs2 & Hw2 & Hin & Hout).
  destruct (sdo_write_ok u8_write u8_read (in_u 8) ltac:(cbn; lia) s2 w2 index 0 (Z.of_nat (length values))
    Hs2 Hw2 Hi H0 Hl8) as (w3 & Hrun3 & Hw3 & Hobj3).
  pose proof (connected_counter _ Hs2) as Hs3.
  destruct (sdo_read_ok u8_write u8_read (in_u 8) ltac:(cbn; lia) (mailbox_counter s2).2 w3 index 0
    (Z.of_nat (length values)) Hs3 Hw3 Hi H0 Hl8) as (w4 & Hrun4 & Hw4 & Hsame).
  { rewrite Hobj3. by rewrite decide_True. }
  exists w3, (mailbox_counter s2).2.
  assert (sdo_write_array wr index values (w, s) = (Ok tt, (w3, (mailbox_counter s2).2))) as Hwrite.
  { unfold sdo_write_array. rewrite (st_step _ _ _ _ _ Hrun1), (st_step _ _ _ _ _ Hrun2).
    by rewrite wrap_small. }
  assert (forall i j, i <> index -> object w3 i j = object w i j) as Hother.
  { intros i j Hij. rewrite Hobj3, decide_False by (by intros [? _]). rewrite Hout by (by intros [? _]).
    by rewrite Hobj1, decide_False by (by intros [? _]). }
  unfold sdo_read_array. rewrite (st_step _ _ _ _ _ Hrun4), Nat2Z.id.
  destruct (decide (length values <= max)%nat) as [Hm|Hm].
  - rewrite (proj2 (Nat.ltb_ge _ _)) by lia.
    destruct (sdo_read_values_ok wr rd valid Hsize _ w4 index 1 values max [] (connected_counter _ Hs3) Hw4 Hi
      ltac:(lia) ltac:(lia) Hvals Hm) as (w5 & s5 & Hrun5).
    { intros j v Hv. rewrite Hsame, Hobj3, decide_False by lia. by apply Hin. }
    by exists w5, s5.
  - rewrite (proj2 (Nat.ltb_lt _ _)) by lia. by exists w4, (mailbox_counter (mailbox_counter s2).2).2.
Qed.

End Objects.

(** *** The sample SubDevice is an object server *)

Lemma response_header_valid request expedited size command :
  0 <= size < 4 -> in_u 16 (sh_index (sn_sdo_header request)) -> in_u 8 (sh_sub_index (sn_sdo_header request)) ->
  MailboxHeader_valid (sn_header (response_header request expedited size command)) /\
  SdoHeader_valid (sn_sdo_header (response_header request expedited size command)).
Proof. intros. unfold MailboxHeader_valid, SdoHeader_valid, in_u in *. cbn. change (2 ^ 2) with 4. split_and!; done || lia. Qed.

Lemma message_response header data :
  MailboxHeader_valid (sn_header header) /\ SdoHeader_valid (sn_sdo_header header) -> (length data <= 4)%nat ->
  exists payload, sdo_response (mkReceived 1 (padded 128 (message header data)) []) header payload /\
    take (length data) payload = data.
Proof.
  intros Hv Hd. unfold message. rewrite (pack_ok SdoNormal_write _ _ header Hv).
  pose proof (encoding_length (w:=SdoNormal_write) header Hv) as Hl. change (PACKED_LEN SdoNormal_read) with 12%nat in Hl.
  assert (padded 128 (encoding (w:=SdoNormal_write) header ++ data) =
    encoding (w:=SdoNormal_write) header ++ take 116 (data ++ zeros 128)) as Hp.
  { unfold padded. rewrite <- app_assoc, take_app, Hl. rewrite take_ge by (rewrite Hl; lia). done. }
  exists (take 116 (data ++ zeros 128)). split.
  - constructor; cbn [rd_data]; rewrite Hp.
    + by apply unpack_encoding.
    + rewrite <- Hl. by rewrite drop_app_length.
    + rewrite length_app, length_take, length_app, length_zeros, Hl. lia.
  - rewrite take_take, Nat.min_l by lia. by rewrite take_app_length.
Qed.

Lemma response_about request expedited size command :
  command <> CC_Abort ->
  about_object (response_header request expedited size command)
    (sh_index (sn_sdo_header request)) (sh_sub_index (sn_sdo_header request)).
Proof. intros Hc payload. unfold refused. repeat case_decide; naive_solver. Qed.

Section Dictionary.
#[local] Instance dictionary_bus : Bus (MailboxDevice Objects) := mailbox_device dictionary_reply.
#[local] Instance dictionary_timing : Timing := two_turns.

Lemma dictionary_exchange d d' req m :
  dictionary_reply d req = (d', [m]) ->
  exchange sample_link (mkMailboxDevice d []) req (mkReceived 1 (padded 128 m) []) (mkMailboxDevice d' []).
Proof. intros Hr. apply device_exchange; [apply Nat.lt_0_succ..|done]. Qed.

#[export, program] Instance dictionary_server : ObjectServer sample_link := {|
  serving w := md_out w = [];
  object w := md_state w;
|}.
Next Obligation.
  intros [d out] counter index sub data len b Hout Hc Hi Hs Hlen Hdl Hdok Hb. cbn in Hout. subst out.
  set (request := SdoExpedited_download counter index (Index sub) data len) in *.
  pose proof (download_valid counter index sub data len Hc Hi Hs Hlen Hdl Hdok) as Hreq.
  rewrite (pack_ok SdoExpedited_write _ _ request Hreq) in Hb. apply ok_inj in Hb. subst b.
  assert (unpack_from_slice SdoExpedited_read (encoding (w:=SdoExpedited_write) request) = Ok request) as Hread.
  { rewrite <- (app_nil_r (encoding request)). by apply unpack_encoding. }
  pose proof (normal_of_expedited _ _ Hread) as Hn.
  set (n := mkSdoNormal (se_header request) (se_coe_header request) (se_sdo_header request)) in *.
  destruct (message_response (response_header n false 0 CC_UploadSegment) []) as (payload & Hresp & _).
  { apply response_header_valid; [lia|done|done]. }
  { cbn. lia. }
  do 4 eexists. split_and!; [apply dictionary_exchange|exact Hresp|by apply (response_about n)|done|].
  - unfold dictionary_reply. rewrite Hn, Hread. reflexivity.
  - intros i j. cbn. unfold sat_sub. destruct (decide _); [|done]. by replace (4 - Z.max 0 (4 - len)) with len by lia.
Qed.
Next Obligation.
  intros [d out] counter index sub b Hout Hc Hi Hs Hlen Hb. cbn in Hout, Hlen. subst out.
  set (request := SdoNormal_upload counter index (Index sub)) in *.
  pose proof (upload_valid counter index sub Hc Hi Hs) as Hreq.
  rewrite (pack_ok SdoNormal_write _ _ request Hreq) in Hb. apply ok_inj in Hb. subst b.
  assert (unpack_from_slice SdoNormal_read (encoding (w:=SdoNormal_write) request) = Ok request) as Hread.
  { rewrite <- (app_nil_r (encoding request)). by apply unpack_encoding. }
  destruct (message_response (response_header request true (4 - Z.of_nat (length (d index sub))) CC_Upload) (d index sub))
    as (payload & Hresp & Htake).
  { apply response_header_valid; [lia|done|done]. }
  { lia. }
  do 4 eexists. split_and!; [apply dictionary_exchange|exact Hresp|by apply (response_about request)|done|done|exact Htake|done|done].
  unfold dictionary_reply. rewrite Hread. reflexivity.
Qed.

End Dictionary.

Lemma sdo_array_roundtrip_witness :
  exists w1 s1 w2 s2,
    sdo_write_array (Bus0:=mailbox_device dictionary_reply) (H:=two_turns) (P:=true) u16_write 0x1c13 [0x1a00; 0x1a02]
      (mkMailboxDevice (fun _ _ => []) [], sample_subdevice) = (Ok tt, (w1, s1)) /\
    sdo_read_array (Bus0:=mailbox_device dictionary_reply) (H:=two_turns) (P:=true) 0 u16_read 4 0x1c13 (w1, s1) =
      (Ok [0x1a00; 0x1a02], (w2, s2)).
Proof.
  destruct (sdo_array_roundtrip (Bus0:=mailbox_device dictionary_reply) (H:=two_turns) (P:=true) sample_link 0
    u16_write u16_read (in_u 16) sample_subdevice (mkMailboxDevice (fun _ _ => []) []) 0x1c13 [0x1a00; 0x1a02] 4)
    as (w1 & s1 & w2 & s2 & Hw & _ & Hr).
  - cbn. lia.
  - split; [apply sample_linked|cbn; lia].
  - reflexivity.
  - by split.
  - cbn. lia.
  - by repeat constructor.
  - exists w1, s1, w2, s2. split; [exact Hw|exact Hr].
Defined.
