(* ===== verification/Configuration.v ===== *)
(** * Configuration of a SubDevice ([subdevice/configuration.rs])

    The SyncManagers of the mailboxes, and the mapping of the process data of one
    direction into the process data image: the length of each SyncManager from the
    object dictionary or the EEPROM, its registers, and the FMMU that maps it. *)
From S2P Require Import Prelude Wire Derive DeriveEnum EscTypes Crates SiiTypes PduTypes Errors Bus Eeprom SubEeprom Ports Pdi MailboxTypes SubDevice Coe.
Import Struct Enum.

(** ** Definitions *)

Inductive PdoDirection := MasterRead | MasterWrite.

Definition filter_terms (d : PdoDirection) : SyncManagerType * FmmuUsage :=
  match d with
  | MasterRead => (SMT_ProcessDataRead, FU_Inputs)
  | MasterWrite => (SMT_ProcessDataWrite, FU_Outputs)
  end.

(** [bits.contains(flag)] *)
Definition contains (bits flag : Z) : bool := Z.eqb (Z.land bits flag) flag.

(** An entry of a PDO: index, sub-index and length of the object mapped. *)
Record Mapping := mkMapping { mp_mapping_bit_len : Z; mp_sub_index : Z; mp_index : Z }.

Definition Mapping_fields : list Field :=
  [bytes_field CU8 0 1 0 0; bytes_field CU8 0 1 0 0; bytes_field c_u16 0 2 0 0].
Definition Mapping_read : WireRead Mapping :=
  derive_read 4 Mapping_fields (fun '(a, (b, (c, _))) => mkMapping a b c).

Definition DefaultMailbox_default : DefaultMailbox := mkDefaultMailbox 0 0 0 0 0.

(** The factor configured for a PDO. *)
Definition oversampling_of (config : list (Z * Z)) (pdo : Z) : Z :=
  default 1 (snd <$> List.find (fun e => Z.eqb e.1 pdo) config).

(** [(bits + 7) / 8] *)
Definition bytes_of_bits {P : Profile} {E} (bits : Z) : res E Z :=
  b ← uadd 16 bits 7; mret (b / 8).

Definition set_mailbox (m : MailboxConfig) (s : SubDevice) : SubDevice :=
  set_config (mkSubDeviceConfig (cfg_io (sd_config s)) m) s.
Definition set_io (direction : PdoDirection) (segment : PdiSegment) (s : SubDevice) : SubDevice :=
  let io := cfg_io (sd_config s) in
  set_config (mkSubDeviceConfig
    match direction with
    | MasterRead => mkIoRanges segment (io_output io)
    | MasterWrite => mkIoRanges (io_input io) segment
    end (cfg_mailbox (sd_config s))) s.

Section Configuration.
Context {W : Type} `{!Bus W} `{!Timing} `{!EmbeddedIo} `{!Crates} {P : Profile}.

(** A method of [SubDeviceRef] that does not change the SubDevice. *)
Definition by_address {A} (m : Z -> St W Error A) : St (W * SubDevice) Error A :=
  s ← gets snd; on_bus (m (sd_configured_address s)).

(** A method of its EEPROM. *)
Definition from_eeprom {A} (m : forall D, Provider D -> St D Error A) : St (W * SubDevice) Error A :=
  by_address (fun a => m W (eeprom a)).

(** *** SyncManagers *)

Definition write_sm_config (sync_manager_index : Z) (sync_manager : SyncManager) (length_bytes : Z)
    : St (W * SubDevice) Error SyncManagerChannel :=
  let sm_config := mkSyncManagerChannel (sm_start_addr sync_manager) length_bytes (sm_control sync_manager)
    Status_default
    (mkEnable (contains (sm_enable sync_manager) SM_ENABLE && (0 <? length_bytes)) false false false false false) in
  register ← lift (register_sync_manager sync_manager_index);
  c ← sub_write (register_u16 register);
  _ ← on_bus (send SyncManagerChannel_write c sm_config);
  mret sm_config.

(** The mailboxes found so far, read then write. *)
Definition mailbox_sm (m : DefaultMailbox) (found : option Mailbox * option Mailbox) (index : Z) (sm : SyncManager)
    : St (W * SubDevice) Error (option Mailbox * option Mailbox) :=
  match usage_type sm with
  | SMT_MailboxWrite =>
      _ ← write_sm_config index sm (dm_subdevice_receive_size m);
      mret (found.1, Some (mkMailbox (sm_start_addr sm) (dm_subdevice_receive_size m) index))
  | SMT_MailboxRead =>
      _ ← write_sm_config index sm (dm_subdevice_send_size m);
      mret (Some (mkMailbox (sm_start_addr sm) (dm_subdevice_send_size m) index), found.2)
  | _ => mret found
  end.

Fixpoint mailbox_sms (m : DefaultMailbox) (found : option Mailbox * option Mailbox) (index : Z)
    (sms : list SyncManager) : St (W * SubDevice) Error (option Mailbox * option Mailbox) :=
  match sms with
  | [] => mret found
  | sm :: sms =>
      found ← mailbox_sm m found (wrap 8 index) sm;
      mailbox_sms m found (index + 1) sms
  end.

Definition configure_mailbox_sms (sms : list SyncManager) : St (W * SubDevice) Error unit :=
  mailbox ← from_eeprom (fun D _ => ignoring_no_category mailbox_config);
  let mailbox := default DefaultMailbox_default mailbox in
  general ← from_eeprom (fun D _ => ignoring_no_category general);
  let coe_details := from_option sg_coe_details 0 general in
  if negb (has_mailbox mailbox) then mret tt else
  '(read_mailbox, write_mailbox) ← mailbox_sms mailbox (None, None) 0 sms;
  let has_coe := contains (dm_supported_protocols mailbox) MP_COE &&
    match read_mailbox with Some m => 0 <? mb_len m | None => false end in
  on_sub (fun s => (tt, set_mailbox (mkMailboxConfig read_mailbox write_mailbox
    (dm_supported_protocols mailbox) has_coe (contains coe_details ENABLE_COMPLETE_ACCESS)) s)).

Definition configure_mailboxes : St (W * SubDevice) Error unit :=
  _ ← by_address (fun a => set_eeprom_mode a SO_Master);
  sms ← from_eeprom (fun D _ => sync_managers);
  _ ← configure_mailbox_sms sms;
  _ ← by_address (fun a => set_eeprom_mode a SO_Pdi);
  _ ← by_address (fun a => request_subdevice_state a SDS_PreOp);
  by_address (fun a => set_eeprom_mode a SO_Master).

(** *** FMMUs *)

Definition write_fmmu_config (sm_bit_len fmmu_index : Z) (global_offset : PdiOffset)
    (desired_sm_type : SyncManagerType) (sm_config : SyncManagerChannel)
    : St (W * SubDevice) Error PdiOffset :=
  register ← lift (register_fmmu (wrap 8 fmmu_index));
  c ← sub_read (register_u16 register);
  fmmu_config ← on_bus (receive Fmmu_read c);
  fmmu_config ← (if fm_enable fmmu_config then
      length ← lift (uadd 16 (fm_length_bytes fmmu_config) (smc_length_bytes sm_config));
      mret (mkFmmu (fm_logical_start_address fmmu_config) length (fm_logical_start_bit fmmu_config)
        (fm_logical_end_bit fmmu_config) (fm_physical_start_address fmmu_config)
        (fm_physical_start_bit fmmu_config) (fm_read_enable fmmu_config) (fm_write_enable fmmu_config)
        (fm_enable fmmu_config))
    else mret (mkFmmu (start_address global_offset) (smc_length_bytes sm_config) 0 7
      (smc_physical_start_address sm_config) 0 (bool_decide (desired_sm_type = SMT_ProcessDataRead))
      (bool_decide (desired_sm_type = SMT_ProcessDataWrite)) true));
  c ← sub_write (register_u16 register);
  _ ← on_bus (send Fmmu_write c fmmu_config);
  lift (increment_byte_aligned global_offset sm_bit_len).

(** *** Lengths from the object dictionary *)

(** [for i in from..] over [n] mappings of a PDO. *)
Fixpoint coe_mappings (pdo : Z) (i : Z) (n : nat) (pdo_bit_len : Z) : St (W * SubDevice) Error Z :=
  match n with
  | O => mret pdo_bit_len
  | S n =>
      mapping ← sdo_read_expedited Mapping_read pdo (Index i);
      pdo_bit_len ← lift (uadd 16 pdo_bit_len (mp_mapping_bit_len mapping));
      coe_mappings pdo (i + 1) n pdo_bit_len
  end.

(** The PDOs assigned to a SyncManager. *)
Fixpoint coe_assignments (sm_address : Z) (i : Z) (n : nat) (sm_bit_len : Z) : St (W * SubDevice) Error Z :=
  match n with
  | O => mret sm_bit_len
  | S n =>
      pdo ← sdo_read_expedited u16_read sm_address (Index i);
      num_mappings ← sdo_read_expedited u8_read pdo (Index 0);
      pdo_bit_len ← coe_mappings pdo 1 (Z.to_nat num_mappings) 0;
      s ← gets snd;
      pdo_bit_len ← lift (umul 16 pdo_bit_len (oversampling_of (sd_oversampling_config s) pdo));
      sm_bit_len ← lift (uadd 16 sm_bit_len pdo_bit_len);
      coe_assignments sm_address (i + 1) n sm_bit_len
  end.

(** [iter().position(..)] *)
Fixpoint position {A} (predicate : A -> bool) (items : list A) : option nat :=
  match items with
  | x :: rest => if predicate x then Some 0%nat else S <$> position predicate rest
  | [] => None
  end.

Definition coe_sm (fmmu_usage : list FmmuUsage) (direction : PdoDirection) (index : Z) (sm : SyncManager)
    (global_offset : PdiOffset) : St (W * SubDevice) Error PdiOffset :=
  let '(desired_sm_type, desired_fmmu_type) := filter_terms direction in
  sm_address ← lift (uadd 16 SM_BASE_ADDRESS index);
  if bool_decide (usage_type sm <> desired_sm_type) then mret global_offset else
  num_sm_assignments ← sdo_read_expedited u8_read sm_address (Index 0);
  sm_bit_len ← coe_assignments sm_address 1 (Z.to_nat num_sm_assignments) 0;
  length_bytes ← lift (bytes_of_bits sm_bit_len);
  sm_config ← write_sm_config index sm length_bytes;
  if 0 <? sm_bit_len then
    fmmu_index ← lift (ok_or (position (fun u => bool_decide (u = desired_fmmu_type)) fmmu_usage)
      (E_NotFound I_Fmmu None));
    write_fmmu_config sm_bit_len (Z.of_nat fmmu_index) global_offset desired_sm_type sm_config
  else mret global_offset.

Fixpoint coe_sms (fmmu_usage : list FmmuUsage) (direction : PdoDirection) (index : Z)
    (sms : list SyncManager) (global_offset : PdiOffset) : St (W * SubDevice) Error PdiOffset :=
  match sms with
  | [] => mret global_offset
  | sm :: sms =>
      global_offset ← coe_sm fmmu_usage direction (wrap 8 index) sm global_offset;
      coe_sms fmmu_usage direction (index + 1) sms global_offset
  end.

(** The segment mapped, and the offset behind it. *)
Definition configure_pdos_coe (sms : list SyncManager) (fmmu_usage : list FmmuUsage)
    (direction : PdoDirection) (global_offset : PdiOffset)
    : St (W * SubDevice) Error (PdiSegment * PdiOffset) :=
  offset ← coe_sms fmmu_usage direction 0 sms global_offset;
  mret (up_to global_offset offset, offset).

(** *** Lengths from the EEPROM *)

(** The lengths of the PDOs of a SyncManager, added up. *)
Fixpoint eeprom_bit_len (oversampling : list (Z * Z)) (index : Z) (pdos : list Pdo) (sum : Z) : res Error Z :=
  match pdos with
  | [] => Ok sum
  | pdo :: pdos =>
      if Z.eqb (pdo_sync_manager pdo) index then
        len ← umul 16 (pdo_bit_len pdo) (oversampling_of oversampling (pdo_index pdo));
        sum ← uadd 16 sum len;
        eeprom_bit_len oversampling index pdos sum
      else eeprom_bit_len oversampling index pdos sum
  end.

Definition eeprom_fmmu_index (mappings : list FmmuEx) (index : Z) : Z :=
  default index (fex_sync_manager <$> List.find (fun m => Z.eqb (fex_sync_manager m) index) mappings).

Definition eeprom_sm (pdos : list Pdo) (mappings : list FmmuEx) (direction : PdoDirection) (index : Z)
    (sm : SyncManager) (offset : PdiOffset) : St (W * SubDevice) Error PdiOffset :=
  let sm_type := (filter_terms direction).1 in
  if bool_decide (usage_type sm <> sm_type) then mret offset else
  s ← gets snd;
  bit_len ← lift (eeprom_bit_len (sd_oversampling_config s) index pdos 0);
  length_bytes ← lift (bytes_of_bits bit_len);
  sm_config ← write_sm_config index sm length_bytes;
  write_fmmu_config bit_len (eeprom_fmmu_index mappings index) offset sm_type sm_config.

Fixpoint eeprom_sms (pdos : list Pdo) (mappings : list FmmuEx) (direction : PdoDirection) (index : Z)
    (sms : list SyncManager) (offset : PdiOffset) : St (W * SubDevice) Error PdiOffset :=
  match sms with
  | [] => mret offset
  | sm :: sms =>
      offset ← eeprom_sm pdos mappings direction (wrap 8 index) sm offset;
      eeprom_sms pdos mappings direction (index + 1) sms offset
  end.

Definition configure_pdos_eeprom (sms : list SyncManager) (direction : PdoDirection) (offset : PdiOffset)
    : St (W * SubDevice) Error (PdiSegment * PdiOffset) :=
  pdos ← from_eeprom (fun D _ =>
    match direction with MasterRead => maindevice_read_pdos | MasterWrite => maindevice_write_pdos end);
  fmmu_sm_mappings ← from_eeprom (fun D _ => fmmu_mappings);
  end_offset ← eeprom_sms pdos fmmu_sm_mappings direction 0 sms offset;
  mret (up_to offset end_offset, end_offset).

(** *** One direction of a SubDevice *)

Definition configure_fmmus (global_offset : PdiOffset) (group_start_address : Z) (direction : PdoDirection)
    : St (W * SubDevice) Error PdiOffset :=
  sms ← from_eeprom (fun D _ => sync_managers);
  fmmu_usage ← from_eeprom (fun D _ => fmmus);
  state ← by_address state;
  s ← gets snd;
  if bool_decide (state <> SDS_PreOp)
  then fail (E_InvalidState SDS_PreOp state (sd_configured_address s)) else
  '(range, global_offset) ← (if mc_has_coe (cfg_mailbox (sd_config s))
    then configure_pdos_coe sms fmmu_usage direction global_offset
    else configure_pdos_eeprom sms direction global_offset);
  segment_start ← lift (usub 64 (seg_start range) group_start_address);
  segment_end ← lift (usub 64 (seg_end range) group_start_address);
  _ ← on_sub (fun s => (tt, set_io direction (mkPdiSegment segment_start segment_end) s));
  mret global_offset.

End Configuration.
