(* ===== verification/ConfigurationSpec.v ===== *)
(** * The mapping of process data into the image

    The class [MappingRegisters] is what the SyncManager and FMMU registers of a
    SubDevice promise; the theorem says where [Configuration.eeprom_sms] maps the
    SyncManagers of one direction. *)
From S2P Require Import Prelude Wire Derive DeriveEnum EscTypes Crates SiiTypes PduTypes Errors Bus Eeprom SubEeprom Ports Pdi MailboxTypes SubDevice Coe Configuration.
Import Struct Enum.

(** ** Definitions *)

(** The registers of the SubDevice at address [a] hold what is written to them. *)
Class MappingRegisters {W} `{!Bus W} (a : Z) := {
  responsive : W -> Prop;
  fmmu_reg : W -> Z -> Fmmu;
  sm_reg : W -> Z -> SyncManagerChannel;
  fmmu_valid w i : responsive w -> Fmmu_valid (fmmu_reg w i);
  read_fmmu w i : responsive w -> 0 <= i < 16 ->
    exists w', receive Fmmu_read (fprd a (0x0600 + 16 * i)) w = (Ok (fmmu_reg w i), w') /\
      responsive w' /\ (forall j, fmmu_reg w' j = fmmu_reg w j) /\ (forall j, sm_reg w' j = sm_reg w j);
  write_fmmu w i v : responsive w -> 0 <= i < 16 -> Fmmu_valid v ->
    exists w', send Fmmu_write (fpwr a (0x0600 + 16 * i)) v w = (Ok tt, w') /\
      responsive w' /\ (forall j, fmmu_reg w' j = if decide (j = i) then v else fmmu_reg w j) /\
      (forall j, sm_reg w' j = sm_reg w j);
  write_sm w i v : responsive w -> 0 <= i < 16 -> SyncManagerChannel_valid v ->
    exists w', send SyncManagerChannel_write (fpwr a (0x0800 + 8 * i)) v w = (Ok tt, w') /\
      responsive w' /\ (forall j, fmmu_reg w' j = fmmu_reg w j) /\
      (forall j, sm_reg w' j = if decide (j = i) then v else sm_reg w j);
}.

(** The SyncManager [sm] set up for [len] bytes. *)
Definition sm_channel (sm : SyncManager) (len : Z) : SyncManagerChannel :=
  mkSyncManagerChannel (sm_start_addr sm) len (sm_control sm) Status_default
    (mkEnable (contains (sm_enable sm) SM_ENABLE && (0 <? len)) false false false false false).

(** The FMMU that maps [len] bytes of it to [logical]. *)
Definition mapped_at (logical : Z) (sm : SyncManager) (len : Z) (t : SyncManagerType) : Fmmu :=
  mkFmmu logical len 0 7 (sm_start_addr sm) 0 (bool_decide (t = SMT_ProcessDataRead))
    (bool_decide (t = SMT_ProcessDataWrite)) true.

(** What the FMMU holds afterwards: one that is in use already keeps all but its
    length, which grows. *)
Definition fmmu_after (logical : Z) (sm : SyncManager) (len : Z) (t : SyncManagerType) (f : Fmmu) : Fmmu :=
  if fm_enable f then
    mkFmmu (fm_logical_start_address f) (fm_length_bytes f + len) (fm_logical_start_bit f) (fm_logical_end_bit f)
      (fm_physical_start_address f) (fm_physical_start_bit f) (fm_read_enable f) (fm_write_enable f) true
  else mapped_at logical sm len t.

(** The bits of the PDOs of SyncManager [i], without overflow. *)
Definition sm_bits (oversampling : list (Z * Z)) (pdos : list Pdo) (i : Z) : Z :=
  foldr Z.add 0 ((fun pdo => pdo_bit_len pdo * oversampling_of oversampling (pdo_index pdo)) <$>
    filter (fun pdo => pdo_sync_manager pdo = i) pdos).

Definition bits_fit (oversampling : list (Z * Z)) (pdos : list Pdo) (i : Z) : Prop :=
  Forall (fun pdo => 0 <= pdo_bit_len pdo /\ 0 <= oversampling_of oversampling (pdo_index pdo)) pdos /\
  sm_bits oversampling pdos i + 7 < 2 ^ 16.

(** The bytes that SyncManager [i] takes in the image. *)
Definition sm_len (t : SyncManagerType) (oversampling : list (Z * Z)) (pdos : list Pdo) (i : Z) (sm : SyncManager) : Z :=
  if decide (usage_type sm = t) then (sm_bits oversampling pdos i + 7) / 8 else 0.

(** The lengths of SyncManager [i] and of an FMMU that is in use fit 16 bits. *)
Definition lengths_fit (t : SyncManagerType) (oversampling : list (Z * Z)) (pdos : list Pdo) (i : Z)
    (sm : SyncManager) (f : Fmmu) : Prop :=
  bits_fit oversampling pdos i /\
  (fm_enable f = true -> fm_length_bytes f + sm_len t oversampling pdos i sm < 2 ^ 16).

(** The bytes of the SyncManagers [sms], which are numbered from [i] on. *)
Fixpoint sms_len (t : SyncManagerType) (oversampling : list (Z * Z)) (pdos : list Pdo) (i : Z) (sms : list SyncManager) : Z :=
  match sms with
  | [] => 0
  | sm :: sms => sm_len t oversampling pdos i sm + sms_len t oversampling pdos (i + 1) sms
  end.

(** *** A SubDevice with these registers *)

Record MappingDevice := mkMappingDevice { md_fmmu : Z -> Fmmu; md_sm : Z -> SyncManagerChannel }.

Definition Fmmu_default : Fmmu := mkFmmu 0 0 0 0 0 0 false false false.

Definition packed {T} (w : WireWrite T) (v : T) : bytes :=
  match pack w v with Ok b => b | _ => [] end.

Definition update {T} (f : Z -> T) (i : Z) (v : res WireError T) : Z -> T := fun j =>
  if decide (j = i) then match v with Ok v => v | _ => f j end else f j.

Definition mapping_device : Bus MappingDevice := {|
  bus_pdu command data len_override := fun d =>
    match command with
    | Read (Fprd _ r) => (Ok (mkReceived 1 (packed Fmmu_write (md_fmmu d ((r - 0x0600) / 16))) []), d)
    | Write (Fpwr _ r) =>
        (Ok (mkReceived 1 data []),
         if r <? 0x0800
         then mkMappingDevice (update (md_fmmu d) ((r - 0x0600) / 16) (unpack_from_slice Fmmu_read data)) (md_sm d)
         else mkMappingDevice (md_fmmu d)
           (update (md_sm d) ((r - 0x0800) / 8) (unpack_from_slice SyncManagerChannel_read data)))
    | _ => (Ok (mkReceived 0 data []), d)
    end
|}.

Definition fresh_device : MappingDevice :=
  mkMappingDevice (fun _ => Fmmu_default)
    (fun _ => mkSyncManagerChannel 0 0 (mkControl OM_Normal DIR_MasterRead false false false) Status_default Enable_default).

Definition sample_sub : SubDevice :=
  mkSubDevice 0x1000 0 SubDeviceConfig_default (mkSubDeviceIdentity 0 0 0 0) [] [] DCS_None 0 0 None 0 1
    DCSync_Disabled [].

(** Three SyncManagers, two of them inputs. *)
Definition sample_sms : list SyncManager :=
  let ctl d := mkControl OM_Normal d false false false in
  [mkSyncManager 0x1000 0 (ctl DIR_MasterRead) 1 SMT_ProcessDataRead;
   mkSyncManager 0x1100 0 (ctl DIR_MasterWrite) 1 SMT_ProcessDataWrite;
   mkSyncManager 0x1200 0 (ctl DIR_MasterRead) 1 SMT_ProcessDataRead].
Definition sample_pdos : list Pdo := [mkPdo 0x1a00 1 0 12; mkPdo 0x1a01 1 2 16; mkPdo 0x1a02 1 2 8].
Definition sample_write_pdos : list Pdo := [mkPdo 0x1600 1 1 9].

(** ** Lemmas *)

Lemma sm_bits_cons oversampling pdo pdos i :
  sm_bits oversampling (pdo :: pdos) i =
    (if decide (pdo_sync_manager pdo = i) then pdo_bit_len pdo * oversampling_of oversampling (pdo_index pdo) else 0) +
    sm_bits oversampling pdos i.
Proof. unfold sm_bits. rewrite filter_cons. by destruct (decide _). Qed.

Lemma sm_bits_nonneg oversampling pdos i :
  Forall (fun pdo => 0 <= pdo_bit_len pdo /\ 0 <= oversampling_of oversampling (pdo_index pdo)) pdos ->
  0 <= sm_bits oversampling pdos i.
Proof.
  induction 1 as [|pdo pdos [H1 H2] Hp IH]; [done|]. rewrite sm_bits_cons. destruct (decide _); [|lia].
  pose proof (Z.mul_nonneg_nonneg _ _ H1 H2). lia.
Qed.

Lemma sms_len_nonneg t oversampling pdos :
  forall sms j, (forall n sm, sms !! n = Some sm -> usage_type sm = t -> bits_fit oversampling pdos (j + Z.of_nat n)) ->
  0 <= sms_len t oversampling pdos j sms.
Proof.
  induction sms as [|sm sms IH]; intros j Hfit; [done|]. cbn [sms_len].
  assert (0 <= sms_len t oversampling pdos (j + 1) sms) as Hrest.
  { apply IH. intros n x Hx Hxt. replace (j + 1 + Z.of_nat n) with (j + Z.of_nat (S n)) by lia. by apply (Hfit (S n) x). }
  unfold sm_len. destruct (decide _) as [Ht|]; [|lia].
  pose proof (Hfit 0%nat sm eq_refl Ht) as [Hp _].
  pose proof (sm_bits_nonneg oversampling pdos j Hp). lia.
Qed.

Lemma eeprom_bit_len_ok {P : Profile} oversampling i pdos sum :
  Forall (fun pdo => 0 <= pdo_bit_len pdo /\ 0 <= oversampling_of oversampling (pdo_index pdo)) pdos ->
  0 <= sum -> sum + sm_bits oversampling pdos i < 2 ^ 16 ->
  eeprom_bit_len oversampling i pdos sum = Ok (sum + sm_bits oversampling pdos i).
Proof.
  intros Hp. revert sum. induction Hp as [|pdo pdos [H1 H2] Hp IH]; intros sum Hs Hb.
  { cbn [eeprom_bit_len]. change (sm_bits oversampling [] i) with 0. by rewrite Z.add_0_r. }
  rewrite sm_bits_cons in Hb |- *. cbn [eeprom_bit_len].
  pose proof (sm_bits_nonneg oversampling pdos i Hp). destruct (Z.eqb_spec (pdo_sync_manager pdo) i) as [He|He].
  - rewrite decide_True in Hb |- * by done. pose proof (Z.mul_nonneg_nonneg _ _ H1 H2).
    unfold umul. rewrite checked_ok by (split; lia). msimpl. unfold uadd. rewrite checked_ok by (split; lia).
    rewrite IH by lia. f_equal. lia.
  - rewrite decide_False in Hb |- * by done. rewrite IH by lia. f_equal.
Qed.

(** The FMMU_EX entries never change the FMMU that is used. *)
Lemma eeprom_fmmu_index_same mappings i : eeprom_fmmu_index mappings i = i.
Proof.
  unfold eeprom_fmmu_index. destruct (List.find _ _) as [m|] eqn:Hf; [|done].
  apply List.find_some in Hf as [_ Hm]. by apply Z.eqb_eq in Hm.
Qed.

Lemma register_fmmu_ok {E} i :
  0 <= i < 16 -> exists r, register_fmmu (E:=E) i = Ok r /\ register_u16 r = 0x0600 + 16 * i.
Proof. intros Hi. each_below Hi; eexists; split; reflexivity. Qed.

Lemma register_sm_ok {E} i :
  0 <= i < 16 -> exists r, register_sync_manager (E:=E) i = Ok r /\ register_u16 r = 0x0800 + 8 * i.
Proof. intros Hi. each_below Hi; eexists; split; reflexivity. Qed.

Section Mapping.
#[local] Set Default Proof Using "Type*".
Context {W : Type} `{!Bus W} `{!Timing} `{!EmbeddedIo} `{!Crates} {P : Profile}
  (s : SubDevice) `{!MappingRegisters (W:=W) (sd_configured_address s)}.

Lemma write_sm_config_ok w i sm len :
  responsive w -> 0 <= i < 16 -> in_u 16 (sm_start_addr sm) -> in_u 16 len ->
  exists w', write_sm_config i sm len (w, s) = (Ok (sm_channel sm len), (w', s)) /\
    responsive w' /\ (forall j, fmmu_reg w' j = fmmu_reg w j) /\
    (forall j, sm_reg w' j = if decide (j = i) then sm_channel sm len else sm_reg w j).
Proof.
  intros Hw Hi Ha Hl. destruct (write_sm w i (sm_channel sm len) Hw Hi ltac:(by split)) as (w' & Hs & Hrest).
  exists w'. split; [|done]. destruct (register_sm_ok (E:=Error) i Hi) as (r & Hr & Hu).
  unfold write_sm_config. rewrite Hr. rewrite (st_step _ _ _ r (w, s)) by done. rewrite Hu.
  rewrite (st_step (sub_write _) _ _ (fpwr (sd_configured_address s) (0x0800 + 8 * i)) (w, s)) by done.
  unfold on_bus, mbind, St_bind. fold (sm_channel sm len). by rewrite Hs.
Qed.

Lemma fmmu_after_valid logical sm len t f :
  Fmmu_valid f -> in_u 16 (sm_start_addr sm) -> 0 <= len < 2 ^ 16 -> 0 <= logical < 2 ^ 32 ->
  (fm_enable f = true -> fm_length_bytes f + len < 2 ^ 16) -> Fmmu_valid (fmmu_after logical sm len t f).
Proof.
  unfold Fmmu_valid, fmmu_after, mapped_at, in_u. intros Hf Ha Hl Ho He.
  destruct (fm_enable f); [specialize (He eq_refl)|]; cbn; split_and!; lia.
Qed.

Lemma write_fmmu_config_ok w i sm len bits offset t :
  responsive w -> 0 <= i < 16 -> in_u 16 (sm_start_addr sm) ->
  (fm_enable (fmmu_reg w i) = true -> fm_length_bytes (fmmu_reg w i) + len < 2 ^ 16) ->
  0 <= bits -> bits + 7 < 2 ^ 16 -> len = (bits + 7) / 8 -> 0 <= start_address offset ->
  start_address offset < 2 ^ 32 -> start_address offset + len < 2 ^ 32 ->
  exists w', write_fmmu_config bits i offset t (sm_channel sm len) (w, s) =
      (Ok (mkPdiOffset (start_address offset + len)), (w', s)) /\
    responsive w' /\
    (forall j, fmmu_reg w' j =
      if decide (j = i) then fmmu_after (start_address offset) sm len t (fmmu_reg w j) else fmmu_reg w j) /\
    (forall j, sm_reg w' j = sm_reg w j).
Proof.
  intros Hw Hi Ha He Hb Hb' -> Ho Ho' Hend. assert (in_u 16 ((bits + 7) / 8)) as Hl by (split; lia).
  destruct (read_fmmu w i Hw Hi) as (w1 & Hread & Hw1 & Hf1 & Hs1).
  set (v := fmmu_after (start_address offset) sm ((bits + 7) / 8) t (fmmu_reg w i)).
  assert (Fmmu_valid v) as Hv.
  { apply fmmu_after_valid; [by apply fmmu_valid|done|apply Hl|done|done]. }
  destruct (write_fmmu w1 i v Hw1 Hi Hv) as (w2 & Hwrite & Hw2 & Hf2 & Hs2).
  exists w2. split_and!; [|done| |]; [|intros j; rewrite Hf2, Hf1; by destruct (decide _) as [->|]|intros j; by rewrite Hs2].
  destruct (register_fmmu_ok (E:=Error) i Hi) as (r & Hr & Hu).
  unfold write_fmmu_config. rewrite wrap_small by (split; [lia|change (2 ^ 8) with 256; lia]). rewrite Hr.
  rewrite (st_step _ _ _ r (w, s)) by done. rewrite Hu.
  rewrite (st_step (sub_read _) _ _ (fprd (sd_configured_address s) (0x0600 + 16 * i)) (w, s)) by done.
  rewrite (st_step (on_bus _) _ _ (fmmu_reg w i) (w1, s)) by (unfold on_bus; by rewrite Hread).
  rewrite (st_step _ _ _ v (w1, s)).
  2: { unfold v, fmmu_after. pose proof (fmmu_valid w i Hw) as Hvalid. destruct (fm_enable (fmmu_reg w i)) eqn:Hen; [|done].
    specialize (He eq_refl). unfold uadd, mbind, St_bind, lift. cbn [smc_length_bytes sm_channel].
    rewrite checked_ok; [done|]. unfold Fmmu_valid, in_u in *. lia. }
  rewrite (st_step (sub_write _) _ _ (fpwr (sd_configured_address s) (0x0600 + 16 * i)) (w1, s)) by done.
  rewrite (st_step (on_bus _) _ _ tt (w2, s)) by (unfold on_bus; by rewrite Hwrite).
  unfold increment_byte_aligned, increment_inner, uadd. rewrite checked_ok by (split; lia). msimpl.
  by rewrite checked_ok by (split; lia).
Qed.

(** One SyncManager of the direction. *)
Lemma eeprom_sm_ok pdos mappings direction w i sm offset :
  let t := (filter_terms direction).1 in
  let len := sm_len t (sd_oversampling_config s) pdos i sm in
  usage_type sm = t -> responsive w -> 0 <= i < 16 -> in_u 16 (sm_start_addr sm) ->
  lengths_fit t (sd_oversampling_config s) pdos i sm (fmmu_reg w i) ->
  0 <= start_address offset -> start_address offset < 2 ^ 32 -> start_address offset + len < 2 ^ 32 ->
  exists w', eeprom_sm pdos mappings direction i sm offset (w, s) =
      (Ok (mkPdiOffset (start_address offset + len)), (w', s)) /\ responsive w' /\
    (forall j, fmmu_reg w' j =
      if decide (j = i) then fmmu_after (start_address offset) sm len t (fmmu_reg w j) else fmmu_reg w j) /\
    (forall j, sm_reg w' j = if decide (j = i) then sm_channel sm len else sm_reg w j).
Proof.
  intros t len Ht Hw Hi Ha [[Hp Hbits] He] Ho Ho' Hend. pose proof (sm_bits_nonneg _ pdos i Hp) as Hnn. fold len in He.
  assert (len = (sm_bits (sd_oversampling_config s) pdos i + 7) / 8) as Hlen
    by (unfold len, sm_len; by rewrite decide_True).
  assert (in_u 16 len) as Hl by (rewrite Hlen; split; lia).
  destruct (write_sm_config_ok w i sm len Hw Hi Ha Hl) as (w1 & Hsm & Hw1 & Hf1 & Hs1).
  destruct (write_fmmu_config_ok w1 i sm len (sm_bits (sd_oversampling_config s) pdos i) offset t Hw1 Hi Ha
    ltac:(by rewrite Hf1) Hnn Hbits Hlen Ho Ho' Hend) as (w2 & Hfm & Hw2 & Hf2 & Hs2).
  exists w2. split_and!; [|done| |]; [|intros j; by rewrite Hf2, Hf1|intros j; by rewrite Hs2].
  unfold eeprom_sm. fold t. rewrite bool_decide_false by (intros Hne; by apply Hne).
  rewrite (st_step (gets _) _ _ s (w, s)) by done.
  rewrite (eeprom_bit_len_ok _ i pdos 0) by (done || lia). rewrite Z.add_0_l.
  rewrite (st_step (lift _) _ _ (sm_bits (sd_oversampling_config s) pdos i) (w, s)) by done.
  unfold bytes_of_bits, uadd at 1. rewrite checked_ok by (split; lia).
  rewrite (st_step (lift _) _ _ len (w, s)) by (by rewrite Hlen).
  rewrite (st_step _ _ _ _ _ Hsm), eeprom_fmmu_index_same. exact Hfm.
Qed.

Lemma eeprom_sms_ok pdos mappings direction sms w i offset :
  let t := (filter_terms direction).1 in
  let over := sd_oversampling_config s in
  responsive w -> 0 <= i -> i + Z.of_nat (length sms) <= 16 ->
  Forall (fun sm => in_u 16 (sm_start_addr sm)) sms ->
  (forall n sm, sms !! n = Some sm -> usage_type sm = t ->
    lengths_fit t over pdos (i + Z.of_nat n) sm (fmmu_reg w (i + Z.of_nat n))) ->
  0 <= start_address offset -> start_address offset < 2 ^ 32 ->
  start_address offset + sms_len t over pdos i sms < 2 ^ 32 ->
  exists w', eeprom_sms pdos mappings direction i sms offset (w, s) =
      (Ok (mkPdiOffset (start_address offset + sms_len t over pdos i sms)), (w', s)) /\ responsive w' /\
    (forall n sm, sms !! n = Some sm -> usage_type sm = t ->
      sm_reg w' (i + Z.of_nat n) = sm_channel sm (sm_len t over pdos (i + Z.of_nat n) sm) /\
      fmmu_reg w' (i + Z.of_nat n) =
        fmmu_after (start_address offset + sms_len t over pdos i (take n sms)) sm
          (sm_len t over pdos (i + Z.of_nat n) sm) t (fmmu_reg w (i + Z.of_nat n))) /\
    (forall j, ~ (exists n sm, sms !! n = Some sm /\ usage_type sm = t /\ j = i + Z.of_nat n) ->
      sm_reg w' j = sm_reg w j /\ fmmu_reg w' j = fmmu_reg w j).
Proof.
  intros t over. revert w i offset.
  induction sms as [|sm sms IH]; intros w i offset Hw Hi Hlen Haddr Hfit Ho Ho' Hend.
  { exists w. cbn [eeprom_sms sms_len]. rewrite Z.add_0_r. split_and!; [by destruct offset|done|done|done]. }
  apply Forall_cons in Haddr as [Ha Haddr]. cbn [length sms_len] in Hlen, Hend |- *.
  assert (forall n, i + Z.of_nat (S n) = i + 1 + Z.of_nat n) as Hnext by lia.
  assert (forall n x, sms !! n = Some x -> usage_type x = t ->
    lengths_fit t over pdos (i + 1 + Z.of_nat n) x (fmmu_reg w (i + 1 + Z.of_nat n))) as Hfit'.
  { intros n x Hx. rewrite <- Hnext. by apply (Hfit (S n) x). }
  assert (0 <= sms_len t over pdos (i + 1) sms) as Hrest.
  { apply sms_len_nonneg. intros n x Hx Hxt. by apply (Hfit' n x). }
  cbn [eeprom_sms]. rewrite (wrap_small 8) by (split; [lia|change (2 ^ 8) with 256; lia]).
  set (len := sm_len t over pdos i sm) in *.
  destruct (decide (usage_type sm = t)) as [Ht|Ht].
  - pose proof (Hfit 0%nat sm eq_refl Ht) as Hone. rewrite Z.add_0_r in Hone.
    assert (0 <= len) as Hnn.
    { unfold len, sm_len. rewrite decide_True by done. pose proof (sm_bits_nonneg over pdos i (proj1 (proj1 Hone))). lia. }
    destruct (eeprom_sm_ok pdos mappings direction w i sm offset Ht Hw ltac:(lia) Ha Hone Ho Ho'
      ltac:(fold t over len; lia)) as (w1 & Hrun & Hw1 & Hf1 & Hs1).
    fold t over len in Hrun, Hf1, Hs1. rewrite (st_step _ _ _ _ _ Hrun).
    destruct (IH w1 (i + 1) (mkPdiOffset (start_address offset + len)) Hw1 ltac:(lia) ltac:(lia) Haddr)
      as (w2 & Hrun2 & Hw2 & Hin & Hout); [|cbn [start_address]; lia..|].
    { intros n x Hx Hxt. rewrite Hf1, decide_False by lia. by apply Hfit'. }
    cbn [start_address] in Hrun2, Hin. exists w2. split_and!; [by rewrite Hrun2, Z.add_assoc|done| |].
    + intros [|n] x Hx Hxt.
      * injection Hx as <-. rewrite Z.add_0_r, take_0. cbn [sms_len].
        destruct (Hout i) as [-> ->]; [intros (n & x & _ & _ & Hn); lia|].
        rewrite Hs1, Hf1, !decide_True by done. by rewrite Z.add_0_r.
      * rewrite Hnext. cbn [take sms_len]. fold len. rewrite Z.add_assoc.
        destruct (Hin n x Hx Hxt) as [-> ->]. by rewrite Hf1, decide_False by lia.
    + intros j Hj. destruct (Hout j) as [-> ->].
      { intros (n & x & Hx & Hxt & Hn). apply Hj. exists (S n), x. split_and!; [done|done|lia]. }
      rewrite Hs1, Hf1, !decide_False; [done|..]; intros ->; apply Hj; exists 0%nat, sm; split_and!; done || lia.
  - assert (len = 0) as Hl by (unfold len, sm_len; by rewrite decide_False). rewrite Hl in *.
    rewrite (st_step _ _ _ offset (w, s)).
    2: { unfold eeprom_sm. by rewrite bool_decide_true. }
    destruct (IH w (i + 1) offset Hw ltac:(lia) ltac:(lia) Haddr) as (w2 & Hrun2 & Hw2 & Hin & Hout); [done|lia..|].
    exists w2. split_and!; [by rewrite Hrun2|done| |].
    + intros [|n] x Hx Hxt; [by injection Hx as <-|].
      rewrite Hnext. cbn [take sms_len]. fold len. rewrite Hl. by apply Hin.
    + intros j Hj. apply Hout. intros (n & x & Hx & Hxt & Hn). apply Hj. exists (S n), x. split_and!; [done|done|lia].
Qed.

(** *** Properties *)

(** C23: One pass over the SyncManagers of a direction described by the EEPROM.  There
    are at most 16 SyncManagers; for each of that direction the bits of its PDOs, and
    the length of its FMMU where that is in use, fit 16 bits; and the image ends within
    32 bits.  Then the [n]-th SyncManager, if it is of that direction, is set up for the
    bytes of its PDOs, and FMMU [n], if it is not in use yet, maps them where the
    SyncManagers of that direction before it end, so that they follow one another
    without gaps or overlaps; an FMMU [n] that is in use keeps what it holds and grows
    by these bytes where it is.  No other SyncManager or FMMU is touched, so that a pass
    leaves alone what the pass for the other direction has mapped, and the offset
    returned is the end of the last one. *)
Theorem eeprom_mapping_contiguous pdos mappings direction w sms offset :
  let t := (filter_terms direction).1 in
  let len i := sm_len t (sd_oversampling_config s) pdos i in
  let lens := sms_len t (sd_oversampling_config s) pdos 0 in
  responsive w -> (length sms <= 16)%nat -> Forall (fun sm => in_u 16 (sm_start_addr sm)) sms ->
  (forall n sm, sms !! n = Some sm -> usage_type sm = t ->
    lengths_fit t (sd_oversampling_config s) pdos (Z.of_nat n) sm (fmmu_reg w (Z.of_nat n))) ->
  0 <= start_address offset < 2 ^ 32 -> start_address offset + lens sms < 2 ^ 32 ->
  exists w', eeprom_sms pdos mappings direction 0 sms offset (w, s) =
      (Ok (mkPdiOffset (start_address offset + lens sms)), (w', s)) /\ responsive w' /\
    (forall n sm, sms !! n = Some sm -> usage_type sm = t ->
      sm_reg w' (Z.of_nat n) = sm_channel sm (len (Z.of_nat n) sm) /\
      fmmu_reg w' (Z.of_nat n) =
        fmmu_after (start_address offset + lens (take n sms)) sm (len (Z.of_nat n) sm) t (fmmu_reg w (Z.of_nat n))) /\
    (forall j, ~ (exists n sm, sms !! n = Some sm /\ usage_type sm = t /\ j = Z.of_nat n) ->
      sm_reg w' j = sm_reg w j /\ fmmu_reg w' j = fmmu_reg w j).
Proof.
  intros t len lens Hw Hl Ha Hfit [Ho Ho'] Hend.
  destruct (eeprom_sms_ok pdos mappings direction sms w 0 offset Hw ltac:(lia) ltac:(lia) Ha Hfit Ho Ho' Hend)
    as (w' & Hrun & Hw' & Hin & Hout). by exists w'.
Qed.

End Mapping.

(** *** Witness *)

Section Device.
#[local] Instance mapping_bus : Bus MappingDevice := mapping_device.

Lemma packed_ok {T} (w : WireWrite T) r valid `{!RoundTrip w r valid} v :
  valid v -> unpack_from_slice r (packed w v) = Ok v /\ pack w v = Ok (packed w v).
Proof.
  intros Hv. unfold packed. rewrite (pack_ok w r valid v Hv). split; [|done]. rewrite <- (app_nil_r (encoding v)). by apply unpack_encoding.
Qed.

#[local, program] Instance device_registers (a : Z) : MappingRegisters (W:=MappingDevice) a := {|
  responsive d := forall i, Fmmu_valid (md_fmmu d i);
  fmmu_reg := md_fmmu;
  sm_reg := md_sm;
|}.
Next Obligation. intros a d i Hd. apply Hd. Qed.
Next Obligation.
  intros a d i Hd Hi. exists d. split_and!; try done. unfold receive, read_common.
  unfold mbind, St_bind, lift, pdu_maybe_wkc.
  cbn [bus_pdu mapping_bus mapping_device wr_command wr_wkc fprd WrappedRead_new rd_wkc rd_data].
  replace ((0x0600 + 16 * i - 0x0600) / 16) with i by lia.
  change (1 =? 1) with true. cbn [rd_data]. by rewrite (proj1 (packed_ok Fmmu_write _ _ _ (Hd i))).
Qed.
Next Obligation.
  intros a d i v Hd Hi Hv. destruct (packed_ok Fmmu_write _ _ v Hv) as [Hu Hp].
  exists (mkMappingDevice (update (md_fmmu d) i (Ok v)) (md_sm d)). split_and!.
  - unfold send, write_common. rewrite Hp. unfold mbind, St_bind, lift.
    cbn [bus_pdu mapping_bus mapping_device ww_command fpwr WrappedWrite_new].
    replace ((0x0600 + 16 * i - 0x0600) / 16) with i by lia.
    rewrite (proj2 (Z.ltb_lt _ _)) by lia. by rewrite Hu.
  - intros j. cbn. unfold update. by destruct (decide (j = i)).
  - done.
  - done.
Qed.
Next Obligation.
  intros a d i v Hd Hi Hv. destruct (packed_ok SyncManagerChannel_write _ _ v Hv) as [Hu Hp].
  exists (mkMappingDevice (md_fmmu d) (update (md_sm d) i (Ok v))). split_and!.
  - unfold send, write_common. rewrite Hp. unfold mbind, St_bind, lift.
    cbn [bus_pdu mapping_bus mapping_device ww_command fpwr WrappedWrite_new].
    replace ((0x0800 + 8 * i - 0x0800) / 8) with i by lia.
    rewrite (proj2 (Z.ltb_ge _ _)) by lia. by rewrite Hu.
  - done.
  - done.
  - done.
Qed.

Lemma sample_bits_fit pdos i :
  pdos ∈ [sample_pdos; sample_write_pdos] -> bits_fit (sd_oversampling_config sample_sub) pdos i.
Proof.
  intros Hp. repeat (apply elem_of_cons in Hp as [->|Hp]); [..|by apply elem_of_nil in Hp];
    (split; [by repeat constructor|]); unfold sm_bits, sample_pdos, sample_write_pdos;
    repeat (rewrite filter_cons; case_decide); subst; vm_compute; reflexivity.
Qed.

(** Evaluate what FMMU [i] holds. *)
Ltac settle H d i := vm_compute in H; match type of H with _ = ?x => change (md_fmmu d i = x) in H end.

(** The inputs are mapped, then the outputs behind them, and then the inputs once more:
    their FMMUs are in use, and grow. *)
Lemma eeprom_mapping_contiguous_witness :
  exists w1 w2 w3,
    eeprom_sms (P:=true) sample_pdos [] MasterRead 0 sample_sms (mkPdiOffset 0x100) (fresh_device, sample_sub) =
      (Ok (mkPdiOffset 0x105), (w1, sample_sub)) /\
    eeprom_sms (P:=true) sample_write_pdos [] MasterWrite 0 sample_sms (mkPdiOffset 0x105) (w1, sample_sub) =
      (Ok (mkPdiOffset 0x107), (w2, sample_sub)) /\
    eeprom_sms (P:=true) sample_pdos [] MasterRead 0 sample_sms (mkPdiOffset 0x107) (w2, sample_sub) =
      (Ok (mkPdiOffset 0x10c), (w3, sample_sub)) /\
    fm_logical_start_address (md_fmmu w2 0) = 0x100 /\ fm_logical_start_address (md_fmmu w2 2) = 0x102 /\
    fm_logical_start_address (md_fmmu w2 1) = 0x105 /\
    fm_logical_start_address (md_fmmu w3 0) = 0x100 /\ fm_length_bytes (md_fmmu w3 0) = 4.
Proof.
  assert (forall i, bits_fit (sd_oversampling_config sample_sub) sample_pdos i) as Hread
    by (intros i; apply sample_bits_fit; set_solver).
  assert (forall i, bits_fit (sd_oversampling_config sample_sub) sample_write_pdos i) as Hwrite
    by (intros i; apply sample_bits_fit; set_solver).
  destruct (eeprom_mapping_contiguous (P:=true) sample_sub sample_pdos [] MasterRead fresh_device sample_sms (mkPdiOffset 0x100))
    as (w1 & Hrun1 & Hw1 & Hin1 & Hout1); [by repeat split|cbn; lia|by repeat constructor| |cbn; lia|vm_compute; reflexivity|].
  { intros n sm _ _. split; [apply Hread|done]. }
  destruct (Hin1 0%nat _ eq_refl eq_refl) as [_ F0]. destruct (Hin1 2%nat _ eq_refl eq_refl) as [_ F2].
  destruct (Hout1 1) as [_ F1]; [intros (n & sm & Hn & Ht & Heq); destruct n as [|[|n]]; [lia| |lia]; injection Hn as <-; discriminate Ht|].
  settle F0 w1 0. settle F1 w1 1. settle F2 w1 2.
  destruct (eeprom_mapping_contiguous (P:=true) sample_sub sample_write_pdos [] MasterWrite w1 sample_sms (mkPdiOffset 0x105))
    as (w2 & Hrun2 & Hw2 & Hin2 & Hout2); [done|cbn; lia|by repeat constructor| |cbn; lia|vm_compute; reflexivity|].
  { intros n sm Hn Ht. destruct n as [|[|[|n]]]; try discriminate Hn; injection Hn as <-; try discriminate Ht.
    split; [apply Hwrite|]. intros He. change (fm_enable (md_fmmu w1 1) = true) in He. by rewrite F1 in He. }
  destruct (Hin2 1%nat _ eq_refl eq_refl) as [_ G1]. 
  change (fmmu_reg w1 (Z.of_nat 1)) with (md_fmmu w1 1) in G1. rewrite F1 in G1. settle G1 w2 1.
  destruct (Hout2 0) as [_ G0]; [intros ([|[|[|n]]] & sm & Hn & Ht & Heq); [injection Hn as <-; discriminate Ht|lia..]|].
  destruct (Hout2 2) as [_ G2]; [intros ([|[|[|n]]] & sm & Hn & Ht & Heq); [lia|lia|injection Hn as <-; discriminate Ht|lia]|].
  change (md_fmmu w2 0 = md_fmmu w1 0) in G0. rewrite F0 in G0.
  change (md_fmmu w2 2 = md_fmmu w1 2) in G2. rewrite F2 in G2.
  destruct (eeprom_mapping_contiguous (P:=true) sample_sub sample_pdos [] MasterRead w2 sample_sms (mkPdiOffset 0x107))
    as (w3 & Hrun3 & _ & Hin3 & _); [done|cbn; lia|by repeat constructor| |cbn; lia|vm_compute; reflexivity|].
  { intros n sm Hn Ht. split; [apply Hread|].
    destruct n as [|[|[|n]]]; try discriminate Hn; injection Hn as <-; try discriminate Ht; intros _.
    - change (fm_length_bytes (md_fmmu w2 0) + 2 < 2 ^ 16). rewrite G0. vm_compute. reflexivity.
    - change (fm_length_bytes (md_fmmu w2 2) + 3 < 2 ^ 16). rewrite G2. vm_compute. reflexivity. }
  destruct (Hin3 0%nat _ eq_refl eq_refl) as [_ H0]. 
  change (fmmu_reg w2 (Z.of_nat 0)) with (md_fmmu w2 0) in H0. rewrite G0 in H0. settle H0 w3 0.
  exists w1, w2, w3. split_and!; [exact Hrun1|exact Hrun2|exact Hrun3|..];
    rewrite ?G0, ?G1, ?G2, ?H0; reflexivity.
Defined.

End Device.
