(* ===== verification/Dc.v ===== *)
(** * Topology and distributed clocks ([dc.rs]) *)
From S2P Require Import Prelude Wire EscTypes PduTypes Errors Bus Ports SubDevice.

(** ** Definitions *)

(** *** Parents *)

(** [find(|subdevice| subdevice.ports.topology().is_junction())] *)
Fixpoint find_junction {E} (l : list SubDevice) : res E (option SubDevice) :=
  match l with
  | [] => Ok None
  | s :: l => t ← topology (sd_ports s); if is_junction t then Ok (Some s) else find_junction l
  end.

(** The SubDevices before this one are [parents], in the order of the network. *)
Definition find_subdevice_parent (parents : list SubDevice) : res Error (option Z) :=
  match rev parents with
  | [] => Ok None
  | parent :: parents_it =>
      t ← topology (sd_ports parent);
      if decide (t = LineEnd) then
        split_point ← find_junction parents_it;
        split_point ← ok_or split_point E_Topology;
        Ok (Some (sd_index split_point))
      else Ok (Some (sd_index parent))
  end.

(** *** Delays *)

Section Delays.
Context {P : Profile}.

(** The delay between a SubDevice and its parent. *)
Definition propagation_delay_from (s parent : SubDevice) (parent_port : Port) (delay_accum : Z)
    : res Error Z :=
  let parent_prop_time := default 0 (total_propagation_time (sd_ports parent)) in
  let this_prop_time := default 0 (total_propagation_time (sd_ports s)) in
  let parent_delta := sat_sub parent_prop_time this_prop_time in
  t ← topology (sd_ports parent);
  match t with
  | Passthrough => Ok (parent_delta / 2)
  | Fork =>
      child ← is_child_of s parent;
      if child : bool then
        children_loop_time ← propagation_time_to (sd_ports parent) parent_port;
        Ok (sat_sub (default 0 children_loop_time) this_prop_time / 2)
      else Ok (parent_delta / 2)
  | Cross =>
      child ← is_child_of s parent;
      if child : bool then
        children_loop_time ← intermediate_propagation_time_to (sd_ports parent) parent_port;
        Ok (sat_sub children_loop_time this_prop_time / 2)
      else Ok (sat_sub parent_prop_time delay_accum)
  | LineEnd => Ok 0
  end.

(** The SubDevice and the accumulated delay afterwards. *)
Definition configure_subdevice_offsets (s : SubDevice) (parents : list SubDevice) (delay_accum : Z)
    : res Error (SubDevice * Z) :=
  match (parent_index ← sd_parent_index s; List.find (fun p => sd_index p =? parent_index) parents) with
  | None => Ok (s, delay_accum)
  | Some parent =>
      parent_port ← unwrap (port_assigned_to (sd_ports parent) (sd_index s));
      _ ← entry_port (sd_ports s);
      propagation_delay ← propagation_delay_from s parent parent_port delay_accum;
      let delay_accum := sat_add 32 delay_accum propagation_delay in
      Ok (set_propagation_delay delay_accum s, delay_accum)
  end.

(** Give the parent's next open port to the SubDevice with index [d]. *)
Definition assign_port (parents : list SubDevice) (parent_idx d : Z) : res Error (list SubDevice) :=
  '(i, parent) ← unwrap (list_find (fun p => sd_index p = parent_idx) parents);
  assigned ← (if d =? 0 then Ok None else assign_next_downstream_port (sd_ports parent) d);
  '(ports, _) ← unwrap assigned;
  Ok (<[i := set_ports ports parent]> parents).

(** One turn of the loop: the SubDevices before this one, this one, and the
    accumulated delay. *)
Definition assign_step (parents : list SubDevice) (s : SubDevice) (delay_accum : Z)
    : res Error (list SubDevice * SubDevice * Z) :=
  parent_index ← find_subdevice_parent parents;
  let s := set_parent_index parent_index s in
  parents ← (match parent_index with
    | Some parent_idx => assign_port parents parent_idx (sd_index s)
    | None => Ok parents
    end);
  if DcSupport_any (sd_dc_support s) then
    '(s, delay_accum) ← configure_subdevice_offsets s parents delay_accum;
    Ok (parents, s, delay_accum)
  else Ok (parents, s, delay_accum).

Fixpoint assign_loop (parents rest : list SubDevice) (delay_accum : Z) : res Error (list SubDevice) :=
  match rest with
  | [] => Ok parents
  | s :: rest =>
      '(parents, s, delay_accum) ← assign_step parents s delay_accum;
      assign_loop (parents ++ [s]) rest delay_accum
  end.

Definition assign_parent_relationships (subdevices : list SubDevice) : res Error (list SubDevice) :=
  assign_loop [] subdevices 0.

(** *** On the bus *)

Context {W : Type} `{!Bus W}.

Definition has_dc (s : SubDevice) : bool := DcSupport_any (sd_dc_support s).

(** The receive times of one SubDevice. *)
Definition read_dc_times (s : SubDevice) : St W Error SubDevice :=
  dc_receive_time ← receive u64_read
    (read_ignore_wkc (reg_read (sd_configured_address s) R_DcReceiveTime));
  times ← receive (array_read 4 u32_read) (reg_read (sd_configured_address s) R_DcTimePort0);
  match times with
  | [time_p0; time_p1; time_p2; time_p3] =>
      mret (set_ports (set_receive_times (sd_ports s) time_p0 time_p3 time_p1 time_p2)
        (set_dc_receive_time dc_receive_time s))
  | _ => lift Panic
  end.

(** Errors end the loop: the SubDevices read so far keep their times, which
    nobody reads after an error. *)
Fixpoint read_all_dc_times (l : list SubDevice) : St W Error (list SubDevice) :=
  match l with
  | [] => mret []
  | s :: l =>
      s ← (if has_dc s then read_dc_times s else mret s);
      l ← read_all_dc_times l;
      mret (s :: l)
  end.

Definition latch_dc_times (subdevices : list SubDevice) : St W Error (list SubDevice) :=
  let num_subdevices_with_dc := length (List.filter has_dc subdevices) in
  _ ← send u32_write
    (write_with_wkc (bwr (register_u16 R_DcTimePort0)) (wrap 16 (Z.of_nat num_subdevices_with_dc))) 0;
  read_all_dc_times subdevices.

Definition write_dc_parameters (s : SubDevice) (now_nanos : Z) : St W Error unit :=
  neg ← lift (ineg 64 (to_signed 64 (sd_dc_receive_time s)));
  system_time_offset ← lift (iadd 64 neg (to_signed 64 now_nanos));
  _ ← send i64_write
    (write_ignore_wkc (reg_write (sd_configured_address s) R_DcSystemTimeOffset)) system_time_offset;
  send u32_write
    (write_ignore_wkc (reg_write (sd_configured_address s) R_DcSystemTimeTransmissionDelay))
    (sd_propagation_delay s).

Fixpoint write_all_dc_parameters (l : list SubDevice) (now_nanos : Z) : St W Error unit :=
  match l with
  | [] => mret tt
  | s :: l =>
      _ ← (if has_dc s then write_dc_parameters s now_nanos else mret tt);
      write_all_dc_parameters l now_nanos
  end.

(** The SubDevices, and the first one with a clock; [now] is what the closure
    returns. *)
Definition configure_dc (subdevices : list SubDevice) (now : Z)
    : St W Error (list SubDevice * option SubDevice) :=
  subdevices ← latch_dc_times subdevices;
  subdevices ← lift (assign_parent_relationships subdevices);
  let first_dc_subdevice := List.find has_dc subdevices in
  _ ← (match first_dc_subdevice with
    | Some _ => write_all_dc_parameters subdevices now
    | None => mret tt
    end);
  mret (subdevices, first_dc_subdevice).

Fixpoint run_dc_static_sync (dc_reference_subdevice : SubDevice) (iterations : nat) : St W Error unit :=
  match iterations with
  | O => mret tt
  | S iterations =>
      _ ← receive_wkc 8 (frmw (sd_configured_address dc_reference_subdevice) (register_u16 R_DcSystemTime));
      run_dc_static_sync dc_reference_subdevice iterations
  end.

End Delays.
