(* ===== verification/Topology.v ===== *)
(** * What the discovery of the topology promises

    The SubDevices are found in the order in which frames pass them.  A
    [network] is the wiring behind such a list: a spine of couplers, each with
    branches that are chains.  [placed] says that [assign_parent_relationships]
    has found that wiring, and the theorems about delays follow the same list. *)
From S2P Require Import Prelude Wire EscTypes PduTypes Errors Bus Ports SubDevice Dc.

(** ** Definitions *)

(** Ports as [Ports::new] and [set_receive_times] leave them, with the
    MainDevice on port 0: it is open and the first to see a frame. *)
Definition good_ports (ps : Ports) : Prop :=
  match ps with
  | [p0; p1; p2; p3] =>
      number p0 = Port0 /\ number p1 = Port3 /\ number p2 = Port1 /\ number p3 = Port2 /\
      active p0 = true /\ downstream_to p0 = None /\
      Forall (fun p => active p = true -> dc_receive_time p0 <= dc_receive_time p) [p1; p2; p3] /\
      Forall (fun p => in_u 32 (dc_receive_time p)) ps
  | _ => False
  end.

(** What is connected to the open ports but the entry port. *)
Definition slots (ps : Ports) : list (option Z) := downstream_to <$> tail (active_ports ps).

(** Ports without what is connected to them. *)
Definition bare (ps : Ports) : Ports :=
  (fun p => mkPort (active p) (dc_receive_time p) (number p) None) <$> ps.

(** A SubDevice with [n] open ports besides its entry port, none assigned yet. *)
Definition unassigned (n : nat) (s : SubDevice) : Prop :=
  good_ports (sd_ports s) /\ slots (sd_ports s) = replicate n None.

(** The devices on the branches of a coupler are chained; its last open port
    leads on. *)
Inductive network :=
| End (s : SubDevice)
| Coupler (s : SubDevice) (branches : list (list SubDevice)) (next : network).

Definition net_head (n : network) : SubDevice := match n with End s => s | Coupler s _ _ => s end.

(** The order in which frames pass the devices. *)
Fixpoint devices (n : network) : list SubDevice :=
  match n with
  | End s => [s]
  | Coupler s branches next => s :: concat branches ++ devices next
  end.

Fixpoint chain_wired (c : list SubDevice) : Prop :=
  match c with
  | [] => False
  | [s] => unassigned 0 s
  | s :: c => unassigned 1 s /\ chain_wired c
  end.

Fixpoint wired (n : network) : Prop :=
  match n with
  | End s => unassigned 0 s
  | Coupler s branches next =>
      unassigned (length branches + 1) s /\ Forall chain_wired branches /\ wired next
  end.

(** The place of a device: its parent and what is on its ports. *)
Definition place := (SubDevice * option Z * list Z)%type.

Fixpoint chain_places (parent : option Z) (c : list SubDevice) : list place :=
  match c with
  | [] => []
  | s :: c =>
      (s, parent, match c with [] => [] | s' :: _ => [sd_index s'] end) ::
      chain_places (Some (sd_index s)) c
  end.

Definition chain_heads (branches : list (list SubDevice)) : list Z :=
  c ← branches; match c with [] => [] | s :: _ => [sd_index s] end.

Fixpoint places (parent : option Z) (n : network) : list place :=
  match n with
  | End s => [(s, parent, [])]
  | Coupler s branches next =>
      (s, parent, chain_heads branches ++ [sd_index (net_head next)]) ::
      (branches ≫= chain_places (Some (sd_index s))) ++ places (Some (sd_index s)) next
  end.

(** A device that has found its place; nothing else of its ports has changed. *)
Definition placed (s' : SubDevice) (p : place) : Prop :=
  let '(s, parent, downs) := p in
  sd_index s' = sd_index s /\ sd_parent_index s' = parent /\
  sd_configured_address s' = sd_configured_address s /\ sd_dc_support s' = sd_dc_support s /\
  bare (sd_ports s') = bare (sd_ports s) /\ slots (sd_ports s') = Some <$> downs.

(** The time a frame takes from the entry port of a device back to it, as the
    latched receive times say. *)
Definition total_time (s : SubDevice) : Z := default 0 (total_propagation_time (sd_ports s)).

Definition sumZ (l : list Z) : Z := foldr Z.add 0 l.

(** The receive times of a line of devices whose links have the delays [ds]: from
    each device a frame goes to the end of the line and back. *)
Fixpoint line_times (c : list SubDevice) (ds : list Z) : Prop :=
  match c, ds with
  | [s], [] => total_time s = 0
  | s :: c, d :: ds => 0 <= d /\ total_time s = 2 * sumZ (d :: ds) /\ line_times c ds
  | _, _ => False
  end.

(** ** Lemmas *)

(** *** Ports *)

Lemma bare_idemp ps : bare (bare ps) = bare ps.
Proof. unfold bare. rewrite <- list_fmap_compose. done. Qed.

Lemma active_bare ps : active_ports (bare ps) = bare (active_ports ps).
Proof.
  unfold active_ports, bare. induction ps as [|[a t n d] ps IH]; [done|].
  rewrite fmap_cons, !filter_cons. cbn [active dc_receive_time number].
  destruct (decide (a = true)); [rewrite fmap_cons|]; by rewrite IH.
Qed.

Lemma open_ports_bare ps : open_ports (bare ps) = open_ports ps.
Proof. unfold open_ports. rewrite active_bare. unfold bare. by rewrite length_fmap. Qed.

Lemma topology_bare {E} ps ps' : bare ps = bare ps' -> topology (E:=E) ps = topology ps'.
Proof. intros H. unfold topology. by rewrite <- (open_ports_bare ps), H, open_ports_bare. Qed.

Lemma times_bare ps : dc_receive_time <$> active_ports (bare ps) = dc_receive_time <$> active_ports ps.
Proof. rewrite active_bare. unfold bare. by rewrite <- list_fmap_compose. Qed.

Lemma total_time_bare ps ps' :
  bare ps = bare ps' -> total_propagation_time ps = total_propagation_time ps'.
Proof. intros H. unfold total_propagation_time. by rewrite <- times_bare, H, times_bare. Qed.

Lemma good_ports_open ps : good_ports ps -> open_ports ps = Z.of_nat (S (length (slots ps))).
Proof.
  unfold good_ports, slots. destruct ps as [|p0 [|p1 [|p2 [|p3 [|]]]]]; try done.
  intros (_ & _ & _ & _ & H0 & _). unfold open_ports. rewrite length_fmap.
  destruct p0 as [[] ? ? ?]; [|done]. destruct p1 as [[] ? ? ?], p2 as [[] ? ? ?], p3 as [[] ? ? ?]; done.
Qed.

Lemma min_by_key_In {A} (key : A -> Z) l y : min_by_key key l = Some y -> y ∈ l.
Proof.
  revert y. induction l as [|x l IH]; intros y; cbn; [done|].
  destruct (min_by_key key l) as [z|]; [destruct (_ <=? _)|]; intros [= <-]; try left.
  right. by apply IH.
Qed.

Lemma min_by_key_head {A} (key : A -> Z) x l :
  Forall (fun y => key x <= key y) l -> min_by_key key (x :: l) = Some x.
Proof.
  intros H. cbn. destruct (min_by_key key l) as [y|] eqn:Hy; [|done].
  apply min_by_key_In in Hy. rewrite Forall_forall in H. apply H in Hy. by rewrite (proj2 (Z.leb_le _ _)).
Qed.

Lemma good_ports_cons ps :
  good_ports ps -> exists p0 ps', ps = p0 :: ps' /\ active_ports ps = p0 :: active_ports ps' /\
    number p0 = Port0 /\ active p0 = true /\ downstream_to p0 = None /\
    Forall (fun p => dc_receive_time p0 <= dc_receive_time p) (active_ports ps').
Proof.
  unfold good_ports. destruct ps as [|p0 [|p1 [|p2 [|p3 [|]]]]]; try done.
  intros (Hn & _ & _ & _ & Ha & Hd & Ht & _). exists p0, [p1; p2; p3]. split_and!; try done.
  - unfold active_ports. by rewrite filter_cons, decide_True.
  - unfold active_ports. apply Forall_forall. intros p [Hp Hin]%list_elem_of_filter.
    rewrite Forall_forall in Ht. by apply Ht.
Qed.

(** The entry port is port 0. *)
Lemma good_entry {E} ps :
  good_ports ps -> exists p0, entry_port (E:=E) ps = Ok p0 /\ number p0 = Port0.
Proof.
  intros (p0 & ps' & -> & Hact & Hn & _ & _ & Ht)%good_ports_cons. exists p0. split; [|done].
  unfold entry_port. by rewrite Hact, min_by_key_head.
Qed.

Lemma good_ports_update ps i p d :
  good_ports ps -> ps !! i = Some p -> i <> 0%nat -> good_ports (<[i := set_downstream d p]> ps).
Proof.
  unfold good_ports. destruct ps as [|p0 [|p1 [|p2 [|p3 [|]]]]]; try done.
  intros (? & ? & ? & ? & ? & ? & Ht & Hu) Hp Hi.
  repeat match goal with H : Forall _ (_ :: _) |- _ => apply Forall_cons in H as [? H] end.
  destruct i as [|[|[|[|i]]]]; [done|..|done]; injection Hp as [= <-];
    cbn [list_insert insert]; rewrite !Forall_cons; split_and!; try done; constructor.
Qed.

Lemma bare_update ps i p d :
  ps !! i = Some p -> bare (<[i := set_downstream d p]> ps) = bare ps.
Proof.
  intros Hp. unfold bare. rewrite list_fmap_insert. apply list_insert_id.
  by rewrite list_lookup_fmap, Hp.
Qed.

(** The next device goes to the first open port without one, behind port 0. *)
Lemma assign_next {E} ps as_ k d :
  good_ports ps -> slots ps = (Some <$> as_) ++ replicate (S k) None ->
  exists ps' n, assign_next_downstream_port (E:=E) ps d = Ok (Some (ps', n)) /\ good_ports ps' /\
    bare ps' = bare ps /\ slots ps' = (Some <$> (as_ ++ [d])) ++ replicate k None.
Proof.
  intros Hg Hs. destruct (good_entry (E:=E) ps Hg) as (p & Hentry & Hp).
  unfold assign_next_downstream_port. rewrite Hentry. cbn [mbind res_bind res_bind_def]. clear Hentry.
  assert (exists i q, next_assignable_port ps p = Some i /\ ps !! i = Some q /\ i <> 0%nat /\
    slots (<[i := set_downstream d q]> ps) = (Some <$> (as_ ++ [d])) ++ replicate k None)
    as (i & q & -> & Hq & Hi & Hslots).
  2: { rewrite Hq. eexists _, _. split; [done|]. by auto using good_ports_update, bare_update. }
  unfold next_assignable_port.
  assert (port_index p = 0%nat) as -> by (unfold port_index; by rewrite Hp). clear Hp p.
  unfold good_ports in *. destruct ps as [|p0 [|p1 [|p2 [|p3 [|]]]]]; try done.
  destruct p0 as [a0 t0 n0 d0], p1 as [a1 t1 n1 d1], p2 as [a2 t2 n2 d2], p3 as [a3 t3 n3 d3].
  cbn [number active downstream_to] in Hg. destruct Hg as (-> & -> & -> & -> & -> & -> & _).
  destruct a1, a2, a3; destruct as_ as [|x1 [|x2 [|x3 [|x4 as_]]]], k as [|[|[|k]]];
    lazy in Hs; simplify_eq;
    (eexists _, _; split; [reflexivity|]; split; [reflexivity|]; split; [done|]; reflexivity).
Qed.

(** When no port is left the entry port is taken. *)
Lemma assign_full {E} ps as_ d :
  good_ports ps -> slots ps = Some <$> as_ ->
  exists p0 ps', ps = p0 :: ps' /\
    assign_next_downstream_port (E:=E) ps d = Ok (Some (set_downstream d p0 :: ps', Port0)).
Proof.
  intros Hg Hs. destruct (good_entry (E:=E) ps Hg) as (p & Hentry & Hp).
  unfold assign_next_downstream_port. rewrite Hentry. cbn [mbind res_bind res_bind_def]. clear Hentry.
  unfold next_assignable_port.
  assert (port_index p = 0%nat) as -> by (unfold port_index; by rewrite Hp). clear Hp p.
  unfold good_ports in *. destruct ps as [|p0 [|p1 [|p2 [|p3 [|]]]]]; try done.
  destruct p0 as [a0 t0 n0 d0], p1 as [a1 t1 n1 d1], p2 as [a2 t2 n2 d2], p3 as [a3 t3 n3 d3].
  cbn [number active downstream_to] in Hg. destruct Hg as (-> & -> & -> & -> & -> & -> & _).
  eexists _, _. split; [done|].
  destruct a1, a2, a3; destruct as_ as [|x1 [|x2 [|x3 [|x4 as_]]]];
    lazy in Hs; simplify_eq; reflexivity.
Qed.

Lemma port_assigned_found ps d :
  Some d ∈ slots ps -> exists p, port_assigned_to ps d = Some p /\ p ∈ active_ports ps.
Proof.
  unfold slots, port_assigned_to. intros (p & Hd & Hp)%list_elem_of_fmap.
  assert (p ∈ active_ports ps) as Hin by (destruct (active_ports ps); [done|by right]).
  destruct (List.find _ _) as [q|] eqn:Hf.
  - exists q. split; [done|]. apply List.find_some in Hf as [Hq _]. by apply list_elem_of_In.
  - apply (List.find_none _ _) with p in Hf; [|by apply list_elem_of_In].
    by apply bool_decide_eq_false in Hf.
Qed.

(** The sum over the first two gaps telescopes: it does not overflow. *)
Lemma intermediate_ok {P : Profile} {E} ps p :
  good_ports ps -> (port_index p <= 2)%nat ->
  exists z, intermediate_propagation_time_to (E:=E) ps p = Ok z.
Proof.
  unfold good_ports. destruct ps as [|p0 [|p1 [|p2 [|p3 [|]]]]]; try done.
  intros (H0 & H1 & H2 & H3 & Ha & _ & Ht & Hu) Hp.
  unfold intermediate_propagation_time_to. cbn [windows2 foldl]. unfold port_index at 2 4 6. rewrite H0, H1, H2.
  rewrite (proj2 (Nat.leb_le (port_index p) 2)) by done.
  repeat match goal with H : Forall _ (_ :: _) |- _ => apply Forall_cons in H as [? H] end.
  unfold in_u in *. change (2 ^ 32) with 4294967296 in *.
  set (c0 := if Nat.leb (port_index p) 0 then 0 else _).
  set (c1 := if Nat.leb (port_index p) 1 then 0 else _).
  assert (0 <= c0 /\ 0 <= c1 /\ c0 + c1 < 4294967296) as (Hc0 & Hc1 & Hc).
  { unfold c0, c1. rewrite Ha. unfold sat_sub. destruct (Nat.leb _ 0), (Nat.leb _ 1), (active p1), (active p2); cbn; lia. }
  exists (c0 + c1). unfold mbind, res_bind, res_bind_def, uadd.
  rewrite (checked_ok 32 (0 + c0)), (checked_ok 32 (0 + c0 + c1)), checked_ok;
    [f_equal; lia|split; [lia|change (2 ^ 32) with 4294967296; lia]..].
Qed.

(** A port that is not the last open one is not port 2. *)
Lemma not_last_index ps p :
  good_ports ps -> p ∈ active_ports ps -> is_last_port ps p = false -> (port_index p <= 2)%nat.
Proof.
  unfold good_ports. destruct ps as [|p0 [|p1 [|p2 [|p3 [|]]]]]; try done.
  intros (H0 & H1 & H2 & H3 & _) [Hact Hin]%list_elem_of_filter Hl.
  repeat (apply elem_of_cons in Hin as [->|Hin]); [..|by apply elem_of_nil in Hin];
    unfold port_index; rewrite ?H0, ?H1, ?H2; [lia..|].
  exfalso. apply bool_decide_eq_false in Hl. apply Hl. unfold last_port, active_ports.
  change [p0; p1; p2; p3] with ([p0; p1; p2] ++ [p3]).
  rewrite filter_app, (filter_cons_True _ p3) by done. rewrite filter_nil. apply last_snoc.
Qed.

Section Delay.
Context {P : Profile}.

(** Every delay can be computed. *)
Lemma delay_total s parent d :
  good_ports (sd_ports parent) -> (1 <= length (slots (sd_ports parent)) <= 3)%nat ->
  Some (sd_index s) ∈ slots (sd_ports parent) ->
  exists pp delay, port_assigned_to (sd_ports parent) (sd_index s) = Some pp /\
    propagation_delay_from s parent pp d = Ok delay.
Proof.
  intros Hg Hl Hin. destruct (port_assigned_found _ _ Hin) as (pp & Hpp & Hact).
  exists pp. unfold propagation_delay_from, is_child_of. rewrite Hpp.
  pose proof (good_ports_open _ Hg) as Ho. unfold topology. rewrite Ho.
  assert (length (slots (sd_ports parent)) = 1 \/ length (slots (sd_ports parent)) = 2 \/
    length (slots (sd_ports parent)) = 3)%nat as [->|[->| ->]] by lia; cbn.
  - by eexists.
  - destruct (is_last_port _ _); cbn; [by eexists|].
    destruct (good_entry (E:=Error) _ Hg) as (p0 & Hp0 & _). unfold propagation_time_to. rewrite Hp0. by eexists.
  - destruct (is_last_port _ _) eqn:Hlast; cbn; [by eexists|].
    destruct (intermediate_ok (E:=Error) _ pp Hg (not_last_index _ _ Hg Hact Hlast)) as [z ->]. by eexists.
Qed.

(** *** Finding a parent *)

Lemma slots_length ps : good_ports ps -> (length (slots ps) <= 3)%nat.
Proof.
  intros Hg. unfold good_ports in Hg. destruct ps as [|p0 [|p1 [|p2 [|p3 [|]]]]]; try done.
  unfold slots. rewrite length_fmap. unfold active_ports.
  destruct p0 as [[] ? ? ?], p1 as [[] ? ? ?], p2 as [[] ? ? ?], p3 as [[] ? ? ?]; vm_compute; lia.
Qed.

Lemma topology_good {E} ps :
  good_ports ps -> topology (E:=E) ps = match length (slots ps) with
    | 0%nat => Ok LineEnd | 1%nat => Ok Passthrough | 2%nat => Ok Fork | _ => Ok Cross end.
Proof.
  intros Hg. unfold topology. rewrite (good_ports_open _ Hg).
  pose proof (slots_length _ Hg) as Hl.
  by destruct (length (slots ps)) as [|[|[|[|n]]]]; [..|lia].
Qed.

(** A device with at most one open port besides the entry port. *)
Definition simple (s : SubDevice) : Prop :=
  good_ports (sd_ports s) /\ (length (slots (sd_ports s)) <= 1)%nat.

(** The devices found so far when the next one belongs to [par]: [side] are the
    chains found since. *)
Record waits (pre : list SubDevice) (par : SubDevice) (side : list SubDevice) : Prop := {
  w_good : good_ports (sd_ports par);
  w_side : Forall simple side;
  w_next : side = [] /\ (1 <= length (slots (sd_ports par)))%nat \/
    (2 <= length (slots (sd_ports par)))%nat /\
      exists side' l, side = side' ++ [l] /\ slots (sd_ports l) = [];
  w_index : sd_index par ∉ sd_index <$> pre;
}.

Lemma find_junction_skip l par rest :
  Forall simple l -> find_junction (E:=Error) (l ++ par :: rest) = find_junction (par :: rest).
Proof.
  induction 1 as [|s l [Hg Hs] _ IH]; [done|]. cbn [app find_junction].
  rewrite (topology_good _ Hg). by destruct (length (slots (sd_ports s))) as [|[|n]]; [..|lia].
Qed.

Lemma find_parent_waits pre par side :
  waits pre par side -> find_subdevice_parent (pre ++ par :: side) = Ok (Some (sd_index par)).
Proof.
  intros [Hg Hside [[-> Hl]|(Hl & side' & l & -> & Hlast)] _]; unfold find_subdevice_parent;
    rewrite rev_app_distr; cbn [rev app].
  - rewrite (topology_good _ Hg). by destruct (length (slots (sd_ports par))) as [|[|[|n]]]; [lia|..].
  - apply Forall_app in Hside as [Hside Hl']. apply Forall_cons in Hl' as [[Hlg _] _].
    rewrite rev_app_distr, <- !app_assoc. cbn [rev app].
    rewrite (topology_good _ Hlg), Hlast. cbn [length mbind res_bind res_bind_def].
    rewrite decide_True by done. rewrite find_junction_skip by (by apply Forall_rev).
    cbn [find_junction]. rewrite (topology_good _ Hg).
    by destruct (length (slots (sd_ports par))) as [|[|[|n]]]; [lia|lia|..].
Qed.

(** The port is given to the only device with that index. *)
Lemma assign_port_ok pre par side d ps' n :
  sd_index par ∉ sd_index <$> pre -> d <> 0 ->
  assign_next_downstream_port (E:=Error) (sd_ports par) d = Ok (Some (ps', n)) ->
  assign_port (pre ++ par :: side) (sd_index par) d = Ok (pre ++ set_ports ps' par :: side).
Proof.
  intros Hpre Hd Ha. unfold assign_port. rewrite (list_find_first _ _ (length pre) par).
  - cbn [mbind res_bind res_bind_def unwrap]. rewrite (proj2 (Z.eqb_neq _ _)), Ha by done.
    cbn [mbind res_bind res_bind_def unwrap]. by rewrite insert_app_r_alt, Nat.sub_diag by done.
  - by rewrite lookup_app_r, Nat.sub_diag by done.
  - done.
  - intros j y Hj Hy Heq. rewrite lookup_app_l in Hy by done. apply Hpre.
    rewrite <- Heq. apply list_elem_of_fmap_2. by apply list_elem_of_lookup_2 in Hy.
Qed.

Lemma find_app_skip (l : list SubDevice) i (s : SubDevice) rest :
  i ∉ sd_index <$> l -> sd_index s = i -> List.find (fun p => sd_index p =? i) (l ++ s :: rest) = Some s.
Proof.
  intros Hi <-. induction l as [|x l IH]; cbn; [by rewrite Z.eqb_refl|].
  rewrite fmap_cons, not_elem_of_cons in Hi. destruct Hi as [Hx Hi].
  rewrite (proj2 (Z.eqb_neq _ _)) by congruence. by apply IH.
Qed.

Lemma configure_ok pre par side s d :
  sd_parent_index s = Some (sd_index par) -> sd_index par ∉ sd_index <$> pre ->
  good_ports (sd_ports par) -> (1 <= length (slots (sd_ports par)) <= 3)%nat ->
  Some (sd_index s) ∈ slots (sd_ports par) -> good_ports (sd_ports s) ->
  exists delay, configure_subdevice_offsets s (pre ++ par :: side) d =
      Ok (set_propagation_delay (sat_add 32 d delay) s, sat_add 32 d delay) /\
    (length (slots (sd_ports par)) = 1%nat -> delay = sat_sub (total_time par) (total_time s) / 2).
Proof.
  intros Hp Hpre Hg Hl Hin Hgs. destruct (delay_total s par d Hg Hl Hin) as (pp & delay & Hpp & Hd).
  exists delay. split.
  - unfold configure_subdevice_offsets. rewrite Hp. cbn [mbind option_bind].
    rewrite (find_app_skip pre (sd_index par) par), Hpp by done. cbn [unwrap mbind res_bind res_bind_def].
    destruct (good_entry (E:=Error) _ Hgs) as (p0 & -> & _). cbn [mbind res_bind res_bind_def]. by rewrite Hd.
  - intros H1. unfold propagation_delay_from in Hd. rewrite (topology_good _ Hg), H1 in Hd. by injection Hd as [= <-].
Qed.

(** One turn of the loop attaches the next device to the parent that waits. *)
Lemma attach_step pre par side s d as_ k :
  waits pre par side -> slots (sd_ports par) = (Some <$> as_) ++ replicate (S k) None ->
  sd_index s <> 0 -> good_ports (sd_ports s) ->
  exists ps' s' d', assign_step (pre ++ par :: side) s d = Ok (pre ++ set_ports ps' par :: side, s', d') /\
    (good_ports ps' /\ bare ps' = bare (sd_ports par) /\
      slots ps' = (Some <$> (as_ ++ [sd_index s])) ++ replicate k None) /\
    (exists pd, s' = set_propagation_delay pd (set_parent_index (Some (sd_index par)) s)) /\
    (has_dc s = true -> sd_propagation_delay s' = d' /\
      (length (slots (sd_ports par)) = 1%nat ->
        d' = sat_add 32 d (sat_sub (total_time par) (total_time s) / 2))).
Proof.
  intros Hw Hslots Hidx Hgs. pose proof (w_good _ _ _ Hw) as Hg.
  destruct (assign_next (E:=Error) _ _ _ (sd_index s) Hg Hslots) as (ps' & n & Ha & Hg' & Hb & Hs').
  assert (length (slots (sd_ports par)) = length (slots ps')) as Hlen.
  { rewrite Hslots, Hs', !length_app, !length_fmap, !length_replicate, length_app. cbn. lia. }
  pose proof (slots_length _ Hg) as Hl3.
  set (s0 := set_parent_index (Some (sd_index par)) s).
  destruct (configure_ok pre (set_ports ps' par) side s0 d) as (delay & Hconf & Hdelay).
  { done. } { apply Hw. } { done. }
  { change (sd_ports (set_ports ps' par)) with ps'. rewrite <- Hlen. split; [|done].
    rewrite Hslots, length_app, length_replicate. lia. }
  { change (sd_ports (set_ports ps' par)) with ps'. rewrite Hs', fmap_app, !elem_of_app. left. right. by left. }
  { done. }
  exists ps'. unfold assign_step. rewrite (find_parent_waits _ _ _ Hw). cbn [mbind res_bind res_bind_def].
  fold s0. change (sd_index s0) with (sd_index s). rewrite (assign_port_ok _ _ _ _ ps' n (w_index _ _ _ Hw)) by done.
  cbn [mbind res_bind res_bind_def]. change (sd_dc_support s0) with (sd_dc_support s). unfold has_dc.
  destruct (DcSupport_any _).
  - rewrite Hconf. eexists _, _. split; [done|]. split_and!; [done..|by eexists|].
    intros _. split; [done|]. intros H1. rewrite Hdelay by (by rewrite <- H1, Hlen).
    change (total_time s0) with (total_time s). unfold total_time at 1.
    change (sd_ports (set_ports ps' par)) with ps'. by rewrite (total_time_bare ps' (sd_ports par)).
  - eexists _, _. split; [done|]. split_and!; [done..| |done]. exists (sd_propagation_delay s). by destruct s.
Qed.

(** *** Chains, branches and couplers *)

(** A device that has just been attached: all its ports are still open. *)
Definition attached (s' s : SubDevice) (parent : option Z) : Prop :=
  sd_index s' = sd_index s /\ sd_parent_index s' = parent /\
  sd_configured_address s' = sd_configured_address s /\ sd_dc_support s' = sd_dc_support s /\
  sd_ports s' = sd_ports s.

Lemma attached_placed s' s parent ps downs :
  attached s' s parent -> bare ps = bare (sd_ports s) -> slots ps = Some <$> downs ->
  placed (set_ports ps s') (s, parent, downs).
Proof. intros (? & ? & ? & ? & ?) Hb Hs. by split_and!. Qed.

Lemma attached_leaf s' s parent :
  attached s' s parent -> slots (sd_ports s) = [] -> placed s' (s, parent, []).
Proof. intros (? & ? & ? & ? & Hp) Hs. unfold placed. by rewrite Hp. Qed.

Lemma attach_next pre par side s d as_ k rest :
  waits pre par side -> slots (sd_ports par) = (Some <$> as_) ++ replicate (S k) None ->
  sd_index s <> 0 -> good_ports (sd_ports s) ->
  exists ps' s' d',
    assign_loop (pre ++ par :: side) (s :: rest) d =
      assign_loop (pre ++ set_ports ps' par :: side ++ [s']) rest d' /\
    (good_ports ps' /\ bare ps' = bare (sd_ports par) /\
      slots ps' = (Some <$> (as_ ++ [sd_index s])) ++ replicate k None) /\
    attached s' s (Some (sd_index par)).
Proof.
  intros Hw Hslots Hidx Hgs.
  destruct (attach_step pre par side s d as_ k Hw Hslots Hidx Hgs) as (ps' & s' & d' & Hst & Hps & [pd ->] & _).
  exists ps', (set_propagation_delay pd (set_parent_index (Some (sd_index par)) s)), d'.
  split; [|split; [done|by split_and!]]. cbn [assign_loop]. rewrite Hst. cbn [mbind res_bind res_bind_def].
  by rewrite <- app_assoc.
Qed.

Lemma chain_places_devices parent c : (fun p => p.1.1) <$> chain_places parent c = c.
Proof. revert parent. induction c as [|s c IH]; intros parent; [done|]. cbn. by rewrite IH. Qed.

Lemma placed_index l ps : Forall2 placed l ps -> sd_index <$> l = (fun p => sd_index p.1.1) <$> ps.
Proof.
  induction 1 as [|s' [[s parent] downs] l ps Hp _ IH]; [done|]. cbn. f_equal; [apply Hp|done].
Qed.

Lemma placed_chain_index l parent c : Forall2 placed l (chain_places parent c) -> sd_index <$> l = sd_index <$> c.
Proof.
  intros H. rewrite (placed_index _ _ H).
  rewrite <- (chain_places_devices parent c) at 2.
  apply (list_fmap_compose (fun p : place => p.1.1) sd_index).
Qed.

(** A chain behind a device with an open port. *)
Lemma chain_ok c : forall pre par side as_ k d rest,
  waits pre par side -> slots (sd_ports par) = (Some <$> as_) ++ replicate (S k) None ->
  chain_wired c -> NoDup (sd_index <$> ((pre ++ par :: side) ++ c)) -> Forall (fun s => sd_index s <> 0) c ->
  exists ps' cs' d',
    assign_loop (pre ++ par :: side) (c ++ rest) d =
      assign_loop (pre ++ set_ports ps' par :: side ++ cs') rest d' /\
    (good_ports ps' /\ bare ps' = bare (sd_ports par) /\
      slots ps' = (Some <$> (as_ ++ chain_heads [c])) ++ replicate k None) /\
    Forall2 placed cs' (chain_places (Some (sd_index par)) c) /\ Forall simple cs' /\
    exists cs l, cs' = cs ++ [l] /\ slots (sd_ports l) = [].
Proof.
  induction c as [|s c IH]; intros pre par side as_ k d rest Hw Hslots Hc Hnd Hnz; [done|].
  apply Forall_cons in Hnz as [Hz Hnz].
  assert (good_ports (sd_ports s)) as Hgs by (destruct c; apply Hc).
  destruct (attach_next pre par side s d as_ k (c ++ rest) Hw Hslots Hz Hgs) as (ps' & s' & d1 & Hst & Hps & Hat).
  pose proof Hat as (Hidx & _ & _ & _ & Hports).
  destruct c as [|s2 c].
  - destruct Hc as [_ Hsl]. cbn in Hsl. exists ps', [s'], d1. split_and!; [exact Hst|apply Hps|apply Hps|apply Hps| | |].
    + constructor; [|constructor]. by apply attached_leaf.
    + constructor; [|constructor]. unfold simple. rewrite Hports, Hsl. split; [done|cbn; lia].
    + exists [], s'. by rewrite Hports.
  - destruct Hc as [[_ Hsl] Hc]. cbn in Hsl.
    assert (waits (pre ++ set_ports ps' par :: side) s' []) as Hw'.
    { constructor; [by rewrite Hports|constructor|left; split; [done|rewrite Hports, Hsl; cbn; lia]|].
      rewrite Hidx. rewrite fmap_app in Hnd. apply NoDup_app in Hnd as (_ & Hnd & _).
      intros Hin. apply (Hnd (sd_index s)); [|by left].
      rewrite fmap_app in Hin |- *. exact Hin. }
    destruct (IH (pre ++ set_ports ps' par :: side) s' [] [] 0%nat d1 rest Hw')
      as (ps2 & cs2 & d2 & Hst2 & (Hg2 & Hb2 & Hs2) & Hpl & Hsim & cs & l & -> & Hl); [|done| |done|].
    { by rewrite Hports, Hsl. }
    { rewrite <- app_assoc. cbn [app]. rewrite !fmap_app, !fmap_cons in Hnd |- *. rewrite Hidx. exact Hnd. }
    exists ps', (set_ports ps2 s' :: cs ++ [l]), d2. split_and!; [|apply Hps|apply Hps|apply Hps| | |].
    + etrans; [exact Hst|]. rewrite <- !app_assoc in Hst2. exact Hst2.
    + cbn [chain_places]. constructor; [|by rewrite <- Hidx].
      apply attached_placed; [done|by rewrite Hb2, Hports|by rewrite Hs2].
    + constructor; [|done]. split; [done|]. change (sd_ports (set_ports ps2 s')) with ps2. rewrite Hs2. cbn. lia.
    + exists (set_ports ps2 s' :: cs), l. done.
Qed.

(** A device may wait for the next one when a chain has been attached behind it. *)
Lemma waits_chain pre par side ps cs :
  waits pre par side -> good_ports ps -> (2 <= length (slots ps))%nat ->
  Forall simple cs -> (exists cs' l, cs = cs' ++ [l] /\ slots (sd_ports l) = []) ->
  waits pre (set_ports ps par) (side ++ cs).
Proof.
  intros [] Hg Hl Hc (cs' & l & -> & Hlast). constructor; [done|by apply Forall_app| |done].
  right. split; [done|]. exists (side ++ cs'), l. by rewrite app_assoc.
Qed.

(** The branches of a coupler, the last open port kept for what comes behind. *)
Lemma branches_ok brs : forall pre par side as_ d rest,
  waits pre par side ->
  slots (sd_ports par) = (Some <$> as_) ++ replicate (length brs + 1) None ->
  Forall chain_wired brs -> NoDup (sd_index <$> ((pre ++ par :: side) ++ concat brs)) ->
  Forall (fun s => sd_index s <> 0) (concat brs) ->
  exists ps' side' d',
    assign_loop (pre ++ par :: side) (concat brs ++ rest) d =
      assign_loop (pre ++ set_ports ps' par :: side ++ side') rest d' /\
    bare ps' = bare (sd_ports par) /\ slots ps' = (Some <$> (as_ ++ chain_heads brs)) ++ [None] /\
    waits pre (set_ports ps' par) (side ++ side') /\
    Forall2 placed side' (brs ≫= chain_places (Some (sd_index par))) /\
    sd_index <$> side' = sd_index <$> concat brs.
Proof.
  induction brs as [|c brs IH]; intros pre par side as_ d rest Hw Hslots Hc Hnd Hnz.
  { exists (sd_ports par), [], d. rewrite !app_nil_r. destruct par. by split_and!. }
  apply Forall_cons in Hc as [Hc Hcs]. cbn [concat] in *. apply Forall_app in Hnz as [Hnz Hnzs].
  destruct (chain_ok c pre par side as_ (length brs + 1) d (concat brs ++ rest) Hw Hslots Hc)
    as (ps1 & cs & d1 & Hst & (Hg1 & Hb1 & Hs1) & Hpl & Hsim & Hlast); [|done|].
  { rewrite app_assoc, fmap_app in Hnd. by apply NoDup_app in Hnd as [? _]. }
  pose proof (placed_chain_index _ _ _ Hpl) as Hci.
  assert (waits pre (set_ports ps1 par) (side ++ cs)) as Hw1.
  { apply waits_chain; try done. rewrite Hs1, length_app, length_fmap, length_app, length_replicate.
    destruct c; [done|]. cbn. lia. }
  destruct (IH pre (set_ports ps1 par) (side ++ cs) (as_ ++ chain_heads [c]) d1 rest Hw1 Hs1 Hcs)
    as (ps2 & side2 & d2 & Hst2 & Hb2 & Hs2 & Hw2 & Hpl2 & Hi2); [|done|].
  { rewrite <- !app_assoc in Hnd |- *. cbn [app] in Hnd |- *. rewrite !fmap_app, !fmap_cons, !fmap_app in Hnd |- *.
    rewrite Hci, <- app_assoc. exact Hnd. }
  exists ps2, (cs ++ side2), d2. split_and!.
  - rewrite <- app_assoc. etrans; [exact Hst|]. rewrite Hst2. by rewrite <- app_assoc.
  - by rewrite Hb2.
  - rewrite Hs2. do 2 f_equal. rewrite <- app_assoc. f_equal. by destruct c.
  - by rewrite app_assoc.
  - by apply Forall2_app.
  - by rewrite !fmap_app, Hci, Hi2.
Qed.

(** What lies behind a device that has just been attached. *)
Lemma network_ok n : forall pre s' parent d,
  wired n -> attached s' (net_head n) parent ->
  NoDup (sd_index <$> (pre ++ devices n)) -> Forall (fun s => sd_index s <> 0) (tail (devices n)) ->
  exists ns, assign_loop (pre ++ [s']) (tail (devices n)) d = Ok (pre ++ ns) /\
    Forall2 placed ns (places parent n).
Proof.
  induction n as [s|s brs next IH]; intros pre s' parent d Hw Hat Hnd Hnz; cbn [net_head devices tail] in *.
  { exists [s']. split; [done|]. constructor; [|done]. apply attached_leaf; [done|apply Hw]. }
  destruct Hw as ([Hgs Hsl] & Hbrs & Hnext). pose proof Hat as (Hidx & _ & _ & _ & Hports).
  assert (devices next = net_head next :: tail (devices next)) as Hdev by by destruct next.
  apply Forall_app in Hnz as [Hnzb Hnzn].
  assert (NoDup (sd_index <$> ((pre ++ s' :: []) ++ concat brs ++ devices next))) as Hnd'.
  { rewrite <- app_assoc. cbn [app]. rewrite !fmap_app, !fmap_cons, !fmap_app in Hnd |- *. by rewrite Hidx. }
  assert (waits pre s' []) as Hwait.
  { constructor; [by rewrite Hports|constructor|left; split; [done|]|].
    - rewrite Hports, Hsl, length_replicate. lia.
    - rewrite Hidx. rewrite fmap_app in Hnd. apply NoDup_app in Hnd as (_ & Hnd & _).
      intros Hin. apply (Hnd _ Hin). by left. }
  destruct (branches_ok brs pre s' [] [] d (devices next) Hwait)
    as (ps1 & side & d1 & Hst & Hb1 & Hs1 & Hw1 & Hpl & Hi); [by rewrite Hports|done| |done|].
  { rewrite app_assoc, fmap_app in Hnd'. by apply NoDup_app in Hnd' as [? _]. }
  rewrite Hdev in Hnzn, Hst. apply Forall_cons in Hnzn as [Hz Hnzn].
  assert (good_ports (sd_ports (net_head next))) as Hgn by (destruct next; apply Hnext).
  destruct (attach_next pre (set_ports ps1 s') side (net_head next) d1 (chain_heads brs) 0
    (tail (devices next)) Hw1 Hs1 Hz Hgn) as (ps2 & t & d2 & Hst2 & (Hg2 & Hb2 & Hs2) & Hat2).
  destruct (IH (pre ++ set_ports ps2 s' :: side) t (Some (sd_index s)) d2 Hnext) as (ns & Hst3 & Hpl3); [|..|done|].
  { by rewrite <- Hidx. }
  { rewrite <- !app_assoc in Hnd' |- *. cbn [app] in Hnd' |- *. rewrite !fmap_app, !fmap_cons, !fmap_app in Hnd' |- *.
    rewrite Hi. exact Hnd'. }
  exists (set_ports ps2 s' :: side ++ ns). split.
  - rewrite Hdev. etrans; [exact Hst|]. etrans; [exact Hst2|]. rewrite <- app_assoc in Hst3. cbn [app] in Hst3.
    etrans; [exact Hst3|]. by rewrite <- app_assoc.
  - cbn [places]. constructor; [|apply Forall2_app; [by rewrite <- Hidx|done]].
    apply attached_placed; [done| |].
    + rewrite Hb2. cbn [set_ports sd_ports]. by rewrite Hb1, Hports.
    + rewrite Hs2. cbn. by rewrite app_nil_r.
Qed.

(** *** Delays on a line *)

Lemma line_times_head s c ds : line_times (s :: c) ds -> total_time s = 2 * sumZ ds /\ 0 <= sumZ ds.
Proof.
  revert s c. induction ds as [|d ds IH]; intros s c H.
  - destruct c; [cbn in *; lia|done].
  - destruct c as [|s2 c]; destruct H as (Hd & Ht & Hl); [done|]. destruct (IH _ _ Hl) as [_ Hs].
    cbn in Ht |- *. fold (sumZ ds) in *. lia.
Qed.

Lemma line_loop c : forall pre s' ds d link,
  c <> [] -> good_ports (sd_ports s') -> slots (sd_ports s') = [None] -> chain_wired c ->
  NoDup (sd_index <$> (pre ++ s' :: c)) -> Forall (fun s => sd_index s <> 0) c -> Forall (fun s => has_dc s = true) c ->
  line_times c ds -> 0 <= link -> total_time s' = 2 * (link + sumZ ds) -> 0 <= d -> d + link + sumZ ds < 2 ^ 32 ->
  exists s2 l, assign_loop (pre ++ [s']) c d = Ok (pre ++ s2 :: l) /\
    sd_propagation_delay s2 = sd_propagation_delay s' /\ length l = length c /\
    forall k s, l !! k = Some s -> sd_propagation_delay s = d + link + sumZ (take k ds).
Proof.
  induction c as [|s c IH]; intros pre s' ds d link _ Hg Hsl Hc Hnd Hnz Hdc Hl H0 Ht Hd Hmax; [done|].
  apply Forall_cons in Hnz as [Hz Hnz], Hdc as [Hdcs Hdc].
  destruct (line_times_head _ _ _ Hl) as [Hts Hsum].
  assert (waits pre s' []) as Hw.
  { constructor; [done|constructor|left; split; [done|rewrite Hsl; cbn; lia]|].
    rewrite fmap_app in Hnd. apply NoDup_app in Hnd as (_ & Hnd & _). intros Hin. apply (Hnd _ Hin). by left. }
  assert (good_ports (sd_ports s)) as Hgs by (destruct c; apply Hc).
  destruct (attach_step pre s' [] s d [] 0 Hw Hsl Hz Hgs) as (ps' & s2 & d' & Hst & _ & [pd ->] & Hdelay).
  destruct (Hdelay Hdcs) as [Hpd Hd']. specialize (Hd' ltac:(by rewrite Hsl)).
  rewrite Ht, Hts in Hd'. replace (sat_sub (2 * (link + sumZ ds)) (2 * sumZ ds) / 2) with link in Hd'
    by (unfold sat_sub; lia).
  unfold sat_add in Hd'. rewrite Z.min_r in Hd' by lia. rewrite Hd' in Hpd, Hst. clear Hd' Hdelay d'.
  cbn [assign_loop]. rewrite Hst. cbn [mbind res_bind res_bind_def].
  set (s2 := set_propagation_delay pd _) in *.
  destruct c as [|s3 c].
  - destruct ds; [|by destruct Hl as (_ & _ & [])]. exists (set_ports ps' s'), [s2].
    split_and!; [by rewrite <- app_assoc|done|done|].
    intros [|k] x; [intros [= <-]; rewrite Hpd; cbn; lia|by destruct k].
  - destruct Hc as [[_ Hsl2] Hc]. destruct ds as [|d1 ds]; [done|]. destruct Hl as (Hd1 & Ht1 & Hl).
    destruct (IH (pre ++ [set_ports ps' s']) s2 ds (d + link) d1) as (x & l & Hrun & Hx & Hlen & Hrest);
      [done|done|done|done| |done|done|done|done| |lia|cbn [sumZ foldr] in *; fold (sumZ ds) in *; lia|].
    { rewrite <- app_assoc. cbn [app]. rewrite !fmap_app, !fmap_cons in Hnd |- *. exact Hnd. }
    { change (total_time s2) with (total_time s). rewrite Ht1. done. }
    exists (set_ports ps' s'), (x :: l). split_and!; [|done|cbn; by rewrite Hlen|].
    + rewrite <- app_assoc in Hrun |- *. cbn [app] in Hrun |- *. by rewrite <- app_assoc in Hrun.
    + intros [|k] y; [intros [= <-]; rewrite Hx, Hpd; cbn; lia|].
      intros Hy. rewrite (Hrest k y Hy). cbn. fold (sumZ (take k ds)). lia.
Qed.

(** The first device has no parent. *)
Lemma first_step s rest :
  assign_parent_relationships (s :: rest) = assign_loop ([] ++ [set_parent_index None s]) rest 0.
Proof.
  unfold assign_parent_relationships. cbn [assign_loop]. unfold assign_step, configure_subdevice_offsets.
  cbn [find_subdevice_parent rev sd_parent_index set_parent_index mbind option_bind res_bind res_bind_def].
  by destruct (DcSupport_any _).
Qed.

(** ** Properties *)

(** C30: On every network whose branches are chains, with the MainDevice on
    port 0 of each device, [assign_parent_relationships] finds the wiring: it
    does not fail or panic, every device gets the index of the device it is
    connected to as its parent, the ports of every device point at the devices
    behind them, in the order of the ports, and nothing else of the ports changes. *)
Theorem assign_parent_relationships_spec n :
  wired n -> NoDup (sd_index <$> devices n) -> Forall (fun s => sd_index s <> 0) (tail (devices n)) ->
  exists l, assign_parent_relationships (devices n) = Ok l /\ Forall2 placed l (places None n).
Proof.
  intros Hw Hnd Hnz. assert (devices n = net_head n :: tail (devices n)) as Hdev by by destruct n.
  destruct (network_ok n [] (set_parent_index None (net_head n)) None 0 Hw) as (l & Hl & Hpl);
    [by split_and!|done..|].
  exists l. split; [|done]. by rewrite Hdev, first_step.
Qed.

(** C31: On a line of devices with distributed clocks, whose receive times say
    that a frame passes the links with delays [ds] on its way out and on its way
    back, every device but the first gets the sum of the delays of the links before
    it as its propagation delay. *)
Theorem line_delays s c ds :
  chain_wired (s :: c) -> NoDup (sd_index <$> s :: c) -> Forall (fun x => sd_index x <> 0) c ->
  Forall (fun x => has_dc x = true) c -> line_times (s :: c) ds -> sumZ ds < 2 ^ 32 ->
  exists l, assign_parent_relationships (s :: c) = Ok l /\ length l = length (s :: c) /\
    forall k x, l !! S k = Some x -> sd_propagation_delay x = sumZ (take (S k) ds).
Proof.
  intros Hc Hnd Hnz Hdc Hl Hmax. destruct c as [|s2 c].
  { exists [set_parent_index None s]. split_and!; [|done|by intros [|k]].
    by rewrite first_step. }
  destruct Hc as [[Hg Hsl] Hc]. destruct ds as [|d ds]; [done|]. destruct Hl as (Hd & Ht & Hl).
  set (s1 := set_parent_index None s).
  destruct (line_loop (s2 :: c) [] s1 ds 0 d) as (x & l & Hrun & _ & Hlen & Hdelay);
    [done..|lia|cbn [sumZ foldr] in Hmax; fold (sumZ ds) in Hmax; lia|].
  exists (x :: l). split_and!.
  - by rewrite first_step.
  - cbn. by rewrite Hlen.
  - intros k y Hy. rewrite (Hdelay k y Hy). cbn. fold (sumZ (take k ds)). lia.
Qed.

(** A fork on a branch of a fork is not found: when both devices behind the
    inner fork [b] have been attached, the next device belongs to the outer one,
    but [b] is taken as its parent again and the entry port of [b], which leads to
    the MainDevice, is given to it. *)
Theorem nested_fork_misplaced a b c d e :
  good_ports (sd_ports b) -> slots (sd_ports b) = [Some (sd_index c); Some (sd_index d)] ->
  unassigned 0 c -> unassigned 0 d -> sd_index a <> sd_index b ->
  find_subdevice_parent [a; b; c; d] = Ok (Some (sd_index b)) /\
  exists p0 ps', sd_ports b = p0 :: ps' /\
    assign_next_downstream_port (E:=Error) (sd_ports b) e = Ok (Some (set_downstream e p0 :: ps', Port0)).
Proof.
  intros Hg Hsl [Hgc Hsc] [Hgd Hsd] Hab. split.
  - apply (find_parent_waits [a] b [c; d]). constructor; [done| | |].
    + repeat constructor; try done; rewrite ?Hsc, ?Hsd; cbn; lia.
    + right. rewrite Hsl. split; [cbn; lia|]. by exists [c], d.
    + cbn. intros H%list_elem_of_singleton. by apply Hab.
  - apply (assign_full _ [sd_index c; sd_index d]); [done|by rewrite Hsl].
Qed.

(** When the MainDevice is on port 1 and the device behind on port 0, the
    device behind is given port 1: the search skips as many open ports as the
    index of the entry port, not its place among the open ones. *)
Theorem entry_port_assigned t0 t1 d :
  t1 < t0 ->
  let ps := [mkPort true t0 Port0 None; mkPort false 0 Port3 None;
             mkPort true t1 Port1 None; mkPort false 0 Port2 None] in
  exists p ps', entry_port (E:=Error) ps = Ok p /\ number p = Port1 /\
    assign_next_downstream_port (E:=Error) ps d = Ok (Some (ps', Port1)).
Proof.
  intros Ht ps. exists (mkPort true t1 Port1 None). 
  assert (entry_port (E:=Error) ps = Ok (mkPort true t1 Port1 None)) as He.
  { unfold entry_port. change (active_ports ps) with [mkPort true t0 Port0 None; mkPort true t1 Port1 None].
    cbn [min_by_key dc_receive_time]. by rewrite (proj2 (Z.leb_gt _ _)). }
  eexists. split_and!; [done|done|]. unfold assign_next_downstream_port. rewrite He. reflexivity.
Qed.

End Delay.

(** *** Witnesses *)

(** Ports with receive times, the first [n + 1] of them open. *)
Definition some_ports (n : nat) (t : Z) : Ports :=
  set_receive_times (Ports_new true (Nat.ltb 0 n) (Nat.ltb 1 n) (Nat.ltb 2 n)) 0 t t t.

Definition device (index : Z) (ps : Ports) : SubDevice :=
  mkSubDevice (0x1000 + index) 0 SubDeviceConfig_default (mkSubDeviceIdentity 0 0 0 0) [] ps DCS_Bits64
    0 index None 0 1 DCSync_Disabled [].

(** A coupler with two terminals on its first port, and two devices behind. *)
Definition sample_network : network :=
  Coupler (device 0 (some_ports 2 800))
    [[device 1 (some_ports 1 200); device 2 (some_ports 0 0)]]
    (Coupler (device 3 (some_ports 1 200)) [] (End (device 4 (some_ports 0 0)))).

Lemma some_ports_good n t : in_u 32 t -> good_ports (some_ports n t).
Proof.
  intros Ht. unfold good_ports. split_and!; try done;
    repeat constructor; cbn; intros; unfold in_u in *; change (2 ^ 32) with 4294967296 in *; lia.
Qed.

Lemma device_unassigned n t i : (n <= 2)%nat -> in_u 32 t -> unassigned n (device i (some_ports n t)).
Proof.
  intros Hn Ht. split; [by apply some_ports_good|]. by destruct n as [|[|[|n]]]; [..|lia].
Qed.

Lemma assign_parent_relationships_spec_witness :
  exists l, assign_parent_relationships (P:=true) (devices sample_network) = Ok l /\
    sd_parent_index <$> l = [None; Some 0; Some 1; Some 0; Some 3] /\
    (slots ∘ sd_ports) <$> l = [[Some 1; Some 3]; [Some 2]; []; [Some 4]; []].
Proof.
  destruct (assign_parent_relationships_spec (P:=true) sample_network) as (l & Hl & Hpl).
  - cbn. split_and!; repeat constructor; try apply device_unassigned; try done; lia.
  - by apply (bool_decide_unpack _).
  - by repeat constructor.
  - exists l. split; [exact Hl|]. clear Hpl. revert Hl. vm_compute. by intros [= <-].
Defined.

(** Links of 70, 30 and 100 ns. *)
Lemma line_delays_witness :
  exists l, assign_parent_relationships (P:=true)
      [device 0 (some_ports 1 400); device 1 (some_ports 1 260); device 2 (some_ports 1 200);
       device 3 (some_ports 0 0)] = Ok l /\
    sd_propagation_delay <$> l = [0; 70; 100; 200].
Proof.
  destruct (line_delays (P:=true) (device 0 (some_ports 1 400)) [device 1 (some_ports 1 260);
    device 2 (some_ports 1 200); device 3 (some_ports 0 0)] [70; 30; 100]) as (l & Hl & _).
  - cbn [chain_wired]. split_and!; apply device_unassigned; try done; lia.
  - by apply (bool_decide_unpack _).
  - by repeat constructor.
  - by repeat constructor.
  - cbn [line_times]. by split_and!.
  - by vm_compute.
  - exists l. split; [exact Hl|]. revert Hl. vm_compute. by intros [= <-].
Defined.

(** A fork behind a fork: device 4 is on the outer one. *)
Definition inner_fork : SubDevice :=
  device 1 [mkPort true 0 Port0 None; mkPort true 300 Port3 (Some 2);
            mkPort true 300 Port1 (Some 3); mkPort false 300 Port2 None].

Lemma nested_fork_misplaced_witness :
  find_subdevice_parent
    [device 0 (some_ports 2 800); inner_fork; device 2 (some_ports 0 0); device 3 (some_ports 0 0)] = Ok (Some 1) /\
  exists p0 ps', sd_ports inner_fork = p0 :: ps' /\
    assign_next_downstream_port (E:=Error) (sd_ports inner_fork) 4 = Ok (Some (set_downstream 4 p0 :: ps', Port0)).
Proof.
  apply (nested_fork_misplaced (device 0 (some_ports 2 800)) inner_fork
    (device 2 (some_ports 0 0)) (device 3 (some_ports 0 0)) 4).
  - cbn. split_and!; repeat constructor; cbn; intros; unfold in_u;
      change (2 ^ 32) with 4294967296; lia.
  - reflexivity.
  - apply device_unassigned; [lia|done].
  - apply device_unassigned; [lia|done].
  - done.
Defined.

Lemma entry_port_assigned_witness :
  let ps := [mkPort true 200 Port0 None; mkPort false 0 Port3 None;
             mkPort true 100 Port1 None; mkPort false 0 Port2 None] in
  exists p ps', entry_port (E:=Error) ps = Ok p /\ number p = Port1 /\
    assign_next_downstream_port (E:=Error) ps 5 = Ok (Some (ps', Port1)).
Proof. apply (entry_port_assigned 200 100 5). lia. Defined.
