(* ===== verification/PduNet.v ===== *)
(** * Frames of several PDUs over the PDU loop

    [PduNet] is what the methods of [MainDevice] and [SubDeviceGroup] that build
    their own frames see of the PDU loop: its storage, and waiting for the response
    to a frame while the TX/RX task and the network run.  [net_bus] is
    [MainDevice::single_pdu] over it, on which everything written against [Bus] runs. *)
From S2P Require Import Prelude Wire Errors PduTypes Bus Frame CreatedFrame TxRx CommandSpec.

(** ** Definitions *)

Class PduNet (W : Type) := {
  pdu_storage : W -> PduStorage;
  set_pdu_storage : PduStorage -> W -> W;
  (** [frame.await]: the slot of the response. *)
  await_frame : ReceiveFrameFut -> St W Error nat;
}.

Section PduNet.
Context {W : Type} `{!PduNet W} {P : Profile}.

Definition on_loop {E A} (m : St PduStorage E A) : St W E A := fun w =>
  let '(r, s) := m (pdu_storage w) in (r, set_pdu_storage s w).

Definition push_into {A} (frame : CreatedFrame) (m : Push A) : St W Error (A * CreatedFrame) :=
  on_loop (push_or_drop frame m).

(** [frame.mark_sendable(..)], [wake_sender()], [frame.await?] *)
Definition send_frame (retries : nat) (frame : CreatedFrame) : St W Error nat :=
  fut ← on_loop (mark_sendable frame TK_Pdu retries);
  _ ← on_loop wake_sender;
  await_frame fut.

Definition received_of (s : PduStorage) (p : ReceivedPdu) : Received :=
  mkReceived (working_counter p) (deref s p) (behind s p).

(** The items of [received.into_pdu_iter()], which are read before the iterator and
    with it the slot is dropped.  There is at most one item for twelve bytes. *)
Definition into_pdus (received : nat) : St W Error (list (res Error Received)) :=
  s ← gets pdu_storage;
  f ← on_loop (frame_at_index received);
  let items := pdu_iter (S (length (pdu_buf f))) received f (Some 0%nat) in
  _ ← on_loop (drop_received received);
  mret (fmap (M:=list) (fun item : res Error ReceivedPdu => received_of s <$> item) items).

(** [single_pdu] *)
Definition net_single_pdu (retries : nat) {T} (command : Command) (w : WireWrite T) (data : T)
    (len_override : option Z) : St W Error Received :=
  '(fut, handle) ← on_loop (single_pdu_send command w data len_override TK_Pdu retries);
  received ← await_frame fut;
  rp ← on_loop (ReceivedFrame_first_pdu received handle);
  s ← gets pdu_storage;
  mret (received_of s rp).

Definition net_bus (retries : nat) : Bus W := {|
  bus_pdu command data len_override := net_single_pdu retries command slice_write data len_override
|}.

(** [pdu_broadcast_zeros]; the response is dropped unread. *)
Definition pdu_broadcast_zeros (retries : nat) (register payload_length : Z) : St W Error unit :=
  '(fut, _) ← on_loop (pdu_broadcast_zeros_send register payload_length TK_Pdu retries);
  received ← await_frame fut;
  on_loop (drop_received received).

End PduNet.
