(* ===== verification/MainDevice.v ===== *)
(** * The MainDevice ([maindevice.rs], [maindevice_config.rs])

    Its configuration and the operations on the whole network: resetting, counting,
    waiting for a state. *)
From S2P Require Import Prelude Wire Derive DeriveEnum EscTypes Crates SiiTypes PduTypes Errors Bus Frame CreatedFrame TxRx PduNet.
Import Struct Enum.

(** ** Definitions *)

Inductive RetryBehaviour := RB_None | RB_Count (n : nat) | RB_Forever.

(** [usize::MAX] *)
Definition USIZE_MAX : Z := 2 ^ 64 - 1.

Definition retry_count (r : RetryBehaviour) : nat :=
  match r with
  | RB_None => 0
  | RB_Count n => n
  | RB_Forever => Z.to_nat USIZE_MAX
  end.

Record MainDeviceConfig := mkMainDeviceConfig {
  dc_static_sync_iterations : Z;
  retry_behaviour : RetryBehaviour;
}.

Definition MainDeviceConfig_default : MainDeviceConfig := mkMainDeviceConfig 10000 RB_None.

(** The PDU loop is the state of the bus, the timeouts are [Timing]. *)
Record MainDevice := mkMainDevice {
  md_num_subdevices : Z;
  md_dc_reference_configured_address : Z;
  md_config : MainDeviceConfig;
}.

Definition MainDevice_new (config : MainDeviceConfig) : MainDevice := mkMainDevice 0 0 config.

Definition num_subdevices (m : MainDevice) : Z := md_num_subdevices m.

(** Zero stands for no reference. *)
Definition dc_ref_address (m : MainDevice) : option Z :=
  if 0 <? md_dc_reference_configured_address m then Some (md_dc_reference_configured_address m) else None.

Definition retries_of (m : MainDevice) : nat := retry_count (retry_behaviour (md_config m)).

Definition BASE_SUBDEVICE_ADDRESS : Z := 0x1000.

Section MainDevice.
Context {W : Type} `{!PduNet W} `{!Bus W} `{!Timing} `{!Crates} {P : Profile} (maindevice : MainDevice).

(** Write zeroes to the memory of every SubDevice. *)
Definition blank_memory (len : nat) (start : Z) : St W Error unit :=
  pdu_broadcast_zeros (retries_of maindevice) start (wrap 16 (Z.of_nat len)).

Definition blank_register (len : nat) (register : RegisterAddress) : St W Error unit :=
  blank_memory len (register_u16 register).

(** [for i in i..] over [n] FMMUs or SyncManagers. *)
Fixpoint blank_all (len : nat) (register : Z -> res Error RegisterAddress) (i : Z) (n : nat)
    : St W Error unit :=
  match n with
  | O => mret tt
  | S n =>
      r ← lift (register i);
      _ ← blank_register len r;
      blank_all len register (i + 1) n
  end.

Definition reset_subdevices : St W Error unit :=
  _ ← send AlControl_write (write_ignore_wkc (bwr (register_u16 R_AlControl))) AlControl_reset;
  _ ← blank_all (PACKED_LEN Fmmu_read) register_fmmu 0 16;
  _ ← blank_all (PACKED_LEN SyncManager_read) register_sync_manager 0 16;
  _ ← blank_register 8 R_DcSystemTime;
  _ ← blank_register 8 R_DcSystemTimeOffset;
  _ ← blank_register 4 R_DcSystemTimeTransmissionDelay;
  _ ← blank_register 4 R_DcSystemTimeDifference;
  _ ← blank_register 1 R_DcSyncActive;
  _ ← blank_register 4 R_DcSyncStartTime;
  _ ← blank_register 4 R_DcSync0CycleTime;
  _ ← blank_register 4 R_DcSync1CycleTime;
  _ ← send u16_write (write_ignore_wkc (bwr (register_u16 R_DcControlLoopParam3))) 0x0c00;
  send u16_write (write_ignore_wkc (bwr (register_u16 R_DcControlLoopParam1))) 0x1000.

(** Every SubDevice increments the working counter. *)
Definition count_subdevices : St W Error Z := receive_wkc 1 (brd (register_u16 R_Type)).

(** The status codes of all SubDevices are read to be logged; errors are not. *)
Fixpoint log_status_codes (subdevice_addr : Z) (n : nat) : St W Error unit :=
  match n with
  | O => mret tt
  | S n =>
      _ ← attempt (receive AlStatusCode_read (read_ignore_wkc (fprd subdevice_addr (register_u16 R_AlStatusCode))));
      log_status_codes (subdevice_addr + 1) n
  end.

(** One look at the state of the network. *)
Definition network_state_step (desired_state : SubDeviceState) : St W Error (unit + unit) :=
  status ← receive AlControl_read
    (read_with_wkc (brd (register_u16 R_AlStatus)) (md_num_subdevices maindevice));
  if al_error status then
    last ← lift (uadd 16 BASE_SUBDEVICE_ADDRESS (num_subdevices maindevice));
    _ ← log_status_codes BASE_SUBDEVICE_ADDRESS (Z.to_nat (last - BASE_SUBDEVICE_ADDRESS));
    fail E_StateTransition
  else if decide (al_state status = desired_state) then mret (inr tt)
  else mret (inl tt).

Definition network_wait_for_state (desired_state : SubDeviceState) : St W Error unit :=
  loop_with_timeout TK_StateTransition (fun _ : unit => network_state_step desired_state) tt.

End MainDevice.

(** [release] and [release_all]: what they leave of the PDU loop. *)
Definition release (s : PduStorage) : PduStorage := reset s.
Definition release_all (s : PduStorage) : PduStorage := with_tx_woken true (reset_all s).
