(* ===== verification/Fieldbus.v ===== *)
(** * What the network promises to the methods that build their own frames

    [Devices] is what the SubDevices together make of a PDU; [Fieldbus] says that a
    frame sent through the PDU loop comes back with each of its PDUs processed by them
    in order.  [frame_roundtrip] is what the methods of a group get from it.
    [looped] is the PDU loop of [TxRx] with the TX/RX task and such a network. *)
From S2P Require Import Prelude Wire Derive DeriveEnum Errors PduTypes PduChain Bus Frame CreatedFrame TxRx Samples Exchange CommandSpec PduNet.

(** ** Definitions *)

(** The SubDevices, in the order of the network: what they make of a command with its
    address and data, and its working counter. *)
Class Devices (D : Type) := {
  dev_pdu : D -> Z -> bytes -> bytes -> bytes * Z * D;
  dev_data d c a b : bytes_ok b -> bytes_ok (dev_pdu d c a b).1.1 /\ length (dev_pdu d c a b).1.1 = length b;
  dev_wkc d c a b : in_u 16 (dev_pdu d c a b).1.2;
}.

Section Serve.
Context {D : Type} `{!Devices D}.

(** A command and the data sent with it. *)
Abbreviation Request := (Command * bytes)%type.

(** What the requests get back. *)
Fixpoint serve (d : D) (reqs : list Request) : list (bytes * Z) * D :=
  match reqs with
  | [] => ([], d)
  | (c, b) :: reqs =>
      let '(r, d) := dev_pdu d (code c) (Command_pack c) b in
      let '(rs, d) := serve d reqs in (r :: rs, d)
  end.

(** A PDU and a frame of PDUs as they come back. *)
Definition answer (d : D) (p : Pdu) : Pdu * D :=
  let '((b, wkc), d) := dev_pdu d (p_code p) (p_raw p) (p_data p) in
  (mkPdu (p_code p) (p_index p) (p_raw p) (p_circulated p) (p_irq p) b wkc, d).

Fixpoint answer_all (d : D) (ps : list Pdu) : list Pdu * D :=
  match ps with
  | [] => ([], d)
  | p :: ps =>
      let '(p, d) := answer d p in
      let '(ps, d) := answer_all d ps in (p :: ps, d)
  end.

(** The PDUs [ps] carry the requests [reqs]. *)
Definition asks (ps : list Pdu) (reqs : list Request) : Prop :=
  Forall2 (fun p r => exists index, p = pushed_pdu r.1 index r.2) ps reqs.

End Serve.

(** The storage [s] is [s0] with the free slot of [cf] allocated and filled with [ps]. *)
Record filling (s0 s : PduStorage) (cf : CreatedFrame) (ps : list Pdu) (f : FrameElement) : Prop := {
  fi_wf : storage_wf s;
  fi_holds : holds s cf ps f;
  fi_free : exists f0, frames s0 !! inner cf = Some f0 /\ status f0 = FS_None;
  fi_others : forall j, j <> inner cf -> frames s !! j = frames s0 !! j;
  fi_len : frame_data_len s = frame_data_len s0;
  fi_exit : exit_flag s = exit_flag s0;
}.

(** The storage once that frame is marked sendable. *)
Definition sending (s : PduStorage) (cf : CreatedFrame) (ps : list Pdu) (f : FrameElement) : PduStorage :=
  with_tx_woken true (with_frame (inner cf) (sendable_frame ps f) s).

(** The slot [i] of [s] after its response has been read. *)
Definition freed (i : nat) (f : FrameElement) (s : PduStorage) : PduStorage :=
  with_frame i (clear_first_pdu (set_state FS_None f)) s.

Class Fieldbus (W D : Type) `{!PduNet W, !Devices D} := {
  fb_devices : W -> D;
  (** Ready for the next frame, of this size. *)
  fb_idle : W -> Prop;
  fb_len : nat;
  fb_get_set w s : pdu_storage (set_pdu_storage s w) = s;
  fb_set_get w : set_pdu_storage (pdu_storage w) w = w;
  fb_devices_set w s : fb_devices (set_pdu_storage s w) = fb_devices w;
  fb_set_set w s s' : set_pdu_storage s (set_pdu_storage s' w) = set_pdu_storage s w;
  fb_storage w : fb_idle w -> storage_wf (pdu_storage w) /\ frame_data_len (pdu_storage w) = fb_len /\
    (fb_len <= MAX_DATA)%nat /\ exists i f, frames (pdu_storage w) !! i = Some f /\ status f = FS_None;
  (** An allocated frame that is given back, and an untouched storage. *)
  fb_drop w s cf f : fb_idle w -> filling (pdu_storage w) s cf [] f ->
    fb_idle (set_pdu_storage (with_frame (inner cf) (set_state FS_None f) s) w);
  (** A frame comes back with the answers to its PDUs. *)
  fb_await w s cf p ps f timeout retries :
    fb_idle w -> filling (pdu_storage w) s cf (p :: ps) f ->
    exists w' f', await_frame (mkFut (Some (inner cf)) timeout retries) (set_pdu_storage (sending s cf (p :: ps) f) w) =
        (Ok (inner cf), w') /\
      frames (pdu_storage w') !! inner cf = Some f' /\ status f' = FS_RxProcessing /\
      pdu_payload_len f' <> 0%nat /\ (pdu_payload_start <= length (ethernet_frame f'))%nat /\
      (exists rest, pdu_buf f' = pdus_bytes (answer_all (fb_devices w) (p :: ps)).1 ++ rest) /\
      fb_idle (set_pdu_storage (freed (inner cf) f' (pdu_storage w')) w') /\
      fb_devices (set_pdu_storage (freed (inner cf) f' (pdu_storage w')) w') = (answer_all (fb_devices w) (p :: ps)).2;
}.

(** ** Lemmas *)

(** *** Requests and their answers *)

Section Answers.
#[local] Set Default Proof Using "Type*".
Context {D : Type} `{!Devices D}.

Lemma answer_spec d p :
  pdu_valid p -> pdu_valid (answer d p).1 /\ pdu_len (answer d p).1 = pdu_len p.
Proof.
  intros [H1 H2 H3 H4 H5 H6 H7]. unfold answer. pose proof (dev_wkc d (p_code p) (p_raw p) (p_data p)) as Hw.
  destruct (dev_data d (p_code p) (p_raw p) (p_data p) H5) as [Hb Hl].
  destruct (dev_pdu _ _ _ _) as [[b wkc] d']. cbn in *. split; [|unfold pdu_len; cbn; by rewrite Hl].
  constructor; cbn; try done. by rewrite Hl.
Qed.

Lemma answer_all_spec d ps :
  Forall pdu_valid ps ->
  Forall pdu_valid (answer_all d ps).1 /\ pdu_len <$> (answer_all d ps).1 = pdu_len <$> ps /\
  p_index <$> (answer_all d ps).1 = p_index <$> ps.
Proof.
  intros Hv. revert d. induction Hv as [|p ps Hp Hv IH]; intros d; [done|]. cbn [answer_all].
  destruct (answer_spec d p Hp) as [H1 H2].
  assert (p_index (answer d p).1 = p_index p) as H3.
  { unfold answer. by destruct (dev_pdu _ _ _ _) as [[b wkc] d']. }
  destruct (answer d p) as [q d1]. specialize (IH d1). destruct (answer_all d1 ps) as [qs d2].
  cbn [fst] in *. destruct IH as (IH1 & IH2 & IH3). rewrite !fmap_cons. split_and!; [by constructor|congruence..].
Qed.

Lemma length_answer_all d ps :
  Forall pdu_valid ps -> length (pdus_bytes (answer_all d ps).1) = length (pdus_bytes ps).
Proof.
  intros Hv. destruct (answer_all_spec d ps Hv) as (H1 & H2 & _). by rewrite !length_pdus_bytes, H2.
Qed.

Lemma answer_all_serve d ps reqs :
  asks ps reqs ->
  (fun p => (p_data p, p_wkc p)) <$> (answer_all d ps).1 = (serve d reqs).1 /\
  (answer_all d ps).2 = (serve d reqs).2.
Proof.
  intros Ha. revert d. induction Ha as [|p [c b] ps reqs [index ->] Ha IH]; intros d; [done|].
  cbn [answer_all serve]. unfold answer. cbn [p_code p_raw p_data pushed_pdu fst snd].
  destruct (dev_pdu d (code c) (Command_pack c) b) as [[b' wkc] d1]. specialize (IH d1).
  destruct (answer_all d1 ps) as [qs d2], (serve d1 reqs) as [rs d3]. destruct IH as [H1 H2].
  split; [|exact H2]. unfold fmap in *. cbn [fst list_fmap p_data p_wkc] in *. by rewrite H1.
Qed.

Lemma serve_app d r1 r2 :
  serve d (r1 ++ r2) = ((serve d r1).1 ++ (serve (serve d r1).2 r2).1, (serve (serve d r1).2 r2).2).
Proof.
  revert d. induction r1 as [|[c b] r1 IH]; intros d; cbn [app serve].
  { cbn [fst snd app]. by destruct (serve d r2). }
  destruct (dev_pdu _ _ _ _) as [r d1]. rewrite IH. by destruct (serve d1 r1).
Qed.

Lemma length_serve d reqs : length (serve d reqs).1 = length reqs.
Proof.
  revert d. induction reqs as [|[c b] reqs IH]; intros d; [done|]. cbn [serve].
  destruct (dev_pdu _ _ _ _) as [r d1]. specialize (IH d1). destruct (serve d1 reqs). cbn in *. by rewrite IH.
Qed.

Lemma serve_lengths d reqs :
  Forall (fun r => bytes_ok r.2) reqs ->
  Forall2 (fun (req : Command * bytes) (rep : bytes * Z) =>
    bytes_ok rep.1 /\ length rep.1 = length req.2 /\ in_u 16 rep.2) reqs (serve d reqs).1.
Proof.
  intros H. revert d. induction H as [|[c b] reqs Hb H IH]; intros d; [constructor|]. cbn [serve].
  destruct (dev_data d (code c) (Command_pack c) b Hb) as [H1 H2].
  pose proof (dev_wkc d (code c) (Command_pack c) b) as H3.
  destruct (dev_pdu _ _ _ _) as [[b' wkc] d1]. specialize (IH d1). destruct (serve d1 reqs). cbn in *.
  by constructor.
Qed.

End Answers.

Lemma asks_app ps reqs ps' reqs' : asks ps reqs -> asks ps' reqs' -> asks (ps ++ ps') (reqs ++ reqs').
Proof. apply Forall2_app. Qed.

Lemma asks_one index c b : asks [pushed_pdu c index b] [(c, b)].
Proof. constructor; [by exists index|constructor]. Qed.

(** *** Filling a frame *)

Lemma alloc_frame_ok s :
  storage_wf s -> (exists i f, frames s !! i = Some f /\ status f = FS_None) ->
  exists cf s' f', alloc_frame s = (Ok cf, s') /\ pdu_count cf = 0 /\ filling s s' cf [] f'.
Proof.
  intros Hs (i & f & Hf & Hst). unfold alloc_frame.
  rewrite (st_step (gets num_frames) _ s (num_frames s) s) by done.
  destruct (alloc_loop_spec (num_frames s * 2) s Hs) as [(k & g & Hk & Hg & Hgst & ->)|[Hall _]].
  - set (x := wrap 8 _). assert (storage_wf (with_frame_idx x s)) as Hs1 by by apply with_frame_idx_wf.
    eexists _, _, _. split_and!; [done|done|].
    pose proof (lookup_slot _ _ _ Hg) as Hlt.
    split; [..|done|done].
    + apply with_frame_wf; [done|]. apply fresh_ok, Hs.
    + by apply (holds_fresh (with_frame_idx x s)).
    + by exists g.
    + intros j Hj. cbn [inner] in *. by rewrite with_frame_lookup_ne.
  - destruct (slot_at_surj s i Hs (lookup_slot _ _ _ Hf)) as (k & Hk & <-). by destruct (Hall k f Hk Hf).
Qed.

(** A push that fits. *)
Lemma filling_push {P : Profile} {T} s0 s cf ps f command (w : WireWrite T) data enc n :
  filling s0 s cf ps f -> (frame_data_len s0 <= MAX_DATA)%nat -> packs w data enc -> (length enc <= n)%nat ->
  (length (pdus_bytes ps) + (n + 12) <= frame_data_len s0 - 16)%nat ->
  exists h s' cf' f', push_bytes command w data n (s, cf) = (Ok h, (s', cf')) /\
    h_alloc_size h = (n + 12)%nat /\ inner cf' = inner cf /\
    filling s0 s' cf' (ps ++ [pushed_pdu command (pdu_idx s) (payload_of enc n)]) f'.
Proof.
  intros [Hs Hh Hfree Hoth Hlen Hx] Hmax Hp Hn Hfit. rewrite <- Hlen in Hmax.
  pose proof (frame_ok_lookup _ _ _ Hs (ho_slot _ _ _ _ Hh)) as Hok.
  assert (length (pdu_buf f) = (frame_data_len s0 - 16)%nat) as Hb.
  { rewrite length_pdu_buf. destruct Hok as [-> _]. by rewrite Hlen. }
  destruct (push_bytes_fits s cf ps f command w data enc n Hs Hmax Hh Hp Hn ltac:(lia)) as (He & Hv & Hl).
  set (p := pushed_pdu _ _ _) in *. set (s1 := with_pdu_idx _ s) in He.
  assert (storage_wf s1) as Hs1 by by apply with_pdu_idx_wf.
  assert (holds s1 cf ps f) as Hh1 by (destruct Hh; by constructor).
  eexists _, _, _, _. split_and!; [exact He|done|done|]. split; [| | | |done|done].
  - apply with_frame_wf; [done|]. by apply pushed_frame_ok.
  - by apply holds_pushed.
  - done.
  - intros j Hj. rewrite with_frame_lookup_ne by done. by apply Hoth.
Qed.

Lemma filling_used s0 s cf ps f :
  filling s0 s cf ps f ->
  frames s !! inner cf = Some f /\ pdu_payload_len f = length (pdus_bytes ps) /\
  length (pdu_buf f) = (frame_data_len s0 - 16)%nat /\ pdu_count cf = Z.of_nat (length ps).
Proof.
  intros [Hs Hh _ _ Hlen _]. pose proof (frame_ok_lookup _ _ _ Hs (ho_slot _ _ _ _ Hh)) as [Hok _].
  split_and!; [apply Hh|apply Hh| |apply Hh]. rewrite length_pdu_buf, Hok, Hlen. done.
Qed.

(** *** A frame and its answer *)

Section Roundtrip.
#[local] Set Default Proof Using "Type*".
Context {W D : Type} `{!PduNet W} `{!Devices D} `{!Fieldbus W D} {P : Profile}.

Lemma on_loop_set {E A} (m : St PduStorage E A) s w r s' :
  m s = (r, s') -> on_loop m (set_pdu_storage s w) = (r, set_pdu_storage s' w).
Proof. intros Hm. unfold on_loop. rewrite fb_get_set, Hm. by rewrite fb_set_set. Qed.

Lemma on_loop_ok {E A} (m : St PduStorage E A) w r s' :
  m (pdu_storage w) = (r, s') -> on_loop m w = (r, set_pdu_storage s' w).
Proof. intros Hm. unfold on_loop. by rewrite Hm. Qed.

(** The next frame. *)
Lemma alloc_ok w :
  fb_idle w -> exists cf s f, on_loop alloc_frame w = (Ok cf, set_pdu_storage s w) /\
    pdu_count cf = 0 /\ filling (pdu_storage w) s cf [] f.
Proof.
  intros Hw. destruct (fb_storage w Hw) as (Hs & _ & _ & Hfree).
  destruct (alloc_frame_ok _ Hs Hfree) as (cf & s & f & Ha & Hc & Hf). exists cf, s, f. split_and!; [|done..].
  by apply on_loop_ok.
Qed.

Lemma push_into_ok {A} (frame : CreatedFrame) (m : Push A) s w a s' frame' :
  m (s, frame) = (Ok a, (s', frame')) ->
  push_into frame m (set_pdu_storage s w) = (Ok (a, frame'), set_pdu_storage s' w).
Proof. intros Hm. apply on_loop_set. unfold push_or_drop, run_push. by rewrite Hm. Qed.

(** An empty frame is given back. *)
Lemma drop_frame_ok w s cf f :
  fb_idle w -> filling (pdu_storage w) s cf [] f ->
  exists w', on_loop (drop_created (E:=Error) cf) (set_pdu_storage s w) = (Ok tt, w') /\
    fb_idle w' /\ fb_devices w' = fb_devices w.
Proof.
  intros Hw Hf. eexists. split_and!; [apply on_loop_set| |].
  - unfold drop_created. apply update_frame_ok, Hf.
  - unfold swap_state. rewrite decide_True by apply Hf. by apply fb_drop.
  - apply fb_devices_set.
Qed.

(** The items of a response. *)
Lemma into_pdus_ok w i f ps rest :
  frames (pdu_storage w) !! i = Some f -> status f = FS_RxProcessing -> pdu_payload_len f <> 0%nat ->
  (pdu_payload_start <= length (ethernet_frame f))%nat -> Forall pdu_valid ps -> (0 < length ps)%nat ->
  pdu_buf f = pdus_bytes ps ++ rest ->
  exists rs, into_pdus i w = (Ok (Ok <$> rs), set_pdu_storage (freed i f (pdu_storage w)) w) /\
    (fun r => (rd_data r, rd_wkc r)) <$> rs = (fun p => (p_data p, p_wkc p)) <$> ps.
Proof.
  intros Hf Hst Hl He Hv Hn Hb. unfold into_pdus.
  rewrite (st_step (gets _) _ w (pdu_storage w) w) by done.
  rewrite (st_step (on_loop _) _ w f w).
  2: { rewrite (on_loop_ok _ w _ _ (frame_at_index_ok _ _ _ Hf)). by rewrite fb_set_get. }
  cbv zeta. rewrite (pdu_iter_ok i f ps rest _ [] Hl Hv Hn); [|rewrite Hb, length_app|done].
  2: { pose proof (pdus_fit ps (length (pdus_bytes ps)) Hv). lia. }
  rewrite (st_step _ _ _ _ _ (on_loop_ok _ w _ _ (drop_received_ok i _ f Hf Hst))).
  exists (received_of (pdu_storage w) <$> pdu_refs i 0 ps). split.
  - rewrite <- !list_fmap_compose. done.
  - pose proof (deref_refs (pdu_storage w) i f ps rest [] Hf Hv He Hb) as Hd. cbn [length] in Hd.
    assert (working_counter <$> pdu_refs i 0 ps = p_wkc <$> ps) as Hw.
    { clear. generalize 0%nat. induction ps as [|p ps IH]; intros n; [done|]. cbn [pdu_refs].
      by rewrite !fmap_cons, IH. }
    clear -Hd Hw. revert Hd Hw. generalize (pdu_refs i 0 ps).
    induction ps as [|p ps IH]; intros [|r rs] Hd Hw; try done. rewrite !fmap_cons in *.
    injection Hd as Hd1 Hd2. injection Hw as Hw1 Hw2. cbn. rewrite Hd1, Hw1. f_equal. by apply IH.
Qed.

(** A frame that carries [reqs] brings back what the SubDevices make of them. *)
Lemma frame_roundtrip w s cf ps f reqs retries :
  fb_idle w -> filling (pdu_storage w) s cf ps f -> (0 < length ps)%nat -> asks ps reqs ->
  exists rs w1 w', send_frame retries cf (set_pdu_storage s w) = (Ok (inner cf), w1) /\
    into_pdus (inner cf) w1 = (Ok (Ok <$> rs), w') /\ fb_idle w' /\
    (fun r => (rd_data r, rd_wkc r)) <$> rs = (serve (fb_devices w) reqs).1 /\
    fb_devices w' = (serve (fb_devices w) reqs).2.
Proof.
  intros Hw Hf Hn Ha. destruct ps as [|p ps]; [cbn in Hn; lia|].
  destruct (fb_await w s cf p ps f TK_Pdu retries Hw Hf) as (w1 & f' & Hrun & Hf' & Hst & Hl & He & (rest & Hb) & Hidle & Hdev).
  destruct (answer_all_spec (fb_devices w) (p :: ps) (ho_valid _ _ _ _ (fi_holds _ _ _ _ _ Hf))) as (Hv & Hlens & _).
  destruct (answer_all_serve (fb_devices w) (p :: ps) reqs Ha) as [Hs1 Hs2].
  destruct (into_pdus_ok w1 (inner cf) f' (answer_all (fb_devices w) (p :: ps)).1 rest Hf' Hst Hl He Hv) as (rs & Hinto & Hrs);
    [|done|].
  { apply (f_equal length) in Hlens. rewrite !length_fmap in Hlens. rewrite Hlens. cbn. lia. }
  exists rs, w1, (set_pdu_storage (freed (inner cf) f' (pdu_storage w1)) w1). split_and!; [|done|done|congruence|congruence].
  destruct Hf as [Hwf Hh _ _ Hlen _]. destruct (fb_storage w Hw) as (_ & Hfl & Hmax & _).
  unfold send_frame. rewrite (st_step _ _ _ _ _ (on_loop_set _ s w _ _
    (mark_sendable_ok s cf (p :: ps) f TK_Pdu retries Hwf ltac:(by rewrite Hlen, Hfl) Hh))).
  rewrite (st_step _ _ _ tt (set_pdu_storage (sending s cf (p :: ps) f) w)) by by apply on_loop_set.
  exact Hrun.
Qed.

End Roundtrip.

(** *** The PDU loop with the TX/RX task and SubDevices *)

(** The PDUs of a frame as the SubDevices see them. *)
Fixpoint decode_pdus (fuel : nat) (b : bytes) : list Pdu :=
  match fuel, unpack_from_slice PduHeader_read b with
  | S fuel, Ok h =>
      let n := Z.to_nat (pf_length (ph_flags h)) in
      mkPdu (ph_command_code h) (ph_index h) (ph_command_raw h) (pf_circulated (ph_flags h)) (ph_irq h)
        (take n (drop header_len b)) (le_val (take 2 (drop (header_len + n) b))) ::
      (if pf_more_follows (ph_flags h) then decode_pdus fuel (drop (header_len + n + 2) b) else [])
  | _, _ => []
  end.

(** The frame is sent, answered and received; then the future is polled. *)
Definition looped_await {D} `{!Devices D} (fut : ReceiveFrameFut) : St (PduStorage * D) Error nat := fun '(s, d) =>
  match transmit s with
  | (Ok b, s) =>
      let '(ps, d) := answer_all d (decode_pdus (length b) (drop 16 b)) in
      let '(r, s) := (_ ← receive_frame MAINDEVICE_ADDR (response BROADCAST answer_mac ps []);
        '(_, polled) ← fut_poll false fut;
        match polled with Ready r => lift r | Pending => fail E_Internal end) s in
      (r, (s, d))
  | (Err e, s) => (Err e, (s, d))
  | (Panic, s) => (Panic, (s, d))
  end.

#[export] Instance looped {D} `{!Devices D} : PduNet (PduStorage * D) := {|
  pdu_storage := fst;
  set_pdu_storage s w := (s, w.2);
  await_frame := looped_await;
|}.

(** No slot is in use, and none has kept the index of an old PDU. *)
Definition settled (len : nat) (s : PduStorage) : Prop :=
  storage_wf s /\ frame_data_len s = len /\ (len <= MAX_DATA)%nat /\ exit_flag s = false /\
  Forall (fun f => status f = FS_None /\ first_pdu f = FIRST_PDU_EMPTY) (frames s).

Lemma decode_pdus_ok ps : forall fuel rest,
  Forall pdu_valid ps -> (0 < length ps <= fuel)%nat -> decode_pdus fuel (pdus_bytes ps ++ rest) = ps.
Proof.
  induction ps as [|p ps IH]; intros [|fuel] rest Hv Hn; cbn [length] in *; [lia..|].
  apply Forall_cons in Hv as [Hp Hv]. cbn [pdus_bytes decode_pdus]. rewrite <- app_assoc.
  set (more := negb _). destruct (read_pdu 0 0 more p (pdus_bytes ps ++ rest) Hp) as (-> & _).
  cbn [pdu_header ph_flags ph_command_code ph_index ph_command_raw ph_irq pf_length pf_circulated pf_more_follows].
  rewrite Nat2Z.id.
  assert (length (header_bytes (pdu_header more p)) = header_len) as Hh.
  { apply length_header_bytes. apply (pv_raw p Hp). }
  assert (drop header_len (pdu_bytes more p ++ pdus_bytes ps ++ rest) =
    p_data p ++ le_bytes 2 (p_wkc p) ++ pdus_bytes ps ++ rest) as Hd.
  { unfold pdu_bytes. rewrite <- !app_assoc, <- Hh, drop_app_length. done. }
  rewrite <- !drop_drop, Hd, take_app_length, !drop_app_length.
  rewrite take_app_le, take_ge by (rewrite length_le_bytes; lia).
  rewrite drop_app_ge, length_le_bytes, drop_0 by (rewrite length_le_bytes; lia).
  rewrite le_val_le_bytes_small by (apply (pv_wkc p Hp)). destruct p as [pc pi pr pci pq pd pw]. cbn. f_equal.
  unfold more. destruct ps as [|q ps]; [done|]. cbn [length Nat.eqb negb]. apply IH; [done|cbn in *; lia].
Qed.

Section Looped.
#[local] Set Default Proof Using "Type*".
Context {D : Type} `{!Devices D} {P : Profile}.

Lemma settled_with_frame len s0 s cf ps f f' :
  settled len s0 -> filling s0 s cf ps f -> frame_ok len f' -> status f' = FS_None ->
  first_pdu f' = FIRST_PDU_EMPTY -> settled len (with_frame (inner cf) f' s).
Proof.
  intros (Hs0 & Hl & Hmax & Hx & Hall) [Hs Hh Hfree Hoth Hlen Hex] Hok Hst Hfirst.
  pose proof (lookup_slot _ _ _ (ho_slot _ _ _ _ Hh)) as Hlt.
  split_and!; [|cbn; congruence|done|cbn; congruence|].
  - apply with_frame_wf; [done|]. by rewrite Hlen, Hl.
  - apply Forall_lookup_2. intros j g Hj. destruct (decide (j = inner cf)) as [->|Hne].
    + rewrite with_frame_lookup in Hj by done. by injection Hj as <-.
    + rewrite with_frame_lookup_ne, Hoth in Hj by done. by apply (Forall_lookup_1 _ _ _ _ Hall Hj).
Qed.

Lemma frame_ok_same data f g :
  frame_ok data f -> ethernet_frame g = ethernet_frame f -> pdu_payload_len g = pdu_payload_len f -> frame_ok data g.
Proof. unfold frame_ok. by intros H -> ->. Qed.

Lemma settled_other len s0 s cf ps f j g :
  settled len s0 -> filling s0 s cf ps f -> j <> inner cf -> frames s !! j = Some g ->
  status g = FS_None /\ first_pdu g = FIRST_PDU_EMPTY.
Proof.
  intros (_ & _ & _ & _ & Hall) Hf Hj Hg. rewrite (fi_others _ _ _ _ _ Hf) in Hg by done.
  by apply (Forall_lookup_1 _ _ _ _ Hall Hg).
Qed.

Lemma sent_frame_ok data ps f : frame_ok data f -> frame_ok data (set_state FS_Sent (sendable_frame ps f)).
Proof.
  intros [Hl Hfit]. split; [|done]. cbn [set_state sendable_frame ethernet_frame].
  rewrite !length_app, length_le_bytes, length_pdu_buf, Hl. change (length eth_header) with 14%nat.
  unfold pdu_payload_start, ETHERNET_HEADER_LEN in *. lia.
Qed.

Lemma sending_wf s cf ps f :
  storage_wf s -> frames s !! inner cf = Some f -> storage_wf (sending s cf ps f).
Proof.
  intros Hs Hf. assert (storage_wf (with_frame (inner cf) (sendable_frame ps f) s)) as [] by
    (apply with_frame_wf; [done|]; apply (sent_frame_ok _ ps f), (frame_ok_lookup _ _ _ Hs Hf)).
  by constructor.
Qed.

Lemma empty_not_index p : pdu_valid p -> FIRST_PDU_EMPTY <> p_index p.
Proof. intros [_ [_ Hi] _ _ _ _ _]. change (2 ^ 8) with 256 in Hi. unfold FIRST_PDU_EMPTY. lia. Qed.

(** The frame comes back to its slot. *)
Lemma looped_await_ok len s0 s cf p ps f (d : D) timeout retries :
  settled len s0 -> filling s0 s cf (p :: ps) f ->
  let ps' := (answer_all d (p :: ps)).1 in
  let f' := set_state FS_RxProcessing (set_waker true (received (pdus_bytes ps')
    (set_state FS_Sent (sendable_frame (p :: ps) f)))) in
  looped_await (mkFut (Some (inner cf)) timeout retries) (sending s cf (p :: ps) f, d) =
    (Ok (inner cf), (with_frame (inner cf) f' (with_tx_woken true s), (answer_all d (p :: ps)).2)).
Proof.
  intros Hset Hf ps' f'. pose proof Hset as (Hs0 & Hl & Hmax & Hx & Hall).
  pose proof Hf as [Hs Hh Hfree Hoth Hlen Hex]. set (i := inner cf) in *.
  pose proof (ho_slot _ _ _ _ Hh) as Hslot. pose proof (lookup_slot _ _ _ Hslot) as Hi. fold i in Hslot, Hi.
  set (g := sendable_frame (p :: ps) f). set (s1 := sending s cf (p :: ps) f).
  assert (frames s1 !! i = Some g) as Hg by (apply (with_frame_lookup i g s Hi)).
  assert (forall j h, j <> i -> frames s1 !! j = Some h -> status h = FS_None /\ first_pdu h = FIRST_PDU_EMPTY) as Hother.
  { intros j h Hj Hh'. change (frames s1) with (frames (with_frame i g s)) in Hh'.
    rewrite with_frame_lookup_ne in Hh' by done. by apply (settled_other len s0 s cf (p :: ps) f j). }
  pose proof (ho_valid _ _ _ _ Hh) as Hv.
  destruct (answer_all_spec d (p :: ps) Hv) as (Hv' & Hlens & Hidx).
  pose proof (length_answer_all d (p :: ps) Hv) as Hlb. fold ps' in Hv', Hlens, Hidx, Hlb.
  destruct (frame_ok_lookup _ _ _ Hs Hslot) as [Hdata Hfit].
  assert (length (pdus_bytes (p :: ps)) <= length (pdu_buf f))%nat as Hroom.
  { rewrite length_pdu_buf, Hdata. rewrite <- (ho_len _ _ _ _ Hh). lia. }
  assert (exit_flag s1 = false) as Hx1 by (change (exit_flag s = false); congruence).
  unfold looped_await.
  rewrite (transmit_ok s1 i g (p :: ps) (zeros (length (pdu_buf f) - length (pdus_bytes (p :: ps)))));
    [|done|done|done| | |apply Hh].
  2: { intros j h Hj Hh'. by rewrite (proj1 (Hother j h ltac:(lia) Hh')). }
  2: { unfold g, sendable_frame, sent_bytes. cbn [ethernet_frame]. rewrite (ho_buf _ _ _ _ Hh) at 1.
    by rewrite <- !app_assoc. }
  assert (drop 16 (sent_bytes (p :: ps)) = pdus_bytes (p :: ps) ++ []) as ->.
  { unfold sent_bytes. rewrite app_assoc, app_nil_r. apply drop_app_length'. reflexivity. }
  rewrite decode_pdus_ok; [|done|].
  2: { pose proof (pdus_fit (p :: ps) _ Hv (le_n _)). unfold sent_bytes. rewrite !length_app. cbn [length] in *. lia. }
  rewrite (surjective_pairing (answer_all d (p :: ps))). fold ps'.
  set (f1 := set_state FS_Sent g). set (s2 := with_frame i f1 s1).
  destruct ps' as [|q qs] eqn:Hps'; [done|]. rewrite !fmap_cons in Hidx. injection Hidx as Hidx _.
  assert (frame_ok (frame_data_len s) f1) as Hf1 by by apply sent_frame_ok.
  rewrite (st_step _ _ s2 _ _ (receive_frame_ok s2 i f1 MAINDEVICE_ADDR q qs BROADCAST answer_mac []
    ltac:(by apply with_frame_wf; [apply sending_wf|]) Hx1 (with_frame_lookup i f1 s1 (lookup_slot _ _ _ Hg)) eq_refl
    ltac:(rewrite Hidx; apply Hh) ltac:(intros j h Hj Hh'; unfold s2 in Hh'; rewrite with_frame_lookup_ne in Hh' by lia;
      rewrite (proj2 (Hother j h ltac:(lia) Hh')), Hidx; apply empty_not_index; by apply Forall_cons in Hv as [? _])
    eq_refl eq_refl ltac:(done) Hv' ltac:(rewrite Hlb; rewrite length_pdu_buf, Hdata in Hroom;
      unfold MAX_DATA, pdu_payload_start, ETHERNET_HEADER_LEN in *; lia) ltac:(rewrite Hlb; done))).
  unfold s2. rewrite with_frame_twice. set (f2 := received _ f1).
  pose proof (with_frame_lookup i f2 s1 (lookup_slot _ _ _ Hg)) as Hf2.
  rewrite (st_step _ _ _ _ _ (fut_poll_ready false i timeout retries _ f2 Hf2 eq_refl)), with_frame_twice.
  cbv beta iota. unfold lift. do 2 f_equal. unfold s1, sending, with_tx_woken, with_frame, with_frames. cbn.
  rewrite list_insert_insert_eq. done.
Qed.

Lemma settled_woken len s : settled len s -> settled len (with_tx_woken true s).
Proof. intros ([] & H). by split; [constructor|]. Qed.

#[export, program] Instance looped_fieldbus (len : nat) : Fieldbus (PduStorage * D) D := {|
  fb_devices := snd;
  fb_idle w := settled len w.1 /\ exists f, f ∈ frames w.1;
  fb_len := len;
|}.
Next Obligation. by intros _ [s d] s'. Qed.
Next Obligation. by intros _ [s d]. Qed.
Next Obligation. by intros _ [s d] s'. Qed.
Next Obligation. by intros _ [s d] s' s''. Qed.
Next Obligation.
  intros len [s d] [(Hs & Hl & Hmax & _ & Hall) [f Hf]]. split_and!; [done..|].
  apply list_elem_of_lookup in Hf as [i Hi]. exists i, f. split; [done|].
  by apply (Forall_lookup_1 _ _ _ _ Hall Hi).
Qed.
Next Obligation.
  intros len [s0 d] s cf f [Hset _] Hf. cbn [fst snd pdu_storage set_pdu_storage looped] in *. split.
  - apply (settled_with_frame len s0 s cf [] f); [done|done| |done|apply Hf].
    destruct Hset as (_ & <- & _). rewrite <- (fi_len _ _ _ _ _ Hf).
    apply (frame_ok_lookup _ _ _ (fi_wf _ _ _ _ _ Hf) (ho_slot _ _ _ _ (fi_holds _ _ _ _ _ Hf))).
  - eexists. eapply list_elem_of_lookup_2, with_frame_lookup, lookup_slot, Hf.
Qed.
Next Obligation.
  intros len [s0 d] s cf p ps f timeout retries [Hset _] Hf. cbn [fst pdu_storage looped] in *. pose proof Hset as (_ & Hl & _).
  pose proof (looped_await_ok len s0 s cf p ps f d timeout retries Hset Hf) as Hrun. cbv zeta in Hrun.
  set (f' := set_state FS_RxProcessing _) in Hrun.
  pose proof (fi_holds _ _ _ _ _ Hf) as Hh. pose proof (ho_slot _ _ _ _ Hh) as Hslot.
  pose proof (frame_ok_lookup _ _ _ (fi_wf _ _ _ _ _ Hf) Hslot) as Hok. rewrite (fi_len _ _ _ _ _ Hf), Hl in Hok.
  pose proof (sent_frame_ok len (p :: ps) f Hok) as Hsent. set (f1 := set_state FS_Sent _) in *.
  pose proof (ho_valid _ _ _ _ Hh) as Hv.
  assert (pdu_payload_start <= len)%nat as Hpos by (destruct Hok; lia).
  assert (length (pdus_bytes (p :: ps)) <= length (pdu_buf f1))%nat as Hroom.
  { rewrite length_pdu_buf, (proj1 Hsent). destruct Hsent as [_ Hfit]. cbn [pdu_payload_len set_state sendable_frame f1] in Hfit.
    rewrite (ho_len _ _ _ _ Hh) in Hfit. lia. }
  assert (frame_ok len f') as Hok'.
  { apply (frame_ok_same _ (received (pdus_bytes (answer_all d (p :: ps)).1) f1)); [|done|done].
    apply received_ok; [done|done|]. by rewrite length_answer_all. }
  eexists _, f'. split; [exact Hrun|]. split_and!; [|done| | | | | |done].
  - apply with_frame_lookup. by eapply lookup_slot.
  - change (pdu_payload_len f <> 0%nat). rewrite (ho_len _ _ _ _ Hh).
    pose proof (pdus_fit (p :: ps) _ Hv (le_n _)). cbn [length] in *. lia.
  - by rewrite (proj1 Hok').
  - eexists. apply (received_buf _ f1). by rewrite (proj1 Hsent).
  - cbn [fst set_pdu_storage]. unfold freed. rewrite with_frame_twice.
    apply (settled_woken len (with_frame (inner cf) (clear_first_pdu (set_state FS_None f')) s)).
    by apply (settled_with_frame len s0 s cf (p :: ps) f).
  - cbn [fst set_pdu_storage]. unfold freed. rewrite with_frame_twice.
    eexists. eapply list_elem_of_lookup_2. apply (with_frame_lookup (inner cf) _ s). by eapply lookup_slot.
Qed.

End Looped.
