(* ===== verification/Group.v ===== *)
(** * Groups of SubDevices ([subdevice_group/])

    The group and its typestates, the configuration of its process data image, the
    transitions between states, the configuration of distributed clocks, and the
    exchange of process data.  The lock around the image is held during an
    exchange, so the image is part of the state there. *)
From S2P Require Import Prelude Wire Derive DeriveEnum EscTypes Crates SiiTypes PduTypes Errors Bus Eeprom Frame CreatedFrame TxRx PduNet Ports Pdi SubDevice Coe Configuration Dc MainDevice.
Import Struct Enum.

(** ** Definitions *)

Inductive TypeState := Init | PreOp | PreOpPdi | SafeOp | Op.

Class HasPdi (S : TypeState) : Prop := has_pdi : S = PreOpPdi \/ S = SafeOp \/ S = Op.
#[export] Instance PreOpPdi_has_pdi : HasPdi PreOpPdi. Proof. by left. Qed.
#[export] Instance SafeOp_has_pdi : HasPdi SafeOp. Proof. by right; left. Qed.
#[export] Instance Op_has_pdi : HasPdi Op. Proof. by right; right. Qed.

Class IsPreOp (S : TypeState) : Prop := is_pre_op : S = PreOp \/ S = PreOpPdi.
#[export] Instance PreOp_is_pre_op : IsPreOp PreOp. Proof. by left. Qed.
#[export] Instance PreOpPdi_is_pre_op : IsPreOp PreOpPdi. Proof. by right. Qed.

(** The typestates of the clock configuration: [NoDc] is [unit]. *)
Record HasDc := mkHasDc { sync0_period : Z; sync0_shift : Z; reference : Z }.

Definition CYCLIC_OP_ENABLE : Z := 1.
Definition SYNC0_ACTIVATE : Z := 2.
Definition SYNC1_ACTIVATE : Z := 4.

(** Durations are in nanoseconds. *)
Record DcConfiguration := mkDcConfiguration {
  dcc_start_delay : Z;
  dcc_sync0_period : Z;
  dcc_sync0_shift : Z;
}.

Record CycleInfo := mkCycleInfo {
  dc_system_time : Z;
  next_cycle_wait : Z;
  cycle_start_offset : Z;
}.

(** [MAX_PDI] is the length of the image. *)
Record SubDeviceGroup (S : TypeState) (DC : Type) := mkGroup {
  gr_id : Z;
  gr_max_subdevices : nat;
  gr_pdi : bytes;
  gr_read_pdi_len : nat;
  gr_pdi_len : nat;
  gr_subdevices : list SubDevice;
  gr_pdi_start : PdiOffset;
  gr_dc_conf : DC;
}.
Arguments mkGroup {S DC}.
Arguments gr_id {S DC}.
Arguments gr_max_subdevices {S DC}.
Arguments gr_pdi {S DC}.
Arguments gr_read_pdi_len {S DC}.
Arguments gr_pdi_len {S DC}.
Arguments gr_subdevices {S DC}.
Arguments gr_pdi_start {S DC}.
Arguments gr_dc_conf {S DC}.

(** [Default]; [id] is the next value of the counter [GROUP_ID]. *)
Definition group_default (MAX_SUBDEVICES MAX_PDI : nat) {S} (id : Z) : SubDeviceGroup S unit :=
  mkGroup id MAX_SUBDEVICES (zeros MAX_PDI) 0 0 [] (mkPdiOffset 0) tt.

(** *** [tx_rx_response.rs] *)

Record TxRxResponse (T : Type) := mkTxRxResponse {
  tr_working_counter : Z;
  tr_subdevice_states : list SubDeviceState;
  tr_extra : T;
}.
Arguments mkTxRxResponse {T}.
Arguments tr_working_counter {T}.
Arguments tr_subdevice_states {T}.
Arguments tr_extra {T}.

(** [GroupState] is its bits. *)
Definition GS_NONE : Z := 0x00.
Definition GS_INIT : Z := 0x01.
Definition GS_PRE_OP : Z := 0x02.
Definition GS_SAFE_OP : Z := 0x04.
Definition GS_OP : Z := 0x08.
Definition GS_ALL : Z := 0x0f.

(** [u8::from(state)] *)
Definition state_bits (s : SubDeviceState) : Z :=
  match s with
  | SDS_None => 0x00 | SDS_Init => 0x01 | SDS_PreOp => 0x02 | SDS_Bootstrap => 0x03
  | SDS_SafeOp => 0x04 | SDS_Op => 0x08 | SDS_Other x => x
  end.

(** [from_bits]: none for bits that no flag has. *)
Definition GroupState_from_bits (bits : Z) : option Z :=
  if Z.eqb (Z.land bits GS_ALL) bits then Some bits else None.

Definition GroupState_read : WireRead Z := {|
  PACKED_LEN := 1;
  BUFFER_LEN := 1;
  unpack_from_slice buf := v ← unpack_from_slice u8_read buf; ok_or (GroupState_from_bits v) InvalidValue
|}.

(** [from_bits_truncate] of all states together. *)
Definition group_state {T} (r : TxRxResponse T) : Z :=
  Z.land (foldl (fun acc s => Z.lor acc (state_bits s)) 0 (tr_subdevice_states r)) GS_ALL.

Definition count_ones_u8 (z : Z) : nat := count_ones (Z.to_nat z).

Definition group_in_single_state {T} (r : TxRxResponse T) : option SubDeviceState :=
  let state := group_state r in
  if Nat.ltb 1 (count_ones_u8 state) then None
  else if Z.eqb state GS_NONE then Some SDS_None
  else if Z.eqb state GS_INIT then Some SDS_Init
  else if Z.eqb state GS_PRE_OP then Some SDS_PreOp
  else if Z.eqb state GS_SAFE_OP then Some SDS_SafeOp
  else if Z.eqb state GS_OP then Some SDS_Op
  else None.

Definition is_in_state {T} (r : TxRxResponse T) (desired_state : SubDeviceState) : bool :=
  let state := group_state r in
  match desired_state with
  | SDS_None => Z.eqb state GS_NONE
  | SDS_Init => Z.eqb state GS_INIT
  | SDS_PreOp => Z.eqb state GS_PRE_OP
  | SDS_Bootstrap => false
  | SDS_SafeOp => Z.eqb state GS_SAFE_OP
  | SDS_Op => Z.eqb state GS_OP
  | SDS_Other n => Z.eqb state n
  end.

Definition all_op {T} (r : TxRxResponse T) : bool :=
  bool_decide (group_in_single_state r = Some SDS_Op).

(** *** Building the state checks *)

(** The size of [AlControl]. *)
Definition check_len : nat := PACKED_LEN AlControl_read.

Section Checks.
Context {P : Profile}.

(** The SubDevices left, and how many checks are in the frame. *)
Fixpoint push_state_checks (num_in_this_frame : nat) (subdevices : list SubDevice)
    : Push (list SubDevice * nat) :=
  can ← can_push_pdu_payload check_len;
  if negb can then mret (subdevices, num_in_this_frame) else
  match subdevices with
  | [] => mret ([], num_in_this_frame)
  | sd :: subdevices =>
      _ ← push_pdu (Read (Fprd (sd_configured_address sd) (register_u16 R_AlStatus))) unit_write tt
        (Some (wrap 16 (Z.of_nat check_len)));
      let num_in_this_frame := S num_in_this_frame in
      if Nat.ltb 128 num_in_this_frame then mret (subdevices, num_in_this_frame)
      else push_state_checks num_in_this_frame subdevices
  end.

End Checks.

(** A group in another typestate, with another clock configuration. *)
Definition into_state {S S' DC DC'} (dc : DC') (g : SubDeviceGroup S DC)
    : SubDeviceGroup S' DC' :=
  mkGroup (gr_id g) (gr_max_subdevices g) (gr_pdi g) (gr_read_pdi_len g) (gr_pdi_len g) (gr_subdevices g) (gr_pdi_start g) dc.

(** The same group with new SubDevices and lengths. *)
Definition with_mapping {S DC} (read_pdi_len pdi_len : nat) (l : list SubDevice)
    (g : SubDeviceGroup S DC) : SubDeviceGroup S DC :=
  mkGroup (gr_id g) (gr_max_subdevices g) (gr_pdi g) read_pdi_len pdi_len l (gr_pdi_start g) (gr_dc_conf g).

Definition with_pdi {S DC} (pdi : bytes)
    (g : SubDeviceGroup S DC) : SubDeviceGroup S DC :=
  mkGroup (gr_id g) (gr_max_subdevices g) pdi (gr_read_pdi_len g) (gr_pdi_len g) (gr_subdevices g) (gr_pdi_start g) (gr_dc_conf g).

Definition group_len {S DC} (g : SubDeviceGroup S DC) : nat :=
  length (gr_subdevices g).

Definition group_is_empty {S DC} (g : SubDeviceGroup S DC) : bool :=
  Nat.eqb (group_len g) 0.

Definition group_subdevice {S DC} (g : SubDeviceGroup S DC) (index : nat)
    : res Error SubDevice :=
  ok_or (gr_subdevices g !! index) (E_NotFound I_SubDevice (Some (Z.of_nat index))).

(** *** The handle of a group in [MainDevice::init] ([handle.rs]) *)

(** [heapless::Vec::push] *)
Definition group_push {S DC} (s : SubDevice) (g : SubDeviceGroup S DC)
    : res Error (SubDeviceGroup S DC) :=
  if Nat.ltb (group_len g) (gr_max_subdevices g)
  then Ok (with_mapping (gr_read_pdi_len g) (gr_pdi_len g) (gr_subdevices g ++ [s]) g)
  else Err (E_Capacity I_SubDevice).

Section Group.
Context {W : Type} `{!PduNet W} `{!Bus W} `{!Timing} `{!EmbeddedIo} `{!Crates} {P : Profile}.

(** A method of one SubDevice with [&mut self]: the result and the SubDevice. *)
Definition on_subdevice {A} (m : St (W * SubDevice) Error A) (s : SubDevice) : St W Error (A * SubDevice) :=
  fun w => let '(r, (w, s)) := m (w, s) in (r ≫= (fun a => Ok (a, s)), w).

Section Members.
Context {S : TypeState} {DC : Type}.
#[local] Abbreviation Group := (SubDeviceGroup S DC).

(** *** [into_pre_op] of a handle *)

Fixpoint configure_all_mailboxes (l : list SubDevice) : St W Error (list SubDevice) :=
  match l with
  | [] => mret []
  | s :: l =>
      '(_, s) ← on_subdevice configure_mailboxes s;
      l ← configure_all_mailboxes l;
      mret (s :: l)
  end.

(** The group, and the position behind it. *)
Definition handle_into_pre_op (pdi_position : PdiOffset) (g : Group) : St W Error (Group * PdiOffset) :=
  l ← configure_all_mailboxes (gr_subdevices g);
  next ← lift (increment pdi_position (wrap 16 (Z.of_nat (length (gr_pdi g)))));
  mret (mkGroup (gr_id g) (gr_max_subdevices g) (gr_pdi g) (gr_read_pdi_len g) (gr_pdi_len g) l pdi_position (gr_dc_conf g), next).

(** *** The process data image *)

(** One direction of all SubDevices, from [pdi_position] on. *)
Fixpoint configure_all_fmmus (pdi_position : PdiOffset) (group_start : Z) (direction : PdoDirection)
    (l : list SubDevice) : St W Error (list SubDevice * PdiOffset) :=
  match l with
  | [] => mret ([], pdi_position)
  | s :: l =>
      '(pdi_position, s) ← on_subdevice (configure_fmmus pdi_position group_start direction) s;
      '(l, pdi_position) ← configure_all_fmmus pdi_position group_start direction l;
      mret (s :: l, pdi_position)
  end.

(** All inputs first, then all outputs. *)
Definition group_configure_fmmus (g : Group) : St W Error Group :=
  let pdi_start := start_address (gr_pdi_start g) in
  '(l, pdi_position) ← configure_all_fmmus (gr_pdi_start g) pdi_start MasterRead (gr_subdevices g);
  read_pdi_len ← lift (usub 32 (start_address pdi_position) pdi_start);
  '(l, pdi_position) ← configure_all_fmmus pdi_position pdi_start MasterWrite l;
  pdi_len ← lift (usub 32 (start_address pdi_position) pdi_start);
  if Z.of_nat (length (gr_pdi g)) <? pdi_len
  then fail (E_PdiTooLong (Z.of_nat (length (gr_pdi g))) pdi_len)
  else mret (with_mapping (Z.to_nat read_pdi_len) (Z.to_nat pdi_len) l g).

(** *** States *)

Context (maindevice : MainDevice).

(** Whether all the states in a response are the desired one; the first that is not
    ends the search. *)
Fixpoint states_are (desired_state : SubDeviceState) (pdus : list (res Error Received)) : res Error bool :=
  match pdus with
  | [] => Ok true
  | pdu :: pdus =>
      pdu ← pdu;
      result ← from_wire (unpack_from_slice AlControl_read (rd_data pdu));
      if decide (al_state result = desired_state) then states_are desired_state pdus else Ok false
  end.

(** One frame of state checks: the SubDevices left and the checks made so far. *)
Definition is_state_step (n : nat) (desired_state : SubDeviceState) (a : list SubDevice * nat)
    : St W Error (list SubDevice * nat + bool) :=
  let '(subdevices, total_checks) := a in
  frame ← on_loop alloc_frame;
  '((subdevices, num_in_this_frame), frame) ← push_into frame (push_state_checks 0 subdevices);
  if Nat.eqb num_in_this_frame 0 then
    _ ← on_loop (drop_created frame);
    if overflow_checks && negb (Nat.eqb total_checks n) then lift Panic else mret (inr true)
  else
    received ← send_frame (retries_of maindevice) frame;
    pdus ← into_pdus received;
    all ← lift (states_are desired_state pdus);
    mret (if all : bool then inl (subdevices, total_checks + num_in_this_frame)%nat else inr false).

(** Every turn but the last checks a SubDevice at least. *)
Definition is_state (desired_state : SubDeviceState) (g : Group) : St W Error bool :=
  r ← iterate (Datatypes.S (group_len g)) (is_state_step (group_len g) desired_state) (gr_subdevices g, 0%nat);
  lift (unwrap r).

Definition group_wait_for_state (desired_state : SubDeviceState) (g : Group) : St W Error unit :=
  loop_with_timeout TK_StateTransition (fun _ : unit =>
    ok ← is_state desired_state g;
    mret (if ok : bool then inr tt else inl tt)) tt.

Fixpoint request_all (desired_state : SubDeviceState) (l : list SubDevice) : St W Error unit :=
  match l with
  | [] => mret tt
  | s :: l =>
      _ ← request_subdevice_state_nowait (sd_configured_address s) desired_state;
      request_all desired_state l
  end.

Definition transition_to {S'} (desired_state : SubDeviceState) (g : Group)
    : St W Error (SubDeviceGroup S' DC) :=
  _ ← request_all desired_state (gr_subdevices g);
  _ ← group_wait_for_state desired_state g;
  mret (into_state (gr_dc_conf g) g).

End Members.

(** *** The methods of each typestate *)

Section Transitions.
Context {DC : Type} (maindevice : MainDevice).
#[local] Abbreviation In S := (SubDeviceGroup S DC).

Definition into_pre_op_pdi (g : In PreOp) : St W Error (In PreOpPdi) :=
  g ← group_configure_fmmus g;
  mret (into_state (gr_dc_conf g) g).

Definition pre_op_pdi_into_safe_op (g : In PreOpPdi) : St W Error (In SafeOp) :=
  transition_to maindevice SDS_SafeOp g.

Definition safe_op_into_op (g : In SafeOp) : St W Error (In Op) := transition_to maindevice SDS_Op g.

Definition pre_op_pdi_into_op (g : In PreOpPdi) : St W Error (In Op) :=
  self_ ← pre_op_pdi_into_safe_op g;
  transition_to maindevice SDS_Op self_.

Definition pre_op_pdi_into_init (g : In PreOpPdi) : St W Error (In Init) := transition_to maindevice SDS_Init g.

Definition pre_op_into_safe_op (g : In PreOp) : St W Error (In SafeOp) :=
  self_ ← into_pre_op_pdi g;
  transition_to maindevice SDS_SafeOp self_.

Definition pre_op_into_op (g : In PreOp) : St W Error (In Op) :=
  self_ ← pre_op_into_safe_op g;
  safe_op_into_op self_.

Definition pre_op_into_init (g : In PreOp) : St W Error (In Init) := transition_to maindevice SDS_Init g.

Definition safe_op_into_pre_op (g : In SafeOp) : St W Error (In PreOp) := transition_to maindevice SDS_PreOp g.

(** The state is requested but not waited for. *)
Definition safe_op_request_into_op (g : In SafeOp) : St W Error (In Op) :=
  _ ← request_all SDS_Op (gr_subdevices g);
  mret (into_state (gr_dc_conf g) g).

Definition pre_op_pdi_request_into_op (g : In PreOpPdi) : St W Error (In Op) :=
  self_ ← pre_op_pdi_into_safe_op g;
  safe_op_request_into_op self_.

Definition op_into_safe_op (g : In Op) : St W Error (In SafeOp) := transition_to maindevice SDS_SafeOp g.

End Transitions.

(** *** Distributed clocks *)

(** [u32::try_from(nanos)?] *)
Definition try_u32 (nanos : Z) : res Error Z := if in_ub 32 nanos then Ok nanos else Err E_IntegerTypeConversion.
Definition try_u64 (nanos : Z) : res Error Z := if in_ub 64 nanos then Ok nanos else Err E_IntegerTypeConversion.

(** [a / b] and [a % b]: division by zero panics. *)
Definition udiv {E} (a b : Z) : res E Z := if Z.eqb b 0 then Panic else Ok (a / b).
Definition urem {E} (a b : Z) : res E Z := if Z.eqb b 0 then Panic else Ok (a mod b).

Definition wants_dc (s : SubDevice) : bool :=
  DcSupport_any (sd_dc_support s) && negb (match sd_dc_sync s with DCSync_Disabled => true | _ => false end).

Definition configure_dc_subdevice (system_time first_pulse_delay sync0_period : Z) (s : SubDevice)
    : St W Error unit :=
  let write r := reg_write (sd_configured_address s) r in
  _ ← send u8_write (write_ignore_wkc (write R_DcSyncActive)) 0;
  first ← lift (uadd 64 system_time first_pulse_delay);
  cycles ← lift (udiv first sync0_period);
  start_time ← lift (umul 64 cycles sync0_period);
  _ ← send u64_write (write R_DcSyncStartTime) start_time;
  _ ← send u64_write (write R_DcSync0CycleTime) sync0_period;
  flags ← (match sd_dc_sync s with
    | DCSync_Sync01 sync1_period =>
        sync1_period ← lift (try_u64 sync1_period);
        _ ← send u64_write (write R_DcSync1CycleTime) sync1_period;
        mret (Z.lor (Z.lor SYNC1_ACTIVATE SYNC0_ACTIVATE) CYCLIC_OP_ENABLE)
    | _ => mret (Z.lor SYNC0_ACTIVATE CYCLIC_OP_ENABLE)
    end);
  send u8_write (write R_DcSyncActive) flags.

Fixpoint configure_dc_subdevices (system_time first_pulse_delay sync0_period : Z) (l : list SubDevice)
    : St W Error unit :=
  match l with
  | [] => mret tt
  | s :: l =>
      _ ← configure_dc_subdevice system_time first_pulse_delay sync0_period s;
      configure_dc_subdevices system_time first_pulse_delay sync0_period l
  end.

Definition configure_dc_sync {S DC} `{!IsPreOp S} (maindevice : MainDevice)
    (dc_conf : DcConfiguration) (g : SubDeviceGroup S DC)
    : St W Error (SubDeviceGroup PreOpPdi HasDc) :=
  match dc_ref_address maindevice with
  | None => fail (E_DistributedClock DCE_NoReference)
  | Some reference =>
      let dc_devices := List.filter wants_dc (gr_subdevices g) in
      system_time ← register_read reference u64_read (register_u16 R_DcSystemTime);
      sync0_period ← lift (try_u32 (dcc_sync0_period dc_conf));
      first_pulse_delay ← lift (try_u32 (dcc_start_delay dc_conf));
      _ ← configure_dc_subdevices system_time first_pulse_delay sync0_period dc_devices;
      mret (into_state (mkHasDc sync0_period (wrap 64 (dcc_sync0_shift dc_conf)) reference) g)
  end.

(** *** Process data *)

(** What a cycle has done so far. *)
Record Cycle := mkCycle {
  cy_bytes_sent : nat;
  cy_wkc_sum : Z;
  cy_subdevices : list SubDevice;
  cy_checks : nat;
  cy_states : list SubDeviceState;
  cy_time : option Z;
}.

(** [subdevice_states.push(..)]: a state that does not fit is dropped. *)
Definition push_state (capacity : nat) (states : list SubDeviceState) (s : SubDeviceState) : list SubDeviceState :=
  if Nat.ltb (length states) capacity then states ++ [s] else states.

(** The states in the rest of a response. *)
Fixpoint read_states (capacity : nat) (states : list SubDeviceState) (pdus : list (res Error Received))
    : res Error (list SubDeviceState) :=
  match pdus with
  | [] => Ok states
  | pdu :: pdus =>
      pdu ← pdu;
      state ← from_wire (unpack_from_slice AlControl_read (rd_data pdu));
      read_states capacity (push_state capacity states (al_state state)) pdus
  end.

(** [pdus.next().ok_or(Error::Internal)??] *)
Definition next_pdu (pdus : list (res Error Received)) : res Error (Received * list (res Error Received)) :=
  match pdus with
  | [] => Err E_Internal
  | pdu :: pdus => pdu ← pdu; Ok (pdu, pdus)
  end.

Section ProcessData.
Context {S : TypeState} {DC : Type} (maindevice : MainDevice)
  (g : SubDeviceGroup S DC).

(** On the bus, with the image behind its lock. *)
Definition on_net {E A} (m : St W E A) : St (W * bytes) E A := fun '(w, pdi) =>
  let '(r, w) := m w in (r, (w, pdi)).

Definition process_received_pdi_chunk (total_bytes_sent bytes_in_this_chunk : nat) (data : Received)
    : St (W * bytes) Error Z :=
  let first := Nat.min total_bytes_sent (gr_read_pdi_len g) in
  let last := Nat.min (total_bytes_sent + bytes_in_this_chunk) (gr_read_pdi_len g) in
  pdi ← gets snd;
  inputs_chunk ← lift (unwrap (get_range pdi first last));
  data_chunk ← lift (ok_or (get_range (rd_data data) 0 (length inputs_chunk)) E_Internal);
  _ ← modify (fun '(w, pdi) => (w, splice pdi first data_chunk));
  mret (rd_wkc data).

(** The part of the image that has not been sent. *)
Definition next_chunk (c : Cycle) : St (W * bytes) Error bytes :=
  let chunk_len := (gr_pdi_len g - cy_bytes_sent c)%nat in
  let chunk_start := Nat.min (cy_bytes_sent c) (gr_pdi_len g) in
  pdi ← gets snd;
  lift (unwrap (get_range pdi chunk_start (chunk_start + chunk_len))).

(** As much of it as fits, and how much that is. *)
Definition push_chunk (c : Cycle) (chunk : bytes) (frame : CreatedFrame)
    : St (W * bytes) Error (option (nat * PduResponseHandle) * CreatedFrame) :=
  if Nat.eqb (length chunk) 0 then mret (None, frame) else
  start_addr ← lift (uadd 32 (start_address (gr_pdi_start g)) (wrap 32 (Z.of_nat (cy_bytes_sent c))));
  on_net (push_into frame (push_pdu_slice_rest (Write (Lrw start_addr)) chunk)).

(** The response to the chunk, if one was pushed, and the PDUs behind it. *)
Definition process_chunk (c : Cycle) (pushed_chunk : option (nat * PduResponseHandle))
    (pdus : list (res Error Received)) : St (W * bytes) Error (Cycle * list (res Error Received)) :=
  match pushed_chunk with
  | Some (bytes_in_this_chunk, _) =>
      '(pdu, pdus) ← lift (next_pdu pdus);
      wkc ← process_received_pdi_chunk (cy_bytes_sent c) bytes_in_this_chunk pdu;
      sum ← lift (uadd 16 (cy_wkc_sum c) wkc);
      mret (mkCycle (cy_bytes_sent c + bytes_in_this_chunk) sum (cy_subdevices c) (cy_checks c)
        (cy_states c) (cy_time c), pdus)
  | None => mret (c, pdus)
  end.

(** The answers of a frame: the time if the clock was asked, the chunk, the states. *)
Definition read_answers (c : Cycle) (dc : bool) (pushed_chunk : option (nat * PduResponseHandle))
    (pdus : list (res Error Received)) : St (W * bytes) Error Cycle :=
  '(time, pdus) ← lift (if dc then
      '(pdu, pdus) ← next_pdu pdus;
      time ← from_wire (unpack_from_slice u64_read (rd_data pdu));
      Ok (Some time, pdus)
    else Ok (cy_time c, pdus));
  '(c, pdus) ← process_chunk c pushed_chunk pdus;
  states ← lift (read_states (gr_max_subdevices g) (cy_states c) pdus);
  mret (mkCycle (cy_bytes_sent c) (cy_wkc_sum c) (cy_subdevices c) (cy_checks c) states time).

(** Everything after the first PDUs of a frame: state checks, the network, the answer. *)
Definition finish_frame (c : Cycle) (dc : bool) (pushed_chunk : option (nat * PduResponseHandle))
    (frame : CreatedFrame) : St (W * bytes) Error (Cycle + Cycle) :=
  '((rest, num_checks_in_this_frame), frame) ← on_net (push_into frame (push_state_checks 0 (cy_subdevices c)));
  let c := mkCycle (cy_bytes_sent c) (cy_wkc_sum c) rest (cy_checks c + num_checks_in_this_frame)
    (cy_states c) (cy_time c) in
  if CreatedFrame.is_empty frame then _ ← on_net (on_loop (drop_created frame)); mret (inr c) else
  received ← on_net (send_frame (retries_of maindevice) frame);
  pdus ← on_net (into_pdus received);
  c ← read_answers c dc pushed_chunk pdus;
  mret (inl c).

(** One turn of the loop of [tx_rx]: [inr] leaves it. *)
Definition tx_rx_step (c : Cycle) : St (W * bytes) Error (Cycle + Cycle) :=
  let chunk_len := (gr_pdi_len g - cy_bytes_sent c)%nat in
  if Nat.eqb chunk_len 0 && Nat.leb (group_len g) (cy_checks c) then mret (inr c) else
  chunk ← next_chunk c;
  frame ← on_net (on_loop alloc_frame);
  '(pushed_chunk, frame) ← push_chunk c chunk frame;
  finish_frame c false pushed_chunk frame.

Definition cycle_start : Cycle := mkCycle 0 0 (gr_subdevices g) 0 [] None.

(** Every turn but the last sends a byte or checks a SubDevice. *)
Definition tx_rx_fuel : nat := gr_pdi_len g + group_len g + 2.

Definition tx_rx_loop (step : Cycle -> St (W * bytes) Error (Cycle + Cycle)) : St (W * bytes) Error Cycle :=
  r ← iterate tx_rx_fuel step cycle_start;
  lift (unwrap r).

Definition tx_rx `{!HasPdi S} : St (W * bytes) Error (TxRxResponse unit) :=
  c ← tx_rx_loop tx_rx_step;
  mret (mkTxRxResponse (cy_wkc_sum c) (cy_states c) tt).

(** The size of a DC sync PDU. *)
Definition DC_PDU_SIZE : nat := PDU_OVERHEAD_BYTES + 8.

(** The [FRMW] that reads and distributes the time, in the first frame only. *)
Definition push_dc (dc_ref : Z) (c : Cycle) (frame : CreatedFrame) : St (W * bytes) Error (bool * CreatedFrame) :=
  match cy_time c with
  | Some _ => mret (false, frame)
  | None =>
      '(dc_handle, frame) ← on_net (push_into frame
        (push_pdu (Read (Frmw dc_ref (register_u16 R_DcSystemTime))) u64_write 0 None));
      if overflow_checks && negb (Nat.eqb (h_alloc_size dc_handle) DC_PDU_SIZE) then lift Panic else
      mret (true, frame)
  end.

(** One turn of the loop of [tx_rx_sync_system_time] and [tx_rx_dc]. *)
Definition tx_rx_dc_step (dc_ref : Z) (c : Cycle) : St (W * bytes) Error (Cycle + Cycle) :=
  frame ← on_net (on_loop alloc_frame);
  '(dc, frame) ← push_dc dc_ref c frame;
  let chunk_len := (gr_pdi_len g - cy_bytes_sent c)%nat in
  chunk ← next_chunk c;
  '(pushed_chunk, frame) ← push_chunk c chunk frame;
  r ← finish_frame c dc pushed_chunk frame;
  match r with
  | inl c => mret (if Nat.eqb chunk_len 0 && Nat.leb (group_len g) (cy_checks c) then inr c else inl c)
  | inr c => mret (inr c)
  end.

Definition tx_rx_sync_system_time `{!HasPdi S} : St (W * bytes) Error (TxRxResponse (option Z)) :=
  match dc_ref_address maindevice with
  | Some dc_ref =>
      c ← tx_rx_loop (tx_rx_dc_step dc_ref);
      mret (mkTxRxResponse (cy_wkc_sum c) (cy_states c) (Some (default 0 (cy_time c))))
  | None =>
      response ← tx_rx;
      mret (mkTxRxResponse (tr_working_counter response) (tr_subdevice_states response) None)
  end.

(** The time to the next cycle, from the system time of this one. *)
Definition cycle_info (dc : HasDc) (time : Z) : res Error CycleInfo :=
  offset ← urem time (sync0_period dc);
  rest ← usub 64 (sync0_period dc) offset;
  wait ← uadd 64 rest (sync0_shift dc);
  Ok (mkCycleInfo time wait offset).

End ProcessData.

Definition tx_rx_dc {S} `{!HasPdi S} (maindevice : MainDevice)
    (g : SubDeviceGroup S HasDc) : St (W * bytes) Error (TxRxResponse CycleInfo) :=
  c ← tx_rx_loop g (tx_rx_dc_step maindevice g (reference (gr_dc_conf g)));
  info ← lift (cycle_info (gr_dc_conf g) (default 0 (cy_time c)));
  mret (mkTxRxResponse (cy_wkc_sum c) (cy_states c) info).

End Group.
