(* ===== verification/SubDevicePdi.v ===== *)
(** * The process data of one SubDevice ([subdevice/pdi.rs], [SubDeviceGroup::subdevice])

    The guards borrow ranges of the image of the group, the bytes of which are an
    argument here; a guard that can be written to hands out a slice, of which the
    length cannot change. *)
From S2P Require Import Prelude Errors Ports Pdi SubDevice Group.

(** ** Definitions *)

(** [&all[range]] *)
Definition pdi_slice (range : PdiSegment) (pdi : bytes) : res Error bytes :=
  unwrap (get_range pdi (Z.to_nat (seg_start range)) (Z.to_nat (seg_end range))).

(** [&mut all[range]] and what the caller makes of the slice. *)
Definition pdi_slice_mut (range : PdiSegment) (write : bytes -> bytes) (pdi : bytes) : res Error bytes :=
  l ← pdi_slice range pdi;
  mret (splice pdi (Z.to_nat (seg_start range)) (write l)).

Definition io_segments (s : SubDevice) : IoRanges := cfg_io (sd_config s).

(** [inputs_raw], [outputs_raw], and the two sides of [io_raw] and [io_raw_mut]. *)
Definition inputs_raw (s : SubDevice) (pdi : bytes) : res Error bytes := pdi_slice (io_input (io_segments s)) pdi.
Definition outputs_raw (s : SubDevice) (pdi : bytes) : res Error bytes := pdi_slice (io_output (io_segments s)) pdi.
Definition outputs_raw_mut (s : SubDevice) (write : bytes -> bytes) (pdi : bytes) : res Error bytes :=
  pdi_slice_mut (io_output (io_segments s)) write pdi.
Definition io_raw (s : SubDevice) (pdi : bytes) : res Error (bytes * bytes) :=
  inputs ← inputs_raw s pdi; outputs ← outputs_raw s pdi; mret (inputs, outputs).

(** [group.subdevice(maindevice, index)] with a PDI, then [inputs_raw()] and the like. *)
Definition subdevice_pdi {S DC} `{!HasPdi S} {A} (g : SubDeviceGroup S DC) (index : nat)
    (m : SubDevice -> bytes -> res Error A) (pdi : bytes) : res Error A :=
  s ← group_subdevice g index;
  m s pdi.
