(* ===== verification/Network.v ===== *)
(** * Initialising the network ([MainDevice::init])

    Counting and resetting the SubDevices, giving them addresses, reading what they
    are, their topology and clocks, sorting them into groups and bringing the groups
    to PRE-OP. *)
From S2P Require Import Prelude Wire Derive DeriveEnum EscTypes Crates SiiTypes PduTypes Errors Bus Eeprom Frame CreatedFrame TxRx PduNet Ports Pdi SubDevice Coe Configuration Dc MainDevice Group.
Import Struct Enum.

(** ** Definitions *)

(** A group behind a [dyn SubDeviceGroupHandle]. *)
Abbreviation Handle := (SubDeviceGroup PreOp unit).

Section Network.
Context {W : Type} `{!PduNet W} `{!Bus W} `{!Timing} `{!EmbeddedIo} `{!Crates} {P : Profile}.

(** The state of [init]: the bus and the two atomics of the MainDevice. *)
Abbreviation Main := (St (W * MainDevice) Error).

Definition on_network {A} (m : St W Error A) : Main A := fun '(w, m0) =>
  let '(r, w) := m w in (r, (w, m0)).

Definition store_num_subdevices (n : Z) : Main unit :=
  modify (fun '(w, m) => (w, mkMainDevice n (md_dc_reference_configured_address m) (md_config m))).

Definition store_dc_reference (address : Z) : Main unit :=
  modify (fun '(w, m) => (w, mkMainDevice (md_num_subdevices m) address (md_config m))).

(** [BASE_SUBDEVICE_ADDRESS.wrapping_add(subdevice_idx)] *)
Definition address_of (subdevice_idx : Z) : Z := wrap 16 (BASE_SUBDEVICE_ADDRESS + subdevice_idx).

(** [for subdevice_idx in idx..] over [n] SubDevices. *)
Fixpoint set_addresses (subdevice_idx : Z) (n : nat) : St W Error unit :=
  match n with
  | O => mret tt
  | S n =>
      _ ← send u16_write (apwr subdevice_idx (register_u16 R_ConfiguredStationAddress)) (address_of subdevice_idx);
      set_addresses (subdevice_idx + 1) n
  end.

(** The [Deque] of [capacity] SubDevices. *)
Fixpoint discover (capacity : nat) (subdevices : list SubDevice) (subdevice_idx : Z) (n : nat)
    : St W Error (list SubDevice) :=
  match n with
  | O => mret subdevices
  | S n =>
      s ← SubDevice_new subdevice_idx (address_of subdevice_idx);
      if Nat.ltb (length subdevices) capacity
      then discover capacity (subdevices ++ [s]) (subdevice_idx + 1) n
      else fail (E_Capacity I_SubDevice)
  end.

(** The groups of the application, by the handle the filter gives for a SubDevice; the
    filter may depend on the SubDevices it has seen.  [group_map] holds the handles in
    the order they were first used; a new one does not fit a full map. *)
Section Groups.
Context (group_filter : list SubDevice -> SubDevice -> res Error nat) (capacity : nat).

Fixpoint sort_into_groups (seen : list SubDevice) (groups : list Handle) (group_map : list nat)
    (subdevices : list SubDevice) : res Error (list Handle * list nat) :=
  match subdevices with
  | [] => Ok (groups, group_map)
  | s :: subdevices =>
      i ← group_filter seen s;
      g ← unwrap (groups !! i);
      g ← group_push s g;
      group_map ← (if decide (i ∈ group_map) then Ok group_map
        else if Nat.ltb (length group_map) capacity then Ok (group_map ++ [i])
        else Err (E_Capacity I_Group));
      sort_into_groups (seen ++ [s]) (<[i := g]> groups) group_map subdevices
  end.

Fixpoint groups_into_pre_op (groups : list Handle) (group_map : list nat) (offset : PdiOffset)
    : St W Error (list Handle) :=
  match group_map with
  | [] => mret groups
  | i :: group_map =>
      g ← lift (unwrap (groups !! i));
      '(g, offset) ← handle_into_pre_op offset g;
      groups_into_pre_op (<[i := g]> groups) group_map offset
  end.

Definition init (now : Z) (groups : list Handle) : Main (list Handle) :=
  num_subdevices ← on_network count_subdevices;
  if Z.eqb num_subdevices 0 then mret groups else
  m ← gets snd;
  _ ← on_network (reset_subdevices m);
  _ ← store_num_subdevices num_subdevices;
  _ ← on_network (set_addresses 0 (Z.to_nat num_subdevices));
  subdevices ← on_network (discover capacity [] 0 (Z.to_nat num_subdevices));
  '(subdevices, dc_master) ← on_network (configure_dc subdevices now);
  _ ← (match dc_master with
    | Some dc_master =>
        _ ← store_dc_reference (sd_configured_address dc_master);
        on_network (run_dc_static_sync dc_master (Z.to_nat (dc_static_sync_iterations (md_config m))))
    | None => mret tt
    end);
  '(groups, group_map) ← lift (sort_into_groups [] groups [] subdevices);
  groups ← on_network (groups_into_pre_op groups group_map (mkPdiOffset 0));
  m ← gets snd;
  _ ← on_network (network_wait_for_state m SDS_PreOp);
  mret groups.

End Groups.

(** All SubDevices into one group of the same capacity. *)
Definition init_single_group (MAX_SUBDEVICES MAX_PDI : nat) (id now : Z) : Main Handle :=
  groups ← init (fun _ _ => Ok 0%nat) MAX_SUBDEVICES now [group_default MAX_SUBDEVICES MAX_PDI id];
  lift (unwrap (head groups)).

End Network.
