(* ===== verification/GroupSpec.v ===== *)
(** * What a cycle of process data does

    On a network that answers ([Fieldbus]), the theorem about [Group.tx_rx] and its
    variants with clocks says what is sent and where the answers go. *)
From S2P Require Import Prelude Wire Derive DeriveEnum EscTypes Crates SiiTypes PduTypes PduChain Errors Bus Eeprom Frame CreatedFrame TxRx Samples Exchange CommandSpec PduNet Ports Pdi SubDevice Coe CoeExchange Configuration Dc MainDevice Fieldbus Group.
Import Struct Enum.

(** ** Definitions *)

(** What a cycle asks the network. *)
Inductive Asked := Clock (dc_ref : Z) | Chunk (data : bytes) | StateCheck (s : SubDevice).

(** The commands, the process data being at [addr]. *)
Fixpoint requests (addr : Z) (l : list Asked) : list (Command * bytes) :=
  match l with
  | [] => []
  | Clock r :: l => (Read (Frmw r (register_u16 R_DcSystemTime)), zeros 8) :: requests addr l
  | Chunk b :: l => (Write (Lrw addr), b) :: requests (addr + Z.of_nat (length b)) l
  | StateCheck s :: l =>
      (Read (Fprd (sd_configured_address s) (register_u16 R_AlStatus)), zeros 2) :: requests addr l
  end.

(** What was asked. *)
Definition sent_data (l : list Asked) : bytes :=
  concat ((fun a => match a with Chunk b => b | _ => [] end) <$> l).
Definition checked (l : list Asked) : list SubDevice :=
  omap (fun a => match a with StateCheck s => Some s | _ => None end) l.
Definition clocks (l : list Asked) : list Z :=
  omap (fun a => match a with Clock r => Some r | _ => None end) l.
Definition chunk_count (l : list Asked) : nat :=
  length (omap (fun a => match a with Chunk b => Some b | _ => None end) l).

(** What came back. *)
Abbreviation Answered := (list (Asked * (bytes * Z))).

Definition chunk_data (l : Answered) : bytes :=
  concat ((fun '(a, (b, _)) => match a with Chunk _ => b | _ => [] end) <$> l).
Definition chunk_wkcs (l : Answered) : Z :=
  foldr Z.add 0 ((fun '(a, (_, wkc)) => match a with Chunk _ => wkc | _ => 0 end) <$> l).
Definition check_states (l : Answered) : list SubDeviceState :=
  omap (fun '(a, (b, _)) => match a with
    | StateCheck _ => match unpack_from_slice AlControl_read b with Ok st => Some (al_state st) | _ => None end
    | _ => None end) l.
Definition clock_times (l : Answered) : list Z :=
  omap (fun '(a, (b, _)) => match a with Clock _ => Some (le_val b) | _ => None end) l.

(** ** Lemmas *)

Lemma requests_app addr l1 l2 :
  requests addr (l1 ++ l2) = requests addr l1 ++ requests (addr + Z.of_nat (length (sent_data l1))) l2.
Proof.
  revert addr. induction l1 as [|a l1 IH]; intros addr; cbn [app requests].
  { cbn. by rewrite Z.add_0_r. }
  destruct a as [r|b|s]; cbn [app]; rewrite IH; try done.
  unfold sent_data. cbn [fmap list_fmap concat]. rewrite length_app, Nat2Z.inj_add, Z.add_assoc. done.
Qed.

Lemma length_requests addr l : length (requests addr l) = length l.
Proof. revert addr. induction l as [|[r|b|s] l IH]; intros addr; cbn; auto. Qed.

Lemma requests_checks addr l :
  requests addr (StateCheck <$> l) =
    (fun s => (Read (Fprd (sd_configured_address s) (register_u16 R_AlStatus)), zeros 2)) <$> l.
Proof. induction l as [|s l IH]; [done|]. rewrite !fmap_cons. cbn [requests]. by rewrite IH. Qed.

Lemma sent_data_app l1 l2 : sent_data (l1 ++ l2) = sent_data l1 ++ sent_data l2.
Proof. unfold sent_data. by rewrite fmap_app, concat_app. Qed.
Lemma checked_app l1 l2 : checked (l1 ++ l2) = checked l1 ++ checked l2.
Proof. apply omap_app. Qed.
Lemma clocks_app l1 l2 : clocks (l1 ++ l2) = clocks l1 ++ clocks l2.
Proof. apply omap_app. Qed.
Lemma checked_checks l : checked (StateCheck <$> l) = l.
Proof. induction l as [|s l IH]; [done|]. unfold checked in *. rewrite fmap_cons. cbn. by f_equal. Qed.
Lemma sent_data_checks l : sent_data (StateCheck <$> l) = [].
Proof. by induction l. Qed.

Lemma state_reads x : exists st, unpack_from_slice SubDeviceState_read [x] = Ok st.
Proof.
  unfold SubDeviceState_read, enum_read. cbn [unpack_from_slice].
  change (repr_size (em_repr SubDeviceState_meta)) with 1%nat.
  change (get_range [x] 0 1) with (Some [x]). cbn [ok_or]. msimpl.
  unfold from_raw. destruct (find _ _); [by eexists|].
  let o := eval vm_compute in (em_catch_all SubDeviceState_meta) in change (em_catch_all SubDeviceState_meta) with o.
  by eexists.
Qed.
(** The state in an AL status register. *)
Lemma al_status_reads b :
  bytes_ok b -> length b = 2%nat -> exists st, unpack_from_slice AlControl_read b = Ok st.
Proof.
  intros Hb Hl. destruct b as [|a [|b [|]]]; try done.
  unfold AlControl_read, derive_read, read_via, struct_read. cbn [unpack_from_slice].
  let ms := eval vm_compute in (layout 2 AlControl_fields) in change (layout 2 AlControl_fields) with ms.
  change (get_range [a; b] 0 _) with (Some [a; b]). cbn [ok_or]. msimpl.
  cbn -[SubDeviceState_read]. change (Nat.leb 4 8) with true. change (Nat.leb 1 8) with true. cbv iota.
  match goal with |- context [unpack_from_slice SubDeviceState_read [?x]] => destruct (state_reads x) as [st ->] end.
  by eexists.
Qed.

(** *** Filling a frame *)

Lemma check_len_eq : check_len = 2%nat.
Proof. reflexivity. Qed.

Lemma can_push_ok s0 s cf ps f n :
  filling s0 s cf ps f ->
  can_push_pdu_payload n (s, cf) =
    (Ok (Nat.leb (length (pdus_bytes ps) + (n + 12)) (frame_data_len s0 - 16)), (s, cf)).
Proof.
  intros Hf. destruct (filling_used _ _ _ _ _ Hf) as (Hslot & Hlen & Hbuf & _).
  unfold can_push_pdu_payload. rewrite (st_step _ _ _ _ _ (the_frame_ok s cf f Hslot)), Hlen, Hbuf. done.
Qed.

(** The state checks that fit are behind the PDUs of the frame. *)
Lemma push_state_checks_ok {P : Profile} s0 addr sds : forall k s cf ps f,
  filling s0 s cf ps f -> (frame_data_len s0 <= MAX_DATA)%nat ->
  exists m s' cf' f' ps',
    push_state_checks k sds (s, cf) = (Ok (drop m sds, (k + m)%nat), (s', cf')) /\ inner cf' = inner cf /\
    filling s0 s' cf' (ps ++ ps') f' /\ asks ps' (requests addr (StateCheck <$> take m sds)) /\
    (m <= length sds)%nat /\
    (m = 0%nat -> sds = [] \/ (frame_data_len s0 - 16 < length (pdus_bytes ps) + 14)%nat).
Proof.
  induction sds as [|sd sds IH]; intros k s cf ps f Hf Hmax; cbn [push_state_checks].
  all: rewrite (st_step _ _ _ _ _ (can_push_ok s0 s cf ps f check_len Hf)), check_len_eq.
  all: destruct (Nat.leb_spec (length (pdus_bytes ps) + (2 + 12)) (frame_data_len s0 - 16)) as [Hfit|Hfit];
    cbn [negb].
  1, 2, 4: exists 0%nat, s, cf, f, []; rewrite app_nil_r, Nat.add_0_r, take_0, drop_0; split_and!; try done;
    first [exact (List.Forall2_nil _)|cbn; lia|intros _; first [by left|right; lia]].
  destruct (filling_push s0 s cf ps f (Read (Fprd (sd_configured_address sd) (register_u16 R_AlStatus)))
    unit_write tt [] 2 Hf Hmax packs_unit) as (h & s1 & cf1 & f1 & Hpush & _ & Hi1 & Hf1); [cbn; lia|lia|].
  set (p := pushed_pdu _ _ _) in Hf1.
  rewrite (st_step _ _ _ h (s1, cf1)) by exact Hpush.
  assert (asks [p] (requests addr [StateCheck sd])) as Ha by apply asks_one.
  destruct (Nat.ltb_spec 128 (S k)) as [Hk|Hk].
  - exists 1%nat, s1, cf1, f1, [p]. rewrite Nat.add_1_r. cbn [take drop]. rewrite take_0, drop_0.
    split_and!; try done. cbn. lia.
  - destruct (IH (S k) s1 cf1 _ f1 Hf1 Hmax) as (m & s' & cf' & f' & ps' & Hrun & Hi & Hf' & Ha' & Hm & _).
    exists (S m), s', cf', f', (p :: ps'). cbn [drop]. rewrite firstn_cons, fmap_cons.
    replace (k + S m)%nat with (S k + m)%nat by lia. split_and!; [done|congruence| | |cbn; lia|done].
    + by rewrite <- app_assoc in Hf'.
    + cbn [requests]. by apply (asks_app [p] [_] ps').
Qed.

(** *** Reading the answers *)

Lemma splice_more {A} (l a c : list A) :
  (length a + length c <= length l)%nat -> splice (splice l 0 a) (length a) c = splice l 0 (a ++ c).
Proof.
  intros H. unfold splice. rewrite !take_0, !app_nil_l, !Nat.add_0_l, take_app_length, length_app.
  rewrite drop_app_ge by lia. rewrite drop_drop. replace (length a + length c - length a)%nat with (length c) by lia.
  by rewrite app_assoc.
Qed.

(** The image once the answers [data] to its first bytes are there. *)
Definition with_inputs (read_len : nat) (data pdi : bytes) : bytes := splice pdi 0 (take read_len data).

Lemma with_inputs_app read_len data b pdi :
  (read_len <= length pdi)%nat ->
  splice (with_inputs read_len data pdi) (Nat.min (length data) read_len)
    (take (Nat.min (length data + length b) read_len - Nat.min (length data) read_len) b) =
  with_inputs read_len (data ++ b) pdi.
Proof.
  intros H. unfold with_inputs. rewrite take_app.
  replace (take (Nat.min (length data + length b) read_len - Nat.min (length data) read_len) b)
    with (take (read_len - length data) b).
  2: { destruct (decide (length data + length b <= read_len)%nat).
    - rewrite !take_ge by lia. done.
    - f_equal. lia. }
  replace (Nat.min (length data) read_len) with (length (take read_len data)) by (rewrite length_take; lia).
  apply splice_more. rewrite !length_take. lia.
Qed.

Lemma with_inputs_length read_len data pdi :
  (read_len <= length pdi)%nat -> length (with_inputs read_len data pdi) = length pdi.
Proof. intros H. apply length_splice. rewrite length_take. lia. Qed.

Definition reply (r : Received) : bytes * Z := (rd_data r, rd_wkc r).

Lemma read_states_ok capacity l : forall rs states,
  Forall2 (fun (_ : SubDevice) r => bytes_ok (rd_data r) /\ length (rd_data r) = 2%nat) l rs ->
  (length states + length l <= capacity)%nat ->
  read_states capacity states (Ok <$> rs) = Ok (states ++ check_states (zip (StateCheck <$> l) (reply <$> rs))) /\
  length (check_states (zip (StateCheck <$> l) (reply <$> rs))) = length l.
Proof.
  induction l as [|s l IH]; intros rs states Hr Hl.
  { apply Forall2_nil_inv_l in Hr as ->. cbn. by rewrite app_nil_r. }
  apply Forall2_cons_inv_l in Hr as (r & rs' & [Hb H2] & Hr & ->). cbn [length] in Hl.
  destruct (al_status_reads (rd_data r) Hb H2) as [st Hst].
  rewrite !fmap_cons. cbn [read_states]. change (Ok r ≫= ?f) with (f r). cbv beta.
  rewrite Hst. cbn [from_wire map_err]. change (Ok st ≫= ?f) with (f st). cbv beta.
  unfold push_state. rewrite (proj2 (Nat.ltb_lt _ _)) by lia.
  assert (check_states (zip (StateCheck s :: (StateCheck <$> l)) (reply r :: (reply <$> rs'))) =
    al_state st :: check_states (zip (StateCheck <$> l) (reply <$> rs'))) as Hc.
  { unfold check_states. cbn [zip zip_with omap list_omap]. unfold reply at 1. by rewrite Hst. }
  rewrite Hc. destruct (IH rs' (states ++ [al_state st]) Hr) as [-> Hlen]; [rewrite length_app; cbn; lia|].
  split; [by rewrite <- app_assoc|cbn [length]; by rewrite Hlen].
Qed.

Section Cycle.
#[local] Set Default Proof Using "Type*".
Context {W D : Type} `{!PduNet W} `{!Devices D} `{!Fieldbus W D} {P : Profile}.
Context {S : TypeState} {DC : Type} (maindevice : MainDevice) (g : SubDeviceGroup S DC).

(** What fits of the chunk behind [used] bytes, and what that asks. *)
Definition chunk_room (used : nat) (chunk : bytes) : nat := Nat.min (fb_len - 28 - used) (length chunk).
Definition chunk_asked (used : nat) (chunk : bytes) : list Asked :=
  let k := chunk_room used chunk in if Nat.eqb k 0 then [] else [Chunk (take k chunk)].

Lemma push_chunk_ok c chunk frame s w pdi ps f :
  let addr := start_address (gr_pdi_start g) + Z.of_nat (cy_bytes_sent c) in
  let used := length (pdus_bytes ps) in
  fb_idle w -> filling (pdu_storage w) s frame ps f -> bytes_ok chunk ->
  0 <= start_address (gr_pdi_start g) -> in_u 32 addr ->
  exists r s' frame' f' ps',
    push_chunk g c chunk frame (set_pdu_storage s w, pdi) = (Ok (r, frame'), (set_pdu_storage s' w, pdi)) /\
    inner frame' = inner frame /\ filling (pdu_storage w) s' frame' (ps ++ ps') f' /\
    asks ps' (requests addr (chunk_asked used chunk)) /\
    fst <$> r = (let k := chunk_room used chunk in if Nat.eqb k 0 then None else Some k).
Proof.
  intros addr used Hw Hf Hchunk Hstart Haddr. destruct (fb_storage w Hw) as (_ & Hlen & Hmax & _).
  unfold push_chunk, chunk_asked, chunk_room. set (k := Nat.min _ _).
  destruct (Nat.eqb_spec (length chunk) 0) as [H0|H0].
  { replace k with 0%nat by lia. exists None, s, frame, f, []. rewrite app_nil_r. split_and!; try done. constructor. }
  assert (wrap 32 (Z.of_nat (cy_bytes_sent c)) = Z.of_nat (cy_bytes_sent c)) as ->.
  { apply wrap_small. unfold in_u in *. lia. }
  rewrite (st_step (lift _) _ _ addr (set_pdu_storage s w, pdi)).
  2: { unfold lift, uadd. by rewrite checked_ok. }
  destruct (filling_used _ _ _ _ _ Hf) as (Hslot & Hused & Hbuf & _). rewrite Hlen in Hbuf.
  assert (length (pdu_buf f) - pdu_payload_len f - PDU_OVERHEAD_BYTES = fb_len - 28 - used)%nat as Hroom.
  { rewrite Hbuf, Hused. change PDU_OVERHEAD_BYTES with 12%nat. lia. }
  assert (forall a s' frame', push_pdu_slice_rest (Write (Lrw addr)) chunk (s, frame) = (Ok a, (s', frame')) ->
    on_net (push_into frame (push_pdu_slice_rest (Write (Lrw addr)) chunk)) (set_pdu_storage s w, pdi) =
      (Ok (a, frame'), (set_pdu_storage s' w, pdi))) as Hnet.
  { intros a s' frame' Hm. unfold on_net. by rewrite (push_into_ok _ _ _ _ _ _ _ Hm). }
  assert (push_pdu_slice_rest (Write (Lrw addr)) chunk (s, frame) =
    (if Nat.eqb (fb_len - 28 - used) 0 then mret None else
      h ← push_bytes (Write (Lrw addr)) slice_write (take k chunk) k; mret (Some (k, h))) (s, frame)) as Hrest.
  { unfold push_pdu_slice_rest. rewrite (st_step _ _ _ _ _ (the_frame_ok s frame f Hslot)).
    rewrite (proj2 (Nat.eqb_neq (length chunk) 0) H0), Hroom. by destruct (Nat.eqb _ 0). }
  destruct (Nat.eqb_spec (fb_len - 28 - used) 0) as [H1|H1].
  { replace k with 0%nat by lia. exists None, s, frame, f, []. rewrite app_nil_r.
    split_and!; try done; [by apply Hnet|constructor]. }
  assert (k <> 0%nat) as Hk by lia. rewrite (proj2 (Nat.eqb_neq k 0) Hk).
  assert (length (take k chunk) = k) as Htake by (rewrite length_take; lia).
  destruct (filling_push _ s frame ps f (Write (Lrw addr)) slice_write (take k chunk) (take k chunk) k Hf
    ltac:(by rewrite Hlen) (packs_slice _ (bytes_ok_take k _ Hchunk))) as (h & s1 & cf1 & f1 & Hpush & _ & Hi & Hf1);
    [lia|rewrite Hlen; fold used; lia|].
  exists (Some (k, h)), s1, cf1, f1, [pushed_pdu (Write (Lrw addr)) (pdu_idx s) (take k chunk)].
  assert (payload_of (take k chunk) k = take k chunk) as Hpay.
  { unfold payload_of. by rewrite Htake, Nat.sub_diag, app_nil_r. }
  rewrite Hpay in Hf1. split_and!; [|done|done|apply asks_one|done].
  apply Hnet. by rewrite Hrest, (st_step _ _ _ _ _ Hpush).
Qed.

(** The clock is in the first frame. *)
Lemma push_dc_ok dc_ref c frame s w pdi f :
  fb_idle w -> (36 <= fb_len)%nat -> filling (pdu_storage w) s frame [] f -> cy_time c = None ->
  exists s' frame' f' ps',
    push_dc dc_ref c frame (set_pdu_storage s w, pdi) = (Ok (true, frame'), (set_pdu_storage s' w, pdi)) /\
    length (pdus_bytes ps') = 20%nat /\ filling (pdu_storage w) s' frame' ps' f' /\
    forall addr, asks ps' (requests addr [Clock dc_ref]).
Proof.
  intros Hw Hroom Hf Ht. destruct (fb_storage w Hw) as (_ & Hlen & Hmax & _).
  assert (packs u64_write 0 (zeros 8)) as Hp.
  { assert (in_u 64 0) as H0 by (split; [lia|vm_compute; reflexivity]).
    pose proof (packs_roundtrip u64_write u64_read (in_u 64) 0 H0) as Hp.
    change (encoding 0) with (zeros 8) in Hp. exact Hp. }
  destruct (filling_push _ s frame [] f (Read (Frmw dc_ref (register_u16 R_DcSystemTime))) u64_write 0 (zeros 8) 8 Hf
    ltac:(by rewrite Hlen) Hp) as (h & s1 & cf1 & f1 & Hpush & Hsize & Hi & Hf1); [cbn; lia|cbn [pdus_bytes length]; lia|].
  exists s1, cf1, f1, [pushed_pdu (Read (Frmw dc_ref (register_u16 R_DcSystemTime))) (pdu_idx s) (payload_of (zeros 8) 8)].
  split_and!; [|reflexivity|exact Hf1|intros addr; apply asks_one].
  unfold push_dc. rewrite Ht.
  assert (on_net (push_into frame (push_pdu (Read (Frmw dc_ref (register_u16 R_DcSystemTime))) u64_write 0 None))
    (set_pdu_storage s w, pdi) = (Ok (h, cf1), (set_pdu_storage s1 w, pdi))) as Hnet.
  { unfold push_pdu. change (data_length u64_write 0 None) with 8%nat. unfold on_net.
    by rewrite (push_into_ok _ _ _ _ _ _ _ Hpush). }
  rewrite (st_step _ _ _ _ _ Hnet). cbv beta iota. rewrite Hsize.
  change (Nat.eqb (8 + 12) DC_PDU_SIZE) with true. cbn [negb]. by rewrite andb_false_r.
Qed.

(** The first PDUs of a frame: the clock in the first frame, a chunk if one fits. *)
Definition pre_of (clk : option Z) (chunk : option bytes) : list Asked :=
  (match clk with Some r => [Clock r] | None => [] end) ++
  (match chunk with Some b => [Chunk b] | None => [] end).

(** An answer is as long as its question. *)
Definition fits (req : Command * bytes) (rep : bytes * Z) : Prop :=
  bytes_ok rep.1 /\ length rep.1 = length req.2 /\ in_u 16 rep.2.

Lemma process_chunk_ok c (chunk : bytes) pushed (w : W) pdi r pdus :
  fst <$> pushed = Some (length chunk) -> length (rd_data r) = length chunk ->
  (gr_read_pdi_len g <= length pdi)%nat -> 0 <= cy_wkc_sum c + rd_wkc r < 2 ^ 16 ->
  let first := Nat.min (cy_bytes_sent c) (gr_read_pdi_len g) in
  let last := Nat.min (cy_bytes_sent c + length chunk) (gr_read_pdi_len g) in
  process_chunk g c pushed (Ok r :: pdus) (w, pdi) =
    (Ok (mkCycle (cy_bytes_sent c + length chunk) (cy_wkc_sum c + rd_wkc r) (cy_subdevices c) (cy_checks c)
      (cy_states c) (cy_time c), pdus),
     (w, splice pdi first (take (last - first) (rd_data r)))).
Proof.
  intros Hp Hl Hread Hsum first last. destruct pushed as [[k h]|]; [|done]. cbn in Hp. injection Hp as ->.
  unfold process_chunk. rewrite (st_step (lift _) _ _ (r, pdus) (w, pdi)) by done. cbv beta iota.
  rewrite (st_step _ _ _ (rd_wkc r) (w, splice pdi first (take (last - first) (rd_data r)))).
  - rewrite (st_step (lift _) _ _ (cy_wkc_sum c + rd_wkc r)
      (w, splice pdi first (take (last - first) (rd_data r)))); [done|].
    unfold lift, uadd. by rewrite checked_ok.
  - unfold process_received_pdi_chunk. cbv zeta. fold first last.
    rewrite (st_step (gets snd) _ _ pdi (w, pdi)) by done.
    assert (get_range pdi first last = Some (take (last - first) (drop first pdi))) as Hr.
    { apply get_range_Some. split; [unfold first, last; lia|done]. }
    rewrite (st_step (lift _) _ _ (take (last - first) (drop first pdi)) (w, pdi)) by (unfold lift; by rewrite Hr).
    assert (length (take (last - first) (drop first pdi)) = last - first)%nat as ->.
    { rewrite length_take, length_drop. unfold first, last in *. lia. }
    rewrite (st_step (lift _) _ _ (take (last - first) (rd_data r)) (w, pdi)); [done|].
    unfold lift. rewrite get_range_0 by (rewrite Hl; unfold first, last; lia). done.
Qed.

(** What a frame that asks [new] makes of a cycle. *)
Definition cycle_after (c : Cycle) (new : list Asked) (reps : list (bytes * Z)) : Cycle :=
  let ans := zip new reps in
  mkCycle (cy_bytes_sent c + length (sent_data new)) (cy_wkc_sum c + chunk_wkcs ans)
    (drop (length (checked new)) (cy_subdevices c)) (cy_checks c + length (checked new))
    (cy_states c ++ check_states ans)
    (match clock_times ans with t :: _ => Some t | [] => cy_time c end).

Definition image_after (c : Cycle) (new : list Asked) (reps : list (bytes * Z)) (pdi : bytes) : bytes :=
  let first := Nat.min (cy_bytes_sent c) (gr_read_pdi_len g) in
  let last := Nat.min (cy_bytes_sent c + length (sent_data new)) (gr_read_pdi_len g) in
  splice pdi first (take (last - first) (chunk_data (zip new reps))).

Lemma u64_reads b : bytes_ok b -> length b = 8%nat -> unpack_from_slice u64_read b = Ok (le_val b).
Proof.
  intros Hb Hl. assert (in_u 64 (le_val b)) as Hv.
  { pose proof (le_val_bound b Hb) as H. by rewrite Hl in H. }
  pose proof (unpack_encoding (RoundTrip:=u64_roundtrip) (le_val b) [] Hv) as H. rewrite app_nil_r in H.
  change (encoding (le_val b)) with (le_bytes 8 (le_val b)) in H. by rewrite <- Hl, le_bytes_le_val in H.
Qed.

Lemma zip_checks l reps :
  chunk_wkcs (zip (StateCheck <$> l) reps) = 0 /\ chunk_data (zip (StateCheck <$> l) reps) = [] /\
  clock_times (zip (StateCheck <$> l) reps) = [].
Proof.
  revert reps. induction l as [|s l IH]; intros [|[b wkc] reps]; try done. rewrite fmap_cons. cbn [zip zip_with].
  destruct (IH reps) as (H1 & H2 & H3). unfold chunk_wkcs, chunk_data, clock_times in *. rewrite !fmap_cons.
  cbn [foldr concat omap list_omap app]. by rewrite H1.
Qed.

Lemma checks_fit l rs addr :
  Forall2 fits (requests addr (StateCheck <$> l)) (reply <$> rs) ->
  Forall2 (fun (_ : SubDevice) r => bytes_ok (rd_data r) /\ length (rd_data r) = 2%nat) l rs.
Proof.
  rewrite requests_checks, Forall2_fmap. intros H. eapply Forall2_impl; [exact H|]. by intros s r (H1 & H2 & _).
Qed.

(** Behind the clock: the chunk and the state checks. *)
Lemma read_chunk_ok c chunk pushed l rs (w : W) pdi addr time :
  let new := pre_of None chunk ++ (StateCheck <$> l) in
  let reps := reply <$> rs in
  Forall2 fits (requests addr new) reps -> fst <$> pushed = length <$> chunk ->
  (gr_read_pdi_len g <= length pdi)%nat -> (length (cy_states c) + length l <= gr_max_subdevices g)%nat ->
  0 <= cy_wkc_sum c -> cy_wkc_sum c + chunk_wkcs (zip new reps) < 2 ^ 16 ->
  let a := cycle_after c new reps in
  ('(c, pdus) ← process_chunk g c pushed (Ok <$> rs);
   states ← lift (read_states (gr_max_subdevices g) (cy_states c) pdus);
   mret (mkCycle (cy_bytes_sent c) (cy_wkc_sum c) (cy_subdevices c) (cy_checks c) states time)) (w, pdi) =
    (Ok (mkCycle (cy_bytes_sent a) (cy_wkc_sum a) (cy_subdevices c) (cy_checks c) (cy_states a) time),
     (w, image_after c new reps pdi)) /\ length (cy_states a) = (length (cy_states c) + length l)%nat.
Proof.
  intros new reps Hfits Hpushed Hread Hcap Hsum0 Hsum a. unfold a, cycle_after, image_after.
  cbn [cy_bytes_sent cy_wkc_sum cy_states]. clear a. subst new reps.
  destruct chunk as [b|]; cbn [pre_of option_map app fst] in *.
  - destruct rs as [|r rs]; [by apply Forall2_nil_inv_r in Hfits|]. rewrite !fmap_cons in *.
    set (ls := StateCheck <$> l) in *. set (reps := reply <$> rs) in *. cbn [requests zip zip_with] in *.
    apply Forall2_cons in Hfits as [(Hb & Hl & Hw) Hfits]. cbn [reply fst snd] in Hb, Hl, Hw.
    destruct (zip_checks l reps) as (Hz1 & Hz2 & _). fold ls in Hz1, Hz2.
    assert (chunk_wkcs ((Chunk b, reply r) :: zip ls reps) = rd_wkc r) as Hwkc.
    { unfold chunk_wkcs in *. rewrite fmap_cons. cbn [foldr reply]. lia. }
    assert (chunk_data ((Chunk b, reply r) :: zip ls reps) = rd_data r) as ->.
    { unfold chunk_data in *. rewrite fmap_cons. cbn [concat reply]. by rewrite Hz2, app_nil_r. }
    change (check_states ((Chunk b, reply r) :: zip ls reps)) with (check_states (zip ls reps)).
    assert (sent_data (Chunk b :: ls) = b) as ->.
    { unfold sent_data. rewrite fmap_cons. cbn [concat]. change (b ++ sent_data (StateCheck <$> l) = b).
      by rewrite sent_data_checks, app_nil_r. }
    rewrite Hwkc in *. destruct Hw as [Hw0 Hw1].
    rewrite (st_step _ _ _ _ _ (process_chunk_ok c b pushed w pdi r (Ok <$> rs) Hpushed Hl Hread ltac:(lia))).
    cbv beta iota. cbn [cy_states cy_bytes_sent cy_wkc_sum cy_subdevices cy_checks].
    destruct (read_states_ok (gr_max_subdevices g) l rs (cy_states c) (checks_fit _ _ _ Hfits) Hcap) as [Hst Hlen].
    rewrite Hst. split; [done|]. rewrite length_app. unfold ls, reps. lia.
  - destruct pushed as [|]; [done|]. cbn [process_chunk].
    rewrite (st_step (mret _) _ _ (c, Ok <$> rs) (w, pdi)) by done. cbv beta iota.
    destruct (read_states_ok (gr_max_subdevices g) l rs (cy_states c) (checks_fit _ _ _ Hfits) Hcap) as [Hst Hlen].
    destruct (zip_checks l (reply <$> rs)) as (-> & -> & _). rewrite Hst, sent_data_checks.
    cbn [length]. rewrite Nat.add_0_r, Z.add_0_r, take_nil. unfold splice. cbn [app length].
    rewrite Nat.add_0_r, take_drop. split; [done|]. rewrite length_app. lia.
Qed.

(** All the answers of a frame. *)
Lemma read_answers_ok c clk chunk pushed l rs (w : W) pdi addr :
  let new := pre_of clk chunk ++ (StateCheck <$> l) in
  let reps := reply <$> rs in
  Forall2 fits (requests addr new) reps -> fst <$> pushed = length <$> chunk ->
  (gr_read_pdi_len g <= length pdi)%nat -> (length (cy_states c) + length l <= gr_max_subdevices g)%nat ->
  0 <= cy_wkc_sum c -> cy_wkc_sum c + chunk_wkcs (zip new reps) < 2 ^ 16 ->
  let a := cycle_after c new reps in
  read_answers g c (bool_decide (is_Some clk)) pushed (Ok <$> rs) (w, pdi) =
    (Ok (mkCycle (cy_bytes_sent a) (cy_wkc_sum a) (cy_subdevices c) (cy_checks c) (cy_states a) (cy_time a)),
     (w, image_after c new reps pdi)) /\ length (cy_states a) = (length (cy_states c) + length l)%nat.
Proof.
  intros new reps Hfits Hpushed Hread Hcap Hsum0 Hsum a. unfold read_answers. destruct clk as [r|].
  - rewrite bool_decide_true by done. subst new reps. cbn [pre_of app] in *.
    destruct rs as [|r1 rs]; [by apply Forall2_nil_inv_r in Hfits|]. rewrite !fmap_cons in *.
    cbn [requests] in Hfits. apply Forall2_cons in Hfits as [(Hb & Hl & Hw) Hfits]. cbn [reply fst snd] in Hb, Hl, Hw.
    rewrite (st_step (lift _) _ _ (Some (le_val (rd_data r1)), Ok <$> rs) (w, pdi)).
    2: { unfold lift, next_pdu. change (Ok r1 ≫= ?f) with (f r1). cbv beta.
      change (Ok (r1, Ok <$> rs) ≫= ?f) with (f (r1, Ok (E:=Error) <$> rs)). cbv beta iota.
      rewrite u64_reads by done. done. }
    cbv beta iota. destruct (read_chunk_ok c chunk pushed l rs w pdi addr (Some (le_val (rd_data r1))) Hfits Hpushed Hread Hcap Hsum0)
      as [Hrun Hlen]; [exact Hsum|by split].
  - rewrite bool_decide_false by (by intros [? ?]).
    rewrite (st_step (lift _) _ _ (cy_time c, Ok <$> rs) (w, pdi)) by done. cbv beta iota.
    destruct (read_chunk_ok c chunk pushed l rs w pdi addr (cy_time c) Hfits Hpushed Hread Hcap Hsum0 Hsum) as [Hrun Hlen].
    split; [|exact Hlen]. assert (cy_time a = cy_time c) as ->; [|exact Hrun].
    unfold a, cycle_after. cbn [cy_time]. assert (clock_times (zip new reps) = []) as ->; [|done].
    clearbody reps. clear. unfold new.
    destruct chunk as [b|]; cbn [pre_of app]; [|exact (proj2 (proj2 (zip_checks l reps)))].
    destruct reps as [|[b' wkc] reps]; [done|]. cbn [zip zip_with]. exact (proj2 (proj2 (zip_checks l reps))).
Qed.

(** The questions and answers of one frame. *)
Definition asked_in (c : Cycle) (clk : option Z) (chunk : option bytes) (m : nat) : list Asked :=
  pre_of clk chunk ++ (StateCheck <$> take m (cy_subdevices c)).

Lemma requests_fit d addr l : Forall (fun r => bytes_ok r.2) (requests addr l) ->
  Forall2 fits (requests addr l) (serve d (requests addr l)).1.
Proof. apply serve_lengths. Qed.

Lemma requests_ok addr l : bytes_ok (sent_data l) -> Forall (fun r => bytes_ok r.2) (requests addr l).
Proof.
  revert addr. induction l as [|a l IH]; intros addr H; [constructor|].
  unfold sent_data in *. rewrite fmap_cons in H. cbn [concat] in H. apply bytes_ok_app in H as [H1 H2].
  destruct a as [r|b|s]; cbn [requests]; constructor; try apply IH; try done; apply bytes_ok_zeros.
Qed.

Lemma sent_asked c clk chunk m : sent_data (asked_in c clk chunk m) = default [] chunk.
Proof.
  unfold asked_in. rewrite sent_data_app, sent_data_checks, app_nil_r.
  destruct clk, chunk; unfold sent_data, pre_of; cbn; by rewrite ?app_nil_r.
Qed.

Lemma checked_asked c clk chunk m : checked (asked_in c clk chunk m) = take m (cy_subdevices c).
Proof. unfold asked_in. rewrite checked_app, checked_checks. by destruct clk, chunk. Qed.

Lemma finish_frame_ok c clk chunk pushed frame s w pdi ps f addr :
  fb_idle w -> filling (pdu_storage w) s frame ps f -> asks ps (requests addr (pre_of clk chunk)) ->
  fst <$> pushed = length <$> chunk -> bytes_ok (default [] chunk) ->
  (gr_read_pdi_len g <= length pdi)%nat ->
  (length (cy_states c) + length (cy_subdevices c) <= gr_max_subdevices g)%nat -> 0 <= cy_wkc_sum c ->
  exists m, (m <= length (cy_subdevices c))%nat /\
    (m = 0%nat -> cy_subdevices c = [] \/ (fb_len - 16 < length (pdus_bytes ps) + 14)%nat) /\
    let new := asked_in c clk chunk m in
    let reps := (serve (fb_devices w) (requests addr new)).1 in
    (new <> [] -> cy_wkc_sum c + chunk_wkcs (zip new reps) < 2 ^ 16 ->
      exists w', finish_frame maindevice g c (bool_decide (is_Some clk)) pushed frame (set_pdu_storage s w, pdi) =
          (Ok (inl (cycle_after c new reps)), (w', image_after c new reps pdi)) /\
        fb_idle w' /\ fb_devices w' = (serve (fb_devices w) (requests addr new)).2 /\
        length (cy_states (cycle_after c new reps)) = (length (cy_states c) + m)%nat) /\
    (new = [] -> exists w', finish_frame maindevice g c (bool_decide (is_Some clk)) pushed frame (set_pdu_storage s w, pdi) =
        (Ok (inr c), (w', pdi)) /\ fb_idle w' /\ fb_devices w' = fb_devices w).
Proof.
  intros Hw Hf Ha Hpushed Hchunk Hread Hcap Hsum0. destruct (fb_storage w Hw) as (_ & Hlen & Hmax & _).
  destruct (push_state_checks_ok (pdu_storage w) (addr + Z.of_nat (length (sent_data (pre_of clk chunk)))) (cy_subdevices c)
    0 s frame ps f Hf ltac:(by rewrite Hlen)) as (m & s1 & cf1 & f1 & ps1 & Hpush & Hi & Hf1 & Ha1 & Hm & Hm0).
  rewrite Nat.add_0_l in Hpush.
  exists m. split; [done|]. split; [by rewrite <- Hlen|]. intros new reps.
  assert (asks (ps ++ ps1) (requests addr new)) as Hasks.
  { unfold new, asked_in. rewrite requests_app. by apply asks_app. }
  assert (length (ps ++ ps1) = length new) as Hl.
  { apply Forall2_length in Hasks. by rewrite length_requests in Hasks. }
  destruct (filling_used _ _ _ _ _ Hf1) as (_ & _ & _ & Hcount).
  assert (CreatedFrame.is_empty cf1 = Nat.eqb (length new) 0) as Hempty.
  { unfold is_empty. rewrite Hcount, Hl. destruct (length new); [done|]. apply Z.eqb_neq. lia. }
  assert (length (take m (cy_subdevices c)) = m) as Htake by (rewrite length_take; lia).
  assert (checked new = take m (cy_subdevices c)) as Hchecked by apply checked_asked.
  unfold finish_frame.
  rewrite (st_step (on_net _) _ _ ((drop m (cy_subdevices c), m), cf1) (set_pdu_storage s1 w, pdi)).
  2: { unfold on_net. by rewrite (push_into_ok _ _ _ _ _ _ _ Hpush). }
  cbv beta iota zeta. rewrite Hempty. split.
  - intros Hne Hsum. assert (length new <> 0)%nat as Hn0 by (by destruct new). rewrite (proj2 (Nat.eqb_neq _ _) Hn0).
    destruct (frame_roundtrip w s1 cf1 (ps ++ ps1) f1 (requests addr new) (retries_of maindevice) Hw Hf1 ltac:(lia) Hasks)
      as (rs & w1 & w2 & Hsend & Hinto & Hw2 & Hrs & Hd2).
    rewrite (st_step (on_net _) _ _ (inner cf1) (w1, pdi)) by (unfold on_net; by rewrite Hsend).
    rewrite (st_step (on_net _) _ _ (Ok <$> rs) (w2, pdi)) by (unfold on_net; by rewrite Hinto).
    change ((fun r => (rd_data r, rd_wkc r)) <$> rs) with (reply <$> rs) in Hrs.
    set (c1 := mkCycle _ _ _ _ _ _).
    assert (Forall2 fits (requests addr new) (reply <$> rs)) as Hfits.
    { rewrite Hrs. apply requests_fit, requests_ok. unfold new. by rewrite sent_asked. }
    destruct (read_answers_ok c1 clk chunk pushed (take m (cy_subdevices c)) rs w2 pdi addr Hfits Hpushed Hread) as [Hrun Hst].
    + rewrite Htake. cbn [cy_states c1]. lia.
    + done.
    + fold (asked_in c clk chunk m). fold new. rewrite Hrs. exact Hsum.
    + exists w2. rewrite (st_step _ _ _ _ _ Hrun). fold (asked_in c clk chunk m) in Hrun, Hst |- *. fold new in Hrun, Hst |- *.
      rewrite Hrs in *. fold reps in Hrun, Hst |- *. split_and!; [|done|done|].
      * unfold mret, St_ret, cycle_after. cbn [c1 cy_bytes_sent cy_wkc_sum cy_subdevices cy_checks cy_states cy_time].
        by rewrite Hchecked, Htake.
      * rewrite Htake in Hst. exact Hst.
  - intros Hnil. rewrite Hnil in *. cbn [length Nat.eqb]. destruct (ps ++ ps1); [|done].
    destruct (drop_frame_ok w s1 cf1 f1 Hw Hf1) as (w' & Hdrop & Hw' & Hd').
    exists w'. rewrite (st_step (on_net _) _ _ tt (w', pdi)) by (unfold on_net; by rewrite Hdrop).
    assert (m = 0%nat) as ->.
    { pose proof (checked_asked c clk chunk m) as Hc. fold new in Hc. rewrite Hnil in Hc.
      apply (f_equal length) in Hc. rewrite Htake in Hc. done. }
    split_and!; [|done|done]. unfold mret, St_ret. rewrite drop_0, Nat.add_0_r. by destruct c.
Qed.

(** *** Any number of frames *)

Lemma answered_app (l1 l2 : Answered) :
  chunk_data (l1 ++ l2) = chunk_data l1 ++ chunk_data l2 /\
  chunk_wkcs (l1 ++ l2) = chunk_wkcs l1 + chunk_wkcs l2 /\
  check_states (l1 ++ l2) = check_states l1 ++ check_states l2 /\
  clock_times (l1 ++ l2) = clock_times l1 ++ clock_times l2.
Proof.
  unfold chunk_data, check_states, clock_times. rewrite fmap_app, concat_app, !omap_app. split_and!; try done.
  unfold chunk_wkcs. rewrite fmap_app, foldr_app. induction l1 as [|[a [b wkc]] l1 IH]; [done|].
  rewrite !fmap_cons. cbn [foldr]. lia.
Qed.

Lemma chunk_count_app l1 l2 : chunk_count (l1 ++ l2) = (chunk_count l1 + chunk_count l2)%nat.
Proof. unfold chunk_count. by rewrite omap_app, length_app. Qed.

Lemma chunk_count_checks l : chunk_count (StateCheck <$> l) = 0%nat.
Proof. by induction l. Qed.

Lemma clocks_asked c clk chunk m : clocks (asked_in c clk chunk m) = option_list clk.
Proof.
  unfold asked_in, clocks. rewrite omap_app.
  assert (clocks (StateCheck <$> take m (cy_subdevices c)) = []) as Hc by (generalize (take m (cy_subdevices c)); by induction l).
  unfold clocks in Hc. rewrite Hc, app_nil_r. by destruct clk, chunk.
Qed.

Lemma chunk_count_asked c clk chunk m :
  chunk_count (asked_in c clk chunk m) = match chunk with Some _ => 1%nat | None => 0%nat end.
Proof. unfold asked_in. rewrite chunk_count_app, chunk_count_checks. by destruct clk, chunk. Qed.

(** As many answers as questions of each sort, and as many bytes as were sent. *)
Lemma answered_lengths addr l reps :
  Forall2 fits (requests addr l) reps ->
  length (chunk_data (zip l reps)) = length (sent_data l) /\
  length (clock_times (zip l reps)) = length (clocks l).
Proof.
  revert addr reps. induction l as [|a l IH]; intros addr reps H; [done|].
  assert (exists addr', requests addr (a :: l) = requests addr [a] ++ requests addr' l) as [addr' Hr].
  { eexists. apply (requests_app addr [a] l). }
  rewrite Hr in H. destruct a as [r|b|s]; cbn [requests app] in H;
    apply Forall2_cons_inv_l in H as ([b' wkc] & reps' & (Hb & Hl & _) & H & ->);
    destruct (IH addr' reps' H) as [H1 H2]; cbn [zip zip_with];
    unfold chunk_data, sent_data, clock_times, clocks in *; rewrite !fmap_cons; cbn [concat omap list_omap];
    rewrite ?length_app; cbn [length fst snd] in *; auto with lia.
Qed.

Lemma with_inputs_drop read_len data pdi n :
  (length data <= n)%nat -> drop n (with_inputs read_len data pdi) = drop n pdi.
Proof.
  intros H. unfold with_inputs, splice. rewrite take_0, app_nil_l, Nat.add_0_l.
  rewrite drop_app_ge by (rewrite length_take; lia). rewrite drop_drop. f_equal. rewrite length_take. lia.
Qed.

(** The working counters of a group of SubDevices. *)
Definition wkc_at_most (B : Z) : Prop := forall d c a b, (dev_pdu (D:=D) d c a b).1.2 <= B.

Lemma wkcs_bound B d addr l :
  0 <= B -> wkc_at_most B -> 
  0 <= chunk_wkcs (zip l (serve d (requests addr l)).1) <= B * Z.of_nat (chunk_count l).
Proof.
  intros HB Hwkc. revert d addr. induction l as [|a l IH]; intros d addr; [cbn; lia|].
  assert (exists req addr', requests addr (a :: l) = req :: requests addr' l) as ([c b] & addr' & ->).
  { destruct a; cbn [requests]; eauto. }
  cbn [serve]. pose proof (Hwkc d (code c) (Command_pack c) b) as H1.
  pose proof (dev_wkc d (code c) (Command_pack c) b) as [H0 _].
  destruct (dev_pdu _ _ _ _) as [[b' wkc] d1]. specialize (IH d1 addr').
  destruct (serve d1 (requests addr' l)) as [rs d2]. cbn [fst snd zip zip_with] in *.
  unfold chunk_wkcs, chunk_count in *. rewrite fmap_cons. destruct a; cbn [foldr omap list_omap length]. all: nia.
Qed.

(** The cycle starts with the image [pdi0] at the SubDevices [d0]. *)
Context (d0 : D) (pdi0 : bytes) (B : Z).

Let room : nat := (fb_len - 28)%nat.

(** The cycles this is about.  A frame has room for 30 bytes of PDUs and frame header
    at least (and, on every [Fieldbus], for [MAX_DATA] at most), so that each takes a
    byte of the image or a state check; the image ends below 2^32; the group has no
    more SubDevices than its capacity, and a buffer for its whole image, the inputs
    first; and the working counters of all the chunks, each at most [B], add up to
    less than 2^16.  With smaller frames the code ends the cycle early or never, and
    from 2^16 on the sum panics or wraps. *)
Record cycle_ok : Prop := {
  co_frame : (30 <= fb_len)%nat;
  co_start : 0 <= start_address (gr_pdi_start g);
  co_end : start_address (gr_pdi_start g) + Z.of_nat (gr_pdi_len g) < 2 ^ 32;
  co_capacity : (group_len g <= gr_max_subdevices g)%nat;
  co_read : (gr_read_pdi_len g <= gr_pdi_len g)%nat;
  co_image : (gr_pdi_len g <= length pdi0)%nat;
  co_bytes : bytes_ok pdi0;
  co_wkc : 0 <= B /\ wkc_at_most B;
  co_sum : B * Z.of_nat ((gr_pdi_len g + 20) / room + 1) < 2 ^ 16;
}.

Context (Hok : cycle_ok).

Definition answers (l : list Asked) : Answered :=
  zip l (serve d0 (requests (start_address (gr_pdi_start g)) l)).1.

(** [l] has been asked. *)
Record progress (l : list Asked) (c : Cycle) (w : W) (pdi : bytes) : Prop := {
  pg_idle : fb_idle w;
  pg_devices : fb_devices w = (serve d0 (requests (start_address (gr_pdi_start g)) l)).2;
  pg_bytes : (cy_bytes_sent c <= gr_pdi_len g)%nat;
  pg_sent : sent_data l = take (cy_bytes_sent c) pdi0;
  pg_checked : checked l ++ cy_subdevices c = gr_subdevices g;
  pg_checks : cy_checks c = length (checked l);
  pg_image : pdi = with_inputs (gr_read_pdi_len g) (chunk_data (answers l)) pdi0;
  pg_wkc : cy_wkc_sum c = chunk_wkcs (answers l);
  pg_count : (chunk_count l * room <= cy_bytes_sent c + 20 +
    (if Nat.eqb (cy_bytes_sent c) (gr_pdi_len g) then room else 0))%nat;
  pg_states : cy_states c = check_states (answers l);
  pg_capacity : length (cy_states c) = length (checked l);
  pg_time : cy_time c = head (clock_times (answers l));
}.

Lemma progress_start w : fb_idle w -> fb_devices w = d0 -> progress [] (cycle_start g) w pdi0.
Proof.
  intros Hw Hd. split; try done; cbn [cycle_start cy_bytes_sent]; try lia.
  - change (chunk_data (answers [])) with (@nil Z). unfold with_inputs, splice. by rewrite take_nil.
  - unfold chunk_count. cbn [omap list_omap length]. lia.
Qed.

Lemma sent_length l c w pdi : progress l c w pdi -> length (sent_data l) = cy_bytes_sent c.
Proof. intros []. rewrite pg_sent0, length_take. pose proof (co_image Hok). lia. Qed.

Lemma answers_fit l c w pdi :
  progress l c w pdi ->
  Forall2 fits (requests (start_address (gr_pdi_start g)) l)
    (serve d0 (requests (start_address (gr_pdi_start g)) l)).1.
Proof. intros []. apply requests_fit, requests_ok. rewrite pg_sent0. apply bytes_ok_take, Hok. Qed.

Lemma data_length l c w pdi : progress l c w pdi -> length (chunk_data (answers l)) = cy_bytes_sent c.
Proof.
  intros H. rewrite <- (sent_length l c w pdi H). exact (proj1 (answered_lengths _ _ _ (answers_fit _ _ _ _ H))).
Qed.

(** The part of the image that is still to be sent. *)
Definition rest_of (c : Cycle) : bytes := take (gr_pdi_len g - cy_bytes_sent c) (drop (cy_bytes_sent c) pdi0).

Lemma rest_length l c w pdi : progress l c w pdi -> length (rest_of c) = (gr_pdi_len g - cy_bytes_sent c)%nat.
Proof. intros []. unfold rest_of. rewrite length_take, length_drop. pose proof (co_image Hok). lia. Qed.

Lemma next_chunk_ok l c w pdi (w' : W) :
  progress l c w pdi -> next_chunk g c (w', pdi) = (Ok (rest_of c), (w', pdi)).
Proof.
  intros H. unfold next_chunk. rewrite (st_step (gets snd) _ _ pdi (w', pdi)) by done.
  pose proof (pg_bytes _ _ _ _ H). rewrite Nat.min_l by done.
  replace (cy_bytes_sent c + (gr_pdi_len g - cy_bytes_sent c))%nat with (gr_pdi_len g) by lia.
  unfold lift. assert (get_range pdi (cy_bytes_sent c) (gr_pdi_len g) = Some (rest_of c)) as ->; [|done].
  pose proof (co_image Hok). pose proof (co_read Hok). pose proof (data_length _ _ _ _ H).
  unfold rest_of. rewrite (pg_image _ _ _ _ H).
  rewrite <- (with_inputs_drop (gr_read_pdi_len g) (chunk_data (answers l)) pdi0) by lia.
  apply get_range_Some. rewrite with_inputs_length by lia. split; [lia|done].
Qed.

Lemma answers_app l new c w pdi :
  progress l c w pdi ->
  answers (l ++ new) = answers l ++ zip new (serve (fb_devices w)
    (requests (start_address (gr_pdi_start g) + Z.of_nat (cy_bytes_sent c)) new)).1 /\
  (serve d0 (requests (start_address (gr_pdi_start g)) (l ++ new))).2 =
    (serve (fb_devices w) (requests (start_address (gr_pdi_start g) + Z.of_nat (cy_bytes_sent c)) new)).2.
Proof.
  intros H. unfold answers. rewrite requests_app, serve_app, (sent_length _ _ _ _ H), (pg_devices _ _ _ _ H).
  split; [|done]. cbn [fst]. apply zip_with_app. by rewrite length_serve, length_requests.
Qed.

(** What the cycle is after a frame that asked [new]. *)
Lemma progress_frame l c w pdi w' clk chunk m :
  let new := asked_in c clk chunk m in
  let reps := (serve (fb_devices w) (requests (start_address (gr_pdi_start g) + Z.of_nat (cy_bytes_sent c)) new)).1 in
  progress l c w pdi -> fb_idle w' ->
  fb_devices w' = (serve (fb_devices w) (requests (start_address (gr_pdi_start g) + Z.of_nat (cy_bytes_sent c)) new)).2 ->
  length (cy_states (cycle_after c new reps)) = (length (cy_states c) + m)%nat ->
  (m <= length (cy_subdevices c))%nat -> (clk = None \/ l = []) ->
  (forall b, chunk = Some b -> b = take (length b) (rest_of c) /\
    (length b = (room - match clk with Some _ => 20 | None => 0 end)%nat \/ length b = length (rest_of c)) /\
    length b <> 0%nat) ->
  progress (l ++ new) (cycle_after c new reps) w' (image_after c new reps pdi).
Proof.
  intros new reps H Hw Hd Hst Hm Hclk Hchunk.
  destruct (answers_app l new _ _ _ H) as [Ha Hs]. fold reps in Ha.
  assert (sent_data new = default [] chunk) as Hsent by apply sent_asked.
  assert (checked new = take m (cy_subdevices c)) as Hchecked by apply checked_asked.
  destruct (answered_app (answers l) (zip new reps)) as (H1 & H2 & H3 & H4).
  pose proof (rest_length _ _ _ _ H) as Hrest. pose proof (pg_bytes _ _ _ _ H) as Hbytes.
  assert (length (default [] chunk) <= gr_pdi_len g - cy_bytes_sent c)%nat as Hlen.
  { destruct chunk as [b|]; [|cbn; lia]. destruct (Hchunk b eq_refl) as (Hb & _). cbn.
    rewrite Hb, length_take. lia. }
  assert (length (chunk_data (zip new reps)) = length (sent_data new) /\
    length (clock_times (zip new reps)) = length (clocks new)) as [Hnew Hclocks].
  { apply (answered_lengths (start_address (gr_pdi_start g) + Z.of_nat (cy_bytes_sent c))). apply requests_fit, requests_ok.
    rewrite Hsent. destruct chunk as [b|]; [|constructor]. destruct (Hchunk b eq_refl) as (Hb & _). cbn [default from_option].
    unfold id. rewrite Hb. unfold rest_of. do 2 apply bytes_ok_take. apply bytes_ok_drop, Hok. }
  split; cbn [cycle_after cy_bytes_sent cy_wkc_sum cy_subdevices cy_checks cy_states cy_time]; rewrite ?Hsent, ?Hchecked.
  - done.
  - by rewrite Hs.
  - lia.
  - rewrite sent_data_app, Hsent, (pg_sent _ _ _ _ H), <- take_take_drop. f_equal.
    destruct chunk as [b|]; [|cbn; by rewrite take_0]. destruct (Hchunk b eq_refl) as (Hb & _).
    change (default [] (Some b)) with b in *. rewrite Hb at 1. unfold rest_of. rewrite take_take, Nat.min_l by lia. done.
  - rewrite checked_app, Hchecked, <- app_assoc, length_take, Nat.min_l by lia.
    rewrite take_drop. apply H.
  - rewrite checked_app, Hchecked, length_app, (pg_checks _ _ _ _ H). done.
  - pose proof (co_image Hok). pose proof (co_read Hok). unfold image_after.
    rewrite Ha, H1, Hsent, (pg_image _ _ _ _ H), <- (data_length _ _ _ _ H), <- with_inputs_app by lia.
    do 3 f_equal. rewrite Hnew, Hsent. done.
  - rewrite Ha, H2, (pg_wkc _ _ _ _ H). done.
  - rewrite chunk_count_app. pose proof (pg_count _ _ _ _ H) as Hcount.
    assert (chunk_count new = match chunk with Some _ => 1 | None => 0 end)%nat as ->.
    { apply chunk_count_asked. }
    destruct chunk as [b|]; [|cbn [default from_option length]; by rewrite !Nat.add_0_r].
    destruct (Hchunk b eq_refl) as (_ & Hb & Hb0). change (default [] (Some b)) with b in *.
    rewrite (proj2 (Nat.eqb_neq (cy_bytes_sent c) _)) in Hcount by lia.
    destruct (Nat.eqb_spec (cy_bytes_sent c + length b) (gr_pdi_len g)); [lia|].
    destruct clk as [r|]; [|lia]. destruct Hclk as [ | -> ]; [done|]. change (chunk_count []) with 0%nat. lia.
  - rewrite Ha, H3, (pg_states _ _ _ _ H). done.
  - cbn [cycle_after cy_states] in Hst. rewrite Hst, checked_app, Hchecked, length_app, length_take, Nat.min_l, (pg_capacity _ _ _ _ H) by lia. done.
  - rewrite Ha, H4, (pg_time _ _ _ _ H). unfold new in Hclocks at 2. rewrite clocks_asked in Hclocks.
    destruct Hclk as [ -> | -> ].
    + destruct (clock_times (zip new reps)); [|done]. by rewrite app_nil_r.
    + change (clock_times (answers [])) with (@nil Z). by destruct (clock_times (zip new reps)).
Qed.

(** The working counters stay below 2^16. *)
Lemma wkcs_fit l new c w pdi :
  progress l c w pdi -> (chunk_count new <= 1)%nat -> (chunk_count new = 1%nat -> cy_bytes_sent c <> gr_pdi_len g) ->
  cy_wkc_sum c + chunk_wkcs (zip new (serve (fb_devices w)
    (requests (start_address (gr_pdi_start g) + Z.of_nat (cy_bytes_sent c)) new)).1) < 2 ^ 16.
Proof.
  intros H Hn Hb. destruct (answers_app l new _ _ _ H) as [Ha _].
  rewrite (pg_wkc _ _ _ _ H), <- (proj1 (proj2 (answered_app _ _))), <- Ha. clear Ha.
  destruct Hok as [Hframe _ _ _ _ _ _ [HB Hwkc] Hsum].
  pose proof (wkcs_bound B d0 (start_address (gr_pdi_start g)) (l ++ new) HB Hwkc) as [_ Hbound].
  fold (answers (l ++ new)) in Hbound.
  assert (chunk_count (l ++ new) <= (gr_pdi_len g + 20) / room + 1)%nat as Hcount.
  { rewrite chunk_count_app. pose proof (pg_count _ _ _ _ H) as Hc. pose proof (pg_bytes _ _ _ _ H).
    assert (room <> 0)%nat as Hroom by lia.
    destruct (decide (chunk_count new = 1%nat)) as [Hnew|].
    - rewrite (proj2 (Nat.eqb_neq _ _) (Hb Hnew)) in Hc. rewrite Hnew.
      enough (chunk_count l <= (gr_pdi_len g + 20) / room)%nat by lia. apply Nat.div_le_lower_bound; lia.
    - rewrite <- (Nat.div_add _ 1) by done. apply Nat.div_le_lower_bound; [done|]. destruct (Nat.eqb _ _); nia. }
  nia.
Qed.

(** How much is left to do. *)
Definition left_of (c : Cycle) : nat := (gr_pdi_len g - cy_bytes_sent c) + length (cy_subdevices c).

Lemma progress_idle l c w w' pdi :
  progress l c w pdi -> fb_idle w' -> fb_devices w' = fb_devices w -> progress l c w' pdi.
Proof. intros [] Hw Hd. split; congruence. Qed.

Lemma pre_asks ps ps' clk chunk addr :
  (forall addr, asks ps (requests addr (pre_of clk None))) -> asks ps' (requests addr (pre_of None chunk)) ->
  asks (ps ++ ps') (requests addr (pre_of clk chunk)).
Proof.
  intros H H'. assert (pre_of clk chunk = pre_of clk None ++ pre_of None chunk) as ->.
  { unfold pre_of. by rewrite app_nil_r. }
  rewrite requests_app. apply asks_app; [done|]. assert (sent_data (pre_of clk None) = []) as -> by (by destruct clk).
  by rewrite Z.add_0_r.
Qed.

Lemma length_asked c clk chunk m :
  (m <= length (cy_subdevices c))%nat ->
  length (asked_in c clk chunk m) =
    (length (option_list clk) + match chunk with Some _ => 1 | None => 0 end + m)%nat.
Proof.
  intros Hm. unfold asked_in, pre_of. rewrite length_app, length_fmap, length_take, Nat.min_l by done.
  by destruct clk, chunk.
Qed.

Lemma left_after c clk chunk m reps :
  (m <= length (cy_subdevices c))%nat -> (length (default [] chunk) <= gr_pdi_len g - cy_bytes_sent c)%nat ->
  (left_of (cycle_after c (asked_in c clk chunk m) reps) + length (default [] chunk) + m = left_of c)%nat.
Proof.
  intros Hm Hc. unfold left_of. cbn [cycle_after cy_bytes_sent cy_subdevices].
  rewrite sent_asked, checked_asked, length_drop, length_take. lia.
Qed.

(** A frame with room that asks nothing: nothing is left. *)
Lemma nothing_left (c : Cycle) k m :
  (30 <= fb_len)%nat -> k = Nat.min (fb_len - 28 - 0) (gr_pdi_len g - cy_bytes_sent c) -> k = 0%nat ->
  (cy_subdevices c = [] \/ (fb_len - 16 < 0 + 14)%nat) -> m = 0%nat -> left_of c = 0%nat.
Proof. intros. unfold left_of. destruct (cy_subdevices c); cbn [length]; [lia|naive_solver lia]. Qed.

(** One frame. *)
Lemma turn_ok l c w pdi clk s frame ps f :
  progress l c w pdi -> filling (pdu_storage w) s frame ps f ->
  (forall addr, asks ps (requests addr (pre_of clk None))) ->
  length (pdus_bytes ps) = match clk with Some _ => 20%nat | None => 0%nat end -> (clk = None \/ l = []) ->
  exists r w' pdi',
    ('(pushed_chunk, frame) ← push_chunk g c (rest_of c) frame;
     finish_frame maindevice g c (bool_decide (is_Some clk)) pushed_chunk frame) (set_pdu_storage s w, pdi) =
      (Ok r, (w', pdi')) /\
    match r with
    | inl c' => exists new, progress (l ++ new) c' w' pdi' /\ clocks new = option_list clk /\
        (forall r, clk = Some r -> head new = Some (Clock r)) /\
        (left_of c' <= left_of c)%nat /\ (clk = None -> left_of c' < left_of c)%nat
    | inr c' => c' = c /\ progress l c w' pdi' /\ clk = None /\ left_of c = 0%nat
    end.
Proof.
  intros H Hf Ha Hused Hclk. pose proof (rest_length _ _ _ _ H) as Hrest. pose proof (pg_bytes _ _ _ _ H) as Hbytes.
  pose proof (pg_idle _ _ _ _ H) as Hw.
  assert (bytes_ok (rest_of c)) as Hrb by (unfold rest_of; apply bytes_ok_take, bytes_ok_drop, Hok).
  destruct (push_chunk_ok c (rest_of c) frame s w pdi ps f Hw Hf Hrb (co_start Hok)) as
    (pushed & s1 & cf1 & f1 & ps1 & Hpush & _ & Hf1 & Ha1 & Hfst).
  { pose proof (co_start Hok). pose proof (co_end Hok). unfold in_u. lia. }
  set (k := chunk_room (length (pdus_bytes ps)) (rest_of c)) in *. cbv zeta in Hfst.
  set (chunk := if Nat.eqb k 0 then None else Some (take k (rest_of c))).
  assert (k <= length (rest_of c))%nat as Hk by (unfold k, chunk_room; lia).
  assert (length (take k (rest_of c)) = k) as Htake by (rewrite length_take; lia).
  destruct (finish_frame_ok c clk chunk pushed cf1 s1 w pdi (ps ++ ps1) f1
    (start_address (gr_pdi_start g) + Z.of_nat (cy_bytes_sent c)) Hw Hf1) as (m & Hm & Hm0 & Hsome & Hnone).
  { apply pre_asks; [done|]. unfold chunk_asked in Ha1. cbv zeta in Ha1. fold k in Ha1. unfold pre_of, chunk.
    by destruct (Nat.eqb k 0). }
  { rewrite Hfst. unfold chunk. destruct (Nat.eqb k 0); [done|]. cbn. by rewrite Htake. }
  { unfold chunk. destruct (Nat.eqb k 0); [constructor|]. by apply bytes_ok_take. }
  { pose proof (co_image Hok). pose proof (co_read Hok). rewrite (pg_image _ _ _ _ H), with_inputs_length; lia. }
  { pose proof (co_capacity Hok). rewrite (pg_capacity _ _ _ _ H), <- length_app, (pg_checked _ _ _ _ H). done. }
  { rewrite (pg_wkc _ _ _ _ H). apply (wkcs_bound B); apply Hok. }
  assert (forall b, chunk = Some b -> b = take (length b) (rest_of c) /\ length b = k /\ length b <> 0%nat) as Hchunk.
  { intros b. unfold chunk. destruct (Nat.eqb_spec k 0); [done|]. intros [= <-]. by rewrite Htake. }
  set (new := asked_in c clk chunk m) in *.
  assert (length new = (length (option_list clk) + (if Nat.eqb k 0 then 0 else 1) + m))%nat as Hnew.
  { unfold new. rewrite length_asked by done. unfold chunk. by destruct (Nat.eqb k 0). }
  pose proof (left_after c clk chunk m (serve (fb_devices w) (requests
    (start_address (gr_pdi_start g) + Z.of_nat (cy_bytes_sent c)) new)).1 Hm) as Hleft.
  assert (length (default [] chunk) = k) as Hck.
  { unfold chunk. destruct (Nat.eqb_spec k 0); [done|exact Htake]. }
  rewrite Hck, <- Hrest in Hleft. specialize (Hleft Hk). fold new in Hleft.
  rewrite (st_step _ _ _ _ _ Hpush). cbv beta iota. destruct (decide (length new = 0%nat)) as [Hn|Hn].
  - apply nil_length_inv in Hn. destruct (Hnone Hn) as (w' & Hrun & Hw' & Hd'). exists (inr c), w', pdi.
    split; [exact Hrun|]. split_and!; [done|by eapply progress_idle| |].
    { rewrite Hn in Hnew. destruct clk; [cbn in Hnew; lia|done]. }
    rewrite Hn in Hnew. destruct clk; [cbn in Hnew; lia|].
    destruct (Nat.eqb_spec k 0) as [Hk0|]; [ |cbn in Hnew; lia]. assert (m = 0%nat) as -> by (cbn in Hnew; lia).
    specialize (Hm0 eq_refl). destruct ps; [ |by specialize (Ha 0); apply Forall2_nil_inv_r in Ha].
    unfold chunk_asked in Ha1. cbv zeta in Ha1. fold k in Ha1. rewrite Hk0 in Ha1. cbn [Nat.eqb requests] in Ha1.
    apply Forall2_nil_inv_r in Ha1 as ->. apply (nothing_left c k 0); try done; [apply Hok|].
    by rewrite <- Hrest.
  - destruct (Hsome ltac:(by intros ->)) as (w' & Hrun & Hw' & Hd' & Hst); [ |].
    { assert (chunk_count new = if Nat.eqb k 0 then 0 else 1)%nat as Hc.
      { unfold new. rewrite chunk_count_asked. unfold chunk. by destruct (Nat.eqb k 0). }
      apply (wkcs_fit l new c w pdi H); rewrite Hc; destruct (Nat.eqb_spec k 0); lia. }
    eexists (inl _), w', _. split; [exact Hrun|]. exists new. split_and!.
    + apply progress_frame; try done. intros b Hb. destruct (Hchunk b Hb) as (H1 & H2 & H3). split_and!; [done| |done].
      rewrite H2. unfold k, chunk_room. rewrite Hused. fold room. clear -H3. destruct clk; lia.
    + apply clocks_asked.
    + intros r Hr. unfold new, asked_in. by rewrite Hr.
    + lia.
    + intros Hclk0. rewrite Hclk0 in Hnew. change (length (option_list None)) with 0%nat in Hnew. destruct (Nat.eqb_spec k 0); lia.
Qed.

(** Everything has been sent and every SubDevice checked. *)
Lemma nothing_left_all l c w pdi :
  progress l c w pdi -> left_of c = 0%nat -> sent_data l = take (gr_pdi_len g) pdi0 /\ checked l = gr_subdevices g.
Proof.
  intros H Hl. unfold left_of in Hl. pose proof (pg_bytes _ _ _ _ H). split.
  - rewrite (pg_sent _ _ _ _ H). f_equal. lia.
  - rewrite <- (pg_checked _ _ _ _ H). destruct (cy_subdevices c); [by rewrite app_nil_r|cbn in Hl; lia].
Qed.

Lemma checks_done l c w pdi :
  progress l c w pdi -> Nat.leb (group_len g) (cy_checks c) = true -> cy_subdevices c = [].
Proof.
  intros H Hc. apply Nat.leb_le in Hc. rewrite (pg_checks _ _ _ _ H) in Hc. unfold group_len in Hc.
  rewrite <- (pg_checked _ _ _ _ H), length_app in Hc. destruct (cy_subdevices c); [done|cbn in Hc; lia].
Qed.

Lemma tx_rx_step_ok l c w pdi :
  progress l c w pdi ->
  exists r w' pdi', tx_rx_step maindevice g c (w, pdi) = (Ok r, (w', pdi')) /\
    match r with
    | inl c' => exists new, progress (l ++ new) c' w' pdi' /\ clocks new = [] /\ (left_of c' < left_of c)%nat
    | inr c' => progress l c' w' pdi' /\ left_of c' = 0%nat
    end.
Proof.
  intros H. unfold tx_rx_step.
  destruct (Nat.eqb_spec (gr_pdi_len g - cy_bytes_sent c) 0) as [H0|H0];
    [destruct (Nat.leb (group_len g) (cy_checks c)) eqn:Hc|]; cbn [andb].
  { exists (inr c), w, pdi. split_and!; [done..|]. unfold left_of. rewrite (checks_done _ _ _ _ H Hc). cbn. lia. }
  all: rewrite (st_step _ _ _ _ _ (next_chunk_ok _ _ _ _ w H));
    destruct (alloc_ok w (pg_idle _ _ _ _ H)) as (cf & s & f & Ha & _ & Hf);
    rewrite (st_step (on_net _) _ _ cf (set_pdu_storage s w, pdi)) by (unfold on_net; by rewrite Ha);
    destruct (turn_ok l c w pdi None s cf [] f H Hf ltac:(intros; constructor) eq_refl (or_introl eq_refl))
      as (r & w' & pdi' & Hrun & Hr); rewrite bool_decide_false in Hrun by (by intros [? ?]);
    exists r, w', pdi'; (split; [exact Hrun|]); destruct r as [c'|c']; [|naive_solver];
    destruct Hr as (new & H1 & H2 & _ & _ & H3); exists new; auto.
Qed.

Lemma tx_rx_turns fuel : forall l c w pdi,
  progress l c w pdi -> clocks l = [] -> (left_of c < fuel)%nat ->
  exists l' c' w' pdi', iterate fuel (tx_rx_step maindevice g) c (w, pdi) = (Ok (Some c'), (w', pdi')) /\
    progress l' c' w' pdi' /\ clocks l' = [] /\ left_of c' = 0%nat.
Proof.
  induction fuel as [|fuel IH]; intros l c w pdi H Hl Hfuel; [lia|].
  destruct (tx_rx_step_ok l c w pdi H) as ([c'|c'] & w' & pdi' & Hstep & Hr).
  - destruct Hr as (new & H' & Hnew & Hleft). rewrite (iterate_inl _ _ _ _ _ _ Hstep). apply (IH (l ++ new)); [done| |lia].
    by rewrite clocks_app, Hl, Hnew.
  - exists l, c', w', pdi'. rewrite (iterate_inr _ _ _ _ _ _ Hstep). naive_solver.
Qed.

(** Whether the clock has been asked. *)
Definition clocked (dc_ref : Z) (l : list Asked) (c : Cycle) : Prop :=
  l = [] /\ cy_time c = None \/
  (clocks l = [dc_ref] /\ head l = Some (Clock dc_ref)) /\ is_Some (cy_time c).

Lemma time_known l c w pdi :
  progress l c w pdi -> length (clocks l) = 1%nat -> exists t, cy_time c = Some t /\ clock_times (answers l) = [t].
Proof.
  intros H Hl. destruct (answered_lengths _ _ _ (answers_fit _ _ _ _ H)) as [_ Ht]. fold (answers l) in Ht.
  rewrite Hl in Ht. rewrite (pg_time _ _ _ _ H). destruct (clock_times (answers l)) as [|t [|]]; try done. by exists t.
Qed.

Definition turns_left (c : Cycle) : nat := left_of c + match cy_time c with Some _ => 1 | None => 2 end.

Lemma tx_rx_dc_step_ok dc_ref l c w pdi :
  (36 <= fb_len)%nat -> progress l c w pdi -> clocked dc_ref l c ->
  exists r w' pdi', tx_rx_dc_step maindevice g dc_ref c (w, pdi) = (Ok r, (w', pdi')) /\
    match r with
    | inl c' => exists new, progress (l ++ new) c' w' pdi' /\ clocked dc_ref (l ++ new) c' /\ (turns_left c' < turns_left c)%nat
    | inr c' => exists new, progress (l ++ new) c' w' pdi' /\ (clocks (l ++ new) = [dc_ref] /\ head (l ++ new) = Some (Clock dc_ref)) /\ left_of c' = 0%nat
    end.
Proof.
  intros Hframe H Hclk. unfold tx_rx_dc_step.
  destruct (alloc_ok w (pg_idle _ _ _ _ H)) as (cf & s & f & Ha & _ & Hf).
  rewrite (st_step (on_net _) _ _ cf (set_pdu_storage s w, pdi)) by (unfold on_net; by rewrite Ha).
  set (clk := match cy_time c with Some _ => None | None => Some dc_ref end).
  assert (exists s1 cf1 f1 ps, push_dc dc_ref c cf (set_pdu_storage s w, pdi) =
      (Ok (bool_decide (is_Some clk), cf1), (set_pdu_storage s1 w, pdi)) /\ filling (pdu_storage w) s1 cf1 ps f1 /\
      (forall addr, asks ps (requests addr (pre_of clk None))) /\
      length (pdus_bytes ps) = match clk with Some _ => 20%nat | None => 0%nat end) as
    (s1 & cf1 & f1 & ps & Hdc & Hf1 & Hps & Hused).
  { unfold clk. destruct (cy_time c) as [t|] eqn:Ht.
    - exists s, cf, f, []. unfold push_dc. rewrite Ht, bool_decide_false by (by intros [? ?]). split_and!; try done.
      intros; constructor.
    - destruct (push_dc_ok dc_ref c cf s w pdi f (pg_idle _ _ _ _ H) Hframe Hf Ht) as (s1 & cf1 & f1 & ps & Hrun & Hl & Hf1 & Hps).
      exists s1, cf1, f1, ps. rewrite bool_decide_true by done. by split_and!. }
  rewrite (st_step _ _ _ _ _ Hdc). cbv beta iota zeta. rewrite (st_step _ _ _ _ _ (next_chunk_ok _ _ _ _ _ H)).
  destruct (turn_ok l c w pdi clk s1 cf1 ps f1 H Hf1 Hps Hused) as (r & w' & pdi' & Hrun & Hr).
  { unfold clk. destruct Hclk as [[-> ->]|[_ [? ->]]]; auto. }
  apply st_bind_ok in Hrun as ([pc cf2] & st & Hp & Hrun).
  rewrite (st_step _ _ _ _ _ Hp). cbv beta iota in Hrun |- *. rewrite (st_step _ _ _ _ _ Hrun).
  destruct r as [c'|c'].
  - destruct Hr as (new & H' & Hnew & Hhead & Hle & Hlt).
    assert (clocks (l ++ new) = [dc_ref] /\ head (l ++ new) = Some (Clock dc_ref)) as Hcl.
    { rewrite clocks_app, Hnew. unfold clk in *. destruct Hclk as [[-> Ht]|[[-> Hl] [? ->]]].
      - rewrite Ht in *. auto.
      - split; [done|]. by destruct l. }
    destruct (time_known _ _ _ _ H') as (t & Ht & _); [by rewrite (proj1 Hcl)|].
    assert (turns_left c' < turns_left c)%nat as Hturns.
    { unfold turns_left, clk in *. rewrite Ht. destruct (cy_time c); [|lia]. specialize (Hlt eq_refl). lia. }
    destruct (Nat.eqb_spec (gr_pdi_len g - cy_bytes_sent c) 0) as [H0|H0];
      [destruct (Nat.leb (group_len g) (cy_checks c')) eqn:Hc|]; cbn [andb].
    + exists (inr c'), w', pdi'. split; [done|]. exists new. split_and!; [done|apply Hcl|apply Hcl|].
      unfold left_of. rewrite (checks_done _ _ _ _ H' Hc), <- (sent_length _ _ _ _ H'), sent_data_app, length_app,
        (sent_length _ _ _ _ H). cbn [length]. lia.
    + exists (inl c'), w', pdi'. split; [done|]. exists new. split_and!; try done. right. split; [exact Hcl|by rewrite Ht].
    + exists (inl c'), w', pdi'. split; [done|]. exists new. split_and!; try done. right. split; [exact Hcl|by rewrite Ht].
  - destruct Hr as (-> & H' & Hclk' & Hleft). exists (inr c), w', pdi'. split; [done|]. exists []. rewrite app_nil_r.
    split; [done|]. split; [|done]. unfold clk in Hclk'. destruct Hclk as [[_ Ht]|[? _]]; [by rewrite Ht in Hclk'|done].
Qed.

Lemma tx_rx_dc_turns dc_ref fuel : (36 <= fb_len)%nat -> forall l c w pdi,
  progress l c w pdi -> clocked dc_ref l c -> (turns_left c <= fuel)%nat ->
  exists l' c' w' pdi', iterate fuel (tx_rx_dc_step maindevice g dc_ref) c (w, pdi) = (Ok (Some c'), (w', pdi')) /\
    progress l' c' w' pdi' /\ (clocks l' = [dc_ref] /\ head l' = Some (Clock dc_ref)) /\ left_of c' = 0%nat.
Proof.
  intros Hframe. induction fuel as [|fuel IH]; intros l c w pdi H Hl Hfuel.
  { unfold turns_left in Hfuel. destruct (cy_time c); lia. }
  destruct (tx_rx_dc_step_ok dc_ref l c w pdi Hframe H Hl) as ([c'|c'] & w' & pdi' & Hstep & new & H' & Hnew & Hleft).
  - rewrite (iterate_inl _ _ _ _ _ _ Hstep). apply (IH (l ++ new)); [done..|lia].
  - exists (l ++ new), c', w', pdi'. rewrite (iterate_inr _ _ _ _ _ _ Hstep). naive_solver.
Qed.

(** The loops return a cycle that is done. *)
Lemma tx_rx_loop_ok w :
  fb_idle w -> fb_devices w = d0 ->
  exists l c w' pdi, tx_rx_loop g (tx_rx_step maindevice g) (w, pdi0) = (Ok c, (w', pdi)) /\
    progress l c w' pdi /\ clocks l = [] /\ left_of c = 0%nat.
Proof.
  intros Hw Hd. destruct (tx_rx_turns (tx_rx_fuel g) [] (cycle_start g) w pdi0) as (l & c & w' & pdi & Hrun & H).
  - by apply progress_start.
  - done.
  - unfold left_of, tx_rx_fuel, group_len. cbn [cycle_start cy_bytes_sent cy_subdevices]. lia.
  - exists l, c, w', pdi. split; [|done]. unfold tx_rx_loop. by rewrite (st_step _ _ _ _ _ Hrun).
Qed.

Lemma tx_rx_dc_loop_ok dc_ref w :
  (36 <= fb_len)%nat -> fb_idle w -> fb_devices w = d0 ->
  exists l c w' pdi, tx_rx_loop g (tx_rx_dc_step maindevice g dc_ref) (w, pdi0) = (Ok c, (w', pdi)) /\
    progress l c w' pdi /\ (clocks l = [dc_ref] /\ head l = Some (Clock dc_ref)) /\ left_of c = 0%nat.
Proof.
  intros Hframe Hw Hd. destruct (tx_rx_dc_turns dc_ref (tx_rx_fuel g) Hframe [] (cycle_start g) w pdi0)
    as (l & c & w' & pdi & Hrun & H).
  - by apply progress_start.
  - by left.
  - unfold turns_left, left_of, tx_rx_fuel, group_len. cbn [cycle_start cy_bytes_sent cy_subdevices cy_time]. lia.
  - exists l, c, w', pdi. split; [|done]. unfold tx_rx_loop. by rewrite (st_step _ _ _ _ _ Hrun).
Qed.

End Cycle.

(** ** Properties *)

Section Properties.
Context {W D : Type} `{!PduNet W} `{!Devices D} `{!Fieldbus W D} {P : Profile}.

(** What is true of a cycle that asked [l] and left the image [pdi'] behind: the first
    [gr_pdi_len] bytes of the image went out and every SubDevice was checked, in order;
    what came back for the inputs is in the image, the rest of it as it was. *)
Record cycle_done {S DC} (g : SubDeviceGroup S DC) (l : list Asked) (w : W) (pdi : bytes) (w' : W) (pdi' : bytes)
    : Prop := {
  cd_sent : sent_data l = take (gr_pdi_len g) pdi;
  cd_checked : checked l = gr_subdevices g;
  cd_inputs : take (gr_read_pdi_len g) pdi' = take (gr_read_pdi_len g) (chunk_data (answers g (fb_devices w) l));
  cd_outputs : drop (gr_read_pdi_len g) pdi' = drop (gr_read_pdi_len g) pdi;
  cd_states : length (check_states (answers g (fb_devices w) l)) = group_len g;
  cd_idle : fb_idle w';
  cd_devices : fb_devices w' = (serve (fb_devices w) (requests (start_address (gr_pdi_start g)) l)).2;
}.

Lemma progress_done {S DC} (g : SubDeviceGroup S DC) B w pdi l c w' pdi' :
  cycle_ok (W:=W) (D:=D) g pdi B -> progress g (fb_devices w) pdi l c w' pdi' -> left_of g c = 0%nat ->
  cycle_done g l w pdi w' pdi'.
Proof.
  intros Hok H Hl. destruct (nothing_left_all g _ _ B Hok _ _ _ _ H Hl) as [Hs Hc].
  pose proof (data_length g _ _ B Hok _ _ _ _ H) as Hlen. pose proof (co_read _ _ _ Hok). pose proof (co_image _ _ _ Hok).
  assert (cy_bytes_sent c = gr_pdi_len g) as Hbytes.
  { pose proof (pg_bytes _ _ _ _ _ _ _ H). unfold left_of in Hl. lia. }
  destruct H. split; try done; rewrite ?pg_image0.
  - unfold with_inputs, splice. rewrite take_0, app_nil_l, take_app_le by (rewrite length_take; lia).
    by rewrite take_take, Nat.min_id.
  - unfold with_inputs, splice. rewrite take_0, app_nil_l, drop_app_ge by (rewrite length_take; lia).
    rewrite drop_drop. f_equal. rewrite length_take. lia.
  - rewrite <- pg_states0, pg_capacity0, Hc. done.
Qed.

(** C2: A cycle of process data ([tx_rx]) ends on a network that answers, when frames
    have room for 30 bytes at least, the image ends below 2^32 and is held by the
    buffer, the group has no more SubDevices than its capacity and the working
    counters of the chunks add up to less than 2^16 ([cycle_ok]).  Then every byte of the image is
    sent once and in order from the group's address on, and every SubDevice is asked
    for its state; the input bytes of the image become what came back for them, the
    output bytes stay; the response has the sum of the working counters of the image
    and the SubDevices' states, in order. *)
Theorem tx_rx_spec {S : TypeState} `{!HasPdi S} {DC} (maindevice : MainDevice) (g : SubDeviceGroup S DC) B w pdi :
  cycle_ok (W:=W) (D:=D) g pdi B -> fb_idle w ->
  exists l w' pdi', let ans := answers g (fb_devices w) l in
    tx_rx maindevice g (w, pdi) = (Ok (mkTxRxResponse (chunk_wkcs ans) (check_states ans) tt), (w', pdi')) /\
    cycle_done g l w pdi w' pdi' /\ clocks l = [].
Proof.
  intros Hok Hw. destruct (tx_rx_loop_ok maindevice g _ pdi B Hok w Hw eq_refl) as (l & c & w' & pdi' & Hrun & H & Hcl & Hl).
  exists l, w', pdi'. intros ans. split_and!; [|by eapply progress_done|done].
  unfold tx_rx. rewrite (st_step _ _ _ _ _ Hrun).
  by rewrite (pg_wkc _ _ _ _ _ _ _ H), (pg_states _ _ _ _ _ _ _ H).
Qed.

(** C17: The cycle with distributed clocks ([tx_rx_dc]) does what [tx_rx] does, under the
    same conditions on sizes and with frames of 36 bytes at least, and its
    first PDU, before any process data, is the one [FRMW] of the reference clock; the
    time it brings back decides when the next cycle is due. *)
Theorem tx_rx_dc_spec {S : TypeState} `{!HasPdi S} (maindevice : MainDevice) (g : SubDeviceGroup S HasDc) B w pdi :
  cycle_ok (W:=W) (D:=D) g pdi B -> (36 <= fb_len)%nat -> fb_idle w ->
  exists l w' pdi' time, let ans := answers g (fb_devices w) l in
    tx_rx_dc maindevice g (w, pdi) =
      ((mkTxRxResponse (chunk_wkcs ans) (check_states ans)) <$> cycle_info (gr_dc_conf g) time, (w', pdi')) /\
    cycle_done g l w pdi w' pdi' /\ clocks l = [reference (gr_dc_conf g)] /\ head l = Some (Clock (reference (gr_dc_conf g))) /\
    clock_times ans = [time].
Proof.
  intros Hok Hframe Hw. destruct (tx_rx_dc_loop_ok maindevice g _ pdi B Hok (reference (gr_dc_conf g)) w Hframe Hw eq_refl)
    as (l & c & w' & pdi' & Hrun & H & [Hcl Hhead] & Hl).
  destruct (time_known g _ pdi B Hok _ _ _ _ H) as (t & Ht & Ht'); [by rewrite Hcl|].
  exists l, w', pdi', t. intros ans. split_and!; [|by eapply progress_done|done..].
  unfold tx_rx_dc. rewrite (st_step _ _ _ _ _ Hrun), Ht, (pg_wkc _ _ _ _ _ _ _ H), (pg_states _ _ _ _ _ _ _ H).
  change (default 0 (Some t)) with t. unfold lift, mbind, St_bind. by destruct (cycle_info (gr_dc_conf g) t).
Qed.

(** [tx_rx_sync_system_time] is the same cycle, with the system time as its result;
    without a reference clock it is [tx_rx]. *)
Theorem tx_rx_sync_system_time_spec {S : TypeState} `{!HasPdi S} {DC} (maindevice : MainDevice)
    (g : SubDeviceGroup S DC) B w pdi :
  cycle_ok (W:=W) (D:=D) g pdi B -> (36 <= fb_len)%nat -> fb_idle w ->
  exists l w' pdi' time, let ans := answers g (fb_devices w) l in
    tx_rx_sync_system_time maindevice g (w, pdi) =
      (Ok (mkTxRxResponse (chunk_wkcs ans) (check_states ans) time), (w', pdi')) /\
    cycle_done g l w pdi w' pdi' /\ clocks l = option_list (dc_ref_address maindevice) /\
    clock_times ans = option_list time.
Proof.
  intros Hok Hframe Hw. unfold tx_rx_sync_system_time. destruct (dc_ref_address maindevice) as [dc_ref|].
  - destruct (tx_rx_dc_loop_ok maindevice g _ pdi B Hok dc_ref w Hframe Hw eq_refl)
      as (l & c & w' & pdi' & Hrun & H & [Hcl Hhead] & Hl).
    destruct (time_known g _ pdi B Hok _ _ _ _ H) as (t & Ht & Ht'); [by rewrite Hcl|].
    exists l, w', pdi', (Some t). split_and!; [|by eapply progress_done|done..].
    rewrite (st_step _ _ _ _ _ Hrun), Ht.
    by rewrite (pg_wkc _ _ _ _ _ _ _ H), (pg_states _ _ _ _ _ _ _ H).
  - destruct (tx_rx_loop_ok maindevice g _ pdi B Hok w Hw eq_refl) as (l & c & w' & pdi' & Hrun & H & Hcl & Hl).
    exists l, w', pdi', None. split_and!; [|by eapply progress_done|done|].
    + unfold tx_rx. rewrite st_bind_assoc, (st_step _ _ _ _ _ Hrun).
      by rewrite (pg_wkc _ _ _ _ _ _ _ H), (pg_states _ _ _ _ _ _ _ H).
    + destruct (answered_lengths _ _ _ (answers_fit g _ pdi B Hok _ _ _ _ H)) as [_ Ht].
      rewrite Hcl in Ht. by apply nil_length_inv in Ht.
Qed.

End Properties.

(** ** Witnesses *)

(** SubDevices that add one to every byte and count every PDU once. *)
Definition add_one (b : bytes) : bytes := (fun x => wrap 8 (x + 1)) <$> b.

#[local, program] Instance adders : Devices unit := {| dev_pdu d c a b := (add_one b, 1, d) |}.
Next Obligation.
  intros d c a b _. cbn. unfold add_one. split; [|apply length_fmap].
  apply Forall_fmap, Forall_true. intros x. apply wrap_in_u. lia.
Qed.
Next Obligation. intros. cbn. split; [lia|reflexivity]. Qed.

#[local] Instance checks_on : Profile := true.

(** One slot with room for [16] bytes of an image of forty, the inputs of which are 24;
    two SubDevices. *)
Definition adder_net : PduStorage * unit := (mkStorage [clear_first_pdu (zeroed_frame 44)] 44 0 0 false false false, tt).
Definition adder_group (DC : Type) (dc : DC) : SubDeviceGroup Op DC :=
  mkGroup 0 4 [] 24 40 [sample_subdevice; sample_subdevice] (mkPdiOffset 0x1000) dc.
Definition adder_image : bytes := replicate 24 7 ++ replicate 16 9.
Definition adder_main : MainDevice := mkMainDevice 2 0x1000 MainDeviceConfig_default.

Lemma adder_idle : fb_idle (Fieldbus:=looped_fieldbus 44) adder_net.
Proof.
  split; [|exists (clear_first_pdu (zeroed_frame 44)); by apply list_elem_of_singleton]. split_and!; [|done|by apply Nat.leb_le|done|].
  - apply (with_frame_wf 0 _ (mkStorage [zeroed_frame 44] 44 0 0 false false false)); [apply (storage_new_wf 1 44); reflexivity|].
    split; [reflexivity|apply Nat.leb_le; reflexivity].
  - constructor; [done|constructor].
Qed.

Lemma adder_ok {DC} (dc : DC) :
  cycle_ok (W:=PduStorage * unit) (D:=unit) (Fieldbus0:=looped_fieldbus 44) (adder_group DC dc) adder_image 1.
Proof.
  split.
  - apply Nat.leb_le. reflexivity.
  - cbn. lia.
  - reflexivity.
  - apply Nat.leb_le. reflexivity.
  - apply Nat.leb_le. reflexivity.
  - apply Nat.leb_le. reflexivity.
  - apply bytes_ok_app. split; apply Forall_replicate; (split; [lia|reflexivity]).
  - split; [lia|]. intros d c a b. cbn. lia.
  - reflexivity.
Qed.

(** The image of forty bytes goes out in three frames of sixteen, sixteen and eight. *)
Example adder_cycle :
  (let '(r, (_, pdi)) := tx_rx (S:=Op) (DC:=unit) adder_main (adder_group unit tt) (adder_net, adder_image) in
   (tr_working_counter <$> r, pdi)) = (Ok 3, replicate 24 8 ++ replicate 16 9).
Proof. vm_compute. reflexivity. Qed.

Lemma tx_rx_spec_witness :
  exists l w' pdi', let ans := answers (adder_group unit tt) tt l in
    tx_rx (S:=Op) adder_main (adder_group unit tt) (adder_net, adder_image) =
      (Ok (mkTxRxResponse (chunk_wkcs ans) (check_states ans) tt), (w', pdi')) /\
    cycle_done (Fieldbus0:=looped_fieldbus 44) (adder_group unit tt) l adder_net adder_image w' pdi' /\ clocks l = [].
Proof. apply (tx_rx_spec (Fieldbus0:=looped_fieldbus 44) adder_main (adder_group unit tt) 1); [apply adder_ok|apply adder_idle]. Defined.

Lemma tx_rx_dc_spec_witness :
  let g := adder_group HasDc (mkHasDc 1000 10 0x1000) in
  exists l w' pdi' time, let ans := answers g tt l in
    tx_rx_dc (S:=Op) adder_main g (adder_net, adder_image) =
      ((mkTxRxResponse (chunk_wkcs ans) (check_states ans)) <$> cycle_info (gr_dc_conf g) time, (w', pdi')) /\
    cycle_done (Fieldbus0:=looped_fieldbus 44) g l adder_net adder_image w' pdi' /\
    clocks l = [0x1000] /\ head l = Some (Clock 0x1000) /\ clock_times ans = [time].
Proof.
  intros g. apply (tx_rx_dc_spec (Fieldbus0:=looped_fieldbus 44) adder_main g 1);
    [apply adder_ok|apply Nat.leb_le; reflexivity|apply adder_idle].
Defined.
