(* ===== verification/PdiLayout.v ===== *)
(** * The layout of the process data image of a group

    Whatever the SubDevices answer, a mapping that succeeds gives each of them a range
    of inputs and a range of outputs of the image, one behind the other: the inputs of
    all, then the outputs of all. *)
From S2P Require Import Prelude Wire Derive DeriveEnum EscTypes Crates SiiTypes PduTypes Errors Bus Eeprom SubEeprom Ports Pdi MailboxTypes SubDevice Coe Configuration Frame TxRx PduNet Group SubDevicePdi EepromSpec CoeExchange.
Import Struct Enum.

(** ** Definitions *)

(** Segments one behind the other from [a] to [b]. *)
Fixpoint chained (a : Z) (l : list PdiSegment) (b : Z) : Prop :=
  match l with
  | [] => a = b
  | x :: l => seg_start x = a /\ a <= seg_end x /\ chained (seg_end x) l b
  end.

(** What a successful run leaves. *)
Definition yields {W A} (m : St (W * SubDevice) Error A) (Q : SubDevice -> A -> SubDevice -> Prop) : Prop :=
  forall w s a w' s', m (w, s) = (Ok a, (w', s')) -> Q s a s'.

(** The configuration stays. *)
Definition keeps {W A} (m : St (W * SubDevice) Error A) : Prop :=
  yields m (fun s _ s' => sd_config s' = sd_config s).

(** And the offset moves on by [n] bytes at most. *)
Definition advances {W} (p : PdiOffset) (n : Z) (m : St (W * SubDevice) Error PdiOffset) : Prop :=
  yields m (fun s o s' => sd_config s' = sd_config s /\
    start_address p <= start_address o <= start_address p + n).

Create HintDb keeps.

(** ** Lemmas *)

Section Keeps.
Context {W : Type}.
#[local] Abbreviation M := (St (W * SubDevice) Error).

Lemma keeps_bind {A B} (m : M A) (f : A -> M B) : keeps m -> (forall a, keeps (f a)) -> keeps (m ≫= f).
Proof.
  intros Hm Hf w s b w' s' H. apply st_bind_ok in H as (a & [w1 s1] & H1 & H2).
  by rewrite (Hf _ _ _ _ _ _ H2), (Hm _ _ _ _ _ H1).
Qed.

Lemma keeps_ret {A} (a : A) : keeps (mret a : M A).
Proof. by intros w s b w' s' [= _ _ ->]. Qed.
Lemma keeps_fail {A} e : keeps (fail e : M A).
Proof. by intros w s b w' s' H. Qed.
Lemma keeps_lift {A} (r : res Error A) : keeps (lift r : M A).
Proof. intros w s b w' s' H. unfold lift in H. by injection H as _ _ ->. Qed.
Lemma keeps_gets : keeps (gets snd : M SubDevice).
Proof. by intros w s b w' s' [= _ _ ->]. Qed.
Lemma keeps_on_bus {A} (m : St W Error A) : keeps (on_bus m).
Proof. intros w s b w' s' H. unfold on_bus in H. destruct (m w). by injection H as _ _ ->. Qed.
Lemma keeps_mailbox_counter : keeps (on_sub mailbox_counter : M Z).
Proof. intros w s b w' s' H. unfold on_sub, mailbox_counter in H. by injection H as _ _ <-. Qed.

Lemma keeps_iterate {A B} (step : A -> M (A + B)) :
  (forall a, keeps (step a)) -> forall fuel a, keeps (iterate fuel step a).
Proof.
  intros Hs. induction fuel as [|fuel IH]; intros a; [apply keeps_ret|].
  cbn [iterate]. apply keeps_bind; [done|]. intros [a'|b]; [apply IH|apply keeps_ret].
Qed.

Lemma keeps_loop `{!Timing} {A B} kind (step : A -> M (A + B)) a :
  (forall a, keeps (step a)) -> keeps (loop_with_timeout kind step a).
Proof.
  intros Hs. apply keeps_bind; [by apply keeps_iterate|].
  intros [b|]; [apply keeps_ret|]. apply keeps_bind; [apply keeps_lift|]. intros e. apply keeps_fail.
Qed.

End Keeps.

#[export] Hint Resolve keeps_ret keeps_fail keeps_lift keeps_gets keeps_on_bus keeps_mailbox_counter : keeps.

(** Follow the structure of a computation. *)
Ltac keeps_step :=
  match goal with
  | |- keeps ((fun _ => _) _) => cbv beta
  | |- keeps (_ ≫= _) => apply keeps_bind; [|intros ?]
  | |- keeps (loop_with_timeout _ _ _) => apply keeps_loop; intros ?
  | |- keeps (iterate _ _ _) => apply keeps_iterate; intros ?
  | |- keeps (if ?b then _ else _) => destruct b
  | |- keeps (match ?x with _ => _ end) => destruct x
  | |- _ => solve [auto with keeps]
  end.
Ltac keeps := repeat keeps_step.

Section Configuration.
Context {W : Type} `{!Bus W} `{!Timing} `{!EmbeddedIo} `{!Crates} {P : Profile}.

Lemma keeps_sub_read register : keeps (sub_read (W:=W) register).
Proof. unfold sub_read. keeps. Qed.
Lemma keeps_sub_write register : keeps (sub_write (W:=W) register).
Proof. unfold sub_write. keeps. Qed.
#[local] Hint Resolve keeps_sub_read keeps_sub_write : keeps.

Lemma keeps_by_address {A} (m : Z -> St W Error A) : keeps (by_address m).
Proof. unfold by_address. keeps. Qed.
Lemma keeps_from_eeprom {A} (m : forall D, Provider D -> St D Error A) : keeps (from_eeprom m).
Proof. apply keeps_by_address. Qed.
#[local] Hint Resolve keeps_by_address keeps_from_eeprom : keeps.

Lemma keeps_sm_status register : keeps (sm_status (W:=W) register).
Proof. unfold sm_status. keeps. Qed.
#[local] Hint Resolve keeps_sm_status : keeps.
Lemma keeps_wait_full kind register full : keeps (wait_full (W:=W) kind register full).
Proof. unfold wait_full, wait_step. keeps. Qed.
#[local] Hint Resolve keeps_wait_full : keeps.

Lemma keeps_mailbox_write_read {R} `{!CoeServiceRequest R} (request : R) : keeps (mailbox_write_read (W:=W) request).
Proof.
  unfold mailbox_write_read, wait_for_mailboxes, clear_step, send_request, wait_for_mailbox_response.
  keeps.
Qed.
#[local] Hint Resolve keeps_mailbox_write_read : keeps.

Lemma keeps_sdo_read_expedited {T} (r : WireRead T) index sub : keeps (sdo_read_expedited (W:=W) r index sub).
Proof. unfold sdo_read_expedited. keeps. Qed.
#[local] Hint Resolve keeps_sdo_read_expedited : keeps.

Lemma keeps_write_sm_config i sm len : keeps (write_sm_config (W:=W) i sm len).
Proof. unfold write_sm_config. keeps. Qed.
Lemma keeps_coe_mappings pdo n : forall i sum, keeps (coe_mappings (W:=W) pdo i n sum).
Proof. induction n as [|n IH]; intros i sum; cbn [coe_mappings]; keeps; try apply IH. Qed.
#[local] Hint Resolve keeps_write_sm_config keeps_coe_mappings : keeps.
Lemma keeps_coe_assignments address n : forall i sum, keeps (coe_assignments (W:=W) address i n sum).
Proof. induction n as [|n IH]; intros i sum; cbn [coe_assignments]; keeps; try apply IH. Qed.
#[local] Hint Resolve keeps_coe_assignments : keeps.

(** *** The offset *)

Lemma advances_ret p n : 0 <= n -> advances (W:=W) p n (mret p).
Proof. intros Hn w s o w' s' [= <- _ <-]. split; [done|lia]. Qed.

Lemma advances_after {A} p n (m : St (W * SubDevice) Error A) f :
  keeps m -> (forall a, advances p n (f a)) -> advances p n (m ≫= f).
Proof.
  intros Hm Hf w s o w' s' Hr. apply st_bind_ok in Hr as (a & [w1 s1] & Hm1 & Hm2).
  destruct (Hf _ _ _ _ _ _ Hm2) as [Hc Ho]. by rewrite Hc, (Hm _ _ _ _ _ Hm1).
Qed.

Lemma advances_trans p n k (m : St (W * SubDevice) Error PdiOffset) f :
  advances p n m ->
  (forall o, start_address p <= start_address o <= start_address p + n -> advances o k (f o)) ->
  advances p (n + k) (m ≫= f).
Proof.
  intros Hm Hf w s o w' s' Hr. apply st_bind_ok in Hr as (a & [w1 s1] & Hm1 & Hm2).
  destruct (Hm _ _ _ _ _ Hm1) as [Hc1 Ho1]. destruct (Hf _ Ho1 _ _ _ _ _ Hm2) as [Hc Ho].
  rewrite Hc, Hc1. split; [done|lia].
Qed.

Lemma advances_increment p bits :
  0 <= start_address p -> start_address p + 8192 <= 2 ^ 32 ->
  advances (W:=W) p 8191 (lift (increment_byte_aligned p bits)).
Proof.
  intros Hm0 Hm1 w s o w' s' Hr. unfold lift in Hr. injection Hr as Hr _ <-. split; [done|].
  unfold increment_byte_aligned in Hr. apply bind_ok in Hr as (b & Hb & Hr). apply checked_in_u in Hb; [|lia].
  unfold in_u in Hb. change (2 ^ 16) with 65536 in Hb.
  assert (0 <= b / 8 <= 8191) by (split; [apply Z.div_pos; lia|apply Z.lt_succ_r, Z.div_lt_upper_bound; lia]).
  unfold increment_inner, uadd in Hr. rewrite checked_ok in Hr by (unfold in_u; lia).
  cbn in Hr. apply ok_inj in Hr as <-. cbn. lia.
Qed.

Lemma advances_write_fmmu bits i p t sm :
  0 <= start_address p -> start_address p + 8192 <= 2 ^ 32 ->
  advances (W:=W) p 8191 (write_fmmu_config bits i p t sm).
Proof.
  intros Hm0 Hm1. unfold write_fmmu_config. do 4 (apply advances_after; [keeps|intros ?]).
  do 2 (apply advances_after; [keeps|intros ?]). by apply advances_increment.
Qed.

Lemma advances_coe_sm usage dir i sm p :
  0 <= start_address p -> start_address p + 8192 <= 2 ^ 32 ->
  advances (W:=W) p 8191 (coe_sm usage dir i sm p).
Proof.
  intros Hm0 Hm1. unfold coe_sm. destruct (filter_terms dir) as [t u].
  apply advances_after; [keeps|intros ?]. case_bool_decide; [apply advances_ret; lia|].
  do 4 (apply advances_after; [keeps|intros ?]). destruct (0 <? _); [|apply advances_ret; lia].
  apply advances_after; [keeps|intros ?]. by apply advances_write_fmmu.
Qed.

Lemma advances_eeprom_sm pdos mappings dir i sm p :
  0 <= start_address p -> start_address p + 8192 <= 2 ^ 32 ->
  advances (W:=W) p 8191 (eeprom_sm pdos mappings dir i sm p).
Proof.
  intros Hm0 Hm1. unfold eeprom_sm. case_bool_decide; [apply advances_ret; lia|].
  do 4 (apply advances_after; [keeps|intros ?]). by apply advances_write_fmmu.
Qed.

(** Over the SyncManagers of a SubDevice. *)
Lemma advances_sms (one : Z -> SyncManager -> PdiOffset -> St (W * SubDevice) Error PdiOffset)
    (all : Z -> list SyncManager -> PdiOffset -> St (W * SubDevice) Error PdiOffset) :
  (forall i p, all i [] p = mret p) ->
  (forall i sm sms p, all i (sm :: sms) p = (o ← one (wrap 8 i) sm p; all (i + 1) sms o)) ->
  (forall i sm p, 0 <= start_address p -> start_address p + 8192 <= 2 ^ 32 -> advances p 8191 (one i sm p)) ->
  forall sms i p, 0 <= start_address p -> start_address p + 8192 * Z.of_nat (length sms) <= 2 ^ 32 ->
  advances p (8191 * Z.of_nat (length sms)) (all i sms p).
Proof.
  intros Hnil Hcons Hone. induction sms as [|sm sms IH]; intros i p Hm0 Hm1.
  - rewrite Hnil. by apply advances_ret.
  - rewrite Hcons. cbn [length] in Hm1 |- *.
    replace (8191 * Z.of_nat (S (length sms))) with (8191 + 8191 * Z.of_nat (length sms)) by lia.
    apply advances_trans; [apply Hone; lia|]. intros o Ho. apply IH; lia.
Qed.

(** A loop that keeps [I] ends with [Q]. *)
Lemma iterate_post {S E A B} (step : A -> St S E (A + B)) (I : A -> Prop) (Q : B -> Prop) :
  (forall a s r s', I a -> step a s = (Ok r, s') -> match r with inl a' => I a' | inr b => Q b end) ->
  forall fuel a s b s', I a -> iterate fuel step a s = (Ok (Some b), s') -> Q b.
Proof.
  intros Hstep. induction fuel as [|fuel IH]; intros a s b s' Ha Hr; [done|].
  cbn [iterate] in Hr. apply st_bind_ok in Hr as (r & s1 & Hm1 & Hm2). specialize (Hstep _ _ _ _ Ha Hm1).
  destruct r as [a'|b']; [by apply (IH a' s1 b s')|]. injection Hm2 as -> _. exact Hstep.
Qed.

Lemma collect_items_length {D A} cap item (nx : St (D * EepromRange) Error (option A)) s l s' :
  collect_items cap item nx s = (Ok l, s') -> (length l <= cap)%nat.
Proof.
  intros Hr. unfold collect_items in Hr. apply st_bind_ok in Hr as (r & s1 & Hm1 & Hm2).
  destruct r as [l'|]; [|done]. injection Hm2 as -> _.
  refine (iterate_post _ (fun acc => length acc <= cap)%nat (fun l => length l <= cap)%nat _ _ [] _ _ _ _ Hm1);
    [|cbn; lia].
  intros acc s2 r s3 Hacc Hstep. apply st_bind_ok in Hstep as (x & s4 & _ & Hstep). destruct x as [x|].
  - apply st_bind_ok in Hstep as (acc' & s5 & Hpush & Hret). injection Hret as <- _.
    unfold lift in Hpush. injection Hpush as Hpush _. apply ok_or_ok in Hpush. rewrite vec_push_spec in Hpush.
    destruct (Nat.ltb_spec (length acc) cap); [|done]. injection Hpush as <-. rewrite length_app. cbn. lia.
  - by injection Hstep as <- _.
Qed.

Lemma with_range_inv {D A} r (m : St (D * EepromRange) Error A) d a r' d' :
  with_range r m d = (Ok (a, r'), d') -> m (d, r) = (Ok a, (d', r')).
Proof. unfold with_range. destruct (m (d, r)) as [[l0|e|] [d3 r3]]; intros [=]; congruence. Qed.

Lemma range_items_length {D A} cap item (nx : St (D * EepromRange) Error (option A)) (m : St D Error EepromRange) d l d' :
  (r ← m; '(l, _) ← with_range r (collect_items cap item nx); mret l) d = (Ok l, d') -> (length l <= cap)%nat.
Proof.
  intros Hr. apply st_bind_ok in Hr as (r & d1 & _ & Hr).
  apply st_bind_ok in Hr as ([l' r'] & d2 & Hw & Hr). injection Hr as -> _.
  apply with_range_inv in Hw. exact (collect_items_length _ _ _ _ _ _ Hw).
Qed.

Lemma sync_managers_length {D} `{!Provider D} d l d' :
  sync_managers d = (Ok l, d') -> (length l <= 8)%nat.
Proof. apply range_items_length. Qed.

(** *** One direction of a SubDevice *)

Lemma yields_from_eeprom {A} (m : forall D, Provider D -> St D Error A) (Q : A -> Prop) :
  (forall D (Hp : Provider D) d a d', m D Hp d = (Ok a, d') -> Q a) ->
  yields (from_eeprom (W:=W) m) (fun s a s' => s' = s /\ Q a).
Proof.
  intros Hm w s a w' s' Hr. unfold from_eeprom, by_address in Hr.
  apply st_bind_ok in Hr as (s0 & [w1 s1] & Hg & Hr). injection Hg as -> _ ->.
  unfold on_bus in Hr. destruct (m W (eeprom _) w1) as [r w2] eqn:He. injection Hr as -> -> ->.
  split; [done|]. exact (Hm _ _ _ _ _ He).
Qed.

Lemma sms_yield : yields (from_eeprom (W:=W) (fun D _ => sync_managers)) (fun s l s' => s' = s /\ (length l <= 8)%nat).
Proof. apply yields_from_eeprom. intros D Hp d a d'. apply sync_managers_length. Qed.

(** What mapping one direction leaves: the segment from the offset to the new one. *)
Definition maps (p : PdiOffset) (m : St (W * SubDevice) Error (PdiSegment * PdiOffset)) : Prop :=
  yields m (fun s r s' => sd_config s' = sd_config s /\ r.1 = up_to p r.2 /\
    start_address p <= start_address r.2 <= start_address p + 65528).

Lemma maps_after {A} p (m : St (W * SubDevice) Error A) f :
  keeps m -> (forall a, maps p (f a)) -> maps p (m ≫= f).
Proof.
  intros Hm Hf w s o w' s' Hr. apply st_bind_ok in Hr as (a & [w1 s1] & Hm1 & Hm2).
  destruct (Hf _ _ _ _ _ _ Hm2) as [Hc Ho]. by rewrite Hc, (Hm _ _ _ _ _ Hm1).
Qed.

Lemma maps_up_to p n (m : St (W * SubDevice) Error PdiOffset) :
  n <= 65528 -> advances p n m -> maps p (o ← m; mret (up_to p o, o)).
Proof.
  intros Hn Hm w s r w' s' Hr. apply st_bind_ok in Hr as (o & [w1 s1] & Hm1 & Hm2). injection Hm2 as <- _ <-.
  destruct (Hm _ _ _ _ _ Hm1) as [Hc Ho]. cbn [fst snd]. split_and!; [done|done|lia..].
Qed.

Lemma maps_coe sms usage dir p :
  (length sms <= 8)%nat -> 0 <= start_address p -> start_address p + 65536 <= 2 ^ 32 ->
  maps p (configure_pdos_coe (W:=W) sms usage dir p).
Proof.
  intros Hl Hm0 Hm1. apply (maps_up_to p (8191 * Z.of_nat (length sms))); [lia|].
  apply (advances_sms (coe_sm usage dir) (coe_sms usage dir)); [done|done| |done|lia].
  intros i sm q. apply advances_coe_sm.
Qed.

Lemma maps_eeprom sms dir p :
  (length sms <= 8)%nat -> 0 <= start_address p -> start_address p + 65536 <= 2 ^ 32 ->
  maps p (configure_pdos_eeprom (W:=W) sms dir p).
Proof.
  intros Hl Hm0 Hm1. unfold configure_pdos_eeprom. do 2 (apply maps_after; [apply keeps_from_eeprom|intros ?]).
  apply (maps_up_to p (8191 * Z.of_nat (length sms))); [lia|].
  match goal with |- advances _ _ (eeprom_sms ?pdos ?maps _ _ _ _) =>
    apply (advances_sms (eeprom_sm pdos maps dir) (eeprom_sms pdos maps dir)) end; [done|done| |done|lia].
  intros i sm q. apply advances_eeprom_sm.
Qed.

(** [configure_fmmus] with its parts left open. *)
Lemma segment_yields {U} p group_start dir (m1 : St (W * SubDevice) Error (list SyncManager))
    (m2 : St (W * SubDevice) Error U) (m3 : St (W * SubDevice) Error SubDeviceState)
    (body : list SyncManager -> U -> SubDevice -> St (W * SubDevice) Error (PdiSegment * PdiOffset)) :
  yields m1 (fun s l s' => s' = s /\ (length l <= 8)%nat) -> keeps m2 -> keeps m3 ->
  (forall sms usage s, (length sms <= 8)%nat -> maps p (body sms usage s)) ->
  0 <= group_start <= start_address p -> start_address p + 65536 <= 2 ^ 32 ->
  yields (sms ← m1; usage ← m2; state ← m3; s ← gets snd;
    if bool_decide (state <> SDS_PreOp)
    then fail (E_InvalidState SDS_PreOp state (sd_configured_address s)) else
    '(range, global_offset) ← body sms usage s;
    segment_start ← lift (usub 64 (seg_start range) group_start);
    segment_end ← lift (usub 64 (seg_end range) group_start);
    _ ← on_sub (fun s => (tt, set_io dir (mkPdiSegment segment_start segment_end) s));
    mret global_offset) (fun s o s' =>
    start_address p <= start_address o <= start_address p + 65528 /\
    sd_config s' = sd_config (set_io dir (mkPdiSegment (start_address p - group_start) (start_address o - group_start)) s)).
Proof.
  intros Hsms Hk2 Hk3 Hbody Hg Hp w s o w' s' Hr.
  apply st_bind_ok in Hr as (sms & [w1 s1] & Hm1 & Hr). apply Hsms in Hm1 as [-> Hl].
  apply st_bind_ok in Hr as (usage & [w2 s2] & Hm2 & Hr). apply Hk2 in Hm2.
  apply st_bind_ok in Hr as (st & [w3 s3] & Hm3 & Hr). apply Hk3 in Hm3.
  apply st_bind_ok in Hr as (s0 & [w4 s4] & Hm4 & Hr). injection Hm4 as -> _ ->.
  case_bool_decide; [done|].
  apply st_bind_ok in Hr as ([range q] & [w5 s5] & Hm5 & Hr).
  destruct (Hbody _ _ _ Hl _ _ _ _ _ Hm5) as (Hc & Hseg & Hq).
  cbn [fst snd] in Hseg, Hq. subst range. cbn [up_to seg_start seg_end] in Hr.
  apply st_bind_ok in Hr as (a & [w6 s6] & Hm6 & Hr). unfold lift, usub in Hm6.
  rewrite checked_ok in Hm6 by (unfold in_u; lia). injection Hm6 as <- -> ->.
  apply st_bind_ok in Hr as (b & [w7 s7] & Hm7 & Hr). unfold lift, usub in Hm7.
  rewrite checked_ok in Hm7 by (unfold in_u; lia). injection Hm7 as <- -> ->.
  apply st_bind_ok in Hr as ([] & [w8 s8] & Hm8 & Hr). injection Hm8 as _ <-. injection Hr as -> _ <-.
  split; [done|]. unfold set_io, set_config. cbn [sd_config]. by rewrite Hc, Hm3, Hm2.
Qed.

Lemma configure_fmmus_yields p group_start dir :
  0 <= group_start <= start_address p -> start_address p + 65536 <= 2 ^ 32 ->
  yields (configure_fmmus (W:=W) p group_start dir) (fun s o s' =>
    start_address p <= start_address o <= start_address p + 65528 /\
    sd_config s' = sd_config (set_io dir (mkPdiSegment (start_address p - group_start) (start_address o - group_start)) s)).
Proof.
  intros Hg Hp. apply (segment_yields p group_start dir (from_eeprom (fun D _ => sync_managers)) (from_eeprom (fun D _ => fmmus))
    (by_address state) (fun sms usage s => if mc_has_coe (cfg_mailbox (sd_config s))
      then configure_pdos_coe sms usage dir p else configure_pdos_eeprom sms dir p)); try done.
  - apply sms_yield.
  - apply keeps_from_eeprom.
  - apply keeps_by_address.
  - intros sms usage s Hl. destruct (mc_has_coe _); [apply maps_coe|apply maps_eeprom]; (done || lia).
Qed.

End Configuration.

(** *** The group *)

Definition io_of (dir : PdoDirection) (s : SubDevice) : PdiSegment :=
  match dir with MasterRead => io_input (io_segments s) | MasterWrite => io_output (io_segments s) end.
Definition other_direction (dir : PdoDirection) : PdoDirection :=
  match dir with MasterRead => MasterWrite | MasterWrite => MasterRead end.

(** The image of [g] in [pdi]: the inputs, then the outputs. *)
Record laid_out {S DC} (g : SubDeviceGroup S DC) (pdi : bytes) : Prop := {
  lo_inputs : chained 0 (io_of MasterRead <$> gr_subdevices g) (Z.of_nat (gr_read_pdi_len g));
  lo_outputs : chained (Z.of_nat (gr_read_pdi_len g)) (io_of MasterWrite <$> gr_subdevices g) (Z.of_nat (gr_pdi_len g));
  lo_fits : (gr_pdi_len g <= length pdi)%nat;
}.

Lemma chained_le l : forall a b, chained a l b -> a <= b.
Proof. induction l as [|x l IH]; intros a b; cbn; [lia|]. intros (Ha & Hx & H). apply IH in H. lia. Qed.

Lemma chained_lookup l : forall a b i x,
  chained a l b -> l !! i = Some x -> a <= seg_start x <= seg_end x /\ seg_end x <= b.
Proof.
  induction l as [|y l IH]; intros a b i x Hc Hi; [done|]. destruct Hc as (Ha & Hy & Hc). destruct i as [|i].
  - injection Hi as ->. apply chained_le in Hc. lia.
  - apply (IH _ _ i x) in Hc; [|done]. lia.
Qed.

Lemma chained_order l : forall a b i j x y,
  chained a l b -> l !! i = Some x -> l !! j = Some y -> (i < j)%nat -> seg_end x <= seg_start y.
Proof.
  induction l as [|z l IH]; intros a b i j x y Hc Hi Hj Hlt; [done|]. destruct Hc as (Ha & Hz & Hc).
  destruct j as [|j]; [lia|]. destruct i as [|i].
  - injection Hi as ->. destruct (chained_lookup l _ _ j y Hc Hj). lia.
  - apply (IH _ _ i j x y Hc Hi Hj). lia.
Qed.

Section Group.
Context {W : Type} `{!Bus W} `{!Timing} `{!EmbeddedIo} `{!Crates} {P : Profile}.

Lemma on_subdevice_ok {A} (m : St (W * SubDevice) Error A) s w a s' w' :
  on_subdevice m s w = (Ok (a, s'), w') -> m (w, s) = (Ok a, (w', s')).
Proof.
  unfold on_subdevice. destruct (m (w, s)) as [[x|e|] [w3 s3]]; [|done..]. intros [= -> -> ->]. done.
Qed.

Lemma configure_all_cons group_start dir p s l : configure_all_fmmus p group_start dir (s :: l) =
  ('(p, s) ← on_subdevice (configure_fmmus (W:=W) p group_start dir) s;
   '(l, p) ← configure_all_fmmus p group_start dir l; mret (s :: l, p)).
Proof. reflexivity. Qed.

Lemma all_fmmus_ok group_start dir l : forall p w l' o w',
  configure_all_fmmus p group_start dir l w = (Ok (l', o), w') ->
  0 <= group_start <= start_address p -> start_address p + 65536 * Z.of_nat (length l) <= 2 ^ 32 ->
  chained (start_address p - group_start) (io_of dir <$> l') (start_address o - group_start) /\
  start_address p <= start_address o <= start_address p + 65536 * Z.of_nat (length l) /\
  io_of (other_direction dir) <$> l' = io_of (other_direction dir) <$> l.
Proof.
  induction l as [|s l IH]; intros p w l' o w' Hr Hg Hp.
  { injection Hr as <- <- _. cbn. split_and!; try done; lia. }
  rewrite configure_all_cons in Hr. cbn [length] in Hp |- *.
  apply st_bind_ok in Hr as ([q s1] & w1 & Hs & Hr). apply st_bind_ok in Hr as ([l1 o1] & w2 & Hl & Hr).
  injection Hr as <- <- _.
  apply on_subdevice_ok in Hs. destruct (configure_fmmus_yields p group_start dir Hg ltac:(lia) _ _ _ _ _ Hs) as [Hq Hc].
  destruct (IH _ _ _ _ _ Hl) as (Hchain & Ho & Hother); [lia..|].
  rewrite !fmap_cons. cbn [chained].
  assert (io_of dir s1 = mkPdiSegment (start_address p - group_start) (start_address q - group_start) /\
    io_of (other_direction dir) s1 = io_of (other_direction dir) s) as [-> ->].
  { unfold io_of, io_segments. rewrite Hc. by destruct dir. }
  cbn [seg_start seg_end]. split_and!; [done|lia|exact Hchain|lia|lia|by rewrite Hother].
Qed.

End Group.

(** *** Slices of the image *)

(** A slice beside the part that is written. *)
Lemma get_range_splice_ne {A} (l : list A) a d i j :
  (a + length d <= length l)%nat -> (j <= a \/ a + length d <= i)%nat ->
  get_range (splice l a d) i j = get_range l i j.
Proof.
  intros Hl Hij. unfold get_range. rewrite length_splice by done.
  destruct (Nat.leb i j && Nat.leb j (length l))%bool; [|done]. f_equal.
  apply list_eq. intros k. destruct (decide (k < j - i)%nat) as [Hk|Hk].
  - rewrite !lookup_take_lt, !lookup_drop by done. apply splice_lookup_out; [done|]. lia.
  - by rewrite !lookup_take_ge by lia.
Qed.

Lemma get_range_splice_eq {A} (l : list A) a d :
  (a + length d <= length l)%nat -> get_range (splice l a d) a (a + length d) = Some d.
Proof.
  intros Hl. apply get_range_Some. rewrite length_splice by done. split; [lia|].
  replace (a + length d - a)%nat with (length d) by lia. unfold splice.
  rewrite drop_app_ge by (rewrite length_take; lia). rewrite length_take.
  replace (a - a `min` length l)%nat with 0%nat by lia. by rewrite drop_0, take_app_length.
Qed.

(** ** Properties *)

Section Properties.
Context {W : Type} `{!PduNet W} `{!Bus W} `{!Timing} `{!EmbeddedIo} `{!Crates} {P : Profile}.

Lemma configure_fmmus_laid_out {S DC} (g g' : SubDeviceGroup S DC) w w' :
  group_configure_fmmus (W:=W) g w = (Ok g', w') -> 0 <= start_address (gr_pdi_start g) ->
  start_address (gr_pdi_start g) + 131072 * Z.of_nat (group_len g) < 2 ^ 32 ->
  laid_out g' (gr_pdi g') /\ gr_pdi g' = gr_pdi g /\ gr_pdi_start g' = gr_pdi_start g /\ group_len g' = group_len g.
Proof.
  intros Hr Hg Hp. unfold group_configure_fmmus, group_len in *.
  apply st_bind_ok in Hr as ([l1 p1] & w1 & Hm1 & Hr).
  apply all_fmmus_ok in Hm1 as (Hc1 & Hp1 & Ho1); [|lia..]. pose proof (f_equal length Ho1) as Hl1.
  rewrite !length_fmap in Hl1.
  apply st_bind_ok in Hr as (n1 & w2 & Hn1 & Hr). unfold lift, usub in Hn1.
  rewrite checked_ok in Hn1 by (unfold in_u; lia). injection Hn1 as <- <-.
  apply st_bind_ok in Hr as ([l2 p2] & w3 & Hm2 & Hr).
  apply all_fmmus_ok in Hm2 as (Hc2 & Hp2 & Ho2); [|lia..]. pose proof (f_equal length Ho2) as Hl2.
  rewrite !length_fmap in Hl2. cbn [other_direction] in Ho2.
  apply st_bind_ok in Hr as (n2 & w4 & Hn2 & Hr). unfold lift, usub in Hn2.
  rewrite checked_ok in Hn2 by (unfold in_u; lia). injection Hn2 as <- <-.
  destruct (Z.ltb_spec (Z.of_nat (length (gr_pdi g))) (start_address p2 - start_address (gr_pdi_start g))); [done|].
  injection Hr as <- _. cbn [with_mapping gr_subdevices gr_pdi gr_pdi_start]. split_and!; [|done..|congruence].
  split; cbn [with_mapping gr_subdevices gr_read_pdi_len gr_pdi_len]; rewrite ?Z2Nat.id by lia.
  - rewrite Ho2. by rewrite Z.sub_diag in Hc1.
  - exact Hc2.
  - lia.
Qed.

End Properties.

(** ** Definitions for the witness *)

(** SubDevices in PRE-OP of which the EEPROM has two SyncManagers, one for inputs and
    one for outputs, and a PDO for each, of 12 and of 20 bits.  The state is the word
    of the EEPROM that was asked for last. *)
Definition io_eeprom : bytes :=
  zeros 128 ++
  [40; 0; 1; 0;  2; 1] ++
  [41; 0; 8; 0;  0x00; 0x11; 0; 0; 0x20; 0; 1; 4;  0x00; 0x10; 0; 0; 0x24; 0; 1; 3] ++
  [50; 0; 8; 0;  0x00; 0x1a; 1; 0; 0; 0; 0; 0;  0x00; 0x60; 1; 0; 5; 12; 0; 0] ++
  [51; 0; 8; 0;  0x00; 0x16; 1; 1; 0; 0; 0; 0;  0x00; 0x70; 1; 0; 5; 20; 0; 0] ++
  [255; 255; 0; 0; 0; 0; 0; 0].

Definition io_devices : Bus Z := {|
  bus_pdu command data len_override := fun word =>
    match command with
    | Read (Fprd _ r) =>
        let n := Z.to_nat (default 0 len_override) in
        (Ok (mkReceived 1
          (if r =? register_u16 R_SiiData then take n (drop (Z.to_nat (2 * word)) io_eeprom)
           else if r =? register_u16 R_AlStatus then [2; 0] else zeros n) []), word)
    | Write (Fpwr _ r) =>
        (Ok (mkReceived 1 data []), if r =? register_u16 R_SiiControl then le_val (drop 2 data) else word)
    | _ => (Ok (mkReceived 0 data []), word)
    end
|}.

(** ** Properties of the image *)

(** C4: Whatever the network answers, when the FMMUs of a group have been configured
    ([configure_fmmus]) the process data image is divided up: the inputs of the
    SubDevices lie one behind the other from byte 0 to [read_pdi_len], the outputs from
    there to [pdi_len], and that is at most the size of the image. *)
Theorem configure_fmmus_partitions {W} `{!Bus W} `{!Timing} `{!EmbeddedIo} `{!Crates} {P : Profile}
    {S DC} (g g' : SubDeviceGroup S DC) (w w' : W) :
  group_configure_fmmus g w = (Ok g', w') -> 0 <= start_address (gr_pdi_start g) ->
  start_address (gr_pdi_start g) + 131072 * Z.of_nat (group_len g) < 2 ^ 32 ->
  laid_out g' (gr_pdi g') /\ group_len g' = group_len g /\ gr_pdi_start g' = gr_pdi_start g /\ gr_pdi g' = gr_pdi g.
Proof. intros Hr Hg Hp. by destruct (configure_fmmus_laid_out g g' w w' Hr Hg Hp) as (? & ? & ? & ?). Qed.

(** C18: In a group that is laid out, writing to the outputs of a SubDevice changes
    nothing but those outputs: they read back as written, and the inputs of every
    SubDevice and the outputs of every other one stay. *)
Theorem outputs_isolated {S DC} `{!HasPdi S} (g : SubDeviceGroup S DC) (pdi : bytes) i (write : bytes -> bytes) :
  laid_out g pdi -> (i < group_len g)%nat -> (forall b, length (write b) = length b) ->
  exists b pdi', subdevice_pdi g i outputs_raw pdi = Ok b /\
    subdevice_pdi g i (fun s => outputs_raw_mut s write) pdi = Ok pdi' /\
    subdevice_pdi g i outputs_raw pdi' = Ok (write b) /\ laid_out g pdi' /\
    forall j, subdevice_pdi g j inputs_raw pdi' = subdevice_pdi g j inputs_raw pdi /\
      (j <> i -> subdevice_pdi g j outputs_raw pdi' = subdevice_pdi g j outputs_raw pdi).
Proof.
  intros Hlo Hi Hw. pose proof Hlo as [Hin Hout Hfit]. destruct (lookup_lt_is_Some_2 _ _ Hi) as [s Hs].
  assert ((io_of MasterWrite <$> gr_subdevices g) !! i = Some (io_of MasterWrite s)) as Hx by (by rewrite list_lookup_fmap, Hs).
  destruct (chained_lookup _ _ _ _ _ Hout Hx) as [Hlow Hhigh]. pose proof (chained_le _ _ _ Hin) as Hread.
  set (x := io_of MasterWrite s) in *.
  destruct (get_range pdi (Z.to_nat (seg_start x)) (Z.to_nat (seg_end x))) as [b|] eqn:Hb;
    [|apply get_range_None in Hb; lia].
  pose proof (get_range_length _ _ _ _ Hb) as Hlen. apply get_range_Some in Hb as Hb'. destruct Hb' as [Hrange _].
  assert (Z.to_nat (seg_end x) = Z.to_nat (seg_start x) + length (write b))%nat as Hend by (rewrite Hw; lia).
  assert (Z.to_nat (seg_start x) + length (write b) <= length pdi)%nat as Hroom by lia.
  exists b, (splice pdi (Z.to_nat (seg_start x)) (write b)). unfold subdevice_pdi, group_subdevice. rewrite Hs.
  assert (forall s p, outputs_raw s p = pdi_slice (io_of MasterWrite s) p) as Hraw by done.
  split_and!.
  - cbn [ok_or mbind res_bind res_bind_def]. rewrite Hraw. unfold pdi_slice. fold x. by rewrite Hb.
  - cbn [ok_or mbind res_bind res_bind_def]. unfold outputs_raw_mut, pdi_slice_mut, pdi_slice.
    change (io_output (io_segments s)) with x. by rewrite Hb.
  - cbn [ok_or mbind res_bind res_bind_def]. rewrite Hraw. unfold pdi_slice. fold x.
    by rewrite Hend, get_range_splice_eq.
  - split; [done..|]. by rewrite length_splice.
  - intros j. destruct (gr_subdevices g !! j) as [s'|] eqn:Hj; [|done]. cbn [ok_or mbind res_bind res_bind_def].
    assert (forall dir, (io_of dir <$> gr_subdevices g) !! j = Some (io_of dir s')) as Hy
      by (intros dir; by rewrite list_lookup_fmap, Hj).
    split.
    + unfold inputs_raw, pdi_slice. change (io_input (io_segments s')) with (io_of MasterRead s').
      pose proof (chained_lookup _ _ _ _ _ Hin (Hy MasterRead)). rewrite get_range_splice_ne; [done..|lia].
    + intros Hji. rewrite !Hraw. unfold pdi_slice. rewrite get_range_splice_ne; [done..|].
      destruct (decide (j < i)%nat).
      * pose proof (chained_order _ _ _ _ _ _ _ Hout (Hy MasterWrite) Hx). lia.
      * pose proof (chained_order _ _ _ _ _ _ _ Hout Hx (Hy MasterWrite)). lia.
Qed.

(** ** Witnesses *)

#[local] Instance the_io_devices : Bus Z := io_devices.
#[local] Instance the_io : EmbeddedIo := documented_io.
#[local] Instance the_crates : Crates := documented_crates.
#[local] Instance the_profile : Profile := true.
#[local] Instance the_timing : Timing := two_turns.

Definition io_subdevice : SubDevice := set_config SubDeviceConfig_default sample_subdevice.
Definition io_group : SubDeviceGroup PreOp unit :=
  mkGroup 0 4 (zeros 16) 0 0 [io_subdevice; io_subdevice] (mkPdiOffset 0x1000) tt.

(** Two bytes of inputs each, then three of outputs. *)
Definition io_mapped (S : TypeState) : SubDeviceGroup S unit :=
  let mapped i o := set_io MasterWrite o (set_io MasterRead i io_subdevice) in
  mkGroup 0 4 (zeros 16) 4 10
    [mapped (mkPdiSegment 0 2) (mkPdiSegment 4 7); mapped (mkPdiSegment 2 4) (mkPdiSegment 7 10)]
    (mkPdiOffset 0x1000) tt.

Lemma io_group_maps : group_configure_fmmus io_group 0 = (Ok (io_mapped PreOp), 97).
Proof. vm_compute. reflexivity. Qed.

Lemma configure_fmmus_partitions_witness :
  laid_out (io_mapped PreOp) (gr_pdi (io_mapped PreOp)) /\ group_len (io_mapped PreOp) = group_len io_group /\
  gr_pdi_start (io_mapped PreOp) = gr_pdi_start io_group /\ gr_pdi (io_mapped PreOp) = gr_pdi io_group.
Proof.
  apply (configure_fmmus_partitions io_group (io_mapped PreOp) 0 97); [exact io_group_maps|vm_compute; congruence|].
  vm_compute. reflexivity.
Defined.

Lemma outputs_isolated_witness :
  exists b pdi', subdevice_pdi (io_mapped Op) 1 outputs_raw (zeros 16) = Ok b /\
    subdevice_pdi (io_mapped Op) 1 (fun s => outputs_raw_mut s (fun b => 0xaa :: tail b)) (zeros 16) = Ok pdi' /\
    nth_error pdi' 7 = Some 0xaa.
Proof.
  destruct (outputs_isolated (io_mapped Op) (zeros 16) 1
    (fun b => match b with [] => [] | _ :: b => 0xaa :: b end)) as (b & pdi' & Hb & Hw & _).
  - split; vm_compute; [intuition congruence..|lia].
  - apply Nat.ltb_lt. reflexivity.
  - by intros [|].
  - exists b, pdi'. vm_compute in Hb, Hw. injection Hb as <-. injection Hw as <-. vm_compute. split_and!; reflexivity.
Defined.
