(* ===== verification/GroupStates.v ===== *)
(** * The states of a group and the clock of its cycle

    What a look at the states of a group sees on a network that answers, what the
    states of a response say together, and when the next cycle is due. *)
From S2P Require Import Prelude Wire Derive DeriveEnum EscTypes Crates SiiTypes PduTypes PduChain Errors Bus Frame CreatedFrame TxRx Samples Exchange CommandSpec PduNet Ports Pdi SubDevice CoeExchange Dc MainDevice Fieldbus Group GroupSpec.
Import Struct Enum.

(** ** Definitions *)

(** A state that has a bit of its own, or none. *)
Definition plain_state (s : SubDeviceState) : bool :=
  match s with SDS_Bootstrap | SDS_Other _ => false | _ => true end.

(** The states that are there: a SubDevice that does not answer reads as [SDS_None]. *)
Definition present (l : list SubDeviceState) : list SubDeviceState :=
  List.filter (fun s => negb (bool_decide (s = SDS_None))) l.

(** ** Lemmas *)

(** Whether a state is there, and the flags of four states. *)
Definition has (x : SubDeviceState) (l : list SubDeviceState) : bool := existsb (fun s => bool_decide (s = x)) l.
Definition flags (i p s o : bool) : Z :=
  Z.b2z i + 2 * Z.b2z p + 4 * Z.b2z s + 8 * Z.b2z o.

Lemma flags_of_states l : forall i p s o,
  Forall (fun x => plain_state x = true) l ->
  foldl (fun acc x => Z.lor acc (state_bits x)) (flags i p s o) l =
    flags (i || has SDS_Init l) (p || has SDS_PreOp l) (s || has SDS_SafeOp l) (o || has SDS_Op l).
Proof.
  induction l as [|x l IH]; intros i p s o Hl; [cbn; by rewrite !orb_false_r|].
  apply Forall_cons in Hl as [Hx Hl]. cbn [foldl].
  destruct x; try done; cbn [has existsb]; repeat case_bool_decide; try done; cbn [orb state_bits].
  all: [> replace (Z.lor (flags i p s o) 0x00) with (flags i p s o) by (by rewrite Z.lor_0_r)
        | replace (Z.lor (flags i p s o) 0x01) with (flags true p s o) by (by destruct i, p, s, o)
        | replace (Z.lor (flags i p s o) 0x02) with (flags i true s o) by (by destruct i, p, s, o)
        | replace (Z.lor (flags i p s o) 0x04) with (flags i p true o) by (by destruct i, p, s, o)
        | replace (Z.lor (flags i p s o) 0x08) with (flags i p s true) by (by destruct i, p, s, o)];
    rewrite (IH _ _ _ _ Hl); unfold has; by rewrite ?orb_true_r.
Qed.

Lemma group_state_flags {T} (r : TxRxResponse T) :
  Forall (fun s => plain_state s = true) (tr_subdevice_states r) ->
  group_state r = flags (has SDS_Init (tr_subdevice_states r)) (has SDS_PreOp (tr_subdevice_states r))
    (has SDS_SafeOp (tr_subdevice_states r)) (has SDS_Op (tr_subdevice_states r)).
Proof.
  intros H. unfold group_state. change 0 with (flags false false false false) at 1. rewrite flags_of_states by done.
  cbn [orb]. by destruct (has SDS_Init _), (has SDS_PreOp _), (has SDS_SafeOp _), (has SDS_Op _).
Qed.

Lemma has_present x l : x <> SDS_None -> has x l = has x (present l).
Proof.
  intros Hx. unfold has, present. induction l as [|s l IH]; [done|]. cbn [List.filter existsb].
  rewrite IH. destruct (decide (s = SDS_None)) as [->|Hs].
  - rewrite (bool_decide_true (SDS_None = SDS_None)), (bool_decide_false (SDS_None = x)) by congruence. done.
  - rewrite (bool_decide_false (s = SDS_None)) by done. done.
Qed.

Lemma present_plain l : Forall (fun s => plain_state s = true) l ->
  Forall (fun s => s = SDS_Init \/ s = SDS_PreOp \/ s = SDS_SafeOp \/ s = SDS_Op) (present l).
Proof.
  intros H. unfold present. induction H as [|s l Hs H IH]; [constructor|]. cbn [List.filter].
  destruct (decide (s = SDS_None)) as [->|Hne]; [by rewrite bool_decide_true|].
  rewrite bool_decide_false by done. constructor; [|done]. destruct s; try done; auto.
Qed.

(** The flags of a list of the same state, and of different ones. *)
Lemma has_same s l x : forallb (fun s' => bool_decide (s' = s)) l = true -> has x (s :: l) = bool_decide (s = x).
Proof.
  intros H. unfold has. cbn [existsb]. case_bool_decide; [done|]. cbn [orb].
  induction l as [|s' l IH]; [done|]. cbn [forallb existsb] in *. apply andb_true_iff in H as [Hs%bool_decide_eq_true H]. subst s'.
  rewrite bool_decide_false by done. auto.
Qed.

Lemma forallb_false {A} (f : A -> bool) l : forallb f l = false -> exists x, x ∈ l /\ f x = false.
Proof.
  induction l as [|x l IH]; cbn [forallb]; [done|]. destruct (f x) eqn:Hx; intros H.
  - destruct (IH H) as (y & Hy & Hf). exists y. split; [by right|done].
  - exists x. split; [by left|done].
Qed.

Lemma has_elem x l : x ∈ l -> has x l = true.
Proof.
  intros H. unfold has. apply existsb_exists. exists x. split; [by apply list_elem_of_In|]. by apply bool_decide_eq_true.
Qed.

(** *** The clock *)

Lemma cycle_info_ok {P : Profile} dc time :
  in_u 64 time -> 0 < sync0_period dc -> 0 <= sync0_shift dc -> sync0_period dc + sync0_shift dc < 2 ^ 64 ->
  cycle_info dc time = Ok (mkCycleInfo time (sync0_period dc - time mod sync0_period dc + sync0_shift dc)
    (time mod sync0_period dc)).
Proof.
  intros Ht Hp Hs Hsum. pose proof (Z.mod_pos_bound time _ Hp) as Hm. unfold in_u in Ht.
  unfold cycle_info, urem. rewrite (proj2 (Z.eqb_neq _ _)) by lia. msimpl.
  unfold usub, uadd. rewrite checked_ok by (unfold in_u; lia). msimpl. rewrite checked_ok by (unfold in_u; lia). done.
Qed.

(** *** Looking at the states of a group *)

Definition states_of {D} `{!Devices D} (d : D) (l : list SubDevice) : list SubDeviceState :=
  check_states (zip (StateCheck <$> l) (serve d (requests 0 (StateCheck <$> l))).1).
Definition after_checks {D} `{!Devices D} (d : D) (l : list SubDevice) : D :=
  (serve d (requests 0 (StateCheck <$> l))).2.
Definition all_in (desired : SubDeviceState) (l : list SubDeviceState) : bool :=
  forallb (fun s => bool_decide (s = desired)) l.

Lemma states_are_ok desired l : forall rs,
  Forall2 (fun (_ : SubDevice) r => bytes_ok (rd_data r) /\ length (rd_data r) = 2%nat) l rs ->
  states_are desired (Ok <$> rs) = Ok (all_in desired (check_states (zip (StateCheck <$> l) (reply <$> rs)))).
Proof.
  induction l as [|s l IH]; intros rs Hr.
  { by apply Forall2_nil_inv_l in Hr as ->. }
  apply Forall2_cons_inv_l in Hr as (r & rs' & [Hb H2] & Hr & ->).
  destruct (al_status_reads (rd_data r) Hb H2) as [st Hst].
  rewrite !fmap_cons. cbn [states_are]. change (Ok r ≫= ?f) with (f r). cbv beta.
  rewrite Hst. cbn [from_wire map_err]. change (Ok st ≫= ?f) with (f st). cbv beta.
  assert (check_states (zip (StateCheck s :: (StateCheck <$> l)) (reply r :: (reply <$> rs'))) =
    al_state st :: check_states (zip (StateCheck <$> l) (reply <$> rs'))) as ->.
  { unfold check_states. cbn [zip zip_with omap list_omap]. unfold reply at 1. by rewrite Hst. }
  cbn [all_in forallb]. destruct (decide (al_state st = desired)) as [Heq|Hne].
  - rewrite bool_decide_true by done. by apply IH.
  - by rewrite bool_decide_false by done.
Qed.

Section States.
#[local] Set Default Proof Using "Type*".
Context {W D : Type} `{!PduNet W} `{!Devices D} `{!Fieldbus W D} {P : Profile}.
Context (maindevice : MainDevice) (desired : SubDeviceState).

Lemma states_of_app (d : D) l1 l2 :
  states_of d (l1 ++ l2) = states_of d l1 ++ states_of (after_checks d l1) l2 /\
  after_checks d (l1 ++ l2) = after_checks (after_checks d l1) l2.
Proof.
  unfold states_of, after_checks. rewrite fmap_app, requests_app, sent_data_checks, serve_app. cbn [length fst snd].
  rewrite Z.add_0_r. split; [|done].
  rewrite zip_with_app by (by rewrite length_serve, length_requests). apply omap_app.
Qed.

Lemma is_state_step_ok n sds total w :
  (30 <= fb_len)%nat -> fb_idle w -> (total + length sds = n)%nat ->
  exists m r w', is_state_step maindevice n desired (sds, total) w = (Ok r, w') /\ (m <= length sds)%nat /\
    let l := take m sds in
    fb_idle w' /\ fb_devices w' = after_checks (fb_devices w) l /\
    r = (if Nat.eqb m 0 then inr true
      else if all_in desired (states_of (fb_devices w) l) then inl (drop m sds, total + m)%nat else inr false) /\
    (m = 0%nat -> sds = []).
Proof.
  intros Hroom Hw Hn. destruct (fb_storage w Hw) as (_ & Hlen & Hmax & _).
  destruct (alloc_ok w Hw) as (cf & s & f & Ha & _ & Hf). unfold is_state_step.
  rewrite (st_step _ _ _ _ _ Ha).
  destruct (push_state_checks_ok (pdu_storage w) 0 sds 0 s cf [] f Hf ltac:(by rewrite Hlen))
    as (m & s1 & cf1 & f1 & ps & Hpush & Hi & Hf1 & Hask & Hm & Hm0). cbn [app] in Hf1. rewrite Nat.add_0_l in Hpush.
  assert (m = 0%nat -> sds = []) as Hnil.
  { intros Hz. destruct (Hm0 Hz) as [|Hfull]; [done|]. cbn in Hfull. lia. }
  rewrite (st_step _ _ _ _ _ (push_into_ok _ _ _ _ _ _ _ Hpush)). cbv beta iota.
  assert (length ps = m) as Hps.
  { apply Forall2_length in Hask. rewrite length_requests, length_fmap, length_take in Hask. lia. }
  exists m. destruct (Nat.eqb_spec m 0) as [Hz|Hz].
  - destruct ps; [|cbn in Hps; lia].
    destruct (drop_frame_ok w s1 cf1 f1 Hw Hf1) as (w' & Hdrop & Hw' & Hd'). rewrite (st_step _ _ _ _ _ Hdrop).
    exists (inr true), w'. rewrite (Hnil Hz), take_nil in *. cbn [length] in Hn.
    assert (Nat.eqb total n = true) as -> by (apply Nat.eqb_eq; lia). cbn [negb]. rewrite andb_false_r.
    split_and!; try done.
  - destruct (frame_roundtrip w s1 cf1 ps f1 _ (retries_of maindevice) Hw Hf1 ltac:(lia) Hask)
      as (rs & w1 & w2 & Hsend & Hinto & Hw2 & Hrs & Hd2).
    rewrite (st_step _ _ _ _ _ Hsend), (st_step _ _ _ _ _ Hinto).
    change ((fun r => (rd_data r, rd_wkc r)) <$> rs) with (reply <$> rs) in Hrs.
    rewrite (st_step (lift _) _ _ (all_in desired (states_of (fb_devices w) (take m sds))) w2).
    2: { unfold lift. rewrite (states_are_ok desired (take m sds)); [by rewrite Hrs|].
      apply (checks_fit _ _ 0). rewrite Hrs. apply requests_fit, requests_ok. rewrite sent_data_checks. constructor. }
    eexists _, w2. by split_and!.
Qed.

Lemma is_state_turns n fuel : forall sds total w,
  (30 <= fb_len)%nat -> fb_idle w -> (total + length sds = n)%nat -> (length sds < fuel)%nat ->
  exists k b w', iterate fuel (is_state_step maindevice n desired) (sds, total) w = (Ok (Some b), w') /\
    (k <= length sds)%nat /\ fb_idle w' /\ fb_devices w' = after_checks (fb_devices w) (take k sds) /\
    b = all_in desired (states_of (fb_devices w) (take k sds)) /\ (b = true -> k = length sds).
Proof.
  induction fuel as [|fuel IH]; intros sds total w Hroom Hw Hn Hfuel; [lia|].
  destruct (is_state_step_ok n sds total w Hroom Hw Hn) as (m & r & w' & Hstep & Hm & Hw' & Hd & -> & Hnil).
  destruct (Nat.eqb_spec m 0) as [Hz|Hz].
  - exists 0%nat, true, w'. rewrite (iterate_inr _ _ _ _ _ _ Hstep). subst m. rewrite (Hnil eq_refl) in *.
    rewrite take_nil in *. by split_and!.
  - destruct (all_in desired (states_of (fb_devices w) (take m sds))) eqn:Hall.
    + rewrite (iterate_inl _ _ _ _ _ _ Hstep).
      destruct (IH (drop m sds) (total + m)%nat w' Hroom Hw') as (k & b & w2 & Hrun & Hk & Hw2 & Hd2 & Hb & Hbk);
        [rewrite length_drop; lia..|]. rewrite length_drop in Hk, Hbk.
      exists (m + k)%nat, b, w2. rewrite <- take_take_drop.
      destruct (states_of_app (fb_devices w) (take m sds) (take k (drop m sds))) as [-> ->]. rewrite <- Hd.
      split_and!; [done|lia|done|done| |intros Ht; specialize (Hbk Ht); lia].
      rewrite Hb. unfold all_in in *. by rewrite forallb_app, Hall.
    + exists m, false, w'. rewrite (iterate_inr _ _ _ _ _ _ Hstep). by split_and!.
Qed.

Lemma is_state_ok {S DC} (g : SubDeviceGroup S DC) w :
  (30 <= fb_len)%nat -> fb_idle w ->
  exists k b w', is_state maindevice desired g w = (Ok b, w') /\ (k <= group_len g)%nat /\ fb_idle w' /\
    fb_devices w' = after_checks (fb_devices w) (take k (gr_subdevices g)) /\
    b = all_in desired (states_of (fb_devices w) (take k (gr_subdevices g))) /\ (b = true -> k = group_len g).
Proof using Fieldbus0.
  intros Hroom Hw. unfold is_state.
  destruct (is_state_turns (group_len g) (Datatypes.S (group_len g)) (gr_subdevices g) 0 w Hroom Hw)
    as (k & b & w' & Hrun & H); [done|unfold group_len; lia|].
  rewrite (st_step _ _ _ _ _ Hrun). by exists k, b, w'.
Qed.

(** The turns of the wait. *)
Lemma ready_turns {S DC} (g : SubDeviceGroup S DC) (ready : nat -> D -> Prop) :
  (forall d, ready 0%nat d -> all_in desired (states_of d (gr_subdevices g)) = true) ->
  (forall j d k, ready (Datatypes.S j) d -> ready j (after_checks d (take k (gr_subdevices g)))) ->
  (30 <= fb_len)%nat -> forall fuel j w, fb_idle w -> ready j (fb_devices w) -> (j < fuel)%nat ->
  exists d w', iterate fuel (fun _ : unit => ok ← is_state maindevice desired g;
      mret (if ok : bool then inr tt else inl tt)) tt w = (Ok (Some tt), w') /\ fb_idle w' /\
    all_in desired (states_of d (gr_subdevices g)) = true /\ fb_devices w' = after_checks d (gr_subdevices g).
Proof using Fieldbus0.
  intros H0 HS Hroom. induction fuel as [|fuel IH]; intros j w Hw Hj Hfuel; [lia|].
  destruct (is_state_ok g w Hroom Hw) as (k & b & w' & Hrun & Hk & Hw' & Hd & Hb & Hbk).
  destruct b.
  - rewrite (Hbk eq_refl) in *. unfold group_len in *. rewrite firstn_all in *. exists (fb_devices w), w'.
    erewrite iterate_inr; [by split_and!|]. by rewrite (st_step _ _ _ _ _ Hrun).
  - erewrite iterate_inl; [|by rewrite (st_step _ _ _ _ _ Hrun)].
    destruct j as [|j]; [|apply (IH j); [done|by rewrite Hd; apply HS|lia]].
    apply H0 in Hj. rewrite <- (take_drop k (gr_subdevices g)) in Hj.
    rewrite (proj1 (states_of_app _ _ _)) in Hj. unfold all_in in *. rewrite forallb_app, <- Hb in Hj. done.
Qed.

End States.

(** ** Properties *)

(** C25: The wait a cycle with clocks returns ([tx_rx_dc]) ends [sync0_shift] into a
    SYNC0 period: it is at least the shift and no more than a period longer, and the
    system time after it is the shift, modulo the period, behind the first SYNC0 pulse
    that [configure_dc_sync] programs, whenever that was. *)
Theorem cycle_info_spec {P : Profile} dc time system_time delay :
  in_u 64 time -> 0 < sync0_period dc -> 0 <= sync0_shift dc -> sync0_period dc + sync0_shift dc < 2 ^ 64 ->
  let first_pulse := (system_time + delay) / sync0_period dc * sync0_period dc in
  exists info, cycle_info dc time = Ok info /\ dc_system_time info = time /\
    sync0_shift dc < next_cycle_wait info <= sync0_shift dc + sync0_period dc /\
    (time + next_cycle_wait info - first_pulse) mod sync0_period dc = sync0_shift dc mod sync0_period dc /\
    cycle_start_offset info = (time - first_pulse) mod sync0_period dc.
Proof.
  intros Ht Hp Hs Hsum first_pulse. eexists. split; [by apply cycle_info_ok|].
  cbn [dc_system_time next_cycle_wait cycle_start_offset]. pose proof (Z.mod_pos_bound time _ Hp) as Hm.
  pose proof (Z.div_mod time (sync0_period dc) ltac:(lia)) as Hd. unfold first_pulse.
  split_and!; [done|lia|lia| |].
  - replace (time + (sync0_period dc - time mod sync0_period dc + sync0_shift dc) -
      (system_time + delay) / sync0_period dc * sync0_period dc)
      with (sync0_shift dc + (time / sync0_period dc + 1 - (system_time + delay) / sync0_period dc) * sync0_period dc) by lia.
    by rewrite Z.mod_add by lia.
  - replace (time - (system_time + delay) / sync0_period dc * sync0_period dc)
      with (time + - ((system_time + delay) / sync0_period dc) * sync0_period dc) by lia.
    by rewrite Z.mod_add by lia.
Qed.

(** C26: For states other than BOOTSTRAP and unknown ones, [group_in_single_state] is
    the state all SubDevices that report one are in, and nothing when they differ;
    [all_op] holds exactly when some SubDevice reports OP and none reports another
    state.  A SubDevice that does not answer the check does not count. *)
Theorem group_state_spec {T} (r : TxRxResponse T) :
  Forall (fun s => plain_state s = true) (tr_subdevice_states r) ->
  group_in_single_state r =
    match present (tr_subdevice_states r) with
    | [] => Some SDS_None
    | s :: l => if forallb (fun s' => bool_decide (s' = s)) l then Some s else None
    end /\
  (all_op r = true <-> present (tr_subdevice_states r) <> [] /\
    Forall (fun s => s = SDS_Op) (present (tr_subdevice_states r))).
Proof.
  intros H. unfold all_op. assert (group_in_single_state r =
    match present (tr_subdevice_states r) with
    | [] => Some SDS_None
    | s :: l => if forallb (fun s' => bool_decide (s' = s)) l then Some s else None
    end) as Hsingle.
  { unfold group_in_single_state. rewrite group_state_flags by done. pose proof (present_plain _ H) as Hp.
    rewrite !(has_present _ (tr_subdevice_states r)) by done.
    destruct (present (tr_subdevice_states r)) as [|s l]; [done|].
    destruct (forallb _ l) eqn:Hall.
    - rewrite !(has_same s l) by done. apply Forall_cons in Hp as [Hs _].
      by destruct Hs as [-> |[-> |[-> | -> ]]].
    - destruct (forallb_false _ _ Hall) as (s' & Hin & Hne). pose proof (has_elem s (s :: l) ltac:(set_solver)) as H1.
      pose proof (has_elem s' (s :: l) ltac:(set_solver)) as H2. apply bool_decide_eq_false in Hne.
      pose proof (proj1 (List.Forall_forall _ _) Hp) as Hp'.
      pose proof (Hp' s ltac:(left; done)) as Hs. pose proof (Hp' s' ltac:(right; by apply list_elem_of_In)) as Hs'.
      destruct Hs as [Hs|[Hs|[Hs|Hs]]], Hs' as [Hs'|[Hs'|[Hs'|Hs']]]; subst s s'; try done; rewrite H1, H2;
        by destruct (has SDS_Init _), (has SDS_PreOp _), (has SDS_SafeOp _), (has SDS_Op _). }
  split; [done|]. rewrite Hsingle. destruct (present (tr_subdevice_states r)) as [|s l].
  - rewrite bool_decide_false by done. naive_solver.
  - split.
    + intros Hop%bool_decide_eq_true. destruct (forallb _ l) eqn:Hall; [|done]. injection Hop as ->.
      split; [done|]. constructor; [done|]. apply List.Forall_forall. intros x Hx.
      apply (proj1 (forallb_forall _ _) Hall) in Hx. by apply bool_decide_eq_true in Hx.
    + intros [_ Hop]. apply Forall_cons in Hop as [-> Hop]. apply bool_decide_eq_true.
      assert (forallb (fun s' => bool_decide (s' = SDS_Op)) l = true) as ->; [|done].
      apply forallb_forall. intros x Hx. apply bool_decide_eq_true. by apply (proj1 (List.Forall_forall _ _) Hop).
Qed.

(** Looking whether a group is in a state ([is_state]) ends on a network that
    answers, with frames that hold one check at least: SubDevices are asked in order,
    and the answer is whether all that were asked are in that state; when it is yes,
    all of them were asked. *)
Theorem is_state_spec {W D} `{!PduNet W} `{!Devices D} `{!Fieldbus W D} {P : Profile} {S DC}
    (maindevice : MainDevice) (g : SubDeviceGroup S DC) desired (w : W) :
  (30 <= fb_len)%nat -> fb_idle w ->
  exists k b w', is_state maindevice desired g w = (Ok b, w') /\ (k <= group_len g)%nat /\
    let asked := take k (gr_subdevices g) in
    b = all_in desired (states_of (fb_devices w) asked) /\ (b = true -> asked = gr_subdevices g) /\
    fb_idle w' /\ fb_devices w' = after_checks (fb_devices w) asked.
Proof.
  intros Hroom Hw. destruct (is_state_ok maindevice desired g w Hroom Hw) as (k & b & w' & Hrun & Hk & Hw' & Hd & Hb & Hbk).
  exists k, b, w'. split; [done|]. split; [done|]. intros asked. split_and!; try done.
  intros Ht. unfold asked. rewrite (Hbk Ht). by apply firstn_all.
Qed.

(** C19: Waiting for a state ([wait_for_state] of a group) succeeds when the SubDevices
    are in it within fewer looks than the timeout allows: let [ready j] say of the
    SubDevices that they need [j] more looks at most, however many of them each look
    asks; then the wait ends with [Ok], and its last look saw every SubDevice of the
    group in that state. *)
Theorem group_wait_live {W D} `{!PduNet W} `{!Devices D} `{!Fieldbus W D} {TM : Timing} {P : Profile} {S DC}
    (maindevice : MainDevice) (g : SubDeviceGroup S DC) desired (ready : nat -> D -> Prop) j (w : W) :
  (forall d, ready 0%nat d -> all_in desired (states_of d (gr_subdevices g)) = true) ->
  (forall j d k, ready (Datatypes.S j) d -> ready j (after_checks d (take k (gr_subdevices g)))) ->
  (30 <= fb_len)%nat -> fb_idle w -> ready j (fb_devices w) -> (j < patience TK_StateTransition)%nat ->
  exists d w', group_wait_for_state maindevice desired g w = (Ok tt, w') /\ fb_idle w' /\
    all_in desired (states_of d (gr_subdevices g)) = true /\ fb_devices w' = after_checks d (gr_subdevices g).
Proof.
  intros H0 HS Hroom Hw Hj Hpatience. unfold group_wait_for_state, loop_with_timeout.
  destruct (ready_turns maindevice desired g ready H0 HS Hroom _ j w Hw Hj Hpatience) as (d & w' & Hrun & Hdone).
  exists d, w'. split; [|exact Hdone]. by rewrite (st_step _ _ _ _ _ Hrun).
Qed.

(** ** Witnesses *)

#[local] Existing Instance adders.
#[local] Existing Instance checks_on.
#[local] Existing Instance looped.
#[local] Instance adder_bus : Fieldbus (PduStorage * unit) unit := looped_fieldbus 44.
#[local] Instance waiting : Timing := two_turns.

Lemma cycle_info_spec_witness :
  let dc := mkHasDc 1000 250 0x1000 in
  exists info, cycle_info dc 123456 = Ok info /\ next_cycle_wait info = 794 /\
    (123456 + next_cycle_wait info - (5600 + 100) / 1000 * 1000) mod 1000 = 250.
Proof.
  intros dc. destruct (cycle_info_spec dc 123456 5600 100) as (info & Hrun & _ & _ & Hmod & _).
  - split; [lia|reflexivity].
  - reflexivity.
  - cbn. lia.
  - reflexivity.
  - exists info. split; [exact Hrun|]. split; [|exact Hmod]. vm_compute in Hrun. by injection Hrun as <-.
Defined.

Lemma group_state_spec_witness :
  let r := mkTxRxResponse 3 [SDS_Op; SDS_None; SDS_Op] tt in
  group_in_single_state r = Some SDS_Op /\ all_op r = true.
Proof.
  intros r. destruct (group_state_spec r) as [H1 H2]; [by repeat constructor|].
  split; [exact H1|]. apply H2. split; [done|by repeat constructor].
Defined.

(** The SubDevices answer every state check with the state INIT. *)
Lemma is_state_spec_witness :
  exists k b w', is_state adder_main SDS_Init (adder_group unit tt) adder_net = (Ok b, w') /\
    (k <= group_len (adder_group unit tt))%nat /\
    let asked := take k (gr_subdevices (adder_group unit tt)) in
    b = all_in SDS_Init (states_of tt asked) /\ (b = true -> asked = gr_subdevices (adder_group unit tt)) /\
    fb_idle w' /\ fb_devices w' = after_checks tt asked.
Proof. apply (is_state_spec (Fieldbus0:=adder_bus) adder_main (adder_group unit tt) SDS_Init adder_net); [apply Nat.leb_le; reflexivity|apply adder_idle]. Defined.

Lemma group_wait_live_witness :
  exists d w', group_wait_for_state adder_main SDS_Init (adder_group unit tt) adder_net = (Ok tt, w') /\ fb_idle w' /\
    all_in SDS_Init (states_of d (gr_subdevices (adder_group unit tt))) = true /\
    fb_devices w' = after_checks d (gr_subdevices (adder_group unit tt)).
Proof.
  apply (group_wait_live (Fieldbus0:=adder_bus) adder_main (adder_group unit tt) SDS_Init (fun _ _ => True) 0 adder_net).
  - intros d _. destruct d. vm_compute. reflexivity.
  - done.
  - apply Nat.leb_le; reflexivity.
  - apply adder_idle.
  - done.
  - apply Nat.ltb_lt. reflexivity.
Defined.
