(* ===== verification/ClockRegisters.v ===== *)
(** * The registers of the synchronisation unit

    What [configure_dc_sync] ([subdevice_group/mod.rs]) leaves in the SubDevices
    whose clocks it starts, on a bus whose registers are memory. *)
From stdpp Require Import list.
From S2P Require Import Prelude Wire EscTypes PduTypes Errors Bus Frame TxRx PduNet Pdi SubDevice MainDevice Group.

(** ** Definitions *)

(** The registers of all SubDevices: station address, register, byte. *)
Definition Regs : Type := Z -> Z -> Z.

(** Two states of the registers are the same byte by byte. *)
Definition same_regs (f g : Regs) : Prop := forall a x, f a x = g a x.

Definition write_regs (a r : Z) (data : bytes) (f : Regs) : Regs := fun b x =>
  if decide (b = a /\ r <= x < r + Z.of_nat (length data))
  then default 0 (data !! Z.to_nat (x - r)) else f b x.

Definition read_regs (f : Regs) (a r : Z) (n : nat) : bytes := f a <$> seqZ r (Z.of_nat n).

(** The number in [n] bytes. *)
Definition reg_value (f : Regs) (a r : Z) (n : nat) : Z := le_val (read_regs f a r n).

(** A bus on which the synchronisation unit ([0x0980] to [0x09b0]) of a SubDevice is
    memory: a write changes the bytes it addresses and no others.  A read of another
    register, such as the system time, gives what it gives and changes nothing. *)
Class SyncUnits (W : Type) `{!Bus W} := {
  sync_regs : W -> Regs;
  su_write w a r data : 0x980 <= r -> r + Z.of_nat (length data) <= 0x9b0 ->
    exists rx w', bus_pdu (Write (Fpwr a r)) data None w = (Ok rx, w') /\
      same_regs (sync_regs w') (write_regs a r data (sync_regs w));
  su_read w a r n : r + n <= 0x980 -> 0 <= n ->
    exists rx w', bus_pdu (Read (Fprd a r)) [] (Some n) w = (Ok rx, w') /\
      rd_wkc rx = 1 /\ length (rd_data rx) = Z.to_nat n /\ bytes_ok (rd_data rx) /\
      same_regs (sync_regs w') (sync_regs w);
}.

(** What a SubDevice is to be told: the time of its first pulse, the period of SYNC0
    and, when it wants SYNC1, that of SYNC1. *)
Definition clock_started (start_time sync0_period : Z) (s : SubDevice) (f : Regs) : Prop :=
  let a := sd_configured_address s in
  reg_value f a (register_u16 R_DcSyncStartTime) 8 = start_time /\
  reg_value f a (register_u16 R_DcSync0CycleTime) 4 = sync0_period /\
  reg_value f a (register_u16 R_DcSync1CycleTime) 4 =
    match sd_dc_sync s with DCSync_Sync01 p => wrap 32 p | _ => 0 end /\
  reg_value f a (register_u16 R_DcSyncActive) 1 =
    match sd_dc_sync s with DCSync_Sync01 _ => 7 | _ => 3 end.

(** ** Lemmas *)

#[export] Instance same_regs_equivalence : Equivalence same_regs.
Proof. split; [by intros f a x|by intros f g H a x|intros f g h H1 H2 a x; by rewrite H1]. Qed.

#[export] Instance write_regs_proper a r data : Proper (same_regs ==> same_regs) (write_regs a r data).
Proof. intros f g H b x. unfold write_regs. by case_decide. Qed.

#[export] Instance reg_value_proper : Proper (same_regs ==> eq ==> eq ==> eq ==> eq) reg_value.
Proof.
  intros f g H a _ <- r _ <- n _ <-. unfold reg_value, read_regs. f_equal.
  apply list_fmap_ext. intros i x _. apply H.
Qed.

Lemma read_regs_lookup f a r n i : read_regs f a r n !! i =
  if decide (i < n)%nat then Some (f a (r + Z.of_nat i)) else None.
Proof.
  unfold read_regs. rewrite list_lookup_fmap. destruct (decide (i < n)%nat) as [Hi|Hi].
  - by rewrite lookup_seqZ_lt by lia.
  - by rewrite lookup_seqZ_ge by lia.
Qed.

(** What was written is read. *)
Lemma reg_value_same a r data f :
  reg_value (write_regs a r data f) a r (length data) = le_val data.
Proof.
  unfold reg_value. f_equal. apply list_eq. intros i. rewrite read_regs_lookup.
  case_decide as Hi; [|by rewrite lookup_ge_None_2 by lia].
  unfold write_regs. rewrite decide_True by lia.
  replace (Z.to_nat (r + Z.of_nat i - r)) with i by lia.
  destruct (lookup_lt_is_Some_2 data i Hi) as [b Hb]. by rewrite Hb.
Qed.

(** Elsewhere nothing changes. *)
Lemma reg_value_other a r data f b r' n :
  b <> a \/ r' + Z.of_nat n <= r \/ r + Z.of_nat (length data) <= r' ->
  reg_value (write_regs a r data f) b r' n = reg_value f b r' n.
Proof.
  intros H. unfold reg_value. f_equal. apply list_eq. intros i. rewrite !read_regs_lookup.
  case_decide; [|done]. unfold write_regs. by rewrite decide_False by lia.
Qed.

(** One write of two parts is a write of each. *)
Lemma write_regs_app a r d1 d2 f :
  same_regs (write_regs a r (d1 ++ d2) f)
    (write_regs a (r + Z.of_nat (length d1)) d2 (write_regs a r d1 f)).
Proof.
  intros b x. unfold write_regs. rewrite length_app.
  destruct (decide (b = a)) as [->|]; [|by rewrite !decide_False by lia].
  destruct (decide (r <= x < r + Z.of_nat (length d1))).
  - rewrite decide_True, decide_False, decide_True by lia. by rewrite lookup_app_l by lia.
  - destruct (decide (r + Z.of_nat (length d1) <= x < r + Z.of_nat (length d1 + length d2))).
    + rewrite !decide_True by lia. rewrite lookup_app_r by lia. do 2 f_equal. lia.
    + by rewrite !decide_False by lia.
Qed.

Lemma le_bytes_add n m z : le_bytes (n + m) z = le_bytes n z ++ le_bytes m (z / 2 ^ (8 * Z.of_nat n)).
Proof.
  revert z. induction n as [|n IH]; intros z.
  - cbn [Nat.add le_bytes app]. change (2 ^ (8 * Z.of_nat 0)) with 1. by rewrite Z.div_1_r.
  - cbn [Nat.add le_bytes app]. rewrite IH. do 3 f_equal.
    replace (8 * Z.of_nat (S n)) with (8 + 8 * Z.of_nat n) by lia.
    rewrite Z.pow_add_r by lia. change (2 ^ 8) with 256. by rewrite Z.div_div by lia.
Qed.

Lemma pack_u n v : pack (u_write n) v = Ok (le_bytes n v).
Proof.
  unfold pack, u_write, prim_write. cbn [pack_to_slice_unchecked packed_len].
  rewrite prim_pack_ok by (by rewrite length_zeros, length_le_bytes).
  f_equal. apply splice_all. by rewrite length_zeros, length_le_bytes.
Qed.

(** The registers of a SubDevice whose clock is being started. *)
Definition started_regs (start_time sync0_period : Z) (s : SubDevice) (f : Regs) : Regs :=
  let a := sd_configured_address s in
  let f := write_regs a 0x981 [0] f in
  let f := write_regs a 0x990 (le_bytes 8 start_time) f in
  let f := write_regs a 0x9a0 (le_bytes 8 sync0_period) f in
  match sd_dc_sync s with
  | DCSync_Sync01 p => write_regs a 0x981 [7] (write_regs a 0x9a4 (le_bytes 8 p) f)
  | _ => write_regs a 0x981 [3] f
  end.

#[export] Instance started_regs_proper start_time sync0_period s :
  Proper (same_regs ==> same_regs) (started_regs start_time sync0_period s).
Proof. intros f g H. unfold started_regs. destruct (sd_dc_sync s); by rewrite H. Qed.

(** Another SubDevice's registers are not touched. *)
Lemma started_regs_other t p s f b x :
  b <> sd_configured_address s -> started_regs t p s f b x = f b x.
Proof.
  intros H. unfold started_regs, write_regs. destruct (sd_dc_sync s); cbn zeta; by rewrite !decide_False by lia.
Qed.

Lemma reg_value_le a r n v f :
  reg_value (write_regs a r (le_bytes n v) f) a r n = v mod 2 ^ (8 * Z.of_nat n).
Proof.
  rewrite <- le_val_le_bytes, <- (reg_value_same a r (le_bytes n v) f). by rewrite length_le_bytes.
Qed.

(** A period is written with eight bytes: four to its register and four behind it. *)
Lemma write_u64 a r v f :
  same_regs (write_regs a r (le_bytes 8 v) f)
    (write_regs a (r + 4) (le_bytes 4 (v / 2 ^ 32)) (write_regs a r (le_bytes 4 v) f)).
Proof. change 8%nat with (4 + 4)%nat. rewrite le_bytes_add. apply write_regs_app. Qed.

Ltac read_back :=
  repeat first
    [ rewrite reg_value_le
    | rewrite reg_value_other by (rewrite ?length_le_bytes; cbn [length]; lia) ].

Lemma clock_started_regs t p s f :
  in_u 64 t -> in_u 32 p -> clock_started t p s (started_regs t p s f).
Proof.
  intros Ht Hp. unfold clock_started, started_regs.
  change (register_u16 R_DcSyncStartTime) with 0x990. change (register_u16 R_DcSync0CycleTime) with 0x9a0.
  change (register_u16 R_DcSync1CycleTime) with 0x9a4. change (register_u16 R_DcSyncActive) with 0x981.
  change [3] with (le_bytes 1 3). change [7] with (le_bytes 1 7). cbn zeta.
  assert (p / 2 ^ 32 = 0) as Hp0 by (apply Z.div_small; apply Hp).
  destruct (sd_dc_sync s) as [| |p1]; rewrite ?(write_u64 _ _ p), ?(write_u64 _ _ p1), ?Hp0; split_and!; read_back;
    first [by apply Z.mod_small | reflexivity].
Qed.

(** *** The configuration of one SubDevice, and of all *)

Section Configure.
Context {W : Type} `{!Bus W} {units : SyncUnits W} {P : Profile}.

Lemma send_unit a r n v w wkc :
  0x980 <= r -> r + Z.of_nat n <= 0x9b0 ->
  exists w', send (u_write n) (mkWrappedWrite (Fpwr a r) wkc None) v w = (Ok tt, w') /\
    same_regs (sync_regs w') (write_regs a r (le_bytes n v) (sync_regs w)).
Proof.
  intros H1 H2. destruct (su_write w a r (le_bytes n v)) as (rx & w' & Hb & Hr); [done|by rewrite length_le_bytes|].
  exists w'. split; [|done]. unfold send, write_common. cbn [ww_command ww_len_override]. rewrite pack_u.
  rewrite (st_step _ _ w rx w'); [done|]. by rewrite (st_step (lift _) _ w (le_bytes n v) w) by done.
Qed.

(** The duration of SYNC1 fits its type. *)
Definition sync1_fits (s : SubDevice) : Prop :=
  match sd_dc_sync s with DCSync_Sync01 p => in_u 64 p | _ => True end.

Lemma configure_dc_subdevice_ok system_time delay p s w :
  0 <= system_time -> 0 <= delay -> system_time + delay < 2 ^ 64 -> 0 < p -> sync1_fits s ->
  exists w', configure_dc_subdevice system_time delay p s w = (Ok tt, w') /\
    same_regs (sync_regs w') (started_regs ((system_time + delay) / p * p) p s (sync_regs w)).
Proof.
  intros Ht Hd Hsum Hp Hs1. unfold configure_dc_subdevice, started_regs.
  set (a := sd_configured_address s).
  change (write_ignore_wkc (reg_write a R_DcSyncActive)) with (mkWrappedWrite (Fpwr a 0x981) None None).
  change (reg_write a R_DcSyncStartTime) with (mkWrappedWrite (Fpwr a 0x990) (Some 1) None).
  change (reg_write a R_DcSync0CycleTime) with (mkWrappedWrite (Fpwr a 0x9a0) (Some 1) None).
  change (reg_write a R_DcSync1CycleTime) with (mkWrappedWrite (Fpwr a 0x9a4) (Some 1) None).
  change (reg_write a R_DcSyncActive) with (mkWrappedWrite (Fpwr a 0x981) (Some 1) None).
  change u8_write with (u_write 1). change u64_write with (u_write 8).
  pose proof (Z.mul_div_le (system_time + delay) p Hp) as Hle.
  pose proof (Z.div_pos (system_time + delay) p ltac:(lia) Hp) as Hpos.
  destruct (send_unit a 0x981 1 0 w None ltac:(lia) ltac:(lia)) as (w1 & H1 & R1).
  rewrite (st_step _ _ _ _ _ H1).
  rewrite (st_step (lift _) _ w1 (system_time + delay) w1) by (unfold lift, uadd; rewrite checked_ok; [done|split; lia]).
  rewrite (st_step (lift _) _ w1 ((system_time + delay) / p) w1)
    by (unfold lift, udiv; by rewrite (proj2 (Z.eqb_neq _ _)) by lia).
  rewrite (st_step (lift _) _ w1 ((system_time + delay) / p * p) w1)
    by (unfold lift, umul; rewrite checked_ok; [done|split; lia]).
  destruct (send_unit a 0x990 8 ((system_time + delay) / p * p) w1 (Some 1) ltac:(lia) ltac:(lia)) as (w2 & H2 & R2).
  rewrite (st_step _ _ _ _ _ H2).
  destruct (send_unit a 0x9a0 8 p w2 (Some 1) ltac:(lia) ltac:(lia)) as (w3 & H3 & R3).
  rewrite (st_step _ _ _ _ _ H3).
  destruct (sd_dc_sync s) as [| |p1] eqn:Hsync.
  3: { unfold sync1_fits in Hs1. rewrite Hsync in Hs1. rewrite st_bind_assoc.
    rewrite (st_step (lift _) _ w3 p1 w3) by (unfold lift, try_u64; by rewrite (proj2 (in_ub_spec 64 p1) Hs1)).
    destruct (send_unit a 0x9a4 8 p1 w3 (Some 1) ltac:(lia) ltac:(lia)) as (w4 & H4 & R4).
    rewrite st_bind_assoc, (st_step _ _ _ _ _ H4).
    destruct (send_unit a 0x981 1 7 w4 (Some 1) ltac:(lia) ltac:(lia)) as (w5 & H5 & R5).
    exists w5. split; [exact H5|]. by rewrite R5, R4, R3, R2, R1. }
  all: destruct (send_unit a 0x981 1 3 w3 (Some 1) ltac:(lia) ltac:(lia)) as (w4 & H4 & R4);
    exists w4; split; [exact H4|]; by rewrite R4, R3, R2, R1.
Qed.

Lemma configure_dc_subdevices_ok system_time delay p l w :
  0 <= system_time -> 0 <= delay -> system_time + delay < 2 ^ 64 -> 0 < p < 2 ^ 32 ->
  Forall sync1_fits l -> NoDup (sd_configured_address <$> l) ->
  exists w', configure_dc_subdevices system_time delay p l w = (Ok tt, w') /\
    Forall (fun s => clock_started ((system_time + delay) / p * p) p s (sync_regs w')) l /\
    (forall a x, a ∉ sd_configured_address <$> l -> sync_regs w' a x = sync_regs w a x).
Proof.
  intros Ht Hd Hsum Hp Hfit. revert w. induction Hfit as [|s l Hs Hfit IH]; intros w Hnd; [by exists w|].
  rewrite fmap_cons in *. apply NoDup_cons in Hnd as [Hnin Hnd].
  destruct (configure_dc_subdevice_ok system_time delay p s w Ht Hd Hsum ltac:(lia) Hs) as (w1 & H1 & R1).
  destruct (IH w1 Hnd) as (w2 & H2 & Hstarted & Hrest).
  exists w2. split_and!.
  - cbn [configure_dc_subdevices]. by rewrite (st_step _ _ _ _ _ H1).
  - constructor; [|done]. set (a := sd_configured_address s) in *.
    assert (forall r n, reg_value (sync_regs w2) a r n = reg_value (sync_regs w1) a r n) as Heq.
    { intros r n. unfold reg_value, read_regs. f_equal. apply list_fmap_ext. intros i x _. by apply Hrest. }
    unfold clock_started. fold a. rewrite !Heq, !R1. apply clock_started_regs.
    + pose proof (Z.mul_div_le (system_time + delay) p ltac:(lia)).
      pose proof (Z.div_pos (system_time + delay) p ltac:(lia) ltac:(lia)). split; lia.
    + split; lia.
  - intros a x Ha. apply not_elem_of_cons in Ha as [Hne Ha]. rewrite Hrest by done. rewrite (R1 a x).
    by apply started_regs_other.
Qed.

End Configure.

(** *** Properties *)

Section Sync.
Context {W : Type} `{!Bus W} {units : SyncUnits W} {P : Profile}.

Lemma read_system_time a w :
  exists t w', register_read a u64_read (register_u16 R_DcSystemTime) w = (Ok t, w') /\ in_u 64 t /\
    same_regs (sync_regs w') (sync_regs w).
Proof.
  destruct (su_read w a 0x910 8) as (rx & w' & Hb & Hw & Hl & Hok & Hr); [lia..|].
  exists (le_val (rd_data rx)), w'. split_and!; [| |done].
  - unfold register_read, receive, read_common.
    rewrite (st_step _ _ w rx w') by exact Hb. cbn [fprd WrappedRead_new wr_wkc pdu_maybe_wkc]. rewrite Hw.
    rewrite (st_step (lift _) _ w' rx w') by done.
    rewrite <- (app_nil_r (rd_data rx)) at 1. unfold u64_read, u_read. by rewrite prim_unpack_app.
  - pose proof (le_val_bound (rd_data rx) Hok) as Hb'. rewrite Hl in Hb'. exact Hb'.
Qed.

(** C24: [configure_dc_sync] programs the synchronisation unit of every SubDevice that
    has a clock and wants SYNC0: pulses start at the last multiple of the period
    before the system time plus the start delay, SYNC0 has the period given, SYNC1
    its own where it is wanted and zero elsewhere, and the unit is activated; the
    units of all other stations stay as they were.  The group keeps its SubDevices
    and remembers period, shift and reference. *)
Theorem configure_dc_sync_spec {S DC} `{!IsPreOp S} maindevice conf (g : SubDeviceGroup S DC) reference w :
  let devices := List.filter wants_dc (gr_subdevices g) in
  let period := dcc_sync0_period conf in
  dc_ref_address maindevice = Some reference ->
  0 < period < 2 ^ 32 -> in_u 32 (dcc_start_delay conf) ->
  Forall sync1_fits devices -> NoDup (sd_configured_address <$> devices) ->
  exists t w1, register_read reference u64_read (register_u16 R_DcSystemTime) w = (Ok t, w1) /\
    (t + dcc_start_delay conf < 2 ^ 64 -> exists start w',
      configure_dc_sync maindevice conf g w =
        (Ok (into_state (mkHasDc period (wrap 64 (dcc_sync0_shift conf)) reference) g), w') /\
      start mod period = 0 /\ t + dcc_start_delay conf - period < start <= t + dcc_start_delay conf /\
      Forall (fun s => clock_started start period s (sync_regs w')) devices /\
      forall a x, a ∉ sd_configured_address <$> devices -> sync_regs w' a x = sync_regs w a x).
Proof.
  intros devices period Href Hp Hd Hfit Hnd.
  destruct (read_system_time reference w) as (t & w1 & Ht & Htu & Hsame). exists t, w1. split; [done|]. intros Hsum.
  destruct (configure_dc_subdevices_ok t (dcc_start_delay conf) period devices w1) as (w' & Hrun & Hstarted & Hrest);
    [apply Htu|apply Hd|done..|].
  exists ((t + dcc_start_delay conf) / period * period), w'. split_and!; [|by apply Z.mod_mul; lia| | |done|].
  - unfold configure_dc_sync. rewrite Href, (st_step _ _ _ _ _ Ht).
    rewrite (st_step (lift _) _ w1 period w1) by (unfold lift, try_u32; by rewrite (proj2 (in_ub_spec 32 _)) by (split; lia)).
    rewrite (st_step (lift _) _ w1 (dcc_start_delay conf) w1) by (unfold lift, try_u32; by rewrite (proj2 (in_ub_spec 32 _) Hd)).
    by rewrite (st_step _ _ _ _ _ Hrun).
  - pose proof (Z.div_mod (t + dcc_start_delay conf) period ltac:(lia)).
    pose proof (Z.mod_pos_bound (t + dcc_start_delay conf) period). lia.
  - pose proof (Z.mul_div_le (t + dcc_start_delay conf) period ltac:(lia)). lia.
  - intros a x Ha. rewrite Hrest by done. apply Hsame.
Qed.

(** When there is no reference clock nothing is sent; a period or delay of more than
    32 bits is refused after the system time was read; and a period of zero panics
    when there is a SubDevice to configure. *)
Theorem configure_dc_sync_errors {S DC} `{!IsPreOp S} maindevice conf (g : SubDeviceGroup S DC) w :
  match dc_ref_address maindevice with
  | None => configure_dc_sync maindevice conf g w = (Err (E_DistributedClock DCE_NoReference), w)
  | Some reference =>
      exists w', same_regs (sync_regs w') (sync_regs w) /\
        (~ in_u 32 (dcc_sync0_period conf) \/ ~ in_u 32 (dcc_start_delay conf) ->
         configure_dc_sync maindevice conf g w = (Err E_IntegerTypeConversion, w')) /\
        (dcc_sync0_period conf = 0 -> in_u 32 (dcc_start_delay conf) ->
         List.filter wants_dc (gr_subdevices g) <> [] ->
         exists w2, configure_dc_sync maindevice conf g w = (Panic, w2))
  end.
Proof.
  unfold configure_dc_sync. destruct (dc_ref_address maindevice) as [reference|]; [|done].
  destruct (read_system_time reference w) as (t & w1 & Ht & Htu & Hsame). exists w1.
  split; [done|]. rewrite (st_step _ _ _ _ _ Ht). unfold try_u32. split.
  - intros H. destruct (in_ub 32 (dcc_sync0_period conf)) eqn:H1; [|done].
    destruct (in_ub 32 (dcc_start_delay conf)) eqn:H2; [|done].
    apply in_ub_spec in H1. apply in_ub_spec in H2. tauto.
  - intros H0 Hd Hne. destruct (List.filter _ _) as [|s l]; [done|].
    rewrite H0, (proj2 (in_ub_spec 32 _) Hd).
    rewrite (st_step (lift _) _ w1 0 w1), (st_step (lift _) _ w1 (dcc_start_delay conf) w1) by done.
    assert (exists w2, configure_dc_subdevice t (dcc_start_delay conf) 0 s w1 = (Panic, w2)) as [w2 Hw2].
    { unfold configure_dc_subdevice.
      change (write_ignore_wkc (reg_write (sd_configured_address s) R_DcSyncActive))
        with (mkWrappedWrite (Fpwr (sd_configured_address s) 0x981) None None).
      destruct (send_unit (sd_configured_address s) 0x981 1 0 w1 None ltac:(lia) ltac:(lia)) as (w2 & H2 & _).
      exists w2. rewrite (st_step _ _ _ _ _ H2). unfold mbind, St_bind, lift, udiv.
      destruct (uadd 64 t (dcc_start_delay conf)) eqn:Hu; [done| |done]. exfalso.
      unfold uadd, checked in Hu. repeat case_match; done. }
    exists w2. cbn [configure_dc_subdevices]. unfold mbind at 1, St_bind at 1.
    unfold mbind at 1, St_bind at 1. by rewrite Hw2.
Qed.

End Sync.

(** *** Witness: registers that are memory *)

(** A network whose registers are one memory; the system time reads as the number of
    the register. *)
#[local] Instance memory_bus : Bus Regs := {|
  bus_pdu c data len := fun f =>
    match c with
    | Write (Fpwr a r) => (Ok (mkReceived 1 data []), write_regs a r data f)
    | Read (Fprd a r) =>
        (Ok (mkReceived 1 (le_bytes (Z.to_nat (default 0 len)) r) []), f)
    | _ => (Err E_Internal, f)
    end
|}.

#[local] Program Instance memory_units : SyncUnits Regs := {| sync_regs f := f |}.
Next Obligation. intros. eexists _, _. split; [reflexivity|done]. Qed.
Next Obligation.
  intros. eexists _, _. split; [reflexivity|]. cbn.
  split_and!; [done|by rewrite length_le_bytes|apply le_bytes_ok|done].
Qed.

Definition clock_subdevice (address : Z) (sync : DcSync) : SubDevice :=
  mkSubDevice address 0 SubDeviceConfig_default (mkSubDeviceIdentity 0 0 0 0) [] []
    DCS_Bits64 0 0 None 0 1 sync [].

Definition clock_group : SubDeviceGroup PreOp unit :=
  mkGroup 0 4 [] 0 0 [clock_subdevice 0x1000 DCSync_Sync0; clock_subdevice 0x1001 DCSync_Disabled;
    clock_subdevice 0x1002 (DCSync_Sync01 2000)] (mkPdiOffset 0) tt.

Definition clock_main : MainDevice := mkMainDevice 3 0x1000 MainDeviceConfig_default.

Lemma configure_dc_sync_spec_witness :
  exists start w',
    configure_dc_sync (P := true) clock_main (mkDcConfiguration 100 1000 250) clock_group (fun _ _ => 0xaa) =
      (Ok (into_state (mkHasDc 1000 250 0x1000) clock_group), w') /\
    clock_started start 1000 (clock_subdevice 0x1002 (DCSync_Sync01 2000)) w' /\
    w' 0x1001 0x990 = 0xaa.
Proof.
  destruct (configure_dc_sync_spec (P := true) clock_main (mkDcConfiguration 100 1000 250) clock_group 0x1000
    (fun _ _ => 0xaa)) as (t & w1 & Ht & H).
  - reflexivity.
  - split; reflexivity.
  - split; [discriminate|reflexivity].
  - repeat constructor; discriminate.
  - apply (bool_decide_unpack _). vm_compute. exact I.
  - destruct H as (start & w' & Hrun & _ & _ & Hstarted & Hrest).
    { vm_compute in Ht. injection Ht as <- _. reflexivity. }
    exists start, w'. split; [exact Hrun|]. split.
    + rewrite Forall_forall in Hstarted. apply Hstarted. apply list_elem_of_In. right. left. reflexivity.
    + apply Hrest. apply (bool_decide_unpack _). vm_compute. exact I.
Defined.
