(* ===== verification/NetworkSpec.v ===== *)
(** * Sorting the SubDevices into groups, and the address space of the groups

    What [MainDevice::init] makes of the groups of the application. *)
From S2P Require Import Prelude Wire EscTypes Crates PduTypes Errors Bus Eeprom Frame TxRx PduNet Ports Pdi SubDevice Coe Configuration Dc MainDevice CoeExchange EepromSpec Group Network.

(** ** Definitions *)

(** The group the filter gives each SubDevice. *)
Fixpoint picks (group_filter : list SubDevice -> SubDevice -> res Error nat) (seen subdevices : list SubDevice)
    : list (nat * SubDevice) :=
  match subdevices with
  | [] => []
  | s :: subdevices =>
      match group_filter seen s with Ok i => [(i, s)] | _ => [] end ++ picks group_filter (seen ++ [s]) subdevices
  end.

(** The SubDevices of one group. *)
Definition picked (i : nat) (l : list (nat * SubDevice)) : list SubDevice :=
  snd <$> List.filter (fun p => Nat.eqb p.1 i) l.

(** A group with more SubDevices. *)
Definition joined (g : Handle) (l : list SubDevice) : Handle :=
  with_mapping (gr_read_pdi_len g) (gr_pdi_len g) (gr_subdevices g ++ l) g.

(** [groups] at [map], one behind the other from [a] on, up to [b]. *)
Fixpoint placed (a : Z) (group_map : list nat) (groups : list Handle) (b : Z) : Prop :=
  match group_map with
  | [] => a = b
  | i :: group_map =>
      exists g, groups !! i = Some g /\ start_address (gr_pdi_start g) = a /\
        placed (a + Z.of_nat (length (gr_pdi g))) group_map groups b
  end.

(** ** Lemmas *)

Lemma joined_joined g l1 l2 : joined (joined g l1) l2 = joined g (l1 ++ l2).
Proof. unfold joined. cbn. by rewrite app_assoc. Qed.
Lemma joined_nil g : joined g [] = g.
Proof. unfold joined. rewrite app_nil_r. by destruct g. Qed.

Lemma picked_cons i j s l : picked i ((j, s) :: l) = if Nat.eqb j i then s :: picked i l else picked i l.
Proof. unfold picked. cbn [List.filter fst]. by destruct (Nat.eqb j i). Qed.

Lemma indices_length l n : NoDup l -> Forall (fun i => (i < n)%nat) l -> (length l <= n)%nat.
Proof.
  intros Hnd Hl. rewrite <- (length_seq n 0). apply submseteq_length, NoDup_submseteq; [done|].
  intros i Hi. apply elem_of_seq. apply (proj1 (Forall_forall _ _) Hl) in Hi. lia.
Qed.

Section Sort.
Context (group_filter : list SubDevice -> SubDevice -> res Error nat) (capacity : nat).

Lemma sort_ok subdevices : forall seen groups group_map,
  (forall seen s, exists i, group_filter seen s = Ok i /\ (i < length groups)%nat) ->
  (forall i g, groups !! i = Some g ->
    (length (gr_subdevices g) + length (picked i (picks group_filter seen subdevices)) <= gr_max_subdevices g)%nat) ->
  (length groups <= capacity)%nat -> NoDup group_map -> Forall (fun i => (i < length groups)%nat) group_map ->
  exists group_map', sort_into_groups group_filter capacity seen groups group_map subdevices =
      Ok (imap (fun i g => joined g (picked i (picks group_filter seen subdevices))) groups, group_map') /\
    NoDup group_map' /\
    (forall i, i ∈ group_map' <-> i ∈ group_map \/ exists s, (i, s) ∈ picks group_filter seen subdevices).
Proof.
  induction subdevices as [|s subdevices IH]; intros seen groups group_map Hfilter Hroom Hcap Hnd Hmap.
  { exists group_map. cbn [sort_into_groups picks]. split_and!; [|done|].
    - f_equal. f_equal. symmetry. apply list_eq. intros i. rewrite list_lookup_imap.
      destruct (groups !! i); [|done]. cbn. by rewrite joined_nil.
    - intros i. split; [by left|]. intros [|[s Hs]]; [done|by apply not_elem_of_nil in Hs]. }
  destruct (Hfilter seen s) as (i & Hi & Hlt). destruct (lookup_lt_is_Some_2 _ _ Hlt) as [g Hg].
  cbn [picks] in Hroom |- *. rewrite Hi in *. cbn [app] in Hroom |- *.
  set (rest := picks group_filter (seen ++ [s]) subdevices) in *.
  pose proof (Hroom i g Hg) as Hroom1. rewrite picked_cons, Nat.eqb_refl in Hroom1. cbn [length] in Hroom1.
  assert (group_push s g = Ok (joined g [s])) as Hpush.
  { unfold group_push, group_len. rewrite (proj2 (Nat.ltb_lt _ _)) by lia. done. }
  set (groups1 := <[i := joined g [s]]> groups).
  set (map1 := if decide (i ∈ group_map) then group_map else group_map ++ [i]).
  assert (forall j, j ∈ map1 <-> j ∈ group_map \/ j = i) as Hmap1.
  { intros j. unfold map1. destruct (decide (i ∈ group_map)); set_solver. }
  assert (NoDup map1) as Hnd1.
  { unfold map1. destruct (decide (i ∈ group_map)); [done|]. apply NoDup_app. split_and!; [done|set_solver|apply NoDup_singleton]. }
  assert (Forall (fun j => (j < length groups)%nat) map1) as Hin1.
  { apply Forall_forall. intros j [Hj| ->]%Hmap1; [|done]. by eapply (proj1 (Forall_forall _ _) Hmap). }
  assert (length groups1 = length groups) as Hlen by apply length_insert.
  destruct (IH (seen ++ [s]) groups1 map1) as (map' & Hrun & Hnd' & Hin'); rewrite ?Hlen; try done.
  { intros j h Hj. fold rest. unfold groups1 in Hj. apply list_lookup_insert_Some in Hj as [(<- & <- & _)|[Hne Hj]].
    - cbn. rewrite length_app. cbn [length]. lia.
    - specialize (Hroom j h Hj). rewrite picked_cons, (proj2 (Nat.eqb_neq i j)) in Hroom by done. exact Hroom. }
  exists map'. split_and!; [|done|].
  - cbn [sort_into_groups]. rewrite Hi. msimpl. rewrite Hg. cbn [unwrap]. msimpl. rewrite Hpush. msimpl.
    assert ((if decide (i ∈ group_map) then Ok group_map
      else if Nat.ltb (length group_map) capacity then Ok (group_map ++ [i]) else Err (E_Capacity I_Group)) = Ok map1) as ->.
    { unfold map1 in *. destruct (decide (i ∈ group_map)); [done|].
      rewrite (proj2 (Nat.ltb_lt _ _)); [done|]. apply indices_length in Hin1; [|done]. rewrite length_app in Hin1.
      cbn in Hin1. lia. }
    msimpl. fold groups1. rewrite Hrun. f_equal. f_equal. fold rest. apply list_eq. intros j. rewrite !list_lookup_imap.
    unfold groups1. destruct (decide (j = i)) as [->|Hne].
    + rewrite list_lookup_insert_eq, Hg by done. cbn [fmap option_fmap option_map].
      by rewrite picked_cons, Nat.eqb_refl, joined_joined.
    + rewrite list_lookup_insert_ne by done. destruct (groups !! j); [|done]. cbn [fmap option_fmap option_map].
      by rewrite picked_cons, (proj2 (Nat.eqb_neq i j)) by done.
  - intros j. rewrite Hin', Hmap1. fold rest. split.
    + intros [[Hj| ->]|[s' Hs]]; [by left|right; exists s; by left|right; exists s'; by right].
    + intros [Hj|[s' Hs]]; [by left; left|]. apply elem_of_cons in Hs as [[= -> ->]|Hs]; [by left; right|right; by exists s'].
Qed.
End Sort.

Lemma picks_all group_filter subdevices : forall seen,
  (forall seen s, exists i, group_filter seen s = Ok i) -> (snd <$> picks group_filter seen subdevices) = subdevices.
Proof.
  induction subdevices as [|s l IH]; intros seen H; [done|]. cbn [picks]. destruct (H seen s) as [i ->].
  cbn [app]. rewrite fmap_cons. by rewrite IH.
Qed.

(** *** The address space *)

Section Placed.
Context {W : Type} {BUS : Bus W} {TM : Timing} {EIO : EmbeddedIo} {CR : Crates} {P : Profile}.

Lemma handle_ok p (g g' : Handle) q w w' :
  handle_into_pre_op p g w = (Ok (g', q), w') ->
  0 <= start_address p -> start_address p + 65536 <= 2 ^ 32 -> Z.of_nat (length (gr_pdi g)) < 2 ^ 16 ->
  gr_pdi_start g' = p /\ gr_pdi g' = gr_pdi g /\
  start_address q = start_address p + Z.of_nat (length (gr_pdi g)).
Proof.
  intros Hr Hp Hend Hlen. unfold handle_into_pre_op in Hr. revert Hr. generalize (configure_all_mailboxes (gr_subdevices g)).
  intros m Hr. apply st_bind_ok in Hr as (l & w1 & _ & Hr). apply st_bind_ok in Hr as (next & w2 & Hn & Hr).
  injection Hr as <- <- _. unfold lift in Hn. injection Hn as Hn _. unfold increment, increment_inner, uadd in Hn.
  rewrite (wrap_small 16), checked_ok in Hn by (unfold in_u; lia). cbn in Hn. apply ok_inj in Hn as <-. done.
Qed.

Lemma placed_insert (groups : list Handle) i g m : forall a b,
  i ∉ m -> placed a m groups b -> placed a m (<[i := g]> groups) b.
Proof.
  induction m as [|j m IH]; intros a b Hi H; [done|]. destruct H as (h & Hj & Ha & H). exists h.
  apply not_elem_of_cons in Hi as [Hne Hi]. rewrite list_lookup_insert_ne by done. split_and!; [done|done|by apply IH].
Qed.

Lemma placed_ok m : forall (groups groups' : list Handle) p w w',
  groups_into_pre_op groups m p w = (Ok groups', w') -> NoDup m ->
  Forall (fun g => Z.of_nat (length (gr_pdi g)) < 2 ^ 16) groups ->
  0 <= start_address p -> start_address p + 65536 * Z.of_nat (length m) <= 2 ^ 32 ->
  exists b, placed (start_address p) m groups' b /\ (forall j, j ∉ m -> groups' !! j = groups !! j).
Proof.
  induction m as [|i m IH]; intros groups groups' p w w' Hr Hnd Hlen Hp Hend.
  { injection Hr as <- _. by exists (start_address p). }
  cbn [groups_into_pre_op length] in *. apply NoDup_cons in Hnd as [Hi Hnd].
  apply st_bind_ok in Hr as (g & w1 & Hg & Hr). unfold lift in Hg. injection Hg as Hg ->.
  destruct (groups !! i) as [h|] eqn:Hh; [|done]. injection Hg as ->.
  apply st_bind_ok in Hr as ([g' q] & w2 & Hm & Hr).
  pose proof (proj1 (Forall_forall _ _) Hlen g ltac:(by eapply list_elem_of_lookup_2)) as Hg.
  cbv beta in Hg. destruct (handle_ok _ _ _ _ _ _ Hm Hp ltac:(lia) Hg) as (Hstart & Hpdi & Hq).
  destruct (IH (<[i := g']> groups) groups' q w2 w' Hr Hnd) as (b & Hb & Hout); [|lia..|].
  { apply Forall_insert; [done|]. by rewrite Hpdi. }
  exists b. split.
  - exists g'. rewrite Hout, list_lookup_insert_eq by (done || by eapply lookup_lt_Some).
    split_and!; [done|by rewrite Hstart|by rewrite Hpdi, <- Hq].
  - intros j Hj. apply not_elem_of_cons in Hj as [Hne Hj]. rewrite Hout by done. by apply list_lookup_insert_ne.
Qed.

Lemma placed_bounds m groups : forall a b i g,
  placed a m groups b -> i ∈ m -> groups !! i = Some g ->
  a <= start_address (gr_pdi_start g) /\ start_address (gr_pdi_start g) + Z.of_nat (length (gr_pdi g)) <= b.
Proof.
  induction m as [|j m IH]; intros a b i g H Hi Hg; [by apply not_elem_of_nil in Hi|].
  destruct H as (h & Hh & Ha & H).
  assert (forall m a, placed a m groups b -> a <= b) as Hle.
  { clear. induction m as [|k m IH]; intros a H; cbn in H; [lia|]. destruct H as (h & _ & _ & H). apply IH in H. lia. }
  apply elem_of_cons in Hi as [->|Hi].
  - rewrite Hg in Hh. injection Hh as <-. apply Hle in H. lia.
  - destruct (IH _ _ _ _ H Hi Hg). lia.
Qed.

Lemma placed_disjoint m groups : forall a b i j g h,
  NoDup m -> placed a m groups b -> i ∈ m -> j ∈ m -> i <> j -> groups !! i = Some g -> groups !! j = Some h ->
  start_address (gr_pdi_start g) + Z.of_nat (length (gr_pdi g)) <= start_address (gr_pdi_start h) \/
  start_address (gr_pdi_start h) + Z.of_nat (length (gr_pdi h)) <= start_address (gr_pdi_start g).
Proof.
  induction m as [|k m IH]; intros a b i j g h Hnd H Hi Hj Hij Hg Hh; [by apply not_elem_of_nil in Hi|].
  destruct H as (f & Hf & Ha & H). apply NoDup_cons in Hnd as [Hk Hnd].
  apply elem_of_cons in Hi as [->|Hi]; apply elem_of_cons in Hj as [->|Hj]; [done| | |exact (IH _ _ _ _ _ _ Hnd H Hi Hj Hij Hg Hh)].
  - rewrite Hg in Hf. injection Hf as <-. destruct (placed_bounds _ _ _ _ _ _ H Hj Hh). lia.
  - rewrite Hh in Hf. injection Hf as <-. destruct (placed_bounds _ _ _ _ _ _ H Hi Hg). lia.
Qed.

End Placed.

(** ** Properties *)

(** C21: With a filter that gives every SubDevice a group of the application, with room
    for them, sorting the SubDevices into groups ([MainDevice::init]) succeeds: each
    group is what it was with the SubDevices the filter gave it behind its own, in the
    order of the network, so that each SubDevice is in one group; and the map has the
    groups that got a SubDevice, each once. *)
Theorem sort_into_groups_spec group_filter capacity subdevices (groups : list Handle) :
  (forall seen s, exists i, group_filter seen s = Ok i /\ (i < length groups)%nat) ->
  (forall i g, groups !! i = Some g ->
    (length (gr_subdevices g) + length (picked i (picks group_filter [] subdevices)) <= gr_max_subdevices g)%nat) ->
  (length groups <= capacity)%nat ->
  exists group_map, sort_into_groups group_filter capacity [] groups [] subdevices =
      Ok (imap (fun i g => joined g (picked i (picks group_filter [] subdevices))) groups, group_map) /\
    NoDup group_map /\ (forall i, i ∈ group_map <-> exists s, (i, s) ∈ picks group_filter [] subdevices) /\
    (snd <$> picks group_filter [] subdevices) = subdevices.
Proof.
  intros Hfilter Hroom Hcap.
  destruct (sort_ok group_filter capacity subdevices [] groups [] Hfilter Hroom Hcap) as (m & Hrun & Hnd & Hin);
    [by apply NoDup_nil|constructor|].
  exists m. split_and!; [done|done| |].
  - intros i. rewrite Hin. split; [intros [[]%not_elem_of_nil|]; done|by right].
  - apply picks_all. intros seen s. destruct (Hfilter seen s) as (i & Hi & _). by exists i.
Qed.

(** C20: Whatever the network answers, bringing the groups to PRE-OP ([init]) gives those
    in the map consecutive parts of the logical address space, from the offset it starts
    with on and each as large as the image of its group, so that no two groups overlap;
    the other groups stay as they are.  The images must be smaller than 64 KiB. *)
Theorem groups_disjoint {W} {BUS : Bus W} {TM : Timing} {EIO : EmbeddedIo} {CR : Crates} {P : Profile}
    (groups groups' : list Handle) group_map offset (w w' : W) :
  groups_into_pre_op groups group_map offset w = (Ok groups', w') -> NoDup group_map ->
  Forall (fun g => Z.of_nat (length (gr_pdi g)) < 2 ^ 16) groups ->
  0 <= start_address offset -> start_address offset + 65536 * Z.of_nat (length group_map) <= 2 ^ 32 ->
  (exists b, placed (start_address offset) group_map groups' b) /\
  (forall i j g h, i ∈ group_map -> j ∈ group_map -> i <> j -> groups' !! i = Some g -> groups' !! j = Some h ->
    start_address (gr_pdi_start g) + Z.of_nat (length (gr_pdi g)) <= start_address (gr_pdi_start h) \/
    start_address (gr_pdi_start h) + Z.of_nat (length (gr_pdi h)) <= start_address (gr_pdi_start g)) /\
  (forall j, j ∉ group_map -> groups' !! j = groups !! j).
Proof.
  intros Hr Hnd Hlen Hp Hend. destruct (placed_ok _ _ _ _ _ _ Hr Hnd Hlen Hp Hend) as (b & Hb & Hout).
  split_and!; [by exists b| |done]. intros i j g h Hi Hj Hij Hg Hh.
  by apply (placed_disjoint _ _ _ _ i j g h Hnd Hb).
Qed.

(** ** Witnesses *)

(** Groups 0 and 1, for the SubDevices with even and odd index. *)
Definition by_parity (_ : list SubDevice) (s : SubDevice) : res Error nat :=
  Ok (if Z.even (sd_index s) then 0%nat else 1%nat).
Definition indexed (i : Z) : SubDevice :=
  mkSubDevice (0x1000 + i) 0 SubDeviceConfig_default (mkSubDeviceIdentity 0 0 0 0) [] [] DCS_None 0 i None 0 1 DCSync_Disabled [].
Definition two_groups : list Handle := [group_default 2 16 7; group_default 2 32 9].

Lemma sort_into_groups_spec_witness :
  exists group_map, sort_into_groups by_parity 4 [] two_groups [] [indexed 0; indexed 1; indexed 2] =
    Ok ([joined (group_default 2 16 7) [indexed 0; indexed 2]; joined (group_default 2 32 9) [indexed 1]], group_map).
Proof.
  destruct (sort_into_groups_spec by_parity 4 [indexed 0; indexed 1; indexed 2] two_groups) as (m & Hrun & _).
  - intros seen s. unfold by_parity. destruct (Z.even _); eexists; (split; [done|apply Nat.ltb_lt; reflexivity]).
  - intros [|[|i]] g Hg; [injection Hg as <-; apply Nat.leb_le; reflexivity..|done].
  - apply Nat.leb_le. reflexivity.
  - exists m. exact Hrun.
Defined.

(** A network without SubDevices. *)
#[local] Instance silent : Bus unit := {| bus_pdu _ _ _ := fail E_Internal |}.
#[local] Instance the_timing : Timing := two_turns.
#[local] Instance the_io : EmbeddedIo := documented_io.
#[local] Instance the_crates : Crates := documented_crates.
#[local] Instance the_profile : Profile := true.

(** The second group first: 32 bytes from 0 on, then 16. *)
Lemma groups_disjoint_witness :
  exists groups', groups_into_pre_op two_groups [1%nat; 0%nat] (mkPdiOffset 0) tt = (Ok groups', tt) /\
    ((fun g => start_address (gr_pdi_start g)) <$> groups') = [32; 0] /\
    exists b, placed 0 [1%nat; 0%nat] groups' b.
Proof.
  eexists. split; [vm_compute; reflexivity|]. split; [reflexivity|].
  refine (proj1 (groups_disjoint two_groups _ [1%nat; 0%nat] (mkPdiOffset 0) tt tt _ _ _ _ _)).
  - vm_compute. reflexivity.
  - apply (bool_decide_unpack _). vm_compute. done.
  - by repeat constructor.
  - done.
  - vm_compute. congruence.
Defined.
