(* ===== verification/Addressing.v ===== *)
(** * Bringing up the addresses of a network

    The first steps of [MainDevice::init] over the PDU loop and a fieldbus: counting,
    resetting, and giving each SubDevice its station address.  [fieldbus_single_pdu]
    says what one request comes back with; it is what the commands on the bus of
    [PduNet.net_bus] run on.  What the SubDevices do with the commands that address
    them by position, or all at once, is a class ([Stations]) with the rules of
    EtherCAT. *)
From S2P Require Import Prelude Wire Derive DeriveEnum EscTypes Crates SiiTypes Errors PduTypes PduChain Bus Eeprom Frame CreatedFrame TxRx Samples Exchange CommandSpec PduNet SubDevice MainDevice Fieldbus Group Network.

(** ** Definitions *)

(** ** Lemmas *)

(** *** One request *)

Section Request.
#[local] Set Default Proof Using "Type*".
Context {W D : Type} `{!PduNet W} `{!Devices D} `{!Fieldbus W D} {P : Profile}.

Lemma single_send_ok {T} w command (wr : WireWrite T) data enc len_override retries :
  fb_idle w -> packs wr data enc -> (16 + (data_length wr data len_override + 12) <= fb_len)%nat ->
  exists s cf f index, let n := data_length wr data len_override in
    let p := pushed_pdu command index (payload_of enc n) in
    on_loop (single_pdu_send command wr data len_override TK_Pdu retries) w =
      (Ok (mkFut (Some (inner cf)) TK_Pdu retries, mkHandle 0 index (code command) (n + 12)),
       set_pdu_storage (sending s cf [p] f) w) /\ filling (pdu_storage w) s cf [p] f.
Proof.
  intros Hw Hp Hfit. destruct (fb_storage w Hw) as (Hs & Hlen & Hmax & Hfree).
  destruct (alloc_frame_ok _ Hs Hfree) as (cf & s & f & Ha & Hc & Hf).
  set (n := data_length wr data len_override) in *.
  destruct (filling_used _ _ _ _ _ Hf) as (_ & _ & Hbuf & _).
  assert (length enc <= n)%nat as Hn by (unfold n, data_length; rewrite (pk_len _ _ _ Hp); destruct len_override; lia).
  destruct (filling_push (pdu_storage w) s cf [] f command wr data enc n Hf ltac:(by rewrite Hlen) Hp Hn ltac:(rewrite Hlen; cbn [length pdus_bytes]; lia))
    as (h & s' & cf' & f' & Hpush & _ & _ & Hf').
  pose proof Hf as [Hs1 Hh _ _ Hl1 _].
  destruct (push_bytes_fits s cf [] f command wr data enc n Hs1 ltac:(by rewrite Hl1, Hlen) Hh Hp Hn ltac:(rewrite Hbuf, Hlen; cbn [length pdus_bytes]; lia)) as (He & _).
  rewrite Hpush in He. injection He as -> _ _. exists s', cf', f', (pdu_idx s). cbv zeta. split; [|exact Hf'].
  apply on_loop_ok. unfold single_pdu_send. rewrite (st_step _ _ _ _ _ Ha).
  rewrite (st_step _ _ _ (mkHandle 0 (pdu_idx s) (code command) (n + 12), cf') s').
  2: { unfold push_or_drop, run_push, push_pdu. fold n. by rewrite Hpush. }
  cbv beta iota. pose proof Hf' as [Hs2 Hh2 _ _ Hl2 _].
  by rewrite (st_step _ _ _ _ _ (mark_sendable_ok s' cf' _ f' TK_Pdu retries Hs2 ltac:(by rewrite Hl2, Hlen) Hh2)).
Qed.

(** The response to a single PDU, in its slot. *)
Lemma single_await_ok {T} w command (wr : WireWrite T) data enc len_override retries :
  fb_idle w -> packs wr data enc -> (16 + (data_length wr data len_override + 12) <= fb_len)%nat ->
  let '((b, wkc), d') := dev_pdu (fb_devices w) (code command) (Command_pack command)
    (payload_of enc (data_length wr data len_override)) in
  exists i index w1 w2 f rest, on_loop (single_pdu_send command wr data len_override TK_Pdu retries) w =
      (Ok (mkFut (Some i) TK_Pdu retries, mkHandle 0 index (code command) (data_length wr data len_override + 12)), w1) /\
    await_frame (mkFut (Some i) TK_Pdu retries) w1 = (Ok i, w2) /\
    frames (pdu_storage w2) !! i = Some f /\ status f = FS_RxProcessing /\ (pdu_payload_start <= length (ethernet_frame f))%nat /\
    (exists p, pdu_valid p /\ pdu_buf f = pdus_bytes [p] ++ rest /\ p_code p = code command /\ p_index p = index /\
      p_data p = b /\ p_wkc p = wkc) /\
    fb_idle (set_pdu_storage (freed i f (pdu_storage w2)) w2) /\
    fb_devices (set_pdu_storage (freed i f (pdu_storage w2)) w2) = d'.
Proof.
  intros Hw Hp Hfit. destruct (single_send_ok w command wr data enc len_override retries Hw Hp Hfit)
    as (s & cf & f & index & Hsend & Hf). cbv zeta in Hsend. set (n := data_length wr data len_override) in *.
  set (p := pushed_pdu command index (payload_of enc n)) in *.
  destruct (fb_await w s cf p [] f TK_Pdu retries Hw Hf) as (w2 & f' & Hrun & Hf' & Hst & _ & He & (rest & Hb) & Hidle & Hdev).
  pose proof (ho_valid _ _ _ _ (fi_holds _ _ _ _ _ Hf)) as Hv. apply Forall_cons in Hv as [Hv _].
  destruct (answer_spec (fb_devices w) p Hv) as [Hv' _]. unfold answer in Hv'. cbn [answer_all] in Hb, Hdev.
  unfold answer in Hb, Hdev. change (p_code p) with (code command) in *. change (p_raw p) with (Command_pack command) in *.
  change (p_data p) with (payload_of enc n) in *.
  destruct (dev_pdu _ _ _ _) as [[b wkc] d']. cbn [fst snd] in *.
  exists (inner cf), index, (set_pdu_storage (sending s cf [p] f) w), w2, f', rest. split_and!; try done.
  by exists (mkPdu (code command) (p_index p) (Command_pack command) (p_circulated p) (p_irq p) b wkc).
Qed.

Lemma net_single_pdu_ok {T} w command (wr : WireWrite T) data enc len_override retries :
  fb_idle w -> packs wr data enc -> (16 + (data_length wr data len_override + 12) <= fb_len)%nat ->
  let '((b, wkc), d') := dev_pdu (fb_devices w) (code command) (Command_pack command)
    (payload_of enc (data_length wr data len_override)) in
  exists behind w', net_single_pdu retries command wr data len_override w = (Ok (mkReceived wkc b behind), w') /\
    fb_idle w' /\ fb_devices w' = d'.
Proof.
  intros Hw Hp Hfit. pose proof (single_await_ok w command wr data enc len_override retries Hw Hp Hfit) as H.
  destruct (dev_pdu _ _ _ _) as [[b wkc] d'].
  destruct H as (i & index & w1 & w2 & f & rest & Hsend & Hawait & Hf & Hst & He & (p & Hv & Hb & Hc & Hi & Hd & Hwkc) & Hidle & Hdev).
  set (s3 := freed i f (pdu_storage w2)) in *. set (rp := pdu_ref i pdu_payload_start p).
  exists (CommandSpec.behind s3 rp), (set_pdu_storage s3 w2). split; [|done].
  unfold net_single_pdu. rewrite (st_step _ _ _ _ _ Hsend). cbv beta iota. rewrite (st_step _ _ _ _ _ Hawait).
  rewrite (st_step _ _ _ _ _ (on_loop_ok _ w2 _ _ (first_pdu_ok i _ _ f (Ok rp) Hf Hst
    (first_pdu_res_ok i (mkHandle 0 index (code command) _) f p [] rest Hv Hb (eq_sym Hc) (eq_sym Hi))))).
  fold s3. unfold gets, mbind, St_bind, mret, St_ret. rewrite fb_get_set. do 2 f_equal.
  unfold received_of. f_equal; [exact Hwkc|]. rewrite <- Hd.
  apply (deref_ref s3 i (clear_first_pdu (set_state FS_None f)) false p [] rest);
    [by apply with_frame_lookup, (lookup_slot _ _ _ Hf)|done|exact He|].
  change (pdu_buf (clear_first_pdu (set_state FS_None f))) with (pdu_buf f). rewrite Hb. cbn [pdus_bytes length Nat.eqb negb app].
  by rewrite app_nil_r.
Qed.

Lemma pdu_broadcast_zeros_ok w register len retries :
  fb_idle w -> in_u 16 len -> (28 + Z.to_nat len <= fb_len)%nat ->
  let '(_, d') := dev_pdu (fb_devices w) (code (Write (Bwr 0 register))) (Command_pack (Write (Bwr 0 register)))
    (payload_of [] (Z.to_nat len)) in
  exists w', pdu_broadcast_zeros retries register len w = (Ok tt, w') /\ fb_idle w' /\ fb_devices w' = d'.
Proof.
  intros Hw Hlen Hfit. assert (data_length unit_write tt (Some len) = Z.to_nat len) as Hn by (cbn; lia).
  pose proof (single_await_ok w (Write (Bwr 0 register)) unit_write tt [] (Some len) retries Hw packs_unit ltac:(lia)) as H.
  rewrite Hn in H. destruct (dev_pdu _ _ _ _) as [[b wkc] d'].
  destruct H as (i & index & w1 & w2 & f & rest & Hsend & Hawait & Hf & Hst & _ & _ & Hidle & Hdev).
  eexists. split; [|exact (conj Hidle Hdev)]. unfold pdu_broadcast_zeros, pdu_broadcast_zeros_send.
  change (ww_command (bwr register)) with (Bwr 0 register). rewrite (st_step _ _ _ _ _ Hsend). cbv beta iota.
  rewrite (st_step _ _ _ _ _ Hawait). apply on_loop_ok. by apply drop_received_ok.
Qed.

End Request.

(** ** Stations *)

(** The rules of EtherCAT for the commands that [init] begins with.  A command that is
    addressed by position is counted up by every SubDevice it passes, and is for the
    one that finds zero. *)
Class Stations (D : Type) `{!Devices D} := {
  (** The configured station addresses, in the order of the ring. *)
  stations : D -> list Z;
  st_brd d register b :
    (dev_pdu d BRD (Command_pack (Read (Brd 0 register))) b).1.2 = wrap 16 (Z.of_nat (length (stations d))) /\
    stations (dev_pdu d BRD (Command_pack (Read (Brd 0 register))) b).2 = stations d;
  st_apwr d adp b : in_u 16 adp -> length b = 2%nat ->
    stations (dev_pdu d APWR (Command_pack (Write (Apwr adp (register_u16 R_ConfiguredStationAddress)))) b).2 =
      imap (fun p a => if Z.eqb (wrap 16 (adp + Z.of_nat p)) 0 then le_val b else a) (stations d);
  (** The register of the address is two bytes from [0x0010] on. *)
  st_bwr d register b : 0x12 <= register ->
    stations (dev_pdu d BWR (Command_pack (Write (Bwr 0 register))) b).2 = stations d;
}.

Lemma each_register (register : Z -> res Error RegisterAddress) i :
  0 <= i < 16 -> forallb (fun i => match register i with Ok r => 0x12 <=? register_u16 r | _ => false end) (seqZ 0 16) = true ->
  exists r, register i = Ok r /\ 0x12 <= register_u16 r.
Proof.
  intros Hi Hall. rewrite forallb_forall in Hall. specialize (Hall i). rewrite <- list_elem_of_In, elem_of_seqZ in Hall.
  specialize (Hall ltac:(lia)). destruct (register i) as [r|e|]; [|done..]. exists r. split; [done|by apply Z.leb_le].
Qed.

(** The SubDevices from [i] on, [n] of them, get their addresses. *)
Definition addressed (i : Z) (n : nat) (l : list Z) : list Z :=
  imap (fun p a => if decide (i <= Z.of_nat p < i + Z.of_nat n) then address_of (Z.of_nat p) else a) l.

Lemma addressed_lookup i n l p :
  addressed i n l !! p = (fun a => if decide (i <= Z.of_nat p < i + Z.of_nat n) then address_of (Z.of_nat p) else a) <$> l !! p.
Proof. apply list_lookup_imap. Qed.

Lemma position_is i p :
  0 <= i < 65536 -> Z.of_nat p < 65536 -> Z.eqb (wrap 16 (wrap 16 (0 - i) + Z.of_nat p)) 0 = Z.eqb (Z.of_nat p) i.
Proof.
  intros Hi Hp. unfold wrap. change (2 ^ 16) with 65536. rewrite Zplus_mod_idemp_l.
  destruct (Z.eqb_spec (Z.of_nat p) i) as [->|Hne].
  - replace (0 - i + i) with 0 by lia. done.
  - apply Z.eqb_neq. intros H. apply Hne. pose proof (Z.div_mod (0 - i + Z.of_nat p) 65536). lia.
Qed.

Lemma addressed_all l : Z.of_nat (length l) < 65536 ->
  addressed 0 (length l) l = address_of <$> seqZ 0 (Z.of_nat (length l)).
Proof.
  intros _. apply list_eq. intros p. rewrite addressed_lookup, list_lookup_fmap.
  destruct (l !! p) as [a|] eqn:Hp.
  - apply lookup_lt_Some in Hp. rewrite (lookup_seqZ_lt 0 _ p) by lia. cbn. by rewrite decide_True by lia.
  - apply lookup_ge_None in Hp. by rewrite (lookup_seqZ_ge 0 _ p) by lia.
Qed.

Lemma addresses_distinct n : 0 <= n <= 65536 -> NoDup (address_of <$> seqZ 0 n).
Proof.
  intros Hn. apply NoDup_fmap_2_strong; [|apply NoDup_seqZ]. intros x y Hx Hy.
  apply elem_of_seqZ in Hx, Hy. unfold address_of, wrap, BASE_SUBDEVICE_ADDRESS. change (2 ^ 16) with 65536. intros H.
  pose proof (Z.div_mod (0x1000 + x) 65536). pose proof (Z.div_mod (0x1000 + y) 65536). lia.
Qed.

Section Bringup.
#[local] Set Default Proof Using "Type*".
Context {W D : Type} `{!PduNet W} `{!Devices D} `{!Fieldbus W D} `{!Stations D} {P : Profile}.
Context (retries : nat) (room : (44 <= fb_len (W:=W) (D:=D))%nat).

#[local] Instance the_bus : Bus W := net_bus retries.

(** On a fieldbus that is idle and has these addresses, the computation succeeds and
    leaves it idle, with those. *)
Definition moves (l : list Z) (m : St W Error unit) (l' : list Z) : Prop :=
  forall w, fb_idle w -> stations (fb_devices w) = l ->
  exists w', m w = (Ok tt, w') /\ fb_idle w' /\ stations (fb_devices w') = l'.

Lemma moves_bind l m l' m' l'' : moves l m l' -> moves l' m' l'' -> moves l (_ ← m; m') l''.
Proof.
  intros H1 H2 w Hw Hl. destruct (H1 w Hw Hl) as (w1 & Hr1 & Hw1 & Hl1).
  destruct (H2 w1 Hw1 Hl1) as (w2 & Hr2 & Hw2 & Hl2). exists w2. by rewrite (st_step _ _ _ _ _ Hr1).
Qed.

Lemma moves_ret l : moves l (mret tt) l.
Proof. intros w Hw Hl. by exists w. Qed.

(** A value sent without a length of its own. *)
Lemma moves_send {T} (wr : WireWrite T) (c : Writes) v data l l' :
  pack wr v = Ok data -> bytes_ok data -> (length data <= 16)%nat ->
  (forall d, stations d = l -> stations (dev_pdu d (code (Write c)) (Command_pack (Write c)) data).2 = l') ->
  moves l (send wr (write_ignore_wkc (WrappedWrite_new c)) v) l' /\ moves l (send wr (WrappedWrite_new c) v) l'.
Proof.
  intros Hpack Hok Hlen Hdev.
  assert (forall cmd, ww_command cmd = c -> ww_len_override cmd = None -> moves l (send wr cmd v) l') as H; [|by split; apply H].
  intros cmd Hc Ho w Hw Hl. unfold send, write_common. rewrite Hpack, Hc, Ho. cbn [bus_pdu the_bus net_bus].
  assert (data_length slice_write data None = length data) as Hn by done.
  pose proof (net_single_pdu_ok w (Write c) slice_write data data None retries Hw (packs_slice _ Hok) ltac:(lia)) as Hrun.
  rewrite Hn in Hrun. unfold payload_of in Hrun. rewrite Nat.sub_diag, app_nil_r in Hrun. specialize (Hdev _ Hl).
  destruct (dev_pdu _ _ _ _) as [[b wkc] d']. destruct Hrun as (behind & w' & Hrun & Hw' & Hd').
  exists w'. split_and!; [|done|by rewrite Hd']. unfold mbind, St_bind, lift. by rewrite Hrun.
Qed.

Lemma moves_blank m len register l :
  retries_of m = retries -> (len <= 16)%nat -> 0x12 <= register_u16 register -> moves l (blank_register m len register) l.
Proof.
  intros Hm Hlen Hreg w Hw Hl. unfold blank_register, blank_memory. rewrite wrap_small by (split; [lia|change (2 ^ 16) with 65536; lia]).
  pose proof (pdu_broadcast_zeros_ok w (register_u16 register) (Z.of_nat len) (retries_of m) Hw
    ltac:(split; [lia|change (2 ^ 16) with 65536; lia]) ltac:(lia)) as H.
  pose proof (st_bwr (fb_devices w) (register_u16 register) (payload_of [] (Z.to_nat (Z.of_nat len))) Hreg) as Hst.
  change (code (Write (Bwr 0 (register_u16 register)))) with BWR in H.
  destruct (dev_pdu _ _ _ _) as [r d']. destruct H as (w' & Hrun & Hw' & Hd'). exists w'. split_and!; [done..|].
  cbn [snd] in Hst. by rewrite Hd', Hst.
Qed.

Lemma moves_blank_all m len register l n : forall i,
  retries_of m = retries -> (len <= 16)%nat -> 0 <= i -> i + Z.of_nat n <= 16 ->
  (forall i, 0 <= i < 16 -> exists r, register i = Ok r /\ 0x12 <= register_u16 r) ->
  moves l (blank_all m len register i n) l.
Proof.
  induction n as [|n IH]; intros i Hm Hlen Hi Hn Hreg; [apply moves_ret|]. cbn [blank_all].
  destruct (Hreg i ltac:(lia)) as (r & Hr & Hge). intros w Hw Hl. rewrite Hr.
  rewrite (st_step (lift _) _ w r w) by done. revert w Hw Hl.
  apply (moves_bind l _ l); [by apply moves_blank|apply IH; by (done || lia)].
Qed.

(** Resetting does not touch the addresses. *)
Lemma moves_reset `{!Crates} m l : retries_of m = retries -> moves l (reset_subdevices m) l.
Proof.
  intros Hm. unfold reset_subdevices.
  apply (moves_bind l _ l).
  { eapply (moves_send AlControl_write (Bwr 0 (register_u16 R_AlControl)) AlControl_reset [0x11; 0]); [vm_compute; reflexivity|repeat constructor; cbn; lia|cbn; lia|].
    intros d Hd. rewrite <- Hd. apply st_bwr, Z.leb_le. reflexivity. }
  apply (moves_bind l _ l).
  { apply moves_blank_all; [done|apply Nat.leb_le; reflexivity|lia|lia|]. intros i Hi. by apply each_register. }
  apply (moves_bind l _ l).
  { apply moves_blank_all; [done|apply Nat.leb_le; reflexivity|lia|lia|]. intros i Hi. by apply each_register. }
  do 8 (apply (moves_bind l _ l); [apply moves_blank; [done|lia|apply Z.leb_le; reflexivity]|]).
  apply (moves_bind l _ l).
  { eapply (moves_send u16_write (Bwr 0 (register_u16 R_DcControlLoopParam3)) _ [0; 0x0c]); [reflexivity|repeat constructor; cbn; lia|cbn; lia|].
    intros d Hd. rewrite <- Hd. apply st_bwr, Z.leb_le. reflexivity. }
  eapply (moves_send u16_write (Bwr 0 (register_u16 R_DcControlLoopParam1)) _ [0; 0x10]); [reflexivity|repeat constructor; cbn; lia|cbn; lia|].
  intros d Hd. rewrite <- Hd. apply st_bwr, Z.leb_le. reflexivity.
Qed.

Lemma moves_set_addresses n : forall i l,
  0 <= i -> i + Z.of_nat n <= Z.of_nat (length l) -> Z.of_nat (length l) < 65536 ->
  moves l (set_addresses i n) (addressed i n l).
Proof.
  induction n as [|n IH]; intros i l Hi Hn Hl.
  { replace (addressed i 0 l) with l; [apply moves_ret|]. apply list_eq. intros p. rewrite addressed_lookup.
    destruct (l !! p); cbn; [|done]. by rewrite decide_False by lia. }
  cbn [set_addresses]. apply (moves_bind l _ (addressed i 1 l)).
  - assert (in_u 16 (address_of i)) as Hu by by apply wrap_in_u.
    eapply (moves_send u16_write (Apwr (wrap 16 (0 - i)) (register_u16 R_ConfiguredStationAddress)) (address_of i) (le_bytes 2 (address_of i)));
      [by apply prim_pack_ok|apply le_bytes_ok|rewrite length_le_bytes; lia|].
    intros d Hd. rewrite st_apwr by (apply length_le_bytes || by apply wrap_in_u). rewrite Hd, le_val_le_bytes_small by exact Hu. apply list_eq. intros p.
    rewrite addressed_lookup, list_lookup_imap. destruct (l !! p) as [a|] eqn:Hp; [|done]. cbn. f_equal.
    apply lookup_lt_Some in Hp. rewrite position_is by lia.
    destruct (Z.eqb_spec (Z.of_nat p) i) as [->|]; [by rewrite decide_True by lia|by rewrite decide_False by lia].
  - replace (addressed i (S n) l) with (addressed (i + 1) n (addressed i 1 l)).
    { apply IH; [lia|..]; unfold addressed; rewrite length_imap; lia. }
    apply list_eq. intros p. rewrite !addressed_lookup. destruct (l !! p) as [a|]; [|done]. cbn. f_equal.
    repeat case_decide; done || lia.
Qed.

(** Every SubDevice answers the count. *)
Lemma count_ok w :
  fb_idle w -> Z.of_nat (length (stations (fb_devices w))) < 65536 ->
  exists w', count_subdevices w = (Ok (Z.of_nat (length (stations (fb_devices w)))), w') /\ fb_idle w' /\
    stations (fb_devices w') = stations (fb_devices w).
Proof.
  intros Hw Hl. unfold count_subdevices, receive_wkc, read_common. change (wrap 16 (Z.of_nat 1)) with 1. cbn [bus_pdu the_bus net_bus].
  pose proof (net_single_pdu_ok w (Read (Brd 0 (register_u16 R_Type))) slice_write [] [] (Some 1) retries Hw
    (packs_slice [] ltac:(constructor)) ltac:(cbn; lia)) as H.
  change (code (Read (Brd 0 (register_u16 R_Type)))) with BRD in H.
  pose proof (st_brd (fb_devices w) (register_u16 R_Type) (payload_of [] (data_length slice_write [] (Some 1)))) as [Hwkc Hst].
  destruct (dev_pdu _ _ _ _) as [[b wkc] d']. cbn [fst snd] in *. destruct H as (behind & w' & Hrun & Hw' & Hd').
  exists w'. split_and!; [|done|by rewrite Hd']. change (wr_command (brd (register_u16 R_Type))) with (Brd 0 (register_u16 R_Type)).
  rewrite (st_step _ _ _ _ _ Hrun). cbn [rd_wkc mret]. rewrite Hwkc, wrap_small; [done|].
  split; [lia|change (2 ^ 16) with 65536; lia].
Qed.

(** ** Properties *)

(** C22: on a ring of fewer than 65536 SubDevices, over the PDU loop, counting,
    resetting and addressing succeed: the number counted is that of the SubDevices,
    and the SubDevice at each position ends with the station address that is
    [0x1000] plus its position (modulo 2^16), so that no two have the same. *)
Theorem bring_up_addresses `{!Crates} m w :
  retries_of m = retries -> fb_idle w -> Z.of_nat (length (stations (fb_devices w))) < 65536 ->
  let n := Z.of_nat (length (stations (fb_devices w))) in
  exists w', (num_subdevices ← count_subdevices; _ ← reset_subdevices m;
              _ ← set_addresses 0 (Z.to_nat num_subdevices); mret num_subdevices) w = (Ok n, w') /\ fb_idle w' /\
    stations (fb_devices w') = address_of <$> seqZ 0 n /\ NoDup (stations (fb_devices w')).
Proof.
  intros Hm Hw Hl n. destruct (count_ok w Hw Hl) as (w1 & Hcount & Hw1 & Hl1).
  set (l := stations (fb_devices w)) in *.
  destruct (moves_reset m l Hm w1 Hw1 Hl1) as (w2 & Hreset & Hw2 & Hl2).
  pose proof (moves_set_addresses (length l) 0 l (Z.le_refl 0) (Z.le_refl _) Hl) as Hset.
  rewrite addressed_all in Hset by done. destruct (Hset w2 Hw2 Hl2) as (w3 & Hrun & Hw3 & Hl3).
  exists w3. split_and!; [|done|done|].
  - rewrite (st_step _ _ _ _ _ Hcount), (st_step _ _ _ _ _ Hreset), Nat2Z.id. by rewrite (st_step _ _ _ _ _ Hrun).
  - rewrite Hl3. apply addresses_distinct. unfold n. lia.
Qed.

End Bringup.

(** *** Witness *)

(** SubDevices that have nothing but their address. *)
#[local, program] Instance ring : Devices (list Z) := {|
  dev_pdu d c raw b :=
    (b, wrap 16 (Z.of_nat (length d)),
     if (c =? APWR) && (le_val (drop 2 raw) =? 0x10)
     then imap (fun p a => if Z.eqb (wrap 16 (le_val (take 2 raw) + Z.of_nat p)) 0 then le_val b else a) d else d)
|}.
Next Obligation. done. Qed.
Next Obligation. intros. by apply wrap_in_u. Qed.

#[local, program] Instance ring_stations : Stations (list Z) := {| stations d := d |}.
Next Obligation. done. Qed.
Next Obligation.
  intros d adp b Hadp _. cbn [dev_pdu ring snd]. change (APWR =? APWR) with true.
  assert (Command_pack (Write (Apwr adp (register_u16 R_ConfiguredStationAddress))) = le_bytes 4 (0x10 * 2 ^ 16 + adp)) as -> by done.
  assert (in_u 32 (0x10 * 2 ^ 16 + adp)) as Hu.
  { destruct Hadp. change (2 ^ 16) with 65536 in *. split; [lia|change (2 ^ 32) with 4294967296; lia]. }
  destruct Hadp. change (2 ^ 16) with 65536 in *.
  rewrite le_val_take, le_val_drop by (apply le_bytes_ok || (rewrite length_le_bytes; lia)).
  rewrite le_val_le_bytes_small by exact Hu. change (2 ^ (8 * Z.of_nat 2)) with 65536.
  replace ((16 * 65536 + adp) / 65536) with 16 by (rewrite Z.div_add_l, Z.div_small by lia; lia).
  replace ((16 * 65536 + adp) mod 65536) with adp by (rewrite Z.add_comm, Z.mod_add, Z.mod_small by lia; lia).
  done.
Qed.
Next Obligation. done. Qed.

#[local] Existing Instance looped.
#[local] Instance checks_on : Profile := true.
#[local] Existing Instance documented_crates.

(** Three SubDevices. *)
Definition ring_net : PduStorage * list Z :=
  (mkStorage [clear_first_pdu (zeroed_frame 44)] 44 0 0 false false false, [0; 0; 7]).

Lemma ring_idle : fb_idle (Fieldbus := looped_fieldbus 44) ring_net.
Proof.
  split; [|exists (clear_first_pdu (zeroed_frame 44)); by apply list_elem_of_singleton]. split_and!; [|done|by apply Nat.leb_le|done|].
  - apply (with_frame_wf 0 _ (mkStorage [zeroed_frame 44] 44 0 0 false false false)); [apply (storage_new_wf 1 44); reflexivity|].
    split; [reflexivity|apply Nat.leb_le; reflexivity].
  - constructor; [done|constructor].
Qed.

Lemma bring_up_addresses_witness :
  let m := MainDevice_new MainDeviceConfig_default in
  exists w', (num_subdevices ← count_subdevices (Bus0 := the_bus (retries_of m)); _ ← reset_subdevices (Bus0 := the_bus (retries_of m)) m;
    _ ← set_addresses (Bus0 := the_bus (retries_of m)) 0 (Z.to_nat num_subdevices); mret num_subdevices) ring_net = (Ok 3, w') /\
    w'.2 = [0x1000; 0x1001; 0x1002].
Proof.
  cbv zeta. destruct (bring_up_addresses (Fieldbus0 := looped_fieldbus 44) (retries_of (MainDevice_new MainDeviceConfig_default))
    ltac:(apply Nat.leb_le; reflexivity) (MainDevice_new MainDeviceConfig_default) ring_net eq_refl ring_idle
    ltac:(reflexivity)) as (w' & Hrun & _ & Hst & _). exists w'. split; [exact Hrun|exact Hst].
Defined.
