(* ===== verification/Tasks.v ===== *)
(** * The TX/RX task

    [std/unix/mod.rs]: the future [TxRxFut] that [tx_rx_task] returns.  It sends
    every frame that waits in the storage and takes in one packet per poll.  The
    socket is third-party and a class; what the loops of all tasks share comes
    first. *)
From S2P Require Import Prelude Wire Errors PduTypes PduChain Frame CreatedFrame TxRx Samples PduLoop Exchange.

(** ** Definitions *)

(** [std::io::Error]: made from an error of the program or of a crate, or by the system. *)
Inductive IoError :=
| Io_Other (e : Error)
| Io_Crate (code : Z)
| Io_Os (code : Z).

Section Task.
(** What the task holds besides the storage: its interface. *)
Context {K : Type}.

Definition on_storage {E A} (m : St PduStorage E A) : St (PduStorage * K) E A := fun '(s, k) =>
  let '(r, s) := m s in (r, (s, k)).

Definition on_interface {E A} (m : St K E A) : St (PduStorage * K) E A := fun '(s, k) =>
  let '(r, k) := m k in (r, (s, k)).

(** [frame.send_blocking(send)] with a closure that acts on the interface. *)
Definition send_blocking_on (i : nat) (send : bytes -> St K Error nat) : St (PduStorage * K) Error nat :=
  b ← on_storage (f ← frame_at_index i; lift (as_bytes f));
  sent ← on_interface (outcome (send b));
  on_storage (send_blocking i (fun _ => sent)).

(** One turn of [while let Some(frame) = pdu_tx.next_sendable_frame()]. *)
Definition sendable_turn {E A} (body : nat -> A -> St (PduStorage * K) E A) (a : A)
    : St (PduStorage * K) E (A + A) :=
  frame ← on_storage next_sendable_frame;
  match frame with
  | Some i => a ← body i a; mret (inl a)
  | None => mret (inr a)
  end.

Definition while_sendable {E A} (body : nat -> A -> St (PduStorage * K) E A) (a : A)
    : St (PduStorage * K) E (option A) :=
  n ← on_storage (gets num_frames);
  iterate (S n) (sendable_turn body) a.

(** [pdu_tx.replace_waker(..)]: from here on a wake is seen. *)
Definition replace_waker {E} : St PduStorage E unit := modify (with_tx_woken false).

Definition should_exit {E} : St PduStorage E bool := gets exit_flag.

End Task.

(** *** [TxRxFut] *)

(** [Async<RawSocketDesc>]: [AsyncWrite::poll_write] and [AsyncRead::poll_read];
    the latter gives the buffer back with what was read. *)
Class Socket (K : Type) := {
  poll_write : bytes -> K -> Poll (IoError + nat) * K;
  poll_read : bytes -> K -> Poll (IoError + nat) * bytes * K;
}.

Section TxRxFut.
Context {K : Type} `{!Socket K}.

(** The closure given to [send_blocking]. *)
Definition socket_send (data : bytes) : St K Error nat := fun k =>
  let '(written, k) := poll_write data k in
  (match written with
   | Ready (inr bytes_written) =>
       if negb (Nat.eqb bytes_written (length data)) then Err (E_PartialSend (length data) bytes_written)
       else Ok bytes_written
   | Ready (inl _) => Err E_SendFrame
   | Pending => Ok 0%nat
   end, k).

Definition socket_read (buf : bytes) : St K Error (Poll (IoError + nat) * bytes) := fun k =>
  let '(read, buf, k) := poll_read buf k in (Ok (read, buf), k).

(** One packet, if there is one. *)
Definition receive_packet (mtu : nat) (source_mac : bytes) : St (PduStorage * K) Error unit :=
  '(read, buf) ← on_interface (socket_read (zeros mtu));
  match read with
  | Ready (inr n) =>
      _ ← on_storage wake_sender;
      packet ← lift (ok_or (get_range buf 0 n) E_Internal);
      _ ← on_storage (fun s => let '(r, s) := receive_frame source_mac packet s in
            (map_err (fun _ => E_ReceiveFrame) r, s));
      mret tt
  | Ready (inl _) => mret tt
  | Pending => mret tt
  end.

(** [poll]: [Ready] when the task ends with [Ok], an error when it ends with [Err]. *)
Definition TxRxFut_poll (mtu : nat) (source_mac : bytes) : St (PduStorage * K) Error (Poll unit) :=
  _ ← on_storage replace_waker;
  exit ← on_storage should_exit;
  if (exit : bool) then _ ← on_storage (modify release_tx_rx); mret (Ready tt) else
  _ ← while_sendable (fun frame (_ : unit) => _ ← send_blocking_on frame socket_send; mret tt) tt;
  _ ← receive_packet mtu source_mac;
  mret Pending.

End TxRxFut.

(** *** [ethercat_now] *)

(** The seconds and nanoseconds of [CLOCK_MONOTONIC]. *)
Definition ethercat_now {P : Profile} {E} (tv_sec tv_nsec : Z) : res E Z :=
  t ← umul 64 (wrap 64 tv_sec) 1000000000;
  t ← uadd 64 t (wrap 64 tv_nsec);
  mret (sat_sub t 946684800).

(** ** What the loop over the sendable frames does *)

Definition sent_frame (f : FrameElement) : FrameElement :=
  if decide (status f = FS_Sendable) then set_state FS_Sent f else f.

Definition sent_all (s : PduStorage) : PduStorage := with_frames (sent_frame <$> frames s) s.

(** The frames that wait in the first [j] slots have been sent. *)
Definition sent_first (j : nat) (s : PduStorage) : PduStorage :=
  with_frames (imap (fun n f => if decide (n < j)%nat then sent_frame f else f) (frames s)) s.

(** The bytes of a frame on the wire. *)
Definition wire (f : FrameElement) : bytes := take (buffer_len (2 + pdu_payload_len f)) (ethernet_frame f).

(** The frames that wait, in the order of the slots. *)
Definition outgoing (s : PduStorage) : list bytes :=
  wire <$> filter (fun f => status f = FS_Sendable) (frames s).

Lemma as_bytes_wire {E} data f : frame_ok data f -> as_bytes (E:=E) f = Ok (wire f).
Proof.
  intros [Hl Hp]. unfold as_bytes, wire. rewrite get_range_0; [done|].
  unfold pdu_payload_start in Hp. unfold buffer_len. lia.
Qed.

Lemma wire_nonempty data f : frame_ok data f -> length (wire f) <> 0%nat.
Proof.
  intros [Hl Hpl]. unfold wire, buffer_len. rewrite length_take. unfold pdu_payload_start in Hpl.
  unfold ETHERNET_HEADER_LEN in *. lia.
Qed.

Lemma sent_first_0 s : sent_first 0 s = s.
Proof.
  unfold sent_first. replace (imap _ (frames s)) with (frames s); [by destruct s|].
  apply list_eq. intros n. rewrite list_lookup_imap. destruct (frames s !! n); [|done].
  cbn. by rewrite decide_False by lia.
Qed.

(** Sending the first frame that waits, and then those of the first [j] slots. *)
Lemma sent_first_next j s i f :
  list_find (fun f => status f = FS_Sendable) (frames s) = Some (i, f) ->
  sent_first j (with_frame i (set_state FS_Sent f) s) = sent_first (Nat.max (S i) j) s.
Proof.
  intros (Hi & Hst & Hmin)%list_find_Some. unfold sent_first, with_frame, with_frames. cbn. f_equal.
  apply list_eq. intros n. rewrite !list_lookup_imap. destruct (decide (i = n)) as [<-|Hne].
  - rewrite list_lookup_insert_eq by by eapply lookup_lt_Some. rewrite Hi. cbn. f_equal.
    destruct (decide (i < Nat.max (S i) j)%nat) as [_|]; [|lia]. unfold sent_frame.
    rewrite (decide_True (P := status f = FS_Sendable)) by done. by destruct (decide (i < j)%nat).
  - rewrite list_lookup_insert_ne by done. destruct (frames s !! n) as [g|] eqn:Hg; [|done]. cbn. f_equal.
    destruct (decide (n < j)%nat); [by rewrite decide_True by lia|].
    destruct (decide (n < Nat.max (S i) j)%nat) as [Hlt|]; [|done].
    unfold sent_frame. rewrite decide_False; [done|]. apply (Hmin n g Hg). lia.
Qed.

(** A frame that waited and waits again. *)
Lemma put_back s i f : frames s !! i = Some f -> status f = FS_Sendable -> with_frame i (set_state FS_Sendable f) s = s.
Proof.
  intros Hf Hst. replace (set_state FS_Sendable f) with f by (destruct f; cbn in *; by subst).
  unfold with_frame, with_frames. rewrite list_insert_id by done. by destruct s.
Qed.

Section Loop.
Context {K : Type}.

Lemma on_storage_step {E A} (m : St PduStorage E A) s k r s' :
  m s = (r, s') -> on_storage (K:=K) m (s, k) = (r, (s', k)).
Proof. intros Hm. unfold on_storage. by rewrite Hm. Qed.

Lemma on_interface_step {E A} (m : St K E A) s k r k' :
  m k = (r, k') -> on_interface m (s, k) = (r, (s, k')).
Proof. intros Hm. unfold on_interface. by rewrite Hm. Qed.

Lemma send_blocking_on_ok i (send : bytes -> St K Error nat) s k f r k' :
  frames s !! i = Some f -> frame_ok (frame_data_len s) f -> send (wire f) k = (r, k') ->
  send_blocking_on i send (s, k) =
    match r with
    | Ok n =>
        if Nat.eqb n (length (wire f)) then (Ok n, (with_frame i (set_state FS_Sent f) s, k'))
        else (Err (E_PartialSend (length (wire f)) n), (with_frame i (set_state FS_Sendable f) s, k'))
    | Err e => (Err e, (with_frame i (set_state FS_Sendable f) s, k'))
    | Panic => (Panic, (s, k'))
    end.
Proof.
  intros Hf Hok Hs. unfold send_blocking_on. pose proof (as_bytes_wire (E:=Error) _ _ Hok) as Hb.
  rewrite (st_step _ _ _ (wire f) (s, k)).
  2: { apply on_storage_step. rewrite (st_step _ _ _ _ _ (frame_at_index_ok _ _ _ Hf)).
    unfold lift. by rewrite Hb. }
  rewrite (st_step _ _ _ r (s, k')) by (apply on_interface_step; unfold outcome; by rewrite Hs).
  unfold on_storage. rewrite (send_blocking_spec _ _ _ _ _ Hf Hb).
  destruct r as [n|e|]; [by destruct (Nat.eqb _ _)|done..].
Qed.

Lemma none_waits fs :
  Forall (fun f => status f <> FS_Sendable) fs ->
  filter (fun f => status f = FS_Sendable) fs = [] /\ sent_frame <$> fs = fs.
Proof.
  induction 1 as [|f fs Hf _ [IH1 IH2]]; [done|]. rewrite filter_cons_False, fmap_cons, IH2 by done.
  unfold sent_frame. by rewrite decide_False.
Qed.

(** The first frame that waits is taken; the others still wait. *)
Lemma next_sendable_first {E} s :
  exit_flag s = false ->
  match list_find (fun f => status f = FS_Sendable) (frames s) with
  | Some (i, f) =>
      next_sendable_frame (E:=E) s = (Ok (Some i), with_frame i (set_state FS_Sending f) s) /\
      frames s !! i = Some f /\ status f = FS_Sendable /\
      outgoing s = wire f :: outgoing (with_frame i (set_state FS_Sent f) s) /\
      sent_all (with_frame i (set_state FS_Sent f) s) = sent_all s
  | None => next_sendable_frame (E:=E) s = (Ok None, s) /\ outgoing s = [] /\ sent_all s = s
  end.
Proof.
  intros Hx. unfold next_sendable_frame.
  rewrite (st_step (gets num_frames) _ s (num_frames s) s) by done.
  rewrite (next_sendable_loop_spec s 0) by (rewrite ?length_seq; done || lia). rewrite drop_0.
  destruct (list_find _ _) as [[i f]|] eqn:Hfind.
  - apply list_find_Some in Hfind as (Hi & Hst & Hmin). split_and!; [done..| |].
    + unfold outgoing. cbn [with_frame with_frames frames].
      rewrite <- (take_drop_middle _ _ _ Hi) at 1. rewrite insert_take_drop by by eapply lookup_lt_Some.
      rewrite !filter_app, !fmap_app, !filter_cons, decide_True by done. rewrite decide_False by done.
      enough (Forall (fun f => status f <> FS_Sendable) (take i (frames s))) as Hnone
        by by rewrite (proj1 (none_waits _ Hnone)).
      apply Forall_lookup. intros j g Hj. apply lookup_take_Some in Hj as [Hj Hlt]. by apply (Hmin j g).
    + unfold sent_all, with_frame, with_frames. cbn. f_equal.
      rewrite list_fmap_insert. rewrite list_insert_id; [done|].
      rewrite list_lookup_fmap, Hi. cbn. unfold sent_frame at 1. by rewrite decide_True.
  - split; [done|]. apply list_find_None, none_waits in Hfind as [Hnone Hsame].
    unfold outgoing, sent_all. rewrite Hnone, Hsame. split; [done|by destruct s].
Qed.

Lemma next_sendable_exit {E} s : exit_flag s = true -> next_sendable_frame (E:=E) s = (Ok None, s).
Proof.
  intros Hx. unfold next_sendable_frame. rewrite (st_step (gets num_frames) _ s (num_frames s) s) by done.
  destruct (num_frames s); [done|]. cbn [seq next_sendable_loop].
  by rewrite (st_step (gets exit_flag) _ s true s) by (unfold gets; by rewrite Hx).
Qed.

Lemma outgoing_length s : (length (outgoing s) <= num_frames s)%nat.
Proof. unfold outgoing, num_frames. rewrite length_fmap. apply length_filter. Qed.

(** The frames that wait are handed to the body one after the other, in the order of
    the slots.  Either the body sends all of them; or it fails at one of them, which
    waits again, as do those behind it. *)
Lemma while_sendable_cases {A} (body : nat -> A -> St (PduStorage * K) Error A)
    (I : A -> K -> list bytes -> Prop) (Q : Error -> K -> list bytes -> bytes -> Prop) :
  (forall i f a s k out, frames s !! i = Some f -> frame_ok (frame_data_len s) f -> I a k out ->
    (exists a' k', body i a (s, k) = (Ok a', (with_frame i (set_state FS_Sent f) s, k')) /\
      I a' k' (out ++ [wire f])) \/
    (exists e k', body i a (s, k) = (Err e, (with_frame i (set_state FS_Sendable f) s, k')) /\
      Q e k' out (wire f))) ->
  forall s a k, Forall (frame_ok (frame_data_len s)) (frames s) -> exit_flag s = false -> I a k [] ->
  (exists a' k', while_sendable body a (s, k) = (Ok (Some a'), (sent_all s, k')) /\ I a' k' (outgoing s)) \/
  (exists j out b rest e k', while_sendable body a (s, k) = (Err e, (sent_first j s, k')) /\
    outgoing s = out ++ b :: rest /\ outgoing (sent_first j s) = b :: rest /\ Q e k' out b).
Proof.
  intros Hbody s a k Hok Hx HI. unfold while_sendable.
  rewrite (st_step _ _ _ (num_frames s) (s, k)) by done.
  pose proof (outgoing_length s) as Hfuel. apply Nat.lt_succ_r in Hfuel.
  enough (forall fuel out s a k, Forall (frame_ok (frame_data_len s)) (frames s) -> exit_flag s = false ->
    (length (outgoing s) < fuel)%nat -> I a k out -> let run := iterate fuel (sendable_turn body) a (s, k) in
    (exists a' k', run = (Ok (Some a'), (sent_all s, k')) /\ I a' k' (out ++ outgoing s)) \/
    (exists j out' b rest e k', run = (Err e, (sent_first j s, k')) /\ outgoing s = out' ++ b :: rest /\
      outgoing (sent_first j s) = b :: rest /\ Q e k' (out ++ out') b)) as Hloop by by apply (Hloop _ []).
  clear s a k Hok Hx HI Hfuel. intros fuel.
  induction fuel as [|fuel IH]; intros out s a k Hok Hx Hfuel HI run; [lia|].
  pose proof (next_sendable_first (E:=Error) s Hx) as Hnext. destruct (list_find _ _) as [[i f]|] eqn:Hfind.
  - destruct Hnext as (Hnext & Hf & Hst & Hout & Hall). pose proof (lookup_slot _ _ _ Hf) as Hlt.
    assert (frame_ok (frame_data_len s) f) as Hfok by by eapply Forall_lookup_1.
    destruct (Hbody i (set_state FS_Sending f) a (with_frame i (set_state FS_Sending f) s) k out)
      as [(a' & k' & Hrun & HI')|(e & k' & Hrun & HQ)]; [by apply with_frame_lookup|exact Hfok|done|..];
      rewrite with_frame_twice in Hrun.
    + assert (run = iterate fuel (sendable_turn body) a' (with_frame i (set_state FS_Sent f) s, k')) as ->.
      { apply iterate_inl. unfold sendable_turn. rewrite (st_step _ _ _ _ _ (on_storage_step _ _ _ _ _ Hnext)). cbv beta iota.
        by rewrite (st_step _ _ _ _ _ Hrun). }
      rewrite Hout in *. cbn [length] in Hfuel.
      destruct (IH (out ++ [wire f]) (with_frame i (set_state FS_Sent f) s) a' k')
        as [(a2 & k2 & -> & HI2)|(j & out' & b & rest & e & k2 & -> & Ho & Hr & HQ)];
        [by apply Forall_insert|done|lia|exact HI'| |]; rewrite <- app_assoc in *; cbn [app] in *.
      * left. exists a2, k2. by rewrite Hall.
      * right. exists (Nat.max (S i) j), (wire f :: out'), b, rest, e, k2.
        rewrite <- (sent_first_next j s i f Hfind). by rewrite Ho.
    + right. exists 0%nat, [], (wire f), (outgoing (with_frame i (set_state FS_Sent f) s)), e, k'.
      rewrite sent_first_0, app_nil_r. split_and!; [|done..]. apply iterate_err.
      unfold sendable_turn. rewrite (st_step _ _ _ _ _ (on_storage_step _ _ _ _ _ Hnext)). cbv beta iota.
      rewrite (st_step_err _ _ _ _ _ Hrun). do 2 f_equal.
      change (set_state FS_Sendable (set_state FS_Sending f)) with (set_state FS_Sendable f).
      by rewrite (put_back s i f Hf Hst).
  - destruct Hnext as (Hnext & Hout & Hall). left. exists a, k. rewrite Hout, app_nil_r, Hall. split; [|done].
    apply iterate_inr. unfold sendable_turn. by rewrite (st_step _ _ _ _ _ (on_storage_step _ _ _ _ _ Hnext)).
Qed.

End Loop.

(** *** The future *)

Section Unix.
Context {K : Type} `{!Socket K}.

Lemma socket_send_ok (data : bytes) k w k' :
  poll_write data k = (w, k') ->
  socket_send data k =
    (match w with
     | Ready (inr n) => if negb (Nat.eqb n (length data)) then Err (E_PartialSend (length data) n) else Ok n
     | Ready (inl _) => Err E_SendFrame
     | Pending => Ok 0%nat
     end, k').
Proof. intros Hw. unfold socket_send. by rewrite Hw. Qed.

(** The error the task ends with when the socket does not take the whole of a frame. *)
Definition send_error (len : nat) (written : Poll (IoError + nat)) : Error :=
  match written with
  | Ready (inr n) => E_PartialSend len n
  | Ready (inl _) => E_SendFrame
  | Pending => E_PartialSend len 0
  end.

(** The interface after these frames have been written to it. *)
Inductive writes : list bytes -> K -> K -> Prop :=
| writes_nil k : writes [] k k
| writes_snoc bs b k k1 k2 :
    writes bs k k1 -> poll_write b k1 = (Ready (inr (length b)), k2) -> writes (bs ++ [b]) k k2.

(** After the frames [out] the socket does not take the whole of [b]. *)
Definition refused (out : list bytes) (b : bytes) (k k' : K) (e : Error) : Prop :=
  exists k1 written, writes out k k1 /\ poll_write b k1 = (written, k') /\
    written <> Ready (inr (length b)) /\ e = send_error (length b) written.

Definition send_all : St (PduStorage * K) Error (option unit) :=
  while_sendable (fun frame (_ : unit) => _ ← send_blocking_on frame socket_send; mret tt) tt.

Lemma takes_all (w : Poll (IoError + nat)) n : w = Ready (inr n) \/ w <> Ready (inr n).
Proof. destruct w as [[e|m]|]; [by right| |by right]. destruct (decide (m = n)) as [->|]; [by left|right; congruence]. Qed.

Lemma send_waiting_cases s k :
  Forall (frame_ok (frame_data_len s)) (frames s) -> exit_flag s = false ->
  (exists k', send_all (s, k) = (Ok (Some tt), (sent_all s, k')) /\ writes (outgoing s) k k') \/
  (exists j out b rest e k', send_all (s, k) = (Err e, (sent_first j s, k')) /\
    outgoing s = out ++ b :: rest /\ outgoing (sent_first j s) = b :: rest /\ refused out b k k' e).
Proof.
  intros Hok Hx.
  destruct (while_sendable_cases (fun frame (_ : unit) => _ ← send_blocking_on frame socket_send; mret tt)
    (fun _ k' out => writes out k k') (fun e k' out b => refused out b k k' e)) with (s := s) (a := tt) (k := k)
    as [([] & k' & Hrun & Hw)|Hfail]; [|done|done|constructor|left; by exists k'|by right].
  intros i f [] s1 k1 out Hf Hfok Hw. pose proof (wire_nonempty _ _ Hfok) as Hne.
  destruct (poll_write (wire f) k1) as [w k2] eqn:Hp.
  destruct (takes_all w (length (wire f))) as [->|Hshort].
  - left. exists tt, k2. split; [|by econstructor]. erewrite st_step; [done|].
    rewrite (send_blocking_on_ok _ _ _ _ _ _ _ Hf Hfok (socket_send_ok _ _ _ _ Hp)).
    by rewrite Nat.eqb_refl; cbv [negb]; rewrite Nat.eqb_refl.
  - right. exists (send_error (length (wire f)) w), k2. split; [|by exists k1, w]. apply st_step_err.
    rewrite (send_blocking_on_ok _ _ _ _ _ _ _ Hf Hfok (socket_send_ok _ _ _ _ Hp)).
    destruct w as [[e|n]|]; cbv [send_error].
    + done.
    + assert (n <> length (wire f)) as Hn%Nat.eqb_neq by congruence. by rewrite Hn.
    + by rewrite (proj2 (Nat.eqb_neq _ _)) by lia.
Qed.

Lemma send_waiting s k :
  (forall b k, exists k', poll_write b k = (Ready (inr (length b)), k')) ->
  Forall (frame_ok (frame_data_len s)) (frames s) -> exit_flag s = false ->
  exists k', send_all (s, k) = (Ok (Some tt), (sent_all s, k')) /\ writes (outgoing s) k k'.
Proof.
  intros Hacc Hok Hx. destruct (send_waiting_cases s k Hok Hx) as [?|Hfail]; [done|].
  destruct Hfail as (j & out & b & rest & e & k' & _ & _ & _ & k1 & w & _ & Hp & Hne & _).
  destruct (Hacc b k1) as [k2 Hk2]. by rewrite Hp in Hk2; injection Hk2 as -> _.
Qed.

Lemma poll_exit mtu source_mac s k :
  exit_flag s = true ->
  TxRxFut_poll mtu source_mac (s, k) = (Ok (Ready tt), (release_tx_rx (with_tx_woken false s), k)).
Proof.
  intros Hx. unfold TxRxFut_poll. rewrite (st_step _ _ _ tt (with_tx_woken false s, k)) by done.
  rewrite (st_step _ _ _ true (with_tx_woken false s, k)); [done|].
  unfold on_storage, should_exit, gets. cbn. by rewrite Hx.
Qed.

Lemma poll_runs mtu source_mac s k :
  exit_flag s = false ->
  TxRxFut_poll mtu source_mac (s, k) =
    (_ ← send_all; _ ← receive_packet mtu source_mac; mret Pending) (with_tx_woken false s, k).
Proof.
  intros Hx. unfold TxRxFut_poll. rewrite (st_step _ _ _ tt (with_tx_woken false s, k)) by done.
  rewrite (st_step _ _ _ false (with_tx_woken false s, k)); [done|].
  unfold on_storage, should_exit, gets. cbn. by rewrite Hx.
Qed.

(** What is read goes to [receive_frame], and the task is woken again. *)
Lemma receive_packet_ok mtu source_mac s k read buf k' :
  poll_read (zeros mtu) k = (read, buf, k') ->
  receive_packet mtu source_mac (s, k) =
    match read with
    | Ready (inr n) =>
        match get_range buf 0 n with
        | Some packet => let '(r, s') := receive_frame source_mac packet (with_tx_woken true s) in
            (match r with Ok _ => Ok tt | Err _ => Err E_ReceiveFrame | Panic => Panic end, (s', k'))
        | None => (Err E_Internal, (with_tx_woken true s, k'))
        end
    | _ => (Ok tt, (s, k'))
    end.
Proof.
  intros Hr. unfold receive_packet.
  rewrite (st_step _ _ _ (read, buf) (s, k')).
  2: { unfold on_interface, socket_read. by rewrite Hr. }
  destruct read as [[e|n]|]; [done| |done].
  rewrite (st_step _ _ _ tt (with_tx_woken true s, k')) by done.
  destruct (get_range buf 0 n) as [packet|]; [|done].
  rewrite (st_step (lift _) _ _ packet (with_tx_woken true s, k')) by done.
  unfold on_storage, mbind, St_bind. destruct (receive_frame _ _ _) as [[a|e|] s']; done.
Qed.

End Unix.

(** *** The storage after a poll *)

Lemma sent_all_wf s : storage_wf s -> storage_wf (sent_all s).
Proof.
  intros [Hn Hd Hf Hi Hp]. constructor; cbn; try done.
  - unfold num_frames in *. cbn. by rewrite length_fmap.
  - apply Forall_fmap. apply (Forall_impl _ _ _ Hf). intros f [H1 H2]. unfold compose, sent_frame. by case_decide.
Qed.

Lemma sent_first_wf j s : storage_wf s -> storage_wf (sent_first j s).
Proof.
  intros [Hn Hd Hf Hi Hp]. constructor; cbn; try done.
  - unfold num_frames in *. cbn. by rewrite length_imap.
  - apply Forall_lookup. intros n f. rewrite list_lookup_imap. intros (g & Hg & ->)%fmap_Some.
    pose proof (Forall_lookup_1 _ _ _ _ Hf Hg) as [H1 H2]. unfold sent_frame. by repeat case_decide.
Qed.

Lemma outgoing_nil s : Forall (fun f => status f <> FS_Sendable) (frames s) -> outgoing s = [].
Proof. intros H. unfold outgoing. by rewrite (proj1 (none_waits _ H)). Qed.

Lemma sent_all_none s : Forall (fun f => status f <> FS_Sendable) (frames (sent_all s)).
Proof. apply Forall_fmap, Forall_true. intros f. unfold compose, sent_frame. by case_decide. Qed.

(** A response makes no frame wait, and wakes no one else. *)
Lemma receive_keeps source_mac b s :
  storage_wf s -> Forall (fun f => status f <> FS_Sendable) (frames s) ->
  let '(r, s') := receive_frame source_mac b s in
  r <> Panic /\ storage_wf s' /\ outgoing s' = [] /\ tx_woken s' = tx_woken s.
Proof.
  intros Hs Hnone. pose proof (receive_frame_effect source_mac b s Hs) as H.
  destruct (receive_frame source_mac b s) as [r s']. destruct H as (Hr & Hwf & H). split_and!; [done..| |].
  - apply outgoing_nil. destruct H as [[-> _]|(k & f & Hf & _ & [(i & -> & _)|[-> _]])]; [done|..];
      by apply Forall_insert.
  - by destruct H as [[-> _]|(k & f & Hf & _ & [(i & -> & _)|[-> _]])].
Qed.

(** ** A socket that follows a script *)

(** What has been written to it, and the packets it will give. *)
Record Script := mkScript { written : list bytes; incoming : list bytes }.

#[export] Instance scripted_socket : Socket Script := {|
  poll_write data k := (Ready (inr (length data)), mkScript (written k ++ [data]) (incoming k));
  poll_read buf k :=
    match incoming k with
    | [] => (Pending, buf, k)
    | b :: bs => (Ready (inr (Nat.min (length buf) (length b))),
        take (length buf) b ++ drop (length b) buf, mkScript (written k) bs)
    end;
|}.

(** ** Properties *)

(** C12: a poll of the TX/RX task does not panic, whatever the socket answers.  When
    the task is asked to exit it ends and takes the request back, and nothing is
    sent.  Otherwise the frames that wait are written to the socket in the order of
    the slots, and there are two cases.  Either the socket takes all of each: then
    none waits any more and one packet is read; when there is one the task is woken
    again and the packet goes to [receive_frame], whose failure ends the task.  Or the
    socket does not take the whole of the frame [b], behind the frames [out]: it
    fails, writes a part or would block.  Then the task ends with the error for that,
    nothing is read, [out] have been sent, and [b] and the frames behind it wait. *)
Theorem task_poll_spec {K} `{!Socket K} mtu source_mac s (k : K) :
  storage_wf s ->
  let '(r, (s', k')) := TxRxFut_poll mtu source_mac (s, k) in
  let s0 := with_tx_woken false s in
  r <> Panic /\ storage_wf s' /\
  if exit_flag s then r = Ok (Ready tt) /\ k' = k /\ s' = with_exit_flag false s0
  else
    (outgoing s' = [] /\ exists k1, writes (outgoing s) k k1 /\
      let '(read, buf, k2) := poll_read (zeros mtu) k1 in
      k' = k2 /\
      match read with
      | Ready (inr n) => tx_woken s' = true /\
          match get_range buf 0 n with
          | Some packet => exists x,
              receive_frame source_mac packet (with_tx_woken true (sent_all s0)) = (x, s') /\
              r = match x with Ok _ => Ok Pending | Err _ => Err E_ReceiveFrame | Panic => Panic end
          | None => r = Err E_Internal /\ s' = with_tx_woken true (sent_all s0)
          end
      | _ => r = Ok Pending /\ s' = sent_all s0
      end) \/
    (exists j out b rest e, outgoing s = out ++ b :: rest /\ refused out b k k' e /\
      r = Err e /\ s' = sent_first j s0 /\ outgoing s' = b :: rest).
Proof.
  intros Hs. destruct (exit_flag s) eqn:Hx.
  { rewrite poll_exit by done. split_and!; try done. destruct Hs; by constructor. }
  set (s0 := with_tx_woken false s). assert (storage_wf s0) as Hs0 by (destruct Hs; by constructor).
  rewrite poll_runs by done. fold s0. cbv zeta.
  destruct (send_waiting_cases s0 k (swf_frames _ Hs0) Hx)
    as [(k1 & Hsend & Hw)|(j & out & b & rest & e & k' & Hsend & Ho & Hr & Href)].
  2: { rewrite (st_step_err _ _ _ _ _ Hsend). split_and!; [done|by apply sent_first_wf|].
    right. by exists j, out, b, rest, e. }
  rewrite (st_step _ _ _ _ _ Hsend). destruct (poll_read (zeros mtu) k1) as [[read buf] k2] eqn:Hread.
  set (s1 := sent_all s0) in *. pose proof (sent_all_wf s0 Hs0) as Hs1. fold s1 in Hs1.
  pose proof (receive_packet_ok mtu source_mac s1 k1 read buf k2 Hread) as Hrec.
  unfold mbind, St_bind. rewrite Hrec. clear Hrec.
  assert (outgoing s1 = []) as Ho by apply outgoing_nil, sent_all_none.
  destruct read as [[err|n]|].
  1,3: split_and!; try done; left; split; [done|]; exists k1; rewrite Hread; by split_and!.
  destruct (get_range buf 0 n) as [packet|] eqn:Hpacket.
  - pose proof (receive_keeps source_mac packet (with_tx_woken true s1)) as Hk.
    destruct (receive_frame _ _ _) as [r2 s2] eqn:Hrecv. destruct Hk as (Hr & Hwf & Hout & Hwoken);
      [destruct Hs1; by constructor|apply sent_all_none|].
    destruct r2 as [a|e|]; [..|done]; (split_and!; [done..|]);
      left; split; try done; exists k1; rewrite Hread, Hpacket; split_and!; try done; rewrite Hrecv; by eexists.
  - split_and!; [done|destruct Hs1; by constructor|]. left. split; [exact Ho|].
    exists k1. rewrite Hread, Hpacket. by split_and!.
Qed.

(** *** Witness *)

(** A socket whose buffer is full. *)
Definition full_socket : Socket unit := {|
  poll_write _ k := (Pending, k);
  poll_read buf k := (Pending, buf, k);
|}.

Lemma scripted_incoming out k k' : writes out k k' -> incoming k' = incoming k.
Proof. induction 1 as [|bs b k k1 k2 _ IH Hw]; [done|]. by injection Hw as <-. Qed.

(** A socket that takes the frame and has a packet, and one that takes nothing: there
    the frame is put back to wait, and the task, which was to try again when the socket
    is ready, fails and is not polled any more. *)
Lemma task_poll_spec_witness :
  let s := storage_in FS_Sendable [1; 2] in
  (let '(r, (s', _)) := TxRxFut_poll 64 MAINDEVICE_ADDR (s, mkScript [] [zeros 20]) in
   r <> Panic /\ outgoing s' = [] /\ tx_woken s' = true) /\
  (let '(r, (s', _)) := TxRxFut_poll (Socket0 := full_socket) 64 MAINDEVICE_ADDR (s, tt) in
   r = Err (E_PartialSend 30 0) /\ outgoing s' = outgoing s).
Proof.
  cbv zeta. assert (storage_wf (storage_in FS_Sendable [1; 2])) as Hs
    by (apply storage_in_wf; apply Nat.leb_le; reflexivity). split.
  - pose proof (task_poll_spec 64 MAINDEVICE_ADDR (storage_in FS_Sendable [1; 2]) (mkScript [] [zeros 20]) Hs) as H.
    destruct (TxRxFut_poll _ _ _) as [r [s' k']].
    destruct H as (Hr & _ & [(Ho & k1 & Hw & Hread)|(j & out & b & rest & e & _ & (k1 & w & _ & Hp & Hne & _) & _)]).
    + apply scripted_incoming in Hw. cbn [poll_read scripted_socket] in Hread. rewrite Hw in Hread.
      by destruct Hread as (_ & Hwoken & _).
    + by injection Hp as <- _.
  - pose proof (task_poll_spec (Socket0 := full_socket) 64 MAINDEVICE_ADDR (storage_in FS_Sendable [1; 2]) tt Hs) as H.
    destruct (TxRxFut_poll _ _ _) as [r [s' k']].
    destruct H as (_ & _ & [(_ & k1 & Hw & _)|(j & out & b & rest & e & Hall & (k1 & w & _ & Hp & _ & ->) & Hr & _ & Ho)]).
    + inversion Hw as [|bs b k0 k2 k3 _ Hp]. discriminate Hp.
    + injection Hp as <- _. destruct out as [|b' out]; [|by destruct out].
      injection Hall as <- <-. by rewrite Ho.
Defined.
