(* ===== verification/TaskBus.v ===== *)
(** * The fieldbus behind the TX/RX task

    [TxRxFut] on a socket behind which the SubDevices answer is the network that
    the theorems about groups run on: whenever [looped_await] of [Fieldbus] gets
    a frame back, so does the task. *)
From S2P Require Import Prelude Wire Derive DeriveEnum Errors PduTypes PduChain Bus Frame CreatedFrame TxRx Samples PduLoop Exchange CommandSpec PduNet Fieldbus Group GroupSpec Tasks.

(** ** Definitions *)

Section Line.
Context {D : Type} `{!Devices D}.

(** A frame as it comes back from the SubDevices. *)
Definition answer_frame (d : D) (b : bytes) : bytes * D :=
  let '(ps, d) := answer_all d (decode_pdus (length b) (drop 16 b)) in
  (response BROADCAST answer_mac ps [], d).

(** The SubDevices, and the frames that have come back from them. *)
Abbreviation Line := (D * list bytes)%type.

#[export] Instance line_socket : Socket Line := {|
  poll_write data '(d, back) :=
    let '(b, d) := answer_frame d data in (Ready (inr (length data)), (d, back ++ [b]));
  poll_read buf '(d, back) :=
    match back with
    | [] => (Pending, buf, (d, []))
    | b :: back => (Ready (inr (Nat.min (length buf) (length b))),
        take (length buf) b ++ drop (length b) buf, (d, back))
    end;
|}.

(** One poll of the task; then the response is polled. *)
Definition task_await (mtu : nat) (fut : ReceiveFrameFut) : St (PduStorage * D) Error nat := fun '(s, d) =>
  let '(r, (s, (d, _))) := TxRxFut_poll mtu MAINDEVICE_ADDR (s, (d, [])) in
  match r with
  | Ok _ =>
      let '(r, s) := ('(_, polled) ← fut_poll false fut;
        match polled with Ready r => lift r | Pending => fail E_Internal end) s in
      (r, (s, d))
  | Err e => (Err e, (s, d))
  | Panic => (Panic, (s, d))
  end.

Definition tasked (mtu : nat) : PduNet (PduStorage * D) := {|
  pdu_storage := fst;
  set_pdu_storage s w := (s, w.2);
  await_frame := task_await mtu;
|}.

(** ** Lemmas *)

Lemma outgoing_none s : outgoing s = [] -> sent_all s = s.
Proof.
  intros Hout. assert (Forall (fun f => status f <> FS_Sendable) (frames s)) as Hn.
  { apply Forall_forall. intros g Hg Hst. unfold outgoing in Hout. apply fmap_nil_inv in Hout.
    assert (g ∈ filter (fun f => status f = FS_Sendable) (frames s)) as Hin by by apply list_elem_of_filter.
    rewrite Hout in Hin. by apply elem_of_nil in Hin. }
  unfold sent_all. rewrite (proj2 (none_waits _ Hn)). by destruct s.
Qed.

Lemma transmit_outgoing s :
  Forall (frame_ok (frame_data_len s)) (frames s) -> exit_flag s = false ->
  forall b, outgoing s = [b] -> transmit s = (Ok b, sent_all s).
Proof.
  intros Hok Hx b Hout. pose proof (next_sendable_first (E:=Error) s Hx) as Hnext.
  destruct (list_find _ _) as [[i f]|]; [|destruct Hnext as (_ & Hn & _); by rewrite Hn in Hout].
  destruct Hnext as (Hnext & Hf & _ & Hb & Hall). rewrite Hb in Hout. injection Hout as <- Hout.
  pose proof (lookup_slot _ _ _ Hf) as Hlt. assert (frame_ok (frame_data_len s) f) as Hfok by by eapply Forall_lookup_1.
  unfold transmit. rewrite (st_step _ _ _ _ _ Hnext). set (f1 := set_state FS_Sending f).
  rewrite (st_step (lift _) _ _ i (with_frame i f1 s)) by done.
  pose proof (with_frame_lookup i f1 s Hlt) as Hf1. rewrite (st_step _ _ _ _ _ (frame_at_index_ok _ _ _ Hf1)).
  pose proof (as_bytes_wire (E:=Error) (frame_data_len s) f1 Hfok) as Hw.
  rewrite (st_step (lift _) _ _ (wire f) (with_frame i f1 s)) by (unfold lift; by rewrite Hw).
  rewrite (st_step (send_blocking _ _) _ _ (length (wire f)) (sent_all s)); [done|].
  rewrite (send_blocking_spec _ _ _ _ _ Hf1 Hw), Nat.eqb_refl, with_frame_twice.
  change (set_state FS_Sent f1) with (set_state FS_Sent f). rewrite <- Hall. do 2 f_equal.
  by rewrite <- (outgoing_none _ Hout) at 1.
Qed.

(** The one frame that waits is answered and stored. *)
Lemma line_poll mtu s d b resp d' r s' :
  storage_wf s -> exit_flag s = false -> tx_woken s = true -> outgoing s = [b] ->
  answer_frame d b = (resp, d') -> (length resp <= mtu)%nat ->
  receive_frame MAINDEVICE_ADDR resp (sent_all s) = (Ok r, s') ->
  TxRxFut_poll mtu MAINDEVICE_ADDR (s, (d, [])) = (Ok Pending, (s', (d', []))).
Proof.
  intros Hs Hx Hwoken Hout Hans Hmtu Hrec. rewrite poll_runs by done. set (s0 := with_tx_woken false s).
  assert (storage_wf s0) as Hs0 by (destruct Hs; by constructor).
  destruct (send_waiting s0 ((d, []) : Line)) as (k1 & Hsend & Hw); [|apply Hs0|exact Hx|].
  { intros c [d0 q]. cbn. destruct (answer_frame d0 c). by eexists. }
  rewrite (st_step _ _ _ _ _ Hsend). change (outgoing s0) with (outgoing s) in Hw. rewrite Hout in Hw.
  assert (k1 = (d', [resp])) as ->.
  { inversion Hw as [|bs c k0 k2 k3 Hw0 Hp Hl]. apply (app_inj_2 bs [] [c] [b]) in Hl as [-> [= ->]]; [|done].
    inversion Hw0 as [|bs' c' ? ? ? ? ? Hl']; subst; [|by destruct bs'].
    cbn in Hp. rewrite Hans in Hp. by injection Hp as <-. }
  assert (poll_read (zeros mtu) ((d', [resp]) : Line) =
    (Ready (inr (length resp)), resp ++ drop (length resp) (zeros mtu), (d', []))) as Hread.
  { cbn. rewrite length_zeros, Nat.min_r, take_ge by done. done. }
  pose proof (receive_packet_ok mtu MAINDEVICE_ADDR (sent_all s0) _ _ _ _ Hread) as Hp. cbv beta iota in Hp.
  rewrite get_range_0 in Hp by (rewrite length_app; lia). rewrite take_app_length in Hp.
  replace (with_tx_woken true (sent_all s0)) with (sent_all s) in Hp by (destruct s; cbn in *; by subst).
  rewrite Hrec in Hp. unfold mbind, St_bind. by rewrite Hp.
Qed.

(** Whenever sending the one frame that waits, having it answered and storing the
    response gives the caller its frame, one poll of the task on a socket with an MTU that
    takes the response leaves the same storage and SubDevices behind. *)
Lemma task_serves mtu s d fut i w' b :
  storage_wf s -> exit_flag s = false -> tx_woken s = true -> outgoing s = [b] ->
  (length (answer_frame d b).1 <= mtu)%nat ->
  looped_await fut (s, d) = (Ok i, w') -> task_await mtu fut (s, d) = (Ok i, w').
Proof.
  intros Hs Hx Hwoken Hout Hmtu. unfold looped_await, task_await.
  rewrite (transmit_outgoing s (swf_frames _ Hs) Hx b Hout).
  pose proof (eq_refl (answer_frame d b)) as Hans. unfold answer_frame at 1 in Hans.
  destruct (answer_all d _) as [ps d'] eqn:Hall. rewrite <- Hans in Hmtu. cbn [fst] in Hmtu.
  destruct (receive_frame MAINDEVICE_ADDR (response BROADCAST answer_mac ps []) (sent_all s)) as [[r|e|] s1] eqn:Hrec.
  2: { rewrite (st_step_err _ _ _ _ _ Hrec). done. }
  2: { rewrite (st_step_panic _ _ _ _ Hrec). done. }
  rewrite (st_step _ _ _ _ _ Hrec), (line_poll mtu s d b _ d' r s1 Hs Hx Hwoken Hout (eq_sym Hans) Hmtu Hrec).
  done.
Qed.

(** *** The task as a [Fieldbus] *)

Lemma sending_outgoing len s0 s cf ps f :
  settled len s0 -> filling s0 s cf ps f -> outgoing (sending s cf ps f) = [sent_bytes ps].
Proof.
  intros Hset Hf. pose proof (fi_holds _ _ _ _ _ Hf) as Hh. pose proof (ho_slot _ _ _ _ Hh) as Hslot.
  pose proof (lookup_slot _ _ _ Hslot) as Hlt. set (g := sendable_frame ps f).
  assert (Forall (fun f => status f <> FS_Sendable) (take (inner cf) (frames s) ++ drop (S (inner cf)) (frames s))) as Hn.
  { apply Forall_app. split; apply Forall_lookup; intros j h Hj.
    - apply lookup_take_Some in Hj as [Hj Hl]. by rewrite (proj1 (settled_other len s0 s cf ps f j h Hset Hf ltac:(lia) Hj)).
    - rewrite lookup_drop in Hj. by rewrite (proj1 (settled_other len s0 s cf ps f (S (inner cf) + j) h Hset Hf ltac:(lia) Hj)). }
  apply Forall_app in Hn as [H1 H2].
  unfold outgoing. cbn [sending with_tx_woken with_frame with_frames frames]. fold g.
  rewrite insert_take_drop by done. rewrite filter_app, filter_cons_True by done.
  rewrite (proj1 (none_waits _ H1)), (proj1 (none_waits _ H2)). cbn [app]. rewrite fmap_cons. f_equal.
  unfold wire, g, sendable_frame, buffer_len, ETHERNET_HEADER_LEN. cbn [pdu_payload_len ethernet_frame].
  rewrite (ho_len _ _ _ _ Hh), (ho_buf _ _ _ _ Hh), !app_assoc. rewrite take_app_le, take_ge.
  - unfold sent_bytes. by rewrite <- !app_assoc.
  - rewrite !length_app, length_le_bytes. change (length eth_header) with 14%nat. lia.
  - rewrite !length_app, length_le_bytes. change (length eth_header) with 14%nat. lia.
Qed.

Lemma answer_frame_length d p ps :
  Forall pdu_valid (p :: ps) -> length (answer_frame d (sent_bytes (p :: ps))).1 = (16 + length (pdus_bytes (p :: ps)))%nat.
Proof.
  intros Hv. assert (length (sent_bytes (p :: ps)) = 16 + length (pdus_bytes (p :: ps)))%nat as Hl.
  { unfold sent_bytes. rewrite !length_app, length_le_bytes. change (length eth_header) with 14%nat. lia. }
  unfold answer_frame. assert (drop 16 (sent_bytes (p :: ps)) = pdus_bytes (p :: ps) ++ []) as ->.
  { unfold sent_bytes. rewrite app_assoc, app_nil_r. apply drop_app_length'. reflexivity. }
  rewrite decode_pdus_ok; [|done|].
  - pose proof (length_answer_all d (p :: ps) Hv) as Hlen. destruct (answer_all d (p :: ps)) as [qs d'].
    cbn [fst] in *. unfold response. rewrite !length_app, length_le_bytes. cbn [length be_bytes]. rewrite Hlen.
    change (length BROADCAST) with 6%nat. change (length answer_mac) with 6%nat.
    change (length (be_bytes 2 ETHERCAT_ETHERTYPE)) with 2%nat. lia.
  - pose proof (pdus_fit (p :: ps) _ Hv (le_n _)). cbn [length] in *. lia.
Qed.


Context {P : Profile}.

#[program] Definition task_fieldbus (mtu len : nat) (Hmtu : (len <= mtu)%nat) :
    Fieldbus (PduNet0 := tasked mtu) (PduStorage * D) D := {|
  fb_devices := snd;
  fb_idle := fb_idle (Fieldbus := looped_fieldbus len);
  fb_len := len;
|}.
Next Obligation. by intros ? ? ? [s d] s'. Qed.
Next Obligation. by intros ? ? ? [s d]. Qed.
Next Obligation. by intros ? ? ? [s d] s'. Qed.
Next Obligation. by intros ? ? ? [s d] s' s''. Qed.
Next Obligation. intros mtu len Hmtu. exact (fb_storage (Fieldbus := looped_fieldbus len)). Qed.
Next Obligation. intros mtu len Hmtu. exact (fb_drop (Fieldbus := looped_fieldbus len)). Qed.
Next Obligation.
  intros mtu len Hmtu [s0 d] s cf p ps f timeout retries Hidle Hf. change (filling s0 s cf (p :: ps) f) in Hf.
  destruct (fb_await (Fieldbus := looped_fieldbus len) (s0, d) s cf p ps f timeout retries Hidle Hf) as (w' & f' & Hrun & H).
  exists w', f'. split; [|exact H]. destruct Hidle as [Hset _].
  pose proof Hf as [Hs Hh _ _ Hlen Hx]. pose proof Hset as (_ & Hl & _ & Hx0 & _). cbn [fst] in *.
  pose proof (ho_slot _ _ _ _ Hh) as Hslot. pose proof (frame_ok_lookup _ _ _ Hs Hslot) as [Hdata Hfit].
  apply (task_serves _ _ _ _ _ _ (sent_bytes (p :: ps))).
  - by apply sending_wf.
  - change (exit_flag s = false). congruence.
  - done.
  - by eapply sending_outgoing.
  - rewrite answer_frame_length by apply Hh. rewrite <- (ho_len _ _ _ _ Hh).
    unfold pdu_payload_start, ETHERNET_HEADER_LEN in Hfit. lia.
  - exact Hrun.
Qed.

(** ** Properties *)

(** C3: a frame that goes through the TX/RX task comes back: on a socket whose MTU
    takes a whole frame, a frame of PDUs is sent by one poll of the task, the
    SubDevices process its PDUs in order, the same poll takes the response in, and
    the caller reads what they made of each PDU; the storage is ready for the next. *)
Theorem task_frame_roundtrip mtu len s0 d s cf ps f reqs retries :
  (len <= mtu)%nat -> settled len s0 -> filling s0 s cf ps f -> (0 < length ps)%nat -> asks ps reqs ->
  exists rs w1 s' d', send_frame (PduNet0 := tasked mtu) retries cf (s, d) = (Ok (inner cf), w1) /\
    into_pdus (PduNet0 := tasked mtu) (inner cf) w1 = (Ok (Ok <$> rs), (s', d')) /\ settled len s' /\
    (fun r => (rd_data r, rd_wkc r)) <$> rs = (serve d reqs).1 /\ d' = (serve d reqs).2.
Proof.
  intros Hmtu Hset Hf Hn Ha. assert (exists f, f ∈ frames s0) as Hslot.
  { destruct (fi_free _ _ _ _ _ Hf) as (f0 & Hf0 & _). exists f0. by eapply list_elem_of_lookup_2. }
  destruct (frame_roundtrip (Fieldbus0 := task_fieldbus mtu len Hmtu) (s0, d) s cf ps f reqs retries)
    as (rs & w1 & [s' d'] & Hsend & Hinto & [Hidle _] & Hrs & Hd); try done.
  by exists rs, w1, s', d'.
Qed.

End Line.

(** *** Witnesses *)

#[local] Existing Instance adders.
#[local] Instance checks_on : Profile := true.

(** The cycle of [GroupSpec.adder_cycle] with the task at work. *)
Example adder_cycle_on_task :
  (let '(r, (_, pdi)) := tx_rx (W := PduStorage * unit) (PduNet0 := tasked 64) (S := Op) (DC := unit)
     adder_main (adder_group unit tt) (adder_net, adder_image) in
   (tr_working_counter <$> r, pdi)) = (Ok 3, replicate 24 8 ++ replicate 16 9).
Proof. vm_compute. reflexivity. Qed.

(** A frame of the network of [GroupSpec] with one PDU. *)
Lemma adder_filling :
  exists s cf f, filling adder_net.1 s cf [pushed_pdu (Write (Lrw 0)) 0 [1; 2; 3; 4]] f.
Proof.
  destruct adder_idle as [(Hs & _) _].
  destruct (alloc_frame_ok adder_net.1 Hs) as (cf & s & f & Ha & Hc & Hf); [by exists 0%nat, (clear_first_pdu (zeroed_frame 44))|].
  assert (pdu_idx s = 0) as Hi by (vm_compute in Ha; by injection Ha as _ <-).
  destruct (filling_push adder_net.1 s cf [] f (Write (Lrw 0)) slice_write [1; 2; 3; 4] [1; 2; 3; 4] 4 Hf)
    as (h & s' & cf' & f' & _ & _ & _ & Hf').
  - apply Nat.leb_le. reflexivity.
  - apply packs_slice. repeat constructor; cbn; lia.
  - cbn. lia.
  - apply Nat.leb_le. reflexivity.
  - rewrite Hi in Hf'. by exists s', cf', f'.
Qed.

Lemma task_frame_roundtrip_witness :
  exists s cf rs w1 s', send_frame (PduNet0 := tasked 64) 0 cf (s, tt) = (Ok (inner cf), w1) /\
    into_pdus (PduNet0 := tasked 64) (inner cf) w1 = (Ok (Ok <$> rs), (s', tt)) /\
    (fun r => (rd_data r, rd_wkc r)) <$> rs = [([2; 3; 4; 5], 1)].
Proof.
  destruct adder_filling as (s & cf & f & Hf).
  destruct (task_frame_roundtrip 64 44 adder_net.1 tt s cf [pushed_pdu (Write (Lrw 0)) 0 [1; 2; 3; 4]] f [(Write (Lrw 0), [1; 2; 3; 4])] 0) as
    (rs & w1 & s' & [] & H1 & H2 & _ & H3 & _).
  - apply Nat.leb_le. reflexivity.
  - apply adder_idle.
  - exact Hf.
  - apply Nat.leb_le. reflexivity.
  - constructor; [by exists 0|constructor].
  - exists s, cf, rs, w1, s'. split_and!; [exact H1|exact H2|exact H3].
Defined.
