(* ===== verification/Threads.v ===== *)
(** * The blocking TX/RX tasks

    [std/windows.rs] and [std/xdp.rs]: threads that send, receive and park.  Each
    is a machine with a program counter, one step from one access to the storage
    or the interface to the next, so that the other tasks can run in between;
    [std/mod.rs]'s [ParkSignal::wait] is a point where the thread stays until it is
    woken.  The capture and the AF_XDP socket are third-party and classes. *)
From S2P Require Import Prelude Wire Errors PduTypes PduChain Frame CreatedFrame TxRx Samples PduLoop Tasks.

(** ** Definitions *)

(** Where the first byte of the index of the first PDU is. *)
Definition FIRST_PDU_INDEX : nat := 0x11.

(** *** [tx_rx_task_blocking] *)

Inductive PcapError := NoMorePackets | TimeoutExpired | OtherPcapError (code : Z).

(** [pcap::sendqueue::SendQueue] and [pcap::Capture]. *)
Class Pcap (K : Type) := {
  queue : bytes -> K -> res Error unit * K;
  sq_transmit : K -> res Error unit * K;
  next_packet : K -> (PcapError + bytes) * K;
}.

(** At the top of the loop; sending, with what has been queued; receiving; waiting to be woken. *)
Inductive WindowsPc := W_Begin | W_Send (sent_this_iter : nat) | W_Receive | W_Parked.

Section Windows.
Context {K : Type} `{!Pcap K} {P : Profile}.

(** [.expect(..)] *)
Definition expect {E F A} (m : St K E A) : St K F A := fun k =>
  match m k with
  | (Ok a, k) => (Ok a, k)
  | (_, k) => (Panic, k)
  end.

Definition queue_frame (frame_bytes : bytes) : St K Error nat :=
  _ ← expect (queue frame_bytes);
  mret (length frame_bytes).

(** What has been queued goes out. *)
Definition windows_transmit (in_flight : Z) (sent_this_iter : nat) : St (PduStorage * K) IoError Z :=
  if Nat.ltb 0 sent_this_iter then
    _ ← on_interface (expect sq_transmit);
    lift (uadd 64 in_flight (Z.of_nat sent_this_iter))
  else mret in_flight.

Definition windows_send (in_flight : Z) (sent_this_iter : nat) (spinloop : bool)
    : St (PduStorage * K) IoError (WindowsPc * Z) :=
  frame ← on_storage next_sendable_frame;
  match frame with
  | Some i =>
      _ ← st_map_err Io_Other (send_blocking_on i queue_frame);
      mret (W_Send (S sent_this_iter), in_flight)
  | None =>
      in_flight ← windows_transmit in_flight sent_this_iter;
      mret (if 0 <? in_flight then W_Receive else if negb spinloop then W_Parked else W_Begin, in_flight)
  end.

Definition windows_receive (source_mac : bytes) (in_flight : Z)
    : St (PduStorage * K) IoError (WindowsPc * Z) :=
  packet ← on_interface (fun k => let '(p, k) := next_packet k in (Ok p, k));
  match packet with
  | inr frame_buf =>
      _ ← lift (ok_or (frame_buf !! FIRST_PDU_INDEX) (Io_Other E_Internal));
      res ← st_map_err Io_Other (on_storage (receive_frame source_mac frame_buf));
      match res with
      | Processed =>
          if 1 <=? in_flight then mret (W_Receive, in_flight - 1) else lift Panic
      | Ignored => mret (W_Receive, in_flight)
      end
  | inl NoMorePackets => mret (W_Begin, in_flight)
  | inl TimeoutExpired => mret (W_Begin, in_flight)
  | inl (OtherPcapError code) => fail (Io_Crate code)
  end.

(** One step; [inr tt] when the task ends with [Ok]. *)
Definition windows_step (source_mac : bytes) (spinloop : bool) (st : WindowsPc * Z)
    : St (PduStorage * K) IoError ((WindowsPc * Z) + unit) :=
  let '(pc, in_flight) := st in
  match pc with
  | W_Begin => _ ← on_storage replace_waker; mret (inl (W_Send 0, in_flight))
  | W_Send sent_this_iter => st ← windows_send in_flight sent_this_iter spinloop; mret (inl st)
  | W_Receive => st ← windows_receive source_mac in_flight; mret (inl st)
  | W_Parked =>
      exit ← on_storage should_exit;
      if (exit : bool) then _ ← on_storage (modify release_tx_rx); mret (inr tt)
      else mret (inl (W_Begin, in_flight))
  end.

End Windows.

(** *** [tx_rx_task_xdp] *)

(** [xsk_rs]: the memory shared with the kernel and its queues.  A descriptor is its
    number; [poll_and_consume] gives what the descriptors received hold. *)
Class Xsk (K : Type) := {
  write_all : nat -> bytes -> K -> res Error unit * K;
  produce_tx : nat -> K -> K;
  needs_wakeup : K -> bool;
  wakeup : K -> res IoError unit * K;
  cq_consume : nat -> K -> nat * K;
  poll_and_consume : nat -> K -> res IoError (list bytes) * K;
  produce_fill : K -> K;
}.

Inductive XdpPc :=
| X_Begin
| X_Send (tx_frame_count : nat)
| X_Complete (tx_frame_count : nat)
| X_Poll
| X_Receive (packets : list bytes)
| X_Parked.

Section Xdp.
Context {K : Type} `{!Xsk K} {P : Profile}.

(** Half of the descriptors are for sending; there are as many as frames. *)
Definition xdp_tx_descs (capacity : nat) : nat := capacity / 2.
Definition xdp_rx_descs (capacity : nat) : nat := capacity - capacity / 2.

(** The closure given to [send_blocking]. *)
Definition xdp_queue (tx_descs descriptor : nat) (data : bytes) : St K Error nat :=
  if negb (Nat.ltb descriptor tx_descs) then fail E_SendFrame else
  fun k =>
    match write_all descriptor data k with
    | (Ok _, k) => (Ok (length data), produce_tx descriptor k)
    | (Err _, k) => (Err E_SendFrame, k)
    | (Panic, k) => (Panic, k)
    end.

Definition xdp_send (tx_descs : nat) (in_flight : Z) (tx_frame_count : nat)
    : St (PduStorage * K) IoError (XdpPc * Z) :=
  frame ← on_storage next_sendable_frame;
  match frame with
  | Some i =>
      _ ← (fun w => match send_blocking_on i (xdp_queue tx_descs tx_frame_count) w with
                    | (Ok n, w) => (Ok n, w)
                    | (_, w) => (Panic, w)
                    end);
      in_flight ← lift (uadd 32 in_flight 1);
      mret (X_Send (S tx_frame_count), in_flight)
  | None =>
      if Nat.ltb 0 tx_frame_count then
        need ← on_interface (gets needs_wakeup);
        _ ← (if need : bool then on_interface wakeup else mret tt);
        mret (X_Complete tx_frame_count, in_flight)
      else mret (X_Poll, in_flight)
  end.

(** [if frames_filled == tx_frame_count { break; }] *)
Definition xdp_complete (in_flight : Z) (tx_frame_count : nat) : St (PduStorage * K) IoError (XdpPc * Z) :=
  frames_filled ← on_interface (fun k => let '(n, k) := cq_consume tx_frame_count k in (Ok n, k));
  mret (if Nat.eqb frames_filled tx_frame_count then X_Poll else X_Complete tx_frame_count, in_flight).

(** One of the packets received. *)
Definition xdp_receive (source_mac : bytes) (in_flight : Z) (data : bytes) : St (PduStorage * K) IoError Z :=
  _ ← lift (ok_or (data !! FIRST_PDU_INDEX) (Io_Other E_Internal));
  action ← st_map_err Io_Other (on_storage (receive_frame source_mac data));
  _ ← on_interface (modify produce_fill);
  match action with
  | Processed => if 1 <=? in_flight then mret (in_flight - 1) else lift Panic
  | Ignored => mret in_flight
  end.

(** One step.  No step ends the task with [Ok]. *)
Definition xdp_step (capacity : nat) (source_mac : bytes) (st : XdpPc * Z)
    : St (PduStorage * K) IoError (XdpPc * Z) :=
  let '(pc, in_flight) := st in
  match pc with
  | X_Begin => _ ← on_storage replace_waker; mret (X_Send 0, in_flight)
  | X_Send tx_frame_count => xdp_send (xdp_tx_descs capacity) in_flight tx_frame_count
  | X_Complete tx_frame_count => xdp_complete in_flight tx_frame_count
  | X_Poll =>
      packets ← on_interface (fun k => match poll_and_consume (xdp_rx_descs capacity) k with
                                       | (Ok l, k) => (Ok l, k)
                                       | (_, k) => (Panic, k)
                                       end);
      mret (X_Receive packets, in_flight)
  | X_Receive (data :: packets) =>
      in_flight ← xdp_receive source_mac in_flight data;
      mret (X_Receive packets, in_flight)
  | X_Receive [] => mret (if Z.eqb in_flight 0 then X_Parked else X_Begin, in_flight)
  | X_Parked => mret (X_Begin, in_flight)
  end.

End Xdp.

(** ** What the other tasks do meanwhile *)

(** They allocate, fill, give up and read frames; only the TX task makes one [Sent]. *)
Definition others (s s' : PduStorage) : Prop :=
  storage_wf s' /\ num_frames s' = num_frames s /\ frame_data_len s' = frame_data_len s /\
  forall i f', frames s' !! i = Some f' -> status f' = FS_Sent -> exists f, frames s !! i = Some f /\ status f = FS_Sent.

(** The slots whose response is still out. *)
Definition sent_count (s : PduStorage) : Z :=
  Z.of_nat (length (filter (fun f => status f = FS_Sent) (frames s))).

Definition is_sent (f : FrameElement) : Z := if decide (status f = FS_Sent) then 1 else 0.

(** ** Lemmas *)

Lemma sent_count_pos s : 0 <= sent_count s.
Proof. unfold sent_count. lia. Qed.

Lemma sent_count_with_frame i f f' s :
  frames s !! i = Some f -> sent_count (with_frame i f' s) = sent_count s - is_sent f + is_sent f'.
Proof.
  intros Hf. unfold sent_count. cbn [with_frame with_frames frames].
  rewrite insert_take_drop by by eapply lookup_lt_Some.
  rewrite <- (take_drop_middle _ _ _ Hf) at 3. rewrite !filter_app, !filter_cons, !length_app. unfold is_sent.
  repeat case_decide; cbn [length]; lia.
Qed.

Lemma sent_count_others s s' : others s s' -> sent_count s' <= sent_count s.
Proof.
  intros (_ & Hlen & _ & Hsub). unfold sent_count, num_frames in *. revert Hlen Hsub. generalize (frames s), (frames s').
  intros l l'. revert l. induction l' as [|f' l' IH]; intros [|f l] Hlen Hsub; cbn [length] in Hlen; [done|done|done|].
  assert (length (filter (fun f => status f = FS_Sent) l') <= length (filter (fun f => status f = FS_Sent) l))%nat as H.
  { enough (Z.of_nat (length (filter (fun f => status f = FS_Sent) l')) <=
      Z.of_nat (length (filter (fun f => status f = FS_Sent) l))) by lia.
    apply IH; [lia|]. intros i g' Hg Hst. by apply (Hsub (S i) g'). }
  rewrite !filter_cons. destruct (decide (status f' = FS_Sent)) as [Hf'|].
  - destruct (Hsub 0%nat f' eq_refl Hf') as (g & [= ->] & Hg). rewrite decide_True by done. cbn [length]. lia.
  - case_decide; cbn [length]; lia.
Qed.

Lemma next_sendable_ok {E} s :
  (exists i s1, next_sendable_frame (E:=E) s = (Ok (Some i), s1)) \/ next_sendable_frame (E:=E) s = (Ok None, s).
Proof.
  destruct (exit_flag s) eqn:Hx; [right; by apply next_sendable_exit|].
  pose proof (next_sendable_first (E:=E) s Hx) as H. destruct (list_find _ _) as [[i f]|].
  - left. eexists _, _. apply H.
  - right. apply H.
Qed.

(** A frame goes out. *)
Lemma send_one {K} i (send : bytes -> St K Error nat) s s1 k :
  storage_wf s -> next_sendable_frame (E:=IoError) s = (Ok (Some i), s1) ->
  exists f, frames s1 !! i = Some f /\ frame_ok (frame_data_len s1) f /\ frame_data_len s1 = frame_data_len s /\
    forall k', send (wire f) k = (Ok (length (wire f)), k') ->
    exists n s2, send_blocking_on i send (s1, k) = (Ok n, (s2, k')) /\ storage_wf s2 /\
      sent_count s2 = sent_count s + 1 /\ frame_data_len s2 = frame_data_len s.
Proof.
  intros Hs Hnext. destruct (exit_flag s) eqn:Hx.
  { by rewrite (next_sendable_exit s Hx) in Hnext. }
  pose proof (next_sendable_first (E:=IoError) s Hx) as H. rewrite Hnext in H.
  destruct (list_find _ _) as [[j f]|]; [|by destruct H]. destruct H as ([= <- ->] & Hf & Hst & _).
  set (f1 := set_state FS_Sending f). pose proof (lookup_slot _ _ _ Hf) as Hlt.
  pose proof (with_frame_lookup i f1 s Hlt) as Hf1. pose proof (frame_ok_lookup _ _ _ Hs Hf) as Hok.
  exists f1. split_and!; [exact Hf1|exact Hok|done|]. intros k' Hsend.
  exists (length (wire f1)), (with_frame i (set_state FS_Sent f) s).
  rewrite (send_blocking_on_ok i send (with_frame i f1 s) k f1 _ _ Hf1 Hok Hsend), Nat.eqb_refl, with_frame_twice.
  split_and!; [done|by apply with_frame_wf| |done]. rewrite (sent_count_with_frame i f _ s Hf).
  unfold is_sent. cbn [status set_state]. rewrite Hst, decide_False, decide_True by done. lia.
Qed.

(** A response takes one slot off those that are out. *)
Lemma receive_one source_mac b s :
  storage_wf s ->
  let '(r, s') := receive_frame source_mac b s in
  match r with
  | Ok Processed => storage_wf s' /\ sent_count s' = sent_count s - 1 /\ frame_data_len s' = frame_data_len s
  | Ok Ignored => s' = s
  | Err _ => True
  | Panic => False
  end.
Proof.
  intros Hs. pose proof (receive_frame_effect source_mac b s Hs) as H.
  destruct (receive_frame source_mac b s) as [r s']. destruct H as (Hr & Hwf & H).
  destruct r as [[]|e|]; [| |done|done].
  - destruct H as [[H _]|(k & f & _ & _ & [(i & _ & H)|[_ H]])]; [exact H|done|done].
  - destruct H as [[_ H]|(k & f & Hf & Hst & [(i & -> & _)|[_ H]])]; [done| |done]. split_and!; [done| |done].
    rewrite (sent_count_with_frame k f _ s Hf). unfold is_sent.
    rewrite Hst, decide_True, decide_False by done. lia.
Qed.

(** *** The Windows task *)

Section WindowsRun.
Context {K : Type} `{!Pcap K} {P : Profile} (source_mac : bytes) (spinloop : bool).

(** What [in_flight] will be once the frames queued have been counted. *)
Definition windows_sent (st : WindowsPc * Z) : Z :=
  match st.1 with W_Send n => st.2 + Z.of_nat n | _ => st.2 end.

(** Runs of the task with the other tasks, for as long as the counter does not overflow. *)
Inductive windows_run (st0 : WindowsPc * Z) (w0 : PduStorage * K) : WindowsPc * Z -> PduStorage * K -> Prop :=
| windows_start : windows_run st0 w0 st0 w0
| windows_task st w st' w' :
    windows_run st0 w0 st w -> windows_sent st < 2 ^ 64 ->
    windows_step source_mac spinloop st w = (Ok (inl st'), w') -> windows_run st0 w0 st' w'
| windows_others st s k s' :
    windows_run st0 w0 st (s, k) -> others s s' -> windows_run st0 w0 st (s', k).

(** At least [d] frames more are counted than are out; nothing is counted when the thread parks. *)
Definition windows_inv (d : Z) (st : WindowsPc * Z) (s : PduStorage) : Prop :=
  storage_wf s /\ d <= windows_sent st - sent_count s /\ (st.1 = W_Parked -> st.2 <= 0).

Lemma windows_inv_others d st s s' : others s s' -> windows_inv d st s -> windows_inv d st s'.
Proof. intros Ho (_ & Hd & Hp). pose proof (sent_count_others _ _ Ho). split_and!; [apply Ho|lia|done]. Qed.

(** Both [expect]s hold. *)
Definition pcap_works : Prop :=
  (forall b k, exists k', queue b k = (Ok tt, k')) /\ forall k, exists k', sq_transmit k = (Ok tt, k').

Lemma windows_send_ok d in_flight n s k :
  pcap_works -> 0 <= d -> 0 <= in_flight -> in_flight + Z.of_nat n < 2 ^ 64 -> windows_inv d (W_Send n, in_flight) s ->
  exists st' s' k', windows_send in_flight n spinloop (s, k) = (Ok st', (s', k')) /\ windows_inv d st' s' /\ 0 <= st'.2.
Proof.
  intros [Hq Ht] Hd0 Hin Hroom (Hs & Hd & _). unfold windows_sent in Hd. cbn [fst snd] in Hd.
  unfold windows_send. destruct (next_sendable_frame (E:=IoError) s) as [[[i|]|e|] s1] eqn:Hnext.
  - destruct (send_one i queue_frame s s1 k Hs Hnext) as (f & _ & _ & _ & Hrun). destruct (Hq (wire f) k) as [k' Hk'].
    destruct (Hrun k') as (m & s2 & Hsend & Hwf & Hcount & _).
    { unfold queue_frame, expect, mbind, St_bind. by rewrite Hk'. }
    exists (W_Send (S n), in_flight), s2, k'. split_and!.
    + rewrite (st_step _ _ _ _ _ (on_storage_step _ _ _ _ _ Hnext)). cbv beta iota.
      unfold st_map_err, mbind, St_bind. by rewrite Hsend.
    + split_and!; [exact Hwf|unfold windows_sent; cbn [fst snd]; lia|done].
    + done.
  - assert (s1 = s) as ->.
    { destruct (next_sendable_ok (E:=IoError) s) as [(? & ? & H)|H]; rewrite H in Hnext; [done|by injection Hnext]. }
    rewrite (st_step _ _ _ _ _ (on_storage_step _ _ _ _ _ Hnext)).
    assert (exists k', windows_transmit in_flight n (s, k) = (Ok (in_flight + Z.of_nat n), (s, k'))) as [k' Hsum].
    { unfold windows_transmit. destruct (Nat.ltb_spec 0 n); [|exists k; by replace (in_flight + Z.of_nat n) with in_flight by lia].
      destruct (Ht k) as [k' Hk']. exists k'. rewrite (st_step _ _ _ tt (s, k')).
      - unfold lift, uadd. rewrite checked_ok; [done|]. split; [lia|done].
      - apply on_interface_step. unfold expect. by rewrite Hk'. }
    rewrite (st_step _ _ _ _ _ Hsum). eexists _, s, k'. split_and!; [done| |cbn; lia]. cbn [snd].
    destruct (Z.ltb_spec 0 (in_flight + Z.of_nat n)); [|destruct spinloop]; (split_and!; [done|cbn; lia|cbn; done || lia]).
  - by destruct (next_sendable_ok (E:=IoError) s) as [(? & ? & H)|H]; rewrite H in Hnext.
  - by destruct (next_sendable_ok (E:=IoError) s) as [(? & ? & H)|H]; rewrite H in Hnext.
Qed.

Lemma windows_receive_ok d in_flight s k :
  0 <= d -> 0 <= in_flight -> windows_inv d (W_Receive, in_flight) s ->
  let '(r, (s', _)) := windows_receive source_mac in_flight (s, k) in
  match r with Ok st' => windows_inv d st' s' /\ 0 <= st'.2 | Err _ => True | Panic => False end.
Proof.
  intros Hd0 Hin (Hs & Hd & _). unfold windows_sent in Hd. cbn [fst snd] in Hd. unfold windows_receive.
  destruct (next_packet k) as [p k'] eqn:Hp.
  rewrite (st_step _ _ _ p (s, k')) by (apply on_interface_step; by rewrite Hp).
  destruct p as [[| |code]|b]; [done..|]. destruct (b !! FIRST_PDU_INDEX) as [x|]; [|done].
  rewrite (st_step (lift _) _ _ x (s, k')) by done.
  pose proof (receive_one source_mac b s Hs) as Hr. unfold mbind, St_bind, st_map_err, on_storage.
  destruct (receive_frame source_mac b s) as [[[]|e|] s']; [subst s'; done| |done|done].
  destruct Hr as (Hwf & Hcount & _). pose proof (sent_count_pos s'). rewrite (proj2 (Z.leb_le 1 in_flight)) by lia.
  cbn. unfold windows_inv, windows_sent. cbn. split_and!; [done|lia|done|lia].
Qed.

(** One step keeps the invariant and does not panic; only the parked thread ends. *)
Lemma windows_step_ok d st s k :
  pcap_works -> 0 <= d -> 0 <= st.2 -> windows_sent st < 2 ^ 64 -> windows_inv d st s ->
  let '(r, (s', _)) := windows_step source_mac spinloop st (s, k) in
  match r with
  | Ok (inl st') => windows_inv d st' s' /\ 0 <= st'.2
  | Ok (inr _) => st.1 = W_Parked
  | Err _ => True
  | Panic => False
  end.
Proof.
  destruct st as [pc in_flight]. cbn [snd]. intros Hw Hd0 Hin Hroom Hinv. destruct pc as [|n| |]; cbn [windows_step].
  - split; [|done]. destruct Hinv as (Hs & Hd & _). unfold windows_inv, windows_sent in *. cbn in *.
    split_and!; [destruct Hs; by constructor|change (sent_count (with_tx_woken false s)) with (sent_count s); lia|done].
  - destruct (windows_send_ok d in_flight n s k Hw Hd0 Hin Hroom Hinv) as (st' & s' & k' & Hrun & H).
    rewrite (st_step _ _ _ _ _ Hrun). exact H.
  - pose proof (windows_receive_ok d in_flight s k Hd0 Hin Hinv) as H. unfold mbind, St_bind.
    by destruct (windows_receive _ _ _) as [[st'|e|] [s' k']].
  - rewrite (st_step _ _ _ (exit_flag s) (s, k)) by done. destruct (exit_flag s); [done|].
    cbn. split; [|done]. destruct Hinv as (Hs & Hd & Hp). unfold windows_inv, windows_sent in *. cbn in *. by split_and!.
Qed.

Lemma windows_run_inv d st0 s0 k0 :
  pcap_works -> 0 <= d -> 0 <= st0.2 -> windows_inv d st0 s0 ->
  forall st w, windows_run st0 (s0, k0) st w -> windows_inv d st w.1 /\ 0 <= st.2.
Proof.
  intros Hw Hd Hin Hinv st w. induction 1 as [|st [s k] st' [s' k'] _ [IH1 IH2] Hroom Hstep|st s k s' _ [IH1 IH2] Ho].
  - done.
  - pose proof (windows_step_ok d st s k Hw Hd IH2 Hroom IH1) as H. by rewrite Hstep in H.
  - split; [by eapply windows_inv_others|done].
Qed.

End WindowsRun.

(** *** The XDP task *)

Section XdpRun.
Context {K : Type} `{!Xsk K} {P : Profile} (capacity : nat) (source_mac : bytes).

(** Runs with the other tasks, for as long as the counter does not overflow. *)
Inductive xdp_run (st0 : XdpPc * Z) (w0 : PduStorage * K) : XdpPc * Z -> PduStorage * K -> Prop :=
| xdp_start : xdp_run st0 w0 st0 w0
| xdp_task st w st' w' :
    xdp_run st0 w0 st w -> st.2 + 1 < 2 ^ 32 -> xdp_step capacity source_mac st w = (Ok st', w') -> xdp_run st0 w0 st' w'
| xdp_others st s k s' :
    xdp_run st0 w0 st (s, k) -> others s s' -> xdp_run st0 w0 st (s', k).

Definition xdp_inv (st : XdpPc * Z) (s : PduStorage) : Prop :=
  storage_wf s /\ sent_count s <= st.2.

Lemma xdp_send_ok in_flight n s k :
  in_flight + 1 < 2 ^ 32 -> xdp_inv (X_Send n, in_flight) s ->
  let '(r, (s', _)) := xdp_send (xdp_tx_descs capacity) in_flight n (s, k) in
  match r with Ok st' => xdp_inv st' s' | _ => True end.
Proof.
  intros Hroom [Hs Hd]. cbn [snd] in Hd. pose proof (sent_count_pos s). unfold xdp_send.
  destruct (next_sendable_ok (E:=IoError) s) as [(i & s1 & Hnext)|Hnext];
    rewrite (st_step _ _ _ _ _ (on_storage_step _ _ _ _ _ Hnext)); cbv beta iota.
  - destruct (send_one i (xdp_queue (xdp_tx_descs capacity) n) s s1 k Hs Hnext) as (f & Hf & Hok & _ & Hrun).
    destruct (xdp_queue _ n (wire f) k) as [[m|e|] k'] eqn:Hq.
    + assert (m = length (wire f)) as ->.
      { unfold xdp_queue in Hq. destruct (negb _); [done|]. destruct (write_all n (wire f) k) as [[]]; congruence. }
      destruct (Hrun k' eq_refl) as (m & s2 & Hsend & Hwf & Hcount & _).
      erewrite st_step; [|by rewrite Hsend]. unfold lift, uadd, mbind, St_bind.
      rewrite checked_ok by (split; [lia|done]). cbn. split; [done|cbn; lia].
    + rewrite (st_step_panic _ _ (s1, k) (with_frame i (set_state FS_Sendable f) s1, k')); [done|].
      by rewrite (send_blocking_on_ok _ _ _ _ _ _ _ Hf Hok Hq).
    + rewrite (st_step_panic _ _ (s1, k) (s1, k')); [done|].
      by rewrite (send_blocking_on_ok _ _ _ _ _ _ _ Hf Hok Hq).
  - destruct (Nat.ltb 0 n); [|done]. rewrite (st_step _ _ _ (needs_wakeup k) (s, k)) by done.
    unfold mbind, St_bind. destruct (needs_wakeup k); [|done].
    unfold on_interface. by destruct (wakeup k) as [[]].
Qed.

Lemma xdp_step_ok st s k :
  st.2 + 1 < 2 ^ 32 -> xdp_inv st s ->
  let '(r, (s', _)) := xdp_step capacity source_mac st (s, k) in
  match r with Ok st' => xdp_inv st' s' | _ => True end.
Proof.
  destruct st as [pc in_flight]. cbn [snd]. intros Hroom Hinv. destruct Hinv as [Hs Hd] eqn:E. cbn [snd] in Hd.
  pose proof (sent_count_pos s). destruct pc as [|n|n| |[|b packets]|]; cbn [xdp_step].
  - split; [destruct Hs; by constructor|exact Hd].
  - apply xdp_send_ok; [done|by split].
  - unfold xdp_complete, on_interface, mbind, St_bind. destruct (cq_consume n k). by destruct (Nat.eqb _ _).
  - unfold on_interface, mbind, St_bind. by destruct (poll_and_consume _ k) as [[]].
  - done.
  - unfold xdp_receive. unfold mbind at 1, St_bind at 1. destruct (b !! FIRST_PDU_INDEX) as [x|]; [|done].
    rewrite (st_step (lift _) _ _ x (s, k)) by done.
    pose proof (receive_one source_mac b s Hs) as Hr. unfold mbind, St_bind, st_map_err, on_storage.
    destruct (receive_frame source_mac b s) as [[[]|e|] s']; [subst s'; done| |done|done].
    destruct Hr as (Hwf & Hcount & _). cbn. destruct (1 <=? in_flight); [|done]. cbn. split; [done|cbn; lia].
  - done.
Qed.

Lemma xdp_run_inv st0 s0 k0 :
  xdp_inv st0 s0 -> forall st w, xdp_run st0 (s0, k0) st w -> xdp_inv st w.1.
Proof.
  intros Hinv st w. induction 1 as [|st [s k] st' [s' k'] _ IH Hroom Hstep|st s k s' _ IH Ho]; [done| |].
  - pose proof (xdp_step_ok st s k Hroom IH) as H. by rewrite Hstep in H.
  - destruct IH as [_ Hd]. pose proof (sent_count_others _ _ Ho). split; [apply Ho|cbn in *; lia].
Qed.

End XdpRun.

(** ** Properties *)

(** C15: while the Windows task runs, whatever the other tasks do in between and
    whatever is captured, the frames it counts as in flight cover the slots whose
    response is out, so that taking one off for a response never fails, and no step
    panics as long as the send queue takes the frames. *)
Theorem windows_counts {K} `{!Pcap K} {P : Profile} source_mac spinloop s0 (k0 : K) st s k :
  pcap_works -> storage_wf s0 -> sent_count s0 = 0 ->
  windows_run source_mac spinloop (W_Begin, 0) (s0, k0) st (s, k) ->
  storage_wf s /\ sent_count s <= windows_sent st /\
  (windows_sent st < 2 ^ 64 -> (windows_step source_mac spinloop st (s, k)).1 <> Panic).
Proof.
  intros Hw Hs H0 Hrun.
  destruct (windows_run_inv source_mac spinloop 0 (W_Begin, 0) s0 k0 Hw ltac:(lia) ltac:(cbn; lia)
    ltac:(split_and!; [done|cbn; lia|done]) st _ Hrun) as [Hinv Hin].
  split_and!; [apply Hinv|pose proof Hinv as (_ & Hd & _); cbn in Hd; lia|].
  intros Hroom. pose proof (windows_step_ok source_mac spinloop 0 st s k Hw ltac:(lia) Hin Hroom Hinv) as H.
  by destruct (windows_step _ _ _ _) as [[[]|e|] [s' k']].
Qed.

(** Once one response more is counted than is out (a request timed out and its
    slot was freed or is sent again), the Windows task never parks and never ends
    with [Ok]: it spins, and the exit flag is not looked at any more. *)
Theorem windows_lost_response {K} `{!Pcap K} {P : Profile} source_mac spinloop st0 s0 (k0 : K) st w w' :
  pcap_works -> storage_wf s0 -> 0 <= st0.2 -> st0.1 <> W_Parked -> sent_count s0 < windows_sent st0 ->
  windows_run source_mac spinloop st0 (s0, k0) st w ->
  st.1 <> W_Parked /\
  (windows_sent st < 2 ^ 64 -> windows_step source_mac spinloop st w <> (Ok (inr tt), w')).
Proof.
  intros Hw Hs Hin Hpc Hlost Hrun.
  destruct (windows_run_inv source_mac spinloop 1 st0 s0 k0 Hw ltac:(lia) Hin
    ltac:(split_and!; [done|lia|done]) st w Hrun) as [Hinv Hin'].
  assert (st.1 <> W_Parked) as Hnot.
  { intros Hp. destruct Hinv as (_ & Hd & Hz). specialize (Hz Hp). pose proof (sent_count_pos w.1).
    unfold windows_sent in Hd. rewrite Hp in Hd. lia. }
  split; [done|]. intros Hroom Hstep. destruct w as [s k].
  pose proof (windows_step_ok source_mac spinloop 1 st s k Hw ltac:(lia) Hin' Hroom Hinv) as H.
  rewrite Hstep in H. by destruct w'.
Qed.

(** The XDP task counts at least the slots whose response is out, whatever the
    other tasks do in between, so that taking one off for a response never fails. *)
Theorem xdp_counts {K} `{!Xsk K} {P : Profile} capacity source_mac s0 (k0 : K) st s k :
  storage_wf s0 -> sent_count s0 = 0 ->
  xdp_run capacity source_mac (X_Begin, 0) (s0, k0) st (s, k) ->
  storage_wf s /\ sent_count s <= st.2 /\
  forall packets, st.1 = X_Receive packets -> (xdp_step capacity source_mac st (s, k)).1 <> Panic.
Proof.
  intros Hs H0 Hrun.
  destruct (xdp_run_inv capacity source_mac (X_Begin, 0) s0 k0 ltac:(split; [done|cbn; lia]) st _ Hrun) as [Hwf Hd].
  cbn [fst] in *. split_and!; [done..|]. intros packets Hpc. destruct st as [pc in_flight]. cbn [fst snd] in *. subst pc.
  destruct packets as [|b packets]; [done|]. cbn [xdp_step]. unfold xdp_receive. unfold mbind at 1 2, St_bind at 1 2.
  destruct (b !! FIRST_PDU_INDEX) as [x|]; [|done]. pose proof (receive_one source_mac b s Hwf) as Hr.
  unfold lift, ok_or, mbind, St_bind, st_map_err, on_storage.
  destruct (receive_frame source_mac b s) as [[[]|e|] s']; [done| |done|done].
  destruct Hr as (Hwf' & Hcount & _). pose proof (sent_count_pos s'). cbn. by rewrite (proj2 (Z.leb_le 1 in_flight)) by lia.
Qed.

(** Only half of the descriptors are for sending, while as many frames can wait as
    there are descriptors: when that many have been queued in one turn and another
    one waits, the task panics.  With one frame, the first that is sent does it. *)
Theorem xdp_too_few_descriptors {K} `{!Xsk K} {P : Profile} capacity source_mac in_flight n s (k : K) :
  storage_wf s -> exit_flag s = false -> outgoing s <> [] -> (capacity / 2 <= n)%nat ->
  (xdp_step capacity source_mac (X_Send n, in_flight) (s, k)).1 = Panic.
Proof.
  intros Hs Hx Hout Hn. cbn [xdp_step]. unfold xdp_send.
  pose proof (next_sendable_first (E:=IoError) s Hx) as H. destruct (list_find _ _) as [[i f]|]; [|by destruct H as (_ & H & _)].
  destruct H as (Hnext & Hf & _). rewrite (st_step _ _ _ _ _ (on_storage_step _ _ _ _ _ Hnext)). cbv beta iota.
  set (f1 := set_state FS_Sending f). pose proof (with_frame_lookup i f1 s (lookup_slot _ _ _ Hf)) as Hf1.
  unfold mbind, St_bind. rewrite (send_blocking_on_ok i _ _ k f1 (Err E_SendFrame) k Hf1 (frame_ok_lookup _ _ _ Hs Hf)); [done|].
  unfold xdp_queue, xdp_tx_descs. by rewrite (proj2 (Nat.ltb_ge n (capacity / 2))).
Qed.

(** The completions still to come when fewer are left than were sent: the wait never ends. *)
Lemma xdp_completion_hangs {K} `{!Xsk K} {P : Profile} capacity source_mac in_flight n (left : K -> nat) :
  (forall k, ((cq_consume n k).1 <= left k)%nat /\ left (cq_consume n k).2 = (left k - (cq_consume n k).1)%nat) ->
  forall s k, (left k < n)%nat ->
  exists k', xdp_step capacity source_mac (X_Complete n, in_flight) (s, k) = (Ok (X_Complete n, in_flight), (s, k')) /\
    (left k' < n)%nat.
Proof.
  intros Hleft s k Hk. destruct (Hleft k) as [H1 H2]. cbn [xdp_step]. unfold xdp_complete, on_interface, mbind, St_bind.
  destruct (cq_consume n k) as [m k'] eqn:Hc. cbn [fst snd] in *. exists k'. rewrite (proj2 (Nat.eqb_neq m n)) by lia.
  split; [done|lia].
Qed.

(** *** Witnesses *)

#[local] Instance checks_on : Profile := true.

(** A network from which nothing comes back. *)
#[local] Instance silent_pcap : Pcap unit := {|
  queue _ k := (Ok tt, k);
  sq_transmit k := (Ok tt, k);
  next_packet k := (inl NoMorePackets, k);
|}.

Lemma silent_works : pcap_works (K:=unit).
Proof. split; [intros b k|intros k]; by exists k. Qed.

(** The frame is sent, and its slot is out. *)
Lemma silent_run :
  windows_run MAINDEVICE_ADDR false (W_Begin, 0) (storage_in FS_Sendable [1; 2], tt)
    (W_Receive, 1) (storage_in FS_Sent [1; 2], tt).
Proof.
  apply (windows_task _ _ _ _ (W_Send 1, 0) (storage_in FS_Sent [1; 2], tt)); [|done|reflexivity].
  apply (windows_task _ _ _ _ (W_Send 0, 0) (storage_in FS_Sendable [1; 2], tt)); [|done|reflexivity].
  apply (windows_task _ _ _ _ (W_Begin, 0) (storage_in FS_Sendable [1; 2], tt)); [constructor|done|reflexivity].
Qed.

Lemma windows_counts_witness :
  sent_count (storage_in FS_Sent [1; 2]) <= windows_sent (W_Receive, 1) /\
  (windows_step MAINDEVICE_ADDR false (W_Receive, 1) (storage_in FS_Sent [1; 2], tt)).1 <> Panic.
Proof.
  destruct (windows_counts MAINDEVICE_ADDR false (storage_in FS_Sendable [1; 2]) tt (W_Receive, 1)
    (storage_in FS_Sent [1; 2]) tt silent_works (storage_in_wf FS_Sendable [1; 2] ltac:(apply Nat.leb_le; reflexivity))
    eq_refl silent_run) as (_ & H1 & H2). split; [exact H1|apply H2; reflexivity].
Defined.

(** The request timed out: the slot is free and the frame still counted. *)
Lemma windows_lost_response_witness :
  windows_step MAINDEVICE_ADDR false (W_Receive, 1) (storage_in FS_None [1; 2], tt) <>
    (Ok (inr tt), (storage_in FS_None [1; 2], tt)).
Proof.
  destruct (windows_lost_response MAINDEVICE_ADDR false (W_Receive, 1) (storage_in FS_None [1; 2]) tt (W_Receive, 1)
    (storage_in FS_None [1; 2], tt) (storage_in FS_None [1; 2], tt) silent_works
    (storage_in_wf FS_None [1; 2] ltac:(apply Nat.leb_le; reflexivity)) ltac:(done) ltac:(done) ltac:(done)
    ltac:(constructor)) as [_ H]. apply H. reflexivity.
Defined.

#[local] Instance silent_xsk : Xsk unit := {|
  write_all _ _ k := (Ok tt, k);
  produce_tx _ k := k;
  needs_wakeup _ := false;
  wakeup k := (Ok tt, k);
  cq_consume n k := (n, k);
  poll_and_consume _ k := (Ok [zeros 20], k);
  produce_fill k := k;
|}.

Lemma xdp_counts_witness :
  (xdp_step 4 MAINDEVICE_ADDR (X_Receive [zeros 20], 0) (small_storage, tt)).1 <> Panic.
Proof.
  refine (proj2 (proj2 (xdp_counts 4 MAINDEVICE_ADDR small_storage tt (X_Receive [zeros 20], 0) small_storage tt
    small_storage_wf eq_refl _)) [zeros 20] eq_refl).
  apply (xdp_task _ _ _ _ (X_Poll, 0) (small_storage, tt)); [|done|reflexivity].
  apply (xdp_task _ _ _ _ (X_Send 0, 0) (small_storage, tt)); [|done|reflexivity].
  apply (xdp_task _ _ _ _ (X_Begin, 0) (small_storage, tt)); [constructor|done|reflexivity].
Defined.

Lemma xdp_too_few_descriptors_witness :
  (xdp_step 1 MAINDEVICE_ADDR (X_Send 0, 0) (storage_in FS_Sendable [1; 2], tt)).1 = Panic.
Proof.
  apply (xdp_too_few_descriptors 1 MAINDEVICE_ADDR 0 0 (storage_in FS_Sendable [1; 2]) tt);
    [apply storage_in_wf; apply Nat.leb_le; reflexivity|reflexivity|vm_compute; discriminate|apply Nat.leb_le; reflexivity].
Defined.
