(* ===== verification/Uring.v ===== *)
(** * The io_uring TX/RX task

    [std/io_uring.rs]: each frame sent takes two buffers, one for the write and one
    for the read of a response, whose keys the kernel hands back with its
    completions.  The ring and the slab of the buffers are third-party: classes with
    what the kernel and the crates document.  One step goes from one access to the
    storage or the ring to the next. *)
From stdpp Require Import gmap.
From S2P Require Import Prelude Wire Errors PduTypes PduChain Frame CreatedFrame TxRx Samples PduLoop Tasks Threads.

(** ** Definitions *)

(** The upper bit of the user data marks a write. *)
Definition WRITE_MASK : Z := Z.shiftl 1 63.

(** [io_uring::squeue::Entry] *)
Record Entry := mkEntry { e_len : nat; user_data : Z }.

(** [io_uring::cqueue::Entry], and what the kernel has put in the buffer of a read. *)
Record Cqe := mkCqe { cqe_result : Z; cqe_user_data : Z; cqe_data : bytes }.

Definition EWOULDBLOCK : Z := 11.

(** The buffers, by key. *)
Abbreviation Bufs := (gmap nat (Entry * bytes)).

(** [slab::Slab::vacant_entry] *)
Class Slab := {
  vacant_key : Bufs -> nat;
  vacant_key_fresh bufs : bufs !! vacant_key bufs = None;
}.

(** [IoUring]: pushing to the submission queue, submitting it, and the next completion. *)
Class Ring (K : Type) := {
  submission_push : Entry -> K -> bool * K;
  submit : K -> res IoError unit * K;
  submit_and_wait : nat -> K -> (IoError + unit) * K;
  completion : K -> option Cqe * K;
  last_os_error : K -> Z;
  (** The user data of the operations that have been pushed and not completed. *)
  pending : K -> gset Z;
  push_ok e k k' : submission_push e k = (true, k') -> pending k' = {[user_data e]} ∪ pending k;
  push_full e k k' : submission_push e k = (false, k') -> pending k' = pending k;
  submit_pending k : pending (submit k).2 = pending k;
  submit_room e k k' : submit k = (Ok tt, k') -> (submission_push e k').1 = true;
  wait_pending n k : pending (submit_and_wait n k).2 = pending k;
  completion_none k k' : completion k = (None, k') -> pending k' = pending k;
  completion_some k c k' : completion k = (Some c, k') ->
    cqe_user_data c ∈ pending k /\ pending k' = pending k ∖ {[cqe_user_data c]};
}.

(** At the top of the loop; sending; taking completions; waiting to be woken. *)
Inductive UringPc := U_Begin | U_Send (sent : nat) | U_Complete | U_Parked.

Section Machine.
Context {K : Type} `{!Ring K} {slab : Slab}.

Definition on_ring {E A} (m : St K E A) : St (K * Bufs) E A := fun '(k, bufs) =>
  let '(r, k) := m k in (r, (k, bufs)).

(** [while ring.submission().push(entry).is_err() { ring.submit().expect(..) }]: after
    a submit there is room. *)
Definition push_entry {E} (entry : Entry) : St (K * Bufs) E unit :=
  r ← iterate 2 (fun _ : unit =>
    pushed ← on_ring (fun k => let '(b, k) := submission_push entry k in (Ok b, k));
    if (pushed : bool) then mret (inr tt) else _ ← on_ring (expect submit); mret (inl tt)) tt;
  match r with Some _ => mret tt | None => lift Panic end.

(** [ring.submit_and_wait(sent * 2)?] *)
Definition uring_wait (n : nat) : St K IoError unit := fun k =>
  let '(r, k) := submit_and_wait n k in
  (match r with inr _ => Ok tt | inl e => Err e end, k).

(** [bufs.vacant_entry().insert((zeroed, smallvec![0; mtu]))]: its key. *)
Definition insert_buf {E} (mtu : nat) : St (K * Bufs) E nat := fun '(k, bufs) =>
  let key := vacant_key bufs in
  (Ok key, (k, <[key := (mkEntry 0 0, zeros mtu)]> bufs)).

(** The closure given to [send_blocking]: the entry, the copy of the data and the push. *)
Definition uring_write (tx_key : nat) (data : bytes) : St (K * Bufs) Error nat :=
  let entry := mkEntry (length data) (Z.lor (Z.of_nat tx_key) WRITE_MASK) in
  tx_buf ← (fun '(k, bufs) => (unwrap (snd <$> bufs !! tx_key), (k, bufs)));
  _ ← lift (ok_or (get_range tx_buf 0 (length data)) E_Internal);
  _ ← modify (fun '(k, bufs) => (k, <[tx_key := (entry, splice tx_buf 0 data)]> bufs));
  _ ← push_entry entry;
  mret (length data).

Definition uring_read (mtu : nat) : St (K * Bufs) IoError unit :=
  rx_key ← insert_buf mtu;
  let entry := mkEntry mtu (Z.of_nat rx_key) in
  _ ← modify (fun '(k, bufs) => (k, <[rx_key := (entry, zeros mtu)]> bufs));
  push_entry entry.

Definition uring_send (mtu sent : nat) : St (PduStorage * (K * Bufs)) IoError UringPc :=
  frame ← on_storage next_sendable_frame;
  match frame with
  | Some i =>
      tx_key ← on_interface (insert_buf mtu);
      _ ← (fun w => match send_blocking_on i (uring_write tx_key) w with
                    | (Ok n, w) => (Ok n, w)
                    | (_, w) => (Panic, w)
                    end);
      _ ← on_interface (uring_read mtu);
      mret (U_Send (S sent))
  | None =>
      _ ← (if Nat.ltb 0 sent then on_interface (on_ring (uring_wait (sent * 2))) else mret tt);
      mret U_Complete
  end.

(** [slab.remove(key)]: panics when there is no such key. *)
Definition remove_buf {E} (key : nat) : St (K * Bufs) E (Entry * bytes) := fun '(k, bufs) =>
  match bufs !! key with
  | Some b => (Ok b, (k, delete key bufs))
  | None => (Panic, (k, bufs))
  end.

(** One completion. *)
Definition uring_completion (source_mac : bytes) (recv : Cqe) : St (PduStorage * (K * Bufs)) IoError unit :=
  if (cqe_result recv <? 0) && negb (Z.eqb (cqe_result recv) (- EWOULDBLOCK)) then
    code ← on_interface (on_ring (gets last_os_error));
    fail (Io_Os code)
  else
    let key := cqe_user_data recv in
    if Z.eqb (Z.land key WRITE_MASK) WRITE_MASK then
      _ ← on_interface (remove_buf (Z.to_nat (Z.land key (Z.lnot WRITE_MASK))));
      mret tt
    else if Z.eqb (cqe_result recv) (- EWOULDBLOCK) then
      rx_entry ← on_interface (fun '(k, bufs) => (unwrap (fst <$> bufs !! Z.to_nat key), (k, bufs)));
      on_interface (push_entry rx_entry)
    else
      '(_, buf) ← on_interface (remove_buf (Z.to_nat key));
      let frame := splice buf 0 (cqe_data recv) in
      _ ← lift (ok_or (frame !! FIRST_PDU_INDEX) (Io_Other E_Internal));
      _ ← st_map_err Io_Other (on_storage (receive_frame source_mac frame));
      mret tt.

Definition uring_complete (source_mac : bytes) : St (PduStorage * (K * Bufs)) IoError UringPc :=
  recv ← on_interface (on_ring (fun k => let '(c, k) := completion k in (Ok c, k)));
  match recv with
  | Some recv => _ ← uring_completion source_mac recv; mret U_Complete
  | None =>
      bufs ← on_interface (gets snd);
      mret (if decide (bufs = ∅) then U_Parked else U_Begin)
  end.

(** One step; [inr tt] when the task ends with [Ok].  [interface_mtu] does not count
    the layer 2 header of 18 bytes. *)
Definition uring_step (interface_mtu : nat) (source_mac : bytes) (pc : UringPc)
    : St (PduStorage * (K * Bufs)) IoError (UringPc + unit) :=
  match pc with
  | U_Begin => _ ← on_storage replace_waker; mret (inl (U_Send 0))
  | U_Send sent => pc ← uring_send (interface_mtu + 18) sent; mret (inl pc)
  | U_Complete => pc ← uring_complete source_mac; mret (inl pc)
  | U_Parked =>
      exit ← on_storage should_exit;
      if (exit : bool) then _ ← on_storage (modify release_tx_rx); mret (inr tt)
      else mret (inl U_Begin)
  end.

End Machine.

(** ** Lemmas *)

(** *** Keys *)

(** The key in a user data. *)
Definition ud_key (u : Z) : nat := Z.to_nat (Z.land u (Z.lnot WRITE_MASK)).

Lemma write_mask_bit i : 0 <= i -> Z.testbit WRITE_MASK i = bool_decide (i = 63).
Proof.
  intros Hi. change WRITE_MASK with (2 ^ 63). case_bool_decide as H; [by rewrite H|].
  apply Z.pow2_bits_false. lia.
Qed.

Lemma high_bit_clear n : 0 <= n < 2 ^ 63 -> Z.testbit n 63 = false.
Proof. intros Hn. rewrite Z.testbit_odd, Z.shiftr_div_pow2, Z.div_small by lia. done. Qed.

Lemma land_write_mask n : 0 <= n < 2 ^ 63 -> Z.land n WRITE_MASK = 0.
Proof.
  intros Hn. apply Z.bits_inj'. intros i Hi. rewrite Z.land_spec, Z.bits_0, write_mask_bit by done.
  case_bool_decide; [subst; by rewrite high_bit_clear|apply andb_false_r].
Qed.

Lemma land_not_mask n : 0 <= n < 2 ^ 63 -> Z.land n (Z.lnot WRITE_MASK) = n.
Proof.
  intros Hn. apply Z.bits_inj'. intros i Hi. rewrite Z.land_spec, Z.lnot_spec, write_mask_bit by done.
  case_bool_decide; [subst; by rewrite high_bit_clear|apply andb_true_r].
Qed.

Lemma ud_key_read n : Z.of_nat n < 2 ^ 63 -> ud_key (Z.of_nat n) = n.
Proof. intros Hn. unfold ud_key. rewrite land_not_mask by lia. apply Nat2Z.id. Qed.

Lemma ud_key_write n : Z.of_nat n < 2 ^ 63 -> ud_key (Z.lor (Z.of_nat n) WRITE_MASK) = n.
Proof.
  intros Hn. unfold ud_key. rewrite Z.land_lor_distr_l, Z.land_lnot_diag, Z.lor_0_r, land_not_mask by lia.
  apply Nat2Z.id.
Qed.

Lemma is_write n : Z.of_nat n < 2 ^ 63 -> Z.land (Z.lor (Z.of_nat n) WRITE_MASK) WRITE_MASK = WRITE_MASK.
Proof. intros Hn. rewrite Z.land_lor_distr_l, land_write_mask, Z.land_diag by lia. done. Qed.

(** *** The ring and the buffers *)

Section Invariant.
#[local] Set Default Proof Using "Type*".
Context {K : Type} `{!Ring K} {slab : Slab} (mtu : nat).

Record entry_ok (key : nat) (e : Entry) (b : bytes) : Prop := {
  eo_key : Z.of_nat key < 2 ^ 63;
  eo_data : user_data e = Z.of_nat key \/ user_data e = Z.lor (Z.of_nat key) WRITE_MASK;
  eo_buf : length b = mtu;
}.

(** Each buffer belongs to one operation that is pending, and each such operation to a buffer. *)
Record uring_inv (w : K * Bufs) : Prop := {
  ui_entry key e b : w.2 !! key = Some (e, b) -> entry_ok key e b;
  ui_pending u : u ∈ pending w.1 <-> exists key e b, w.2 !! key = Some (e, b) /\ user_data e = u;
}.

Lemma entry_key key e b : entry_ok key e b -> ud_key (user_data e) = key.
Proof. intros [Hk [-> | ->] _]; [by apply ud_key_read|by apply ud_key_write]. Qed.

Lemma uring_inv_insert k k' bufs key e b :
  uring_inv (k, bufs) -> bufs !! key = None -> entry_ok key e b -> pending k' = {[user_data e]} ∪ pending k ->
  uring_inv (k', <[key := (e, b)]> bufs).
Proof.
  intros [He Hp] Hnew Hok Hpend. split; cbn [fst snd] in *.
  - intros key' e' b' Hl. destruct (decide (key = key')) as [<-|Hne].
    + rewrite lookup_insert_eq in Hl. by injection Hl as <- <-.
    + rewrite lookup_insert_ne in Hl by done. by apply He.
  - intros u. rewrite Hpend, elem_of_union, elem_of_singleton, Hp. split.
    + intros [->|(key' & e' & b' & Hl & Hu)].
      * exists key, e, b. by rewrite lookup_insert_eq.
      * exists key', e', b'. rewrite lookup_insert_ne by congruence. done.
    + intros (key' & e' & b' & Hl & Hu). destruct (decide (key = key')) as [<-|Hne].
      * rewrite lookup_insert_eq in Hl. injection Hl as <- <-. by left.
      * rewrite lookup_insert_ne in Hl by done. right. by exists key', e', b'.
Qed.

Lemma uring_inv_delete k k' bufs key e b :
  uring_inv (k, bufs) -> bufs !! key = Some (e, b) -> pending k' = pending k ∖ {[user_data e]} ->
  uring_inv (k', delete key bufs).
Proof.
  intros [He Hp] Hl Hpend. split; cbn [fst snd] in *.
  - intros key' e' b' Hl'. apply lookup_delete_Some in Hl' as [_ Hl']. by apply He.
  - intros u. rewrite Hpend, elem_of_difference, elem_of_singleton, Hp. split.
    + intros [(key' & e' & b' & Hl' & Hu) Hne]. exists key', e', b'. split; [|done].
      apply lookup_delete_Some. split; [|done]. intros ->. rewrite Hl in Hl'. by injection Hl' as <- <-.
    + intros (key' & e' & b' & Hl' & Hu). apply lookup_delete_Some in Hl' as [Hne Hl'].
      split; [by exists key', e', b'|]. intros Heq. apply Hne.
      rewrite <- (entry_key _ _ _ (He _ _ _ Hl)), <- (entry_key _ _ _ (He _ _ _ Hl')). congruence.
Qed.

(** The buffer of a completion. *)
Lemma completed_buf k bufs c k' :
  uring_inv (k, bufs) -> completion k = (Some c, k') ->
  exists e b, bufs !! ud_key (cqe_user_data c) = Some (e, b) /\ user_data e = cqe_user_data c /\
    entry_ok (ud_key (cqe_user_data c)) e b /\ pending k' = pending k ∖ {[user_data e]}.
Proof.
  intros [He Hp] Hc. apply completion_some in Hc as [Hin Hrest]. cbn [fst snd] in *.
  apply Hp in Hin as (key & e & b & Hl & Hu). pose proof (He _ _ _ Hl) as Hok.
  rewrite <- Hu, (entry_key _ _ _ Hok). exists e, b. split_and!; try done. by rewrite Hu.
Qed.

(** The ring after a [submit] that failed on a full submission queue. *)
Definition submit_failed (k' : K) : Prop :=
  exists e k k1 r, submission_push e k = (false, k1) /\ submit k1 = (r, k') /\ r <> Ok tt.

Lemma iterate_panic {S E A B} fuel (step : A -> St S E (A + B)) a s s' :
  step a s = (Panic, s') -> iterate (Datatypes.S fuel) step a s = (Panic, s').
Proof. intros H. cbn [iterate]. by rewrite (st_step_panic _ _ _ _ H). Qed.

(** Pushing an entry panics only when [submit] fails. *)
Lemma push_entry_ok {E} e k bufs :
  let '(r, (k', bufs')) := push_entry (E:=E) e (k, bufs) in
  bufs' = bufs /\
  ((r = Ok tt /\ pending k' = {[user_data e]} ∪ pending k) \/ (r = Panic /\ submit_failed k')).
Proof.
  unfold push_entry. destruct (submission_push e k) as [[] k1] eqn:Hp1.
  - rewrite (st_step _ _ _ (Some tt) (k1, bufs)); [split; [done|left]; split; [done|by apply push_ok]|].
    apply iterate_inr. unfold on_ring, mbind, St_bind. by rewrite Hp1.
  - destruct (submit k1) as [r k2] eqn:Hk2. destruct r as [[]|err|].
    + pose proof (submit_room e k1 k2 Hk2) as Hroom.
      destruct (submission_push e k2) as [b k3] eqn:Hp2. cbn in Hroom. subst b.
      rewrite (st_step _ _ _ (Some tt) (k3, bufs)).
      * split; [done|]. left. split; [done|]. rewrite (push_ok _ _ _ Hp2).
        pose proof (submit_pending k1) as Hk. rewrite Hk2 in Hk. cbn in Hk. by rewrite Hk, (push_full _ _ _ Hp1).
      * rewrite (iterate_inl _ _ _ _ tt (k2, bufs)); [apply iterate_inr|].
        { unfold on_ring, mbind, St_bind. by rewrite Hp2. }
        unfold on_ring, expect, mbind, St_bind. rewrite Hp1. by rewrite Hk2.
    + rewrite (st_step_panic _ _ _ (k2, bufs)); [|apply iterate_panic; unfold on_ring, expect, mbind, St_bind; by rewrite Hp1, Hk2].
      split; [done|]. right. split; [done|]. by exists e, k, k1, (Err err).
    + rewrite (st_step_panic _ _ _ (k2, bufs)); [|apply iterate_panic; unfold on_ring, expect, mbind, St_bind; by rewrite Hp1, Hk2].
      split; [done|]. right. split; [done|]. by exists e, k, k1, Panic.
Qed.

(** Keys are [usize], and the upper bit is free. *)
Definition keys_fit (bufs : Bufs) : Prop := forall key, is_Some (bufs !! key) -> Z.of_nat key < 2 ^ 63.

(** Why sending panics: [submit] has failed, or one of the frames that wait in [s] is
    longer than the buffers. *)
Definition send_panics (s : PduStorage) (k' : K) : Prop :=
  submit_failed k' \/ Exists (fun b => (mtu < length b)%nat) (outgoing s).

(** The write of a frame. *)
Lemma uring_write_ok data k bufs key e :
  bufs !! key = Some (e, zeros mtu) ->
  let entry := mkEntry (length data) (Z.lor (Z.of_nat key) WRITE_MASK) in
  let '(r, (k', bufs')) := uring_write key data (k, bufs) in
  match r with
  | Ok n => n = length data /\ pending k' = {[user_data entry]} ∪ pending k /\
      exists b, bufs' = <[key := (entry, b)]> bufs /\ length b = mtu
  | Err _ => (mtu < length data)%nat
  | Panic => submit_failed k'
  end.
Proof.
  intros Hl entry. unfold uring_write. fold entry.
  rewrite (st_step _ _ _ (zeros mtu) (k, bufs)) by (rewrite Hl; done).
  destruct (get_range (zeros mtu) 0 (length data)) as [x|] eqn:Hrange.
  2: { apply get_range_None in Hrange. rewrite length_zeros in Hrange. unfold mbind, St_bind, lift. cbn. lia. }
  rewrite (st_step (lift _) _ _ x (k, bufs)) by done.
  set (b := splice (zeros mtu) 0 data).
  rewrite (st_step _ _ _ tt (k, <[key := (entry, b)]> bufs)) by done.
  pose proof (push_entry_ok (E:=Error) entry k (<[key := (entry, b)]> bufs)) as Hpush.
  destruct (push_entry entry _) as [r [k' bufs']] eqn:Hrun. destruct Hpush as [-> [[-> Hp]|[-> Hf]]].
  - rewrite (st_step _ _ _ _ _ Hrun). split_and!; [done|done|]. exists b. split; [done|].
    unfold b. rewrite length_splice; [by rewrite length_zeros|rewrite length_zeros].
    apply get_range_Some in Hrange as [Hle _]. rewrite length_zeros in Hle. lia.
  - by rewrite (st_step_panic _ _ _ _ Hrun).
Qed.

(** The read of the response, under a key that is free. *)
Lemma uring_read_ok k bufs :
  let rx := vacant_key bufs in
  let entry := mkEntry mtu (Z.of_nat rx) in
  let '(r, (k', bufs')) := uring_read mtu (k, bufs) in
  bufs' = <[rx := (entry, zeros mtu)]> bufs /\
  ((r = Ok tt /\ pending k' = {[user_data entry]} ∪ pending k) \/ (r = Panic /\ submit_failed k')).
Proof.
  intros rx entry. unfold uring_read.
  rewrite (st_step _ _ _ rx (k, <[rx := (mkEntry 0 0, zeros mtu)]> bufs)) by done. fold entry.
  rewrite (st_step _ _ _ tt (k, <[rx := (entry, zeros mtu)]> bufs)) by (unfold modify; by rewrite insert_insert_eq).
  apply (push_entry_ok (E:=IoError) entry k).
Qed.

(** A write and a read have been queued, each with a buffer of its own. *)
Lemma uring_inv_sent k k1 k2 bufs e b :
  let tx := vacant_key bufs in
  let bufs1 := <[tx := (e, b)]> bufs in
  let rx := vacant_key bufs1 in
  let entry := mkEntry mtu (Z.of_nat rx) in
  let bufs2 := <[rx := (entry, zeros mtu)]> bufs1 in
  uring_inv (k, bufs) -> user_data e = Z.lor (Z.of_nat tx) WRITE_MASK -> length b = mtu ->
  pending k1 = {[user_data e]} ∪ pending k -> pending k2 = {[user_data entry]} ∪ pending k1 ->
  keys_fit bufs2 -> uring_inv (k2, bufs2).
Proof.
  intros tx bufs1 rx entry bufs2 Hinv He Hb Hp1 Hp2 Hkeys. pose proof (vacant_key_fresh bufs1) as Hfresh. fold rx in Hfresh.
  apply (uring_inv_insert k1 k2); [|exact Hfresh| |exact Hp2].
  - apply (uring_inv_insert k k1); [done|apply vacant_key_fresh| |exact Hp1].
    split; [|by right|done]. apply Hkeys. unfold bufs2. rewrite lookup_insert_ne.
    + unfold bufs1. rewrite lookup_insert_eq. by eexists.
    + intros Heq. rewrite Heq in Hfresh. unfold bufs1 in Hfresh. by rewrite lookup_insert_eq in Hfresh.
  - split; [|by left|by rewrite length_zeros]. apply Hkeys. unfold bufs2. rewrite lookup_insert_eq. by eexists.
Qed.

(** The frame that is taken was waiting. *)
Lemma next_sendable_wire s i s1 f :
  next_sendable_frame (E:=IoError) s = (Ok (Some i), s1) -> frames s1 !! i = Some f -> wire f ∈ outgoing s.
Proof.
  intros Hnext Hf. destruct (exit_flag s) eqn:Hx; [by rewrite (next_sendable_exit s Hx) in Hnext|].
  pose proof (next_sendable_first (E:=IoError) s Hx) as H. rewrite Hnext in H.
  destruct (list_find _ _) as [[j g]|]; [|by destruct H]. destruct H as ([= <- ->] & Hg & _ & -> & _).
  rewrite with_frame_lookup in Hf by by eapply lookup_slot. injection Hf as <-. apply elem_of_cons. by left.
Qed.

Lemma uring_send_ok sent s k bufs :
  storage_wf s -> uring_inv (k, bufs) ->
  let '(r, (s', w')) := uring_send mtu sent (s, (k, bufs)) in
  match r with
  | Ok pc => pc <> U_Parked /\ storage_wf s' /\ (keys_fit w'.2 -> uring_inv w')
  | Err _ => True
  | Panic => send_panics s w'.1
  end.
Proof.
  intros Hs Hinv. unfold uring_send.
  destruct (next_sendable_ok (E:=IoError) s) as [(i & s1 & Hnext)|Hnext];
    rewrite (st_step _ _ _ _ _ (on_storage_step _ _ _ _ _ Hnext)); cbv beta iota.
  - set (tx := vacant_key bufs). set (bufs1 := <[tx := (mkEntry 0 0, zeros mtu)]> bufs).
    rewrite (st_step _ _ _ tx (s1, (k, bufs1))) by done.
    destruct (send_one i (uring_write tx) s s1 (k, bufs1) Hs Hnext) as (f & Hf & Hok & _ & Hrun).
    pose proof (uring_write_ok (wire f) k bufs1 tx (mkEntry 0 0) (lookup_insert_eq _ _ _)) as Hw. cbv zeta in Hw.
    destruct (uring_write tx (wire f) (k, bufs1)) as [r [k1 bufs1']] eqn:Hwrite. destruct r as [n|err|].
    + destruct Hw as (-> & Hp1 & b & -> & Hb). destruct (Hrun _ eq_refl) as (m & s2 & Hsend & Hwf & _).
      unfold bufs1 in Hsend. rewrite insert_insert_eq in Hsend. erewrite st_step; [|unfold bufs1; by rewrite Hsend].
      set (entry := mkEntry (length (wire f)) _) in *. set (bufs2 := <[tx := (entry, b)]> bufs) in *.
      pose proof (uring_read_ok k1 bufs2) as Hr. cbv zeta in Hr.
      destruct (uring_read mtu (k1, bufs2)) as [r [k2 bufs3]] eqn:Hread. destruct Hr as [-> [[-> Hp2]|[-> Hfail]]].
      * rewrite (st_step _ _ _ _ _ (on_interface_step _ _ _ _ _ Hread)). split_and!; [done|done|]. cbn [snd].
        by apply (uring_inv_sent k k1 k2 bufs).
      * rewrite (st_step_panic _ _ _ _ (on_interface_step _ _ _ _ _ Hread)). by left.
    + erewrite st_step_panic; [|by rewrite (send_blocking_on_ok _ _ _ _ _ _ _ Hf Hok Hwrite)].
      right. apply Exists_exists. exists (wire f). split; [by eapply next_sendable_wire|exact Hw].
    + erewrite st_step_panic; [|by rewrite (send_blocking_on_ok _ _ _ _ _ _ _ Hf Hok Hwrite)]. by left.
  - unfold mbind, St_bind. destruct (Nat.ltb 0 sent); [|by split_and!].
    unfold on_interface, on_ring, uring_wait. pose proof (wait_pending (sent * 2) k) as Hp.
    destruct (submit_and_wait (sent * 2) k) as [[e|u] k']; [done|]. split_and!; [done..|]. intros _.
    destruct Hinv as [He Hpend]. split; cbn in *; [done|]. by rewrite Hp.
Qed.

Lemma uring_completion_ok source_mac c s k k' bufs :
  storage_wf s -> uring_inv (k, bufs) -> completion k = (Some c, k') ->
  let '(r, (s', w')) := uring_completion source_mac c (s, (k', bufs)) in
  match r with
  | Ok _ => storage_wf s' /\ uring_inv w'
  | Err _ => True
  | Panic => submit_failed w'.1
  end.
Proof.
  intros Hs Hinv Hc. destruct (completed_buf _ _ _ _ Hinv Hc) as (e & b & Hl & Hu & Hok & Hp).
  set (key := ud_key (cqe_user_data c)) in *. unfold uring_completion.
  destruct ((cqe_result c <? 0) && _); [done|]. destruct (eo_data _ _ _ Hok) as [Hread|Hwrite].
  - rewrite <- Hu, Hread, land_write_mask, Nat2Z.id by (pose proof (eo_key _ _ _ Hok); lia).
    change (0 =? WRITE_MASK) with false. cbv beta iota. destruct (Z.eqb _ _).
    + rewrite (st_step _ _ _ e (s, (k', bufs))) by (unfold on_interface; by rewrite Hl).
      pose proof (push_entry_ok (E:=IoError) e k' bufs) as Hpe.
      destruct (push_entry e (k', bufs)) as [r [k2 bufs2]] eqn:Hpush. destruct Hpe as [-> [[-> Hp2]|[-> Hfail]]].
      2: { by rewrite (on_interface_step _ _ _ _ _ Hpush). }
      rewrite (on_interface_step _ _ _ _ _ Hpush). split; [done|]. destruct Hinv as [He Hpend]. split; [done|].
      intros u. cbn [fst snd] in *. rewrite Hp2, Hp, <- Hpend, elem_of_union, elem_of_difference, elem_of_singleton.
      destruct (decide (u = user_data e)) as [->|Hne]; [|tauto]. split; [|by left].
      intros _. apply Hpend. by exists key, e, b.
    + rewrite (st_step _ _ _ (e, b) (s, (k', delete key bufs))) by (unfold on_interface, remove_buf; by rewrite Hl).
      cbv beta iota. destruct (splice b 0 (cqe_data c) !! FIRST_PDU_INDEX) as [x|]; [|done].
      rewrite (st_step (lift _) _ _ x (s, (k', delete key bufs))) by done.
      pose proof (receive_one source_mac (splice b 0 (cqe_data c)) s Hs) as Hr. unfold mbind, St_bind, st_map_err, on_storage.
      pose proof (uring_inv_delete _ _ _ _ _ _ Hinv Hl Hp) as Hinv'.
      destruct (receive_frame source_mac _ s) as [[[]|err|] s']; [by subst s'| |done|done].
      destruct Hr as (Hwf & _ & Hdl). by split.
  - rewrite <- Hu, Hwrite, is_write, Z.eqb_refl by apply Hok.
    assert (Z.to_nat (Z.land (Z.lor (Z.of_nat key) WRITE_MASK) (Z.lnot WRITE_MASK)) = key) as ->.
    { apply ud_key_write, Hok. }
    rewrite (st_step _ _ _ (e, b) (s, (k', delete key bufs))) by (unfold on_interface, remove_buf; by rewrite Hl).
    split; [done|]. by apply (uring_inv_delete k k' bufs key e b).
Qed.

Lemma uring_complete_ok source_mac s k bufs :
  storage_wf s -> uring_inv (k, bufs) ->
  let '(r, (s', w')) := uring_complete source_mac (s, (k, bufs)) in
  match r with
  | Ok pc => storage_wf s' /\ uring_inv w' /\ (pc = U_Parked -> w'.2 = ∅)
  | Err _ => True
  | Panic => submit_failed w'.1
  end.
Proof.
  intros Hs Hinv. unfold uring_complete. destruct (completion k) as [c k'] eqn:Hc.
  rewrite (st_step _ _ _ c (s, (k', bufs))) by (unfold on_interface, on_ring; by rewrite Hc).
  destruct c as [c|].
  - pose proof (uring_completion_ok source_mac c s k k' bufs Hs Hinv Hc) as H. unfold mbind, St_bind.
    destruct (uring_completion _ _ _) as [[u|e|] [s' w']]; [|done..]. by destruct H.
  - rewrite (st_step _ _ _ bufs (s, (k', bufs))) by done. cbn. split_and!; [done| |by case_decide].
    apply completion_none in Hc. destruct Hinv as [He Hp]. split; cbn in *; [done|]. by rewrite Hc.
Qed.

End Invariant.

(** *** Runs *)

Section Run.
#[local] Set Default Proof Using "Type*".
Context {K : Type} `{!Ring K} {slab : Slab} (interface_mtu : nat) (source_mac : bytes).

(** Runs with the other tasks, for as long as the keys are below the upper bit. *)
Inductive uring_run (w0 : PduStorage * (K * Bufs)) : UringPc -> PduStorage * (K * Bufs) -> Prop :=
| uring_start : uring_run w0 U_Begin w0
| uring_task pc w pc' w' :
    uring_run w0 pc w -> uring_step interface_mtu source_mac pc w = (Ok (inl pc'), w') -> keys_fit w'.2.2 ->
    uring_run w0 pc' w'
| uring_others pc s w s' : uring_run w0 pc (s, w) -> others s s' -> uring_run w0 pc (s', w).

Definition uring_state_ok (pc : UringPc) (s : PduStorage) (w : K * Bufs) : Prop :=
  storage_wf s /\ uring_inv (interface_mtu + 18) w /\ (pc = U_Parked -> w.2 = ∅).

Lemma uring_step_ok pc s w :
  uring_state_ok pc s w ->
  let '(r, (s', w')) := uring_step interface_mtu source_mac pc (s, w) in
  match r with
  | Ok (inl pc') => keys_fit w'.2 -> uring_state_ok pc' s' w'
  | Ok (inr _) => pc = U_Parked
  | Err _ => True
  | Panic => send_panics (interface_mtu + 18) s w'.1
  end.
Proof.
  destruct w as [k bufs]. intros (Hs & Hinv & Hpark). destruct pc as [|sent| |]; cbn [uring_step].
  - intros _. split_and!; [destruct Hs; by constructor|done|done].
  - pose proof (uring_send_ok (interface_mtu + 18) sent s k bufs Hs Hinv) as H. unfold mbind, St_bind.
    destruct (uring_send _ _ _) as [[pc|e|] [s' w']]; [|done..]. destruct H as (H1 & H2 & H3). intros Hk.
    split_and!; [done|by apply H3|by intros ->].
  - pose proof (uring_complete_ok (interface_mtu + 18) source_mac s k bufs Hs Hinv) as H. unfold mbind, St_bind.
    destruct (uring_complete _ _) as [[pc|e|] [s' w']]; [|done|by left]. intros _. by destruct H as (H1 & H2 & H3).
  - rewrite (st_step _ _ _ (exit_flag s) (s, (k, bufs))) by done. by destruct (exit_flag s).
Qed.

Lemma uring_run_ok s0 k0 :
  storage_wf s0 -> pending k0 = ∅ ->
  forall pc w, uring_run (s0, (k0, ∅)) pc w -> uring_state_ok pc w.1 w.2.
Proof.
  intros Hs Hp pc w. induction 1 as [|pc [s w] pc' [s' w'] _ IH Hstep Hk|pc s w s' _ IH Ho].
  - split_and!; [done| |done]. split; cbn [fst snd].
    + intros key e b Hl. by rewrite lookup_empty in Hl.
    + intros u. rewrite Hp. split; [by intros ?%elem_of_empty|]. intros (key & e & b & Hl & _). by rewrite lookup_empty in Hl.
  - pose proof (uring_step_ok pc s w IH) as H. rewrite Hstep in H. by apply H.
  - destruct IH as [_ IH]. by destruct Ho as [Hwf _].
Qed.

End Run.

(** ** Properties *)

(** C14: in every run of the io_uring task, for as long as the keys of its buffers are
    below the upper bit of the user data, each buffer belongs to exactly one operation
    the kernel has not completed, so that every completion finds its buffer.  A step
    panics only where the code expects something that failed: [submit] on a full
    submission queue, or the copy of a waiting frame that is longer than a buffer,
    which has the MTU and 18 bytes.  The thread parks, and looks at the exit flag,
    only when every write and every read that was queued has completed. *)
Theorem uring_buffers {K} `{!Ring K} {slab : Slab} interface_mtu source_mac s0 (k0 : K) pc s w :
  storage_wf s0 -> pending k0 = ∅ ->
  uring_run interface_mtu source_mac (s0, (k0, ∅)) pc (s, w) ->
  (forall s' w', uring_step interface_mtu source_mac pc (s, w) = (Panic, (s', w')) ->
    submit_failed w'.1 \/ Exists (fun b => (interface_mtu + 18 < length b)%nat) (outgoing s)) /\
  (forall u, u ∈ pending w.1 <-> exists key e b, w.2 !! key = Some (e, b) /\ user_data e = u) /\
  (forall key e b, w.2 !! key = Some (e, b) -> ud_key (user_data e) = key) /\
  (pc = U_Parked -> w.2 = ∅ /\ pending w.1 = ∅) /\
  (forall w', uring_step interface_mtu source_mac pc (s, w) = (Ok (inr tt), w') -> pc = U_Parked).
Proof.
  intros Hs Hp Hrun.
  destruct (uring_run_ok interface_mtu source_mac s0 k0 Hs Hp pc _ Hrun) as (Hsf & Hinv & Hpark).
  cbn [fst snd] in *. pose proof (uring_step_ok interface_mtu source_mac pc s w ltac:(by split)) as Hstep.
  destruct (uring_step _ _ _ _) as [r [s' w']]. split_and!.
  - intros s2 w2 [= -> -> ->]. exact Hstep.
  - apply Hinv.
  - intros key e b Hl. by apply (entry_key (interface_mtu + 18) key e b), Hinv.
  - intros Hpc. specialize (Hpark Hpc). split; [done|]. apply set_eq. intros u. rewrite (ui_pending _ _ Hinv), Hpark.
    split; [|by intros ?%elem_of_empty]. intros (key & e & b & Hl & _). by rewrite lookup_empty in Hl.
  - intros w2 [= -> _]. exact Hstep.
Qed.

(** *** Witness *)

(** A slab that takes any free key, and a kernel that completes what is pending. *)
#[program] Definition fresh_slab : Slab := {| vacant_key bufs := fresh (dom bufs) |}.
Next Obligation. intros bufs. apply not_elem_of_dom, is_fresh. Qed.

Definition eager_completion (k : gset Z) : option Cqe * gset Z :=
  match elements k with
  | [] => (None, k)
  | u :: _ => (Some (mkCqe 0 u []), k ∖ {[u]})
  end.

#[program] Definition eager_ring : Ring (gset Z) := {|
  submission_push e k := (true, {[user_data e]} ∪ k);
  submit k := (Ok tt, k);
  submit_and_wait _ k := (inr tt, k);
  completion := eager_completion;
  last_os_error _ := 0;
  pending k := k;
|}.
Next Obligation. by intros e k k' [= <-]. Qed.
Next Obligation. done. Qed.
Next Obligation. done. Qed.
Next Obligation. done. Qed.
Next Obligation. done. Qed.
Next Obligation. intros k k'. unfold eager_completion. destruct (elements k); [by intros [= <-]|done]. Qed.
Next Obligation.
  intros k c k'. unfold eager_completion. destruct (elements k) as [|u l] eqn:He; [done|]. intros [= <- <-]. cbn. split; [|done].
  apply elem_of_elements. rewrite He. apply elem_of_cons. by left.
Qed.

(** A frame is sent through it, and each of the two keys comes back to its buffer. *)
Lemma uring_buffers_witness :
  let s := with_tx_woken false (storage_in FS_Sendable [1; 2]) in
  let '(r, (s', w')) := uring_step (Ring0 := eager_ring) (slab := fresh_slab) 14 MAINDEVICE_ADDR (U_Send 0) (s, (∅, ∅)) in
  r = Ok (inl (U_Send 1)) /\ size w'.2 = 2%nat /\
  (forall u, u ∈ w'.1 <-> exists key e b, w'.2 !! key = Some (e, b) /\ user_data e = u).
Proof.
  cbv zeta. destruct (uring_step _ _ _ _) as [r [s' w']] eqn:Hstep.
  assert (r = Ok (inl (U_Send 1)) /\ size w'.2 = 2%nat /\ keys_fit w'.2) as (-> & Hsize & Hkeys).
  { pose proof (f_equal fst Hstep) as Hr. cbv beta in Hr. cbn [fst] in Hr. rewrite <- Hr. clear Hr. pose proof (f_equal (fun x => x.2.2.2) Hstep) as Hb. cbv beta in Hb.
    cbn [snd] in Hb. rewrite <- Hb. split_and!; [vm_compute; reflexivity..|].
    assert (map_Forall (fun key (_ : Entry * bytes) => Z.of_nat key < 2 ^ 63) w'.2) as Hk.
    { rewrite <- Hb. apply (bool_decide_unpack _). vm_compute. exact I. }
    rewrite Hb. intros key [x Hx]. exact (Hk key x Hx). }
  split_and!; [done|done|].
  refine (proj1 (proj2 (uring_buffers (Ring0 := eager_ring) (slab := fresh_slab) 14 MAINDEVICE_ADDR
    (storage_in FS_Sendable [1; 2]) ∅ (U_Send 1) s' w' _ eq_refl _))).
  - apply storage_in_wf. apply Nat.leb_le. reflexivity.
  - eapply uring_task; [|exact Hstep|exact Hkeys].
    eapply uring_task; [apply uring_start|reflexivity|]. intros key [e He].
    change ((∅ : Bufs) !! key = Some e) in He. by rewrite lookup_empty in He.
Defined.
