(* ===== verification/Bpf.v ===== *)
(** * Packets from a BPF device

    [std/unix/bpf.rs]: one [read] of the device can return several packets, each with
    a header and padded to the alignment of the headers.  [BpfDevice] returns the
    first without its header and keeps the others for the next calls.  The layout of
    [bpf_hdr] and [libc::read] are third-party and classes. *)
From S2P Require Import Prelude Wire Errors Tasks.

(** ** Definitions *)

(** [bpf_hdr]: [mem::align_of] and the fields that are read; the size the sources give
    for the target ([SIZEOF_BPF_HDR]). *)
Class BpfHdr := {
  SIZEOF_BPF_HDR : nat;
  align_of_bpf_hdr : nat;
  bh_caplen : bytes -> Z;
  bh_datalen : bytes -> Z;
  align_pos : (0 < align_of_bpf_hdr)%nat;
}.

(** [libc::read] on the file descriptor: the result, and the buffer after it. *)
Class BpfFd (K : Type) := {
  libc_read : bytes -> K -> Z * bytes * K;
  bpf_last_os_error : K -> Z;
}.

Section Device.
Context {hdr : BpfHdr} {K : Type} `{!BpfFd K} {P : Profile}.

(** [((SIZEOF_BPF_HDR + ETHERNET_HEADER_LEN) + 3 & !3) - ETHERNET_HEADER_LEN] *)
Definition BPF_HDRLEN : nat := (SIZEOF_BPF_HDR + 14 + 3) / 4 * 4 - 14.

(** [next_multiple_of] on [usize] and on [u32]. *)
Definition next_multiple_of (n m : nat) : nat :=
  if Nat.eqb (n mod m) 0 then n else n + (m - n mod m).
Definition next_multiple_of_u32 {E} (n m : Z) : res E Z :=
  if Z.eqb (n mod m) 0 then Ok n else uadd 32 n (m - n mod m).

(** The frames kept from an earlier read, or a read: how many bytes, and the buffer. *)
Definition bpf_fill (buffer : bytes) : St (bytes * K) IoError (nat * bytes) := fun '(buf, k) =>
  if negb (Nat.eqb (length buf) 0) then
    let len := Nat.min (length buf) (length buffer) in
    if overflow_checks && Nat.ltb len BPF_HDRLEN then (Panic, (buf, k)) else
    (Ok (len, splice buffer 0 (take len buf)), (drop len buf, k))
  else
    let '(len, buffer, k) := libc_read buffer k in
    if (len =? -1) || (len <? Z.of_nat BPF_HDRLEN) then (Err (Io_Os (bpf_last_os_error k)), (buf, k))
    else (Ok (Z.to_nat len, buffer), (buf, k)).

(** The length of the first frame. *)
Definition bpf_frame_len (buffer : bytes) : res IoError nat :=
  bpf_header ← unwrap (get_range buffer 0 BPF_HDRLEN);
  if overflow_checks && negb (Z.eqb (bh_caplen bpf_header) (bh_datalen bpf_header)) then Panic
  else Ok (Z.to_nat (bh_datalen bpf_header)).

(** What follows the first frame is kept. *)
Definition bpf_keep (buffer : bytes) (len frame_len : nat) : St (bytes * K) IoError unit :=
  remaining ← lift (usub 32 (wrap 32 (Z.of_nat len)) (wrap 32 (Z.of_nat BPF_HDRLEN)));
  remaining ← lift (usub 32 remaining (wrap 32 (Z.of_nat frame_len)));
  remaining ← lift (next_multiple_of_u32 remaining (Z.of_nat align_of_bpf_hdr));
  if 0 <? remaining then
    let start := next_multiple_of (BPF_HDRLEN + frame_len) align_of_bpf_hdr in
    rest ← lift (unwrap (get_range buffer start len));
    modify (fun '(_, k) => (rest, k))
  else mret tt.

(** [memmove]: the frame moves to the front of the buffer.  It is not checked, and an
    access outside the buffer is undefined behaviour, here [Panic]. *)
Definition bpf_strip (buffer : bytes) (frame_len : nat) : res IoError bytes :=
  frame ← unwrap (get_range buffer BPF_HDRLEN (BPF_HDRLEN + frame_len));
  if Nat.ltb BPF_HDRLEN (length buffer) then Ok (splice buffer 0 frame) else Panic.

(** [Read::read]: the number of bytes, and the buffer. *)
Definition bpf_read (buffer : bytes) : St (bytes * K) IoError (nat * bytes) :=
  '(len, buffer) ← bpf_fill buffer;
  frame_len ← lift (bpf_frame_len buffer);
  _ ← bpf_keep buffer len frame_len;
  buffer ← lift (bpf_strip buffer frame_len);
  mret (frame_len, buffer).

(** What [n] reads into buffers of [size] bytes give. *)
Fixpoint bpf_reads (size n : nat) : St (bytes * K) IoError (list bytes) :=
  match n with
  | O => mret []
  | S n =>
      '(len, buffer) ← bpf_read (zeros size);
      frames ← bpf_reads size n;
      mret (take len buffer :: frames)
  end.

(** ** What the device returns *)

(** A header the kernel writes for a frame. *)
Record header_of (h frame : bytes) : Prop := {
  hd_length : length h = BPF_HDRLEN;
  hd_caplen : bh_caplen h = Z.of_nat (length frame);
  hd_datalen : bh_datalen h = Z.of_nat (length frame);
}.

(** The bytes between the end of a packet and the next header. *)
Definition padding (n : nat) : nat := next_multiple_of n align_of_bpf_hdr - n.

(** Packets one behind the other; only the last is not padded. *)
Inductive captured : list bytes -> bytes -> Prop :=
| captured_one h f : header_of h f -> f <> [] -> captured [f] (h ++ f)
| captured_more h f pad fs rest :
    header_of h f -> f <> [] -> length pad = padding (length h + length f) -> captured fs rest ->
    captured (f :: fs) (h ++ f ++ pad ++ rest).

(** ** Lemmas *)

Lemma next_multiple_ge n m : (0 < m)%nat -> (n <= next_multiple_of n m)%nat.
Proof. intros Hm. unfold next_multiple_of. destruct (Nat.eqb _ _); lia. Qed.

Lemma captured_length fs b : captured fs b -> (BPF_HDRLEN < length b)%nat.
Proof.
  intros [h f [Hh _ _] Hf|h f pad fs' rest [Hh _ _] Hf _ _]; rewrite !length_app, Hh;
    destruct f; try done; cbn [length]; lia.
Qed.

Lemma captured_frame_len f fs b t :
  captured (f :: fs) b -> bpf_frame_len (b ++ t) = Ok (length f).
Proof.
  intros Hc. assert (exists h rest, b = h ++ f ++ rest /\ header_of h f) as (h & rest & -> & [Hl Hcap Hdat]).
  { inversion Hc; subst; [eexists _, []; rewrite app_nil_r; eauto|eauto]. }
  unfold bpf_frame_len. rewrite get_range_0 by (rewrite !length_app; lia).
  rewrite <- Hl, <- !app_assoc, take_app_length. cbn [unwrap]. msimpl.
  rewrite Hcap, Hdat, Z.eqb_refl, andb_false_r, Nat2Z.id. done.
Qed.

(** What is kept are the packets behind the first. *)
Lemma bpf_keep_ok f fs b t buf k :
  captured (f :: fs) b -> Z.of_nat (length b + align_of_bpf_hdr) < 2 ^ 32 ->
  exists rest, bpf_keep (b ++ t) (length b) (length f) (buf, k) = (Ok tt, (rest, k)) /\
    match fs with [] => rest = buf | _ => captured fs rest /\ (length rest <= length b)%nat end.
Proof.
  intros Hc Hlen. pose proof align_pos as Ha. assert (0 < Z.of_nat align_of_bpf_hdr) as Hz by lia. unfold bpf_keep.
  assert (exists r, b = r /\ Z.of_nat BPF_HDRLEN + Z.of_nat (length f) <= Z.of_nat (length b)) as (_ & _ & Hle).
  { exists b. split; [done|]. inversion Hc as [h f' [Hh _ _]|h f' pad fs' rest [Hh _ _]]; subst; rewrite !length_app; lia. }
  unfold usub. rewrite !wrap_small by (split; lia).
  rewrite (st_step (lift _) _ _ (Z.of_nat (length b) - Z.of_nat BPF_HDRLEN) (buf, k))
    by (unfold lift; rewrite checked_ok; [done|split; lia]).
  rewrite (st_step (lift _) _ _ (Z.of_nat (length b) - Z.of_nat BPF_HDRLEN - Z.of_nat (length f)) (buf, k))
    by (unfold lift; rewrite checked_ok; [done|split; lia]).
  inversion Hc as [h f' [Hh _ _] Hf|h f' pad fs' rest [Hh _ _] Hf Hpad Hrest]; subst.
  - exists buf. split; [|done]. rewrite length_app, Hh.
    replace (_ - _ - _) with 0 by lia. unfold next_multiple_of_u32. rewrite Zmod_0_l. done.
  - set (b := h ++ f ++ pad ++ rest) in *. pose proof (captured_length _ _ Hrest) as Hr.
    assert (length b = BPF_HDRLEN + length f + length pad + length rest)%nat as Hb.
    { unfold b. rewrite !length_app, Hh. lia. }
    set (r := Z.of_nat (length b) - _ - _) in *.
    assert (exists m, next_multiple_of_u32 (E:=IoError) r (Z.of_nat align_of_bpf_hdr) = Ok m /\ 0 < m) as (m & Hm & Hpos).
    { pose proof (Z.mod_pos_bound r (Z.of_nat align_of_bpf_hdr) Hz). unfold next_multiple_of_u32.
      destruct (Z.eqb_spec (r mod Z.of_nat align_of_bpf_hdr) 0); [exists r; split; [done|lia]|].
      eexists. split; [apply checked_ok; split; lia|lia]. }
    rewrite (st_step (lift _) _ _ m (buf, k)) by (unfold lift; by rewrite Hm).
    rewrite (proj2 (Z.ltb_lt 0 m)) by done.
    assert (next_multiple_of (BPF_HDRLEN + length f) align_of_bpf_hdr = BPF_HDRLEN + length f + length pad)%nat as ->.
    { rewrite Hpad, Hh. unfold padding. pose proof (next_multiple_ge (BPF_HDRLEN + length f) _ Ha). lia. }
    rewrite (st_step (lift _) _ _ rest (buf, k)).
    2: { unfold lift. rewrite (proj2 (get_range_Some (b ++ t) (BPF_HDRLEN + length f + length pad) (length b) rest)); [done|].
      split; [rewrite length_app; lia|].
      assert (b ++ t = (h ++ f ++ pad) ++ rest ++ t) as -> by (unfold b; by rewrite <- !app_assoc).
      rewrite drop_app_length' by (rewrite !length_app, Hh; lia).
      replace (length b - _)%nat with (length rest) by lia. by rewrite take_app_length. }
    exists rest. split; [done|]. destruct fs as [|g gs]; [inversion Hrest|]. split; [done|lia].
Qed.

(** The frame at the front of the buffer. *)
Lemma bpf_strip_ok f fs b t :
  captured (f :: fs) b -> exists u, bpf_strip (b ++ t) (length f) = Ok (f ++ u).
Proof.
  intros Hc. pose proof (captured_length _ _ Hc) as Hl.
  assert (exists h rest, b = h ++ f ++ rest /\ length h = BPF_HDRLEN) as (h & rest & -> & Hh).
  { inversion Hc as [h f' [Hh _ _]|h f' pad fs' rest [Hh _ _]]; subst; [exists h, []; by rewrite app_nil_r|eauto]. }
  unfold bpf_strip. rewrite (proj2 (get_range_Some _ BPF_HDRLEN (BPF_HDRLEN + length f) f)).
  2: { split; [rewrite !length_app; lia|]. rewrite <- !app_assoc, drop_app_length' by done.
    replace (BPF_HDRLEN + length f - BPF_HDRLEN)%nat with (length f) by lia. by rewrite take_app_length. }
  cbn [unwrap]. msimpl. rewrite (proj2 (Nat.ltb_lt _ _)) by (rewrite length_app; lia).
  eexists. unfold splice. rewrite take_0. done.
Qed.

(** Packets that are already there, and packets that the device returns. *)
Lemma bpf_fill_kept fs b size k :
  captured fs b -> (length b <= size)%nat ->
  exists t, bpf_fill (zeros size) (b, k) = (Ok (length b, b ++ t), ([], k)).
Proof.
  intros Hc Hsize. pose proof (captured_length _ _ Hc) as Hl. exists (drop (length b) (zeros size)).
  unfold bpf_fill. rewrite (proj2 (Nat.eqb_neq (length b) 0)) by lia. cbn [negb].
  rewrite length_zeros, Nat.min_l by done. rewrite (proj2 (Nat.ltb_ge _ _)), andb_false_r by lia.
  rewrite firstn_all, drop_all. unfold splice. by rewrite take_0.
Qed.

Lemma bpf_fill_device fs b t size k k' :
  captured fs b -> libc_read (zeros size) k = (Z.of_nat (length b), b ++ t, k') ->
  bpf_fill (zeros size) ([], k) = (Ok (length b, b ++ t), ([], k')).
Proof.
  intros Hc Hread. unfold bpf_fill. cbn [length Nat.eqb negb]. rewrite Hread.
  pose proof (captured_length _ _ Hc). rewrite (proj2 (Z.eqb_neq _ _)), (proj2 (Z.ltb_ge _ _)) by lia.
  cbn [orb]. by rewrite Nat2Z.id.
Qed.

(** One read. *)
Lemma bpf_read_ok f fs b t size w k :
  captured (f :: fs) b -> Z.of_nat (length b + align_of_bpf_hdr) < 2 ^ 32 ->
  bpf_fill (zeros size) w = (Ok (length b, b ++ t), ([], k)) ->
  exists u rest, bpf_read (zeros size) w = (Ok (length f, f ++ u), (rest, k)) /\
    match fs with [] => rest = [] | _ => captured fs rest /\ (length rest <= length b)%nat end.
Proof.
  intros Hc Hlen Hfill. unfold bpf_read. rewrite (st_step _ _ _ _ _ Hfill). cbv beta iota.
  rewrite (st_step (lift _) _ _ (length f) ([], k)) by (unfold lift; by rewrite (captured_frame_len f fs)).
  destruct (bpf_keep_ok f fs b t [] k Hc Hlen) as (rest & Hkeep & Hrest). rewrite (st_step _ _ _ _ _ Hkeep).
  destruct (bpf_strip_ok f fs b t Hc) as [u Hu].
  rewrite (st_step (lift _) _ _ (f ++ u) (rest, k)) by (unfold lift; by rewrite Hu). by exists u, rest.
Qed.

Lemma bpf_reads_ok fs : forall b t size w k,
  captured fs b -> (length b <= size)%nat -> Z.of_nat (length b + align_of_bpf_hdr) < 2 ^ 32 ->
  bpf_fill (zeros size) w = (Ok (length b, b ++ t), ([], k)) ->
  bpf_reads size (length fs) w = (Ok fs, ([], k)).
Proof.
  induction fs as [|f fs IH]; intros b t size w k Hc Hsize Hlen Hfill; [inversion Hc|]. cbn [length bpf_reads].
  destruct (bpf_read_ok f fs b t size w k Hc Hlen Hfill) as (u & rest & Hrun & Hrest).
  rewrite (st_step _ _ _ _ _ Hrun). cbv beta iota. rewrite take_app_length. destruct fs as [|g gs]; [by subst rest|].
  destruct Hrest as [Hc' Hl']. destruct (bpf_fill_kept (g :: gs) rest size k Hc' ltac:(lia)) as [t' Hfill'].
  rewrite (st_step _ _ _ (g :: gs) ([], k)); [done|]. apply (IH rest t'); [done|lia|lia|done].
Qed.

End Device.

(** ** Properties *)

(** C16: when the device returns several packets at once, the next reads return their
    frames one by one, in order, whole and without the headers and the padding, and
    nothing is left over: no response that has been captured is missed. *)
Theorem bpf_reads_frames {hdr : BpfHdr} {K} `{!BpfFd K} {P : Profile} fs b t size (k k' : K) :
  captured fs b -> (length b <= size)%nat -> Z.of_nat (size + align_of_bpf_hdr) < 2 ^ 32 ->
  libc_read (zeros size) k = (Z.of_nat (length b), b ++ t, k') ->
  bpf_reads size (length fs) ([], k) = (Ok fs, ([], k')).
Proof.
  intros Hc Hsize Hlen Hread. apply (bpf_reads_ok fs b t); [done|done|lia|]. by apply (bpf_fill_device fs b t).
Qed.

(** *** Witness *)

(** The layout of macOS: a time of eight bytes and the two lengths, aligned to four. *)
#[local, program] Instance macos_hdr : BpfHdr := {|
  SIZEOF_BPF_HDR := 18;
  align_of_bpf_hdr := 4;
  bh_caplen b := le_val (take 4 (drop 8 b));
  bh_datalen b := le_val (take 4 (drop 12 b));
|}.
Next Obligation. lia. Qed.

(** A device that returns the same packets at every read. *)
#[local] Instance fixed_fd : BpfFd bytes := {|
  libc_read buffer k := (Z.of_nat (length k), k ++ drop (length k) buffer, k);
  bpf_last_os_error _ := 5;
|}.

Definition macos_header (n : Z) : bytes := zeros 8 ++ le_bytes 4 n ++ le_bytes 4 n ++ le_bytes 2 18.

Definition two_packets : bytes := macos_header 3 ++ [1; 2; 3] ++ zeros 3 ++ macos_header 2 ++ [4; 5].

Lemma bpf_reads_frames_witness :
  bpf_reads (P := true) 64 2 ([], two_packets) = (Ok [[1; 2; 3]; [4; 5]], ([], two_packets)).
Proof.
  apply (bpf_reads_frames (P := true) [[1; 2; 3]; [4; 5]] two_packets (drop 44 (zeros 64)));
    [|apply Nat.leb_le; reflexivity|reflexivity|reflexivity].
  apply captured_more; [split; reflexivity|done|reflexivity|]. apply captured_one; [split; reflexivity|done].
Defined.
